(* ===== verification/_CoqProject ===== *)
-Q . S2P
Prelude.v
State.v
Machine.v
Walk.v
Serial.v
Space.v
Pmm.v
Paging.v
PagingOps.v
CloneSpace.v
BootMem.v
Tasks.v
Demo.v
UserBuf.v
Ipc.v
IpcProps.v
Vm.v
VmSpec.v
VmProps.v
MemProps.v
FreeRange.v
Lifecycle.v
Irq.v
Elf.v
Syscall.v
Sched.v
Boot.v
Quiet.v
Wf.v
WfCheck.v
Invariant.v
Futex.v
SchedSpec.v
LifeProps.v
SchedProps.v
Handshake.v
IrqProps.v
Sectors.v
Fat.v
FatServer.v
FatTable.v
FatDir.v
FatRead.v
FatWrite.v
RamDisk.v
FatRewrite.v
FatDelete.v
FatProps.v
Process.v
Command.v
Drivers.v
Shell.v
UserProps.v
Console.v
