(* ===== verification/Prelude.v ===== *)
(** * mukrn: a verification development of the μkrn x86-64 microkernel

    ** The program

    [kernel/] is the kernel: a physical page allocator, page tables, a task table
    with message queues, processes loaded from ELF images, a round-robin
    scheduler driven by the timer, interrupts, and the system calls.
    [user/init.c] is the first process.  [_sdk/] holds user programs: a FAT32
    file server, drivers for disk, serial port and keyboard, a command
    interpreter and two shells.  They interact by messages ([sys_send],
    [sys_recv]); the kernel puts key codes into the queue of the keyboard driver.

    ** The kernel

    The state [kstate] of [State.v] is the machine: physical memory in words of 8
    bytes, [cr3], the C objects (the task table as a list of records, the free
    stack of the page allocator, the futex waiters, the ticks), the I/O history
    and the interrupts to come.  [Machine.v] has the error monad [M] with loads
    and stores that walk the page tables in that same memory, port accesses, and
    the class [Platform] of what the sources leave open: the values ports return,
    the end of the kernel image, the addresses of the stubs.

    - [Serial.v]: [serial.c].  [Pmm.v]: [pmm.c].
    - [Walk.v], [Space.v]: page-table walks, the window of memory in which the
      kernel keeps tables and free pages, and what a store leaves alone.
      [Paging.v], [PagingOps.v], [CloneSpace.v]: [paging.c] and [read_pte];
      [BootMem.v]: the tables of the boot loader.
    - [Tasks.v]: the first part of [task.c] (table, [sys_send], [sys_recv]);
      [UserBuf.v], [Ipc.v]: lemmas.  [Vm.v]: [sys_mmap] and the other memory
      calls; [Lifecycle.v]: exit, wait, kill, clone, futexes; [Elf.v]:
      [task_create] and [create_elf]; [Syscall.v]: [syscall.c].
    - [Irq.v]: interrupt controller, timer, keyboard.  [Sched.v]: [isr_handler],
      [schedule] and what they call.  [Boot.v]: [idt_init], [gdt_setup_tss],
      [kmain].
    - [Demo.v]: concrete machines for the witnesses.

    Theorems.  [reachable_wf]: an invariant of the task layer holds in every
    state of an undisturbed run from [kmain] by steps of user code, interrupts,
    traps and system calls ([Quiet.v], [Wf.v], [WfCheck.v], [Invariant.v]).
    Undisturbed: no store of user code or through a pointer given to the kernel
    reaches the kernel image, and interrupts arrive in user code or in [hlt].
    [MemProps.v], [VmSpec.v], [VmProps.v]: the allocator after [pmm_init]; what
    [map_page], [unmap_page], [map_page_flags], [sys_mmap] and [sys_brk] do to
    the translation of every address; the address space of a new process does
    not let user code at kernel memory.  [FreeRange.v]: [free_user_range] ties
    the free stack into a cycle.  [IpcProps.v]: the ring of a task is a bounded
    FIFO.  [Futex.v], [LifeProps.v]: clone and futexes.  [SchedSpec.v],
    [SchedProps.v]: context switches, and that a READY task runs after at most
    as many timer interrupts as there are other tasks.  [Handshake.v]: a message
    sent by one process and received by another in its own address space, and a
    wait ended by an exit, with any number of timer interrupts in between.
    [IrqProps.v]: console, keyboard, timer, gates, and a key press that arrives
    inside [sys_send] ([nested_key_press]).

    ** The user programs

    A program is a function in the monad [U] of [Sectors.v] over its own state.

    - [Sectors.v]: the monad, byte buffers, and the disk as the class [BlockDev]
      with the laws [BlockLaws]: the calls that read and write sectors belong to
      an earlier kernel that is not in the repository.
    - [Fat.v], [FatServer.v]: [fat32.c].  [FatTable.v], [FatDir.v], [FatRead.v],
      [FatWrite.v], [FatRewrite.v], [FatDelete.v]: the allocation table as a function, a
      directory as the list of its live entries, a file as the bytes of its
      chain.  [FatProps.v]: the operations refine these; reading a file sends its
      contents; a new file reads back as it was written; deleting removes one
      entry and frees its clusters; the errors found.
      [RamDisk.v]: a disk in memory and a small volume for the witnesses.
    - [Process.v]: messages and ports of a program.  [Command.v]: [command.c];
      [Drivers.v]: [disk.c], [serial.c], [keyboard_driver.c]; [Shell.v]:
      [user_backup/shell.c].  [UserProps.v]: the interpreter and the FAT32 server
      together show the file the user asked for; each command is answered by one
      end of reply, with two exceptions; the disk server's registers and replies.
    - [Console.v]: [examples/shell.c] and [init.c], over system calls whose
      results are a parameter.

    ** Bounds

    Loops with a counter in the code have it in the model.  The others have
    fuel, and a theorem that the code returns says how much is enough.
    [poll_fuel] bounds the polling of the serial port ([UartLive]: the device
    answers within it); [phdr_fuel] is 65536, more than the 16-bit number of
    program headers; [step_fuel] is the exact number of turns of a loop over a
    range; [sys_nanosleep] waits for the interrupts of the tape; the loops of
    [fat32.c] over a chain need as many turns as the chain has clusters, and no
    number is enough on a chain without end; a program that waits for a message
    that does not come is out of fuel as well.

    ** Not modelled

    - The translation cache: a changed entry takes effect at once.
    - Interrupts inside kernel code, except while the kernel waits in [hlt] and in
      [nested_key_press].
    - Loads and stores of the kernel through pointers into its own image: their
      outcome is [Undef].  Stores into the image by user code that mapped it with
      [sys_mmap_phys] are no steps of the system.
    - The assembly: boot loader, interrupt stubs, the inline assembly of the
      system call stubs.  The frame the stubs push is the value [registers_t].
    - [hello_spawn.c], [testata.c], [fb_test.c], [testchild.c]: fixed sequences of
      system calls. *)

From stdpp Require Export base gmap list strings.
From Stdlib Require Export ZArith Lia.

#[global] Open Scope Z_scope.

(** ** Machine-width integers *)

(** The C types of [include/io.h]: [u8], [u16], [u32], [u64] are conversions of
    an exact integer to the type, i.e. reduction modulo its size; [i32] is
    conversion to [int]. *)
Definition u8 (x : Z) : Z := x mod 2 ^ 8.
Definition u16 (x : Z) : Z := x mod 2 ^ 16.
Definition u32 (x : Z) : Z := x mod 2 ^ 32.
Definition u64 (x : Z) : Z := x mod 2 ^ 64.
Definition i32 (x : Z) : Z := (x + 2 ^ 31) mod 2 ^ 32 - 2 ^ 31.

(** [x & ~(2^n - 1)], the alignment mask used all over the kernel. *)
Definition align_down (n x : Z) : Z := Z.land x (Z.lnot (2 ^ n - 1)).

Lemma u8_range x : 0 ≤ u8 x < 256.
Proof. apply Z.mod_pos_bound; lia. Qed.

Lemma u64_range x : 0 ≤ u64 x < 2 ^ 64.
Proof. apply Z.mod_pos_bound; lia. Qed.

Lemma u32_range x : 0 ≤ u32 x < 2 ^ 32.
Proof. apply Z.mod_pos_bound; lia. Qed.

Lemma u64_small x : 0 ≤ x < 2 ^ 64 → u64 x = x.
Proof. apply Z.mod_small. Qed.

Lemma u32_small x : 0 ≤ x < 2 ^ 32 → u32 x = x.
Proof. apply Z.mod_small. Qed.

Lemma u8_small x : 0 ≤ x < 2 ^ 8 → u8 x = x.
Proof. apply Z.mod_small. Qed.

Lemma i32_small x : - 2 ^ 31 ≤ x < 2 ^ 31 → i32 x = x.
Proof. unfold i32. intros. rewrite Z.mod_small; lia. Qed.

(** ** Bit-level lemmas *)

Create HintDb bits.
#[export] Hint Rewrite Z.land_spec Z.lor_spec Z.lxor_spec Z.ldiff_spec : bits.
#[export] Hint Rewrite Z.bits_0 : bits.

Lemma land_lnot_ones x n : 0 ≤ n → Z.land x (Z.lnot (2 ^ n - 1)) = x - x mod 2 ^ n.
Proof.
  intros Hn.
  replace (2 ^ n - 1) with (Z.ones n) by (rewrite Z.ones_equiv; lia).
  rewrite <- Z.ldiff_land, Z.ldiff_ones_r by done.
  rewrite Z.shiftr_div_pow2, Z.shiftl_mul_pow2 by done.
  pose proof (Z.pow_pos_nonneg 2 n ltac:(lia) Hn).
  rewrite (Z.mod_eq x (2 ^ n)) by lia. lia.
Qed.

Lemma align_down_sub n x : 0 ≤ n → align_down n x = x - x mod 2 ^ n.
Proof. apply land_lnot_ones. Qed.

Lemma align_down_aligned n x : 0 ≤ n → align_down n x mod 2 ^ n = 0.
Proof.
  intros Hn. rewrite align_down_sub by done.
  rewrite Zminus_mod_idemp_r, Z.sub_diag. apply Zmod_0_l.
Qed.

Lemma align_down_id n x : 0 ≤ n → x mod 2 ^ n = 0 → align_down n x = x.
Proof. intros Hn Hx. rewrite align_down_sub, Hx by done. lia. Qed.

Lemma land_ones_mod x n : 0 ≤ n → Z.land x (2 ^ n - 1) = x mod 2 ^ n.
Proof.
  intros Hn. rewrite <- Z.land_ones by done. f_equal. rewrite Z.ones_equiv. lia.
Qed.

Lemma testbit_small x n i : 0 ≤ x < 2 ^ n → n ≤ i → Z.testbit x i = false.
Proof.
  intros Hx Hi. destruct (decide (n < 0)).
  { rewrite Z.pow_neg_r in Hx; lia. }
  rewrite <- (Z.mod_small x (2 ^ n)) by done. apply Z.mod_pow2_bits_high. lia.
Qed.

Lemma testbit_aligned x n i : 0 ≤ i < n → x mod 2 ^ n = 0 → Z.testbit x i = false.
Proof.
  intros Hi Hx. rewrite <- (Z.mod_pow2_bits_low x n i) by lia.
  rewrite Hx. apply Z.bits_0.
Qed.

(** An aligned base and a small offset: bitwise or is addition. *)
Lemma land_aligned_small b f n : 0 ≤ n → b mod 2 ^ n = 0 → 0 ≤ f < 2 ^ n → Z.land b f = 0.
Proof.
  intros Hn Hb Hf. apply Z.bits_inj'. intros i Hi. rewrite Z.land_spec, Z.bits_0.
  destruct (decide (i < n)).
  - by rewrite (testbit_aligned b n) by done.
  - rewrite (testbit_small f n) by lia. apply andb_false_r.
Qed.

Lemma lor_aligned_small b f n : 0 ≤ n → b mod 2 ^ n = 0 → 0 ≤ f < 2 ^ n → Z.lor b f = b + f.
Proof.
  intros Hn Hb Hf. symmetry.
  rewrite Z.add_nocarry_lxor by by eapply land_aligned_small.
  symmetry. apply Z.bits_inj'. intros i Hi. rewrite Z.lor_spec, Z.lxor_spec.
  destruct (decide (i < n)).
  - by rewrite (testbit_aligned b n) by done; destruct (Z.testbit f i).
  - rewrite (testbit_small f n) by lia. by destruct (Z.testbit b i).
Qed.

(** [x & 2^k] tests bit [k]. *)
Lemma land_pow2_testbit x k : 0 ≤ k → (Z.land x (2 ^ k) =? 0) = negb (Z.testbit x k).
Proof.
  intros Hk. destruct (Z.testbit x k) eqn:E; simpl.
  - apply Z.eqb_neq. intros H. apply (f_equal (λ z, Z.testbit z k)) in H.
    rewrite Z.land_spec, E, Z.pow2_bits_true, Z.bits_0 in H by done. done.
  - apply Z.eqb_eq, Z.bits_inj'. intros i Hi. rewrite Z.land_spec, Z.bits_0.
    destruct (decide (i = k)) as [->|]; [by rewrite E|].
    rewrite Z.pow2_bits_false by lia. apply andb_false_r.
Qed.

Lemma land_1_testbit x : (Z.land x 1 =? 0) = negb (Z.testbit x 0).
Proof. apply (land_pow2_testbit x 0). lia. Qed.

(** A decidable fact about concrete data, by evaluation. *)
Ltac by_decide := lazymatch goal with |- ?P => apply (bool_decide_unpack P); vm_compute; exact I end.
