(* ===== verification/State.v ===== *)
(** * State: the data of the kernel

    The types of [include/task.h], [include/idt.h] and the static objects of
    [pmm.c], [paging.c], [task.c] and [idt.c], together with the part of the
    machine the kernel drives (physical memory, CR3, the I/O ports, the pending
    interrupts), as one record [kstate]. *)

From S2P Require Import Prelude.

(** ** Constants of the headers *)

Definition MAX_TASKS : Z := 64.
Definition IPC_QUEUE_SIZE : Z := 16.
Definition IPC_MAX_DATA : Z := 64.
Definition PAGE_SIZE : Z := 4096.
Definition PAGE_PRESENT : Z := 1.
Definition PAGE_WRITABLE : Z := 2.
Definition PAGE_USER : Z := 4.
Definition PAGE_PS : Z := Z.shiftl 1 7.
Definition IDT_SIZE : Z := 256.
Definition MAX_FUTEX_WAITERS : Z := 128.
Definition HEAP_START : Z := 0x600000.

(** ** Tasks and messages ([include/task.h]) *)

(** [msg_data] is the 64-byte array; only its first [msg_length] bytes carry
    the message, the rest is whatever the slot held before. *)
Record ipc_msg_t := Msg {
  msg_sender_pid : Z;
  msg_type : Z;
  msg_data : list Z;
  msg_length : Z;
}.

Inductive task_state_t := TASK_EXITED | TASK_READY | TASK_RUNNING | TASK_BLOCKED.

#[global] Instance task_state_eq_dec : EqDecision task_state_t.
Proof. solve_decision. Defined.

(** The value of the enumerator, which [sys_getstate] returns. *)
Definition task_state_value (x : task_state_t) : Z :=
  match x with
  | TASK_EXITED => 0
  | TASK_READY => 1
  | TASK_RUNNING => 2
  | TASK_BLOCKED => 3
  end.

Record task_t := Task {
  t_rsp : Z;
  t_pid : Z;
  t_state : task_state_t;
  t_stack_phys : Z;
  t_user_stack_phys : Z;
  t_pml4_phys : Z;
  t_load_addr : Z;
  t_code_pages : Z;
  t_wait_idx : Z;
  t_ipc_queue : list ipc_msg_t;
  t_ipc_head : Z;
  t_ipc_tail : Z;
  t_ipc_count : Z;
}.

(** The C initial value of a [static] object: all bytes zero. *)
Definition msg_zero : ipc_msg_t := Msg 0 0 (replicate 64 0) 0.
Definition task_zero : task_t :=
  Task 0 0 TASK_EXITED 0 0 0 0 0 0 (replicate 16 msg_zero) 0 0 0.

(** Assignments [t->field = v]. *)
Definition t_set_rsp (v : Z) (t : task_t) : task_t :=
  Task v (t_pid t) (t_state t) (t_stack_phys t) (t_user_stack_phys t) (t_pml4_phys t) (t_load_addr t)
    (t_code_pages t) (t_wait_idx t) (t_ipc_queue t) (t_ipc_head t) (t_ipc_tail t) (t_ipc_count t).
Definition t_set_state (v : task_state_t) (t : task_t) : task_t :=
  Task (t_rsp t) (t_pid t) v (t_stack_phys t) (t_user_stack_phys t) (t_pml4_phys t) (t_load_addr t)
    (t_code_pages t) (t_wait_idx t) (t_ipc_queue t) (t_ipc_head t) (t_ipc_tail t) (t_ipc_count t).
Definition t_set_stack_phys (v : Z) (t : task_t) : task_t :=
  Task (t_rsp t) (t_pid t) (t_state t) v (t_user_stack_phys t) (t_pml4_phys t) (t_load_addr t)
    (t_code_pages t) (t_wait_idx t) (t_ipc_queue t) (t_ipc_head t) (t_ipc_tail t) (t_ipc_count t).
Definition t_set_wait_idx (v : Z) (t : task_t) : task_t :=
  Task (t_rsp t) (t_pid t) (t_state t) (t_stack_phys t) (t_user_stack_phys t) (t_pml4_phys t) (t_load_addr t)
    (t_code_pages t) v (t_ipc_queue t) (t_ipc_head t) (t_ipc_tail t) (t_ipc_count t).
Definition t_set_ipc (q : list ipc_msg_t) (hd tl cnt : Z) (t : task_t) : task_t :=
  Task (t_rsp t) (t_pid t) (t_state t) (t_stack_phys t) (t_user_stack_phys t) (t_pml4_phys t) (t_load_addr t)
    (t_code_pages t) (t_wait_idx t) q hd tl cnt.

(** ** Interrupt descriptors and saved frames ([include/idt.h]) *)

Record idt_entry_t := Gate {
  g_offset_0 : Z;
  g_selector : Z;
  g_ist : Z;
  g_flags : Z;
  g_offset_1 : Z;
  g_offset_2 : Z;
  g_reserved : Z;
}.

Definition gate_zero : idt_entry_t := Gate 0 0 0 0 0 0 0.

(** The frame [isr_common] pushes, lowest address first. *)
Record registers_t := Regs {
  r_r15 : Z; r_r14 : Z; r_r13 : Z; r_r12 : Z; r_r11 : Z; r_r10 : Z; r_r9 : Z; r_r8 : Z;
  r_rbp : Z; r_rdi : Z; r_rsi : Z; r_rdx : Z; r_rcx : Z; r_rbx : Z; r_rax : Z;
  r_int_no : Z;
  r_err_code : Z;
  r_rip : Z; r_cs : Z; r_rflags : Z; r_rsp : Z; r_ss : Z;
}.

(** The frame as the array of [u64] it is in memory. *)
Definition regs_words (r : registers_t) : list Z :=
  [r_r15 r; r_r14 r; r_r13 r; r_r12 r; r_r11 r; r_r10 r; r_r9 r; r_r8 r;
   r_rbp r; r_rdi r; r_rsi r; r_rdx r; r_rcx r; r_rbx r; r_rax r;
   r_int_no r; r_err_code r; r_rip r; r_cs r; r_rflags r; r_rsp r; r_ss r].

(** [sizeof(registers_t)]. *)
Definition sizeof_registers_t : Z := 22 * 8.

(** ** Port I/O and privileged loads *)

Inductive io_event :=
| Inb (port v : Z)
| Outb (port v : Z)
| Inw (port v : Z)
| Outw (port v : Z)
| Lidt (limit base : Z)
| Lgdt (base : Z)
| Ltr (selector : Z).

(** ** The whole state *)

(** - [mem]: physical memory, by the (8-aligned) physical address of each 64-bit
      word; a word not in the map is 0;
    - [cr3]: the page-table root the processor uses;
    - [io]: the port accesses so far, latest first;
    - [irq_tape]: the vectors of the interrupts that will arrive while the kernel
      waits in [hlt];
    - the others are the C objects of the same name. *)
Record kstate := KState {
  mem : gmap Z Z;
  cr3 : Z;
  io : list io_event;
  irq_tape : list Z;
  free_stack : Z;
  paging_root : Z;
  tasks : list task_t;
  current_task : Z;
  num_tasks : Z;
  next_pid : Z;
  heap_brk : Z;
  futex_waiters : list (Z * Z);
  num_futex_waiters : Z;
  ticks : Z;
  irq_handlers : list Z;
  idt : list idt_entry_t;
}.

(** Assignments to one object. *)
Definition set_mem (v : gmap Z Z) (s : kstate) : kstate :=
  KState v (cr3 s) (io s) (irq_tape s) (free_stack s) (paging_root s) (tasks s) (current_task s)
    (num_tasks s) (next_pid s) (heap_brk s) (futex_waiters s) (num_futex_waiters s) (ticks s) (irq_handlers s) (idt s).
Definition set_cr3 (v : Z) (s : kstate) : kstate :=
  KState (mem s) v (io s) (irq_tape s) (free_stack s) (paging_root s) (tasks s) (current_task s)
    (num_tasks s) (next_pid s) (heap_brk s) (futex_waiters s) (num_futex_waiters s) (ticks s) (irq_handlers s) (idt s).
Definition set_io (v : list io_event) (s : kstate) : kstate :=
  KState (mem s) (cr3 s) v (irq_tape s) (free_stack s) (paging_root s) (tasks s) (current_task s)
    (num_tasks s) (next_pid s) (heap_brk s) (futex_waiters s) (num_futex_waiters s) (ticks s) (irq_handlers s) (idt s).
Definition set_irq_tape (v : list Z) (s : kstate) : kstate :=
  KState (mem s) (cr3 s) (io s) v (free_stack s) (paging_root s) (tasks s) (current_task s)
    (num_tasks s) (next_pid s) (heap_brk s) (futex_waiters s) (num_futex_waiters s) (ticks s) (irq_handlers s) (idt s).
Definition set_free_stack (v : Z) (s : kstate) : kstate :=
  KState (mem s) (cr3 s) (io s) (irq_tape s) v (paging_root s) (tasks s) (current_task s)
    (num_tasks s) (next_pid s) (heap_brk s) (futex_waiters s) (num_futex_waiters s) (ticks s) (irq_handlers s) (idt s).
Definition set_paging_root (v : Z) (s : kstate) : kstate :=
  KState (mem s) (cr3 s) (io s) (irq_tape s) (free_stack s) v (tasks s) (current_task s)
    (num_tasks s) (next_pid s) (heap_brk s) (futex_waiters s) (num_futex_waiters s) (ticks s) (irq_handlers s) (idt s).
Definition set_tasks (v : list task_t) (s : kstate) : kstate :=
  KState (mem s) (cr3 s) (io s) (irq_tape s) (free_stack s) (paging_root s) v (current_task s)
    (num_tasks s) (next_pid s) (heap_brk s) (futex_waiters s) (num_futex_waiters s) (ticks s) (irq_handlers s) (idt s).
Definition set_current_task (v : Z) (s : kstate) : kstate :=
  KState (mem s) (cr3 s) (io s) (irq_tape s) (free_stack s) (paging_root s) (tasks s) v
    (num_tasks s) (next_pid s) (heap_brk s) (futex_waiters s) (num_futex_waiters s) (ticks s) (irq_handlers s) (idt s).
Definition set_num_tasks (v : Z) (s : kstate) : kstate :=
  KState (mem s) (cr3 s) (io s) (irq_tape s) (free_stack s) (paging_root s) (tasks s) (current_task s)
    v (next_pid s) (heap_brk s) (futex_waiters s) (num_futex_waiters s) (ticks s) (irq_handlers s) (idt s).
Definition set_next_pid (v : Z) (s : kstate) : kstate :=
  KState (mem s) (cr3 s) (io s) (irq_tape s) (free_stack s) (paging_root s) (tasks s) (current_task s)
    (num_tasks s) v (heap_brk s) (futex_waiters s) (num_futex_waiters s) (ticks s) (irq_handlers s) (idt s).
Definition set_heap_brk (v : Z) (s : kstate) : kstate :=
  KState (mem s) (cr3 s) (io s) (irq_tape s) (free_stack s) (paging_root s) (tasks s) (current_task s)
    (num_tasks s) (next_pid s) v (futex_waiters s) (num_futex_waiters s) (ticks s) (irq_handlers s) (idt s).
Definition set_futex_waiters (v : list (Z * Z)) (s : kstate) : kstate :=
  KState (mem s) (cr3 s) (io s) (irq_tape s) (free_stack s) (paging_root s) (tasks s) (current_task s)
    (num_tasks s) (next_pid s) (heap_brk s) v (num_futex_waiters s) (ticks s) (irq_handlers s) (idt s).
Definition set_num_futex_waiters (v : Z) (s : kstate) : kstate :=
  KState (mem s) (cr3 s) (io s) (irq_tape s) (free_stack s) (paging_root s) (tasks s) (current_task s)
    (num_tasks s) (next_pid s) (heap_brk s) (futex_waiters s) v (ticks s) (irq_handlers s) (idt s).
Definition set_ticks (v : Z) (s : kstate) : kstate :=
  KState (mem s) (cr3 s) (io s) (irq_tape s) (free_stack s) (paging_root s) (tasks s) (current_task s)
    (num_tasks s) (next_pid s) (heap_brk s) (futex_waiters s) (num_futex_waiters s) v (irq_handlers s) (idt s).
Definition set_irq_handlers (v : list Z) (s : kstate) : kstate :=
  KState (mem s) (cr3 s) (io s) (irq_tape s) (free_stack s) (paging_root s) (tasks s) (current_task s)
    (num_tasks s) (next_pid s) (heap_brk s) (futex_waiters s) (num_futex_waiters s) (ticks s) v (idt s).
Definition set_idt (v : list idt_entry_t) (s : kstate) : kstate :=
  KState (mem s) (cr3 s) (io s) (irq_tape s) (free_stack s) (paging_root s) (tasks s) (current_task s)
    (num_tasks s) (next_pid s) (heap_brk s) (futex_waiters s) (num_futex_waiters s) (ticks s) (irq_handlers s) v.
