(* ===== verification/Machine.v ===== *)
(** * Machine: memory, address translation, port I/O and the kernel monad

    The kernel is C running in ring 0 with paging on.  Its code is modelled in
    the state-and-outcome monad [M]: every pointer dereference is an access to a
    virtual address, translated by the four-level page walk the processor
    performs from CR3 ([walk]), so that kernel code sees exactly what the tables
    it edits say.  [runs] is the (total-correctness) specification judgement the
    components are proved with. *)

From S2P Require Import Prelude State.

(** ** The platform: what the kernel runs on and is linked with *)

(** [port_inb]/[port_inw] are the devices: the value a port read returns, given
    the accesses before it.  [kernel_end] is the linker symbol [_end]: the C
    objects live in [0x100000, kernel_end).  [poll_fuel] bounds busy-waiting
    loops on a device.  [isr_addr n] is the address of the stub [isr<n>] of
    [isr_stubs.asm], [idt_addr] that of the array [idt], [gdt_base] the base the
    boot loader put in GDTR, and [init_elf_start], [init_elf_end] the linker
    symbols around the embedded [init] program. *)
Class Platform := {
  port_inb : list io_event → Z → Z;
  port_inw : list io_event → Z → Z;
  kernel_end : Z;
  poll_fuel : nat;
  isr_addr : Z → Z;
  idt_addr : Z;
  gdt_base : Z;
  init_elf_start : Z;
  init_elf_end : Z;
}.

(** ** Outcomes and the monad *)

(** - [Ok]: the code returned;
    - [Fault]: a ring-0 access to an address with no translation, i.e. a page
      fault taken in the kernel;
    - [Halted]: the code entered [for (;;) hlt];
    - [Undef]: behaviour outside the model: an array index out of range, or a
      store through a pointer into the kernel image (which would overwrite the
      C objects);
    - [OutOfFuel]: a loop used up its bound. *)
Inductive outcome (A : Type) :=
| Ok (a : A) (s : kstate)
| Fault (va : Z) (s : kstate)
| Halted (s : kstate)
| Undef
| OutOfFuel.
Arguments Ok {_} _ _.
Arguments Fault {_} _ _.
Arguments Halted {_} _.
Arguments Undef {_}.
Arguments OutOfFuel {_}.

Definition M (A : Type) : Type := kstate → outcome A.

#[global] Instance M_ret : MRet M := λ A a s, Ok a s.
#[global] Instance M_bind : MBind M := λ A B f m s,
  match m s with
  | Ok a s' => f a s'
  | Fault va s' => Fault va s'
  | Halted s' => Halted s'
  | Undef => Undef
  | OutOfFuel => OutOfFuel
  end.

Definition gets {A} (f : kstate → A) : M A := λ s, Ok (f s) s.
Definition modify (f : kstate → kstate) : M unit := λ s, Ok tt (f s).
Definition undef {A} : M A := λ _, Undef.
Definition out_of_fuel {A} : M A := λ _, OutOfFuel.
Definition halt {A} : M A := λ s, Halted s.
Definition when (b : bool) (m : M unit) : M unit := if b then m else mret tt.

(** ** Loops *)

(** [for (int i = i0; i < i0 + n; i++) body] without early exit. *)
Fixpoint for_nat (n : nat) (i : Z) (body : Z → M unit) : M unit :=
  match n with
  | O => mret tt
  | S n' => body i ;; for_nat n' (i + 1) body
  end.

(** The same loop where the body may leave the function with a value. *)
Fixpoint for_exit {A} (n : nat) (i : Z) (body : Z → M (option A)) : M (option A) :=
  match n with
  | O => mret None
  | S n' =>
    r ← body i;
    match r with
    | Some a => mret (Some a)
    | None => for_exit n' (i + 1) body
    end
  end.

(** [for (u64 v = v0; v < e; v += step) body], the increment at 64 bits. *)
Fixpoint for_step {A} (fuel : nat) (v e step : Z) (body : Z → M (option A)) : M (option A) :=
  if v <? e then
    match fuel with
    | O => λ _, OutOfFuel
    | S fuel' =>
      r ← body v;
      match r with
      | Some a => mret (Some a)
      | None => for_step fuel' (u64 (v + step)) e step body
      end
    end
  else mret None.

(** Enough fuel for a [for_step] whose counter does not wrap. *)
Definition step_fuel (v e step : Z) : nat := Z.to_nat ((e - v) / step + 1).

(** ** C arrays *)

(** [a[i]] and [a[i] = v] for an array object; out of range is [Undef]. *)
Definition arr_get {A} (l : list A) (i : Z) : M A :=
  if 0 <=? i then match l !! Z.to_nat i with Some x => mret x | None => undef end else undef.

Definition arr_in {A} (l : list A) (i : Z) : bool := (0 <=? i) && (i <? Z.of_nat (length l)).

(** ** Physical memory *)

Definition mget (m : gmap Z Z) (a : Z) : Z := default 0 (m !! a).

(** Byte [i] of a little-endian word. *)
Definition byte_of (w i : Z) : Z := Z.land (Z.shiftr w (8 * i)) 255.
Definition with_byte (w i b : Z) : Z :=
  Z.lor (Z.land w (Z.lnot (Z.shiftl 255 (8 * i)))) (Z.shiftl b (8 * i)).

(** ** Address translation *)

(** A table entry holds the frame in bits 12..51; bit 0 is present, bit 1
    writable, bit 2 user, bit 7 page size (a leaf at level 1 or 2). *)
Definition frame (e : Z) : Z := Z.land e 0xFFFFFFFFFF000.

(** Level [n] of the walk: 3 is the PML4, 0 the page table.  A level-[n] entry
    spans [2 ^ (12 + 9 n)] bytes. *)
Definition span (n : nat) : Z := 2 ^ (12 + 9 * Z.of_nat n).
Definition entry_addr (n : nat) (tbl va : Z) : Z := tbl + 8 * ((va / span n) mod 512).

Record xlat := Xlat { x_pa : Z; x_user : bool; x_write : bool }.

Definition leaf (n : nat) (e va : Z) : xlat :=
  Xlat (frame e - frame e mod span n + va mod span n) (Z.testbit e 2) (Z.testbit e 1).

Definition restrict (e : Z) (x : xlat) : xlat :=
  Xlat (x_pa x) (Z.testbit e 2 && x_user x) (Z.testbit e 1 && x_write x).

Fixpoint walk (m : gmap Z Z) (n : nat) (tbl va : Z) : option xlat :=
  let e := mget m (entry_addr n tbl va) in
  if Z.testbit e 0 then
    match n with
    | O => Some (leaf 0 e va)
    | S n' =>
      if Z.testbit e 7 then
        match n' with S (S _) => None | _ => Some (leaf n e va) end
      else restrict e <$> walk m n' (frame e) va
    end
  else None.

Definition canonical (va : Z) : bool :=
  (0 <=? va) && (va <? 2 ^ 47) || (2 ^ 64 - 2 ^ 47 <=? va) && (va <? 2 ^ 64).

Definition translate (m : gmap Z Z) (root va : Z) : option xlat :=
  if canonical va then walk m 3 (frame root) va else None.

(** The physical address a ring-0 access to [va] reaches (CR0.WP is clear, so
    ring 0 ignores the user and writable bits). *)
Definition phys_of (s : kstate) (va : Z) : option Z := x_pa <$> translate (mem s) (cr3 s) va.

(** ** Loads and stores of the kernel *)

Section Access.
Context `{Platform}.

(** An address whose contents are C objects of the kernel. *)
Definition in_image (pa : Z) : bool := (0x100000 <=? pa) && (pa <? kernel_end).

Definition load8 (va : Z) : M Z := λ s,
  match phys_of s va with
  | Some pa => Ok (byte_of (mget (mem s) (align_down 3 pa)) (pa mod 8)) s
  | None => Fault va s
  end.

Definition store8 (va v : Z) : M unit := λ s,
  match phys_of s va with
  | Some pa =>
    if in_image pa then Undef
    else
      let w := mget (mem s) (align_down 3 pa) in
      Ok tt (set_mem (<[align_down 3 pa := with_byte w (pa mod 8) (u8 v)]> (mem s)) s)
  | None => Fault va s
  end.

Fixpoint load_bytes (n : nat) (va : Z) : M (list Z) :=
  match n with
  | O => mret []
  | S n' => b ← load8 va; bs ← load_bytes n' (u64 (va + 1)); mret (b :: bs)
  end.

Fixpoint store_bytes (va : Z) (bs : list Z) : M unit :=
  match bs with
  | [] => mret tt
  | b :: bs' => store8 va b ;; store_bytes (u64 (va + 1)) bs'
  end.

(** Wider accesses: an aligned 64-bit access is one word; the others go byte by
    byte, little-endian. *)
Definition load_le (n : nat) (va : Z) : M Z :=
  bs ← load_bytes n va; mret (little_endian_to_Z 8 bs).
Definition store_le (n : nat) (va v : Z) : M unit :=
  store_bytes va (Z_to_little_endian (Z.of_nat n) 8 v).

Definition load16 : Z → M Z := load_le 2.
Definition load32 : Z → M Z := load_le 4.

Definition load64 (va : Z) : M Z :=
  if va mod 8 =? 0 then
    λ s, match phys_of s va with
         | Some pa => Ok (mget (mem s) pa) s
         | None => Fault va s
         end
  else load_le 8 va.

Definition store64 (va v : Z) : M unit :=
  if va mod 8 =? 0 then
    λ s, match phys_of s va with
         | Some pa => if in_image pa then Undef else Ok tt (set_mem (<[pa := u64 v]> (mem s)) s)
         | None => Fault va s
         end
  else store_le 8 va (u64 v).

Definition store16 (va v : Z) : M unit := store_le 2 va (u16 v).
Definition store32 (va v : Z) : M unit := store_le 4 va (u32 v).

(** ** Port I/O ([include/io.h]) *)

Definition inb (port : Z) : M Z := λ s,
  let v := u8 (port_inb (io s) (u16 port)) in
  Ok v (set_io (Inb (u16 port) v :: io s) s).
Definition outb (port v : Z) : M unit := λ s,
  Ok tt (set_io (Outb (u16 port) (u8 v) :: io s) s).
Definition inw (port : Z) : M Z := λ s,
  let v := u16 (port_inw (io s) (u16 port)) in
  Ok v (set_io (Inw (u16 port) v :: io s) s).
Definition outw (port v : Z) : M unit := λ s,
  Ok tt (set_io (Outw (u16 port) (u16 v) :: io s) s).
Definition io_wait : M unit := outb 0x80 0.

(** [lidt], [lgdt], [ltr]. *)
Definition cpu_event (e : io_event) : M unit := modify (λ s, set_io (e :: io s) s).

End Access.

(** ** Specifications *)

(** [runs m s Q]: from [s], [m] returns, and [Q] holds of its value and of the
    state it leaves. *)
Definition runs {A} (m : M A) (s : kstate) (Q : A → kstate → Prop) : Prop :=
  match m s with Ok a s' => Q a s' | _ => False end.

Lemma runs_ret {A} (a : A) s Q : Q a s → runs (mret a) s Q.
Proof. done. Qed.

Lemma runs_bind {A B} (m : M A) (f : A → M B) s Q :
  runs m s (λ a s', runs (f a) s' Q) → runs (m ≫= f) s Q.
Proof. unfold runs, mbind, M_bind. by destruct (m s). Qed.

Lemma runs_mono {A} (m : M A) s (P Q : A → kstate → Prop) :
  runs m s P → (∀ a s', P a s' → Q a s') → runs m s Q.
Proof. unfold runs. destruct (m s); naive_solver. Qed.

(** A step whose result is known. *)
Lemma runs_intro {A} (m : M A) s a s' (Q : A → kstate → Prop) : m s = Ok a s' → Q a s' → runs m s Q.
Proof. intros E HQ. unfold runs. by rewrite E. Qed.

Lemma runs_step {A B} (m : M A) (f : A → M B) s a s' (Q : B → kstate → Prop) :
  m s = Ok a s' → runs (f a) s' Q → runs (m ≫= f) s Q.
Proof. intros E HQ. apply runs_bind. by eapply runs_intro. Qed.

(** The same as an equation. *)
Lemma bind_Ok {A B} (m : M A) (f : A → M B) s a s' : m s = Ok a s' → (m ≫= f) s = f a s'.
Proof. intros E. unfold mbind, M_bind. by rewrite E. Qed.

Lemma runs_gets {A} (f : kstate → A) s Q : Q (f s) s → runs (gets f) s Q.
Proof. done. Qed.

Lemma runs_modify f s (Q : unit → kstate → Prop) : Q tt (f s) → runs (modify f) s Q.
Proof. done. Qed.

(** A run of concrete code, by evaluation. *)
Lemma runs_check {A} (m : M A) s (f : A → kstate → bool) (Q : A → kstate → Prop) :
  match m s with Ok a s' => f a s' | _ => false end = true → (∀ a s', f a s' = true → Q a s') → runs m s Q.
Proof. unfold runs. destruct (m s); naive_solver. Qed.

(** The state a run ends in. *)
Definition run_state {A} (m : M A) (s : kstate) : kstate := match m s with Ok _ s' => s' | _ => s end.

Lemma runs_run_state {A} (m : M A) s Q : runs m s Q → ∃ a, Q a (run_state m s).
Proof. unfold runs, run_state. destruct (m s); naive_solver. Qed.

(** A run that is known to return. *)
Definition returns {A} (m : M A) (s : kstate) : bool := match m s with Ok _ _ => true | _ => false end.

Lemma returns_run_state {A} (m : M A) s : returns m s = true → ∃ a, m s = Ok a (run_state m s).
Proof. unfold returns, run_state. destruct (m s); naive_solver. Qed.

Lemma runs_Ok {A} (m : M A) s Q : runs m s Q ↔ ∃ a s', m s = Ok a s' ∧ Q a s'.
Proof. unfold runs. destruct (m s); naive_solver. Qed.

(** A loop with an invariant indexed by the counter. *)
Lemma runs_for_nat n i body s (I : Z → kstate → Prop) :
  I i s →
  (∀ j s', i ≤ j < i + Z.of_nat n → I j s' → runs (body j) s' (λ _ s'', I (j + 1) s'')) →
  runs (for_nat n i body) s (λ _ s', I (i + Z.of_nat n) s').
Proof.
  revert i s. induction n as [|n IH]; intros i s Hi Hb; simpl.
  { apply runs_ret. by rewrite Z.add_0_r. }
  apply runs_bind. eapply runs_mono; [apply Hb; [lia|done]|]. intros [] s1 H1; simpl in H1 |- *.
  eapply runs_mono; [apply IH; [done|]|].
  - intros j s' Hj. apply Hb. lia.
  - intros [] s2 H2; cbv beta in *. by replace (i + Z.of_nat (S n)) with (i + 1 + Z.of_nat n) by lia.
Qed.

Lemma runs_for_exit {A} n i (body : Z → M (option A)) s (I : Z → kstate → Prop) (Q : A → kstate → Prop) :
  I i s →
  (∀ j s', i ≤ j < i + Z.of_nat n → I j s' →
     runs (body j) s' (λ r s'', match r with Some a => Q a s'' | None => I (j + 1) s'' end)) →
  runs (for_exit n i body) s
    (λ r s', match r with Some a => Q a s' | None => I (i + Z.of_nat n) s' end).
Proof.
  revert i s. induction n as [|n IH]; intros i s Hi Hb; simpl.
  { apply runs_ret. by rewrite Z.add_0_r. }
  apply runs_bind. eapply runs_mono; [apply Hb; [lia|done]|]. intros [a|] s1 H1; simpl in H1 |- *; [done|].
  eapply runs_mono; [apply IH; [done|]|].
  - intros j s' Hj. apply Hb. lia.
  - intros r s2 H2; cbv beta in *. by replace (i + Z.of_nat (S n)) with (i + 1 + Z.of_nat n) by lia.
Qed.

(** One step of a run whose equation [E] gives the outcome. *)
Ltac step_by E := etrans; [eapply bind_Ok; E|cbv beta].
