(* ===== verification/Walk.v ===== *)
(** * Walk: the shape of page tables and how a store changes translations

    [reach m k n tbl va] is the table the walk of [va] consults at level [k],
    with the user/writable bits collected above it.  [ptree] says that a table
    page has one place in the tree.  The lemmas describe, entry by entry, what
    storing one word does to [walk] and [reach]; [same_xlat] is the equivalence
    "no translation changed", under which the later components rewrite. *)

From S2P Require Import Prelude State Machine.

(** ** Memory words *)

Lemma mget_insert_eq m a v : mget (<[a := v]> m) a = v.
Proof. unfold mget. by rewrite lookup_insert_eq. Qed.

Lemma mget_insert_ne m a b v : a ≠ b → mget (<[a := v]> m) b = mget m b.
Proof. intros. unfold mget. by rewrite lookup_insert_ne. Qed.

#[export] Hint Rewrite mget_insert_eq : mem.
#[export] Hint Rewrite mget_insert_ne using (solve [eauto | lia | congruence]) : mem.

(** ** Pages *)

(** A page-aligned physical address the tables can name and ring 0 can reach. *)
Definition is_page (p : Z) : Prop := 0 ≤ p < 2 ^ 47 ∧ p mod 4096 = 0.

Definition page_of (a : Z) : Z := a - a mod 4096.

Lemma page_of_aligned a : page_of a mod 4096 = 0.
Proof. unfold page_of. rewrite Zminus_mod_idemp_r, Z.sub_diag. done. Qed.

Lemma page_of_add p i : p mod 4096 = 0 → 0 ≤ i < 4096 → page_of (p + i) = p.
Proof.
  intros Hp Hi. unfold page_of.
  rewrite <- Zplus_mod_idemp_l, Hp, Z.add_0_l, Z.mod_small by done. lia.
Qed.

Lemma page_of_page p : p mod 4096 = 0 → page_of p = p.
Proof. unfold page_of. lia. Qed.

Lemma is_page_end p : is_page p → p + 4096 ≤ 2 ^ 47.
Proof.
  intros [Hb Ha]. rewrite (Z.div_mod p 4096) in Hb |- * by lia. rewrite Ha in *.
  change (2 ^ 47) with (4096 * 2 ^ 35) in *. lia.
Qed.

Lemma is_page_word p i : is_page p → 0 ≤ i < 512 → (p + 8 * i) mod 8 = 0.
Proof.
  intros [_ Hp] Hi. rewrite (Z.mul_comm 8), Z_mod_plus_full.
  rewrite (Z.div_mod p 4096), Hp, Z.add_0_r by lia.
  replace (4096 * (p / 4096)) with (p / 4096 * 512 * 8) by lia. apply Z_mod_mult.
Qed.

Lemma frame_page p : is_page p → frame p = p.
Proof.
  intros [Hb Ha]. unfold frame.
  replace 0xFFFFFFFFFF000 with (Z.ldiff (Z.ones 52) (Z.ones 12)) by done.
  apply Z.bits_inj'. intros i Hi. rewrite Z.land_spec, Z.ldiff_spec.
  rewrite !Z.testbit_ones_nonneg by lia.
  destruct (decide (i < 12)).
  { rewrite (testbit_aligned p 12) by done. done. }
  destruct (decide (47 ≤ i)).
  { rewrite (testbit_small p 47) by lia. done. }
  replace (i <? 52) with true by lia. replace (i <? 12) with false by lia.
  by rewrite andb_true_r.
Qed.

Lemma frame_align e : 0 ≤ e < 2 ^ 52 → frame e = align_down 12 e.
Proof.
  intros Hb. unfold frame, align_down.
  replace (2 ^ 12 - 1) with (Z.ones 12) by done.
  replace 0xFFFFFFFFFF000 with (Z.ldiff (Z.ones 52) (Z.ones 12)) by done.
  apply Z.bits_inj'. intros i Hi.
  rewrite !Z.land_spec, Z.ldiff_spec, Z.lnot_spec by done.
  rewrite !Z.testbit_ones_nonneg by lia.
  destruct (decide (i < 52)); [by replace (i <? 52) with true by lia|].
  rewrite (testbit_small e 52) by lia. done.
Qed.

Lemma frame_aligned e : frame e mod 4096 = 0.
Proof.
  unfold frame. change 4096 with (2 ^ 12). rewrite <- Z.land_ones by lia.
  rewrite <- Z.land_assoc. change (Z.land 0xFFFFFFFFFF000 (Z.ones 12)) with 0.
  apply Z.land_0_r.
Qed.

(** An entry made of a page and its flags. *)
Lemma lor_page_flags p f : p mod 4096 = 0 → 0 ≤ f < 4096 → Z.lor p f = p + f.
Proof. intros. by apply (lor_aligned_small p f 12). Qed.

Lemma frame_entry p f : 0 ≤ p < 2 ^ 52 → p mod 4096 = 0 → 0 ≤ f < 4096 → frame (Z.lor p f) = p.
Proof.
  intros Hp Ha Hf. rewrite lor_page_flags by done.
  assert (p + 4096 ≤ 2 ^ 52).
  { rewrite (Z.div_mod p 4096) in Hp |- * by lia. rewrite Ha in *.
    change (2 ^ 52) with (4096 * 2 ^ 40) in *. lia. }
  rewrite frame_align by lia. rewrite align_down_sub by lia.
  exact (page_of_add p f Ha Hf).
Qed.

Lemma testbit_entry p f i : p mod 4096 = 0 → 0 ≤ i < 12 → Z.testbit (Z.lor p f) i = Z.testbit f i.
Proof.
  intros Hp Hi. rewrite Z.lor_spec, (testbit_aligned p 12) by done. done.
Qed.

(** ** Levels, indices and regions *)

(** The code's [(virt >> 39) & 0x1FF] and its siblings. *)
Lemma index_shift va sh : 0 ≤ sh → Z.land (Z.shiftr va sh) 0x1FF = (va / 2 ^ sh) mod 512.
Proof.
  intros. rewrite Z.shiftr_div_pow2 by done. by apply (land_ones_mod _ 9).
Qed.

(** Which level-[n] entry an address uses, counted over the whole space. *)
Definition region (n : nat) (va : Z) : Z := (va / span n) mod 2 ^ (9 * (4 - Z.of_nat n)).

Lemma span_pos n : 0 < span n.
Proof. apply Z.pow_pos_nonneg; lia. Qed.

Lemma span_S n : span (S n) = span n * 512.
Proof.
  unfold span. replace (12 + 9 * Z.of_nat (S n)) with (12 + 9 * Z.of_nat n + 9) by lia.
  rewrite Z.pow_add_r by lia. done.
Qed.

Lemma region_index n va : (n ≤ 3)%nat → region n va mod 512 = (va / span n) mod 512.
Proof.
  intros Hn. unfold region. change 512 with (2 ^ 9).
  rewrite <- Znumtheory.Zmod_div_mod; try lia.
  exists (2 ^ (9 * (3 - Z.of_nat n))). rewrite <- Z.pow_add_r by lia. f_equal. lia.
Qed.

Lemma region_div n va : (n ≤ 3)%nat → region n va / 512 = region (S n) va.
Proof.
  intros Hn. unfold region. rewrite span_S, <- Z.div_div by (pose proof (span_pos n); lia).
  set (x := va / span n). set (k := 9 * (4 - Z.of_nat (S n))).
  replace (9 * (4 - Z.of_nat n)) with (9 + k) by lia.
  rewrite Z.pow_add_r by lia. change (2 ^ 9) with 512.
  rewrite Z.rem_mul_r by lia.
  rewrite Z.add_comm, Z.mul_comm, Z.div_add_l by lia.
  rewrite (Z.div_small (x mod 512)) by (apply Z.mod_pos_bound; lia). lia.
Qed.

Lemma region_eq_iff n va vb : (n ≤ 3)%nat →
  region n va = region n vb ↔
  region (S n) va = region (S n) vb ∧ (va / span n) mod 512 = (vb / span n) mod 512.
Proof.
  intros Hn. rewrite <- !region_index, <- !region_div by done. split.
  - by intros ->.
  - intros [Hd Hm]. rewrite (Z.div_mod (region n va) 512), (Z.div_mod (region n vb) 512) by lia.
    congruence.
Qed.

Lemma region_4 va : region 4 va = 0.
Proof. unfold region. change (2 ^ (9 * (4 - Z.of_nat 4))) with 1. apply Z.mod_1_r. Qed.

Lemma region_up n k va vb : (n ≤ k)%nat → (k ≤ 4)%nat → region n va = region n vb → region k va = region k vb.
Proof.
  intros Hnk Hk Hr. induction Hnk as [|k Hnk IH]; [done|].
  apply region_eq_iff in IH as [? _]; [done|lia|lia].
Qed.

(** ** The tables a walk consults *)

Record rtab := Rtab { rt_tbl : Z; rt_user : bool; rt_write : bool }.

Definition rt_under (u w : bool) (r : rtab) : rtab := Rtab (rt_tbl r) (u && rt_user r) (w && rt_write r).

Fixpoint reach (m : gmap Z Z) (k n : nat) (tbl va : Z) : option rtab :=
  if Nat.eqb n k then Some (Rtab tbl true true)
  else
    match n with
    | O => None
    | S n' =>
      let e := mget m (entry_addr n tbl va) in
      if Z.testbit e 0 && negb (Z.testbit e 7)
      then rt_under (Z.testbit e 2) (Z.testbit e 1) <$> reach m k n' (frame e) va
      else None
    end.

Lemma reach_refl m n tbl va : reach m n n tbl va = Some (Rtab tbl true true).
Proof. destruct n; simpl; by rewrite ?Nat.eqb_refl. Qed.

Lemma reach_le m k n tbl va r : reach m k n tbl va = Some r → (k ≤ n)%nat.
Proof.
  revert tbl r. induction n as [|n IH]; intros tbl r; simpl.
  - destruct k; [lia|done].
  - destruct k as [|k]; [lia|].
    destruct (Nat.eqb_spec n k); [lia|].
    destruct (_ && _); [|done]. destruct (reach _ _ _ _ _) eqn:E; [|done].
    intros _. apply IH in E. lia.
Qed.

(** One step down from level [S n]. *)
Lemma reach_S m k n tbl va :
  (k ≤ n)%nat →
  reach m k (S n) tbl va =
    let e := mget m (entry_addr (S n) tbl va) in
    if Z.testbit e 0 && negb (Z.testbit e 7)
    then rt_under (Z.testbit e 2) (Z.testbit e 1) <$> reach m k n (frame e) va
    else None.
Proof.
  intros Hk. cbn [reach]. destruct (Nat.eqb_spec (S n) k); [lia|done].
Qed.

(** Addresses that agree down to level [S k] consult the same level-[k] table. *)
Lemma reach_region m k n tbl va vb :
  (k ≤ n ≤ 3)%nat → region (S k) va = region (S k) vb →
  reach m k n tbl va = reach m k n tbl vb.
Proof.
  intros [Hk Hn] Hr. revert tbl. induction n as [|n IH]; intros tbl.
  { replace k with 0%nat by lia. done. }
  destruct (decide (k = S n)) as [->|]; [by rewrite !reach_refl|].
  rewrite !reach_S by lia.
  assert (entry_addr (S n) tbl va = entry_addr (S n) tbl vb) as ->.
  { unfold entry_addr. do 2 f_equal.
    apply (region_up _ (S n)) in Hr; [|lia..].
    by apply region_eq_iff in Hr as [_ ?]; [|lia]. }
  simpl. by rewrite IH by lia.
Qed.

(** A walk continues from any table it consults. *)
Lemma walk_reach m k n tbl va r :
  (n ≤ 3)%nat → reach m k n tbl va = Some r →
  walk m n tbl va =
    (λ x, Xlat (x_pa x) (rt_user r && x_user x) (rt_write r && x_write x)) <$> walk m k (rt_tbl r) va.
Proof.
  intros Hn3. revert tbl r. induction n as [|n IH]; intros tbl r Hr.
  { pose proof (reach_le _ _ _ _ _ _ Hr). replace k with 0%nat in * by lia.
    simpl in Hr. simplify_eq. cbn [rt_user rt_write rt_tbl].
    by destruct (walk m 0 tbl va) as [[]|]. }
  pose proof (reach_le _ _ _ _ _ _ Hr).
  destruct (decide (k = S n)) as [->|].
  { rewrite reach_refl in Hr. simplify_eq. cbn [rt_user rt_write rt_tbl].
    destruct (walk m (S n) tbl va) as [[]|]; done. }
  rewrite reach_S in Hr by lia. cbn [walk]. cbv zeta in *.
  destruct (Z.testbit _ 0); [|done]. destruct (Z.testbit _ 7); [done|]. simpl in Hr.
  destruct (reach m k n _ va) as [r'|] eqn:E; [|done]. simpl in Hr. simplify_eq.
  rewrite (IH ltac:(lia) _ _ E). cbn [rt_user rt_write rt_tbl rt_under].
  destruct (walk m k (rt_tbl r') va) as [[]|]; simpl; [|done].
  unfold restrict; simpl. by rewrite !andb_assoc.
Qed.

Lemma reach_reach m j k n tbl va r :
  (j ≤ k)%nat → reach m k n tbl va = Some r →
  reach m j n tbl va = rt_under (rt_user r) (rt_write r) <$> reach m j k (rt_tbl r) va.
Proof.
  intros Hj. revert tbl r. induction n as [|n IH]; intros tbl r Hr;
    pose proof (reach_le _ _ _ _ _ _ Hr).
  { replace k with 0%nat in * by lia. replace j with 0%nat in * by lia.
    simpl in Hr. simplify_eq. done. }
  destruct (decide (k = S n)) as [->|].
  { rewrite reach_refl in Hr. simplify_eq. cbn [rt_user rt_write rt_tbl].
    destruct (reach m j (S n) tbl va) as [[]|]; done. }
  rewrite reach_S in Hr |- * by lia. cbv zeta in *.
  destruct (_ && _); [|done].
  destruct (reach m k n _ va) as [r'|] eqn:E; [|done]. simpl in Hr. simplify_eq.
  rewrite (IH _ _ E). destruct (reach m j k _ va) as [[]|]; simpl; [|done].
  unfold rt_under; simpl. by rewrite !andb_assoc.
Qed.

(** ** Frame: a store outside the entries a walk reads changes nothing *)

Lemma reach_frame m m' n tbl va :
  (∀ k r, reach m k n tbl va = Some r →
     mget m' (entry_addr k (rt_tbl r) va) = mget m (entry_addr k (rt_tbl r) va)) →
  walk m' n tbl va = walk m n tbl va ∧ ∀ k, reach m' k n tbl va = reach m k n tbl va.
Proof.
  revert tbl. induction n as [|n IH]; intros tbl Hf.
  - assert (He := Hf 0%nat _ (reach_refl m 0 tbl va)). cbn [rt_tbl] in He.
    split; [|by intros [|]]. cbn [walk]. by rewrite He.
  - assert (He := Hf (S n) _ (reach_refl m (S n) tbl va)). cbn [rt_tbl] in He.
    set (e := mget m (entry_addr (S n) tbl va)) in *.
    destruct (Z.testbit e 0 && negb (Z.testbit e 7)) eqn:Ee.
    + destruct (IH (frame e)) as [IHw IHr].
      { intros k r Hr. apply (Hf k (rt_under (Z.testbit e 2) (Z.testbit e 1) r)).
        pose proof (reach_le _ _ _ _ _ _ Hr).
        rewrite reach_S by done. fold e. cbv zeta. by rewrite Ee, Hr. }
      split.
      * cbn [walk]. rewrite He. fold e. by rewrite IHw.
      * intros k. destruct (decide (k = S n)) as [->|]; [by rewrite !reach_refl|].
        destruct (decide (k ≤ n)%nat).
        { rewrite !reach_S by done. cbv zeta. rewrite He. fold e. by rewrite IHr. }
        cbn [reach]. cbv zeta. rewrite He. fold e. by rewrite IHr.
    + split.
      * cbn [walk]. rewrite He. fold e.
        destruct (Z.testbit e 0), (Z.testbit e 7); done.
      * intros k. cbn [reach]. rewrite He. fold e. by rewrite Ee.
Qed.

(** The same, for stores below level [k] only. *)
Lemma reach_frame_ge m m' k n tbl va :
  (∀ j r, (k < j)%nat → reach m j n tbl va = Some r →
     mget m' (entry_addr j (rt_tbl r) va) = mget m (entry_addr j (rt_tbl r) va)) →
  ∀ j, (k ≤ j)%nat → reach m' j n tbl va = reach m j n tbl va.
Proof.
  revert tbl. induction n as [|n IH]; intros tbl Hf j Hj; [by destruct j|].
  destruct (decide (j = S n)) as [->|]; [by rewrite !reach_refl|].
  destruct (decide (j ≤ n)%nat) as [Hjn|Hjn].
  2:{ destruct (reach m' j (S n) tbl va) eqn:E; [apply reach_le in E; lia|].
      destruct (reach m j (S n) tbl va) eqn:E'; [apply reach_le in E'; lia|]. done. }
  rewrite !reach_S by done. cbv zeta.
  assert (He := Hf (S n) _ ltac:(lia) (reach_refl m (S n) tbl va)). cbn [rt_tbl] in He.
  rewrite He. set (e := mget m (entry_addr (S n) tbl va)) in *.
  destruct (_ && _) eqn:Ee; [|done]. f_equal. apply IH; [|done].
  intros i r Hi Hr. apply (Hf i (rt_under (Z.testbit e 2) (Z.testbit e 1) r) Hi).
  pose proof (reach_le _ _ _ _ _ _ Hr). rewrite reach_S by done. cbv zeta.
  fold e. by rewrite Ee, Hr.
Qed.

(** ** Trees of tables *)

(** Every table page occurs at one place of the tree below [r], tables are page
    aligned, and the entries of the upper levels fit the address bits. *)
Record ptree (m : gmap Z Z) (r : Z) : Prop := {
  pt_unique : ∀ j k va vb ra rb,
    reach m j 3 r va = Some ra → reach m k 3 r vb = Some rb → rt_tbl ra = rt_tbl rb →
    j = k ∧ region (S j) va = region (S j) vb;
  pt_aligned : ∀ k va ra, reach m k 3 r va = Some ra → rt_tbl ra mod 4096 = 0;
  pt_bound : ∀ k va ra, (1 ≤ k)%nat → reach m k 3 r va = Some ra →
    0 ≤ mget m (entry_addr k (rt_tbl ra) va) < 2 ^ 52;
}.

Lemma entry_addr_page k t va : t mod 4096 = 0 → page_of (entry_addr k t va) = t.
Proof.
  intros Ht. apply page_of_add; [done|].
  pose proof (Z.mod_pos_bound (va / span k) 512). lia.
Qed.

Lemma entry_hit m r j k va vb ra rb :
  ptree m r → reach m j 3 r va = Some ra → reach m k 3 r vb = Some rb →
  entry_addr j (rt_tbl ra) va = entry_addr k (rt_tbl rb) vb →
  j = k ∧ rt_tbl ra = rt_tbl rb ∧ region j va = region j vb.
Proof.
  intros Hp Ha Hb He. pose proof (reach_le _ _ _ _ _ _ Ha).
  assert (Ht : rt_tbl ra = rt_tbl rb).
  { rewrite <- (entry_addr_page j (rt_tbl ra) va) by by eapply pt_aligned.
    rewrite He. apply entry_addr_page. by eapply pt_aligned. }
  destruct (pt_unique _ _ Hp _ _ _ _ _ _ Ha Hb Ht) as [-> Hr].
  split_and!; [done|done|]. apply region_eq_iff; [done|]. split; [done|].
  unfold entry_addr in He. lia.
Qed.

Section StoreEntry.
Context (m : gmap Z Z) (r : Z) (Htree : ptree m r).
Context (k : nat) (v0 : Z) (r0 : rtab) (Hr0 : reach m k 3 r v0 = Some r0).
Context (e : Z).
#[local] Notation a := (entry_addr k (rt_tbl r0) v0).
#[local] Notation m' := (<[a := e]> m).

Lemma store_entry_miss vb :
  region k vb ≠ region k v0 →
  walk m' 3 r vb = walk m 3 r vb ∧ ∀ j, reach m' j 3 r vb = reach m j 3 r vb.
Proof using Htree Hr0.
  intros Hne. apply reach_frame. intros j rb Hrb. apply mget_insert_ne. intros Heq.
  destruct (entry_hit _ _ _ _ _ _ _ _ Htree Hr0 Hrb Heq) as (_ & _ & ?). congruence.
Qed.

Lemma store_entry_above vb j :
  (k ≤ j)%nat → reach m' j 3 r vb = reach m j 3 r vb.
Proof using Htree Hr0.
  apply reach_frame_ge. intros i rb Hi Hrb. apply mget_insert_ne. intros Heq.
  destruct (entry_hit _ _ _ _ _ _ _ _ Htree Hr0 Hrb Heq) as (? & _). lia.
Qed.

Lemma store_entry_hit vb :
  region k vb = region k v0 →
  reach m k 3 r vb = Some r0 ∧ entry_addr k (rt_tbl r0) vb = a.
Proof using Hr0.
  intros Heq. pose proof (reach_le _ _ _ _ _ _ Hr0).
  apply region_eq_iff in Heq as [Hreg Hidx]; [|done].
  split; [by rewrite (reach_region _ _ _ _ vb v0)|]. unfold entry_addr. lia.
Qed.

(** The walk of an address that uses the entry restarts at the entry's table. *)
Lemma store_entry_walk vb :
  region k vb = region k v0 →
  walk m' 3 r vb =
    (λ x, Xlat (x_pa x) (rt_user r0 && x_user x) (rt_write r0 && x_write x))
      <$> walk m' k (rt_tbl r0) vb.
Proof using Htree Hr0.
  intros Heq. apply walk_reach; [lia|]. rewrite store_entry_above by done.
  by apply store_entry_hit.
Qed.
End StoreEntry.

(** ** Hanging a table below a leaf or an absent entry *)

(** No table of the tree below [r] is the page [p]. *)
Definition fresh (m : gmap Z Z) (r p : Z) : Prop :=
  ∀ j va ra, reach m j 3 r va = Some ra → rt_tbl ra ≠ p.

Section Link.
Context (m : gmap Z Z) (r : Z) (Htree : ptree m r).
Context (k : nat) (v0 : Z) (r0 : rtab) (Hr0 : reach m (S k) 3 r v0 = Some r0).
Context (p f : Z) (Hp : is_page p) (Hfresh : fresh m r p).
Context (Hf : 0 ≤ f < 4096) (Hf0 : Z.testbit f 0 = true) (Hf7 : Z.testbit f 7 = false).
#[local] Notation a := (entry_addr (S k) (rt_tbl r0) v0).
#[local] Notation m' := (<[a := Z.lor p f]> m).
(** The new table translates as the entry did, and hangs alone. *)
Context (Hwalk : ∀ vb, region (S k) vb = region (S k) v0 →
  restrict f <$> walk m k p vb = walk m (S k) (rt_tbl r0) vb).
Context (Hbelow : ∀ j vb, (j < k)%nat → reach m j k p vb = None).

Lemma link_ne vb : entry_addr k p vb ≠ a.
Proof using Hr0 Hp Hfresh Htree.
  intros Heq. apply (Hfresh _ _ _ Hr0).
  rewrite <- (entry_addr_page (S k) (rt_tbl r0) v0), <- Heq by by eapply pt_aligned.
  apply entry_addr_page, Hp.
Qed.

Lemma link_sub vb :
  walk m' k p vb = walk m k p vb ∧ ∀ j, reach m' j k p vb = reach m j k p vb.
Proof using Hr0 Hp Hfresh Htree Hbelow.
  apply reach_frame. intros j rb Hrb. pose proof (reach_le _ _ _ _ _ _ Hrb).
  destruct (decide (j = k)) as [->|]; [|by rewrite Hbelow in Hrb by lia].
  rewrite reach_refl in Hrb. simplify_eq. apply mget_insert_ne, not_eq_sym, link_ne.
Qed.

Lemma link_entry :
  frame (Z.lor p f) = p ∧ Z.testbit (Z.lor p f) 0 = true ∧ Z.testbit (Z.lor p f) 7 = false.
Proof using Hp Hf Hf0 Hf7.
  destruct Hp as [? ?]. split; [apply frame_entry; lia|].
  by rewrite !testbit_entry by lia.
Qed.

Lemma link_walk vb : walk m' 3 r vb = walk m 3 r vb.
Proof using All.
  destruct (decide (region (S k) vb = region (S k) v0)) as [Heq|Hne].
  2:{ by apply (store_entry_miss m r Htree (S k) v0 r0 Hr0). }
  rewrite (store_entry_walk m r Htree (S k) v0 r0 Hr0) by done.
  destruct (store_entry_hit m r (S k) v0 r0 Hr0 vb Heq) as [Hvb Ha].
  rewrite (walk_reach m (S k) 3 r vb r0) by done. f_equal.
  destruct link_entry as (Efr & E0 & E7).
  rewrite <- Hwalk by done. cbn [walk]. cbv zeta.
  rewrite Ha, mget_insert_eq, E0, E7, Efr. rewrite (proj1 (link_sub vb)).
  destruct Hp as [_ Hal]. destruct (walk m k p vb) as [[]|]; [|done]. simpl. unfold restrict.
  by rewrite !testbit_entry by done.
Qed.

Lemma link_reach vb j :
  reach m' j 3 r vb =
    if bool_decide (region (S k) vb = region (S k) v0) && Nat.leb j k
    then if Nat.eqb j k
         then Some (Rtab p (rt_user r0 && Z.testbit f 2) (rt_write r0 && Z.testbit f 1))
         else None
    else reach m j 3 r vb.
Proof using Htree Hr0 Hp Hfresh Hf Hf0 Hf7 Hbelow.
  case_bool_decide as Heq; cbn [andb].
  2:{ by apply (store_entry_miss m r Htree (S k) v0 r0 Hr0). }
  destruct (Nat.leb_spec j k) as [Hj|Hj].
  2:{ apply (store_entry_above m r Htree (S k) v0 r0 Hr0). lia. }
  destruct (store_entry_hit m r (S k) v0 r0 Hr0 vb Heq) as [Hvb Ha].
  rewrite (reach_reach _ j (S k) 3 r vb r0); [|lia|].
  2:{ by rewrite (store_entry_above m r Htree (S k) v0 r0 Hr0). }
  rewrite reach_S by done. cbv zeta. rewrite Ha, mget_insert_eq.
  destruct link_entry as (Efr & E0 & E7). rewrite E0, E7, Efr. cbn [andb negb].
  destruct Hp as [_ Hal]. rewrite !testbit_entry by done.
  rewrite (proj2 (link_sub vb)). destruct (Nat.eqb_spec j k) as [->|].
  - rewrite reach_refl. unfold rt_under; simpl. by rewrite !andb_true_r.
  - by rewrite Hbelow by lia.
Qed.
End Link.

Section LinkTree.
Context (m : gmap Z Z) (r : Z) (Htree : ptree m r).
Context (k : nat) (v0 : Z) (r0 : rtab) (Hr0 : reach m (S k) 3 r v0 = Some r0).
Context (p f : Z) (Hp : is_page p) (Hfresh : fresh m r p).
Context (Hf : 0 ≤ f < 4096).
Context (m' : gmap Z Z) (Hm' : m' = <[entry_addr (S k) (rt_tbl r0) v0 := Z.lor p f]> m).
Context (Hreach : ∀ vb j, reach m' j 3 r vb =
    if bool_decide (region (S k) vb = region (S k) v0) && Nat.leb j k
    then if Nat.eqb j k
         then Some (Rtab p (rt_user r0 && Z.testbit f 2) (rt_write r0 && Z.testbit f 1))
         else None
    else reach m j 3 r vb).
Context (Hbound : ∀ vb, (1 ≤ k)%nat → 0 ≤ mget m (entry_addr k p vb) < 2 ^ 52).

(** The tables afterwards: the old ones and [p]. *)
Lemma link_tables j vb rb :
  reach m' j 3 r vb = Some rb →
  (rt_tbl rb = p ∧ j = k ∧ region (S k) vb = region (S k) v0) ∨ reach m j 3 r vb = Some rb.
Proof using Hreach.
  rewrite Hreach. case_bool_decide as Heq; cbn [andb]; [|by right].
  destruct (Nat.leb_spec j k); [|by right].
  destruct (Nat.eqb_spec j k); [|done]. intros [= <-]. by left.
Qed.

Lemma link_ptree : ptree m' r.
Proof using All.
  split.
  - intros i j va vb ra rb Ha Hb Heq.
    destruct (link_tables _ _ _ Ha) as [(Hpa & -> & Hra)|Ha'];
      destruct (link_tables _ _ _ Hb) as [(Hpb & -> & Hrb)|Hb'].
    + split; [done|congruence].
    + by destruct (Hfresh _ _ _ Hb'); congruence.
    + by destruct (Hfresh _ _ _ Ha'); congruence.
    + by eapply pt_unique.
  - intros j va ra Ha. destruct (link_tables _ _ _ Ha) as [(-> & _)|Ha']; [apply Hp|].
    by eapply pt_aligned.
  - intros j va ra Hj Ha.
    assert (Hpr := is_page_end _ Hp).
    destruct (decide (entry_addr j (rt_tbl ra) va = entry_addr (S k) (rt_tbl r0) v0)) as [He|He].
    { rewrite Hm', He, mget_insert_eq. rewrite lor_page_flags by (apply Hp || done).
      destruct Hp. lia. }
    rewrite Hm', mget_insert_ne by congruence.
    destruct (link_tables _ _ _ Ha) as [(-> & -> & _)|Ha']; [by apply Hbound|].
    by eapply pt_bound.
Qed.
End LinkTree.

(** ** Memories with the same translations *)

(** [m'] holds the same word as [m] at every entry the walks from [r] read. *)
Definition same_xlat (r : Z) (m m' : gmap Z Z) : Prop :=
  ∀ va j ra, reach m j 3 r va = Some ra →
    mget m' (entry_addr j (rt_tbl ra) va) = mget m (entry_addr j (rt_tbl ra) va).

Lemma same_xlat_walk r m m' va : same_xlat r m m' → walk m' 3 r va = walk m 3 r va.
Proof. intros Hs. apply reach_frame. intros. by eapply Hs. Qed.

Lemma same_xlat_reach r m m' va j : same_xlat r m m' → reach m' j 3 r va = reach m j 3 r va.
Proof. intros Hs. revert j. apply reach_frame. intros. by eapply Hs. Qed.

#[global] Instance same_xlat_equiv r : Equivalence (same_xlat r).
Proof.
  split.
  - by intros m va j ra Hr.
  - intros m m' Hs va j ra Hr. rewrite (same_xlat_reach _ _ _ _ _ Hs) in Hr.
    symmetry. by eapply Hs.
  - intros m1 m2 m3 H12 H23 va j ra Hr. rewrite <- (H12 _ _ _ Hr).
    eapply H23. by rewrite (same_xlat_reach _ _ _ _ _ H12).
Qed.

#[global] Instance ptree_proper r : Proper (same_xlat r ==> iff) (λ m, ptree m r).
Proof.
  assert (Hd : ∀ m m', same_xlat r m m' → ptree m r → ptree m' r).
  { intros m m' Hs [Hu Ha Hb]. split.
    - intros j k va vb ra rb. rewrite !(same_xlat_reach _ _ _ _ _ Hs). apply Hu.
    - intros k va ra. rewrite (same_xlat_reach _ _ _ _ _ Hs). apply Ha.
    - intros k va ra Hk. rewrite (same_xlat_reach _ _ _ _ _ Hs). intros Hr.
      rewrite (Hs _ _ _ Hr). by eapply Hb. }
  intros m m' Hs. split; apply Hd; [done|by symmetry].
Qed.

(** A store to a page that is no table. *)
Lemma same_xlat_insert r m a v :
  ptree m r → fresh m r (page_of a) → same_xlat r m (<[a := v]> m).
Proof.
  intros Ht Hf va j ra Hr. apply mget_insert_ne. intros ->. apply (Hf _ _ _ Hr).
  symmetry. apply entry_addr_page. by eapply pt_aligned.
Qed.

Lemma fresh_same_xlat r m m' p : same_xlat r m m' → fresh m r p → fresh m' r p.
Proof. intros Hs Hf j va ra. rewrite (same_xlat_reach _ _ _ _ _ Hs). apply Hf. Qed.

(** ** Ring-0 accesses at a known translation *)

Lemma load64_at `{Platform} s a pa :
  a mod 8 = 0 → phys_of s a = Some pa → load64 a s = Ok (mget (mem s) pa) s.
Proof. intros Ha Hp. unfold load64. by rewrite Ha, Z.eqb_refl, Hp. Qed.

Lemma store64_at `{Platform} s a pa v :
  a mod 8 = 0 → phys_of s a = Some pa → in_image pa = false →
  store64 a v s = Ok tt (set_mem (<[pa := u64 v]> (mem s)) s).
Proof. intros Ha Hp Hi. unfold store64. by rewrite Ha, Z.eqb_refl, Hp, Hi. Qed.

Lemma phys_of_walk s va x :
  canonical va = true → walk (mem s) 3 (frame (cr3 s)) va = Some x → phys_of s va = Some (x_pa x).
Proof. intros Hc Hw. unfold phys_of, translate. by rewrite Hc, Hw. Qed.

Lemma phys_of_same_xlat s s' va :
  cr3 s' = cr3 s → same_xlat (frame (cr3 s)) (mem s) (mem s') → phys_of s' va = phys_of s va.
Proof.
  intros Hc Hs. unfold phys_of, translate. rewrite Hc.
  destruct (canonical va); [|done]. by rewrite (same_xlat_walk _ _ _ _ Hs).
Qed.

#[global] Arguments walk : simpl never.
#[global] Arguments reach : simpl never.
#[global] Arguments u64 : simpl never.
#[global] Arguments u32 : simpl never.
#[global] Arguments u8 : simpl never.
