(* ===== verification/Serial.v ===== *)
(** * Serial: the kernel's console ([serial.c])

    [putc] polls the line-status register until the transmitter is empty, then
    writes the byte.  The device is a parameter; [UartLive] is what the code
    relies on: the transmitter becomes empty within the polling bound. *)

From S2P Require Import Prelude State Machine.

Section Serial.
Context `{Platform}.

(** [while ((inb(0x3FD) & 0x20) == 0);] *)
Fixpoint wait_tx (fuel : nat) : M unit :=
  match fuel with
  | O => λ _, OutOfFuel
  | S fuel' => v ← inb 0x3FD; if Z.land v 0x20 =? 0 then wait_tx fuel' else mret tt
  end.

Definition putc (c : Z) : M unit := wait_tx poll_fuel ;; outb 0x3F8 c.

(** A C string is the list of its characters up to the terminating 0. *)
Fixpoint puts (str : list Z) : M unit :=
  match str with
  | [] => mret tt
  | c :: str' => if c =? 0 then mret tt else putc c ;; puts str'
  end.

(** [n < 10 ? '0' + n : 'a' + n - 10] *)
Definition hex_digit (n : Z) : Z := if n <? 10 then 48 + n else 97 + n - 10.

(** The loop of [puthex] fills [buf] from index [i - 1] down to 0. *)
Fixpoint hex_loop (i : nat) (v : Z) (buf : list Z) : list Z :=
  match i with
  | O => buf
  | S i' => hex_loop i' (Z.shiftr v 4) (<[i' := hex_digit (Z.land v 0xF)]> buf)
  end.

Definition puthex (v : Z) : M unit := puts (<[16%nat := 0]> (hex_loop 16 (u64 v) (replicate 17 0))).

End Serial.

(** String literals of the source. *)
Definition chars (str : string) : list Z := (λ c, Z.of_N (Ascii.N_of_ascii c)) <$> String.list_ascii_of_string str.
Definition crlf : list Z := [13; 10].

(** ** What the code relies on *)

(** The history after [k] polls of the line-status register. *)
Fixpoint polled `{Platform} (k : nat) (h : list io_event) : list io_event :=
  match k with
  | O => h
  | S k' => polled k' (Inb 0x3FD (u8 (port_inb h 0x3FD)) :: h)
  end.

Definition tx_empty `{Platform} (h : list io_event) : bool :=
  Z.testbit (u8 (port_inb h 0x3FD)) 5.

(** From any history the transmitter reports empty within [poll_fuel] polls. *)
Class UartLive `{Platform} : Prop :=
  uart_live : ∀ h, ∃ k, (k < poll_fuel)%nat ∧ tx_empty (polled k h) = true.

(** The bytes written to the data register, oldest first. *)
Fixpoint transmitted (h : list io_event) : list Z :=
  match h with
  | [] => []
  | Outb p v :: h' => if p =? 0x3F8 then transmitted h' ++ [v] else transmitted h'
  | _ :: h' => transmitted h'
  end.

(** The characters of a C string: those before the first 0. *)
Fixpoint cstring (str : list Z) : list Z :=
  match str with
  | [] => []
  | c :: str' => if c =? 0 then [] else c :: cstring str'
  end.

(** ** Proofs *)

(** A run that only performs port accesses. *)
Definition io_only (s s' : kstate) : Prop := s' = set_io (io s') s.

#[global] Instance io_only_refl : Reflexive io_only.
Proof. intros []. done. Qed.

#[global] Instance io_only_trans : Transitive io_only.
Proof. intros s1 s2 s3 H12 H23. red in H12, H23 |- *. rewrite H12 in H23. done. Qed.

Section SerialProofs.
Context `{HP : Platform} {Huart : UartLive}.

Lemma transmitted_polled k h : transmitted (polled k h) = transmitted h.
Proof. revert h. induction k as [|k IH]; intros h; [done|]. simpl. by rewrite IH. Qed.

Lemma wait_tx_runs fuel s :
  (∃ k, (k < fuel)%nat ∧ tx_empty (polled k (io s)) = true) →
  runs (wait_tx fuel) s (λ _ s', io_only s s' ∧ transmitted (io s') = transmitted (io s)).
Proof.
  revert s. induction fuel as [|fuel IH]; intros s (k & Hk & He); [lia|].
  cbn [wait_tx]. apply runs_bind. unfold runs at 1, inb. change (u16 0x3FD) with 0x3FD.
  set (v := u8 (port_inb (io s) 0x3FD)). cbv zeta.
  change 0x20 with (2 ^ 5). rewrite land_pow2_testbit by lia.
  destruct (Z.testbit v 5) eqn:Hv; cbn [negb].
  { apply runs_ret. done. }
  destruct k as [|k].
  { change (Z.testbit v 5 = true) in He. congruence. }
  eapply runs_mono; [apply IH|].
  { exists k. split; [lia|]. done. }
  intros [] s' [Hio Htx]. split; [|by rewrite Htx].
  etrans; [|done]. done.
Qed.

Lemma putc_runs c s :
  runs (putc c) s (λ _ s', io_only s s' ∧ transmitted (io s') = transmitted (io s) ++ [u8 c]).
Proof.
  unfold putc. apply runs_bind. eapply runs_mono; [apply wait_tx_runs, uart_live|].
  intros [] s' [Hio Htx]. unfold runs, outb. change (u16 0x3F8) with 0x3F8. split.
  - etrans; [done|]. done.
  - simpl. by rewrite Htx.
Qed.

Lemma puts_runs str s :
  runs (puts str) s
    (λ _ s', io_only s s' ∧ transmitted (io s') = transmitted (io s) ++ (u8 <$> cstring str)).
Proof.
  revert s. induction str as [|c str IH]; intros s; simpl.
  { apply runs_ret. by rewrite app_nil_r. }
  destruct (c =? 0); simpl. { apply runs_ret. by rewrite app_nil_r. }
  apply runs_bind. eapply runs_mono; [apply putc_runs|]. intros [] s1 [Hio Htx].
  eapply runs_mono; [apply IH|]. intros [] s2 [Hio2 Htx2].
  split; [by etrans|]. by rewrite Htx2, Htx, <- app_assoc.
Qed.

(** *** Hexadecimal output *)

(** The low [i] nibbles of [v] as digits, most significant first. *)
Fixpoint hex_digits (i : nat) (v : Z) : list Z :=
  match i with
  | O => []
  | S i' => hex_digits i' (Z.shiftr v 4) ++ [hex_digit (Z.land v 0xF)]
  end.

Definition hex_digit_value (d : Z) : Z := if d <? 58 then d - 48 else d - 97 + 10.
Definition hex_value (ds : list Z) : Z := foldl (λ acc d, 16 * acc + hex_digit_value d) 0 ds.
Definition is_hex_digit (d : Z) : Prop := 48 ≤ d ≤ 57 ∨ 97 ≤ d ≤ 102.

Lemma land_15 v : Z.land v 0xF = v mod 16.
Proof. apply (land_ones_mod v 4). lia. Qed.

Lemma hex_digit_ok v : is_hex_digit (hex_digit (Z.land v 0xF)) ∧ hex_digit_value (hex_digit (Z.land v 0xF)) = v mod 16.
Proof.
  rewrite land_15. pose proof (Z.mod_pos_bound v 16).
  unfold is_hex_digit, hex_digit_value, hex_digit.
  destruct (Z.ltb_spec (v mod 16) 10); case_match; lia.
Qed.

Lemma hex_digits_length i v : length (hex_digits i v) = i.
Proof. revert v. induction i as [|i IH]; intros v; [done|]. simpl. rewrite length_app, IH. simpl. lia. Qed.

Lemma hex_digits_hex i v : Forall is_hex_digit (hex_digits i v).
Proof.
  revert v. induction i as [|i IH]; intros v; [done|]. simpl.
  apply Forall_app. split; [apply IH|]. apply Forall_singleton, hex_digit_ok.
Qed.

Lemma hex_digits_value i v : hex_value (hex_digits i v) = v mod 16 ^ Z.of_nat i.
Proof.
  revert v. induction i as [|i IH]; intros v.
  { simpl. by rewrite Z.mod_1_r. }
  cbn [hex_digits]. unfold hex_value in *. rewrite foldl_app, IH. cbn [foldl].
  rewrite (proj2 (hex_digit_ok v)).
  rewrite Z.shiftr_div_pow2 by lia. change (2 ^ 4) with 16.
  rewrite Nat2Z.inj_succ, Z.pow_succ_r by lia. rewrite Z.rem_mul_r; lia.
Qed.

Lemma hex_loop_digits i v buf :
  (i ≤ length buf)%nat → hex_loop i v buf = hex_digits i v ++ drop i buf.
Proof.
  revert v buf. induction i as [|i IH]; intros v buf Hi; [done|].
  cbn [hex_loop hex_digits]. rewrite IH by (rewrite length_insert; lia).
  rewrite <- app_assoc. f_equal. simpl.
  rewrite (drop_S _ (hex_digit (Z.land v 0xF)) i).
  - by rewrite drop_insert_lt by lia.
  - apply list_lookup_insert_eq. lia.
Qed.

Lemma cstring_nonzero l l' : Forall (λ c, c ≠ 0) l → cstring (l ++ 0 :: l') = l.
Proof.
  induction 1 as [|c l Hc _ IH]; [done|]. simpl.
  destruct (Z.eqb_spec c 0); [done|]. by rewrite IH.
Qed.

Lemma puthex_digits v :
  cstring (<[16%nat := 0]> (hex_loop 16 (u64 v) (replicate 17 0))) = hex_digits 16 (u64 v).
Proof.
  rewrite hex_loop_digits by (simpl; lia).
  rewrite insert_app_r_alt by (rewrite hex_digits_length; lia).
  rewrite hex_digits_length. simpl drop. simpl insert. apply cstring_nonzero.
  eapply Forall_impl; [apply hex_digits_hex|]. unfold is_hex_digit. lia.
Qed.

(** [puthex] transmits the sixteen digits of its argument. *)
Lemma puthex_runs v s :
  runs (puthex v) s (λ _ s', io_only s s' ∧
    ∃ ds, transmitted (io s') = transmitted (io s) ++ ds ∧
      length ds = 16%nat ∧ Forall is_hex_digit ds ∧ hex_value ds = u64 v).
Proof.
  eapply runs_mono; [apply puts_runs|]. intros [] s' [Hio Htx]. split; [done|].
  exists (hex_digits 16 (u64 v)). rewrite puthex_digits in Htx.
  split_and!; [|apply hex_digits_length|apply hex_digits_hex|].
  - rewrite Htx. f_equal. apply list_eq_same_length with 16%nat;
      rewrite ?length_fmap, ?hex_digits_length; [done..|].
    intros i x y Hi. rewrite list_lookup_fmap.
    intros Hx Hy. rewrite Hy in Hx. simpl in Hx. simplify_eq. apply u8_small.
    pose proof (Forall_lookup_1 _ _ _ _ (hex_digits_hex 16 (u64 v)) Hy) as Hd.
    unfold is_hex_digit in Hd. lia.
  - rewrite hex_digits_value. pose proof (u64_range v). apply Z.mod_small. exact H.
Qed.

End SerialProofs.

(** Steps over console output, keeping only that nothing else changed. *)
Ltac print_one :=
  eapply runs_mono;
  [ lazymatch goal with
    | |- runs (puts _) _ _ => apply puts_runs
    | |- runs (puthex _) _ _ => apply puthex_runs
    | |- runs (putc _) _ _ => apply putc_runs
    end
  | intros [] ? [? _] ].
Ltac print_step := apply runs_bind; print_one.
Ltac io_chain := repeat (first [eassumption | etrans; [eassumption|]]).
