(* ===== verification/Space.v ===== *)
(** * Space: the invariant of the kernel's view of memory

    [kwin W s]: under the tables CR3 points at, the pages of the window [W] are
    mapped to themselves, every table of the space lies in the window, and the
    tables form a tree.  [kfree W s fl]: the free-page stack is the list [fl] of
    distinct window pages, none of which is a table.  The allocator and the
    paging code are verified against these two. *)

From S2P Require Import Prelude State Machine Walk.

(** ** The linked stack of free pages *)

Fixpoint free_list (m : gmap Z Z) (head : Z) (l : list Z) : Prop :=
  match l with
  | [] => head = 0
  | p :: l' => head = p ∧ p ≠ 0 ∧ free_list m (mget m p) l'
  end.

Lemma free_list_ext m m' h l :
  (∀ p, p ∈ l → mget m' p = mget m p) → free_list m h l → free_list m' h l.
Proof.
  revert h. induction l as [|p l IH]; intros h He; [done|]. simpl.
  intros (-> & Hp & Hl). split_and!; [done..|]. rewrite He by set_solver.
  apply IH; [|done]. intros q Hq. apply He. set_solver.
Qed.

(** The stack determines the list. *)
Lemma free_list_fun m h l l' : free_list m h l → free_list m h l' → l = l'.
Proof.
  revert h l'. induction l as [|p l IH]; intros h [|q l']; simpl; [done|naive_solver..|].
  intros (-> & ? & Hl) (-> & ? & Hl'). f_equal. by eapply IH.
Qed.

(** ** The invariants *)

Section Space.
Context `{Platform}.

Record kwin (W : Z → Prop) (s : kstate) : Prop := {
  kw_root : paging_root s = cr3 s;
  kw_cr3 : is_page (cr3 s);
  kw_win : ∀ p, W p → is_page p;
  kw_image : ∀ p i, W p → 0 ≤ i < 4096 → in_image (p + i) = false;
  kw_ident : ∀ p i, W p → 0 ≤ i < 4096 → phys_of s (p + i) = Some (p + i);
  kw_tree : ptree (mem s) (cr3 s);
  kw_tables : ∀ k va ra, reach (mem s) k 3 (cr3 s) va = Some ra → W (rt_tbl ra);
}.

Record kfree (W : Z → Prop) (s : kstate) (fl : list Z) : Prop := {
  kf_list : free_list (mem s) (free_stack s) fl;
  kf_nodup : NoDup fl;
  kf_win : ∀ p, p ∈ fl → W p;
  kf_fresh : ∀ p, p ∈ fl → fresh (mem s) (cr3 s) p;
}.

Lemma kwin_cr3 W s : kwin W s → frame (cr3 s) = cr3 s.
Proof. intros Hw. apply frame_page. by eapply kw_cr3. Qed.

Lemma kwin_aligned W s p : kwin W s → W p → p mod 4096 = 0.
Proof. intros Hw Hp. by destruct (kw_win _ _ Hw p Hp). Qed.

(** ** Accesses to window pages *)

Lemma kwin_load W s p i :
  kwin W s → W p → 0 ≤ i < 512 → load64 (p + 8 * i) s = Ok (mget (mem s) (p + 8 * i)) s.
Proof.
  intros Hw Hp Hi. apply load64_at.
  - apply is_page_word; [by eapply kw_win|done].
  - by eapply kw_ident; [..|lia].
Qed.

Lemma kwin_store W s p i v :
  kwin W s → W p → 0 ≤ i < 512 →
  store64 (p + 8 * i) v s = Ok tt (set_mem (<[p + 8 * i := u64 v]> (mem s)) s).
Proof.
  intros Hw Hp Hi. apply store64_at.
  - apply is_page_word; [by eapply kw_win|done].
  - by eapply kw_ident; [..|lia].
  - by eapply kw_image; [..|lia].
Qed.

(** Any change of memory that keeps every translation keeps the window. *)
Lemma kwin_same_xlat W s m' :
  kwin W s → same_xlat (cr3 s) (mem s) m' → kwin W (set_mem m' s).
Proof.
  intros Hw Hs. split; simpl; try by eapply Hw.
  - intros p i Hp Hi. rewrite (phys_of_same_xlat s); [by eapply kw_ident|done|].
    by rewrite (kwin_cr3 _ _ Hw).
  - apply (ptree_proper _ _ _ Hs). by eapply kw_tree.
  - intros k va ra. rewrite (same_xlat_reach _ _ _ _ _ Hs). by eapply kw_tables.
Qed.

Lemma kwin_set_free_stack W s v : kwin W s → kwin W (set_free_stack v s).
Proof. intros Hw. split; simpl; by eapply Hw. Qed.

Lemma kwin_set_io W s h : kwin W s → kwin W (set_io h s).
Proof. intros Hw. split; simpl; by eapply Hw. Qed.

Lemma kfree_set_io W s fl h : kfree W s fl → kfree W (set_io h s) fl.
Proof. intros Hf. split; simpl; by eapply Hf. Qed.

Lemma kwin_insert W s p i v :
  kwin W s → is_page p → 0 ≤ i < 512 → fresh (mem s) (cr3 s) p →
  same_xlat (cr3 s) (mem s) (<[p + 8 * i := v]> (mem s)).
Proof.
  intros Hw [_ Hp] Hi Hf. apply same_xlat_insert; [by eapply kw_tree|].
  by rewrite page_of_add by lia.
Qed.

(** The free list survives a store to a page that is not on it. *)
Lemma kfree_insert W s fl p i v :
  kwin W s → kfree W s fl → is_page p → 0 ≤ i < 512 → p ∉ fl → fresh (mem s) (cr3 s) p →
  kfree W (set_mem (<[p + 8 * i := v]> (mem s)) s) fl.
Proof.
  intros Hw [Hl Hn Hwi Hfr] Hp Hi Hnin Hf. split; simpl; try done.
  - eapply free_list_ext; [|done]. intros q Hq. apply mget_insert_ne. intros Heq.
    apply Hnin. rewrite <- (page_of_add p (8 * i)), Heq by (apply Hp || lia).
    rewrite page_of_page; [done|]. eapply kwin_aligned; eauto.
  - intros q Hq. eapply fresh_same_xlat; [|by apply Hfr]. by eapply kwin_insert.
Qed.

(** ** Filling a page word by word *)

Fixpoint fill_from (g : Z → Z) (n : nat) (i p : Z) (m : gmap Z Z) : gmap Z Z :=
  match n with
  | O => m
  | S n' => fill_from g n' (i + 1) p (<[p + 8 * i := u64 (g i)]> m)
  end.

Lemma mget_fill_below g n i p m a : a < p + 8 * i → mget (fill_from g n i p m) a = mget m a.
Proof.
  revert i m. induction n as [|n IH]; intros i m Ha; [done|]. cbn [fill_from].
  rewrite IH by lia. apply mget_insert_ne. lia.
Qed.

Lemma mget_fill_in g n i p m j :
  i ≤ j < i + Z.of_nat n → mget (fill_from g n i p m) (p + 8 * j) = u64 (g j).
Proof.
  revert i m. induction n as [|n IH]; intros i m Hj; [lia|]. cbn [fill_from].
  destruct (decide (j = i)) as [->|]; [|apply IH; lia].
  rewrite mget_fill_below by lia. apply mget_insert_eq.
Qed.

Lemma mget_fill_out g n i p m a :
  p mod 4096 = 0 → 0 ≤ i → i + Z.of_nat n ≤ 512 → page_of a ≠ p →
  mget (fill_from g n i p m) a = mget m a.
Proof.
  intros Hp. revert i m. induction n as [|n IH]; intros i m Hi Hn Ha; [done|]. cbn [fill_from].
  rewrite IH by lia. apply mget_insert_ne. intros <-. apply Ha. apply page_of_add; [done|lia].
Qed.

Lemma fill_loop W g n i s p :
  kwin W s → W p → fresh (mem s) (cr3 s) p → 0 ≤ i → i + Z.of_nat n ≤ 512 →
  for_nat n i (λ i, store64 (p + 8 * i) (g i)) s = Ok tt (set_mem (fill_from g n i p (mem s)) s) ∧
  same_xlat (cr3 s) (mem s) (fill_from g n i p (mem s)).
Proof.
  revert i s. induction n as [|n IH]; intros i s Hw Hp Hf Hi Hn.
  { split; [by destruct s|reflexivity]. }
  cbn [for_nat fill_from]. unfold mbind, M_bind.
  rewrite (kwin_store W) by (done || lia).
  assert (Hs : same_xlat (cr3 s) (mem s) (<[p + 8 * i := u64 (g i)]> (mem s))).
  { eapply kwin_insert; [done|by eapply kw_win|lia|done]. }
  destruct (IH (i + 1) (set_mem (<[p + 8 * i := u64 (g i)]> (mem s)) s)) as [E Hs'].
  - by apply kwin_same_xlat.
  - done.
  - by eapply fresh_same_xlat.
  - lia.
  - lia.
  - split; [exact E|]. simpl in Hs'. by etrans.
Qed.

(** The loop [for (i = 0; i < 512; i++) p[i] = g(i)] on a page that is no table. *)
Lemma fill_page W g s p :
  kwin W s → W p → fresh (mem s) (cr3 s) p →
  ∃ m', for_nat 512 0 (λ i, store64 (p + 8 * i) (g i)) s = Ok tt (set_mem m' s) ∧
    same_xlat (cr3 s) (mem s) m' ∧
    (∀ i, 0 ≤ i < 512 → mget m' (p + 8 * i) = u64 (g i)) ∧
    (∀ a, page_of a ≠ p → mget m' a = mget (mem s) a).
Proof.
  intros Hw Hp Hf. destruct (fill_loop W g 512 0 s p) as [E Hs]; [done..|lia|].
  exists (fill_from g 512 0 p (mem s)). split_and!; [done|done|..].
  - intros i Hi. apply mget_fill_in. lia.
  - intros a Ha. apply mget_fill_out; try lia. by destruct (kw_win _ _ Hw p Hp).
Qed.

End Space.

#[global] Arguments fill_from : simpl never.

(** ** Byte-wise reads of a window page *)

Fixpoint mem_bytes (m : gmap Z Z) (a : Z) (n : nat) : list Z :=
  match n with
  | O => []
  | S n' => byte_of (mget m (align_down 3 a)) (a mod 8) :: mem_bytes m (a + 1) n'
  end.

Definition mem_le (m : gmap Z Z) (a : Z) (n : nat) : Z := little_endian_to_Z 8 (mem_bytes m a n).

Lemma page_of_align_down_3 p a : p mod 4096 = 0 → p ≤ a < p + 4096 → page_of (align_down 3 a) = p.
Proof.
  intros Hp Ha. rewrite align_down_sub by lia.
  pose proof (Z.mod_pos_bound a (2 ^ 3)). pose proof (Z.mod_le (a - p) (2 ^ 3)).
  assert ((a - p) mod 2 ^ 3 = a mod 2 ^ 3).
  { rewrite (Z.div_mod p 4096), Hp, Z.add_0_r by lia.
    replace (a - 4096 * (p / 4096)) with (a + - (512 * (p / 4096)) * 2 ^ 3) by lia.
    apply Z_mod_plus_full. }
  replace (a - a mod 2 ^ 3) with (p + (a - p - a mod 2 ^ 3)) by lia.
  apply page_of_add; lia.
Qed.

Lemma mem_bytes_frame m m' p a n :
  p mod 4096 = 0 → (∀ b, page_of b = p → mget m' b = mget m b) →
  p ≤ a → a + Z.of_nat n ≤ p + 4096 → mem_bytes m' a n = mem_bytes m a n.
Proof.
  intros Hp Hm. revert a. induction n as [|n IH]; intros a Ha Hn; [done|]. simpl.
  rewrite IH by lia. f_equal. rewrite Hm; [done|]. apply page_of_align_down_3; lia.
Qed.

Lemma mem_le_frame m m' p a n :
  p mod 4096 = 0 → (∀ b, page_of b = p → mget m' b = mget m b) →
  p ≤ a → a + Z.of_nat n ≤ p + 4096 → mem_le m' a n = mem_le m a n.
Proof. intros. unfold mem_le. by erewrite mem_bytes_frame. Qed.

Lemma kwin_load_bytes `{Platform} W s p a n :
  kwin W s → W p → p ≤ a → a + Z.of_nat n ≤ p + 4096 →
  load_bytes n a s = Ok (mem_bytes (mem s) a n) s.
Proof.
  intros Hw Hp. revert a. induction n as [|n IH]; intros a Ha Hn; [done|].
  cbn [load_bytes mem_bytes]. unfold mbind, M_bind, load8.
  replace a with (p + (a - p)) at 1 by lia. rewrite (kw_ident _ _ Hw) by (done || lia).
  replace (p + (a - p)) with a by lia.
  destruct (kw_win _ _ Hw p Hp). destruct n as [|n]; [done|].
  rewrite u64_small by lia. rewrite IH by lia. done.
Qed.

Lemma kwin_load_le `{Platform} W s p a n :
  kwin W s → W p → p ≤ a → a + Z.of_nat n ≤ p + 4096 →
  load_le n a s = Ok (mem_le (mem s) a n) s.
Proof.
  intros. unfold load_le, mbind, M_bind. by rewrite (kwin_load_bytes W s p) by done.
Qed.
