(* ===== verification/Pmm.v ===== *)
(** * Pmm: the physical page allocator ([pmm.c])

    Free pages are linked through their own first word.  [pmm_init] builds the
    stack from the E820 map the boot loader left at 0x4000. *)

From S2P Require Import Prelude State Machine Walk Serial Space.

Section Pmm.
Context `{Platform}.

Definition E820_BASE : Z := 0x4000.

(** [e820_entry_t] is packed: base at 0, len at 8, type at 16, attrs at 20. *)
Definition e820_entry (i : Z) : Z := E820_BASE + 4 + 24 * i.

(** [(start + PAGE_SIZE - 1) & ~(PAGE_SIZE - 1)] and [end & ~(PAGE_SIZE - 1)]. *)
Definition page_up (x : Z) : Z := Z.land (u64 (x + PAGE_SIZE - 1)) (Z.lnot (PAGE_SIZE - 1)).
Definition page_down (x : Z) : Z := Z.land x (Z.lnot (PAGE_SIZE - 1)).

(** The three [continue] tests of the inner loop. *)
Definition pmm_skip (addr : Z) : bool :=
  ((0x1000 <=? addr) && (addr <? 0x4000)) ||
  ((0x7C00 <=? addr) && (addr <? 0x8600)) ||
  ((0x100000 <=? addr) && (addr <? kernel_end)).

(** The body of the inner loop. *)
Definition pmm_push (addr : Z) : M (option unit) :=
  if pmm_skip addr then mret None
  else
    fs ← gets free_stack;
    store64 addr fs ;;
    modify (set_free_stack addr) ;;
    mret None.

(** The body of the outer loop, for entry [i]. *)
Definition pmm_entry (i : Z) : M unit :=
  let e := e820_entry i in
  ty ← load32 (e + 16);
  if negb (ty =? 1) then mret tt
  else
    base ← load64 e;
    len ← load64 (e + 8);
    let start := base in
    let end_ := u64 (base + len) in
    let start := if start <? 0x100000 then 0x100000 else start in
    if end_ <=? start then mret tt
    else
      let start := page_up start in
      let end_ := page_down end_ in
      for_step (step_fuel start end_ PAGE_SIZE) start end_ PAGE_SIZE pmm_push ;;
      mret tt.

Definition pmm_init : M unit :=
  count ← load32 E820_BASE;
  puts (chars "[kernel] E820 entries: ") ;;
  puthex count ;;
  puts crlf ;;
  for_nat (Z.to_nat count) 0 pmm_entry ;;
  puts (chars "[kernel] PMM ready" ++ crlf).

Definition pmm_alloc_page : M Z :=
  fs ← gets free_stack;
  if fs =? 0 then mret 0
  else
    next ← load64 fs;
    modify (set_free_stack next) ;;
    for_nat (Z.to_nat (PAGE_SIZE / 8)) 0 (λ i, store64 (fs + 8 * i) 0) ;;
    mret fs.

Definition pmm_free_page (addr : Z) : M unit :=
  fs ← gets free_stack;
  store64 addr fs ;;
  modify (set_free_stack addr).

End Pmm.

(** ** The contract of the allocator *)

Section PmmProofs.
Context `{Platform} (W : Z → Prop).

(** What a client of the allocator may rely on: it returns 0 and changes nothing
    when the stack is empty, and otherwise returns the top page, filled with
    zeros, off the stack, with every translation and every other page as
    before. *)
Class AllocContract (alloc : M Z) : Prop :=
  alloc_runs : ∀ s fl, kwin W s → kfree W s fl →
    match fl with
    | [] => alloc s = Ok 0 s
    | p :: fl' =>
      ∃ s', alloc s = Ok p s' ∧
        s' = set_mem (mem s') (set_free_stack (free_stack s') s) ∧
        p ≠ 0 ∧ W p ∧ p ∉ fl' ∧ kwin W s' ∧ kfree W s' fl' ∧
        fresh (mem s') (cr3 s') p ∧ same_xlat (cr3 s) (mem s) (mem s') ∧
        (∀ i, 0 ≤ i < 512 → mget (mem s') (p + 8 * i) = 0) ∧
        (∀ a, page_of a ≠ p → mget (mem s') a = mget (mem s) a)
    end.

#[global] Instance pmm_alloc_contract : AllocContract pmm_alloc_page.
Proof.
  intros s fl Hw [Hl Hn Hwi Hfr]. unfold pmm_alloc_page, mbind, M_bind, gets. cbv beta iota.
  destruct fl as [|p fl]; simpl in Hl.
  { by rewrite Hl, Z.eqb_refl. }
  destruct Hl as (Hh & Hp & Hl). rewrite Hh. destruct (Z.eqb_spec p 0); [done|].
  assert (HWp : W p) by (apply Hwi; set_solver).
  assert (Hfp : fresh (mem s) (cr3 s) p) by (apply Hfr; set_solver).
  assert (Hpg : is_page p) by by eapply kw_win.
  apply NoDup_cons in Hn as [Hnin Hn].
  replace (load64 p s) with (load64 (p + 8 * 0) s) by by rewrite Z.add_0_r.
  rewrite (kwin_load W) by (done || lia). unfold modify. rewrite Z.add_0_r.
  change (Z.to_nat (PAGE_SIZE / 8)) with 512%nat.
  destruct (fill_page W (λ _, 0) (set_free_stack (mget (mem s) p) s) p)
    as (m' & E & Hs & Hin & Hout); [by apply kwin_set_free_stack|done|done|].
  rewrite E. clear E. simpl in Hs, Hout. exists (set_mem m' (set_free_stack (mget (mem s) p) s)).
  split; [reflexivity|]. simpl.
  split_and!; try done.
  - apply (kwin_same_xlat W (set_free_stack _ s)); [by apply kwin_set_free_stack|done].
  - split; simpl; try done.
    + eapply free_list_ext; [|done]. intros q Hq. apply Hout.
      rewrite page_of_page; [by intros ->|]. eapply kwin_aligned; [done|]. apply Hwi. by right.
    + intros q Hq. apply Hwi. by right.
    + intros q Hq. eapply fresh_same_xlat; [done|]. apply Hfr. by right.
  - by eapply fresh_same_xlat.
Qed.

(** Freeing pushes: the page becomes the top of the stack. *)
Lemma pmm_free_page_runs s fl p :
  kwin W s → kfree W s fl → W p → p ≠ 0 → p ∉ fl → fresh (mem s) (cr3 s) p →
  ∃ s', pmm_free_page p s = Ok tt s' ∧
    s' = set_mem (<[p := free_stack s]> (mem s)) (set_free_stack p s) ∧
    kwin W s' ∧ kfree W s' (p :: fl) ∧ same_xlat (cr3 s) (mem s) (mem s').
Proof.
  intros Hw Hf Hp Hp0 Hnin Hfr. assert (Hpg : is_page p) by by eapply kw_win.
  assert (Hfs : u64 (free_stack s) = free_stack s).
  { destruct Hf as [Hl _ Hwi _]. apply u64_small. destruct fl as [|q fl]; simpl in Hl; [lia|].
    destruct Hl as (-> & _). destruct (kw_win _ _ Hw q) as [? _]; [apply Hwi; set_solver|lia]. }
  assert (Hs : same_xlat (cr3 s) (mem s) (<[p := free_stack s]> (mem s))).
  { pose proof (kwin_insert W s p 0 (free_stack s) Hw Hpg ltac:(lia) Hfr) as Hs.
    by rewrite Z.add_0_r in Hs. }
  eexists. split; [|split; [reflexivity|]].
  { unfold pmm_free_page, mbind, M_bind, gets, modify.
    replace (store64 p (free_stack s) s) with (store64 (p + 8 * 0) (free_stack s) s)
      by by rewrite Z.add_0_r.
    rewrite (kwin_store W) by (done || lia). rewrite Z.add_0_r, Hfs. done. }
  split_and!.
  - apply (kwin_same_xlat W (set_free_stack p s)); [by apply kwin_set_free_stack|done].
  - destruct Hf as [Hl Hn Hwi Hfr']. split; simpl.
    + split_and!; [done..|]. rewrite mget_insert_eq. eapply free_list_ext; [|done].
      intros q Hq. apply mget_insert_ne. set_solver.
    + by apply NoDup_cons.
    + intros q [->|Hq]%elem_of_cons; [done|by apply Hwi].
    + intros q [->|Hq]%elem_of_cons; (eapply fresh_same_xlat; [done|]); [done|by apply Hfr'].
  - done.
Qed.

(** ** Initialisation from the E820 map *)

(** The reference: which pages an entry contributes, in address order. *)
Record e820_entry_t := E820 { e_base : Z; e_len : Z; e_type : Z }.

Definition e820_at (m : gmap Z Z) (i : Z) : e820_entry_t :=
  E820 (mem_le m (e820_entry i) 8) (mem_le m (e820_entry i + 8) 8) (mem_le m (e820_entry i + 16) 4).

Definition e820_count (m : gmap Z Z) : Z := mem_le m E820_BASE 4.

Definition e820_map (m : gmap Z Z) : list e820_entry_t := e820_at m <$> seqZ 0 (e820_count m).

Definition pages_between (a b : Z) : list Z := (λ i, a + 4096 * i) <$> seqZ 0 ((b - a) / 4096).

Definition usable_pages (e : e820_entry_t) : list Z :=
  let hi := u64 (e_base e + e_len e) in
  let lo := Z.max (e_base e) 0x100000 in
  if bool_decide (e_type e = 1 ∧ lo < hi)
  then filter (λ p, pmm_skip p = false) (pages_between (page_up lo) (page_down hi))
  else [].

(** The pages of [ps] pushed one after the other. *)
Definition pushed (s : kstate) (ps : list Z) (s' : kstate) : Prop :=
  kwin W s' ∧ cr3 s' = cr3 s ∧ same_xlat (cr3 s) (mem s) (mem s') ∧
  ∀ a, page_of a ∉ ps → mget (mem s') a = mget (mem s) a.

Lemma pages_between_nil a b : b < a + 4096 → pages_between a b = [].
Proof.
  intros Hab. unfold pages_between. rewrite seqZ_nil; [done|].
  assert ((b - a) / 4096 < 1) by (apply Z.div_lt_upper_bound; lia). lia.
Qed.

Lemma pages_between_cons a b : a + 4096 ≤ b → pages_between a b = a :: pages_between (a + 4096) b.
Proof.
  intros Hab. unfold pages_between.
  replace (b - a) with (b - (a + 4096) + 1 * 4096) by lia. rewrite Z.div_add by lia.
  assert (0 ≤ (b - (a + 4096)) / 4096) by (apply Z.div_pos; lia).
  rewrite seqZ_cons by lia. cbn [fmap list_fmap]. f_equal; [lia|].
  change (Z.succ 0) with (1 + 0). replace (Z.pred _) with ((b - (a + 4096)) / 4096) by lia.
  rewrite <- fmap_add_seqZ, <- list_fmap_compose. apply list_fmap_ext.
  intros i x _. unfold compose. lia.
Qed.

Lemma pushed_refl s ps : kwin W s → pushed s ps s.
Proof. intros Hw. split_and!; [done|done|reflexivity|]. by intros. Qed.

Lemma pmm_push_runs s fl p :
  kwin W s → kfree W s fl → (pmm_skip p = false → W p ∧ p ≠ 0 ∧ p ∉ fl ∧ fresh (mem s) (cr3 s) p) →
  ∃ s', pmm_push p s = Ok None s' ∧ pushed s (if pmm_skip p then [] else [p]) s' ∧
    kfree W s' (if pmm_skip p then fl else p :: fl).
Proof.
  intros Hw Hf Hp. unfold pmm_push. destruct (pmm_skip p).
  { exists s. split; [done|]. split; [|done]. by apply pushed_refl. }
  destruct Hp as (HWp & Hp0 & Hnin & Hfr); [done|].
  destruct (pmm_free_page_runs s fl p) as (s' & E & Es' & Hw' & Hf' & Hs'); [done..|].
  exists s'. split.
  { revert E. unfold pmm_free_page, mbind, M_bind, gets, modify.
    destruct (store64 p (free_stack s) s) as [[] s1| | | |]; try done. by intros [= <-]. }
  split; [|done]. subst s'. split_and!; [done|done|done|]. simpl. intros a Ha. apply mget_insert_ne.
  intros <-. apply Ha. rewrite page_of_page; [set_solver|]. by eapply kwin_aligned.
Qed.

Lemma pushed_trans s1 s2 s3 ps qs :
  pushed s1 ps s2 → pushed s2 qs s3 → pushed s1 (ps ++ qs) s3.
Proof.
  intros (Hw2 & Hc2 & Hs2 & Hm2) (Hw3 & Hc3 & Hs3 & Hm3). rewrite Hc2 in Hs3. split_and!.
  - done.
  - congruence.
  - by etrans.
  - intros a Ha. rewrite Hm3, Hm2; set_solver.
Qed.

(** The inner loop pushes the pages of the range that are not skipped. *)
Lemma push_loop n v e s fl :
  n = Z.to_nat ((e - v) / 4096 + 1) → 0 ≤ v → v mod 4096 = 0 → e mod 4096 = 0 → e < 2 ^ 64 →
  kwin W s → kfree W s fl →
  let ps := filter (λ p, pmm_skip p = false) (pages_between v e) in
  NoDup (rev ps ++ fl) → (∀ p, p ∈ ps → W p ∧ p ≠ 0 ∧ fresh (mem s) (cr3 s) p) →
  ∃ s', for_step n v e 4096 pmm_push s = Ok None s' ∧
    pushed s ps s' ∧ kfree W s' (rev ps ++ fl).
Proof.
  revert v s fl. induction n as [|n IH]; intros v s fl Hn Hv Hva Hea He Hw Hf ps Hnd Hps.
  { assert (e < v).
    { destruct (decide (e < v)); [done|]. assert (0 ≤ (e - v) / 4096) by (apply Z.div_pos; lia). lia. }
    subst ps. rewrite pages_between_nil by lia. cbn [for_step].
    destruct (Z.ltb_spec v e); [lia|]. exists s. split; [done|]. split; [|done].
    by apply pushed_refl. }
  cbn [for_step]. destruct (Z.ltb_spec v e) as [Hlt|Hge].
  2:{ subst ps. rewrite pages_between_nil by lia. exists s. split; [done|]. split; [|done].
      by apply pushed_refl. }
  assert (Hstep : v + 4096 ≤ e).
  { pose proof (Z.div_mod v 4096). pose proof (Z.div_mod e 4096).
    assert (v / 4096 < e / 4096) by lia. lia. }
  subst ps. rewrite pages_between_cons in * by done.
  rewrite filter_cons in Hnd, Hps |- *.
  destruct (pmm_push_runs s fl v) as (s1 & E1 & Hp1 & Hf1); [done|done|..].
  { intros Hsk. rewrite decide_True in Hnd, Hps by done. destruct (Hps v) as (?&?&?); [set_solver|].
    split_and!; try done. simpl in Hnd. rewrite <- app_assoc in Hnd. apply NoDup_app in Hnd as (_ & _ & Hnd).
    simpl in Hnd. by apply NoDup_cons in Hnd as [??]. }
  unfold mbind, M_bind. rewrite E1. destruct Hp1 as (Hw1 & Hc1 & Hs1 & Hm1).
  rewrite u64_small by lia.
  destruct (IH (v + 4096) s1 (if pmm_skip v then fl else v :: fl)) as (s2 & E2 & Hp2 & Hf2); try done; try lia.
  - replace (e - v) with (e - (v + 4096) + 1 * 4096) in Hn by lia.
    rewrite Z.div_add in Hn by lia. lia.
  - rewrite <- Hva. replace (v + 4096) with (v + 1 * 4096) by lia. apply Z_mod_plus_full.
  - destruct (pmm_skip v); case_decide; try done. simpl in Hnd. by rewrite <- app_assoc in Hnd.
  - intros p Hp. destruct (Hps p) as (?&?&?). { case_decide; set_solver. }
    split_and!; [done|done|]. rewrite Hc1. by eapply fresh_same_xlat.
  - exists s2. split; [done|]. split.
    + replace (if decide _ then _ else _) with
        ((if pmm_skip v then [] else [v]) ++ filter (λ p, pmm_skip p = false) (pages_between (v + 4096) e))
        by (destruct (pmm_skip v); by case_decide).
      apply (pushed_trans s s1 s2); [by split_and!|done].
    + destruct (pmm_skip v); case_decide; try done. simpl. by rewrite <- app_assoc.
Qed.

(** What the map may contain: ranges of the physical address space. *)
Definition e820_wf (e : e820_entry_t) : Prop :=
  0 ≤ e_base e ∧ 0 ≤ e_len e ∧ e_base e + e_len e ≤ 2 ^ 52.

Lemma page_down_eq x : page_down x = page_of x.
Proof. apply (land_lnot_ones x 12). lia. Qed.

Lemma page_up_bounds x : 0 ≤ x ≤ 2 ^ 52 → x ≤ page_up x < x + 4096 ∧ page_up x mod 4096 = 0.
Proof.
  intros Hx. unfold page_up, PAGE_SIZE. rewrite u64_small by lia.
  change (4096 - 1) with (2 ^ 12 - 1). rewrite land_lnot_ones by lia. change (2 ^ 12) with 4096.
  pose proof (Z.mod_pos_bound (x + 4096 - 1) 4096). split; [lia|].
  apply (page_of_aligned (x + 4096 - 1)).
Qed.

Lemma elem_of_pages_between a b p :
  a mod 4096 = 0 → b mod 4096 = 0 → p ∈ pages_between a b → a ≤ p ∧ p + 4096 ≤ b ∧ p mod 4096 = 0.
Proof.
  intros Ha Hb (i & -> & Hi)%list_elem_of_fmap. apply elem_of_seqZ in Hi.
  pose proof (Z.mul_div_le (b - a) 4096). split_and!; [lia|lia|].
  rewrite Z.mul_comm, Z_mod_plus_full. done.
Qed.

(** A usable page lies in its entry's range, above 1 MiB and off the kernel image. *)
Lemma usable_pages_bounds e p :
  e820_wf e → p ∈ usable_pages e →
  e_base e ≤ p ∧ p + 4096 ≤ e_base e + e_len e ∧ 0x100000 ≤ p ∧ kernel_end ≤ p ∧ p mod 4096 = 0.
Proof.
  intros (Hb & Hl & Hs). unfold usable_pages. case_bool_decide as Hc; [|set_solver].
  destruct Hc as [_ Hc]. rewrite u64_small in * by lia.
  rewrite list_elem_of_filter. intros [Hsk Hp].
  pose proof (page_up_bounds (e_base e `max` 0x100000) ltac:(lia)) as [Hu Hua].
  rewrite page_down_eq in Hp.
  apply elem_of_pages_between in Hp as (H1 & H2 & H3); [|done|apply page_of_aligned].
  pose proof (Z.mod_pos_bound (e_base e + e_len e) 4096). unfold page_of in H2.
  unfold pmm_skip in Hsk. lia.
Qed.

Lemma kwin_load64_unaligned s p a :
  kwin W s → W p → p ≤ a → a + 8 ≤ p + 4096 → a mod 8 ≠ 0 → load64 a s = Ok (mem_le (mem s) a 8) s.
Proof.
  intros Hw Hp Ha1 Ha2 Ha. unfold load64. destruct (Z.eqb_spec (a mod 8) 0); [done|].
  by apply (kwin_load_le W s p).
Qed.

Lemma e820_entry_mod i : e820_entry i mod 8 = 4 ∧ (e820_entry i + 8) mod 8 = 4.
Proof.
  unfold e820_entry, E820_BASE. split.
  - replace (0x4000 + 4 + 24 * i) with (4 + (2048 + 3 * i) * 8) by lia. apply Z_mod_plus_full.
  - replace (0x4000 + 4 + 24 * i + 8) with (4 + (2049 + 3 * i) * 8) by lia. apply Z_mod_plus_full.
Qed.

Lemma pmm_entry_runs i s fl :
  kwin W s → kfree W s fl → W E820_BASE → 0 ≤ i < 170 →
  e820_wf (e820_at (mem s) i) →
  let ps := usable_pages (e820_at (mem s) i) in
  NoDup (rev ps ++ fl) → (∀ p, p ∈ ps → W p ∧ fresh (mem s) (cr3 s) p) →
  ∃ s', pmm_entry i s = Ok tt s' ∧ pushed s ps s' ∧ kfree W s' (rev ps ++ fl).
Proof.
  intros Hw Hf HW Hi Hwf ps Hnd Hps. unfold pmm_entry, mbind, M_bind.
  destruct (e820_entry_mod i) as [Hm1 Hm2].
  unfold load32. rewrite (kwin_load_le W s E820_BASE) by (done || (unfold e820_entry; lia)).
  assert (Hb := usable_pages_bounds (e820_at (mem s) i)).
  subst ps. unfold usable_pages in *. unfold e820_at in *. cbn [e_base e_len e_type] in *.
  destruct (Z.eqb_spec (mem_le (mem s) (e820_entry i + 16) 4) 1) as [Hty|Hty]; cbn [negb].
  2:{ rewrite bool_decide_eq_false_2 by tauto. exists s. split; [done|]. split; [|done]. by apply pushed_refl. }
  rewrite !(kwin_load64_unaligned s E820_BASE) by (done || lia || (unfold e820_entry; lia)).
  set (base := mem_le (mem s) (e820_entry i) 8) in *.
  set (len := mem_le (mem s) (e820_entry i + 8) 8) in *.
  replace (if base <? 1048576 then 1048576 else base) with (base `max` 0x100000)
    by (destruct (Z.ltb_spec base 0x100000); lia).
  destruct (Z.leb_spec (u64 (base + len)) (base `max` 0x100000)).
  { rewrite bool_decide_eq_false_2 by lia. exists s. split; [done|]. split; [|done]. by apply pushed_refl. }
  rewrite bool_decide_eq_true_2 in * by done.
  destruct Hwf as (Hwb & Hwl & Hws). cbn [e_base e_len e_type] in *.
  rewrite u64_small in * by lia.
  destruct (push_loop (step_fuel (page_up (base `max` 0x100000)) (page_down (base + len)) 4096)
    (page_up (base `max` 0x100000)) (page_down (base + len)) s fl) as (s' & E & Hp & Hf'); try done.
  - destruct (page_up_bounds (base `max` 0x100000)); lia.
  - apply page_up_bounds. lia.
  - rewrite page_down_eq. apply page_of_aligned.
  - rewrite page_down_eq. unfold page_of. pose proof (Z.mod_pos_bound (base + len) 4096). lia.
  - intros p Hp. destruct (Hps p Hp) as [??]. split_and!; [done| |done].
    destruct (Hb p); [by split_and!|done|lia].
  - change PAGE_SIZE with 4096. rewrite E. exists s'. done.
Qed.

Lemma kwin_io_only s s' : io_only s s' → kwin W s → kwin W s'.
Proof. intros ->. apply kwin_set_io. Qed.

Lemma kfree_io_only s s' fl : io_only s s' → kfree W s fl → kfree W s' fl.
Proof. intros ->. apply kfree_set_io. Qed.

Lemma pushed_io_only s s1 s2 ps : io_only s1 s2 → pushed s ps s1 → pushed s ps s2.
Proof. intros -> (Hw & Hc & Hs & Hm). split_and!; try done. by apply kwin_set_io. Qed.

Lemma e820_at_frame m m' i :
  (∀ b, page_of b = E820_BASE → mget m' b = mget m b) → 0 ≤ i < 170 → e820_at m' i = e820_at m i.
Proof.
  intros Hm Hi. unfold e820_at, e820_entry.
  f_equal; apply (mem_le_frame m m' E820_BASE); done || (unfold E820_BASE; lia).
Qed.

(** All the pages the map makes usable, in the order they are pushed. *)
Definition all_usable (m : gmap Z Z) : list Z := e820_map m ≫= usable_pages.

Lemma elem_of_all_usable m p :
  Forall e820_wf (e820_map m) → p ∈ all_usable m → 0x100000 ≤ p ∧ kernel_end ≤ p ∧ p mod 4096 = 0.
Proof.
  intros Hwf (e & Hp & He)%list_elem_of_bind. rewrite Forall_forall in Hwf.
  apply usable_pages_bounds in Hp; [tauto|]. by apply Hwf.
Qed.

Lemma e820_map_take_S m j :
  0 ≤ j < e820_count m →
  take (Z.to_nat (j + 1)) (e820_map m) = take (Z.to_nat j) (e820_map m) ++ [e820_at m j].
Proof.
  intros Hj. rewrite Z2Nat.inj_add, Nat.add_1_r by lia. apply take_S_r.
  unfold e820_map. rewrite list_lookup_fmap, lookup_seqZ_lt by lia. simpl. f_equal. f_equal. lia.
Qed.

Lemma NoDup_rev_take {A B} (f : A → list B) l n :
  NoDup (l ≫= f) → NoDup (rev (take n l ≫= f)).
Proof.
  rewrite <- (take_drop n l) at 1. rewrite bind_app. intros Hn.
  apply NoDup_app in Hn as [Hn _]. by rewrite <- Permutation_rev.
Qed.

Context {Huart : UartLive}.

(** [pmm_init] on a sound E820 map: it returns with the free stack holding
    exactly the usable pages, last pushed first; the window and all other memory
    are as before. *)
Lemma pmm_init_runs s :
  kwin W s → free_stack s = 0 → W E820_BASE → e820_count (mem s) ≤ 170 →
  Forall e820_wf (e820_map (mem s)) → NoDup (all_usable (mem s)) →
  (∀ p, p ∈ all_usable (mem s) → W p ∧ fresh (mem s) (cr3 s) p) →
  runs pmm_init s (λ _ s', pushed s (all_usable (mem s)) s' ∧ kfree W s' (rev (all_usable (mem s)))).
Proof.
  intros Hw Hfs HW Hcnt Hwf Hnd Hps. unfold pmm_init. apply runs_bind.
  unfold load32. unfold runs at 1. rewrite (kwin_load_le W s E820_BASE) by (done || lia).
  apply runs_bind. eapply runs_mono; [apply puts_runs|]. intros [] s1 [Hio1 _].
  apply runs_bind. eapply runs_mono; [apply puthex_runs|]. intros [] s2 [Hio2 _].
  apply runs_bind. eapply runs_mono; [apply puts_runs|]. intros [] s3 [Hio3 _].
  assert (Hio : io_only s s3) by (by do 2 (etrans; [done|])). clear s1 s2 Hio1 Hio2 Hio3.
  set (I := λ j s', let ps := take (Z.to_nat j) (e820_map (mem s)) ≫= usable_pages in
    pushed s ps s' ∧ kfree W s' (rev ps)).
  apply runs_bind. eapply runs_mono.
  - apply (runs_for_nat _ 0 _ _ I).
    { split; [eapply pushed_io_only; [done|by apply pushed_refl]|].
      eapply kfree_io_only; [done|]. split; simpl; [done|constructor|set_solver..]. }
    intros j s' Hj [Hp Hf]. destruct (Hp) as (Hw' & Hc & Hs & Hm).
    fold (e820_count (mem s)) in Hj.
    assert (Hin : ∀ p, p ∈ take (Z.to_nat (j + 1)) (e820_map (mem s)) ≫= usable_pages → p ∈ all_usable (mem s)).
    { intros p. unfold all_usable. rewrite <- (take_drop (Z.to_nat (j + 1)) (e820_map (mem s))) at 2.
      rewrite bind_app. set_solver. }
    assert (Heq : e820_at (mem s') j = e820_at (mem s) j).
    { apply e820_at_frame; [|lia]. intros b Hb. apply Hm. rewrite Hb. intros HB.
      destruct (elem_of_all_usable (mem s) E820_BASE) as [HE _]; [done| |by unfold E820_BASE in HE].
      apply Hin. rewrite e820_map_take_S, bind_app by lia. set_solver. }
    unfold I in *. pose proof (NoDup_rev_take usable_pages (e820_map (mem s)) (Z.to_nat (j + 1)) Hnd) as Hnd'.
    rewrite e820_map_take_S, bind_app in Hin, Hnd' |- * by lia. cbn [mbind list_bind] in Hin, Hnd' |- *.
    rewrite app_nil_r, rev_app_distr in Hnd' |- *. rewrite app_nil_r in Hin.
    destruct (pmm_entry_runs j s' (rev (take (Z.to_nat j) (e820_map (mem s)) ≫= usable_pages)))
      as (s'' & E & Hp' & Hf'); try done; try lia.
    + rewrite Heq. rewrite Forall_forall in Hwf. apply Hwf.
      apply list_elem_of_fmap. exists j. split; [done|]. apply elem_of_seqZ. lia.
    + by rewrite Heq.
    + rewrite Heq. intros p Hpp. destruct (Hps p); [apply Hin; set_solver|].
      split; [done|]. rewrite Hc. by eapply fresh_same_xlat.
    + unfold runs. rewrite E. rewrite Heq in Hp', Hf'. split; [by eapply pushed_trans|done].
  - intros [] s' [Hp Hf]. rewrite Z.add_0_l in Hp, Hf.
    fold (e820_count (mem s)) in Hp, Hf.
    rewrite take_ge in Hp, Hf by (unfold e820_map; rewrite length_fmap, length_seqZ; lia).
    eapply runs_mono; [apply puts_runs|]. intros [] s4 [Hio4 _].
    split; [by eapply pushed_io_only|by eapply kfree_io_only].
Qed.

End PmmProofs.
