(* ===== verification/Paging.v ===== *)
(** * Paging: the kernel's page tables ([paging.c]) and [read_pte] of [task.c]

    The operations edit the tables through ordinary kernel pointers, i.e. through
    the translation that is active (CR3 and [paging_root] are the same space
    after [paging_switch]).  [invlpg] has no counterpart: the model's walks always
    read the tables. *)

From S2P Require Import Prelude State Machine Walk Serial Space Pmm.

(** ** Operations *)

Section Paging.
Context `{Platform}.

Definition kernel_pml4_template : Z := 0x1000.

Definition paging_init : M unit := puts (chars "[kernel] Paging ready" ++ crlf).

Definition paging_switch (pml4_phys : Z) : M unit :=
  modify (set_paging_root pml4_phys) ;;
  modify (set_cr3 pml4_phys).

(** [x & ~0xFFF], [x & ~0x1FFFFF], [x & ~0x1FF]. *)
Definition mask_4k (x : Z) : Z := Z.land x (Z.lnot 0xFFF).
Definition mask_2m (x : Z) : Z := Z.land x (Z.lnot 0x1FFFFF).
Definition mask_flags (x : Z) : Z := Z.land x (Z.lnot 0x1FF).

Definition pml4_index (virt : Z) : Z := Z.land (Z.shiftr virt 39) 0x1FF.
Definition pdpt_index (virt : Z) : Z := Z.land (Z.shiftr virt 30) 0x1FF.
Definition pdt_index (virt : Z) : Z := Z.land (Z.shiftr virt 21) 0x1FF.
Definition pt_index (virt : Z) : Z := Z.land (Z.shiftr virt 12) 0x1FF.

(** [e & 1] and [e & PAGE_PS] as conditions. *)
Definition e_present (e : Z) : bool := negb (Z.land e 1 =? 0).
Definition e_large (e : Z) : bool := negb (Z.land e PAGE_PS =? 0).

Definition paging_clone_kernel : M Z :=
  let src_pml4 := kernel_pml4_template in
  pml4 ← pmm_alloc_page;
  pdpt ← pmm_alloc_page;
  pdt ← pmm_alloc_page;
  if (pml4 =? 0) || (pdpt =? 0) || (pdt =? 0) then
    puts (chars "[kernel] paging_clone: OOM" ++ crlf) ;; mret 0
  else
    e ← load64 src_pml4;
    store64 pml4 (Z.lor pdpt (Z.land e 0xFFF)) ;;
    e ← load64 src_pml4;
    let src_pdpt := mask_4k e in
    f ← load64 src_pdpt;
    store64 pdpt (Z.lor pdt (Z.land f 0xFFF)) ;;
    f ← load64 src_pdpt;
    let src_pdt := mask_4k f in
    for_nat 512 0 (λ i,
      x ← load64 (src_pdt + 8 * i);
      store64 (pdt + 8 * i) (Z.land x (Z.lnot PAGE_USER))) ;;
    mret pml4.

(** One of the upper two levels of [map_page]: the entry at [a], with a new
    table behind it if it was absent; [None] when no page is left. *)
Definition ensure_table (a : Z) : M (option Z) :=
  e ← load64 a;
  if e_present e then mret (Some e)
  else
    page ← pmm_alloc_page;
    if page =? 0 then mret None
    else store64 a (Z.lor page 3) ;; e ← load64 a; mret (Some e).

(** The messages of the split. *)
Definition split_banner (virt phys : Z) : M unit :=
  puts (chars "[kernel] split ") ;; puthex virt ;; puts (chars "->") ;; puthex phys ;;
  root ← gets paging_root;
  puts (chars " cr3=") ;; puthex root.
Definition split_report (page e : Z) : M unit :=
  puts (chars " pt=") ;; puthex page ;; puts (chars " pde=") ;; puthex e ;; putc 10.

(** The page table level of [map_page]: the directory entry at [a], with a new
    table behind it if it was absent, or with the 2 MiB page it maps split into
    512 entries. *)
Definition ensure_pt (virt phys a pde : Z) : M (option Z) :=
  if negb (e_present pde) then
    page ← pmm_alloc_page;
    if page =? 0 then mret None
    else store64 a (Z.lor page 7) ;; e ← load64 a; mret (Some e)
  else if e_large pde then
    split_banner virt phys ;;
    page ← pmm_alloc_page;
    if page =? 0 then puts (chars " OOM" ++ [10]) ;; mret None
    else
      let base := mask_2m pde in
      for_nat 512 0 (λ i,
        store64 (page + 8 * i) (Z.lor (u64 (base + i * 0x1000)) (Z.land pde 0x1FF))) ;;
      store64 a (Z.lor page 7) ;;
      e ← load64 a;
      split_report page e ;;
      mret (Some e)
  else mret (Some pde).

Definition map_page (virt phys flags : Z) : M unit :=
  pml4 ← gets paging_root;
  o ← ensure_table (pml4 + 8 * pml4_index virt);
  match o with
  | None => mret tt
  | Some pml4e =>
    let pdpt := mask_4k pml4e in
    o ← ensure_table (pdpt + 8 * pdpt_index virt);
    match o with
    | None => mret tt
    | Some pdpte =>
      let pdt := mask_4k pdpte in
      pde ← load64 (pdt + 8 * pdt_index virt);
      if (Z.land virt 0x1FFFFF =? 0) && (Z.land phys 0x1FFFFF =? 0) then
        store64 (pdt + 8 * pdt_index virt) (Z.lor (Z.lor phys flags) PAGE_PS)
      else
        o ← ensure_pt virt phys (pdt + 8 * pdt_index virt) pde;
        match o with
        | None => mret tt
        | Some pde =>
          let pt := mask_4k pde in
          store64 (pt + 8 * pt_index virt) (Z.lor phys flags)
        end
    end
  end.

Definition map_page_flags (virt flags : Z) : M unit :=
  pml4 ← gets paging_root;
  pml4e ← load64 (pml4 + 8 * pml4_index virt);
  if negb (e_present pml4e) then mret tt
  else
    let pdpt := mask_4k pml4e in
    pde ← load64 (pdpt + 8 * pdpt_index virt);
    if negb (e_present pde) then mret tt
    else if e_large pde then
      store64 (pdpt + 8 * pdpt_index virt) (Z.lor (mask_flags pde) (Z.land flags 0x1FF))
    else
      let pdt := mask_4k pde in
      e ← load64 (pdt + 8 * pdt_index virt);
      if negb (e_present e) then mret tt
      else if e_large e then
        store64 (pdt + 8 * pdt_index virt) (Z.lor (mask_flags e) (Z.land flags 0x1FF))
      else
        let pt := mask_4k e in
        x ← load64 (pt + 8 * pt_index virt);
        if negb (e_present x) then mret tt
        else store64 (pt + 8 * pt_index virt) (Z.lor (mask_flags x) (Z.land flags 0x1FF)).

Definition unmap_page (virt : Z) : M unit :=
  pml4 ← gets paging_root;
  pml4e ← load64 (pml4 + 8 * pml4_index virt);
  if negb (e_present pml4e) then mret tt
  else
    let pdpt := mask_4k pml4e in
    pde ← load64 (pdpt + 8 * pdpt_index virt);
    if negb (e_present pde) then mret tt
    else if e_large pde then
      store64 (pdpt + 8 * pdpt_index virt) (Z.land pde (Z.lnot 1))
    else
      let pdt := mask_4k pde in
      e ← load64 (pdt + 8 * pdt_index virt);
      if e_large e then
        store64 (pdt + 8 * pdt_index virt) (Z.land e (Z.lnot 1))
      else
        let pt := mask_4k e in
        x ← load64 (pt + 8 * pt_index virt);
        store64 (pt + 8 * pt_index virt) (Z.land x (Z.lnot 1)).

(** [read_pte] of [task.c]: note that it stops one level early, at the page
    directory. *)
Definition read_pte (pml4 virt : Z) : M Z :=
  let p := pml4 in
  e ← load64 (p + 8 * pml4_index virt);
  if negb (e_present e) then mret 0
  else
    let p := mask_4k e in
    pde ← load64 (p + 8 * pdpt_index virt);
    if negb (e_present pde) then mret 0
    else if e_large pde then mret (Z.lor (mask_2m pde) (Z.land virt 0x1FFFFF))
    else
      let p := mask_4k pde in
      pte ← load64 (p + 8 * pdt_index virt);
      if negb (e_present pte) then mret 0
      else mret (Z.lor (mask_4k pte) (Z.land virt 0xFFF)).

End Paging.

(** ** Entries and indices *)

Lemma e_present_bit e : e_present e = Z.testbit e 0.
Proof. unfold e_present. rewrite land_1_testbit. apply negb_involutive. Qed.

Lemma e_large_bit e : e_large e = Z.testbit e 7.
Proof.
  unfold e_large. change PAGE_PS with (2 ^ 7). rewrite land_pow2_testbit by lia. apply negb_involutive.
Qed.

Lemma mask_4k_frame e : 0 ≤ e < 2 ^ 52 → mask_4k e = frame e.
Proof. intros. by rewrite frame_align. Qed.

Lemma entry_pml4 t va : t + 8 * pml4_index va = entry_addr 3 t va.
Proof. unfold pml4_index. by rewrite index_shift by lia. Qed.

Lemma entry_pdpt t va : t + 8 * pdpt_index va = entry_addr 2 t va.
Proof. unfold pdpt_index. by rewrite index_shift by lia. Qed.

Lemma entry_pdt t va : t + 8 * pdt_index va = entry_addr 1 t va.
Proof. unfold pdt_index. by rewrite index_shift by lia. Qed.

Lemma entry_pt t va : t + 8 * pt_index va = entry_addr 0 t va.
Proof. unfold pt_index. by rewrite index_shift by lia. Qed.

Lemma index_range n va : 0 ≤ (va / span n) mod 512 < 512.
Proof. apply Z.mod_pos_bound. lia. Qed.

(** A table of zeros maps nothing. *)
Lemma zero_table m k p vb :
  (∀ i, 0 ≤ i < 512 → mget m (p + 8 * i) = 0) →
  walk m k p vb = None ∧ ∀ j, (j < k)%nat → reach m j k p vb = None.
Proof.
  intros Hz. assert (He : mget m (entry_addr k p vb) = 0) by (apply Hz, index_range). split.
  - destruct k; unfold walk; fold walk; by rewrite He.
  - intros j Hj. destruct k as [|k]; [lia|]. rewrite reach_S by lia. by rewrite He.
Qed.

(** *** Splitting a 2 MiB page *)

(** The entry [i] of the page table that replaces the directory entry [pde]. *)
Definition split_entry (pde i : Z) : Z := Z.lor (u64 (mask_2m pde + i * 0x1000)) (Z.land pde 0x1FF).

Lemma mask_2m_sub x : mask_2m x = x - x mod 2 ^ 21.
Proof. apply (land_lnot_ones x 21). lia. Qed.

Lemma mask_2m_bounds pde : 0 ≤ pde < 2 ^ 52 → 0 ≤ mask_2m pde ∧ mask_2m pde + 2 ^ 21 ≤ 2 ^ 52 ∧ mask_2m pde mod 2 ^ 21 = 0.
Proof.
  intros Hp. rewrite mask_2m_sub. pose proof (Z.div_mod pde (2 ^ 21)).
  assert (pde / 2 ^ 21 < 2 ^ 31) by (apply Z.div_lt_upper_bound; lia).
  assert (0 ≤ pde / 2 ^ 21) by (apply Z.div_pos; lia).
  replace (pde - pde mod 2 ^ 21) with (pde / 2 ^ 21 * 2 ^ 21) by lia.
  split_and!; [lia|lia|]. apply Z_mod_mult.
Qed.

Lemma mod_4096_of_2m x : x mod 2 ^ 21 = 0 → x mod 4096 = 0.
Proof.
  intros Hx. rewrite (Z.div_mod x (2 ^ 21)), Hx by lia.
  replace (2 ^ 21 * (x / 2 ^ 21) + 0) with (512 * (x / 2 ^ 21) * 4096) by lia. apply Z_mod_mult.
Qed.

Lemma land_low x b n : 0 ≤ b < n → Z.testbit (Z.land x (2 ^ n - 1)) b = Z.testbit x b.
Proof. intros Hb. rewrite land_ones_mod by lia. apply Z.mod_pow2_bits_low. lia. Qed.

Lemma split_entry_parts pde i :
  0 ≤ pde < 2 ^ 52 → 0 ≤ i < 512 →
  frame (split_entry pde i) = mask_2m pde + i * 4096 ∧
  (∀ b, 0 ≤ b < 9 → Z.testbit (split_entry pde i) b = Z.testbit pde b) ∧
  0 ≤ split_entry pde i < 2 ^ 52.
Proof.
  intros Hp Hi. destruct (mask_2m_bounds pde Hp) as (H1 & H2 & H3). unfold split_entry.
  assert (Hf : 0 ≤ Z.land pde 0x1FF < 512).
  { change 0x1FF with (2 ^ 9 - 1). rewrite land_ones_mod by lia. apply Z.mod_pos_bound. lia. }
  rewrite u64_small by lia.
  assert (Ha : (mask_2m pde + i * 4096) mod 4096 = 0).
  { rewrite Z_mod_plus_full. by apply mod_4096_of_2m. }
  split_and!.
  - apply frame_entry; lia.
  - intros b Hb. rewrite testbit_entry by lia. by apply (land_low pde b 9).
  - rewrite lor_page_flags by lia. lia.
  - rewrite lor_page_flags by lia. lia.
Qed.

Lemma vb_mod_2m vb : vb mod 2 ^ 21 = ((vb / 4096) mod 512) * 4096 + vb mod 4096.
Proof.
  change (2 ^ 21) with (4096 * 512). rewrite Z.rem_mul_r by lia. lia.
Qed.

Lemma frame_mod_2m pde : 0 ≤ pde < 2 ^ 52 → frame pde - frame pde mod 2 ^ 21 = mask_2m pde.
Proof.
  intros Hp. rewrite frame_align, align_down_sub, mask_2m_sub by lia.
  rewrite (vb_mod_2m pde), vb_mod_2m. change (2 ^ 12) with 4096.
  assert (Ha : (pde - pde mod 4096) mod 4096 = 0) by apply page_of_aligned.
  assert (Hd : (pde - pde mod 4096) / 4096 = pde / 4096).
  { replace (pde - pde mod 4096) with (pde / 4096 * 4096) by (pose proof (Z.div_mod pde 4096); lia).
    by rewrite Z.div_mul by lia. }
  rewrite Ha, Hd. lia.
Qed.

(** The 512 entries translate exactly as the large page did. *)
Lemma split_walk m tbl p vb pde :
  mget m (entry_addr 1 tbl vb) = pde → 0 ≤ pde < 2 ^ 52 →
  Z.testbit pde 0 = true → Z.testbit pde 7 = true →
  (∀ i, 0 ≤ i < 512 → mget m (p + 8 * i) = split_entry pde i) →
  restrict 7 <$> walk m 0 p vb = walk m 1 tbl vb.
Proof.
  intros He Hp H0 H7 Hpt. unfold walk. rewrite He, H0, H7. unfold entry_addr.
  set (i := (vb / span 0) mod 512). assert (Hi : 0 ≤ i < 512) by apply index_range.
  rewrite Hpt by done. destruct (split_entry_parts pde i Hp Hi) as (Hfr & Hb & _).
  rewrite (Hb 0), H0 by lia. cbn [fmap option_fmap option_map]. unfold restrict, leaf.
  cbn [x_pa x_user x_write]. rewrite Hfr, (Hb 2), (Hb 1) by lia. do 2 f_equal.
  change (span 1) with (2 ^ 21). change (span 0) with 4096 in *.
  rewrite frame_mod_2m, vb_mod_2m by done. fold i.
  destruct (mask_2m_bounds pde Hp) as (_ & _ & Ha). apply mod_4096_of_2m in Ha.
  rewrite Z_mod_plus_full, Ha. lia.
Qed.

(** ** Shapes of a path *)

(** The address is not under a 1 GiB page (which the kernel never creates). *)
Definition small_path (m : gmap Z Z) (r va : Z) : Prop :=
  ∀ k ra, (2 ≤ k)%nat → reach m k 3 r va = Some ra →
    let e := mget m (entry_addr k (rt_tbl ra) va) in Z.testbit e 0 = true → Z.testbit e 7 = false.

(** Down to the page directory all entries exist and admit user writes, and so
    does the directory entry when it already names a page table. *)
Definition open_path (m : gmap Z Z) (r va : Z) : Prop :=
  ∃ t, reach m 1 3 r va = Some (Rtab t true true) ∧
    let e := mget m (entry_addr 1 t va) in
    Z.testbit e 0 = true → Z.testbit e 7 = false → Z.testbit e 2 = true ∧ Z.testbit e 1 = true.

(** [m'] is at least as good as [m] for the addresses of the space. *)
Record shape_le (r : Z) (m m' : gmap Z Z) : Prop := {
  sl_small : ∀ va, small_path m r va → small_path m' r va;
  sl_open : ∀ va, open_path m r va → open_path m' r va;
}.

#[global] Instance shape_le_refl r : Reflexive (shape_le r).
Proof. by split. Qed.

#[global] Instance shape_le_trans r : Transitive (shape_le r).
Proof. intros m1 m2 m3 [] []. split; eauto. Qed.

Lemma same_xlat_shape r m m' : same_xlat r m m' → shape_le r m m'.
Proof.
  intros Hs. split.
  - intros va Hsp k ra Hk. rewrite (same_xlat_reach _ _ _ _ _ Hs). intros Hr.
    rewrite (Hs _ _ _ Hr). by eapply Hsp.
  - intros va (t & Hr & He). exists t. rewrite (same_xlat_reach _ _ _ _ _ Hs).
    split; [done|]. by rewrite (Hs _ _ _ Hr : mget m' (entry_addr 1 t va) = _).
Qed.

(** Storing an entry of level [k] at most 1 that is a leaf, absent, or names a
    table open to user code. *)
Lemma store_shape m r k v0 r0 e :
  ptree m r → reach m k 3 r v0 = Some r0 → (k ≤ 1)%nat →
  (k = 1%nat → Z.testbit e 0 = true → Z.testbit e 7 = false → Z.testbit e 2 = true ∧ Z.testbit e 1 = true) →
  shape_le r m (<[entry_addr k (rt_tbl r0) v0 := e]> m).
Proof.
  intros Ht Hr0 Hk He. split.
  - intros va Hsp j ra Hj. rewrite (store_entry_above _ _ Ht _ _ _ Hr0) by lia. intros Hr.
    rewrite mget_insert_ne; [by eapply Hsp|]. intros Heq.
    destruct (entry_hit _ _ _ _ _ _ _ _ Ht Hr0 Hr Heq) as (? & _). lia.
  - intros va (t & Hr & Hop). exists t. rewrite (store_entry_above _ _ Ht _ _ _ Hr0) by lia.
    split; [done|]. cbv zeta in *.
    destruct (decide (entry_addr k (rt_tbl r0) v0 = entry_addr 1 t va)) as [Heq|Hne].
    + rewrite Heq, mget_insert_eq.
      destruct (entry_hit m r k 1 v0 va r0 (Rtab t true true) Ht Hr0 Hr Heq) as (? & _). by apply He.
    + by rewrite mget_insert_ne.
Qed.

(** Linking an empty table below an absent entry of an upper level. *)
Lemma link_shape m r k v0 r0 p f :
  ptree m r → reach m (S k) 3 r v0 = Some r0 → (1 ≤ k)%nat → is_page p → fresh m r p →
  0 ≤ f < 4096 → Z.testbit f 0 = true → Z.testbit f 7 = false →
  Z.testbit (mget m (entry_addr (S k) (rt_tbl r0) v0)) 0 = false →
  (∀ i, 0 ≤ i < 512 → mget m (p + 8 * i) = 0) →
  shape_le r m (<[entry_addr (S k) (rt_tbl r0) v0 := Z.lor p f]> m).
Proof.
  intros Ht Hr0 Hk Hp Hfr Hf Hf0 Hf7 Habs Hz.
  assert (Hb : ∀ j vb, (j < k)%nat → reach m j k p vb = None) by (intros; by apply zero_table).
  assert (Hlr := link_reach m r Ht k v0 r0 Hr0 p f Hp Hfr Hf Hf0 Hf7 Hb).
  assert (Hnone : ∀ va, region (S k) va = region (S k) v0 → reach m 1 3 r va = None).
  { intros va Heq. destruct (store_entry_hit _ _ _ _ _ Hr0 va Heq) as [Hva Ha].
    rewrite (reach_reach _ 1 (S k) _ _ _ r0) by (done || lia). rewrite reach_S by lia.
    cbv zeta. by rewrite Ha, Habs. }
  split.
  - intros va Hsp j ra Hj Hra.
    apply (link_tables m r k v0 r0 p f _ Hlr) in Hra as [(-> & -> & _)|Hra].
    + rewrite mget_insert_ne by (by apply not_eq_sym, (link_ne m r Ht k v0 r0 Hr0 p Hp Hfr)).
      unfold entry_addr. rewrite Hz by apply index_range. done.
    + destruct (decide (entry_addr (S k) (rt_tbl r0) v0 = entry_addr j (rt_tbl ra) va)) as [Heq|Hne].
      * rewrite Heq, mget_insert_eq. destruct Hp. cbv zeta. by rewrite !testbit_entry by lia.
      * rewrite mget_insert_ne by done. by eapply Hsp.
  - intros va (t & Hr & Hop). exists t. rewrite Hlr. case_bool_decide as Heq.
    { by rewrite Hnone in Hr by done. }
    split; [done|]. rewrite mget_insert_ne; [done|]. intros Heq'.
    by destruct (entry_hit _ _ _ _ _ _ _ _ Ht Hr0 Hr Heq') as (? & _); lia.
Qed.

(** ** The window under table edits *)

Section PagingProofs.
Context `{Platform} (W : Z → Prop).

Lemma kwin_load_entry s k va ra :
  kwin W s → reach (mem s) k 3 (cr3 s) va = Some ra →
  load64 (entry_addr k (rt_tbl ra) va) s = Ok (mget (mem s) (entry_addr k (rt_tbl ra) va)) s.
Proof.
  intros Hw Hr. apply (kwin_load W); [done|by eapply kw_tables|apply index_range].
Qed.

Lemma kwin_store_entry s k va ra v :
  kwin W s → reach (mem s) k 3 (cr3 s) va = Some ra →
  store64 (entry_addr k (rt_tbl ra) va) v s =
    Ok tt (set_mem (<[entry_addr k (rt_tbl ra) va := u64 v]> (mem s)) s).
Proof.
  intros Hw Hr. apply (kwin_store W); [done|by eapply kw_tables|apply index_range].
Qed.

(** A free page is not among the entries of a table. *)
Lemma kfree_entry_ne s fl k va ra q :
  kwin W s → kfree W s fl → reach (mem s) k 3 (cr3 s) va = Some ra → q ∈ fl →
  q ≠ entry_addr k (rt_tbl ra) va.
Proof.
  intros Hw Hf Hr Hq ->. apply (kf_fresh _ _ _ Hf _ Hq _ _ _ Hr).
  assert (Hal : rt_tbl ra mod 4096 = 0) by (eapply pt_aligned; [by eapply kw_tree|done]).
  rewrite <- (entry_addr_page k (rt_tbl ra) va Hal) at 1. apply page_of_page.
  apply (kw_win _ _ Hw). by eapply kf_win.
Qed.

(** What an edit of the tables may touch: only memory, the stack of free pages
    and the console; and in memory only window pages. *)
Definition edits (s s' : kstate) : Prop :=
  s' = set_mem (mem s') (set_free_stack (free_stack s') (set_io (io s') s)) ∧
  ∀ a, ¬ W (page_of a) → mget (mem s') a = mget (mem s) a.

#[global] Instance edits_refl : Reflexive edits.
Proof. intros s. split; [by destruct s|done]. Qed.

#[global] Instance edits_trans : Transitive edits.
Proof.
  intros s1 s2 s3 [E2 H2] [E3 H3]. split.
  - rewrite E3, E2. done.
  - intros a Ha. by rewrite H3, H2.
Qed.

Lemma edits_cr3 s s' : edits s s' → cr3 s' = cr3 s.
Proof. intros [-> _]. done. Qed.

Lemma edits_io s s' : io_only s s' → edits s s'.
Proof. intros ->. split; [by destruct s|done]. Qed.

Lemma edits_insert s p i v :
  is_page p → W p → 0 ≤ i < 512 → edits s (set_mem (<[p + 8 * i := v]> (mem s)) s).
Proof.
  intros [_ Hp] HW Hi. split; [by destruct s|]. simpl. intros a Ha. apply mget_insert_ne.
  intros <-. apply Ha. by rewrite page_of_add by lia.
Qed.

(** Hanging the fresh page [p] below an entry that was a leaf or absent. *)
Lemma kwin_link s k v0 r0 p f :
  kwin W s → reach (mem s) (S k) 3 (cr3 s) v0 = Some r0 →
  W p → fresh (mem s) (cr3 s) p →
  0 ≤ f < 4096 → Z.testbit f 0 = true → Z.testbit f 7 = false →
  (∀ vb, region (S k) vb = region (S k) v0 →
     restrict f <$> walk (mem s) k p vb = walk (mem s) (S k) (rt_tbl r0) vb) →
  (∀ j vb, (j < k)%nat → reach (mem s) j k p vb = None) →
  (∀ vb, (1 ≤ k)%nat → 0 ≤ mget (mem s) (entry_addr k p vb) < 2 ^ 52) →
  let s' := set_mem (<[entry_addr (S k) (rt_tbl r0) v0 := Z.lor p f]> (mem s)) s in
  kwin W s' ∧ edits s s' ∧
  (∀ va, walk (mem s') 3 (cr3 s) va = walk (mem s) 3 (cr3 s) va) ∧
  reach (mem s') k 3 (cr3 s) v0 =
    Some (Rtab p (rt_user r0 && Z.testbit f 2) (rt_write r0 && Z.testbit f 1)) ∧
  (∀ fl, kfree W s fl → p ∉ fl → kfree W s' fl).
Proof.
  intros Hw Hr0 HWp Hfr Hf Hf0 Hf7 Hwalk Hbelow Hbound s'.
  assert (Htree := kw_tree _ _ Hw). assert (Hpg := kw_win _ _ Hw p HWp).
  assert (Hlw := link_walk _ _ Htree k v0 r0 Hr0 p f Hpg Hfr Hf Hf0 Hf7 Hwalk Hbelow).
  assert (Hlr := link_reach _ _ Htree k v0 r0 Hr0 p f Hpg Hfr Hf Hf0 Hf7 Hbelow).
  assert (Hlt := link_tables (mem s) (cr3 s) k v0 r0 p f (mem s') Hlr).
  split_and!.
  - split; simpl; try by eapply Hw.
    + intros q i Hq Hi. rewrite <- (kw_ident _ _ Hw q i Hq Hi). unfold phys_of, translate. simpl.
      rewrite (kwin_cr3 _ _ Hw). destruct (canonical _); [|done]. by rewrite Hlw.
    + by eapply link_ptree.
    + intros j va ra Hra. apply Hlt in Hra as [(-> & _)|Hra]; [done|]. by eapply kw_tables.
  - apply edits_insert; [by eapply kw_win, kw_tables|by eapply kw_tables|apply index_range].
  - apply Hlw.
  - simpl. rewrite Hlr, bool_decide_eq_true_2, Nat.leb_refl, Nat.eqb_refl by done. done.
  - intros fl Hfl Hnin. pose proof Hfl as [Hl Hn Hwi Hff]. split; simpl; try done.
    + eapply free_list_ext; [|done]. intros q Hq. apply mget_insert_ne, not_eq_sym.
      by eapply kfree_entry_ne.
    + intros q Hq j va ra Hra. apply Hlt in Hra as [(-> & _)|Hra]; [set_solver|].
      by eapply Hff.
Qed.

(** A step that takes at most [n] pages and changes no translation. *)
Record keeps (n : nat) (s : kstate) (fl : list Z) (s' : kstate) (fl' : list Z) : Prop := {
  kp_win : kwin W s';
  kp_free : kfree W s' fl';
  kp_edits : edits s s';
  kp_walk : ∀ va, walk (mem s') 3 (cr3 s) va = walk (mem s) 3 (cr3 s) va;
  kp_shape : shape_le (cr3 s) (mem s) (mem s');
  kp_taken : ∃ ps, fl = ps ++ fl' ∧ (length ps ≤ n)%nat;
}.

Lemma keeps_refl n s fl : kwin W s → kfree W s fl → keeps n s fl s fl.
Proof. intros. split; [done|done|reflexivity|done|reflexivity|]. exists []. simpl. split; [done|lia]. Qed.

Lemma keeps_trans n1 n2 s1 fl1 s2 fl2 s3 fl3 :
  keeps n1 s1 fl1 s2 fl2 → keeps n2 s2 fl2 s3 fl3 → keeps (n1 + n2) s1 fl1 s3 fl3.
Proof.
  intros [_ _ He2 Hk2 Hs2 (ps & -> & Hn2)] [Hw3 Hf3 He3 Hk3 Hs3 (qs & -> & Hn3)].
  rewrite (edits_cr3 _ _ He2) in Hk3, Hs3. split; try done.
  - by etrans.
  - intros va. by rewrite Hk3.
  - by etrans.
  - exists (ps ++ qs). rewrite <- app_assoc, length_app. split; [done|lia].
Qed.

Lemma keeps_io n s fl s' : io_only s s' → kwin W s → kfree W s fl → keeps n s fl s' fl.
Proof.
  intros Hio Hw Hf. split; [by eapply kwin_io_only|by eapply kfree_io_only|by apply edits_io| | |].
  - intros va. by rewrite Hio.
  - by rewrite Hio.
  - exists []. simpl. split; [done|lia].
Qed.

(** Taking a page from the allocator. *)
Lemma keeps_alloc s p fl :
  kwin W s → kfree W s (p :: fl) →
  ∃ s', pmm_alloc_page s = Ok p s' ∧ keeps 1 s (p :: fl) s' fl ∧
    p ≠ 0 ∧ W p ∧ p ∉ fl ∧ fresh (mem s') (cr3 s) p ∧ same_xlat (cr3 s) (mem s) (mem s') ∧
    ∀ i, 0 ≤ i < 512 → mget (mem s') (p + 8 * i) = 0.
Proof.
  intros Hw Hf. destruct (alloc_runs W s _ Hw Hf) as
    (s' & E & Es & Hp0 & HWp & Hnin & Hw' & Hf' & Hfr & Hs & Hz & Ho).
  exists s'. assert (Hc : cr3 s' = cr3 s) by by rewrite Es. rewrite Hc in Hfr.
  split_and!; try done. split; try done.
  - split; [by rewrite Es; destruct s|]. intros a Ha. apply Ho. intros <-. done.
  - intros va. by apply same_xlat_walk.
  - by apply same_xlat_shape.
  - exists [p]. done.
Qed.

(** A page of zeros linked below an absent entry. *)
Lemma keeps_link_zero s fl k v0 r0 p f :
  kwin W s → kfree W s fl → reach (mem s) (S k) 3 (cr3 s) v0 = Some r0 →
  W p → p ∉ fl → fresh (mem s) (cr3 s) p → (∀ i, 0 ≤ i < 512 → mget (mem s) (p + 8 * i) = 0) →
  Z.testbit (mget (mem s) (entry_addr (S k) (rt_tbl r0) v0)) 0 = false →
  0 ≤ f < 4096 → Z.testbit f 0 = true → Z.testbit f 7 = false →
  (k = 0%nat → Z.testbit f 2 = true ∧ Z.testbit f 1 = true) →
  let s' := set_mem (<[entry_addr (S k) (rt_tbl r0) v0 := Z.lor p f]> (mem s)) s in
  keeps 0 s fl s' fl ∧
  reach (mem s') k 3 (cr3 s) v0 =
    Some (Rtab p (rt_user r0 && Z.testbit f 2) (rt_write r0 && Z.testbit f 1)).
Proof.
  intros Hw Hf Hr0 HWp Hnin Hfr Hz He Hfl Hf0 Hf7 Hopen s'. assert (Hpg := kw_win _ _ Hw p HWp).
  destruct (kwin_link s k v0 r0 p f) as (Hw' & Hed & Hwk & Hre & Hfr'); try done.
  - intros vb Hvb. rewrite (proj1 (zero_table _ _ _ _ Hz)).
    destruct (store_entry_hit _ _ _ _ _ Hr0 vb Hvb) as [_ Ha].
    symmetry. unfold walk; fold walk. by rewrite Ha, He.
  - intros j vb Hj. by apply zero_table.
  - intros vb _. unfold entry_addr. rewrite Hz by apply index_range. lia.
  - split; [|done]. split; try done; [by apply Hfr'| |by exists []].
    destruct k as [|k].
    + apply store_shape; [by eapply kw_tree|done|lia|]. intros _ _ _. destruct Hpg.
      rewrite !testbit_entry by lia. by apply Hopen.
    + apply link_shape; try done; [by eapply kw_tree|lia].
Qed.

Lemma u64_entry p f : is_page p → 0 ≤ f < 4096 → u64 (Z.lor p f) = Z.lor p f.
Proof. intros [Hp Ha] Hf. apply u64_small. rewrite lor_page_flags by done. lia. Qed.

(** Allocating a page of zeros and linking it below the absent entry [a]: the
    two callers differ in the flags. *)
Lemma alloc_link s fl k v0 r0 p f :
  kwin W s → kfree W s (p :: fl) → reach (mem s) (S k) 3 (cr3 s) v0 = Some r0 →
  let a := entry_addr (S k) (rt_tbl r0) v0 in
  Z.testbit (mget (mem s) a) 0 = false →
  0 ≤ f < 4096 → Z.testbit f 0 = true → Z.testbit f 7 = false →
  (k = 0%nat → Z.testbit f 2 = true ∧ Z.testbit f 1 = true) →
  ∃ s1 s', pmm_alloc_page s = Ok p s1 ∧ p ≠ 0 ∧
    store64 a (Z.lor p f) s1 = Ok tt s' ∧ load64 a s' = Ok (Z.lor p f) s' ∧
    keeps 1 s (p :: fl) s' fl ∧ mask_4k (Z.lor p f) = p ∧
    mget (mem s') (entry_addr k p v0) = 0 ∧
    reach (mem s') k 3 (cr3 s) v0 =
      Some (Rtab p (rt_user r0 && Z.testbit f 2) (rt_write r0 && Z.testbit f 1)).
Proof.
  intros Hw Hf Hr0 a Ha Hfl Hf0 Hf7 Hopen.
  destruct (keeps_alloc s p fl Hw Hf) as (s1 & E1 & Hk1 & Hp0 & HWp & Hnin & Hfr & Hs & Hz).
  assert (Hc : cr3 s1 = cr3 s) by (eapply edits_cr3, Hk1).
  assert (Hr1 : reach (mem s1) (S k) 3 (cr3 s1) v0 = Some r0).
  { rewrite Hc, (same_xlat_reach _ _ _ _ _ Hs). done. }
  assert (Hpg : is_page p) by (by eapply kw_win).
  destruct (keeps_link_zero s1 fl k v0 r0 p f) as [Hk2 Hre]; try done; try by apply Hk1.
  { by rewrite Hc. }
  { by rewrite (Hs _ _ _ Hr0). }
  exists s1, (set_mem (<[a := Z.lor p f]> (mem s1)) s1). split_and!; try done.
  - unfold a. rewrite kwin_store_entry by (done || apply Hk1). by rewrite u64_entry.
  - assert (Hr2 : reach (<[a := Z.lor p f]> (mem s1)) (S k) 3 (cr3 s1) v0 = Some r0).
    { rewrite (store_entry_above _ _ (kw_tree _ _ (kp_win _ _ _ _ _ Hk1)) _ _ _ Hr1) by lia. done. }
    rewrite (kwin_load_entry _ (S k) v0 r0) by (done || apply Hk2). simpl. by rewrite mget_insert_eq.
  - by apply (keeps_trans 1 0 _ _ s1 fl).
  - rewrite mask_4k_frame, frame_entry; try done; try apply Hpg.
    + destruct Hpg. lia.
    + destruct Hpg. rewrite lor_page_flags by done. lia.
  - simpl. rewrite mget_insert_ne; [apply Hz, index_range|]. apply not_eq_sym.
    apply (link_ne (mem s1) (cr3 s1) (kw_tree _ _ (kp_win _ _ _ _ _ Hk1)) k v0 r0 Hr1 p Hpg).
    by rewrite Hc.
  - simpl in Hre. by rewrite Hc in Hre.
Qed.

(** The upper levels of [map_page]: the table below was there already, or it is
    a new, empty one, which user code cannot reach. *)
Lemma ensure_table_runs s fl k v0 r0 :
  kwin W s → kfree W s fl → (1 ≤ k)%nat → reach (mem s) (S k) 3 (cr3 s) v0 = Some r0 →
  let a := entry_addr (S k) (rt_tbl r0) v0 in
  (Z.testbit (mget (mem s) a) 0 = true → Z.testbit (mget (mem s) a) 7 = false) →
  runs (ensure_table a) s (λ o s',
    match o with
    | None => fl = [] ∧ s' = s
    | Some e => ∃ fl' r1, keeps 1 s fl s' fl' ∧ rt_tbl r1 = mask_4k e ∧
        reach (mem s') k 3 (cr3 s) v0 = Some r1 ∧
        (s' = s ∨
         reach (mem s) k 3 (cr3 s) v0 = None ∧ rt_user r1 = false ∧
         mget (mem s') (entry_addr k (rt_tbl r1) v0) = 0)
    end).
Proof.
  intros Hw Hf Hk Hr0 a Hne. unfold ensure_table.
  eapply runs_step; [by apply kwin_load_entry|]. fold a. rewrite e_present_bit.
  set (e := mget (mem s) a) in *.
  assert (Hdown : reach (mem s) k 3 (cr3 s) v0 =
    if Z.testbit e 0 then Some (Rtab (mask_4k e) (rt_user r0 && Z.testbit e 2) (rt_write r0 && Z.testbit e 1))
    else None).
  { rewrite (reach_reach _ k (S k) _ _ _ r0) by (done || lia).
    rewrite reach_S by done. cbv zeta. fold a e. destruct (Z.testbit e 0) eqn:E0; [|done].
    rewrite Hne by done. cbn [andb negb].
    rewrite reach_refl. simpl. unfold rt_under; simpl. rewrite !andb_true_r.
    rewrite mask_4k_frame; [done|]. eapply pt_bound; [by eapply kw_tree| |done]. lia. }
  destruct (Z.testbit e 0) eqn:E0.
  { apply runs_ret. eexists fl, _. split; [by apply keeps_refl|]. split; [|split; [exact Hdown|by left]]. done. }
  destruct fl as [|p fl].
  { eapply runs_step; [exact (alloc_runs W s [] Hw Hf)|]. done. }
  destruct (alloc_link s fl k v0 r0 p 3) as (s1 & s' & E1 & Hp0 & E2 & E3 & Hk' & Hm & Hz & Hre); try done; [lia|].
  eapply runs_step; [exact E1|]. destruct (Z.eqb_spec p 0); [done|].
  eapply runs_step; [exact E2|]. eapply runs_step; [exact E3|]. apply runs_ret.
  eexists fl, _. split; [done|]. split; [|split; [exact Hre|right]]; [done|].
  split_and!; [done|by rewrite andb_false_r|done].
Qed.

(** *** Writing a leaf (or clearing an entry) *)

(** An entry that does not lead to another table. *)
Definition leaf_entry (k : nat) (e : Z) : Prop :=
  k = 0%nat ∨ Z.testbit e 7 = true ∨ Z.testbit e 0 = false.

Lemma leaf_tables m r k v0 r0 e j vb rb :
  ptree m r → reach m k 3 r v0 = Some r0 → leaf_entry k e →
  reach (<[entry_addr k (rt_tbl r0) v0 := e]> m) j 3 r vb = Some rb → reach m j 3 r vb = Some rb.
Proof.
  intros Ht Hr0 Hl Hrb. destruct (decide (k ≤ j)%nat).
  { by rewrite (store_entry_above _ _ Ht _ _ _ Hr0) in Hrb. }
  destruct (decide (region k vb = region k v0)) as [Heq|Hne].
  2:{ by rewrite (proj2 (store_entry_miss _ _ Ht _ _ _ Hr0 _ vb Hne)) in Hrb. }
  destruct (store_entry_hit _ _ _ _ _ Hr0 vb Heq) as [Hvb Ha].
  rewrite (reach_reach _ j k _ _ _ r0) in Hrb; [|lia|by rewrite (store_entry_above _ _ Ht _ _ _ Hr0)].
  destruct k as [|k]; [lia|]. rewrite reach_S in Hrb by lia. cbv zeta in Hrb.
  rewrite Ha, mget_insert_eq in Hrb. destruct Hl as [?|[Hl|Hl]]; [done|..]; rewrite Hl in Hrb.
  - by rewrite andb_false_r in Hrb.
  - done.
Qed.

Lemma kwin_leaf s k v0 r0 e :
  kwin W s → reach (mem s) k 3 (cr3 s) v0 = Some r0 → leaf_entry k e →
  ((1 ≤ k)%nat → 0 ≤ e < 2 ^ 52) →
  (∀ p i, W p → 0 ≤ i < 4096 → region k (p + i) ≠ region k v0) →
  let s' := set_mem (<[entry_addr k (rt_tbl r0) v0 := e]> (mem s)) s in
  kwin W s' ∧ edits s s' ∧ (∀ fl, kfree W s fl → kfree W s' fl) ∧
  (∀ va, region k va ≠ region k v0 → walk (mem s') 3 (cr3 s) va = walk (mem s) 3 (cr3 s) va).
Proof.
  intros Hw Hr0 Hl Hb Hdisj s'. assert (Ht := kw_tree _ _ Hw).
  assert (Hlt := λ j vb rb, leaf_tables _ _ k v0 r0 e j vb rb Ht Hr0 Hl).
  assert (Hmiss := λ va Hne, proj1 (store_entry_miss _ _ Ht k v0 r0 Hr0 e va Hne)).
  split_and!; [| | |done].
  - split; simpl; try by eapply Hw.
    + intros q i Hq Hi. rewrite <- (kw_ident _ _ Hw q i Hq Hi). unfold phys_of, translate. simpl.
      rewrite (kwin_cr3 _ _ Hw). destruct (canonical _); [|done]. rewrite Hmiss; [done|]. by apply Hdisj.
    + split.
      * intros i j va vb ra rb Ha Hb'. by eapply pt_unique; eauto.
      * intros j va ra Ha. by eapply pt_aligned; eauto.
      * intros j va ra Hj Ha.
        destruct (decide (entry_addr j (rt_tbl ra) va = entry_addr k (rt_tbl r0) v0)) as [He|He].
        { rewrite He, mget_insert_eq. apply Hb.
          destruct (entry_hit _ _ _ _ _ _ _ _ Ht (Hlt _ _ _ Ha) Hr0 He) as (-> & _). done. }
        rewrite mget_insert_ne by done. eapply pt_bound; eauto.
    + intros j va ra Ha. eapply kw_tables; eauto.
  - apply edits_insert; [by eapply kw_win, kw_tables|by eapply kw_tables|apply index_range].
  - intros fl Hfl. pose proof Hfl as [Hls Hn Hwi Hff]. split; simpl; try done.
    + eapply free_list_ext; [|done]. intros q Hq. apply mget_insert_ne, not_eq_sym.
      by eapply kfree_entry_ne.
    + intros q Hq j va ra Hra. eapply Hff; eauto.
Qed.

(** Two addresses below 2^47 in the same level-0 region share their page. *)
Lemma region_0_page va vb : 0 ≤ va < 2 ^ 47 → 0 ≤ vb < 2 ^ 47 → region 0 va = region 0 vb → page_of va = page_of vb.
Proof.
  intros Ha Hb. unfold region. change (span 0) with 4096.
  assert (Hs : ∀ x, 0 ≤ x < 2 ^ 47 → 0 ≤ x / 4096 < 2 ^ 36).
  { intros x Hx. split; [apply Z.div_pos; lia|]. apply Z.div_lt_upper_bound; lia. }
  change (2 ^ (9 * (4 - Z.of_nat 0))) with (2 ^ 36).
  rewrite !Z.mod_small by (by apply Hs). unfold page_of.
  pose proof (Z.div_mod va 4096). pose proof (Z.div_mod vb 4096). lia.
Qed.

Lemma window_region_0 s virt p i :
  kwin W s → 0 ≤ virt < 2 ^ 47 → ¬ W (page_of virt) → W p → 0 ≤ i < 4096 → region 0 (p + i) ≠ region 0 virt.
Proof.
  intros Hw Hv HnW Hp Hi Heq. apply HnW. assert (Hpg := kw_win _ _ Hw p Hp).
  pose proof (is_page_end _ Hpg). destruct Hpg as [Hb Ha].
  rewrite <- (region_0_page (p + i) virt), page_of_add by (done || lia). done.
Qed.

(** ** [map_page] *)

Context {Huart : UartLive}.

Lemma kwin_split s fl v0 r1 p :
  kwin W s → kfree W s (p :: fl) → reach (mem s) 1 3 (cr3 s) v0 = Some r1 →
  let a := entry_addr 1 (rt_tbl r1) v0 in
  let pde := mget (mem s) a in
  Z.testbit pde 0 = true → Z.testbit pde 7 = true →
  ∃ s1 s2 s', pmm_alloc_page s = Ok p s1 ∧ p ≠ 0 ∧
    for_nat 512 0 (λ i, store64 (p + 8 * i) (split_entry pde i)) s1 = Ok tt s2 ∧
    store64 a (Z.lor p 7) s2 = Ok tt s' ∧ load64 a s' = Ok (Z.lor p 7) s' ∧
    keeps 1 s (p :: fl) s' fl ∧
    reach (mem s') 0 3 (cr3 s) v0 = Some (Rtab (mask_4k (Z.lor p 7)) (rt_user r1) (rt_write r1)).
Proof.
  intros Hw Hf Hr1 a pde E0 E7.
  destruct (keeps_alloc s p fl Hw Hf) as (s1 & E1 & Hk1 & Hp0 & HWp & Hnin & Hfr & Hs & Hz).
  assert (Hc : cr3 s1 = cr3 s) by (eapply edits_cr3, Hk1).
  assert (Hpg : is_page p) by (by eapply kw_win). rewrite <- Hc in Hfr.
  destruct (fill_page W (split_entry pde) s1 p) as (m2 & E2 & Hs2 & Hin & Hout); [apply Hk1|done|done|].
  set (s2 := set_mem m2 s1) in *.
  assert (Hw2 : kwin W s2) by (apply kwin_same_xlat; [apply Hk1|done]).
  assert (Hs12 : same_xlat (cr3 s) (mem s) m2) by (etrans; [done|by rewrite <- Hc]).
  assert (Hr2 : reach (mem s2) 1 3 (cr3 s2) v0 = Some r1).
  { unfold s2; simpl. rewrite Hc, (same_xlat_reach _ _ _ _ _ Hs12). done. }
  assert (Hpb : 0 ≤ pde < 2 ^ 52) by (eapply pt_bound; [by eapply kw_tree|lia|done]).
  assert (Hpt : ∀ i, 0 ≤ i < 512 → mget m2 (p + 8 * i) = split_entry pde i).
  { intros i Hi. rewrite Hin by done. apply u64_small.
    destruct (split_entry_parts pde i Hpb Hi) as (_ & _ & ?). lia. }
  destruct (kwin_link s2 0 v0 r1 p 7) as (Hw' & Hed & Hwk & Hre & Hfr'); try done; try lia.
  { by eapply fresh_same_xlat. }
  { intros vb Hvb. destruct (store_entry_hit _ _ _ _ _ Hr2 vb Hvb) as [_ Ha].
    apply (split_walk _ _ _ _ pde); try done. rewrite Ha. unfold s2; simpl. by rewrite (Hs12 _ _ _ Hr1). }
  assert (Hf2 : kfree W s2 fl).
  { destruct (kp_free _ _ _ _ _ Hk1) as [Hl1 Hn1 Hwi1 Hff1]. split; simpl; try done.
    - eapply free_list_ext; [|done]. intros q Hq. apply Hout.
      rewrite page_of_page; [by intros ->|]. eapply kwin_aligned; eauto.
    - intros q Hq. eapply fresh_same_xlat; [done|]. by apply Hff1. }
  assert (Hr3 : reach (<[a := Z.lor p 7]> (mem s2)) 1 3 (cr3 s2) v0 = Some r1).
  { rewrite (store_entry_above _ _ (kw_tree _ _ Hw2) _ _ _ Hr2) by lia. done. }
  assert (Hm : mask_4k (Z.lor p 7) = p).
  { rewrite mask_4k_frame, frame_entry; try done; try apply Hpg; destruct Hpg; [lia|].
    rewrite lor_page_flags by lia. lia. }
  exists s1, s2, (set_mem (<[a := Z.lor p 7]> (mem s2)) s2). split_and!; try done.
  - unfold a. rewrite kwin_store_entry by done. by rewrite u64_entry.
  - unfold a. rewrite (kwin_load_entry _ 1 v0 r1) by done. simpl. by rewrite mget_insert_eq.
  - split; [done|by apply Hfr'| |..].
    + etrans; [apply Hk1|]. etrans; [|exact Hed]. split; [by destruct s1|].
      intros b Hb. apply Hout. intros <-. done.
    + intros va. rewrite <- Hc at 1. change (cr3 s1) with (cr3 s2).
      rewrite Hwk. unfold s2; simpl. rewrite Hc. by apply same_xlat_walk.
    + etrans; [by apply same_xlat_shape|]. rewrite <- Hc. apply (store_shape (mem s2) (cr3 s2)); try done.
      { by eapply kw_tree. } intros _ _ _. destruct Hpg. by rewrite !testbit_entry by lia.
    + exists [p]. done.
  - rewrite Hm. change (cr3 s2) with (cr3 s1) in Hre. rewrite Hc in Hre.
    etrans; [exact Hre|]. by rewrite !andb_true_r.
Qed.

Lemma split_banner_runs virt phys s : runs (split_banner virt phys) s (λ _ s', io_only s s').
Proof.
  unfold split_banner. do 4 print_step. apply runs_bind, runs_gets. print_step. print_one. io_chain.
Qed.

Lemma split_report_runs page e s : runs (split_report page e) s (λ _ s', io_only s s').
Proof. unfold split_report. do 4 print_step. print_one. io_chain. Qed.

(** The page-table level of [map_page]: on return either no page was left, or
    the walk of [v0] reaches the page table behind the returned entry. *)
Lemma ensure_pt_runs s fl v0 r1 virt phys :
  kwin W s → kfree W s fl → reach (mem s) 1 3 (cr3 s) v0 = Some r1 →
  let a := entry_addr 1 (rt_tbl r1) v0 in
  let pde := mget (mem s) a in
  let deep := Z.testbit pde 0 && negb (Z.testbit pde 7) in
  runs (ensure_pt virt phys a pde) s (λ o s',
    match o with
    | None => fl = [] ∧ keeps 0 s fl s' fl
    | Some e => ∃ fl', keeps 1 s fl s' fl' ∧
        reach (mem s') 0 3 (cr3 s) v0 =
          Some (Rtab (mask_4k e) (rt_user r1 && (if deep then Z.testbit pde 2 else true))
                  (rt_write r1 && (if deep then Z.testbit pde 1 else true)))
    end).
Proof.
  intros Hw Hf Hr1 a pde deep. unfold ensure_pt. rewrite e_present_bit, e_large_bit.
  unfold deep. destruct (Z.testbit pde 0) eqn:E0; cbn [negb andb].
  2:{ destruct fl as [|p fl].
      { eapply runs_step; [exact (alloc_runs W s [] Hw Hf)|].
        split; [done|]. by apply keeps_refl. }
      destruct (alloc_link s fl 0 v0 r1 p 7) as (s1 & s' & E1 & Hp0 & E2 & E3 & Hk' & Hm & Hz & Hre); try done.
      eapply runs_step; [exact E1|]. destruct (Z.eqb_spec p 0); [done|].
      eapply runs_step; [exact E2|]. eapply runs_step; [exact E3|]. apply runs_ret. exists fl. split; [done|].
      rewrite Hm. exact Hre. }
  destruct (Z.testbit pde 7) eqn:E7; cbn [negb].
  2:{ apply runs_ret. exists fl. split; [by apply keeps_refl|].
      rewrite (reach_reach _ 0 1 _ _ _ r1) by (done || lia). rewrite reach_S by done. cbv zeta.
      fold a pde. rewrite E0, E7. cbn [andb negb]. rewrite reach_refl. simpl. unfold rt_under; simpl.
      rewrite !andb_true_r, mask_4k_frame; [done|]. eapply pt_bound; [by eapply kw_tree|lia|done]. }
  apply runs_bind. eapply runs_mono; [apply split_banner_runs|]. intros [] s0 Hio.
  assert (Hw0 := kwin_io_only _ _ _ Hio Hw). assert (Hf0 := kfree_io_only _ _ _ _ Hio Hf).
  assert (Hr0 : reach (mem s0) 1 3 (cr3 s0) v0 = Some r1) by by rewrite Hio.
  assert (Epde : mget (mem s0) a = pde) by by rewrite Hio.
  assert (Hk0 : keeps 0 s fl s0 fl) by by apply keeps_io.
  destruct fl as [|p fl].
  { eapply runs_step; [exact (alloc_runs W s0 [] Hw0 Hf0)|]. rewrite Z.eqb_refl. print_step. apply runs_ret. split; [done|].
    apply keeps_io; [by etrans|done|done]. }
  destruct (kwin_split s0 fl v0 r1 p) as (s1 & s2 & s' & E1 & Hp0 & E2 & E3 & E4 & Hk' & Hre); try done.
  1-2: fold a; by rewrite Epde.
  fold a in E2, E3, E4. rewrite Epde in E2.
  eapply runs_step; [exact E1|]. destruct (Z.eqb_spec p 0); [done|].
  eapply runs_step; [exact E2|]. eapply runs_step; [exact E3|]. eapply runs_step; [exact E4|].
  apply runs_bind. eapply runs_mono; [apply split_report_runs|]. intros [] s4 Hio4.
  apply runs_ret. exists fl. split.
  - apply (keeps_trans 0 1 s (p :: fl) s0 (p :: fl)); [done|].
    apply (keeps_trans 1 0 s0 (p :: fl) s' fl); [done|].
    apply keeps_io; [done|apply Hk'|apply Hk'].
  - rewrite Hio4. simpl. rewrite !andb_true_r. rewrite <- Hre. by rewrite Hio.
Qed.

(** The first half of [map_page]: the directory of [virt]. *)
Definition dirs_ready (s : kstate) (fl : list Z) (virt : Z) (s' : kstate) (fl' : list Z) (r1 : rtab) : Prop :=
  keeps 2 s fl s' fl' ∧ reach (mem s') 1 3 (cr3 s) virt = Some r1 ∧
  (s' = s ∨ reach (mem s) 1 3 (cr3 s) virt = None ∧ rt_user r1 = false).

Lemma ensure_dirs_runs s fl virt :
  kwin W s → kfree W s fl → (2 ≤ length fl)%nat → small_path (mem s) (cr3 s) virt →
  runs (ensure_table (entry_addr 3 (cr3 s) virt)) s (λ o s1,
    ∃ e1, o = Some e1 ∧
    runs (ensure_table (entry_addr 2 (mask_4k e1) virt)) s1 (λ o2 s2,
      ∃ e2 fl2 r1, o2 = Some e2 ∧ rt_tbl r1 = mask_4k e2 ∧ dirs_ready s fl virt s2 fl2 r1)).
Proof.
  intros Hw Hf Hlen Hsp.
  assert (Hr3 : reach (mem s) 3 3 (cr3 s) virt = Some (Rtab (cr3 s) true true)) by apply reach_refl.
  eapply runs_mono.
  { apply (ensure_table_runs s fl 2 virt (Rtab (cr3 s) true true)); [done|done|lia|done|].
    by apply Hsp; [lia|]. }
  intros [e1|] s1 Ho; [|destruct Ho as [-> _]; simpl in Hlen; lia].
  destruct Ho as (fl1 & r2 & Hk1 & Et & Hr2 & Hcase). exists e1. split; [done|].
  assert (Hc1 : cr3 s1 = cr3 s) by (eapply edits_cr3, Hk1).
  assert (Hlen1 : (1 ≤ length fl1)%nat).
  { destruct (kp_taken _ _ _ _ _ Hk1) as (ps & -> & ?). rewrite length_app in Hlen. lia. }
  rewrite <- Et. eapply runs_mono.
  { apply (ensure_table_runs s1 fl1 1 virt r2); [apply Hk1|apply Hk1|lia|by rewrite Hc1|].
    destruct Hcase as [->|(_ & _ & Hz)]; [by apply (Hsp 2%nat)|by rewrite Hz]. }
  intros [e2|] s2 Ho; [|destruct Ho as [-> _]; simpl in Hlen1; lia].
  destruct Ho as (fl2 & r1 & Hk2 & Et2 & Hr1 & Hcase2). exists e2, fl2, r1.
  rewrite Hc1 in Hr1, Hcase2. split_and!; [done|done|].
  split; [by apply (keeps_trans 1 1 _ _ s1 fl1)|]. split; [done|].
  destruct Hcase as [->|(Hn & Hu & Hz)]; destruct Hcase2 as [->|(Hn2 & Hu2 & Hz2)].
  - by left.
  - by right.
  - exfalso. rewrite (reach_reach _ 1 2 _ _ _ r2), reach_S in Hr1 by (done || lia).
    cbv zeta in Hr1. by rewrite Hz in Hr1.
  - right. split; [|done]. destruct (reach (mem s) 1 3 (cr3 s) virt) as [r|] eqn:E; [|done].
    exfalso. rewrite reach_S in E by lia. cbv zeta in E.
    change (reach (mem s) 2 3 (cr3 s) virt) with (reach (mem s) 2 (S 2) (cr3 s) virt) in Hn.
    rewrite reach_S in Hn by lia. cbv zeta in Hn.
    destruct (_ && _); [|done]. by rewrite reach_refl in Hn.
Qed.

(** A page mapped by a store into the tables: every address of [virt]'s region of
    level [k] translates to [phys] plus its offset, the others as before. *)
Record mapped (k : nat) (s s' : kstate) (virt phys flags : Z) (u w : bool) : Prop := {
  mp_here : ∀ va, region k va = region k virt →
    walk (mem s') 3 (cr3 s) va =
      Some (Xlat (phys + va mod span k) (u && Z.testbit flags 2) (w && Z.testbit flags 1));
  mp_else : ∀ va, region k va ≠ region k virt →
    walk (mem s') 3 (cr3 s) va = walk (mem s) 3 (cr3 s) va;
}.

(** What [map_page] leaves: the invariants, at most [n] pages taken, only window
    pages written, no path made worse. *)
Record map_done (n : nat) (s : kstate) (fl : list Z) (s' : kstate) (fl' : list Z) : Prop := {
  md_win : kwin W s';
  md_free : kfree W s' fl';
  md_edits : edits s s';
  md_shape : shape_le (cr3 s) (mem s) (mem s');
  md_taken : ∃ ps, fl = ps ++ fl' ∧ (length ps ≤ n)%nat;
}.

Lemma keeps_done n s fl s' fl' : keeps n s fl s' fl' → map_done n s fl s' fl'.
Proof. intros []. by split. Qed.

Lemma map_done_trans n1 n2 s1 fl1 s2 fl2 s3 fl3 :
  map_done n1 s1 fl1 s2 fl2 → map_done n2 s2 fl2 s3 fl3 → map_done (n1 + n2) s1 fl1 s3 fl3.
Proof.
  intros [_ _ He2 Hs2 (ps & -> & Hn2)] [Hw3 Hf3 He3 Hs3 (qs & -> & Hn3)].
  rewrite (edits_cr3 _ _ He2) in Hs3. split; try done; [by etrans..|].
  exists (ps ++ qs). rewrite <- app_assoc, length_app. split; [done|lia].
Qed.

Lemma map_done_mono n1 n2 s fl s' fl' : (n1 ≤ n2)%nat → map_done n1 s fl s' fl' → map_done n2 s fl s' fl'.
Proof. intros Hn [?? ?? (ps & ? & ?)]. split; try done. exists ps. split; [done|lia]. Qed.

(** The last store of [map_page]. *)
Lemma store_leaf_runs s fl k virt phys flags r0 e :
  kwin W s → kfree W s fl → reach (mem s) k 3 (cr3 s) virt = Some r0 → (k ≤ 1)%nat →
  0 ≤ e < 2 ^ 52 → leaf_entry k e → Z.testbit e 0 = true →
  frame e - frame e mod span k = phys → Z.testbit e 2 = Z.testbit flags 2 → Z.testbit e 1 = Z.testbit flags 1 →
  (∀ p i, W p → 0 ≤ i < 4096 → region k (p + i) ≠ region k virt) →
  runs (store64 (entry_addr k (rt_tbl r0) virt) e) s (λ _ s',
    map_done 0 s fl s' fl ∧ mapped k s s' virt phys flags (rt_user r0) (rt_write r0)).
Proof.
  intros Hw Hf Hr Hk He Hl E0 Efr E2 E1 Hdisj. unfold runs.
  rewrite kwin_store_entry by done. rewrite u64_small by lia.
  destruct (kwin_leaf s k virt r0 e) as (Hw' & Hed & Hfr & Helse); try done.
  split; split; try done.
  - by apply Hfr.
  - apply store_shape; [by eapply kw_tree|done|done|].
    intros -> H0 H7. destruct Hl as [?|[?|?]]; congruence.
  - by exists [].
  - intros va Heq. assert (Ht := kw_tree _ _ Hw). simpl.
    rewrite (store_entry_walk _ _ Ht _ _ _ Hr _ _ Heq).
    destruct (store_entry_hit _ _ _ _ _ Hr va Heq) as [_ Ha].
    assert (walk (<[entry_addr k (rt_tbl r0) virt := e]> (mem s)) k (rt_tbl r0) va = Some (leaf k e va)) as ->.
    { destruct k as [|[|]]; [| |lia]; unfold walk; fold walk; rewrite Ha, mget_insert_eq, E0; [done|].
      destruct Hl as [?|[E7|?]]; [done| |congruence]. by rewrite E7. }
    cbn [fmap option_fmap option_map leaf x_pa x_user x_write]. by rewrite Efr, E2, E1.
Qed.

(** [map_page] when the two addresses are not both 2 MiB aligned. *)
Lemma map_page_runs s fl virt phys flags :
  kwin W s → kfree W s fl → (3 ≤ length fl)%nat → small_path (mem s) (cr3 s) virt →
  0 ≤ virt < 2 ^ 47 → ¬ W (page_of virt) →
  0 ≤ phys < 2 ^ 52 → phys mod 4096 = 0 → 0 ≤ flags < 4096 → Z.testbit flags 0 = true →
  (virt mod 2 ^ 21 ≠ 0 ∨ phys mod 2 ^ 21 ≠ 0) →
  runs (map_page virt phys flags) s (λ _ s', ∃ fl' u w,
    map_done 3 s fl s' fl' ∧ mapped 0 s s' virt phys flags u w ∧
    (open_path (mem s) (cr3 s) virt → u = true ∧ w = true) ∧
    (reach (mem s) 1 3 (cr3 s) virt = None → u = false)).
Proof.
  intros Hw Hf Hlen Hsp Hv HnW Hp Hpa Hfl Hf0 Hna. unfold map_page.
  apply runs_bind, runs_gets. rewrite (kw_root _ _ Hw), entry_pml4.
  apply runs_bind. eapply runs_mono; [by apply (ensure_dirs_runs s fl); [..|lia|]|].
  intros o1 s1 (e1 & -> & Hr1). rewrite entry_pdpt. apply runs_bind.
  eapply runs_mono; [exact Hr1|]. intros o2 s2 (e2 & fl2 & r1 & -> & Et & Hk2 & Hre & Hcase).
  rewrite entry_pdt, <- Et. assert (Hc2 : cr3 s2 = cr3 s) by (eapply edits_cr3, Hk2).
  assert (Hlen2 : (1 ≤ length fl2)%nat).
  { destruct (kp_taken _ _ _ _ _ Hk2) as (ps & -> & ?). rewrite length_app in Hlen. lia. }
  rewrite <- Hc2 in Hre.
  eapply runs_step; [eapply kwin_load_entry; [apply Hk2|done]|].
  change 0x1FFFFF with (2 ^ 21 - 1). rewrite !land_ones_mod by lia.
  replace ((virt mod 2 ^ 21 =? 0) && (phys mod 2 ^ 21 =? 0)) with false by lia.
  apply runs_bind. eapply runs_mono; [eapply ensure_pt_runs; [apply Hk2|apply Hk2|done]|].
  intros [e|] s3 Ho; [|destruct Ho as [-> _]; simpl in Hlen2; lia].
  destruct Ho as (fl3 & Hk3 & Hr3). rewrite entry_pt.
  assert (Hc3 : cr3 s3 = cr3 s) by (rewrite <- Hc2; eapply edits_cr3, Hk3).
  rewrite Hc2, <- Hc3 in Hr3.
  set (r0 := Rtab (mask_4k e) _ _) in Hr3. change (mask_4k e) with (rt_tbl r0).
  eapply runs_mono.
  { eapply (store_leaf_runs s3 fl3 0 virt phys flags r0 (Z.lor phys flags)); try exact Hr3; try apply Hk3.
    - lia.
    - rewrite lor_page_flags by done. change (2 ^ 52) with (2 ^ 40 * 4096) in *.
      rewrite (Z.div_mod phys 4096) in Hp |- * by lia. lia.
    - by left.
    - by rewrite testbit_entry.
    - rewrite frame_entry by done. change (span 0) with 4096. lia.
    - by rewrite testbit_entry.
    - by rewrite testbit_entry.
    - intros p i. apply (window_region_0 s3); [apply Hk3|done|done]. }
  intros [] s' [Hd Hm]. eexists fl3, _, _. split; [|split; [|split]].
  - apply (map_done_trans 3 0 s fl s3 fl3); [|done].
    apply keeps_done. by apply (keeps_trans 2 1 s fl s2 fl2).
  - destruct Hm as [Hh Hel]. rewrite Hc3 in Hh, Hel. split; [exact Hh|].
    intros va Hne. rewrite Hel by done. assert (Hwk3 := kp_walk _ _ _ _ _ Hk3 va).
    rewrite Hc2 in Hwk3. rewrite Hwk3. apply Hk2.
  - intros (t & Hot & Hop). rewrite Hc2 in Hre. destruct Hcase as [->|(Hn & _)]; [|congruence].
    rewrite Hot in Hre. simplify_eq. cbn [rt_user rt_write rt_tbl] in Hop |- *.
    unfold r0; cbn [rt_user rt_write rt_tbl]. set (pde := mget (mem s) (entry_addr 1 t virt)) in *. cbv zeta in Hop.
    destruct (Z.testbit pde 0), (Z.testbit pde 7); cbn [andb negb] in *; try done.
    by destruct Hop as [-> ->].
  - intros Hn. destruct Hcase as [->|(_ & Hu)]; [congruence|].
    unfold r0. cbn [rt_user]. by rewrite Hu.
Qed.

(** [map_page] when both are: one entry of the directory. *)
Lemma map_page_large_runs s fl virt phys flags :
  kwin W s → kfree W s fl → (2 ≤ length fl)%nat → small_path (mem s) (cr3 s) virt →
  (∀ p i, W p → 0 ≤ i < 4096 → region 1 (p + i) ≠ region 1 virt) →
  0 ≤ phys < 2 ^ 52 → 0 ≤ flags < 4096 → Z.testbit flags 0 = true →
  virt mod 2 ^ 21 = 0 → phys mod 2 ^ 21 = 0 →
  runs (map_page virt phys flags) s (λ _ s', ∃ fl' u w,
    map_done 2 s fl s' fl' ∧ mapped 1 s s' virt phys flags u w ∧
    (open_path (mem s) (cr3 s) virt → u = true ∧ w = true)).
Proof.
  intros Hw Hf Hlen Hsp Hdisj Hp Hfl Hf0 Hva Hpa. unfold map_page.
  apply runs_bind, runs_gets. rewrite (kw_root _ _ Hw), entry_pml4.
  apply runs_bind. eapply runs_mono; [by apply (ensure_dirs_runs s fl); [..|lia|]|].
  intros o1 s1 (e1 & -> & Hr1). rewrite entry_pdpt. apply runs_bind.
  eapply runs_mono; [exact Hr1|]. intros o2 s2 (e2 & fl2 & r1 & -> & Et & Hk2 & Hre & Hcase).
  rewrite entry_pdt, <- Et. assert (Hc2 : cr3 s2 = cr3 s) by (eapply edits_cr3, Hk2).
  rewrite <- Hc2 in Hre. eapply runs_step; [eapply kwin_load_entry; [apply Hk2|done]|].
  change 0x1FFFFF with (2 ^ 21 - 1). rewrite !land_ones_mod, Hva, Hpa by lia. cbn [Z.eqb andb].
  assert (Hp4 := mod_4096_of_2m _ Hpa).
  assert (Hor : Z.lor (Z.lor phys flags) PAGE_PS = Z.lor phys (Z.lor flags PAGE_PS)) by by rewrite Z.lor_assoc.
  assert (Hf7 : 0 ≤ Z.lor flags PAGE_PS < 4096).
  { split; [apply Z.lor_nonneg; split; [lia|done]|]. destruct (Z.le_gt_cases 4096 (Z.lor flags PAGE_PS)) as [Hge|]; [|lia].
    exfalso. assert (Hlog : 12 ≤ Z.log2 (Z.lor flags PAGE_PS)) by (apply Z.log2_le_pow2; lia).
    rewrite Z.log2_lor in Hlog by (lia || done). change (Z.log2 PAGE_PS) with 7 in Hlog.
    destruct (decide (flags = 0)) as [->|]; [done|].
    assert (Z.log2 flags < 12) by (apply Z.log2_lt_pow2; lia). lia. }
  rewrite Hor. eapply runs_mono.
  { eapply (store_leaf_runs s2 fl2 1 virt phys flags r1 (Z.lor phys (Z.lor flags PAGE_PS)));
      try apply Hk2; try done.
    - rewrite lor_page_flags by done. change (2 ^ 52) with (2 ^ 40 * 4096) in *.
      rewrite (Z.div_mod phys 4096) in Hp |- * by lia. lia.
    - right; left. rewrite testbit_entry, Z.lor_spec by done. apply orb_true_r.
    - by rewrite testbit_entry, Z.lor_spec, Hf0 by done.
    - rewrite frame_entry by done. change (span 1) with (2 ^ 21). lia.
    - rewrite testbit_entry, Z.lor_spec by done. apply orb_false_r.
    - rewrite testbit_entry, Z.lor_spec by done. apply orb_false_r. }
  intros [] s' [Hd Hm]. eexists fl2, _, _. split; [|split].
  - apply (map_done_trans 2 0 s fl s2 fl2); [by apply keeps_done|done].
  - destruct Hm as [Hh Hel]. rewrite Hc2 in Hh, Hel. split; [exact Hh|].
    intros va Hne. rewrite Hel by done. apply Hk2.
  - intros (t & Hot & Hop). rewrite Hc2 in Hre. destruct Hcase as [->|(Hn & _)]; [|congruence].
    rewrite Hot in Hre. by simplify_eq.
Qed.

End PagingProofs.
