(* ===== verification/PagingOps.v ===== *)
(** * PagingOps: unmapping, protection, cloning and [read_pte]

    What the remaining operations of [paging.c] and [read_pte] of [task.c] do to
    the translations of a space that satisfies [kwin]. *)

From S2P Require Import Prelude State Machine Walk Serial Space Pmm Paging.

Section PagingOps.
Context `{Platform} (W : Z → Prop).

(** Switching to the space that is active changes nothing. *)
Lemma paging_switch_same s : kwin W s → paging_switch (cr3 s) s = Ok tt s.
Proof. intros Hw. pose proof (kw_root _ _ Hw) as Hr. destruct s. simpl in Hr. by subst. Qed.

(** *** Stepping down a path *)

Lemma reach_down s k va ra :
  kwin W s → reach (mem s) (S k) 3 (cr3 s) va = Some ra →
  let e := mget (mem s) (entry_addr (S k) (rt_tbl ra) va) in
  reach (mem s) k 3 (cr3 s) va =
    if Z.testbit e 0 && negb (Z.testbit e 7)
    then Some (Rtab (mask_4k e) (rt_user ra && Z.testbit e 2) (rt_write ra && Z.testbit e 1))
    else None.
Proof.
  intros Hw Hr e. rewrite (reach_reach _ k (S k) _ _ _ ra) by (done || lia).
  rewrite reach_S by done. cbv zeta. fold e. destruct (_ && _); [|done].
  rewrite reach_refl. simpl. unfold rt_under; simpl. rewrite !andb_true_r, mask_4k_frame; [done|].
  eapply pt_bound; [by eapply kw_tree|lia|done].
Qed.

(** The upper two levels, as [map_page_flags], [unmap_page] and [read_pte] walk
    them: either an entry is absent, or the directory is reached. *)
Lemma upper_levels s va :
  kwin W s → small_path (mem s) (cr3 s) va →
  let e3 := mget (mem s) (entry_addr 3 (cr3 s) va) in
  load64 (entry_addr 3 (cr3 s) va) s = Ok e3 s ∧
  if Z.testbit e3 0 then
    let e2 := mget (mem s) (entry_addr 2 (mask_4k e3) va) in
    load64 (entry_addr 2 (mask_4k e3) va) s = Ok e2 s ∧
    if Z.testbit e2 0 then
      Z.testbit e2 7 = false ∧
      ∃ r1, reach (mem s) 1 3 (cr3 s) va = Some r1 ∧ rt_tbl r1 = mask_4k e2
    else reach (mem s) 1 3 (cr3 s) va = None
  else reach (mem s) 1 3 (cr3 s) va = None.
Proof.
  intros Hw Hsp e3.
  assert (Hr3 : reach (mem s) 3 3 (cr3 s) va = Some (Rtab (cr3 s) true true)) by apply reach_refl.
  split; [exact (kwin_load_entry W s 3 va _ Hw Hr3)|].
  assert (H7 := Hsp 3%nat _ ltac:(lia) Hr3). cbv zeta in H7. cbn [rt_tbl] in H7. fold e3 in H7.
  assert (Hd := reach_down s 2 va _ Hw Hr3). cbv zeta in Hd. cbn [rt_tbl] in Hd. fold e3 in Hd.
  destruct (Z.testbit e3 0) eqn:E3; cbn [andb negb] in Hd.
  2:{ destruct (reach (mem s) 1 3 (cr3 s) va) as [r|] eqn:E; [|done].
      rewrite reach_S in E by lia. cbv zeta in E. fold e3 in E. by rewrite E3 in E. }
  rewrite H7 in Hd by done. cbn [andb negb] in Hd.
  assert (H7' := Hsp 2%nat _ ltac:(lia) Hd). cbv zeta in H7' |- *. cbn [rt_tbl] in H7'.
  split; [exact (kwin_load_entry W s 2 va _ Hw Hd)|].
  assert (Hd' := reach_down s 1 va _ Hw Hd). cbv zeta in Hd'. cbn [rt_tbl] in Hd'.
  destruct (Z.testbit (mget _ _) 0); cbn [andb negb] in Hd'; [|done].
  split; [by apply H7'|]. rewrite H7' in Hd' by done. eexists. split; [exact Hd'|done].
Qed.

(** Running such code down to its load of the directory entry. *)
Ltac to_directory Hw Hsp :=
  apply runs_bind, runs_gets; rewrite (kw_root _ _ Hw), entry_pml4;
  let L3 := fresh in let L2 := fresh in let Hu := fresh in let Et := fresh in let Hr := fresh in
  destruct (upper_levels _ _ Hw Hsp) as [L3 Hu]; cbv zeta in Hu;
  eapply runs_step; [exact L3|]; rewrite e_present_bit;
  destruct (Z.testbit (mget _ (entry_addr 3 _ _)) 0); cbn [negb]; [|congruence];
  destruct Hu as [L2 Hu]; rewrite entry_pdpt; eapply runs_step; [exact L2|];
  rewrite e_present_bit, e_large_bit;
  destruct (Z.testbit (mget _ _) 0); cbn [negb]; [|congruence];
  destruct Hu as (-> & ? & Hr & Et); simplify_eq; rewrite entry_pdt, <- Et;
  eapply runs_step; [by apply (kwin_load_entry W)|].

(** ** Clearing an entry *)

Record unmapped (k : nat) (s s' : kstate) (virt : Z) : Prop := {
  um_here : ∀ va, region k va = region k virt → walk (mem s') 3 (cr3 s) va = None;
  um_else : ∀ va, region k va ≠ region k virt → walk (mem s') 3 (cr3 s) va = walk (mem s) 3 (cr3 s) va;
}.

Lemma testbit_u64 x i : 0 ≤ i < 64 → Z.testbit (u64 x) i = Z.testbit x i.
Proof. intros. unfold u64. apply Z.mod_pow2_bits_low. lia. Qed.

Lemma clear_bit0 e : Z.testbit (Z.land e (Z.lnot 1)) 0 = false.
Proof. rewrite Z.land_spec, Z.lnot_spec by lia. apply andb_false_r. Qed.

Lemma land_lnot_bound e k b : 0 ≤ e < b → 0 ≤ k → 0 ≤ Z.land e (Z.lnot (2 ^ k - 1)) < b.
Proof.
  intros He Hk. rewrite land_lnot_ones by done. assert (0 < 2 ^ k) by (apply Z.pow_pos_nonneg; lia).
  pose proof (Z.mod_pos_bound e (2 ^ k)). pose proof (Z.mod_le e (2 ^ k)). lia.
Qed.

Lemma clear_entry_runs s fl k virt r0 :
  kwin W s → kfree W s fl → reach (mem s) k 3 (cr3 s) virt = Some r0 → (k ≤ 1)%nat →
  (∀ p i, W p → 0 ≤ i < 4096 → region k (p + i) ≠ region k virt) →
  let a := entry_addr k (rt_tbl r0) virt in
  runs (store64 a (Z.land (mget (mem s) a) (Z.lnot 1))) s (λ _ s',
    map_done W 0 s fl s' fl ∧ unmapped k s s' virt).
Proof.
  intros Hw Hf Hr Hk Hdisj a. unfold runs. unfold a at 1. rewrite (kwin_store_entry W) by done. fold a.
  set (e := u64 _). assert (E0 : Z.testbit e 0 = false) by (unfold e; rewrite testbit_u64 by lia; apply clear_bit0).
  destruct (kwin_leaf W s k virt r0 e) as (Hw' & Hed & Hfr & Helse); try done.
  { by right; right. }
  { intros Hk1. assert (Hb := pt_bound _ _ (kw_tree _ _ Hw) _ _ _ Hk1 Hr).
    assert (Hl := land_lnot_bound _ 1 _ Hb ltac:(lia)). change (2 ^ 1 - 1) with 1 in Hl. unfold e, a. rewrite u64_small; lia. }
  split; split; try done.
  - by apply Hfr.
  - apply store_shape; [by eapply kw_tree|done|done|]. intros _ H0. congruence.
  - by exists [].
  - intros va Heq. assert (Ht := kw_tree _ _ Hw). simpl.
    rewrite (store_entry_walk _ _ Ht _ _ _ Hr _ _ Heq).
    destruct (store_entry_hit _ _ _ _ _ Hr va Heq) as [_ Ha].
    destruct k as [|k]; unfold walk; fold walk; rewrite Ha, mget_insert_eq, E0; done.
Qed.

(** [unmap_page] where the directory entry names a page table: exactly the page
    of [virt] loses its translation; the frame is not given back. *)
Lemma unmap_page_small s fl virt r1 :
  kwin W s → kfree W s fl → small_path (mem s) (cr3 s) virt →
  0 ≤ virt < 2 ^ 47 → ¬ W (page_of virt) →
  reach (mem s) 1 3 (cr3 s) virt = Some r1 →
  let pde := mget (mem s) (entry_addr 1 (rt_tbl r1) virt) in
  Z.testbit pde 0 = true → Z.testbit pde 7 = false →
  runs (unmap_page virt) s (λ _ s', map_done W 0 s fl s' fl ∧ unmapped 0 s s' virt).
Proof.
  intros Hw Hf Hsp Hv HnW Hr1 pde E0 E7. unfold unmap_page.
  to_directory Hw Hsp. fold pde. rewrite e_large_bit, E7.
  assert (Hr0 := reach_down s 0 virt r1 Hw Hr1). cbv zeta in Hr0. fold pde in Hr0.
  rewrite E0, E7 in Hr0. cbn [andb negb] in Hr0. rewrite entry_pt.
  set (r0 := Rtab (mask_4k pde) _ _) in Hr0. change (mask_4k pde) with (rt_tbl r0).
  eapply runs_step; [by apply (kwin_load_entry W)|].
  apply (clear_entry_runs s fl 0 virt r0); try done; [lia|].
  intros p i. by apply (window_region_0 W s).
Qed.

(** The levels above a page table that is reached. *)
Lemma reach_pred m k n tbl va r :
  (k < n)%nat → reach m k n tbl va = Some r → is_Some (reach m (S k) n tbl va).
Proof.
  intros Hk. revert tbl r. induction n as [|n IH]; intros tbl r Hr; [lia|].
  destruct (decide (n = k)) as [->|Hne]; [rewrite reach_refl; by eexists|].
  rewrite reach_S in Hr |- * by lia. cbv zeta in Hr |- *. destruct (_ && _); [|done].
  destruct (reach m k n _ va) as [r'|] eqn:E; [|done]. destruct (IH ltac:(lia) _ _ E) as [r'' ->]. by eexists.
Qed.

Lemma reach_table s va r0 :
  kwin W s → reach (mem s) 0 3 (cr3 s) va = Some r0 →
  ∃ r1, reach (mem s) 1 3 (cr3 s) va = Some r1 ∧
    let pde := mget (mem s) (entry_addr 1 (rt_tbl r1) va) in
    Z.testbit pde 0 = true ∧ Z.testbit pde 7 = false ∧ mask_4k pde = rt_tbl r0.
Proof.
  intros Hw Hr. destruct (reach_pred (mem s) 0 3 (cr3 s) va r0 ltac:(lia) Hr) as [r1 Hr1]. exists r1. split; [done|].
  assert (Hd := reach_down s 0 va r1 Hw Hr1). cbv zeta in Hd |- *. rewrite Hr in Hd.
  destruct (Z.testbit _ 0) eqn:E0; [|done]. destruct (Z.testbit _ 7) eqn:E7; [done|]. by injection Hd as ->.
Qed.

(** [unmap_page] below a page table, as an equation. *)
Lemma unmap_page_eq s virt r0 :
  kwin W s → small_path (mem s) (cr3 s) virt → reach (mem s) 0 3 (cr3 s) virt = Some r0 →
  let a := entry_addr 0 (rt_tbl r0) virt in
  unmap_page virt s = Ok tt (set_mem (<[a := u64 (Z.land (mget (mem s) a) (Z.lnot 1))]> (mem s)) s).
Proof.
  intros Hw Hsp Hr0 a. destruct (reach_table s virt r0 Hw Hr0) as (r1 & Hr1 & E0 & E7 & Ept).
  enough (Hr : runs (unmap_page virt) s (λ _ s', s' = set_mem (<[a := u64 (Z.land (mget (mem s) a) (Z.lnot 1))]> (mem s)) s)).
  { apply runs_Ok in Hr as ([] & s' & E & ->). exact E. }
  set (pde := mget _ (entry_addr 1 _ _)) in *. unfold unmap_page. to_directory Hw Hsp. fold pde.
  rewrite e_large_bit, E7, entry_pt, Ept.
  eapply runs_step; [by apply (kwin_load_entry W)|]. unfold runs. by rewrite (kwin_store_entry W).
Qed.

(** Under a 2 MiB page the whole 2 MiB go. *)
Lemma unmap_page_large s fl virt r1 :
  kwin W s → kfree W s fl → small_path (mem s) (cr3 s) virt →
  (∀ p i, W p → 0 ≤ i < 4096 → region 1 (p + i) ≠ region 1 virt) →
  reach (mem s) 1 3 (cr3 s) virt = Some r1 →
  Z.testbit (mget (mem s) (entry_addr 1 (rt_tbl r1) virt)) 7 = true →
  runs (unmap_page virt) s (λ _ s', map_done W 0 s fl s' fl ∧ unmapped 1 s s' virt).
Proof.
  intros Hw Hf Hsp Hdisj Hr1 E7. unfold unmap_page.
  to_directory Hw Hsp. rewrite e_large_bit, E7.
  by apply (clear_entry_runs s fl 1 virt r1).
Qed.

(** Without a directory there is nothing to do. *)
Lemma unmap_page_nothing s virt :
  kwin W s → small_path (mem s) (cr3 s) virt → reach (mem s) 1 3 (cr3 s) virt = None →
  unmap_page virt s = Ok tt s.
Proof.
  intros Hw Hsp Hn. unfold unmap_page, mbind, M_bind, gets.
  rewrite (kw_root _ _ Hw), entry_pml4. destruct (upper_levels s virt Hw Hsp) as [-> Hu]. cbv zeta in Hu.
  rewrite e_present_bit. destruct (Z.testbit (mget _ (entry_addr 3 _ _)) 0); [|done]. cbn [negb].
  destruct Hu as [L2 Hu]. rewrite entry_pdpt, L2, e_present_bit.
  destruct (Z.testbit (mget _ _) 0); [|done]. destruct Hu as (_ & r & ? & _). congruence.
Qed.

(** [unmap_page] does not test that the directory entry is present: below an
    absent entry of zero it clears bit 0 of a word of physical page 0. *)
Lemma unmap_page_absent s virt r1 :
  kwin W s → small_path (mem s) (cr3 s) virt → W 0 →
  reach (mem s) 1 3 (cr3 s) virt = Some r1 →
  mget (mem s) (entry_addr 1 (rt_tbl r1) virt) = 0 →
  runs (unmap_page virt) s (λ _ s',
    let a := 8 * ((virt / 4096) mod 512) in
    s' = set_mem (<[a := u64 (Z.land (mget (mem s) a) (Z.lnot 1))]> (mem s)) s).
Proof.
  intros Hw Hsp HW0 Hr1 E0. unfold unmap_page. to_directory Hw Hsp.
  rewrite E0. change (e_large 0) with false. cbv iota. change (mask_4k 0) with 0. rewrite entry_pt.
  unfold entry_addr. eapply runs_step; [apply (kwin_load W); [done..|apply index_range]|].
  unfold runs. rewrite (kwin_store W) by (done || apply index_range). done.
Qed.

(** ** Changing protection *)

Lemma frame_u64 e : frame (u64 e) = frame e.
Proof.
  unfold frame, u64. rewrite <- Z.land_ones by lia. rewrite <- Z.land_assoc. f_equal.
Qed.

Lemma protect_entry x flags :
  let e := u64 (Z.lor (mask_flags x) (Z.land flags 0x1FF)) in
  frame e = frame x ∧ ∀ i, 0 ≤ i < 9 → Z.testbit e i = Z.testbit flags i.
Proof.
  cbv zeta. split.
  - rewrite frame_u64. unfold frame, mask_flags. rewrite Z.land_lor_distr_l, <- !Z.land_assoc.
    change (Z.land 0x1FF 0xFFFFFFFFFF000) with 0. rewrite Z.land_0_r, Z.lor_0_r. f_equal.
  - intros i Hi. rewrite testbit_u64 by lia. unfold mask_flags.
    change 0x1FF with (Z.ones 9). rewrite Z.lor_spec, !Z.land_spec, Z.lnot_spec by lia.
    rewrite Z.ones_spec_low by lia. by rewrite andb_false_r, andb_true_r.
Qed.

(** [map_page_flags] on a page of a page table: the frame stays, the rights are
    the new ones (under the rights of the upper levels); an absent page is left
    alone. *)
Lemma map_page_flags_small s fl virt flags r1 :
  kwin W s → kfree W s fl → small_path (mem s) (cr3 s) virt →
  0 ≤ virt < 2 ^ 47 → ¬ W (page_of virt) → Z.testbit flags 0 = true →
  reach (mem s) 1 3 (cr3 s) virt = Some r1 →
  let pde := mget (mem s) (entry_addr 1 (rt_tbl r1) virt) in
  Z.testbit pde 0 = true → Z.testbit pde 7 = false →
  runs (map_page_flags virt flags) s (λ _ s', map_done W 0 s fl s' fl ∧
    (∀ va, region 0 va = region 0 virt → walk (mem s') 3 (cr3 s) va =
       (λ x, Xlat (x_pa x) (rt_user r1 && Z.testbit pde 2 && Z.testbit flags 2)
                           (rt_write r1 && Z.testbit pde 1 && Z.testbit flags 1))
         <$> walk (mem s) 3 (cr3 s) va) ∧
    (∀ va, region 0 va ≠ region 0 virt → walk (mem s') 3 (cr3 s) va = walk (mem s) 3 (cr3 s) va)).
Proof.
  intros Hw Hf Hsp Hv HnW Hf0 Hr1 pde E0 E7. unfold map_page_flags. to_directory Hw Hsp.
  fold pde. rewrite e_present_bit, e_large_bit, E0, E7. cbn [negb].
  assert (Hr0 := reach_down s 0 virt r1 Hw Hr1). cbv zeta in Hr0. fold pde in Hr0.
  rewrite E0, E7 in Hr0. cbn [andb negb] in Hr0. rewrite entry_pt.
  set (r0 := Rtab (mask_4k pde) _ _) in Hr0. change (mask_4k pde) with (rt_tbl r0).
  eapply runs_step; [by apply (kwin_load_entry W)|]. rewrite e_present_bit.
  set (a := entry_addr 0 (rt_tbl r0) virt). set (x := mget (mem s) a).
  assert (Hwalk : ∀ va, region 0 va = region 0 virt → walk (mem s) 3 (cr3 s) va =
    if Z.testbit x 0 then Some (Xlat (frame x + va mod 4096) (rt_user r0 && Z.testbit x 2) (rt_write r0 && Z.testbit x 1)) else None).
  { intros va Heq. destruct (store_entry_hit _ _ _ _ _ Hr0 va Heq) as [Hva Ha].
    rewrite (walk_reach _ 0 3 _ _ r0) by (done || lia). unfold walk; fold walk. rewrite Ha. fold a x.
    destruct (Z.testbit x 0); [|done]. cbn [fmap option_fmap option_map leaf x_pa x_user x_write].
    change (span 0) with 4096. rewrite frame_aligned. do 2 f_equal. lia. }
  destruct (Z.testbit x 0) eqn:Ex; cbn [negb].
  2:{ apply runs_ret. split; [apply keeps_done, keeps_refl; done|]. split; [|done].
      intros va Heq. by rewrite Hwalk. }
  destruct (protect_entry x flags) as [Efr Eb].
  unfold runs. unfold a at 1. rewrite (kwin_store_entry W) by done. fold a. set (e := u64 _) in *.
  destruct (kwin_leaf W s 0 virt r0 e) as (Hw' & Hed & Hfr & Helse); try done; [by left|lia| |].
  { intros p i. by apply (window_region_0 W s). }
  split; [|split; [|done]].
  - split; try done; [by apply Hfr| |by exists []].
    apply store_shape; [by eapply kw_tree|done|lia|done].
  - intros va Heq. rewrite Hwalk by done. assert (Ht := kw_tree _ _ Hw). simpl.
    rewrite (store_entry_walk _ _ Ht _ _ _ Hr0 _ _ Heq).
    destruct (store_entry_hit _ _ _ _ _ Hr0 va Heq) as [_ Ha].
    unfold walk; fold walk. rewrite Ha, mget_insert_eq, Eb, Hf0 by lia.
    cbn [fmap option_fmap option_map leaf x_pa x_user x_write]. rewrite Efr, !Eb by lia.
    change (span 0) with 4096. rewrite frame_aligned. do 2 f_equal. lia.
Qed.

(** On a 2 MiB page the mask [0x1FF] also clears the page-size bit: the
    directory entry then makes the processor read the page's own contents as a
    page table. *)
Lemma map_page_flags_large s virt flags r1 :
  kwin W s → small_path (mem s) (cr3 s) virt → 0 ≤ flags < 128 → Z.testbit flags 0 = true →
  reach (mem s) 1 3 (cr3 s) virt = Some r1 →
  let pde := mget (mem s) (entry_addr 1 (rt_tbl r1) virt) in
  Z.testbit pde 0 = true → Z.testbit pde 7 = true →
  runs (map_page_flags virt flags) s (λ _ s',
    reach (mem s') 0 3 (cr3 s) virt =
      Some (Rtab (frame pde) (rt_user r1 && Z.testbit flags 2) (rt_write r1 && Z.testbit flags 1))).
Proof.
  intros Hw Hsp Hfl Hf0 Hr1 pde E0 E7. unfold map_page_flags. to_directory Hw Hsp.
  fold pde. rewrite e_present_bit, e_large_bit, E0, E7. cbn [negb].
  unfold runs. rewrite (kwin_store_entry W) by done. simpl.
  destruct (protect_entry pde flags) as [Efr Eb]. set (e := u64 _) in *.
  rewrite (reach_reach _ 0 1 _ _ _ r1); [|lia|].
  2:{ rewrite (store_entry_above _ _ (kw_tree _ _ Hw) _ _ _ Hr1) by lia. done. }
  rewrite reach_S by lia. cbv zeta. rewrite mget_insert_eq, !Eb, Hf0, Efr by lia.
  rewrite (testbit_small flags 7) by lia. cbn [andb negb]. rewrite reach_refl. simpl.
  unfold rt_under; simpl. by rewrite !andb_true_r.
Qed.

(** ** [read_pte] *)

(** Where a page table is in use, the result is the page table's own page (plus
    the offset), not the frame of [virt]. *)
Lemma read_pte_table s virt r1 :
  kwin W s → small_path (mem s) (cr3 s) virt → 0 ≤ virt →
  reach (mem s) 1 3 (cr3 s) virt = Some r1 →
  let pde := mget (mem s) (entry_addr 1 (rt_tbl r1) virt) in
  Z.testbit pde 0 = true →
  read_pte (cr3 s) virt s = Ok (Z.lor (mask_4k pde) (Z.land virt 0xFFF)) s.
Proof.
  intros Hw Hsp Hv Hr1 pde E0. unfold read_pte, mbind, M_bind. rewrite entry_pml4.
  destruct (upper_levels s virt Hw Hsp) as [-> Hu]. cbv zeta in Hu. rewrite e_present_bit.
  destruct (Z.testbit (mget _ (entry_addr 3 _ _)) 0); [|congruence]. cbn [negb].
  destruct Hu as [L2 Hu]. rewrite entry_pdpt, L2, e_present_bit, e_large_bit.
  destruct (Z.testbit (mget _ _) 0); [|congruence]. cbn [negb].
  destruct Hu as (-> & r & ? & <-). simplify_eq. rewrite entry_pdt.
  rewrite (kwin_load_entry W) by done. fold pde. rewrite e_present_bit, E0. done.
Qed.

End PagingOps.
