(* ===== verification/CloneSpace.v ===== *)
(** * CloneSpace: the address space of a new process

    [paging_clone_kernel] builds a three-page space from the boot loader's
    template at 0x1000.  The space translates the first GiB as the template does,
    but no page of it is accessible to user code, and maps nothing else. *)

From S2P Require Import Prelude State Machine Walk Serial Space Pmm Paging PagingOps.

(** ** Spaces of three tables *)

Section ThreeTables.
Context (m : gmap Z Z) (p4 p3 p2 f4 f3 : Z).
Context (Hp4 : is_page p4) (Hp3 : is_page p3) (Hp2 : is_page p2).
Context (Hf4 : 0 ≤ f4 < 4096) (Hf40 : Z.testbit f4 0 = true) (Hf47 : Z.testbit f4 7 = false).
Context (Hf3 : 0 ≤ f3 < 4096) (Hf30 : Z.testbit f3 0 = true) (Hf37 : Z.testbit f3 7 = false).
Context (Hm4 : ∀ i, 0 ≤ i < 512 → mget m (p4 + 8 * i) = if i =? 0 then Z.lor p3 f4 else 0).
Context (Hm3 : ∀ i, 0 ≤ i < 512 → mget m (p3 + 8 * i) = if i =? 0 then Z.lor p2 f3 else 0).
Context (Hm2 : ∀ i, 0 ≤ i < 512 → leaf_entry 1 (mget m (p2 + 8 * i)) ∧ 0 ≤ mget m (p2 + 8 * i) < 2 ^ 52).

Lemma region_3_index va : region 3 va = (va / span 3) mod 512.
Proof using. unfold region. by change (2 ^ (9 * (4 - Z.of_nat 3))) with 512. Qed.

Lemma region_2_zero va : region 2 va = 0 ↔ region 3 va = 0 ∧ (va / span 2) mod 512 = 0.
Proof using.
  rewrite <- (region_index 2 va), <- (region_div 2 va) by lia.
  pose proof (Z.div_mod (region 2 va) 512). split; [intros ->; done|]. lia.
Qed.

Lemma three_entry_3 va :
  mget m (entry_addr 3 p4 va) = if region 3 va =? 0 then Z.lor p3 f4 else 0.
Proof using Hm4. unfold entry_addr. rewrite Hm4 by apply index_range. by rewrite region_3_index. Qed.

Lemma three_entry_2 va :
  mget m (entry_addr 2 p3 va) = if (va / span 2) mod 512 =? 0 then Z.lor p2 f3 else 0.
Proof using Hm3. unfold entry_addr. by rewrite Hm3 by apply index_range. Qed.

Definition rights_3 : rtab := Rtab p3 (Z.testbit f4 2) (Z.testbit f4 1).
Definition rights_2 : rtab :=
  Rtab p2 (Z.testbit f4 2 && Z.testbit f3 2) (Z.testbit f4 1 && Z.testbit f3 1).

Lemma three_reach j va :
  reach m j 3 p4 va =
    match j with
    | 3%nat => Some (Rtab p4 true true)
    | 2%nat => if region 3 va =? 0 then Some rights_3 else None
    | 1%nat => if region 2 va =? 0 then Some rights_2 else None
    | _ => None
    end.
Proof using All.
  destruct (decide (j = 3%nat)) as [->|Hj3]; [apply reach_refl|].
  destruct (decide (3 < j)%nat) as [Hgt|Hle].
  { destruct (reach m j 3 p4 va) as [r|] eqn:E; [apply reach_le in E; lia|].
    by do 4 (destruct j as [|j]; [lia|]). }
  rewrite reach_S by lia. cbv zeta. rewrite three_entry_3. destruct Hp3 as [Hb3 Ha3], Hp2 as [Hb2 Ha2].
  assert (R2 := region_2_zero va).
  destruct (Z.eqb_spec (region 3 va) 0) as [E3|E3].
  2:{ simpl. destruct (Z.eqb_spec (region 2 va) 0); [tauto|]. by destruct j as [|[|[|[|]]]]; try lia. }
  rewrite !testbit_entry, Hf40, Hf47, frame_entry by lia. cbn [andb negb].
  destruct (decide (j = 2%nat)) as [->|Hj2].
  { rewrite reach_refl. simpl. unfold rt_under, rights_3; simpl. by rewrite !andb_true_r. }
  rewrite reach_S by lia. cbv zeta. rewrite three_entry_2.
  destruct (Z.eqb_spec ((va / span 2) mod 512) 0) as [E2|E2].
  2:{ simpl. destruct (Z.eqb_spec (region 2 va) 0); [tauto|]. by destruct j as [|[|[|[|]]]]; try lia. }
  rewrite !testbit_entry, Hf30, Hf37, frame_entry by lia. cbn [andb negb].
  replace (region 2 va =? 0) with true by lia.
  destruct (decide (j = 1%nat)) as [->|Hj1].
  { rewrite reach_refl. simpl. unfold rt_under, rights_2; simpl. by rewrite !andb_true_r. }
  replace j with 0%nat by lia. rewrite reach_S by lia. cbv zeta.
  destruct (Hm2 ((va / span 1) mod 512) (index_range 1 va)) as [Hl _]. fold (entry_addr 1 p2 va) in Hl.
  destruct Hl as [?|[E|E]]; [done|..]; rewrite E; cbn [andb negb]; [by rewrite andb_false_r|done].
Qed.

Lemma three_walk va :
  walk m 3 p4 va =
    if region 2 va =? 0
    then (λ x, Xlat (x_pa x) (rt_user rights_2 && x_user x) (rt_write rights_2 && x_write x)) <$> walk m 1 p2 va
    else None.
Proof using All.
  destruct (region 2 va =? 0) eqn:E2.
  { rewrite (walk_reach _ 1 3 _ _ rights_2); [done|lia|]. by rewrite three_reach, E2. }
  destruct Hp3 as [Hb3 Ha3].
  assert (R2 := region_2_zero va). destruct (region 3 va =? 0) eqn:E3.
  - rewrite (walk_reach _ 2 3 _ _ rights_3); [|lia|by rewrite three_reach, E3].
    unfold rights_3; cbn [rt_tbl]. unfold walk; fold walk. rewrite three_entry_2.
    replace ((va / span 2) mod 512 =? 0) with false by lia. done.
  - unfold walk; fold walk. by rewrite three_entry_3, E3.
Qed.

Lemma three_tables j va ra :
  reach m j 3 p4 va = Some ra →
  j = 3%nat ∧ rt_tbl ra = p4 ∨ j = 2%nat ∧ rt_tbl ra = p3 ∧ region 3 va = 0 ∨
  j = 1%nat ∧ rt_tbl ra = p2 ∧ region 2 va = 0.
Proof using All.
  rewrite three_reach. destruct j as [|[|[|[|]]]]; try done.
  - destruct (Z.eqb_spec (region 2 va) 0); [|done]. intros [= <-]. by right; right.
  - destruct (Z.eqb_spec (region 3 va) 0); [|done]. intros [= <-]. by right; left.
  - intros [= <-]. by left.
Qed.

Lemma three_ptree : p4 ≠ p3 → p4 ≠ p2 → p3 ≠ p2 → ptree m p4.
Proof using All.
  intros H43 H42 H32. split.
  - intros j k va vb ra rb Ha%three_tables Hb%three_tables Heq.
    assert (region 4 va = region 4 vb) by by rewrite !region_4.
    destruct Ha as [(-> & Ea)|[(-> & Ea & Ra)|(-> & Ea & Ra)]],
      Hb as [(-> & Eb)|[(-> & Eb & Rb)|(-> & Eb & Rb)]]; (split; [done|]) || congruence; congruence.
  - intros k va ra Ha%three_tables. destruct Hp4, Hp3, Hp2.
    destruct Ha as [(_ & ->)|[(_ & -> & _)|(_ & -> & _)]]; done.
  - intros k va ra _ Ha%three_tables. assert (E3 := is_page_end _ Hp3). assert (E2 := is_page_end _ Hp2).
    destruct Hp3, Hp2.
    destruct Ha as [(-> & ->)|[(-> & -> & _)|(-> & -> & _)]].
    + rewrite three_entry_3. case_match; [|lia]. rewrite lor_page_flags by done. lia.
    + rewrite three_entry_2. case_match; [|lia]. rewrite lor_page_flags by done. lia.
    + apply Hm2, index_range.
Qed.

End ThreeTables.

(** ** The copy loop *)

Section Clone.
Context `{Platform} (W : Z → Prop).

(** Copying [x(src[i])] to [p[i]] is filling [p], when [src] is another page. *)
Lemma copy_is_fill n i s src p (x g : Z → Z) :
  W src → W p → src ≠ p → kwin W s → fresh (mem s) (cr3 s) p →
  (∀ j, 0 ≤ j < 512 → mget (mem s) (src + 8 * j) = g j) → 0 ≤ i → i + Z.of_nat n ≤ 512 →
  for_nat n i (λ i, e ← load64 (src + 8 * i); store64 (p + 8 * i) (x e)) s =
  for_nat n i (λ i, store64 (p + 8 * i) (x (g i))) s.
Proof.
  intros Hsrc Hp Hne. revert i s. induction n as [|n IH]; intros i s Hw Hfr Hg Hi Hn; [done|].
  cbn [for_nat]. unfold mbind, M_bind.
  rewrite (kwin_load W) by (done || lia). rewrite Hg by lia. rewrite !(kwin_store W) by (done || lia).
  assert (Hs : same_xlat (cr3 s) (mem s) (<[p + 8 * i := u64 (x (g i))]> (mem s))).
  { eapply kwin_insert; [done|by eapply kw_win|lia|done]. }
  apply IH; try lia.
  - by apply kwin_same_xlat.
  - by eapply fresh_same_xlat.
  - intros j Hj. simpl. rewrite mget_insert_ne; [by apply Hg|]. intros Heq. apply Hne.
    rewrite <- (page_of_add src (8 * j)), <- Heq by (lia || by eapply kwin_aligned).
    apply page_of_add; [by eapply kwin_aligned|lia].
Qed.

(** ** The template *)

Definition tpl_e4 (m : gmap Z Z) : Z := mget m kernel_pml4_template.
Definition tpl_pdpt (m : gmap Z Z) : Z := mask_4k (tpl_e4 m).
Definition tpl_e3 (m : gmap Z Z) : Z := mget m (tpl_pdpt m).
Definition tpl_pdt (m : gmap Z Z) : Z := mask_4k (tpl_e3 m).

(** The boot loader's tables: one entry in the PML4, one in the PDPT, both open
    to user code, and a directory of 2 MiB pages or absent entries. *)
Record template (m : gmap Z Z) : Prop := {
  tp_win : W kernel_pml4_template ∧ W (tpl_pdpt m) ∧ W (tpl_pdt m);
  tp_e4 : 0 ≤ tpl_e4 m < 2 ^ 52 ∧ Z.land (tpl_e4 m) 0xFFF = 7;
  tp_e3 : 0 ≤ tpl_e3 m < 2 ^ 52 ∧ Z.land (tpl_e3 m) 0xFFF = 7;
  tp_leaf : ∀ i, 0 ≤ i < 512 → leaf_entry 1 (mget m (tpl_pdt m + 8 * i)) ∧
    0 ≤ mget m (tpl_pdt m + 8 * i) < 2 ^ 52;
}.

Lemma land_fff_bit e i : Z.land e 0xFFF = 7 → 0 ≤ i < 12 → Z.testbit e i = Z.testbit 7 i.
Proof.
  intros He Hi. rewrite <- He, Z.land_spec. change 0xFFF with (Z.ones 12).
  rewrite Z.ones_spec_low by lia. by rewrite andb_true_r.
Qed.

Lemma walk_down m n t va :
  Z.testbit (mget m (entry_addr (S n) t va)) 0 = true →
  Z.testbit (mget m (entry_addr (S n) t va)) 7 = false →
  walk m (S n) t va =
    restrict (mget m (entry_addr (S n) t va)) <$> walk m n (frame (mget m (entry_addr (S n) t va))) va.
Proof. intros E0 E7. unfold walk; fold walk. cbv zeta. by rewrite E0, E7. Qed.

(** The template's own translation of the first GiB. *)
Lemma template_walk m va :
  template m → region 2 va = 0 → walk m 3 kernel_pml4_template va = walk m 1 (tpl_pdt m) va.
Proof.
  intros [_ [Hb4 H4] [Hb3 H3] _] [R3 R2]%region_2_zero.
  assert (E4 : entry_addr 3 kernel_pml4_template va = kernel_pml4_template).
  { unfold entry_addr. rewrite <- region_3_index, R3. done. }
  assert (E3 : entry_addr 2 (tpl_pdpt m) va = tpl_pdpt m) by (unfold entry_addr; rewrite R2; lia).
  rewrite walk_down; rewrite E4; fold (tpl_e4 m); rewrite ?(land_fff_bit (tpl_e4 m)) by (done || lia); try done.
  rewrite <- mask_4k_frame by done. fold (tpl_pdpt m).
  rewrite walk_down; rewrite E3; fold (tpl_e3 m); rewrite ?(land_fff_bit (tpl_e3 m)) by (done || lia); try done.
  rewrite <- mask_4k_frame by done. fold (tpl_pdt m).
  destruct (walk m 1 (tpl_pdt m) va) as [[pa u w]|]; [|done].
  cbn [fmap option_fmap option_map]. unfold restrict. cbn [x_pa x_user x_write].
  rewrite !(land_fff_bit (tpl_e4 m)), !(land_fff_bit (tpl_e3 m)) by (done || lia). done.
Qed.

Lemma land_not_user e :
  0 ≤ e < 2 ^ 52 →
  let e' := Z.land e (Z.lnot PAGE_USER) in
  0 ≤ e' < 2 ^ 52 ∧ frame e' = frame e ∧ Z.testbit e' 2 = false ∧
  ∀ i, 0 ≤ i → i ≠ 2 → Z.testbit e' i = Z.testbit e i.
Proof.
  intros He e'.
  assert (Hbit : ∀ i, 0 ≤ i → Z.testbit e' i = Z.testbit e i && negb (i =? 2)).
  { intros i Hi. unfold e'. rewrite Z.land_spec, Z.lnot_spec by lia. f_equal. f_equal.
    change PAGE_USER with (2 ^ 2). rewrite Z.pow2_bits_eqb by lia. lia. }
  assert (Hfr : frame e' = frame e).
  { unfold frame, e'. by rewrite <- Z.land_assoc. }
  assert (0 ≤ e') by (apply Z.land_nonneg; left; lia).
  split_and!; try done.
  - destruct (decide (e' = 0)); [lia|]. apply Z.log2_lt_pow2; [lia|].
    destruct (decide (Z.log2 e' < 52)); [done|].
    assert (Z.testbit e' (Z.log2 e') = true) as Ht by (apply Z.bit_log2; lia).
    rewrite Hbit, (testbit_small e 52) in Ht by lia. done.
  - rewrite Hbit by lia. apply andb_false_r.
  - intros i Hi Hne. rewrite Hbit by done. replace (i =? 2) with false by lia. by rewrite andb_true_r.
Qed.

(** A directory entry translates the same without its user bit. *)
Lemma walk_not_user m m' t t' va :
  (let e := mget m (entry_addr 1 t va) in leaf_entry 1 e ∧ 0 ≤ e < 2 ^ 52) →
  mget m' (entry_addr 1 t' va) = Z.land (mget m (entry_addr 1 t va)) (Z.lnot PAGE_USER) →
  walk m' 1 t' va = (λ x, Xlat (x_pa x) false (x_write x)) <$> walk m 1 t va.
Proof.
  intros [Hl Hb] He. unfold walk; fold walk. rewrite He.
  destruct (land_not_user _ Hb) as (_ & Hfr & E2 & Ho). cbv zeta in Hfr, E2, Ho.
  rewrite (Ho 0), (Ho 7) by lia. destruct (Z.testbit (mget m _) 0) eqn:E0; [|done].
  destruct Hl as [?|[E7|?]]; [done| |congruence]. rewrite E7. cbn [fmap option_fmap option_map]. unfold leaf. cbn [x_pa x_user x_write].
  by rewrite Hfr, E2, (Ho 1) by lia.
Qed.

(** ** Writing pages that are no tables *)

Record scratch (fl : list Z) (s s' : kstate) : Prop := {
  sc_win : kwin W s';
  sc_free : kfree W s' fl;
  sc_edits : edits W s s';
  sc_same : same_xlat (cr3 s) (mem s) (mem s');
}.

Lemma scratch_trans fl1 fl2 s1 s2 s3 : scratch fl1 s1 s2 → scratch fl2 s2 s3 → scratch fl2 s1 s3.
Proof.
  intros [_ _ He2 Hs2] [Hw3 Hf3 He3 Hs3]. rewrite (edits_cr3 _ _ _ He2) in Hs3.
  split; try done; by etrans.
Qed.

Lemma scratch_fresh fl s s' p : scratch fl s s' → fresh (mem s) (cr3 s) p → fresh (mem s') (cr3 s') p.
Proof. intros [_ _ He Hs] Hf. rewrite (edits_cr3 _ _ _ He). by eapply fresh_same_xlat. Qed.

Lemma scratch_store s fl p i v :
  kwin W s → kfree W s fl → W p → p ∉ fl → fresh (mem s) (cr3 s) p → 0 ≤ i < 512 →
  let s' := set_mem (<[p + 8 * i := u64 v]> (mem s)) s in
  store64 (p + 8 * i) v s = Ok tt s' ∧ scratch fl s s'.
Proof.
  intros Hw Hf Hp Hnin Hfr Hi s'. assert (Hpg := kw_win _ _ Hw p Hp).
  assert (Hs : same_xlat (cr3 s) (mem s) (mem s')) by by eapply kwin_insert.
  split; [by apply (kwin_store W)|]. split; try done.
  - by apply kwin_same_xlat.
  - by apply kfree_insert.
  - by apply edits_insert.
Qed.

Lemma scratch_fill s fl p g :
  kwin W s → kfree W s fl → W p → p ∉ fl → fresh (mem s) (cr3 s) p →
  ∃ s', for_nat 512 0 (λ i, store64 (p + 8 * i) (g i)) s = Ok tt s' ∧ scratch fl s s' ∧
    (∀ i, 0 ≤ i < 512 → mget (mem s') (p + 8 * i) = u64 (g i)) ∧
    (∀ a, page_of a ≠ p → mget (mem s') a = mget (mem s) a).
Proof.
  intros Hw Hf Hp Hnin Hfr. destruct (fill_page W g s p) as (m' & E & Hs & Hin & Hout); [done..|].
  exists (set_mem m' s). split_and!; try done. split; try done.
  - by apply kwin_same_xlat.
  - destruct Hf as [Hl Hn Hwi Hff]. split; simpl; try done.
    + eapply free_list_ext; [|done]. intros q Hq. apply Hout.
      rewrite page_of_page; [by intros ->|]. eapply kwin_aligned; eauto.
    + intros q Hq. eapply fresh_same_xlat; [done|]. by apply Hff.
  - split; [by destruct s|]. simpl. intros a Ha. apply Hout. intros <-. done.
Qed.

Lemma scratch_alloc s p fl :
  kwin W s → kfree W s (p :: fl) →
  ∃ s', pmm_alloc_page s = Ok p s' ∧ scratch fl s s' ∧
    p ≠ 0 ∧ W p ∧ p ∉ fl ∧ fresh (mem s') (cr3 s') p ∧
    (∀ i, 0 ≤ i < 512 → mget (mem s') (p + 8 * i) = 0) ∧
    (∀ a, page_of a ≠ p → mget (mem s') a = mget (mem s) a).
Proof.
  intros Hw Hf. destruct (alloc_runs W s _ Hw Hf) as
    (s' & E & Es & Hp0 & HWp & Hnin & Hw' & Hf' & Hfr & Hs & Hz & Ho).
  exists s'. split_and!; try done. split; try done.
  split; [by rewrite Es; destruct s|]. intros a Ha. apply Ho. intros <-. done.
Qed.

(** ** The clone *)

(** What the new space at [p4] is: its translations are the template's without
    user access in the first GiB, and none elsewhere; its tables are three of the
    pages that were free. *)
Record cloned (m m' : gmap Z Z) (p4 p3 p2 : Z) : Prop := {
  cl_walk : ∀ va, walk m' 3 p4 va =
    if region 2 va =? 0
    then (λ x, Xlat (x_pa x) false (x_write x)) <$> walk m 3 kernel_pml4_template va
    else None;
  cl_tree : ptree m' p4;
  cl_tables : ∀ j va ra, reach m' j 3 p4 va = Some ra → rt_tbl ra ∈ [p4; p3; p2];
  cl_small : ∀ va, small_path m' p4 va;
  cl_open : ∀ va, region 2 va = 0 → open_path m' p4 va;
}.

(** The contents of the three pages give all of it. *)
Lemma cloned_intro m m' p4 p3 p2 :
  template m → is_page p4 → is_page p3 → is_page p2 → NoDup [p4; p3; p2] →
  (∀ i, 0 ≤ i < 512 → mget m' (p4 + 8 * i) = if i =? 0 then Z.lor p3 7 else 0) →
  (∀ i, 0 ≤ i < 512 → mget m' (p3 + 8 * i) = if i =? 0 then Z.lor p2 7 else 0) →
  (∀ i, 0 ≤ i < 512 → mget m' (p2 + 8 * i) = Z.land (mget m (tpl_pdt m + 8 * i)) (Z.lnot PAGE_USER)) →
  cloned m m' p4 p3 p2.
Proof.
  intros Ht H4 H3 H2 Hnd M4 M3 M2.
  assert (M2' : ∀ i, 0 ≤ i < 512 → leaf_entry 1 (mget m' (p2 + 8 * i)) ∧ 0 ≤ mget m' (p2 + 8 * i) < 2 ^ 52).
  { intros i Hi. rewrite M2 by done. destruct (tp_leaf _ Ht i Hi) as [Hl Hb].
    destruct (land_not_user _ Hb) as (Hb' & _ & _ & Ho). split; [|done].
    destruct Hl as [?|[?|?]]; [done|right; left|right; right]; rewrite Ho by lia; done. }
  assert (Hreach := λ j va, three_reach m' p4 p3 p2 7 7 H4 H3 H2 ltac:(lia) eq_refl eq_refl ltac:(lia) eq_refl eq_refl M4 M3 M2' j va).
  assert (Htabs := λ j va ra, three_tables m' p4 p3 p2 7 7 H4 H3 H2 ltac:(lia) eq_refl eq_refl ltac:(lia) eq_refl eq_refl M4 M3 M2' j va ra).
  assert (Hentry : ∀ va, mget m' (entry_addr 1 p2 va) =
    Z.land (mget m (entry_addr 1 (tpl_pdt m) va)) (Z.lnot PAGE_USER)) by (intros; apply M2, index_range).
  split.
  - intros va. rewrite (three_walk m' p4 p3 p2 7 7) by (done || lia).
    destruct (Z.eqb_spec (region 2 va) 0) as [R2|]; [|done].
    rewrite template_walk by done. rewrite (walk_not_user m m' (tpl_pdt m) p2 va); [|apply Ht, index_range|apply Hentry].
    by destruct (walk m 1 (tpl_pdt m) va) as [[]|].
  - apply (three_ptree m' p4 p3 p2 7 7); try done; try lia; apply NoDup_cons in Hnd as [? Hnd];
      apply NoDup_cons in Hnd as [? _]; set_solver.
  - intros j va ra Hr. apply Htabs in Hr. set_solver.
  - intros va k ra Hk Hr. apply Htabs in Hr as Hr'. cbv zeta. destruct H3, H2.
    destruct Hr' as [(-> & ->)|[(-> & -> & _)|(? & _)]]; [..|lia]; unfold entry_addr; intros _.
    + rewrite M4 by apply index_range. case_match; [by rewrite testbit_entry by lia|done].
    + rewrite M3 by apply index_range. case_match; [by rewrite testbit_entry by lia|done].
  - intros va R2. exists p2. rewrite Hreach, R2. split; [done|]. cbv zeta. intros E0 E7. exfalso.
    destruct (M2' _ (index_range 1 va)) as [Hl _]. fold (entry_addr 1 p2 va) in Hl.
    destruct Hl as [?|[?|?]]; [done|congruence..].
Qed.

(** The pages the template occupies are not free. *)
Definition template_kept (m : gmap Z Z) (fl : list Z) : Prop :=
  kernel_pml4_template ∉ fl ∧ tpl_pdpt m ∉ fl ∧ tpl_pdt m ∉ fl.

Lemma alloc_three s p4 p3 p2 fl :
  kwin W s → kfree W s (p4 :: p3 :: p2 :: fl) →
  ∃ s1 s2 s3, pmm_alloc_page s = Ok p4 s1 ∧ pmm_alloc_page s1 = Ok p3 s2 ∧ pmm_alloc_page s2 = Ok p2 s3 ∧
    scratch fl s s3 ∧ NoDup [p4; p3; p2] ∧
    (∀ p, p ∈ [p4; p3; p2] → p ≠ 0 ∧ W p ∧ p ∉ fl ∧ fresh (mem s3) (cr3 s3) p ∧
       ∀ i, 0 ≤ i < 512 → mget (mem s3) (p + 8 * i) = 0) ∧
    (∀ a, page_of a ∉ [p4; p3; p2] → mget (mem s3) a = mget (mem s) a).
Proof.
  intros Hw Hf. assert (Hal : ∀ p i, W p → 0 ≤ i < 512 → page_of (p + 8 * i) = p).
  { intros p i Hp Hi. apply page_of_add; [by eapply kwin_aligned|lia]. }
  destruct (scratch_alloc s p4 (p3 :: p2 :: fl) Hw Hf) as (s1 & E1 & C1 & N1 & W1 & I1 & F1 & Z1 & O1).
  destruct (scratch_alloc s1 p3 (p2 :: fl)) as (s2 & E2 & C2 & N2 & W2 & I2 & F2 & Z2 & O2); [apply C1..|].
  destruct (scratch_alloc s2 p2 fl) as (s3 & E3 & C3 & N3 & W3 & I3 & F3 & Z3 & O3); [apply C2..|].
  assert (F1' := scratch_fresh _ _ _ _ C3 (scratch_fresh _ _ _ _ C2 F1)).
  assert (F2' := scratch_fresh _ _ _ _ C3 F2).
  exists s1, s2, s3. split_and!; try done.
  - eapply scratch_trans; [|exact C3]. by eapply scratch_trans.
  - repeat constructor; set_solver.
  - assert (p4 ≠ p3 ∧ p4 ≠ p2 ∧ p3 ≠ p2) as (? & ? & ?) by set_solver.
    intros p Hp. rewrite !elem_of_cons in Hp. destruct Hp as [->|[->|[->|Hp]]]; [..|set_solver].
    + split_and!; try done; [set_solver|]. intros i Hi. rewrite O3, O2, Z1 by (rewrite ?Hal; done). done.
    + split_and!; try done; [set_solver|]. intros i Hi. rewrite O3, Z2 by (rewrite ?Hal; done). done.
    + by split_and!.
  - intros a Ha. rewrite O3, O2, O1 by set_solver. done.
Qed.

(** Outside the pages [ps] memory is that of [s]. *)
Definition same_outside (ps : list Z) s s' : Prop := ∀ a, page_of a ∉ ps → mget (mem s') a = mget (mem s) a.

Lemma page_of_word s p i : kwin W s → W p → 0 ≤ i < 512 → page_of (p + 8 * i) = p.
Proof. intros Hw Hp Hi. apply page_of_add; [by eapply kwin_aligned|lia]. Qed.

Lemma load_outside ps s s' q i :
  kwin W s' → W q → q ∉ ps → 0 ≤ i < 512 → same_outside ps s s' →
  load64 (q + 8 * i) s' = Ok (mget (mem s) (q + 8 * i)) s'.
Proof. intros Hw Hq Hnin Hi Ho. rewrite (kwin_load W) by done. rewrite Ho; [done|]. by erewrite page_of_word. Qed.

Lemma load_outside_0 ps s s' q :
  kwin W s' → W q → q ∉ ps → same_outside ps s s' → load64 q s' = Ok (mget (mem s) q) s'.
Proof. intros Hw Hq Hnin Ho. pose proof (load_outside ps s s' q 0 Hw Hq Hnin ltac:(lia) Ho) as E. by rewrite Z.add_0_r in E. Qed.

Lemma store_outside ps s s' p v :
  kwin W s' → W p → p ∈ ps → same_outside ps s s' → same_outside ps s (set_mem (<[p := v]> (mem s')) s').
Proof.
  intros Hw Hp Hin Ho a Ha. rewrite <- Ho by done. apply mget_insert_ne. intros <-. apply Ha.
  rewrite page_of_page by (by eapply kwin_aligned). done.
Qed.

Lemma paging_clone_runs s fl p4 p3 p2 :
  kwin W s → kfree W s (p4 :: p3 :: p2 :: fl) → template (mem s) →
  template_kept (mem s) (p4 :: p3 :: p2 :: fl) →
  runs paging_clone_kernel s (λ r s',
    r = p4 ∧ scratch fl s s' ∧ cloned (mem s) (mem s') p4 p3 p2).
Proof.
  intros Hw Hf Ht (K4 & K3 & K2). pose proof Ht as [(W4 & W3 & W2) [B4 L4] [B3 L3] Hleaf].
  destruct (alloc_three s p4 p3 p2 fl Hw Hf) as (s1 & s2 & s3 & E1 & E2 & E3 & C3 & Hnd & Hps & O3).
  destruct (Hps p4) as (N4 & WP4 & I4 & F4 & Z4); [set_solver|].
  destruct (Hps p3) as (N3 & WP3 & I3 & F3 & Z3); [set_solver|].
  destruct (Hps p2) as (N2 & WP2 & I2 & F2 & Z2); [set_solver|].
  assert (Hal : ∀ p i, W p → 0 ≤ i < 512 → page_of (p + 8 * i) = p) by (intros; by eapply page_of_word).
  assert (p4 ≠ p3 ∧ p4 ≠ p2 ∧ p3 ≠ p2) as (D43 & D42 & D32).
  { apply NoDup_cons in Hnd as [? Hnd]. apply NoDup_cons in Hnd as [? _]. set_solver. }
  assert (Hoff : ∀ p q i, W p → W q → p ≠ q → 0 ≤ i < 512 → q ≠ p + 8 * i).
  { intros p q i Hp Hq Hne Hi Heq. apply Hne. rewrite <- (Hal p i), <- Heq by done.
    apply page_of_page. by eapply kwin_aligned. }
  assert (Hnin : ∀ q, q ∉ p4 :: p3 :: p2 :: fl → q ∉ [p4; p3; p2]) by set_solver. apply Hnin in K4, K3, K2.
  unfold paging_clone_kernel. eapply runs_step; [exact E1|]. eapply runs_step; [exact E2|].
  eapply runs_step; [exact E3|]. replace ((p4 =? 0) || (p3 =? 0) || (p2 =? 0)) with false by lia.
  eapply runs_step; [by apply (load_outside_0 [p4; p3; p2] s); [apply C3|..]|]. fold (tpl_e4 (mem s)). rewrite L4.
  destruct (scratch_store s3 fl p4 0 (Z.lor p3 7)) as [S4 C4]; [apply C3|apply C3|done..|].
  rewrite Z.add_0_r in S4, C4. rewrite u64_entry in S4, C4 by (done || by eapply kw_win).
  set (s4 := set_mem _ s3) in *. eapply runs_step; [exact S4|].
  assert (O4 : same_outside [p4; p3; p2] s s4) by (apply store_outside; [apply C3|done|set_solver|done]).
  eapply runs_step; [by apply (load_outside_0 [p4; p3; p2] s); [apply C4|..]|]. fold (tpl_e4 (mem s)) (tpl_pdpt (mem s)).
  eapply runs_step; [by apply (load_outside_0 [p4; p3; p2] s); [apply C4|..]|]. fold (tpl_e3 (mem s)). rewrite L3.
  destruct (scratch_store s4 fl p3 0 (Z.lor p2 7)) as [S5 C5];
    [apply C4|apply C4|done|done|by eapply scratch_fresh|lia|].
  rewrite Z.add_0_r in S5, C5. rewrite u64_entry in S5, C5 by (done || by eapply kw_win).
  set (s5 := set_mem _ s4) in *. eapply runs_step; [exact S5|].
  assert (O5 : same_outside [p4; p3; p2] s s5) by (apply store_outside; [apply C4|done|set_solver|done]).
  eapply runs_step; [by apply (load_outside_0 [p4; p3; p2] s); [apply C5|..]|]. fold (tpl_e3 (mem s)) (tpl_pdt (mem s)).
  set (g := λ i, mget (mem s) (tpl_pdt (mem s) + 8 * i)).
  destruct (scratch_fill s5 fl p2 (λ i, Z.land (g i) (Z.lnot PAGE_USER))) as (s6 & S6 & C6 & M2 & O6);
    [apply C5|apply C5|done|done|by eapply scratch_fresh, scratch_fresh|].
  assert (Hcp := copy_is_fill 512 0 s5 (tpl_pdt (mem s)) p2 (λ x, Z.land x (Z.lnot PAGE_USER)) g W2 WP2).
  cbv beta in Hcp, S6. rewrite S6 in Hcp. eapply runs_step; [apply Hcp|].
  { intros Heq. apply K2. rewrite Heq, !elem_of_cons. auto. } { apply C5. } { by eapply scratch_fresh, scratch_fresh. }
  { intros j Hj. apply O5. by rewrite Hal. } { lia. } { lia. }
  apply runs_ret. split; [done|].
  split; [eapply scratch_trans; [exact C3|]; eapply scratch_trans; [exact C4|]; by eapply scratch_trans|].
  apply cloned_intro; try done; try (by eapply kw_win).
  - intros i Hi. rewrite O6 by (by rewrite Hal). unfold s5; simpl.
    rewrite mget_insert_ne by (by apply Hoff).
    unfold s4; simpl. destruct (Z.eqb_spec i 0) as [->|]; [by rewrite Z.add_0_r, mget_insert_eq|].
    rewrite mget_insert_ne by lia. by apply Z4.
  - intros i Hi. rewrite O6 by (by rewrite Hal). unfold s5; simpl.
    destruct (Z.eqb_spec i 0) as [->|]; [by rewrite Z.add_0_r, mget_insert_eq|].
    rewrite mget_insert_ne by lia. unfold s4; simpl.
    rewrite mget_insert_ne by (by apply Hoff).
    by apply Z3.
  - intros i Hi. rewrite M2 by done. destruct (Hleaf i Hi) as [_ Hb].
    destruct (land_not_user _ Hb) as (Hb' & _). apply u64_small. unfold g. lia.
Qed.

End Clone.
