(* ===== verification/BootMem.v ===== *)
(** * BootMem: the tables the boot loader leaves ([stage2.asm], [setup_paging])

    One PML4 entry, one PDPT entry and 512 two-megabyte pages map the first GiB
    to itself.  A kernel that runs on them satisfies [kwin] for any window of
    that GiB outside the kernel image; the file also builds concrete memories
    with a free-page stack, the states the components' examples run on. *)

From S2P Require Import Prelude State Machine Walk Serial Space Pmm Paging PagingOps CloneSpace.

(** ** The tables *)

Definition boot_pde (i : Z) : Z := 0x83 + i * 0x200000.

Definition boot_tables : gmap Z Z :=
  <[0x1000 := 0x2007]> (<[0x2000 := 0x3007]> (fill_from boot_pde 512 0 0x3000 ∅)).

(** A memory that holds them. *)
Record has_boot_tables (m : gmap Z Z) : Prop := {
  bt_pml4 : ∀ i, 0 ≤ i < 512 → mget m (0x1000 + 8 * i) = if i =? 0 then 0x2007 else 0;
  bt_pdpt : ∀ i, 0 ≤ i < 512 → mget m (0x2000 + 8 * i) = if i =? 0 then 0x3007 else 0;
  bt_pdt : ∀ i, 0 ≤ i < 512 → mget m (0x3000 + 8 * i) = boot_pde i;
}.

Lemma seqZ_check (f : Z → bool) n : forallb f (seqZ 0 n) = true → ∀ i, 0 ≤ i < n → f i = true.
Proof. intros Hf i Hi. rewrite forallb_forall in Hf. apply Hf. apply list_elem_of_In, elem_of_seqZ. lia. Qed.

(** The test of [has_boot_tables] on a concrete memory. *)
Definition check_boot_tables (m : gmap Z Z) : bool :=
  forallb (λ i, (mget m (0x1000 + 8 * i) =? if i =? 0 then 0x2007 else 0)
    && (mget m (0x2000 + 8 * i) =? if i =? 0 then 0x3007 else 0)
    && (mget m (0x3000 + 8 * i) =? boot_pde i)) (seqZ 0 512).

Lemma check_boot_tables_ok m : check_boot_tables m = true → has_boot_tables m.
Proof.
  intros Hc. assert (Hi := seqZ_check _ _ Hc). split; intros i Hr; specialize (Hi i Hr); cbv beta in Hi;
    apply andb_true_iff in Hi as [Hi1 Hi3]; apply andb_true_iff in Hi1 as [Hi1 Hi2]; by apply Z.eqb_eq.
Qed.

(** ** Translation *)

Section BootSpace.
Context (m : gmap Z Z) (Hm : has_boot_tables m).

Lemma boot_pde_parts i :
  0 ≤ i < 512 → 0 ≤ boot_pde i < 2 ^ 52 ∧ frame (boot_pde i) = i * 0x200000 ∧
  Z.testbit (boot_pde i) 0 = true ∧ Z.testbit (boot_pde i) 7 = true ∧
  Z.testbit (boot_pde i) 2 = false ∧ Z.testbit (boot_pde i) 1 = true.
Proof using.
  intros Hi. assert (Ha : (i * 0x200000) mod 4096 = 0).
  { replace (i * 0x200000) with (i * 512 * 4096) by lia. apply Z_mod_mult. }
  assert (E : boot_pde i = Z.lor (i * 0x200000) 0x83).
  { unfold boot_pde. rewrite lor_page_flags by (done || lia). lia. }
  assert (0 ≤ boot_pde i < 2 ^ 52) by (unfold boot_pde; lia).
  rewrite E in *. rewrite frame_entry, !testbit_entry by (done || lia). done.
Qed.

Lemma page_1000 : is_page 0x1000.
Proof using. done. Qed.
Lemma page_2000 : is_page 0x2000.
Proof using. done. Qed.
Lemma page_3000 : is_page 0x3000.
Proof using. done. Qed.

Lemma boot_leaf i : 0 ≤ i < 512 → leaf_entry 1 (mget m (0x3000 + 8 * i)) ∧ 0 ≤ mget m (0x3000 + 8 * i) < 2 ^ 52.
Proof using Hm.
  intros Hi. rewrite (bt_pdt _ Hm) by done. destruct (boot_pde_parts i Hi) as (Hb & _ & _ & H7 & _).
  split; [|done]. by right; left.
Qed.

Lemma boot_reach_tables j va ra :
  reach m j 3 0x1000 va = Some ra → rt_tbl ra ∈ [0x1000; 0x2000; 0x3000].
Proof using Hm.
  intros Hr. apply (three_tables m 0x1000 0x2000 0x3000 7 7 page_1000 page_2000 page_3000) in Hr;
    try done; try lia; [set_solver|..].
  - intros i Hi. by rewrite (bt_pml4 _ Hm).
  - intros i Hi. by rewrite (bt_pdpt _ Hm).
  - apply boot_leaf.
Qed.

Lemma boot_ptree : ptree m 0x1000.
Proof using Hm.
  apply (three_ptree m 0x1000 0x2000 0x3000 7 7 page_1000 page_2000 page_3000); try done; try lia.
  - intros i Hi. by rewrite (bt_pml4 _ Hm).
  - intros i Hi. by rewrite (bt_pdpt _ Hm).
  - apply boot_leaf.
Qed.

Lemma boot_reach j va :
  reach m j 3 0x1000 va =
    match j with
    | 3%nat => Some (Rtab 0x1000 true true)
    | 2%nat => if region 3 va =? 0 then Some (Rtab 0x2000 true true) else None
    | 1%nat => if region 2 va =? 0 then Some (Rtab 0x3000 true true) else None
    | _ => None
    end.
Proof using Hm.
  rewrite (three_reach m 0x1000 0x2000 0x3000 7 7 page_1000 page_2000 page_3000); try done; try lia.
  - intros i Hi. by rewrite (bt_pml4 _ Hm).
  - intros i Hi. by rewrite (bt_pdpt _ Hm).
  - apply boot_leaf.
Qed.

Lemma boot_small va : small_path m 0x1000 va.
Proof using Hm.
  intros k ra Hk. rewrite boot_reach. cbv zeta. intros Hr _.
  destruct k as [|[|[|[|]]]]; try lia; try done.
  - destruct (region 3 va =? 0); [|done]. injection Hr as <-. cbn [rt_tbl]. unfold entry_addr.
    rewrite (bt_pdpt _ Hm) by apply index_range. by destruct (_ =? 0).
  - injection Hr as <-. cbn [rt_tbl]. unfold entry_addr.
    rewrite (bt_pml4 _ Hm) by apply index_range. by destruct (_ =? 0).
Qed.

Lemma boot_open va : region 2 va = 0 → open_path m 0x1000 va.
Proof using Hm.
  intros R2. exists 0x3000. rewrite boot_reach, R2. split; [done|]. cbv zeta. intros _ E7. exfalso.
  unfold entry_addr in E7. rewrite (bt_pdt _ Hm) in E7 by apply index_range.
  destruct (boot_pde_parts _ (index_range 1 va)) as (_ & _ & _ & H7 & _). congruence.
Qed.

Lemma region_2_low va : 0 ≤ va < 2 ^ 30 → region 2 va = 0.
Proof using.
  intros Hv. unfold region. change (span 2) with (2 ^ 30). rewrite Z.div_small by lia. done.
Qed.

(** The first GiB is mapped to itself, for the kernel only. *)
Lemma boot_walk va : 0 ≤ va < 2 ^ 30 → walk m 3 0x1000 va = Some (Xlat va false true).
Proof using Hm.
  intros Hv. rewrite (three_walk m 0x1000 0x2000 0x3000 7 7 page_1000 page_2000 page_3000); try done; try lia.
  2:{ intros i Hi. by rewrite (bt_pml4 _ Hm). }
  2:{ intros i Hi. by rewrite (bt_pdpt _ Hm). }
  2:{ apply boot_leaf. }
  rewrite region_2_low by done. cbn [Z.eqb]. unfold walk; fold walk. unfold entry_addr.
  set (i := (va / span 1) mod 512). assert (Hi : 0 ≤ i < 512) by apply index_range.
  assert (Ei : i = va / 0x200000).
  { unfold i. change (span 1) with 0x200000. apply Z.mod_small.
    split; [apply Z.div_pos; lia|apply Z.div_lt_upper_bound; lia]. }
  rewrite (bt_pdt _ Hm) by done. destruct (boot_pde_parts i Hi) as (_ & Hf & -> & -> & H2 & H1).
  cbn [fmap option_fmap option_map]. unfold leaf. cbn [x_pa x_user x_write]. rewrite Hf, H2, H1.
  change (span 1) with 0x200000. rewrite Z_mod_mult, Ei. do 2 f_equal.
  pose proof (Z.div_mod va 0x200000). lia.
Qed.

End BootSpace.

(** ** The kernel's window on them *)

Section BootWindow.
Context `{Platform} (W : Z → Prop).
Context (HWpage : ∀ p, W p → p mod 4096 = 0 ∧ 0 ≤ p < 2 ^ 30).
Context (HWimage : ∀ p i, W p → 0 ≤ i < 4096 → in_image (p + i) = false).
Context (HWtables : W 0x1000 ∧ W 0x2000 ∧ W 0x3000).

Lemma boot_kwin s : cr3 s = 0x1000 → paging_root s = 0x1000 → has_boot_tables (mem s) → kwin W s.
Proof using HWpage HWimage HWtables.
  intros Hc Hr Hm. assert (HW30 : ∀ p i, W p → 0 ≤ i < 4096 → 0 ≤ p + i < 2 ^ 30).
  { intros p i Hp Hi. destruct (HWpage p Hp) as [Ha Hb]. pose proof (Z.div_mod p 4096).
    change (2 ^ 30) with (4096 * 262144) in *. lia. }
  split.
  - congruence.
  - rewrite Hc. apply page_1000.
  - intros p Hp. destruct (HWpage p Hp). split; [lia|done].
  - done.
  - intros p i Hp Hi. specialize (HW30 p i Hp Hi). unfold phys_of, translate. rewrite Hc.
    replace (canonical (p + i)) with true by (unfold canonical; lia).
    rewrite (frame_page _ page_1000), boot_walk by done. done.
  - rewrite Hc. by apply boot_ptree.
  - intros k va ra Hra. rewrite Hc in Hra. apply boot_reach_tables in Hra; [|done].
    destruct HWtables as (H1 & H2 & H3). rewrite !elem_of_cons in Hra.
    destruct Hra as [->|[->|[->|Hra]]]; [done..|]. set_solver.
Qed.

Lemma boot_fresh m p : has_boot_tables m → p ∉ [0x1000; 0x2000; 0x3000] → fresh m 0x1000 p.
Proof using. intros Hm Hp j va ra Hr <-. by apply Hp, (boot_reach_tables m Hm j va). Qed.

Lemma boot_kfree s fl :
  cr3 s = 0x1000 → has_boot_tables (mem s) → free_list (mem s) (free_stack s) fl → NoDup fl →
  (∀ p, p ∈ fl → W p ∧ p ∉ [0x1000; 0x2000; 0x3000]) → kfree W s fl.
Proof using.
  intros Hc Hm Hl Hn Hp. split; [done|done|by apply Hp|].
  intros p Hin. rewrite Hc. apply boot_fresh; [done|by apply Hp].
Qed.

Lemma boot_template m : has_boot_tables m → template W m.
Proof using HWtables.
  intros Hm.
  assert (E4 : mget m 0x1000 = 0x2007) by (by apply (bt_pml4 _ Hm 0)).
  assert (E3 : mget m 0x2000 = 0x3007) by (by apply (bt_pdpt _ Hm 0)).
  assert (T4 : tpl_e4 m = 0x2007) by done. assert (T3 : tpl_pdpt m = 0x2000) by (unfold tpl_pdpt; by rewrite T4).
  assert (T3e : tpl_e3 m = 0x3007) by (unfold tpl_e3; by rewrite T3).
  assert (T2 : tpl_pdt m = 0x3000) by (unfold tpl_pdt; by rewrite T3e).
  split; rewrite ?T4, ?T3, ?T3e, ?T2; try done. intros i Hi. by apply boot_leaf.
Qed.

End BootWindow.
