(* ===== verification/Tasks.v ===== *)
(** * Tasks: the task table and its message queues ([task.c], first part)

    Access to [tasks[]], the look-up loops, and the ring buffer each task owns:
    [ipc_init_task], [sys_getpid], [sys_send], [sys_recv], [sys_getstate]. *)

From S2P Require Import Prelude State Machine.

(** ** The table *)

Definition get_task (i : Z) : M task_t := λ s, arr_get (tasks s) i s.

(** [tasks[i].field = v] *)
Definition upd_task (i : Z) (f : task_t → task_t) : M unit :=
  t ← get_task i;
  modify (λ s, set_tasks (<[Z.to_nat i := f t]> (tasks s)) s).

Definition is_exited (t : task_t) : bool := bool_decide (t_state t = TASK_EXITED).
Definition is_ready (t : task_t) : bool := bool_decide (t_state t = TASK_READY).
Definition is_blocked (t : task_t) : bool := bool_decide (t_state t = TASK_BLOCKED).

(** [for (int i = 0; i < num_tasks; i++) if (p(tasks[i])) { ...i...; break; }] *)
Definition find_task (p : task_t → bool) : M (option Z) :=
  n ← gets num_tasks;
  for_exit (Z.to_nat n) 0 (λ i, t ← get_task i; mret (if p t then Some i else None)).

(** [current_task < 0 ? 0 : tasks[current_task].pid] *)
Definition current_pid : M Z :=
  cur ← gets current_task;
  if cur <? 0 then mret 0 else t ← get_task cur; mret (t_pid t).

Definition sys_getpid : M Z := current_pid.

Definition sys_getstate (pid : Z) : M Z :=
  o ← find_task (λ t, t_pid t =? pid);
  match o with
  | Some i => t ← get_task i; mret (task_state_value (t_state t))
  | None => mret (-1)
  end.

(** ** The message ring *)

Definition ipc_init_task (t : task_t) : task_t := t_set_ipc (t_ipc_queue t) 0 0 0 t.

(** [msg->sender_pid = ...; msg->type = ...; msg->length = ...] *)
Definition m_set_head (sender type len : Z) (m : ipc_msg_t) : ipc_msg_t :=
  Msg sender type (msg_data m) len.
(** [msg->data[i] = b] *)
Definition m_set_data (i b : Z) (m : ipc_msg_t) : ipc_msg_t :=
  Msg (msg_sender_pid m) (msg_type m) (<[Z.to_nat i := u8 b]> (msg_data m)) (msg_length m).

(** [tasks[i].ipc_queue[h]] as an object to assign to. *)
Definition upd_slot (i h : Z) (f : ipc_msg_t → ipc_msg_t) : M unit :=
  t ← get_task i;
  m ← arr_get (t_ipc_queue t) h;
  upd_task i (λ t, t_set_ipc (<[Z.to_nat h := f m]> (t_ipc_queue t)) (t_ipc_head t) (t_ipc_tail t) (t_ipc_count t) t).

(** [t->ipc_head = (t->ipc_head + 1) % IPC_QUEUE_SIZE; t->ipc_count++;] on [u32]s. *)
Definition ring_push (t : task_t) : task_t :=
  t_set_ipc (t_ipc_queue t) (u32 (t_ipc_head t + 1) mod IPC_QUEUE_SIZE) (t_ipc_tail t) (u32 (t_ipc_count t + 1)) t.
(** [t->ipc_tail = (t->ipc_tail + 1) % IPC_QUEUE_SIZE; t->ipc_count--;] *)
Definition ring_pop (t : task_t) : task_t :=
  t_set_ipc (t_ipc_queue t) (t_ipc_head t) (u32 (t_ipc_tail t + 1) mod IPC_QUEUE_SIZE) (u32 (t_ipc_count t - 1)) t.

(** [if (t->state == TASK_BLOCKED) t->state = TASK_READY;] *)
Definition wake (t : task_t) : task_t := if is_blocked t then t_set_state TASK_READY t else t.

Section Ipc.
Context `{Platform}.

Definition sys_send (target_pid type data len : Z) : M Z :=
  o ← find_task (λ t, (t_pid t =? target_pid) && negb (is_exited t));
  match o with
  | None => mret (-1)
  | Some target =>
    t ← get_task target;
    if IPC_QUEUE_SIZE <=? t_ipc_count t then mret (-1)
    else
      let h := t_ipc_head t in
      sender ← current_pid;
      let length := if IPC_MAX_DATA <? len then IPC_MAX_DATA else len in
      upd_slot target h (m_set_head sender type length) ;;
      for_nat (Z.to_nat length) 0 (λ i,
        b ← load8 (u64 (data + i));
        upd_slot target h (m_set_data i b)) ;;
      upd_task target ring_push ;;
      upd_task target wake ;;
      mret 0
  end.

(** [ipc_msg_t] is packed: sender_pid at 0, type at 8, data at 16, length at 80. *)
Definition sys_recv (msg : Z) : M Z :=
  cur ← gets current_task;
  if cur <? 0 then mret (-1)
  else
    t ← get_task cur;
    if t_ipc_count t =? 0 then mret (-1)
    else
      src ← arr_get (t_ipc_queue t) (t_ipc_tail t);
      store64 msg (msg_sender_pid src) ;;
      store64 (u64 (msg + 8)) (msg_type src) ;;
      store64 (u64 (msg + 80)) (msg_length src) ;;
      for_nat (Z.to_nat (msg_length src)) 0 (λ i,
        b ← arr_get (msg_data src) i;
        store8 (u64 (msg + 16 + i)) b) ;;
      upd_task cur ring_pop ;;
      mret 0.

End Ipc.
