(* ===== verification/Demo.v ===== *)
(** * Demo: concrete machines

    A platform whose UART is always ready, memories with the boot loader's tables
    and a stack of free pages, and the window of pages the kernel addresses
    directly on them.  The examples of the other files run on these. *)

From S2P Require Import Prelude State Machine Walk Serial Space Pmm Paging PagingOps CloneSpace BootMem Tasks.

(** Every port reads 0x20: the transmitter is empty.  The kernel image ends at
    0x110000. *)
Definition demo : Platform := {|
  port_inb := λ _ _, 0x20;
  port_inw := λ _ _, 0;
  kernel_end := 0x110000;
  poll_fuel := 1;
  isr_addr := λ n, 0x100000 + 16 * n;
  idt_addr := 0x108000;
  gdt_base := 0x8000;
  init_elf_start := 0x109000;
  init_elf_end := 0x109040;
|}.

#[export] Existing Instance demo | 100.

#[export] Instance demo_uart : @UartLive demo.
Proof. intros h. exists 0%nat. split; [cbv; lia|reflexivity]. Qed.

(** Pages below 1 MiB and from 8 MiB up to 1 GiB. *)
Definition demo_W (p : Z) : Prop := p mod 4096 = 0 ∧ (0 ≤ p < 0x100000 ∨ 0x800000 ≤ p < 2 ^ 30).

(** The links of the free stack [fl]. *)
Fixpoint link_free (fl : list Z) (m : gmap Z Z) : gmap Z Z :=
  match fl with
  | [] => m
  | p :: fl' => <[p := hd 0 fl']> (link_free fl' m)
  end.

Definition demo_mem (fl : list Z) : gmap Z Z := link_free fl boot_tables.

Definition demo_state (m : gmap Z Z) (free : Z) (ts : list task_t) (cur num : Z) : kstate :=
  KState m 0x1000 [] [] free 0x1000 ts cur num (8 + num) HEAP_START (replicate 128 (0, 0)) 0 0
    (replicate 16 (-1)) (replicate 256 gate_zero).

(** [n] pages from 0x900000 on. *)
Definition demo_free (n : nat) : list Z := (λ i, 0x900000 + 4096 * i) <$> seqZ 0 (Z.of_nat n).

Definition demo_free_state (n : nat) (ts : list task_t) (cur num : Z) : kstate :=
  demo_state (demo_mem (demo_free n)) 0x900000 ts cur num.

Lemma demo_W_page p : demo_W p → p mod 4096 = 0 ∧ 0 ≤ p < 2 ^ 30.
Proof. unfold demo_W. lia. Qed.

Lemma demo_W_image p i : demo_W p → 0 ≤ i < 4096 → @in_image demo (p + i) = false.
Proof.
  intros [Ha Hp] Hi. unfold in_image. simpl. pose proof (Z.div_mod p 4096).
  destruct (Z.leb_spec 0x100000 (p + i)), (Z.ltb_spec (p + i) 0x110000); try done. simpl. lia.
Qed.

Lemma demo_W_tables : demo_W 0x1000 ∧ demo_W 0x2000 ∧ demo_W 0x3000.
Proof. unfold demo_W. split_and!; done || lia. Qed.

Lemma demo_W_high p : p mod 4096 = 0 ∧ 0x800000 ≤ p < 2 ^ 30 → demo_W p ∧ p ∉ [0x1000; 0x2000; 0x3000].
Proof.
  intros [Ha Hp]. split; [split; [done|lia]|]. rewrite !elem_of_cons. intros [?|[?|[?|?]]]; try lia. set_solver.
Qed.

(** The conditions on a concrete free stack, as a test. *)
Fixpoint check_free (m : gmap Z Z) (head : Z) (fl : list Z) : bool :=
  match fl with
  | [] => head =? 0
  | p :: fl' => (head =? p) && (0x800000 <=? p) && (p <? 2 ^ 30) && (p mod 4096 =? 0) && check_free m (mget m p) fl'
  end.

Lemma check_free_ok m head fl :
  check_free m head fl = true →
  free_list m head fl ∧ ∀ p, p ∈ fl → demo_W p ∧ p ∉ [0x1000; 0x2000; 0x3000].
Proof.
  revert head. induction fl as [|p fl IH]; intros head; simpl.
  { intros ->%Z.eqb_eq. split; [done|set_solver]. }
  intros ((((->%Z.eqb_eq & H1%Z.leb_le)%andb_true_iff & H2%Z.ltb_lt)%andb_true_iff & H3%Z.eqb_eq)%andb_true_iff & Hr)%andb_true_iff.
  destruct (IH _ Hr) as [Hl Hp]. split; [split_and!; [done|lia|done]|].
  intros q [->|Hq]%elem_of_cons; [|by apply Hp]. by apply demo_W_high.
Qed.

(** A concrete state on the boot tables is in order when the tests say so. *)
Lemma demo_ok s fl :
  cr3 s = 0x1000 → paging_root s = 0x1000 → check_boot_tables (mem s) = true →
  check_free (mem s) (free_stack s) fl = true → bool_decide (NoDup fl) = true →
  @kwin demo demo_W s ∧ kfree demo_W s fl.
Proof.
  intros Hc Hr Hb Hf Hn%bool_decide_eq_true. apply check_boot_tables_ok in Hb.
  apply check_free_ok in Hf as [Hl Hp]. split.
  - apply boot_kwin; try done; [apply demo_W_page|apply demo_W_image|apply demo_W_tables].
  - by apply boot_kfree.
Qed.

(** *** The space of the examples *)

Definition demo0 : kstate := demo_free_state 8 [] (-1) 0.

Lemma demo0_ok : @kwin demo demo_W demo0 ∧ kfree demo_W demo0 (demo_free 8).
Proof. apply demo_ok; vm_compute; reflexivity. Qed.

Lemma demo0_tables : has_boot_tables (mem demo0).
Proof. apply check_boot_tables_ok. vm_compute. reflexivity. Qed.

Lemma demo_not_W va : 0x100000 ≤ va < 0x800000 → ¬ demo_W (page_of va).
Proof.
  intros Hv [_ Hp]. unfold page_of in Hp. pose proof (Z.div_mod va 4096). pose proof (Z.mod_pos_bound va 4096).
  assert (256 ≤ va / 4096) by (apply Z.div_le_lower_bound; lia).
  assert (va / 4096 < 2048) by (apply Z.div_lt_upper_bound; lia). lia.
Qed.

(** The window avoids the 2 MiB region of 0x400000. *)
Lemma demo_W_region_1 p i : demo_W p → 0 ≤ i < 4096 → region 1 (p + i) ≠ region 1 0x400000.
Proof.
  intros [Ha Hp] Hi. unfold region. change (span 1) with 0x200000.
  change ((0x400000 / 0x200000) mod 2 ^ (9 * (4 - Z.of_nat 1))) with 2. pose proof (Z.div_mod p 4096).
  assert (0 ≤ (p + i) / 0x200000 < 512).
  { split; [apply Z.div_pos; lia|apply Z.div_lt_upper_bound; [lia|]]. change (2 ^ 30) with (4096 * 262144) in Hp. lia. }
  rewrite Z.mod_small by (change (2 ^ (9 * (4 - Z.of_nat 1))) with 134217728; lia).
  intros Heq. pose proof (Z.div_mod (p + i) 0x200000). pose proof (Z.mod_pos_bound (p + i) 0x200000). lia.
Qed.

(** *** Tasks of the examples *)

Definition demo_task (pid : Z) (st : task_state_t) (stack : Z) : task_t :=
  Task stack pid st stack 0 0x1000 0x400000 0 (-1) (replicate 16 msg_zero) 0 0 0.

(** Task 0 (pid 1) runs, task 1 (pid 9) is blocked; "Hi" is at 0x10000. *)
Definition demo_tasks : list task_t :=
  [demo_task 1 TASK_RUNNING 0xA00000; demo_task 9 TASK_BLOCKED 0xA01000] ++ replicate 62 task_zero.

Definition demo_run : kstate :=
  demo_state (<[0x10000 := 0x6948]> (demo_mem (demo_free 8))) 0x900000 demo_tasks 0 2.

Lemma demo_run_ok : @kwin demo demo_W demo_run ∧ kfree demo_W demo_run (demo_free 8).
Proof. apply demo_ok; vm_compute; reflexivity. Qed.

Lemma demo_run_tables : has_boot_tables (mem demo_run).
Proof. apply check_boot_tables_ok. vm_compute. reflexivity. Qed.

(** A load whose translation and value are known. *)
Lemma load8_eq `{Platform} a pa b s :
  phys_of s a = Some pa → byte_of (mget (mem s) (align_down 3 pa)) (pa mod 8) = b → load8 a s = Ok b s.
Proof. intros Hp <-. unfold load8. by rewrite Hp. Qed.
