(* ===== verification/UserBuf.v ===== *)
(** * UserBuf: kernel writes to a user buffer

    Bytes within words, and buffers whose pages hold no page table, so that
    writing them changes no translation. *)

From S2P Require Import Prelude State Machine Walk.

(** ** Bytes of a word *)

Lemma byte_of_with_byte w i j b :
  0 ≤ i < 8 → 0 ≤ j < 8 → 0 ≤ b < 256 →
  byte_of (with_byte w i b) j = if j =? i then b else byte_of w j.
Proof.
  intros Hi Hj Hb. unfold byte_of, with_byte. apply Z.bits_inj'. intros n Hn.
  change 255 with (Z.ones 8). rewrite Z.land_spec, Z.shiftr_spec, Z.lor_spec by done.
  rewrite Z.land_spec, Z.lnot_spec, !Z.shiftl_spec by lia.
  assert (Hbn : 8 ≤ n → Z.testbit b n = false) by (intros; apply (testbit_small b 8); lia).
  destruct (decide (n < 8)) as [Hn8|Hn8].
  - rewrite (Z.ones_spec_low 8 n) by lia. rewrite andb_true_r. destruct (Z.eqb_spec j i) as [->|Hne].
    + replace (n + 8 * i - 8 * i) with n by lia. rewrite Z.ones_spec_low by lia. simpl.
      by rewrite andb_false_r.
    + rewrite Z.land_spec, Z.shiftr_spec, (Z.ones_spec_low 8 n) by lia. rewrite andb_true_r.
      assert (H1 : Z.testbit (Z.ones 8) (n + 8 * j - 8 * i) = false).
      { destruct (decide (j < i)); [apply Z.testbit_neg_r; lia|apply Z.ones_spec_high; lia]. }
      assert (H2 : Z.testbit b (n + 8 * j - 8 * i) = false).
      { destruct (decide (j < i)); [apply Z.testbit_neg_r; lia|apply (testbit_small b 8); lia]. }
      rewrite H1, H2. by rewrite orb_false_r, andb_true_r.
  - rewrite (Z.ones_spec_high 8 n) by lia. rewrite andb_false_r. destruct (Z.eqb_spec j i) as [->|Hne].
    + symmetry. apply Hbn. lia.
    + rewrite Z.land_spec, (Z.ones_spec_high 8 n) by lia. by rewrite andb_false_r.
Qed.

(** Byte [a] of physical memory. *)
Definition byte_at (m : gmap Z Z) (a : Z) : Z := byte_of (mget m (align_down 3 a)) (a mod 8).

Definition put_byte (m : gmap Z Z) (a b : Z) : gmap Z Z :=
  <[align_down 3 a := with_byte (mget m (align_down 3 a)) (a mod 8) b]> m.

Lemma align_down_3_split a : a = align_down 3 a + a mod 8.
Proof. rewrite align_down_sub by lia. change (2 ^ 3) with 8. lia. Qed.

Lemma byte_at_put m a b a' :
  0 ≤ b < 256 → byte_at (put_byte m a b) a' = if a' =? a then b else byte_at m a'.
Proof.
  intros Hb. unfold byte_at, put_byte.
  pose proof (Z.mod_pos_bound a 8). pose proof (Z.mod_pos_bound a' 8).
  pose proof (align_down_3_split a). pose proof (align_down_3_split a').
  destruct (decide (align_down 3 a = align_down 3 a')) as [Heq|Hne].
  - rewrite Heq, mget_insert_eq, byte_of_with_byte by lia.
    destruct (Z.eqb_spec (a' mod 8) (a mod 8)), (Z.eqb_spec a' a); done || lia.
  - rewrite mget_insert_ne by done. destruct (Z.eqb_spec a' a) as [->|]; [done|done].
Qed.

(** A word store leaves the bytes of other words. *)
Lemma byte_at_insert m w v a : align_down 3 a ≠ w → byte_at (<[w := v]> m) a = byte_at m a.
Proof. intros. unfold byte_at. by rewrite mget_insert_ne. Qed.

(** ** Buffers *)

Section Buffer.
Context `{Platform}.

(** [msg] is an aligned buffer of [n] words at physical address [pa]. *)
Record buffer (s : kstate) (msg pa : Z) (n : Z) : Prop := {
  bf_align : msg mod 8 = 0 ∧ pa mod 8 = 0;
  bf_range : 0 ≤ msg ∧ msg + 8 * n ≤ 2 ^ 64;
  bf_phys : ∀ i, 0 ≤ i < 8 * n → phys_of s (msg + i) = Some (pa + i);
  bf_image : ∀ i, 0 ≤ i < 8 * n → in_image (pa + i) = false;
  bf_tree : ptree (mem s) (frame (cr3 s));
  bf_fresh : ∀ j, 0 ≤ j < n → fresh (mem s) (frame (cr3 s)) (page_of (pa + 8 * j));
}.

Lemma buffer_set_tasks s msg pa n ts : buffer s msg pa n → buffer (set_tasks ts s) msg pa n.
Proof. intros []. by split. Qed.

Lemma buffer_write s msg pa n j v :
  buffer s msg pa n → 0 ≤ j < n → buffer (set_mem (<[pa + 8 * j := v]> (mem s)) s) msg pa n.
Proof.
  intros [Ha Hr Hp Hi Ht Hf] Hj.
  assert (Hs : same_xlat (frame (cr3 s)) (mem s) (<[pa + 8 * j := v]> (mem s))).
  { apply same_xlat_insert; [done|]. by apply Hf. }
  split; try done.
  - intros i Hin. rewrite (phys_of_same_xlat s); [by apply Hp|done|done].
  - simpl. by apply (ptree_proper _ _ _ Hs).
  - intros k Hk. simpl. eapply fresh_same_xlat; [done|]. by apply Hf.
Qed.

Lemma buffer_store64 s msg pa n j v :
  buffer s msg pa n → 0 ≤ j < n →
  store64 (msg + 8 * j) v s = Ok tt (set_mem (<[pa + 8 * j := u64 v]> (mem s)) s).
Proof.
  intros Hb Hj. destruct Hb as [[Ha1 Ha2] Hr Hp Hi Ht Hf].
  apply store64_at; [|by apply Hp; lia|by apply Hi; lia].
  rewrite (Z.mul_comm 8), Z_mod_plus_full. done.
Qed.

Lemma align_down_buffer pa i : pa mod 8 = 0 → align_down 3 (pa + i) = pa + 8 * (i / 8).
Proof.
  intros Hp. rewrite align_down_sub by lia. change (2 ^ 3) with 8.
  rewrite <- Zplus_mod_idemp_l, Hp, Z.add_0_l. pose proof (Z.div_mod i 8). lia.
Qed.

Lemma buffer_store8 s msg pa n i b :
  buffer s msg pa n → 0 ≤ i < 8 * n → 0 ≤ b < 256 →
  store8 (msg + i) b s = Ok tt (set_mem (put_byte (mem s) (pa + i) b) s) ∧
  buffer (set_mem (put_byte (mem s) (pa + i) b) s) msg pa n.
Proof.
  intros Hb Hi Hbr. split.
  - unfold store8. rewrite (bf_phys _ _ _ _ Hb), (bf_image _ _ _ _ Hb) by done. by rewrite u8_small by lia.
  - unfold put_byte. destruct (bf_align _ _ _ _ Hb) as [_ Hpa]. rewrite align_down_buffer by done.
    apply buffer_write; [done|]. split; [apply Z.div_pos; lia|apply Z.div_lt_upper_bound; lia].
Qed.

(** Writing [bs[j]], ..., [bs[e - 1]] to offsets [o + j] on, byte by byte. *)
Lemma buffer_bytes s msg pa n o bs j k e :
  buffer s msg pa n → 0 ≤ o → o + Z.of_nat e ≤ 8 * n → Forall (λ b, 0 ≤ b < 256) bs →
  (j + k = e)%nat → (e ≤ length bs)%nat →
  ∃ m', for_nat k (Z.of_nat j) (λ i, b ← arr_get bs i; store8 (u64 (msg + o + i)) b) s = Ok tt (set_mem m' s) ∧
    buffer (set_mem m' s) msg pa n ∧
    (∀ w, (∀ i, Z.of_nat j ≤ i < Z.of_nat e → align_down 3 (pa + o + i) ≠ w) → mget m' w = mget (mem s) w) ∧
    ∀ a, byte_at m' a = if bool_decide (pa + o + Z.of_nat j ≤ a < pa + o + Z.of_nat e)
                        then default 0 (bs !! Z.to_nat (a - pa - o)) else byte_at (mem s) a.
Proof.
  revert s j. induction k as [|k IH]; intros s j Hb Ho Hlen Hbs Hj He.
  { exists (mem s). cbn [for_nat]. split; [by destruct s|]. split; [by destruct s|]. split; [done|].
    intros a. case_bool_decide; [lia|done]. }
  destruct (lookup_lt_is_Some_2 bs j) as [b Hbj]; [lia|].
  assert (Hbr : 0 ≤ b < 256) by (rewrite Forall_forall in Hbs; apply Hbs; by eapply list_elem_of_lookup_2).
  destruct (buffer_store8 s msg pa n (o + Z.of_nat j) b) as [E Hb']; [done|lia|done|].
  destruct (IH _ (S j) Hb') as (m' & E' & Hb'' & Hwd & Hby); [done..|lia|done|].
  exists m'. cbn [for_nat]. split_and!; [|done| |].
  - step_by ltac:(step_by ltac:(unfold arr_get; replace (0 <=? Z.of_nat j) with true by lia;
      rewrite Nat2Z.id, Hbj; reflexivity); destruct (bf_range _ _ _ _ Hb); rewrite u64_small by lia;
      rewrite <- Z.add_assoc; exact E).
    replace (Z.of_nat j + 1) with (Z.of_nat (S j)) by lia. exact E'.
  - intros w Hw. rewrite Hwd by (intros; apply Hw; lia). simpl mem. unfold put_byte.
    apply mget_insert_ne. rewrite Z.add_assoc. apply Hw. lia.
  - intros a. rewrite Hby. simpl mem. rewrite byte_at_put by done.
    destruct (Z.eqb_spec a (pa + (o + Z.of_nat j))) as [->|Hne].
    + rewrite (bool_decide_eq_false_2 (pa + o + Z.of_nat (S j) ≤ _ < _)) by lia.
      rewrite bool_decide_eq_true_2 by lia.
      replace (Z.to_nat (pa + (o + Z.of_nat j) - pa - o)) with j by lia. by rewrite Hbj.
    + case_bool_decide; case_bool_decide; done || lia.
Qed.

End Buffer.
