(* ===== verification/Ipc.v ===== *)
(** * Ipc: message passing is a bounded FIFO

    Each task's ring of 16 slots is the abstract queue [inbox].  [sys_send] is
    "append, unless full", [sys_recv] is "take the first, unless empty"; the
    invariant [ring_ok] holds of every reachable ring. *)

From S2P Require Import Prelude State Machine Walk Tasks UserBuf.

(** ** Table access *)

Lemma get_task_eq s i t : 0 ≤ i → tasks s !! Z.to_nat i = Some t → get_task i s = Ok t s.
Proof. intros Hi Ht. unfold get_task, arr_get. replace (0 <=? i) with true by lia. by rewrite Ht. Qed.

Lemma upd_task_eq s i f t :
  0 ≤ i → tasks s !! Z.to_nat i = Some t →
  upd_task i f s = Ok tt (set_tasks (<[Z.to_nat i := f t]> (tasks s)) s).
Proof. intros Hi Ht. unfold upd_task, mbind, M_bind. by rewrite (get_task_eq _ _ t). Qed.

(** The look-up loops find the first task below [num_tasks] that satisfies the test. *)
Lemma find_loop (p : task_t → bool) s n i :
  0 ≤ i → (Z.to_nat i + n ≤ length (tasks s))%nat →
  for_exit n i (λ i, t ← get_task i; mret (if p t then Some i else None)) s =
    Ok ((λ x : nat * task_t, i + Z.of_nat x.1) <$>
      list_find (λ t, p t = true) (take n (drop (Z.to_nat i) (tasks s)))) s.
Proof.
  revert i. induction n as [|n IH]; intros i Hi Hn; [done|].
  destruct (lookup_lt_is_Some_2 (tasks s) (Z.to_nat i)) as [t Ht]; [lia|].
  cbn [for_exit]. unfold mbind, M_bind. rewrite (get_task_eq _ _ t) by done.
  rewrite (drop_S _ t) by done. cbn [take list_find].
  destruct (decide (p t = true)) as [Hp|Hp].
  { rewrite Hp. unfold mret, M_ret. simpl. do 2 f_equal. lia. }
  replace (p t) with false by (by destruct (p t)). unfold mret, M_ret.
  rewrite IH by lia. replace (Z.to_nat (i + 1)) with (S (Z.to_nat i)) by lia. f_equal.
  destruct (list_find _ _) as [[k x]|]; [|done]. simpl. f_equal. lia.
Qed.

Definition live_tasks (s : kstate) : list task_t := take (Z.to_nat (num_tasks s)) (tasks s).

Definition table_ok (s : kstate) : Prop := 0 ≤ num_tasks s ≤ Z.of_nat (length (tasks s)).

Lemma find_task_eq (p : task_t → bool) s :
  table_ok s →
  find_task p s = Ok ((λ x : nat * task_t, Z.of_nat x.1) <$> list_find (λ t, p t = true) (live_tasks s)) s.
Proof.
  intros Hn. unfold find_task, mbind at 1, M_bind, gets.
  rewrite find_loop by (unfold table_ok in Hn; lia). change (Z.to_nat 0) with 0%nat. by rewrite drop_0.
Qed.

(** What a successful look-up tells. *)
Lemma find_task_Some s (p : task_t → bool) k t :
  list_find (λ t, p t = true) (live_tasks s) = Some (k, t) →
  tasks s !! k = Some t ∧ p t = true ∧ (k < Z.to_nat (num_tasks s))%nat ∧
  ∀ j t', (j < k)%nat → tasks s !! j = Some t' → p t' = false.
Proof.
  intros (Hk & Hp & Hmin)%list_find_Some. unfold live_tasks in *.
  apply lookup_take_Some in Hk as [Hk Hlt]. split_and!; try done.
  intros j t' Hj Ht'. destruct (p t') eqn:E; [|done]. exfalso. eapply (Hmin j t'); [|done|done].
  apply lookup_take_Some. split; [done|lia].
Qed.

Lemma find_task_None s (p : task_t → bool) :
  list_find (λ t, p t = true) (live_tasks s) = None → ∀ t, t ∈ live_tasks s → p t = false.
Proof. intros Hn%list_find_None t Ht. rewrite Forall_forall in Hn. specialize (Hn t Ht). by destruct (p t). Qed.

(** ** The abstract queue *)

Definition view : Type := Z * Z * list Z.

Definition msg_view (m : ipc_msg_t) : view :=
  (msg_sender_pid m, msg_type m, take (Z.to_nat (msg_length m)) (msg_data m)).

Definition slot (t : task_t) (k : Z) : ipc_msg_t :=
  default msg_zero (t_ipc_queue t !! Z.to_nat (k mod 16)).

Definition inbox (t : task_t) : list view :=
  (λ k, msg_view (slot t (t_ipc_tail t + k))) <$> seqZ 0 (t_ipc_count t).

Definition msg_ok (m : ipc_msg_t) : Prop :=
  length (msg_data m) = 64%nat ∧ 0 ≤ msg_length m ≤ 64 ∧ Forall (λ b, 0 ≤ b < 256) (msg_data m).

Record ring_ok (t : task_t) : Prop := {
  ro_slots : length (t_ipc_queue t) = 16%nat;
  ro_tail : 0 ≤ t_ipc_tail t < 16;
  ro_count : 0 ≤ t_ipc_count t ≤ 16;
  ro_head : t_ipc_head t = (t_ipc_tail t + t_ipc_count t) mod 16;
  ro_msgs : Forall msg_ok (t_ipc_queue t);
}.

Lemma inbox_length t : ring_ok t → Z.of_nat (length (inbox t)) = t_ipc_count t.
Proof. intros []. unfold inbox. rewrite length_fmap, length_seqZ. lia. Qed.

Lemma ring_ok_zero : ring_ok task_zero.
Proof.
  split; try done. unfold task_zero; cbn [t_ipc_queue]. apply Forall_replicate. split_and!; [done..|].
  unfold msg_zero; cbn [msg_data]. apply Forall_replicate. lia.
Qed.

(** [ipc_init_task] empties a ring. *)
Lemma ipc_init_task_ok t : ring_ok t → ring_ok (ipc_init_task t) ∧ inbox (ipc_init_task t) = [].
Proof. intros []. split; [|done]. by split. Qed.

(** The message stored in slot [t->ipc_head]. *)
Definition put_slot (t : task_t) (m : ipc_msg_t) : task_t :=
  t_set_ipc (<[Z.to_nat (t_ipc_head t) := m]> (t_ipc_queue t)) (t_ipc_head t) (t_ipc_tail t) (t_ipc_count t) t.

Lemma mod16_ne tl cnt k : 0 ≤ tl < 16 → 0 ≤ k < cnt → cnt < 16 → (tl + k) mod 16 ≠ (tl + cnt) mod 16.
Proof.
  intros Ht Hk Hc Heq. assert ((cnt - k) mod 16 = 0) as Hz.
  { replace (cnt - k) with ((tl + cnt) - (tl + k)) by lia. rewrite Zminus_mod, Heq, Z.sub_diag. done. }
  rewrite Z.mod_small in Hz by lia. lia.
Qed.

Lemma push_ok t m :
  ring_ok t → t_ipc_count t < 16 → msg_ok m →
  ring_ok (ring_push (put_slot t m)) ∧ inbox (ring_push (put_slot t m)) = inbox t ++ [msg_view m].
Proof.
  intros [Hl Htl Hc Hh Hm] Hlt Hmsg. pose proof (Z.mod_pos_bound (t_ipc_tail t + t_ipc_count t) 16).
  assert (Hu : u32 (t_ipc_count t + 1) = t_ipc_count t + 1) by (apply u32_small; lia).
  split.
  - split; simpl.
    + by rewrite length_insert.
    + done.
    + rewrite Hu. lia.
    + rewrite Hu, u32_small by lia. rewrite Hh. change IPC_QUEUE_SIZE with 16.
      rewrite Zplus_mod_idemp_l. f_equal. lia.
    + by apply Forall_insert.
  - unfold inbox. simpl. rewrite Hu, seqZ_app by lia. rewrite fmap_app. f_equal.
    + apply list_fmap_ext. intros k x Hx. apply lookup_seqZ in Hx as [-> Hk]. f_equal. unfold slot; simpl.
      rewrite list_lookup_insert_ne; [done|]. rewrite Hh.
      pose proof (mod16_ne (t_ipc_tail t) (t_ipc_count t) (0 + Z.of_nat k)).
      pose proof (Z.mod_pos_bound (t_ipc_tail t + (0 + Z.of_nat k)) 16). lia.
    + rewrite seqZ_cons by lia. change (seqZ (Z.succ (0 + t_ipc_count t)) (Z.pred 1)) with (@nil Z).
      cbn [fmap list_fmap]. f_equal. f_equal. unfold slot, ring_push, put_slot, t_set_ipc; cbn [t_ipc_queue].
      rewrite Z.add_0_l, <- Hh, list_lookup_insert_eq by lia. done.
Qed.

Lemma wake_ring t : ring_ok t → ring_ok (wake t) ∧ inbox (wake t) = inbox t.
Proof. intros []. unfold wake. destruct (is_blocked t); split; try done; by split. Qed.

(** The target's record after a delivery, field by field. *)
Lemma delivered_task t m :
  ring_ok t → t_ipc_count t < 16 →
  wake (ring_push (put_slot t m)) =
    Task (t_rsp t) (t_pid t) (if bool_decide (t_state t = TASK_BLOCKED) then TASK_READY else t_state t)
      (t_stack_phys t) (t_user_stack_phys t) (t_pml4_phys t) (t_load_addr t) (t_code_pages t) (t_wait_idx t)
      (<[Z.to_nat (t_ipc_head t) := m]> (t_ipc_queue t)) ((t_ipc_head t + 1) mod 16) (t_ipc_tail t) (t_ipc_count t + 1).
Proof.
  intros [_ Htl Hc Hh _] Hlt. pose proof (Z.mod_pos_bound (t_ipc_tail t + t_ipc_count t) 16).
  unfold wake, is_blocked, ring_push, put_slot. cbn [t_state t_set_ipc t_ipc_head t_ipc_tail t_ipc_count].
  rewrite !u32_small by lia. change IPC_QUEUE_SIZE with 16. by case_bool_decide.
Qed.

Lemma pop_ok t :
  ring_ok t → 0 < t_ipc_count t →
  ring_ok (ring_pop t) ∧ inbox t = msg_view (slot t (t_ipc_tail t)) :: inbox (ring_pop t).
Proof.
  intros [Hl Htl Hc Hh Hm] Hlt.
  assert (Hu : u32 (t_ipc_count t - 1) = t_ipc_count t - 1) by (apply u32_small; lia).
  assert (Ht : u32 (t_ipc_tail t + 1) = t_ipc_tail t + 1) by (apply u32_small; lia).
  pose proof (Z.mod_pos_bound (t_ipc_tail t + 1) 16).
  split.
  - split; simpl; rewrite ?Hu, ?Ht; try done; try lia.
    + change IPC_QUEUE_SIZE with 16. lia.
    + rewrite Hh. change IPC_QUEUE_SIZE with 16. rewrite Zplus_mod_idemp_l. f_equal. lia.
  - unfold inbox. cbn [ring_pop t_ipc_tail t_ipc_count t_set_ipc]. rewrite Hu, Ht.
    rewrite seqZ_cons by lia. cbn [fmap list_fmap]. rewrite Z.add_0_r. f_equal.
    change (Z.succ 0) with (1 + 0). change (Z.pred (t_ipc_count t)) with (t_ipc_count t - 1).
    rewrite <- fmap_add_seqZ, <- list_fmap_compose.
    apply list_fmap_ext. intros k x _. unfold compose, slot, ring_pop, t_set_ipc. cbn [t_ipc_queue].
    change IPC_QUEUE_SIZE with 16. rewrite Zplus_mod_idemp_l.
    by replace (t_ipc_tail t + (1 + x)) with (t_ipc_tail t + 1 + x) by lia.
Qed.

(** ** [sys_send] *)

Section Send.
Context `{Platform}.

Lemma load8_set_tasks a s ts b : load8 a s = Ok b s → load8 a (set_tasks ts s) = Ok b (set_tasks ts s).
Proof. unfold load8. change (phys_of (set_tasks ts s) a) with (phys_of s a). destruct (phys_of s a); naive_solver. Qed.

Lemma land_255_range x : 0 ≤ Z.land x 255 < 256.
Proof. change 255 with (2 ^ 8 - 1). rewrite land_ones_mod by lia. apply Z.mod_pos_bound. lia. Qed.

Lemma load8_range a s b s' : load8 a s = Ok b s' → 0 ≤ b < 256.
Proof.
  unfold load8. destruct (phys_of s a); [|done]. intros [= <- _]. unfold byte_of. apply land_255_range.
Qed.

(** The state while the message in slot [h] of task [k] is written. *)
Definition with_slot (s : kstate) (k : nat) (t : task_t) (m : ipc_msg_t) : kstate :=
  set_tasks (<[k := put_slot t m]> (tasks s)) s.

Lemma upd_slot_eq s k t m f :
  tasks s !! k = Some t → 0 ≤ t_ipc_head t < Z.of_nat (length (t_ipc_queue t)) →
  upd_slot (Z.of_nat k) (t_ipc_head t) f (with_slot s k t m) = Ok tt (with_slot s k t (f m)).
Proof.
  intros Ht Hh. pose proof (lookup_lt_Some _ _ _ Ht). unfold upd_slot, mbind, M_bind.
  assert (Hk : tasks (with_slot s k t m) !! Z.to_nat (Z.of_nat k) = Some (put_slot t m)).
  { rewrite Nat2Z.id. simpl. by apply list_lookup_insert_eq. }
  rewrite (get_task_eq _ _ (put_slot t m)) by (done || lia).
  unfold arr_get at 1. replace (0 <=? t_ipc_head t) with true by lia.
  unfold put_slot at 1. cbn [t_set_ipc t_ipc_queue]. rewrite list_lookup_insert_eq by lia.
  unfold mret, M_ret. rewrite (upd_task_eq _ _ _ (put_slot t m)) by (done || lia).
  rewrite Nat2Z.id. unfold with_slot. simpl. rewrite list_insert_insert_eq.
  unfold put_slot, t_set_ipc. simpl. by rewrite list_insert_insert_eq.
Qed.

(** The message after [j] bytes were copied. *)
Definition filled (sender type len : Z) (bs : list Z) (old : list Z) (j : nat) : ipc_msg_t :=
  Msg sender type (take j bs ++ drop j old) len.

Lemma send_loop s k t sender type data len bs old j n :
  tasks s !! k = Some t → 0 ≤ t_ipc_head t < Z.of_nat (length (t_ipc_queue t)) →
  (j + n = length bs)%nat → (length bs ≤ length old)%nat →
  (∀ i b, bs !! i = Some b → load8 (u64 (data + Z.of_nat i)) s = Ok b s) →
  for_nat n (Z.of_nat j) (λ i, b ← load8 (u64 (data + i)); upd_slot (Z.of_nat k) (t_ipc_head t) (m_set_data i b))
    (with_slot s k t (filled sender type len bs old j)) =
  Ok tt (with_slot s k t (filled sender type len bs old (length bs))).
Proof.
  intros Ht Hh. revert j. induction n as [|n IH]; intros j Hj Hl Hb; cbn [for_nat].
  { by replace j with (length bs) by lia. }
  destruct (lookup_lt_is_Some_2 bs j) as [b Hbj]; [lia|].
  assert (Hld := Hb j b Hbj). assert (Hrange := load8_range _ _ _ _ Hld).
  unfold mbind, M_bind. unfold with_slot at 1. rewrite (load8_set_tasks _ _ _ b Hld).
  fold (with_slot s k t (filled sender type len bs old j)). rewrite upd_slot_eq by done.
  replace (m_set_data (Z.of_nat j) b (filled sender type len bs old j))
    with (filled sender type len bs old (S j)).
  { replace (Z.of_nat j + 1) with (Z.of_nat (S j)) by lia. apply IH; [lia|done|done]. }
  unfold filled, m_set_data. simpl. f_equal. rewrite Nat2Z.id, u8_small by lia.
  rewrite (take_S_r _ _ b) by done. rewrite <- app_assoc.
  rewrite insert_app_r_alt by (rewrite length_take; lia). f_equal.
  rewrite length_take. replace (j - j `min` length bs)%nat with 0%nat by lia.
  destruct (lookup_lt_is_Some_2 old j) as [x Hx]; [lia|]. by rewrite (drop_S old x j Hx).
Qed.

(** A message is delivered: it is appended to the target's queue, with at most 64
    bytes of data; a blocked target becomes ready. *)
Lemma sys_send_runs s pid type data len k t sender bs :
  table_ok s →
  list_find (λ t, (t_pid t =? pid) && negb (is_exited t) = true) (live_tasks s) = Some (k, t) →
  ring_ok t → t_ipc_count t < 16 → current_pid s = Ok sender s → 0 ≤ len →
  length bs = Z.to_nat (len `min` 64) →
  (∀ i b, bs !! i = Some b → load8 (u64 (data + Z.of_nat i)) s = Ok b s) →
  ∃ m, sys_send pid type data len s = Ok 0 (set_tasks (<[k := wake (ring_push (put_slot t m))]> (tasks s)) s) ∧
    msg_ok m ∧ msg_view m = (sender, type, bs).
Proof.
  intros Hs Hf Hr Hc Hsend Hlen Hbs Hb. destruct (find_task_Some s _ _ _ Hf) as (Ht & _ & _ & _).
  pose proof (lookup_lt_Some _ _ _ Ht) as Hlt. pose proof Hr as [Hl Htl Hcn Hh Hm].
  pose proof (Z.mod_pos_bound (t_ipc_tail t + t_ipc_count t) 16).
  destruct (lookup_lt_is_Some_2 (t_ipc_queue t) (Z.to_nat (t_ipc_head t))) as [m0 Hm0]; [lia|].
  assert (Hm0ok : msg_ok m0) by (rewrite Forall_forall in Hm; apply Hm; by eapply list_elem_of_lookup_2).
  destruct Hm0ok as (Hd0 & Hl0 & Hb0).
  assert (Hput : put_slot t m0 = t).
  { unfold put_slot. rewrite list_insert_id by done. by destruct t. }
  set (n := len `min` 64) in *.
  exists (filled sender type n bs (msg_data m0) (length bs)). split_and!.
  - unfold sys_send. step_by ltac:(by apply find_task_eq). rewrite Hf. cbn [fmap option_fmap option_map fst].
    step_by ltac:(apply (get_task_eq _ _ t); rewrite ?Nat2Z.id; [lia|done]).
    replace (IPC_QUEUE_SIZE <=? t_ipc_count t) with false by (unfold IPC_QUEUE_SIZE; lia).
    step_by ltac:(exact Hsend). replace (if IPC_MAX_DATA <? len then IPC_MAX_DATA else len) with n
      by (unfold n, IPC_MAX_DATA; destruct (Z.ltb_spec 64 len); lia).
    assert (E0 : s = with_slot s k t m0).
    { unfold with_slot. rewrite Hput, list_insert_id by done. by destruct s. }
    rewrite E0 at 1. step_by ltac:(by apply upd_slot_eq; [|lia]).
    change (m_set_head sender type n m0) with (filled sender type n bs (msg_data m0) 0). rewrite <- Hbs.
    step_by ltac:(by apply (send_loop s k t sender type data n bs (msg_data m0) 0 (length bs)); [|lia..|]).
    set (m := filled _ _ _ _ _ _). unfold with_slot.
    step_by ltac:(apply (upd_task_eq _ _ _ (put_slot t m)); [lia|];
      simpl; by rewrite Nat2Z.id, list_lookup_insert_eq).
    step_by ltac:(apply (upd_task_eq _ _ _ (ring_push (put_slot t m))); [lia|];
      simpl; by rewrite Nat2Z.id, list_lookup_insert_eq by (by rewrite length_insert)).
    unfold mret, M_ret. simpl. by rewrite !Nat2Z.id, !list_insert_insert_eq.
  - unfold msg_ok, filled; simpl. rewrite firstn_all. split_and!; [rewrite length_app, length_drop; lia|lia|lia|].
    apply Forall_app. split; [|by apply Forall_drop].
    apply Forall_lookup. intros i b Hi. eapply load8_range. by apply Hb.
  - unfold msg_view, filled; simpl. rewrite firstn_all. f_equal. by rewrite <- Hbs, take_app_length.
Qed.

(** No live task with the pid, or a full queue: -1, and nothing changes. *)
Lemma sys_send_no_target s pid type data len :
  table_ok s → (∀ t, t ∈ live_tasks s → t_pid t = pid → t_state t = TASK_EXITED) →
  sys_send pid type data len s = Ok (-1) s.
Proof.
  intros Hs Hn. unfold sys_send, mbind, M_bind. rewrite find_task_eq by done.
  destruct (list_find _ _) as [[k t]|] eqn:E; [|done]. exfalso.
  pose proof E as (Hk & Hp & _)%list_find_Some. apply list_elem_of_lookup_2 in Hk.
  apply andb_true_iff in Hp as [Hp%Z.eqb_eq Hx]. unfold is_exited in Hx.
  rewrite bool_decide_eq_true_2 in Hx; [done|]. by apply Hn.
Qed.

Lemma sys_send_full s pid type data len k t :
  table_ok s →
  list_find (λ t, (t_pid t =? pid) && negb (is_exited t) = true) (live_tasks s) = Some (k, t) →
  16 ≤ t_ipc_count t → sys_send pid type data len s = Ok (-1) s.
Proof.
  intros Hs Hf Hc. destruct (find_task_Some s _ _ _ Hf) as (Ht & _ & _ & _).
  unfold sys_send, mbind, M_bind. rewrite find_task_eq by done. cbv beta. rewrite Hf. cbn [fmap option_fmap option_map fst].
  rewrite (get_task_eq _ _ t) by (rewrite ?Nat2Z.id; done || lia).
  by replace (IPC_QUEUE_SIZE <=? t_ipc_count t) with true by (unfold IPC_QUEUE_SIZE; lia).
Qed.

End Send.

(** ** [sys_recv] *)

Section Recv.
Context `{Platform}.

(** The message [m] as [ipc_msg_t] bytes at physical address [pa]: its first
    [msg_length] bytes of data only. *)
Record delivered (m0 m1 : gmap Z Z) (pa : Z) (m : ipc_msg_t) : Prop := {
  dl_sender : mget m1 pa = u64 (msg_sender_pid m);
  dl_type : mget m1 (pa + 8) = u64 (msg_type m);
  dl_length : mget m1 (pa + 80) = msg_length m;
  dl_data : ∀ i, 0 ≤ i < msg_length m → msg_data m !! Z.to_nat i = Some (byte_at m1 (pa + 16 + i));
  dl_rest : ∀ a, ¬ (pa ≤ a < pa + 16 + msg_length m ∨ pa + 80 ≤ a < pa + 88) → byte_at m1 a = byte_at m0 a;
}.

Lemma sys_recv_runs s msg pa t :
  0 ≤ current_task s → tasks s !! Z.to_nat (current_task s) = Some t → ring_ok t → 0 < t_ipc_count t →
  buffer s msg pa 11 →
  ∃ m', sys_recv msg s = Ok 0 (set_tasks (<[Z.to_nat (current_task s) := ring_pop t]> (tasks s)) (set_mem m' s)) ∧
    delivered (mem s) m' pa (slot t (t_ipc_tail t)).
Proof.
  intros Hc Ht Hr Hcnt Hb. pose proof Hr as [Hl Htl Hcn Hh Hm].
  destruct (lookup_lt_is_Some_2 (t_ipc_queue t) (Z.to_nat (t_ipc_tail t))) as [src Hsrc]; [lia|].
  assert (Hslot : slot t (t_ipc_tail t) = src).
  { unfold slot. rewrite Z.mod_small by lia. by rewrite Hsrc. }
  rewrite Hslot. assert (Hok : msg_ok src) by (rewrite Forall_forall in Hm; apply Hm; by eapply list_elem_of_lookup_2).
  destruct Hok as (Hd & Hlen & Hby). destruct (bf_range _ _ _ _ Hb) as [Hr0 Hr1].
  destruct (bf_align _ _ _ _ Hb) as [_ Hpa].
  set (s1 := set_mem (<[pa + 8 * 0 := u64 (msg_sender_pid src)]> (mem s)) s).
  assert (B1 : buffer s1 msg pa 11) by (apply buffer_write; [done|lia]).
  set (s2 := set_mem (<[pa + 8 * 1 := u64 (msg_type src)]> (mem s1)) s1).
  assert (B2 : buffer s2 msg pa 11) by (apply buffer_write; [done|lia]).
  set (s3 := set_mem (<[pa + 8 * 10 := u64 (msg_length src)]> (mem s2)) s2).
  assert (B3 : buffer s3 msg pa 11) by (apply buffer_write; [done|lia]).
  destruct (buffer_bytes s3 msg pa 11 16 (msg_data src) 0 (Z.to_nat (msg_length src)) (Z.to_nat (msg_length src)))
    as (m' & E & B4 & Hwords & Hbytes); [done|lia|lia|done|lia|lia|].
  exists m'. split.
  - unfold sys_recv. step_by ltac:(reflexivity). replace (current_task s <? 0) with false by lia.
    step_by ltac:(by apply get_task_eq). replace (t_ipc_count t =? 0) with false by lia.
    step_by ltac:(unfold arr_get; replace (0 <=? t_ipc_tail t) with true by lia; rewrite Hsrc; reflexivity).
    assert (E1 := buffer_store64 s msg pa 11 0 (msg_sender_pid src) Hb ltac:(lia)).
    assert (E2 := buffer_store64 s1 msg pa 11 1 (msg_type src) B1 ltac:(lia)).
    assert (E3 := buffer_store64 s2 msg pa 11 10 (msg_length src) B2 ltac:(lia)).
    rewrite Z.add_0_r in E1. change (8 * 1) with 8 in E2. change (8 * 10) with 80 in E3.
    step_by ltac:(exact E1). rewrite !u64_small by lia.
    step_by ltac:(exact E2). step_by ltac:(exact E3). step_by ltac:(exact E).
    step_by ltac:(by apply (upd_task_eq _ _ _ t)). done.
  - assert (Hword : ∀ j, j < 2 ∨ 10 ≤ j → mget m' (pa + 8 * j) = mget (mem s3) (pa + 8 * j)).
    { intros j Hj. apply Hwords. intros i Hi. rewrite <- Z.add_assoc, align_down_buffer by done.
      assert (2 ≤ (16 + i) / 8) by (apply Z.div_le_lower_bound; lia).
      assert ((16 + i) / 8 < 10) by (apply Z.div_lt_upper_bound; lia). lia. }
    assert (Hfar : ∀ a j, 0 ≤ j → ¬ (pa + 8 * j ≤ a < pa + 8 * j + 8) → align_down 3 a ≠ pa + 8 * j).
    { intros a j Hj Ha Heq. pose proof (align_down_3_split a). pose proof (Z.mod_pos_bound a 8). lia. }
    split.
    + replace pa with (pa + 8 * 0) at 1 by lia. rewrite (Hword 0) by lia. simpl.
      rewrite !mget_insert_ne by lia. apply mget_insert_eq.
    + change (pa + 8) with (pa + 8 * 1). rewrite Hword by lia. simpl. rewrite mget_insert_ne by lia. apply mget_insert_eq.
    + change (pa + 80) with (pa + 8 * 10). rewrite Hword by lia. simpl. rewrite mget_insert_eq. apply u64_small. lia.
    + intros i Hi. rewrite Hbytes, bool_decide_eq_true_2 by lia.
      replace (Z.to_nat (pa + 16 + i - pa - 16)) with (Z.to_nat i) by lia.
      destruct (lookup_lt_is_Some_2 (msg_data src) (Z.to_nat i)) as [x ->]; [lia|done].
    + intros a Ha. rewrite Hbytes, bool_decide_eq_false_2 by lia. simpl.
      rewrite !byte_at_insert by (apply Hfar; lia). done.
Qed.

End Recv.
