(* ===== verification/IpcProps.v ===== *)
(** * IpcProps: message passing refines a bounded FIFO

    The properties of [sys_send] and [sys_recv] against the abstract queue
    [inbox], and their instances. *)

From S2P Require Import Prelude State Machine Walk Serial Space Pmm Paging PagingOps CloneSpace BootMem Tasks Demo UserBuf Ipc.

(** The live task [sys_send] addresses. *)
Definition send_target (pid : Z) (s : kstate) : option (nat * task_t) :=
  list_find (λ t, (t_pid t =? pid) && negb (is_exited t) = true) (live_tasks s).

Section IpcProps.
Context {HP : Platform}.

(** C12: A send to a live task with room succeeds: the message (the sender's pid,
    the type, the first 64 bytes of the data at most) is appended to the target's
    queue, a blocked target becomes ready, and nothing else changes: of the state
    only the target's record, of that record only the state, the head, the count
    and the one slot at the old head. *)
Theorem sys_send_appends s pid type data len k t sender bs :
  table_ok s → send_target pid s = Some (k, t) →
  ring_ok t → t_ipc_count t < 16 → current_pid s = Ok sender s → 0 ≤ len →
  length bs = Z.to_nat (len `min` 64) →
  (∀ i b, bs !! i = Some b → load8 (u64 (data + Z.of_nat i)) s = Ok b s) →
  ∃ q,
    let t' := Task (t_rsp t) (t_pid t) (if bool_decide (t_state t = TASK_BLOCKED) then TASK_READY else t_state t)
      (t_stack_phys t) (t_user_stack_phys t) (t_pml4_phys t) (t_load_addr t) (t_code_pages t) (t_wait_idx t)
      q ((t_ipc_head t + 1) mod 16) (t_ipc_tail t) (t_ipc_count t + 1) in
    sys_send pid type data len s = Ok 0 (set_tasks (<[k := t']> (tasks s)) s) ∧
    (∀ i, i ≠ Z.to_nat (t_ipc_head t) → q !! i = t_ipc_queue t !! i) ∧
    ring_ok t' ∧ inbox t' = inbox t ++ [(sender, type, bs)].
Proof using.
  intros Hs Hf Hr Hc Hcur Hl Hbs Hb.
  destruct (sys_send_runs s pid type data len k t sender bs) as (m & E & Hok & Hv); try done.
  destruct (push_ok t m Hr Hc Hok) as [Hr1 Hi1]. destruct (wake_ring _ Hr1) as [Hr2 Hi2].
  exists (<[Z.to_nat (t_ipc_head t) := m]> (t_ipc_queue t)). cbv zeta. rewrite <- delivered_task by done.
  split_and!; [done| |done|by rewrite Hi2, Hi1, Hv].
  intros i Hi. by apply list_lookup_insert_ne.
Qed.

(** C34: A send without a live task of that pid, or to a full queue, returns -1
    and changes nothing. *)
Theorem sys_send_rejects s pid type data len :
  table_ok s →
  match send_target pid s with None => True | Some (_, t) => 16 ≤ t_ipc_count t end →
  sys_send pid type data len s = Ok (-1) s.
Proof using.
  intros Hs. destruct (send_target pid s) as [[k t]|] eqn:E; intros Hc.
  - by apply (sys_send_full s pid type data len k t).
  - apply sys_send_no_target; [done|]. intros t Ht Hp. pose proof (find_task_None s _ E t Ht) as Hn.
    cbv beta in Hn. rewrite Hp, Z.eqb_refl in Hn. simpl in Hn. unfold is_exited in Hn.
    case_bool_decide; done.
Qed.

(** C13: A receive takes the oldest message: its sender, type and length, and as
    many bytes of data as its length says, are in the caller's buffer; no other
    byte of memory changes, and the caller's queue loses that message. *)
Theorem sys_recv_takes s msg pa t :
  0 ≤ current_task s → tasks s !! Z.to_nat (current_task s) = Some t → ring_ok t → inbox t ≠ [] →
  buffer s msg pa 11 →
  ∃ m' m t', sys_recv msg s =
      Ok 0 (set_tasks (<[Z.to_nat (current_task s) := t']> (tasks s)) (set_mem m' s)) ∧
    delivered (mem s) m' pa m ∧ ring_ok t' ∧ inbox t = msg_view m :: inbox t' ∧ t_pid t' = t_pid t ∧
    t_state t' = t_state t.
Proof using.
  intros Hc Ht Hr Hne Hb.
  assert (Hcnt : 0 < t_ipc_count t).
  { destruct (decide (t_ipc_count t = 0)) as [E|]; [|destruct Hr; lia]. destruct Hne. unfold inbox. by rewrite E. }
  destruct (sys_recv_runs s msg pa t) as (m' & E & Hd); try done.
  destruct (pop_ok t Hr Hcnt) as [Hr' Hi]. exists m', (slot t (t_ipc_tail t)), (ring_pop t). by split_and!.
Qed.

(** A receive with no current task or an empty queue returns -1 and changes
    nothing: the call does not block. *)
Theorem sys_recv_rejects s msg :
  (0 ≤ current_task s → ∃ t, tasks s !! Z.to_nat (current_task s) = Some t ∧ t_ipc_count t = 0) →
  sys_recv msg s = Ok (-1) s.
Proof using.
  intros Ht. unfold sys_recv. step_by ltac:(reflexivity).
  destruct (Z.ltb_spec (current_task s) 0) as [|Hc]; [done|]. destruct (Ht Hc) as (t & Ht' & Hz).
  step_by ltac:(by apply get_task_eq). by rewrite Hz.
Qed.

End IpcProps.

(** ** Instances *)

Lemma ring_ok_demo pid st stack : ring_ok (demo_task pid st stack).
Proof. destruct ring_ok_zero. by split. Qed.

Lemma demo_run_target : send_target 9 demo_run = Some (1%nat, demo_task 9 TASK_BLOCKED 0xA01000).
Proof. vm_compute. reflexivity. Qed.

Lemma demo_run_table : table_ok demo_run.
Proof. unfold table_ok. vm_compute. split; discriminate. Qed.

Lemma demo_run_data i b : [72; 105] !! i = Some b → load8 (u64 (0x10000 + Z.of_nat i)) demo_run = Ok b demo_run.
Proof.
  intros Hb. destruct i as [|[|i]]; simplify_eq/=.
  - apply (load8_eq _ 0x10000); vm_compute; reflexivity.
  - apply (load8_eq _ 0x10001); vm_compute; reflexivity.
Qed.

Lemma sys_send_appends_witness :
  ∃ t', sys_send 9 5 0x10000 2 demo_run = Ok 0 (set_tasks (<[1%nat := t']> (tasks demo_run)) demo_run) ∧
    inbox t' = [(1, 5, [72; 105])] ∧ t_state t' = TASK_READY ∧ t_rsp t' = 0xA01000.
Proof.
  destruct (sys_send_appends demo_run 9 5 0x10000 2 1 (demo_task 9 TASK_BLOCKED 0xA01000) 1 [72; 105])
    as (q & E & _ & _ & Hi).
  - exact demo_run_table.
  - exact demo_run_target.
  - apply ring_ok_demo.
  - simpl. lia.
  - reflexivity.
  - lia.
  - reflexivity.
  - exact demo_run_data.
  - eexists. split; [exact E|]. split; [exact Hi|]. split; reflexivity.
Defined.

Lemma sys_send_rejects_witness : sys_send 33 5 0x10000 2 demo_run = Ok (-1) demo_run.
Proof.
  apply (sys_send_rejects demo_run 33 5 0x10000 2).
  - exact demo_run_table.
  - replace (send_target 33 demo_run) with (@None (nat * task_t)) by (vm_compute; reflexivity). exact I.
Defined.

(** A page of the window that holds no table serves as a buffer. *)
Lemma demo_buffer s p : @kwin demo demo_W s → cr3 s = 0x1000 → has_boot_tables (mem s) → demo_W p →
  p ∉ [0x1000; 0x2000; 0x3000] → buffer s p p 11.
Proof.
  intros Hw Hc Ht Hp Hn. assert (Hpg := kw_win _ _ Hw p Hp). assert (Hend := is_page_end _ Hpg).
  destruct Hpg as [Hb Ha]. assert (H8 : p mod 8 = 0).
  { rewrite (Z.div_mod p 4096), Ha by lia. replace (4096 * (p / 4096) + 0) with (p / 4096 * 512 * 8) by lia.
    apply Z_mod_mult. }
  split; [done|lia|..].
  - intros i Hi. apply (kw_ident _ _ Hw); [done|lia].
  - intros i Hi. apply (kw_image _ _ Hw); [done|lia].
  - rewrite (kwin_cr3 _ _ Hw). apply Hw.
  - intros j Hj. rewrite (kwin_cr3 _ _ Hw), Hc, page_of_add by lia. by apply boot_fresh.
Qed.

Lemma demo_run_buffer : buffer demo_run 0x20000 0x20000 11.
Proof.
  apply demo_buffer; [apply demo_run_ok|reflexivity|apply demo_run_tables|split; [done|lia]|by_decide].
Qed.

(** The same machine after task 0 sent a message to itself. *)
Definition demo_mail : kstate := run_state (sys_send 1 7 0x10000 2) demo_run.

Lemma sys_recv_takes_witness :
  ∃ m' m t', sys_recv 0x20000 demo_mail =
      Ok 0 (set_tasks (<[0%nat := t']> (tasks demo_mail)) (set_mem m' demo_mail)) ∧
    delivered (mem demo_mail) m' 0x20000 m ∧ msg_view m = (1, 7, [72; 105]) ∧ inbox t' = [].
Proof.
  set (t0 := default task_zero (tasks demo_mail !! 0%nat)).
  assert (Ht : tasks demo_mail !! 0%nat = Some t0) by (vm_compute; reflexivity).
  destruct (sys_send_runs demo_run 1 7 0x10000 2 0 (demo_task 1 TASK_RUNNING 0xA00000) 1 [72; 105])
    as (m0 & E0 & Hok & Hv).
  { exact demo_run_table. } { vm_compute. reflexivity. } { apply ring_ok_demo. } { simpl. lia. }
  { reflexivity. } { lia. } { reflexivity. } { exact demo_run_data. }
  assert (Es : demo_mail = set_tasks (<[0%nat := wake (ring_push (put_slot (demo_task 1 TASK_RUNNING 0xA00000) m0))]>
    (tasks demo_run)) demo_run) by (unfold demo_mail, run_state; by rewrite E0).
  assert (Et : Some t0 = Some (wake (ring_push (put_slot (demo_task 1 TASK_RUNNING 0xA00000) m0)))).
  { rewrite <- Ht, Es. reflexivity. }
  apply (inj Some) in Et.
  destruct (push_ok _ m0 (ring_ok_demo 1 TASK_RUNNING 0xA00000) ltac:(simpl; lia) Hok) as [Hr1 Hi1].
  destruct (wake_ring _ Hr1) as [Hr2 Hi2]. rewrite <- Et in Hr2, Hi2. rewrite Hi1, Hv in Hi2.
  destruct (sys_recv_takes demo_mail 0x20000 0x20000 t0) as (m' & m & t' & E & Hd & _ & Hi & _).
  - vm_compute. discriminate.
  - replace (current_task demo_mail) with 0 by (vm_compute; reflexivity). exact Ht.
  - exact Hr2.
  - rewrite Hi2. discriminate.
  - rewrite Es. apply buffer_set_tasks, demo_run_buffer.
  - assert (Ec : current_task demo_mail = 0) by (vm_compute; reflexivity). rewrite Ec in E.
    exists m', m, t'. rewrite Hi2 in Hi. injection Hi as H1 H2 H3 H4.
    refine (conj E (conj Hd (conj _ (eq_sym H4)))). unfold msg_view. by rewrite <- H1, <- H2, <- H3.
Defined.

Lemma sys_recv_rejects_witness : sys_recv 0x20000 demo_run = Ok (-1) demo_run.
Proof.
  apply (sys_recv_rejects demo_run 0x20000). intros _. exists (demo_task 1 TASK_RUNNING 0xA00000). split; reflexivity.
Defined.
