(* ===== verification/Vm.v ===== *)
(** * Vm: the memory system calls ([task.c])

    [map_pages_at], [sys_mmap], [sys_munmap], [sys_mprotect], [sys_brk],
    [sys_mmap_phys] and [free_user_range]: each switches to the space it edits,
    loops over its pages and switches back. *)

From S2P Require Import Prelude State Machine Walk Serial Space Pmm Paging Tasks.

Section Vm.
Context `{Platform}.

(** [flags & b] as a condition. *)
Definition has_flag (flags b : Z) : bool := negb (Z.land flags b =? 0).

(** [virt & ~0xFFFULL] and [(virt + size + 4095) & ~0xFFFULL]. *)
Definition range_start (virt : Z) : Z := mask_4k virt.
Definition range_end (virt size : Z) : Z := mask_4k (u64 (virt + size + 4095)).

(** [for (u64 v = start; v < end; v += 4096)]. *)
Definition for_pages {A} (start end_ : Z) (body : Z → M (option A)) : M (option A) :=
  for_step (step_fuel start end_ 4096) start end_ 4096 body.

Definition map_pages_at (pml4 virt size flags : Z) : M Z :=
  old ← gets paging_root;
  paging_switch pml4 ;;
  r ← for_pages (range_start virt) (range_end virt size) (λ v,
    page ← pmm_alloc_page;
    if page =? 0 then paging_switch old ;; mret (Some (-1))
    else map_page v page flags ;; mret None);
  match r with
  | Some x => mret x
  | None => paging_switch old ;; mret 0
  end.

Definition sys_mmap (virt size flags : Z) : M Z :=
  cur ← gets current_task;
  if cur <? 0 then mret (-1)
  else
    let pg_flags := Z.lor PAGE_PRESENT PAGE_USER in
    let pg_flags := if has_flag flags 2 then Z.lor pg_flags PAGE_WRITABLE else pg_flags in
    let pg_flags := if has_flag flags 4 then Z.lor pg_flags 0 else pg_flags in
    t ← get_task cur;
    map_pages_at (t_pml4_phys t) virt size pg_flags.

Definition sys_munmap (virt size : Z) : M Z :=
  cur ← gets current_task;
  if cur <? 0 then mret (-1)
  else
    old ← gets paging_root;
    t ← get_task cur;
    paging_switch (t_pml4_phys t) ;;
    for_pages (range_start virt) (range_end virt size) (λ v, unmap_page v ;; mret (@None unit)) ;;
    paging_switch old ;;
    mret 0.

Definition sys_mprotect (virt size flags : Z) : M Z :=
  cur ← gets current_task;
  if cur <? 0 then mret (-1)
  else
    old ← gets paging_root;
    t ← get_task cur;
    paging_switch (t_pml4_phys t) ;;
    let page_flags := Z.lor PAGE_PRESENT PAGE_USER in
    let page_flags := if has_flag flags 1 then Z.lor page_flags PAGE_WRITABLE else page_flags in
    for_pages (range_start virt) (range_end virt size) (λ v, map_page_flags v page_flags ;; mret (@None unit)) ;;
    paging_switch old ;;
    mret 0.

(** The result type is [int], so the old break is truncated. *)
Definition sys_brk (addr : Z) : M Z :=
  cur ← gets current_task;
  if cur <? 0 then mret (-1)
  else
    brk ← gets heap_brk;
    if addr =? 0 then mret (i32 brk)
    else
      old ← gets paging_root;
      t ← get_task cur;
      paging_switch (t_pml4_phys t) ;;
      r ← (if brk <? addr then
             for_pages brk addr (λ v,
               pg ← pmm_alloc_page;
               if pg =? 0 then paging_switch old ;; mret (Some (-1))
               else map_page v pg (Z.lor (Z.lor PAGE_PRESENT PAGE_WRITABLE) PAGE_USER) ;; mret None)
           else mret None);
      match r with
      | Some x => mret x
      | None =>
        paging_switch old ;;
        prev ← gets heap_brk;
        modify (set_heap_brk addr) ;;
        mret (i32 prev)
      end.

Definition sys_mmap_phys (virt phys size flags : Z) : M Z :=
  cur ← gets current_task;
  if cur <? 0 then mret (-1)
  else
    let pg_flags := Z.lor PAGE_PRESENT PAGE_USER in
    let pg_flags := if has_flag flags 2 then Z.lor pg_flags PAGE_WRITABLE else pg_flags in
    let pg_flags := if has_flag flags 4 then Z.lor pg_flags 0x10 else pg_flags in
    old ← gets paging_root;
    t ← get_task cur;
    paging_switch (t_pml4_phys t) ;;
    let vstart := range_start virt in
    let pstart := mask_4k phys in
    for_pages vstart (range_end virt size) (λ v,
      map_page v (u64 (pstart + (v - vstart))) pg_flags ;; mret (@None unit)) ;;
    paging_switch old ;;
    mret 0.

Definition free_user_range (pml4 start end_ : Z) : M unit :=
  old ← gets paging_root;
  paging_switch pml4 ;;
  for_pages start end_ (λ v,
    phys ← read_pte pml4 v;
    when (negb (phys =? 0)) (pmm_free_page (mask_4k phys)) ;;
    unmap_page v ;;
    mret (@None unit)) ;;
  paging_switch old.

End Vm.
