(* ===== verification/VmSpec.v ===== *)
(** * VmSpec: mapping a range of fresh pages

    The loop shared by [map_pages_at] and [sys_brk]: a page is taken from the
    allocator and mapped, for each page of a range. *)

From S2P Require Import Prelude State Machine Walk Serial Space Pmm Paging PagingOps Tasks Vm.

(** Page number [i] of the range from [v] on. *)
Definition nth_page (v : Z) (i : nat) : Z := v + 4096 * Z.of_nat i.

Lemma nth_page_S v i : nth_page v (S i) = nth_page (v + 4096) i.
Proof. unfold nth_page. lia. Qed.

Section VmSpec.
Context `{Platform} (W : Z → Prop) {Huart : UartLive}.

(** The body of the loop; [fail] is what the function does when no page is left. *)
Definition map_fresh (fail : M (option Z)) (flags v : Z) : M (option Z) :=
  page ← pmm_alloc_page;
  if page =? 0 then fail else map_page v page flags ;; mret None.

(** The addresses of the page at [v] translate to the frame [p], with the rights
    of [flags]. *)
Definition maps_to (s : kstate) (root v p flags : Z) : Prop :=
  ∀ va, region 0 va = region 0 v →
    walk (mem s) 3 root va = Some (Xlat (p + va mod 4096) (Z.testbit flags 2) (Z.testbit flags 1)).

(** [n] pages from [v] on can be mapped. *)
Record mappable (s : kstate) (fl : list Z) (v : Z) (n : nat) : Prop := {
  mb_range : 0 ≤ v ∧ v + 4096 * Z.of_nat n ≤ 2 ^ 47;
  mb_aligned : v mod 4096 = 0;
  mb_free : (4 * n ≤ length fl)%nat;
  mb_small : ∀ i, (i < n)%nat → small_path (mem s) (cr3 s) (nth_page v i);
  mb_open : ∀ i, (i < n)%nat → open_path (mem s) (cr3 s) (nth_page v i);
  mb_user : ∀ i, (i < n)%nat → ¬ W (nth_page v i);
  mb_frames : ∀ p, p ∈ fl → p mod 2 ^ 21 ≠ 0;
}.

(** The result: page [i] of the range is mapped to [ps !! i]. *)
Record range_mapped (s : kstate) (fl : list Z) (s' : kstate) (fl' : list Z) (v : Z) (n : nat) (flags : Z) (ps : list Z) : Prop := {
  rm_done : map_done W (4 * n) s fl s' fl';
  rm_length : length ps = n;
  rm_nodup : NoDup ps;
  rm_from : ∀ p, p ∈ ps → p ∈ fl ∧ p ∉ fl';
  rm_here : ∀ i p, ps !! i = Some p → maps_to s' (cr3 s) (nth_page v i) p flags;
  rm_else : ∀ va, (∀ i, (i < n)%nat → region 0 va ≠ region 0 (nth_page v i)) →
    walk (mem s') 3 (cr3 s) va = walk (mem s) 3 (cr3 s) va;
}.

(** One turn. *)
Lemma map_fresh_runs fail s fl flags v p :
  kwin W s → kfree W s (p :: fl) → mappable s (p :: fl) v 1 → 0 ≤ flags < 4096 → Z.testbit flags 0 = true →
  ∃ fl' s', map_fresh fail flags v s = Ok None s' ∧ map_done W 4 s (p :: fl) s' fl' ∧ p ∉ fl' ∧
    maps_to s' (cr3 s) v p flags ∧
    (∀ va, region 0 va ≠ region 0 v → walk (mem s') 3 (cr3 s) va = walk (mem s) 3 (cr3 s) va).
Proof.
  intros Hw Hf [Hr Ha Hlen Hsm Hop Hus Hfr] Hfl Hf0.
  assert (Hv0 : nth_page v 0 = v) by (unfold nth_page; lia).
  specialize (Hsm 0%nat ltac:(lia)). specialize (Hop 0%nat ltac:(lia)). specialize (Hus 0%nat ltac:(lia)).
  rewrite Hv0 in Hsm, Hop, Hus.
  destruct (keeps_alloc W s p fl Hw Hf) as (s1 & E1 & Hk1 & Hp0 & HWp & Hnin & _).
  assert (Hc1 : cr3 s1 = cr3 s) by (eapply edits_cr3, Hk1). destruct (kw_win _ _ Hw p HWp) as [Hpb Hpa].
  assert (Hm : runs (map_page v p flags) s1 (λ _ s', ∃ fl' u w,
    map_done W 3 s1 fl s' fl' ∧ mapped 0 s1 s' v p flags u w ∧
    (open_path (mem s1) (cr3 s1) v → u = true ∧ w = true) ∧
    (reach (mem s1) 1 3 (cr3 s1) v = None → u = false))).
  { apply map_page_runs; [exact Huart|by eapply kp_win|by eapply kp_free|simpl in Hlen; lia| |lia| |lia|done|done|done|].
    - rewrite Hc1. by apply (sl_small _ _ _ (kp_shape _ _ _ _ _ _ Hk1)).
    - by rewrite page_of_page.
    - right. apply Hfr. by left. }
  apply runs_Ok in Hm as ([] & s2 & E2 & fl2 & u & w & Hd & [Hh He] & Huw & _).
  destruct Huw as [-> ->]; [rewrite Hc1; by apply (sl_open _ _ _ (kp_shape _ _ _ _ _ _ Hk1))|].
  rewrite Hc1 in Hh, He. exists fl2, s2. split_and!.
  - unfold map_fresh. step_by ltac:(exact E1). replace (p =? 0) with false by lia. by step_by ltac:(exact E2).
  - apply (map_done_trans W 1 3 s (p :: fl) s1 fl); [by apply keeps_done|done].
  - destruct (md_taken _ _ _ _ _ _ Hd) as (qs & -> & _). set_solver.
  - intros va Hva. rewrite Hh by done. done.
  - intros va Hva. rewrite He by done. apply Hk1.
Qed.

Lemma region_0_inj v i j :
  0 ≤ v → v mod 4096 = 0 → nth_page v i < 2 ^ 47 → nth_page v j < 2 ^ 47 → region 0 (nth_page v i) = region 0 (nth_page v j) →
  i = j.
Proof.
  intros Hv Ha Hi Hj Hr. unfold nth_page in *.
  assert (Hp : page_of (v + 4096 * Z.of_nat i) = page_of (v + 4096 * Z.of_nat j)) by (apply region_0_page; lia || done).
  unfold page_of in Hp.
  replace (v + 4096 * Z.of_nat i) with (v + Z.of_nat i * 4096) in Hp by lia.
  replace (v + 4096 * Z.of_nat j) with (v + Z.of_nat j * 4096) in Hp by lia.
  rewrite !Z_mod_plus_full in Hp. lia.
Qed.

(** The loop [for (v; v < e; v += 4096)] takes [n] turns. *)
Definition turns_to (v e : Z) (n : nat) : Prop := v + 4096 * (Z.of_nat n - 1) < e ≤ v + 4096 * Z.of_nat n.

Lemma map_loop fail flags e n : ∀ fuel s fl v,
  kwin W s → kfree W s fl → mappable s fl v n → 0 ≤ flags < 4096 → Z.testbit flags 0 = true → (n ≤ fuel)%nat →
  turns_to v e n →
  ∃ ps fl' s', for_step fuel v e 4096 (map_fresh fail flags) s = Ok None s' ∧
    range_mapped s fl s' fl' v n flags ps.
Proof.
  unfold turns_to. induction n as [|n IH]; intros fuel s fl v Hw Hf Hm Hfl Hf0 Hfuel He.
  { exists [], fl, s. split.
    - assert (Hlt : (v <? e) = false) by (apply Z.ltb_ge; lia).
      destruct fuel; cbn [for_step]; by rewrite Hlt.
    - split; try done; [|apply NoDup_nil_2|set_solver].
      split; try done. by exists []. }
  destruct fuel as [|fuel]; [lia|]. pose proof Hm as [Hr Ha Hlen Hsm Hop Hus Hfr].
  destruct fl as [|p fl]; [simpl in Hlen; lia|].
  destruct (map_fresh_runs fail s fl flags v p) as (fl1 & s1 & E1 & Hd1 & Hnin & Hh1 & He1); [done|done| |done|done|].
  { split; try done; [lia|simpl in *; lia|..]; intros i Hi; [apply Hsm|apply Hop|apply Hus]; lia. }
  pose proof Hd1 as [Hw1 Hf1 Hed1 Hsh1 (qs & Eq & Hqs)]. assert (Hc1 : cr3 s1 = cr3 s) by by eapply edits_cr3.
  destruct (IH fuel s1 fl1 (v + 4096)) as (ps & fl2 & s2 & E2 & [Hd2 Hl2 Hn2 Hfr2 Hh2 He2]); try done; [|lia|lia|].
  { split.
    - lia.
    - by rewrite <- Zplus_mod_idemp_l, Ha.
    - rewrite Eq, length_app in Hlen. lia.
    - intros i Hi. rewrite <- nth_page_S, Hc1. apply (sl_small _ _ _ Hsh1), Hsm. lia.
    - intros i Hi. rewrite <- nth_page_S, Hc1. apply (sl_open _ _ _ Hsh1), Hop. lia.
    - intros i Hi. rewrite <- nth_page_S. apply Hus. lia.
    - intros q Hq. apply Hfr. rewrite Eq. set_solver. }
  rewrite Hc1 in Hh2, He2. assert (Hnd := kf_nodup _ _ _ Hf).
  assert (Hp1 : ∀ q, q ∈ fl1 → q ∈ p :: fl) by (intros q Hq; rewrite Eq; set_solver).
  destruct (md_taken _ _ _ _ _ _ Hd2) as (qs2 & Eq2 & _).
  exists (p :: ps), fl2, s2. split.
  - cbn [for_step]. rewrite (proj2 (Z.ltb_lt v e)) by lia. step_by ltac:(exact E1).
    by rewrite u64_small by lia.
  - split.
    + replace (4 * S n)%nat with (4 + 4 * n)%nat by lia. by eapply map_done_trans.
    + simpl. lia.
    + apply NoDup_cons. split; [|done]. intros Hin. by apply Hfr2 in Hin as [? _].
    + intros q [->|Hq]%elem_of_cons.
      * split; [by left|]. intros Hin. apply Hnin. rewrite Eq2. set_solver.
      * destruct (Hfr2 q Hq) as [Hq1 Hq2]. split; [by apply Hp1|done].
    + intros [|i] q Hq; simpl in Hq; [|rewrite nth_page_S; by apply Hh2].
      injection Hq as <-. replace (nth_page v 0) with v by (unfold nth_page; lia).
      intros va Hva. rewrite He2; [by apply Hh1|]. intros i Hi. rewrite <- nth_page_S, Hva.
      replace v with (nth_page v 0) at 1 by (unfold nth_page; lia). intros Heq.
      apply region_0_inj in Heq; [done|lia|done|unfold nth_page; lia|unfold nth_page; lia].
    + intros va Hva. rewrite He2 by (intros i Hi; rewrite <- nth_page_S; apply Hva; lia). apply He1.
      specialize (Hva 0%nat ltac:(lia)). by replace (nth_page v 0) with v in Hva by (unfold nth_page; lia).
Qed.

End VmSpec.
