(* ===== verification/VmProps.v ===== *)
(** * VmProps: properties of the memory system calls *)

From S2P Require Import Prelude State Machine Walk Serial Space Pmm Paging PagingOps CloneSpace BootMem Tasks Demo.
From S2P Require Import UserBuf Ipc Vm VmSpec.

Section VmProps.
Context {HP : Platform} (W : Z → Prop).

Lemma mask_4k_page x : mask_4k x = page_of x.
Proof. unfold mask_4k. change 0xFFF with (2 ^ 12 - 1). by rewrite land_lnot_ones. Qed.

(** The number of pages that [virt, virt + size) touches. *)
Definition pages_of (virt size : Z) : nat := Z.to_nat ((page_of (virt + size + 4095) - page_of virt) / 4096).

Lemma page_of_bounds x : 0 ≤ x → 0 ≤ page_of x ≤ x ∧ x < page_of x + 4096 ∧ page_of x mod 4096 = 0.
Proof.
  intros Hx. unfold page_of. pose proof (Z.mod_pos_bound x 4096). pose proof (Z.mod_le x 4096).
  split_and!; try lia. by rewrite Zminus_mod_idemp_r, Z.sub_diag.
Qed.

Lemma range_turns virt size :
  0 ≤ virt → 0 ≤ size → virt + size + 4095 < 2 ^ 64 →
  turns_to (range_start virt) (range_end virt size) (pages_of virt size) ∧
  (pages_of virt size ≤ step_fuel (range_start virt) (range_end virt size) 4096)%nat.
Proof.
  intros Hv Hs Hb. unfold range_start, range_end, pages_of, step_fuel, turns_to. rewrite u64_small, !mask_4k_page by lia.
  destruct (page_of_bounds virt Hv) as (H1 & H2 & H3). destruct (page_of_bounds (virt + size + 4095)) as (H4 & H5 & H6); [lia|].
  set (a := page_of virt) in *. set (b := page_of (virt + size + 4095)) in *.
  assert (Hab : a ≤ b).
  { destruct (Z.le_gt_cases a b); [done|]. pose proof (Z.div_mod a 4096). pose proof (Z.div_mod b 4096). lia. }
  assert (Hd : (b - a) mod 4096 = 0) by (rewrite Zminus_mod, H3, H6; done).
  pose proof (Z.div_mod (b - a) 4096). assert (0 ≤ (b - a) / 4096) by (apply Z.div_pos; lia). split; [|lia].
  rewrite Z2Nat.id by lia. lia.
Qed.

(** The page flags of a mapping: present, user, and writable on request. *)
Definition mmap_flags (flags : Z) : Z := if Z.testbit flags 1 then 7 else 5.

(** C11: [sys_mmap] maps the whole range.  When the caller's space is active, the
    range lies where user mappings may go and four free pages per page of the
    range remain, none of them 2 MiB aligned, it returns 0; page [i] of the range
    then translates to a frame of its own, taken off the free stack, accessible
    to user code and writable as asked; every other address translates as
    before, and at most four pages per page of the range were taken. *)
Theorem sys_mmap_maps {Huart : UartLive} s fl cur t virt size flags :
  kwin W s → kfree W s fl → current_task s = Z.of_nat cur → tasks s !! cur = Some t → t_pml4_phys t = cr3 s →
  0 ≤ virt → 0 ≤ size → virt + size + 4095 < 2 ^ 64 → mappable W s fl (page_of virt) (pages_of virt size) →
  ∃ ps fl' s', sys_mmap virt size flags s = Ok 0 s' ∧
    range_mapped W s fl s' fl' (page_of virt) (pages_of virt size) (mmap_flags flags) ps.
Proof.
  intros Hw Hf Hc Ht Hp Hv Hs Hb Hm. destruct (range_turns virt size Hv Hs Hb) as [Htu Hfu].
  set (fail := paging_switch (cr3 s) ;; mret (Some (-1))). unfold range_start in Htu, Hfu. rewrite mask_4k_page in Htu, Hfu.
  assert (Hfl : 0 ≤ mmap_flags flags < 4096 ∧ Z.testbit (mmap_flags flags) 0 = true).
  { unfold mmap_flags. by destruct (Z.testbit flags 1). }
  destruct (map_loop W fail (mmap_flags flags) (range_end virt size) (pages_of virt size)
    (step_fuel (page_of virt) (range_end virt size) 4096) s fl (page_of virt)) as (ps & fl' & s' & E & Hrm);
    [done|done|done|apply Hfl|apply Hfl|done|done|].
  exists ps, fl', s'. split; [|done]. unfold sys_mmap. step_by ltac:(reflexivity). rewrite Hc.
  replace (Z.of_nat cur <? 0) with false by lia. cbv zeta.
  step_by ltac:(apply (get_task_eq _ _ t); [lia|by rewrite Nat2Z.id]). rewrite Hp.
  assert (Hflags : (if has_flag flags 4 then Z.lor (if has_flag flags 2 then Z.lor (Z.lor PAGE_PRESENT PAGE_USER) PAGE_WRITABLE
      else Z.lor PAGE_PRESENT PAGE_USER) 0 else (if has_flag flags 2 then Z.lor (Z.lor PAGE_PRESENT PAGE_USER) PAGE_WRITABLE
      else Z.lor PAGE_PRESENT PAGE_USER)) = mmap_flags flags).
  { unfold mmap_flags, has_flag. change 2 with (2 ^ 1). rewrite (land_pow2_testbit flags 1), negb_involutive by lia.
    destruct (Z.testbit flags 1), (negb (Z.land flags 4 =? 0)); reflexivity. }
  rewrite Hflags. unfold map_pages_at. step_by ltac:(reflexivity). step_by ltac:(by eapply paging_switch_same).
  rewrite (kw_root _ _ Hw). unfold for_pages, range_start. rewrite mask_4k_page. fold fail.
  step_by ltac:(exact E). pose proof (rm_done _ _ _ _ _ _ _ _ _ Hrm) as [Hw' _ He _ _].
  rewrite <- (edits_cr3 _ _ _ He). by step_by ltac:(by eapply paging_switch_same).
Qed.

(** C25: [sys_brk] grows the heap.  For a page-aligned break below the new one,
    under the same conditions, it returns the old break and sets the new one;
    every page from the old break to the new one translates to a frame of its
    own, writable and accessible to user code, and no other address translates
    differently. *)
Theorem sys_brk_grows {Huart : UartLive} s fl cur t addr :
  kwin W s → kfree W s fl → current_task s = Z.of_nat cur → tasks s !! cur = Some t → t_pml4_phys t = cr3 s →
  let brk := heap_brk s in
  let n := Z.to_nat ((addr - brk + 4095) / 4096) in
  0 ≤ brk < 2 ^ 31 → brk < addr → mappable W s fl brk n →
  ∃ ps fl' s1, sys_brk addr s = Ok brk (set_heap_brk addr s1) ∧ range_mapped W s fl s1 fl' brk n 7 ps.
Proof.
  intros Hw Hf Hc Ht Hp brk n Hbrk Hgt Hm. set (fail := paging_switch (cr3 s) ;; mret (Some (-1))).
  assert (Hdm := Z.div_mod (addr - brk + 4095) 4096 ltac:(lia)). pose proof (Z.mod_pos_bound (addr - brk + 4095) 4096).
  assert (Hn : Z.of_nat n = (addr - brk + 4095) / 4096) by (apply Z2Nat.id, Z.div_pos; lia).
  destruct (map_loop W fail 7 addr n (step_fuel brk addr 4096) s fl brk) as (ps & fl' & s' & E & Hrm);
    [done|done|done|done|done| | |].
  { unfold step_fuel, n. replace (addr - brk + 4095) with (addr - brk - 1 + 1 * 4096) by lia. rewrite Z.div_add by lia.
    pose proof (Z.div_le_mono (addr - brk - 1) (addr - brk) 4096). lia. }
  { unfold turns_to. rewrite Hn. lia. }
  exists ps, fl', s'. split; [|done]. unfold sys_brk. step_by ltac:(reflexivity). rewrite Hc.
  replace (Z.of_nat cur <? 0) with false by lia. step_by ltac:(reflexivity). fold brk.
  replace (addr =? 0) with false by lia. step_by ltac:(reflexivity).
  step_by ltac:(apply (get_task_eq _ _ t); [lia|by rewrite Nat2Z.id]). rewrite Hp.
  step_by ltac:(by eapply paging_switch_same). replace (brk <? addr) with true by lia. rewrite (kw_root _ _ Hw).
  step_by ltac:(exact E). pose proof (rm_done _ _ _ _ _ _ _ _ _ Hrm) as [Hw' _ He _ _].
  rewrite <- (edits_cr3 _ _ _ He). step_by ltac:(by eapply paging_switch_same).
  assert (Hb : heap_brk s' = brk) by (destruct He as [-> _]; reflexivity).
  step_by ltac:(reflexivity). rewrite Hb. step_by ltac:(reflexivity). by rewrite i32_small by lia.
Qed.

End VmProps.

(** ** Instances *)

Lemma demo_run_mappable v n :
  0x200000 ≤ v → v + 4096 * Z.of_nat n ≤ 0x800000 → v mod 4096 = 0 → (n ≤ 2)%nat → mappable demo_W demo_run (demo_free 8) v n.
Proof.
  intros Hlo Hhi Ha Hn. assert (Ht := demo_run_tables).
  assert (Hin : ∀ i, (i < n)%nat → 0x200000 ≤ nth_page v i < 0x800000) by (intros i Hi; unfold nth_page; lia).
  split.
  - lia.
  - done.
  - change (length (demo_free 8)) with 8%nat. lia.
  - intros i Hi. by apply boot_small.
  - intros i Hi. apply boot_open; [done|]. apply region_2_low. specialize (Hin i Hi). lia.
  - intros i Hi Hw. apply (demo_not_W (nth_page v i)); [specialize (Hin i Hi); lia|].
    rewrite page_of_page; [done|]. unfold nth_page. replace (v + 4096 * Z.of_nat i) with (v + Z.of_nat i * 4096) by lia.
    by rewrite Z_mod_plus_full.
  - apply Forall_forall. by_decide.
Qed.

Lemma sys_mmap_maps_witness :
  ∃ ps fl' s', sys_mmap 0x402010 5000 2 demo_run = Ok 0 s' ∧
    range_mapped demo_W demo_run (demo_free 8) s' fl' 0x402000 2 7 ps.
Proof.
  refine (sys_mmap_maps demo_W demo_run (demo_free 8) 0 (demo_task 1 TASK_RUNNING 0xA00000) 0x402010 5000 2
    (proj1 demo_run_ok) (proj2 demo_run_ok) eq_refl eq_refl eq_refl _ _ _ _).
  - lia.
  - lia.
  - reflexivity.
  - apply demo_run_mappable; [by_decide|by_decide|reflexivity|by_decide].
Defined.

Lemma sys_brk_grows_witness :
  ∃ ps fl' s1, sys_brk 0x601800 demo_run = Ok 0x600000 (set_heap_brk 0x601800 s1) ∧
    range_mapped demo_W demo_run (demo_free 8) s1 fl' 0x600000 2 7 ps.
Proof.
  refine (sys_brk_grows demo_W demo_run (demo_free 8) 0 (demo_task 1 TASK_RUNNING 0xA00000) 0x601800
    (proj1 demo_run_ok) (proj2 demo_run_ok) eq_refl eq_refl eq_refl _ _ _).
  - split; [discriminate|reflexivity].
  - reflexivity.
  - apply demo_run_mappable; [by_decide|by_decide|reflexivity|by_decide].
Defined.
