(* ===== verification/MemProps.v ===== *)
(** * MemProps: what the page allocator and the paging code guarantee

    The properties of [pmm.c], [paging.c] and [read_pte], each followed by an
    instance on a concrete machine. *)

From S2P Require Import Prelude State Machine Walk Serial Space Pmm Paging PagingOps CloneSpace BootMem Tasks Vm Demo.

Section MemProps.
Context {HP : Platform} (W : Z → Prop).

(** C10: After [pmm_init] on a sound E820 map the free stack holds exactly the
    pages the map makes usable, the last one pushed on top; each of them lies in
    a type-1 entry, above 1 MiB and off the kernel image; no translation and no
    other memory changed. *)
Theorem pmm_init_free_pages {Huart : UartLive} s :
  kwin W s → free_stack s = 0 → W E820_BASE → e820_count (mem s) ≤ 170 →
  Forall e820_wf (e820_map (mem s)) → NoDup (all_usable (mem s)) →
  (∀ p, p ∈ all_usable (mem s) → W p ∧ fresh (mem s) (cr3 s) p) →
  runs pmm_init s (λ _ s',
    kwin W s' ∧ kfree W s' (rev (all_usable (mem s))) ∧
    (∀ va, walk (mem s') 3 (cr3 s) va = walk (mem s) 3 (cr3 s) va) ∧
    (∀ a, page_of a ∉ all_usable (mem s) → mget (mem s') a = mget (mem s) a) ∧
    (∀ p, p ∈ all_usable (mem s) → ∃ e, e ∈ e820_map (mem s) ∧ e_type e = 1 ∧
       e_base e ≤ p ∧ p + 4096 ≤ e_base e + e_len e ∧ 0x100000 ≤ p ∧ kernel_end ≤ p ∧ p mod 4096 = 0)).
Proof using.
  intros Hw Hfs HW Hc Hwf Hnd Hps. eapply runs_mono; [by apply (pmm_init_runs W)|].
  intros [] s' [(Hw' & Hc' & Hs & Hm) Hf]. split_and!; try done.
  - intros va. by apply same_xlat_walk.
  - intros p (e & Hp & He)%list_elem_of_bind. exists e. split; [done|].
    rewrite Forall_forall in Hwf. destruct (usable_pages_bounds e p (Hwf e He) Hp) as (?&?&?&?&?).
    unfold usable_pages in Hp. case_bool_decide as Hty; [|set_solver]. destruct Hty as [Hty _]. by split_and!.
Qed.

(** A page given back with [pmm_free_page] is the next one
    [pmm_alloc_page] hands out, filled with zeros; the rest of the stack, every
    translation and all other memory are as before. *)
Theorem free_alloc_roundtrip s fl p :
  kwin W s → kfree W s fl → W p → p ≠ 0 → p ∉ fl → fresh (mem s) (cr3 s) p →
  runs (pmm_free_page p ;; pmm_alloc_page) s (λ q s',
    q = p ∧ kwin W s' ∧ kfree W s' fl ∧ (∀ i, 0 ≤ i < 512 → mget (mem s') (p + 8 * i) = 0) ∧
    (∀ va, walk (mem s') 3 (cr3 s) va = walk (mem s) 3 (cr3 s) va) ∧
    (∀ a, page_of a ≠ p → mget (mem s') a = mget (mem s) a)).
Proof using.
  intros Hw Hf Hp Hp0 Hnin Hfr.
  destruct (pmm_free_page_runs W s fl p) as (s1 & E1 & Es1 & Hw1 & Hf1 & Hs1); try done.
  assert (Hc1 : cr3 s1 = cr3 s) by (by rewrite Es1).
  destruct (alloc_runs W s1 _ Hw1 Hf1) as (s2 & E2 & _ & _ & _ & _ & Hw2 & Hf2 & _ & Hs2 & Hz & Ho).
  eapply runs_step; [exact E1|]. unfold runs. rewrite E2. rewrite Hc1 in Hs2. split_and!; try done.
  - intros va. rewrite (same_xlat_walk _ _ _ va Hs2). by apply same_xlat_walk.
  - intros a Ha. rewrite Ho by done. rewrite Es1. simpl. apply mget_insert_ne. intros <-. apply Ha.
    apply page_of_page. by eapply kwin_aligned.
Qed.

(** C2: [map_page] of a 4 KiB page: it returns having taken at most three pages
    for tables; every address of the page of [virt] then translates to the frame
    [phys] plus its offset, writable and user-accessible as [flags] say where the
    upper levels allow it; every other address of the space translates as before,
    also where a 2 MiB page had to be split.  Below a missing directory the new
    upper tables lack the user bit, so there the page is not user-accessible. *)
Theorem map_page_translates {Huart : UartLive} s fl virt phys flags :
  kwin W s → kfree W s fl → (3 ≤ length fl)%nat → small_path (mem s) (cr3 s) virt →
  0 ≤ virt < 2 ^ 47 → ¬ W (page_of virt) →
  0 ≤ phys < 2 ^ 52 → phys mod 4096 = 0 → 0 ≤ flags < 4096 → Z.testbit flags 0 = true →
  (virt mod 2 ^ 21 ≠ 0 ∨ phys mod 2 ^ 21 ≠ 0) →
  runs (map_page virt phys flags) s (λ _ s', ∃ fl' u w,
    map_done W 3 s fl s' fl' ∧ mapped 0 s s' virt phys flags u w ∧
    (open_path (mem s) (cr3 s) virt → u = true ∧ w = true) ∧
    (reach (mem s) 1 3 (cr3 s) virt = None → u = false)).
Proof using. intros. by apply map_page_runs. Qed.

(** [map_page] of two 2 MiB-aligned addresses stores one directory entry:
    the whole 2 MiB region of [virt] translates to the 2 MiB from [phys] on, so
    511 frames besides the one asked for become accessible. *)
Theorem map_page_large_translates {Huart : UartLive} s fl virt phys flags :
  kwin W s → kfree W s fl → (2 ≤ length fl)%nat → small_path (mem s) (cr3 s) virt →
  (∀ p i, W p → 0 ≤ i < 4096 → region 1 (p + i) ≠ region 1 virt) →
  0 ≤ phys < 2 ^ 52 → 0 ≤ flags < 4096 → Z.testbit flags 0 = true →
  virt mod 2 ^ 21 = 0 → phys mod 2 ^ 21 = 0 →
  runs (map_page virt phys flags) s (λ _ s', ∃ fl' u w,
    map_done W 2 s fl s' fl' ∧ mapped 1 s s' virt phys flags u w ∧
    (open_path (mem s) (cr3 s) virt → u = true ∧ w = true)).
Proof using. intros. by apply map_page_large_runs. Qed.

(** C23: [unmap_page] of an address whose directory entry names a page table
    removes exactly the translation of its page; all invariants hold, and the
    free stack is unchanged: the frame is not given back. *)
Theorem unmap_page_unmaps s fl virt r1 :
  kwin W s → kfree W s fl → small_path (mem s) (cr3 s) virt →
  0 ≤ virt < 2 ^ 47 → ¬ W (page_of virt) →
  reach (mem s) 1 3 (cr3 s) virt = Some r1 →
  let pde := mget (mem s) (entry_addr 1 (rt_tbl r1) virt) in
  Z.testbit pde 0 = true → Z.testbit pde 7 = false →
  runs (unmap_page virt) s (λ _ s', map_done W 0 s fl s' fl ∧ unmapped 0 s s' virt).
Proof using. intros. by apply (unmap_page_small W s fl virt r1). Qed.

(** C24: [map_page_flags] on a 4 KiB page keeps the frame and sets the rights to
    [flags], under the rights of the levels above; an absent page stays absent
    and no other translation changes. *)
Theorem map_page_flags_protects s fl virt flags r1 :
  kwin W s → kfree W s fl → small_path (mem s) (cr3 s) virt →
  0 ≤ virt < 2 ^ 47 → ¬ W (page_of virt) → Z.testbit flags 0 = true →
  reach (mem s) 1 3 (cr3 s) virt = Some r1 →
  let pde := mget (mem s) (entry_addr 1 (rt_tbl r1) virt) in
  Z.testbit pde 0 = true → Z.testbit pde 7 = false →
  runs (map_page_flags virt flags) s (λ _ s', map_done W 0 s fl s' fl ∧
    (∀ va, region 0 va = region 0 virt → walk (mem s') 3 (cr3 s) va =
       (λ x, Xlat (x_pa x) (rt_user r1 && Z.testbit pde 2 && Z.testbit flags 2)
                           (rt_write r1 && Z.testbit pde 1 && Z.testbit flags 1))
         <$> walk (mem s) 3 (cr3 s) va) ∧
    (∀ va, region 0 va ≠ region 0 virt → walk (mem s') 3 (cr3 s) va = walk (mem s) 3 (cr3 s) va)).
Proof using. intros. by apply map_page_flags_small. Qed.

(** [map_page_flags] on a 2 MiB page clears the page-size bit with the
    other flags: the walk then takes the page's own contents for a page table. *)
Theorem map_page_flags_breaks_large s virt flags r1 :
  kwin W s → small_path (mem s) (cr3 s) virt → 0 ≤ flags < 128 → Z.testbit flags 0 = true →
  reach (mem s) 1 3 (cr3 s) virt = Some r1 →
  let pde := mget (mem s) (entry_addr 1 (rt_tbl r1) virt) in
  Z.testbit pde 0 = true → Z.testbit pde 7 = true →
  runs (map_page_flags virt flags) s (λ _ s',
    reach (mem s') 0 3 (cr3 s) virt =
      Some (Rtab (frame pde) (rt_user r1 && Z.testbit flags 2) (rt_write r1 && Z.testbit flags 1))).
Proof using. intros. by apply (map_page_flags_large W). Qed.

(** [unmap_page] does not test the directory entry: below an absent one it
    clears bit 0 of a word of physical page 0. *)
Theorem unmap_page_absent_writes_page_0 s virt r1 :
  kwin W s → small_path (mem s) (cr3 s) virt → W 0 →
  reach (mem s) 1 3 (cr3 s) virt = Some r1 →
  mget (mem s) (entry_addr 1 (rt_tbl r1) virt) = 0 →
  runs (unmap_page virt) s (λ _ s',
    let a := 8 * ((virt / 4096) mod 512) in
    s' = set_mem (<[a := u64 (Z.land (mget (mem s) a) (Z.lnot 1))]> (mem s)) s).
Proof using. intros. by apply (unmap_page_absent W s virt r1). Qed.

(** [read_pte] stops at the page directory: where a page table is in use its
    result is the page of that table, whatever frame [virt] is mapped to. *)
Theorem read_pte_returns_table s virt r1 :
  kwin W s → small_path (mem s) (cr3 s) virt → 0 ≤ virt →
  reach (mem s) 1 3 (cr3 s) virt = Some r1 →
  let pde := mget (mem s) (entry_addr 1 (rt_tbl r1) virt) in
  Z.testbit pde 0 = true → Z.testbit pde 7 = false →
  ∃ r0, reach (mem s) 0 3 (cr3 s) virt = Some r0 ∧
    read_pte (cr3 s) virt s = Ok (Z.lor (rt_tbl r0) (Z.land virt 0xFFF)) s.
Proof using.
  intros Hw Hsp Hv Hr1 pde E0 E7. eexists. split.
  - rewrite (reach_down W s 0 virt r1 Hw Hr1). fold pde. by rewrite E0, E7.
  - by apply (read_pte_table W s virt r1).
Qed.

(** C3: The space [paging_clone_kernel] builds is isolated: no address of it is
    accessible to user code; the first GiB translates as in the template and
    nothing else does.  Switching to it keeps the kernel's window and the
    allocator's invariant, so the kernel can run on it. *)
Theorem paging_clone_isolates s fl p4 p3 p2 :
  kwin W s → kfree W s (p4 :: p3 :: p2 :: fl) → template W (mem s) →
  template_kept (mem s) (p4 :: p3 :: p2 :: fl) →
  (∀ p i, W p → 0 ≤ i < 4096 → region 2 (p + i) = 0 ∧
     ∃ u w, walk (mem s) 3 kernel_pml4_template (p + i) = Some (Xlat (p + i) u w)) →
  runs (root ← paging_clone_kernel; paging_switch root ;; mret root) s (λ r s',
    r = p4 ∧ cr3 s' = p4 ∧ kwin W s' ∧ kfree W s' fl ∧
    (∀ va x, walk (mem s') 3 p4 va = Some x → x_user x = false ∧ region 2 va = 0) ∧
    (∀ va, region 2 va = 0 → x_pa <$> walk (mem s') 3 p4 va = x_pa <$> walk (mem s) 3 kernel_pml4_template va)).
Proof using.
  intros Hw Hf Ht Hk HW. apply runs_bind. eapply runs_mono; [by apply (paging_clone_runs W)|].
  intros r s1 (-> & [Hw1 Hf1 He1 _] & [Hwk Htree Htabs _ _]).
  unfold runs; simpl. set (s2 := set_cr3 p4 (set_paging_root p4 s1)).
  assert (HW4 : ∀ p, p ∈ [p4; p3; p2] → W p ∧ p ∉ fl).
  { pose proof Hf as [_ Hn Hwi _]. intros p Hp.
    split; [apply Hwi; set_solver|]. intros Hin. repeat (apply NoDup_cons in Hn as [? Hn]). set_solver. }
  assert (Hpg : is_page p4) by (eapply kw_win; [exact Hw|]; apply HW4; set_solver).
  split_and!; try done.
  - split; simpl; [done|done|apply Hw1|apply Hw1| |done|].
    + intros p i Hp Hi. destruct (HW p i Hp Hi) as (R2 & u & w & Hx).
      unfold phys_of, translate. simpl. rewrite (frame_page _ Hpg).
      assert (Hcan : canonical (p + i) = true).
      { assert (Hid := kw_ident _ _ Hw p i Hp Hi). unfold phys_of, translate in Hid. by destruct (canonical _). }
      rewrite Hcan, Hwk, R2. simpl. rewrite Hx. done.
    + intros k va ra Hr. by apply HW4, (Htabs k va).
  - destruct Hf1 as [Hl Hn Hwi _]. split; simpl; try done.
    intros p Hp j va ra Hr <-. apply Htabs in Hr. by destruct (HW4 (rt_tbl ra)).
  - intros va x Hx. rewrite Hwk in Hx. destruct (Z.eqb_spec (region 2 va) 0); [|done].
    destruct (walk (mem s) 3 kernel_pml4_template va) as [[]|]; [|done]. by simplify_eq/=.
  - intros va R2. rewrite Hwk, R2. simpl. by destruct (walk (mem s) 3 kernel_pml4_template va).
Qed.

End MemProps.

(** ** Instances on concrete machines *)

(** One E820 entry: 16 KiB of RAM at 0x800000. *)
Definition e820_demo : kstate :=
  demo_state (<[0x4000 := Z.shiftl 0x800000 32 + 1]> (<[0x4008 := Z.shiftl 0x4000 32]>
    (<[0x4010 := Z.shiftl 1 32]> boot_tables))) 0 [] (-1) 0.

Lemma pmm_init_free_pages_witness :
  rev (all_usable (mem e820_demo)) = [0x803000; 0x802000; 0x801000; 0x800000] ∧
  runs pmm_init e820_demo (λ _ s', kfree demo_W s' [0x803000; 0x802000; 0x801000; 0x800000]).
Proof.
  assert (Hu : all_usable (mem e820_demo) = [0x800000; 0x801000; 0x802000; 0x803000]) by (vm_compute; reflexivity).
  rewrite Hu. split; [reflexivity|].
  assert (Ht : has_boot_tables (mem e820_demo)) by (apply check_boot_tables_ok; vm_compute; reflexivity).
  eapply runs_mono; [apply (pmm_init_free_pages demo_W e820_demo)|].
  - exact (boot_kwin demo_W demo_W_page demo_W_image demo_W_tables e820_demo eq_refl eq_refl Ht).
  - reflexivity.
  - split; [done|]. left. unfold E820_BASE. lia.
  - vm_compute. discriminate.
  - assert (Hm : e820_map (mem e820_demo) = [E820 0x800000 0x4000 1]) by (vm_compute; reflexivity).
    rewrite Hm. apply Forall_singleton. split_and!; simpl; lia.
  - rewrite Hu. by_decide.
  - rewrite Hu. clear Hu. intros p Hp.
    assert (HF : Forall (λ p, p mod 4096 = 0 ∧ 0x800000 ≤ p < 2 ^ 30) [0x800000; 0x801000; 0x802000; 0x803000])
      by by_decide.
    rewrite Forall_forall in HF. destruct (demo_W_high p (HF p Hp)) as [Hw Hn].
    split; [exact Hw|]. exact (boot_fresh _ p Ht Hn).
  - intros [] s' (_ & Hf & _). rewrite Hu in Hf. exact Hf.
Defined.

Lemma free_alloc_roundtrip_witness :
  runs (pmm_free_page 0xA00000 ;; pmm_alloc_page) demo0 (λ q s', q = 0xA00000 ∧ kfree demo_W s' (demo_free 8)).
Proof.
  destruct demo0_ok as [Hw Hf].
  eapply runs_mono; [apply (free_alloc_roundtrip demo_W demo0 (demo_free 8) 0xA00000)|].
  - exact Hw.
  - exact Hf.
  - split; [done|lia].
  - lia.
  - by_decide.
  - apply boot_fresh; [apply demo0_tables|]. by_decide.
  - intros q s' (Hq & _ & Hf' & _). done.
Defined.

(** A user page at 0x401000. *)
Definition demo1 : kstate := run_state (map_page 0x401000 0x903000 7) demo0.

Lemma map_page_translates_witness :
  runs (map_page 0x401000 0x903000 7) demo0 (λ _ s', walk (mem s') 3 0x1000 0x401234 = Some (Xlat 0x903234 true true)).
Proof.
  destruct demo0_ok as [Hw Hf].
  eapply runs_mono; [apply (map_page_translates demo_W demo0 (demo_free 8) 0x401000 0x903000 7)|].
  - exact Hw.
  - exact Hf.
  - vm_compute. lia.
  - apply boot_small, demo0_tables.
  - lia.
  - apply demo_not_W. lia.
  - lia.
  - done.
  - lia.
  - done.
  - left. vm_compute. discriminate.
  - intros [] s' (fl' & u & w & _ & Hm & Ho & _).
    destruct Ho as [-> ->]; [apply boot_open; [apply demo0_tables|reflexivity]|].
    apply (mp_here _ _ _ _ _ _ _ _ Hm 0x401234). reflexivity.
Defined.

(** The state after it satisfies the invariants. *)
Lemma demo1_ok : ∃ fl, @kwin demo demo_W demo1 ∧ kfree demo_W demo1 fl ∧ ∀ va, small_path (mem demo1) (cr3 demo1) va.
Proof.
  destruct demo0_ok as [Hw Hf].
  assert (Hr := map_page_runs demo_W demo0 (demo_free 8) 0x401000 0x903000 7 Hw Hf).
  destruct (runs_run_state _ _ _ (Hr ltac:(vm_compute; lia) (boot_small _ demo0_tables _) ltac:(lia)
    (demo_not_W 0x401000 ltac:(lia)) ltac:(lia) eq_refl ltac:(lia) eq_refl ltac:(left; vm_compute; discriminate)))
    as ([] & fl' & u & w & [Hw' Hf' He Hsh _] & _).
  exists fl'. split_and!; [exact Hw'|exact Hf'|]. intros va.
  replace (cr3 demo1) with 0x1000 by (vm_compute; reflexivity). apply Hsh, boot_small, demo0_tables.
Qed.

Lemma map_page_large_translates_witness :
  runs (map_page 0x400000 0xA00000 7) demo0 (λ _ s', walk (mem s') 3 0x1000 0x5FFFFF = Some (Xlat 0xBFFFFF true true)).
Proof.
  destruct demo0_ok as [Hw Hf].
  eapply runs_mono; [apply (map_page_large_translates demo_W demo0 (demo_free 8) 0x400000 0xA00000 7)|].
  - exact Hw.
  - exact Hf.
  - vm_compute. lia.
  - apply boot_small, demo0_tables.
  - apply demo_W_region_1.
  - lia.
  - lia.
  - done.
  - done.
  - done.
  - intros [] s' (fl' & u & w & _ & Hm & Ho).
    destruct Ho as [-> ->]; [apply boot_open; [apply demo0_tables|reflexivity]|].
    apply (mp_here _ _ _ _ _ _ _ _ Hm 0x5FFFFF). reflexivity.
Defined.

Lemma unmap_page_unmaps_witness :
  walk (mem demo1) 3 0x1000 0x401234 = Some (Xlat 0x903234 true true) ∧
  runs (unmap_page 0x401000) demo1 (λ _ s', walk (mem s') 3 0x1000 0x401234 = None).
Proof.
  split; [vm_compute; reflexivity|]. destruct demo1_ok as (fl & Hw & Hf & Hsp).
  eapply runs_mono; [apply (unmap_page_unmaps demo_W demo1 fl 0x401000 (Rtab 0x3000 true true))|].
  - exact Hw.
  - exact Hf.
  - apply Hsp.
  - lia.
  - apply demo_not_W. lia.
  - vm_compute. reflexivity.
  - vm_compute. reflexivity.
  - vm_compute. reflexivity.
  - intros [] s' [_ Hu]. apply (um_here _ _ _ _ Hu 0x401234). reflexivity.
Defined.

Lemma map_page_flags_protects_witness :
  runs (map_page_flags 0x401000 5) demo1 (λ _ s', walk (mem s') 3 0x1000 0x401234 = Some (Xlat 0x903234 true false)).
Proof.
  destruct demo1_ok as (fl & Hw & Hf & Hsp).
  eapply runs_mono; [apply (map_page_flags_protects demo_W demo1 fl 0x401000 5 (Rtab 0x3000 true true))|].
  - exact Hw.
  - exact Hf.
  - apply Hsp.
  - lia.
  - apply demo_not_W. lia.
  - reflexivity.
  - vm_compute. reflexivity.
  - vm_compute. reflexivity.
  - vm_compute. reflexivity.
  - intros [] s' (_ & Hh & _). change 0x1000 with (cr3 demo1). rewrite Hh by reflexivity. vm_compute. reflexivity.
Defined.

Lemma map_page_flags_breaks_large_witness :
  runs (map_page_flags 0x400000 5) demo0 (λ _ s', reach (mem s') 0 3 0x1000 0x400000 = Some (Rtab 0x400000 true false)).
Proof.
  destruct demo0_ok as [Hw Hf].
  eapply runs_mono; [apply (map_page_flags_breaks_large demo_W demo0 0x400000 5 (Rtab 0x3000 true true))|].
  - exact Hw.
  - apply boot_small, demo0_tables.
  - lia.
  - reflexivity.
  - vm_compute. reflexivity.
  - vm_compute. reflexivity.
  - vm_compute. reflexivity.
  - intros [] s' Hr. etrans; [exact Hr|]. vm_compute. reflexivity.
Defined.

(** A page at 1 GiB: its directory is new, the other entries of it absent. *)
Definition demo2 : kstate := run_state (map_page 0x40001000 0x903000 7) demo0.

Lemma demo2_ok : @kwin demo demo_W demo2 ∧ ∀ va, small_path (mem demo2) (cr3 demo2) va.
Proof.
  destruct demo0_ok as [Hw Hf].
  assert (Hr := map_page_runs demo_W demo0 (demo_free 8) 0x40001000 0x903000 7 Hw Hf).
  assert (HnW : ¬ demo_W (page_of 0x40001000)) by (change (page_of 0x40001000) with 0x40001000; intros [_ ?]; lia).
  destruct (runs_run_state _ _ _ (Hr ltac:(vm_compute; lia) (boot_small _ demo0_tables _) ltac:(lia)
    HnW ltac:(lia) eq_refl ltac:(lia) eq_refl ltac:(left; vm_compute; discriminate)))
    as ([] & fl' & u & w & [Hw' Hf' He Hsh _] & _).
  split; [exact Hw'|]. intros va.
  replace (cr3 demo2) with 0x1000 by (vm_compute; reflexivity). apply Hsh, boot_small, demo0_tables.
Qed.

Lemma unmap_page_absent_writes_page_0_witness :
  runs (unmap_page 0x40205000) demo2 (λ _ s',
    s' = set_mem (<[0x28 := u64 (Z.land (mget (mem demo2) 0x28) (Z.lnot 1))]> (mem demo2)) demo2).
Proof.
  destruct demo2_ok as [Hw Hsp].
  refine (unmap_page_absent_writes_page_0 demo_W demo2 0x40205000 (default (Rtab 0 true true) (reach (mem demo2) 1 3 (cr3 demo2) 0x40205000)) Hw (Hsp _) _ _ _).
  - split; [done|lia].
  - vm_compute. reflexivity.
  - vm_compute. reflexivity.
Defined.

Lemma read_pte_returns_table_witness :
  walk (mem demo1) 3 0x1000 0x401234 = Some (Xlat 0x903234 true true) ∧
  ∃ r0, reach (mem demo1) 0 3 (cr3 demo1) 0x401234 = Some r0 ∧
    read_pte (cr3 demo1) 0x401234 demo1 = Ok (Z.lor (rt_tbl r0) 0x234) demo1.
Proof.
  split; [vm_compute; reflexivity|]. destruct demo1_ok as (fl & Hw & Hf & Hsp).
  refine (read_pte_returns_table demo_W demo1 0x401234 (Rtab 0x3000 true true) Hw (Hsp _) _ _ _ _).
  - lia.
  - vm_compute. reflexivity.
  - vm_compute. reflexivity.
  - vm_compute. reflexivity.
Defined.

Lemma paging_clone_isolates_witness :
  runs (root ← paging_clone_kernel; paging_switch root ;; mret root) demo0 (λ r s',
    r = 0x900000 ∧ ∀ va x, walk (mem s') 3 0x900000 va = Some x → x_user x = false).
Proof.
  destruct demo0_ok as [Hw Hf].
  eapply runs_mono; [apply (paging_clone_isolates demo_W demo0 (drop 3 (demo_free 8)) 0x900000 0x901000 0x902000)|].
  - exact Hw.
  - exact Hf.
  - apply boot_template; [apply demo_W_tables|apply demo0_tables].
  - split_and!; by_decide.
  - intros p i Hp Hi. assert (Hr : 0 ≤ p + i < 2 ^ 30).
    { destruct Hp as [Ha Hp]. pose proof (Z.div_mod p 4096). change (2 ^ 30) with (4096 * 262144) in *. lia. }
    split; [by apply region_2_low|]. exists false, true. apply boot_walk; [apply demo0_tables|done].
  - intros r s' (Hr & _ & _ & _ & Hu & _). split; [done|]. intros va x Hx. by apply (Hu va x).
Defined.
