(* ===== verification/FreeRange.v ===== *)
(** * FreeRange: what the early stop of [read_pte] does to the free stack

    [free_user_range], which [sys_exit] and [sys_kill] call, frees what [read_pte]
    returns.  Below a page table that is the page of the table itself, once for
    each page of the range: the free stack becomes a cycle. *)

From S2P Require Import Prelude State Machine Walk Serial Space Pmm Paging PagingOps CloneSpace BootMem Tasks Vm Demo MemProps.

Section FreeRange.
Context `{Platform} (W : Z → Prop).

(** ** A page table in use *)

(** The page table [pt] translates the 2 MiB around [v], which the kernel does not
    use itself. *)
Record table_of (s : kstate) (v pt : Z) : Prop := {
  to_win : kwin W s;
  to_small : ∀ va, small_path (mem s) (cr3 s) va;
  to_table : rt_tbl <$> reach (mem s) 0 3 (cr3 s) v = Some pt;
  to_far : ∀ p i, W p → 0 ≤ i < 4096 → region 1 (p + i) ≠ region 1 v;
}.

Lemma table_of_region s v v' pt : table_of s v pt → region 1 v' = region 1 v → table_of s v' pt.
Proof.
  intros [Hw Hs Ht Hf] Hr. split; [done|done| |].
  - rewrite <- Ht. f_equal. apply reach_region; [lia|done].
  - intros p i Hp Hi. rewrite Hr. by apply Hf.
Qed.

Lemma table_of_set_free s v pt x : table_of s v pt → table_of (set_free_stack x s) v pt.
Proof. intros [Hw Hs Ht Hf]. split; try done. by apply kwin_set_free_stack. Qed.

Lemma table_of_page s v pt : table_of s v pt → W pt.
Proof.
  intros [Hw _ Ht _]. apply fmap_Some in Ht as (r0 & Hr & ->). by eapply kw_tables.
Qed.

(** An address of the region whose entry is the [i]th. *)
Lemma region_entry v i pt : 0 ≤ i < 512 →
  ∃ v', region 1 v' = region 1 v ∧ entry_addr 0 pt v' = pt + 8 * i.
Proof.
  intros Hi. exists (v / 0x200000 * 0x200000 + i * 4096). unfold region, entry_addr.
  change (span 1) with 0x200000. change (span 0) with 4096. split.
  - f_equal. rewrite Z.div_add_l by lia. rewrite (Z.div_small (i * 4096)) by lia. lia.
  - do 2 f_equal. replace (v / 0x200000 * 0x200000) with (v / 0x200000 * 512 * 4096) by lia.
    rewrite <- Z.mul_add_distr_r, Z.div_mul by lia. rewrite Z.add_comm, Z_mod_plus_full. apply Z.mod_small. lia.
Qed.

(** Whatever is stored in the table, the table stays where it is. *)
Lemma table_of_store s v pt i x :
  table_of s v pt → 0 ≤ i < 512 → table_of (set_mem (<[pt + 8 * i := x]> (mem s)) s) v pt.
Proof.
  intros Hto Hi. destruct (region_entry v i pt Hi) as (v' & Hreg & Ha).
  destruct (table_of_region s v v' pt Hto Hreg) as [Hw Hs Ht Hf]. apply fmap_Some in Ht as (r0 & Hr & ->).
  assert (Htr := kw_tree _ _ Hw).
  destruct (kwin_leaf W s 0 v' r0 x) as (Hw' & _); [done|done|by left|lia| |].
  { intros p j Hp Hj Heq. apply (Hf p j Hp Hj). by apply region_eq_iff in Heq as [? _]; [|lia]. }
  rewrite Ha in Hw'. rewrite <- Ha. split; [by rewrite Ha| | |].
  - intros va. apply (store_shape _ _ 0 v' r0 x Htr Hr); [lia|done|apply Hs].
  - simpl. rewrite (store_entry_above _ _ Htr 0 v' r0 Hr x) by lia.
    rewrite <- (reach_region _ 0 3 _ v' v) by (lia || done). by rewrite Hr.
  - intros p j Hp Hj. rewrite <- Hreg. by apply Hf.
Qed.

(** ** One turn of the loop *)

Definition free_body (pml4 v : Z) : M (option unit) :=
  phys ← read_pte pml4 v;
  when (negb (phys =? 0)) (pmm_free_page (mask_4k phys)) ;;
  unmap_page v ;;
  mret (@None unit).

Lemma free_turn s v pt :
  table_of s v pt → pt ≠ 0 → v mod 4096 = 0 → 0 ≤ v → 0 ≤ free_stack s < 2 ^ 64 → Z.testbit (free_stack s) 0 = false →
  ∃ s', free_body (cr3 s) v s = Ok None s' ∧ table_of s' v pt ∧ cr3 s' = cr3 s ∧
    free_stack s' = pt ∧ mget (mem s') pt = free_stack s.
Proof.
  intros Hto Hnz Hv H0 Hfs Hbit. assert (Hpg := table_of_page s v pt Hto). pose proof Hto as [Hw Hs Ht _].
  destruct (kw_win _ _ Hw pt Hpg) as [Hpb Hpa]. apply fmap_Some in Ht as (r0 & Hr0 & Ept).
  destruct (reach_table W s v r0 Hw Hr0) as (r1 & Hr1 & E0 & E7 & Em).
  assert (Er : read_pte (cr3 s) v s = Ok pt s).
  { rewrite (read_pte_table W s v r1 Hw (Hs v) H0 Hr1 E0), Em, <- Ept. change 0xFFF with (2 ^ 12 - 1).
    rewrite land_ones_mod by lia. change (2 ^ 12) with 4096. rewrite Hv. by rewrite Z.lor_0_r. }
  assert (Emask : mask_4k pt = pt) by (rewrite mask_4k_frame by lia; by apply frame_page).
  set (s1 := set_free_stack pt (set_mem (<[pt := u64 (free_stack s)]> (mem s)) s)).
  assert (Ef : pmm_free_page pt s = Ok tt s1).
  { unfold pmm_free_page. step_by ltac:(reflexivity). pose proof (kwin_store W s pt 0 (free_stack s) Hw Hpg ltac:(lia)) as E.
    rewrite Z.mul_0_r, Z.add_0_r in E. by step_by ltac:(exact E). }
  assert (Hto1 : table_of s1 v pt).
  { apply table_of_set_free. pose proof (table_of_store s v pt 0 (u64 (free_stack s)) Hto ltac:(lia)) as E.
    by rewrite Z.mul_0_r, Z.add_0_r in E. }
  pose proof Hto1 as [Hw1 Hs1 Ht1 _]. apply fmap_Some in Ht1 as (r0' & Hr0' & Ept').
  assert (Eu := unmap_page_eq W s1 v r0' Hw1 (Hs1 v) Hr0'). cbv zeta in Eu. rewrite <- Ept' in Eu.
  unfold entry_addr in Eu. set (i := (v / span 0) mod 512) in Eu. assert (Hi : 0 ≤ i < 512) by apply index_range.
  eexists. split_and!.
  - unfold free_body. step_by ltac:(exact Er). replace (pt =? 0) with false by lia. cbn [negb when]. rewrite Emask.
    step_by ltac:(exact Ef). step_by ltac:(exact Eu). reflexivity.
  - by apply table_of_store.
  - done.
  - done.
  - cbn [mem set_mem]. assert (E1 : mget (mem s1) pt = free_stack s).
    { unfold s1. cbn [mem set_mem set_free_stack]. rewrite mget_insert_eq. by apply u64_small. }
    destruct (decide (i = 0)) as [->|Hne]; [|by rewrite mget_insert_ne by lia].
    rewrite Z.mul_0_r, Z.add_0_r, mget_insert_eq, E1.
    replace (Z.land (free_stack s) (Z.lnot 1)) with (free_stack s); [by apply u64_small|].
    apply Z.bits_inj'. intros j Hj. rewrite Z.land_spec, Z.lnot_spec by done. change 1 with (2 ^ 0).
    rewrite Z.pow2_bits_eqb by lia. destruct (Z.eqb_spec 0 j) as [<-|]; [by rewrite Hbit|by rewrite andb_true_r].
Qed.

(** ** The loop *)

Lemma page_even p : p mod 4096 = 0 → Z.testbit p 0 = false.
Proof. intros Hp. rewrite <- (Z.lor_0_r p), testbit_entry by (done || lia). done. Qed.

Lemma for_step_turn {A} fuel v e st (body : Z → M (option A)) s s1 :
  v < e → body v s = Ok None s1 → for_step (S fuel) v e st body s = for_step fuel (u64 (v + st)) e st body s1.
Proof. intros Hlt E. cbn [for_step]. replace (v <? e) with true by lia. by step_by ltac:(exact E). Qed.

(** The turns that find the table's page on top of the stack. *)
Lemma free_loop n : ∀ fuel s v v0 pt,
  (n ≤ fuel)%nat → table_of s v0 pt → pt ≠ 0 → v mod 4096 = 0 → 0 ≤ v → v + 4096 * Z.of_nat n < 2 ^ 64 →
  (∀ j, 0 ≤ j < Z.of_nat n → region 1 (v + 4096 * j) = region 1 v0) →
  free_stack s = pt → mget (mem s) pt = pt ∨ (1 ≤ n)%nat →
  ∃ s', for_step fuel v (v + 4096 * Z.of_nat n) 4096 (free_body (cr3 s)) s = Ok None s' ∧ table_of s' v0 pt ∧
    cr3 s' = cr3 s ∧ free_stack s' = pt ∧ mget (mem s') pt = pt.
Proof.
  induction n as [|n IH]; intros fuel s v v0 pt Hfu Hto Hnz Hv H0 Hend Hreg Hfs Hm.
  { exists s. rewrite Z.add_0_r. split_and!; [|done|done|done|by destruct Hm; [|lia]].
    destruct fuel; cbn [for_step]; by rewrite Z.ltb_irrefl. }
  destruct fuel as [|fuel]; [lia|].
  assert (Hpg := table_of_page s v0 pt Hto). destruct (kw_win _ _ (to_win _ _ _ Hto) pt Hpg) as [Hpb Hpa].
  assert (Hr0 := Hreg 0 ltac:(lia)). rewrite Z.mul_0_r, Z.add_0_r in Hr0.
  destruct (free_turn s v pt) as (s1 & E1 & Hto1 & Hc1 & Hf1 & Hm1); rewrite ?Hfs; try done;
    [by eapply table_of_region|lia|by apply page_even|]. rewrite Hfs in Hm1.
  rewrite (for_step_turn _ _ _ _ _ s s1) by (done || lia). rewrite (u64_small (v + 4096)), <- Hc1 by lia.
  destruct (IH fuel s1 (v + 4096) v0 pt) as (s' & E & Hto' & Hc' & Hs'); [lia|by eapply table_of_region|done| |lia|lia| |done|by left|].
  { by rewrite <- Zplus_mod_idemp_l, Hv. }
  { intros j Hj. rewrite <- (Hreg (j + 1)) by lia. f_equal. lia. }
  exists s'. split_and!; [|done|congruence|apply Hs'..]. rewrite <- E. f_equal. lia.
Qed.

(** The free stack of a sound state is a page or empty. *)
Lemma kfree_head s fl : kwin W s → kfree W s fl → 0 ≤ free_stack s < 2 ^ 64 ∧ Z.testbit (free_stack s) 0 = false.
Proof.
  intros Hw [Hl _ Hwi _]. destruct fl as [|p fl]; simpl in Hl; [by rewrite Hl|]. destruct Hl as (-> & _ & _).
  destruct (kw_win _ _ Hw p) as [Hb Ha]; [apply Hwi; left|]. split; [lia|by apply page_even].
Qed.

(** Two and more pages below one table. *)
Lemma free_range_cycle s fl v n pt :
  table_of s v pt → kfree W s fl → pt ≠ 0 → v mod 4096 = 0 → 0 ≤ v → v + 4096 * Z.of_nat n < 2 ^ 64 → (2 ≤ n)%nat →
  (∀ j, 0 ≤ j < Z.of_nat n → region 1 (v + 4096 * j) = region 1 v) →
  ∃ s', free_user_range (cr3 s) v (v + 4096 * Z.of_nat n) s = Ok tt s' ∧ table_of s' v pt ∧
    free_stack s' = pt ∧ mget (mem s') pt = pt.
Proof.
  intros Hto Hf Hnz Hv H0 Hend Hn Hreg. pose proof (to_win _ _ _ Hto) as Hw. destruct (kfree_head s fl Hw Hf) as [Hfs Hbit].
  destruct n as [|n]; [lia|]. destruct (free_turn s v pt) as (s1 & E1 & Hto1 & Hc1 & Hf1 & _); [done..|].
  set (e := v + 4096 * Z.of_nat (S n)) in *.
  destruct (free_loop n (S n) s1 (v + 4096) v pt) as (s' & E & Hto' & Hc' & Hfs' & Hm'); [lia|done|done| |lia|lia| |done|right; lia|].
  { by rewrite <- Zplus_mod_idemp_l, Hv. }
  { intros j Hj. rewrite <- (Hreg (j + 1)) by lia. f_equal. lia. }
  assert (Efu : step_fuel v e 4096 = S (S n)).
  { unfold step_fuel, e. replace (v + 4096 * Z.of_nat (S n) - v) with (Z.of_nat (S n) * 4096) by lia. rewrite Z.div_mul by lia. lia. }
  exists s'. split_and!; [|done..]. unfold free_user_range. step_by ltac:(reflexivity).
  step_by ltac:(by eapply paging_switch_same).
  step_by ltac:(unfold for_pages; rewrite Efu; etrans; [apply (for_step_turn _ _ _ _ _ s s1); [unfold e; lia|exact E1]|];
    rewrite (u64_small (v + 4096)) by lia; rewrite Hc1 in E; rewrite <- E; unfold e; f_equal; lia).
  rewrite (kw_root _ _ Hw), <- Hc1, <- Hc'. by eapply paging_switch_same, (to_win _ _ _ Hto').
Qed.

(** ** Allocations from the cycle *)

(** An allocation that finds the table's page on top: the page is cleared. *)
Lemma alloc_table s v pt :
  table_of s v pt → free_stack s = pt → pt ≠ 0 →
  ∃ s', pmm_alloc_page s = Ok pt s' ∧ table_of s' v pt ∧ free_stack s' = mget (mem s) pt ∧ mget (mem s') pt = 0.
Proof.
  intros Hto Hfs Hnz. set (x := mget (mem s) pt).
  set (I := λ j s', table_of s' v pt ∧ free_stack s' = x ∧ (0 < j → mget (mem s') pt = 0)).
  assert (Hl : runs (for_nat 512 0 (λ i, store64 (pt + 8 * i) 0)) (set_free_stack x s) (λ _ s', I (0 + Z.of_nat 512) s')).
  { apply runs_for_nat; [split_and!; [by apply table_of_set_free|done|lia]|]. intros j s1 Hj (H1 & H2 & H3).
    unfold runs. rewrite (kwin_store W s1 pt j 0 (to_win _ _ _ H1) (table_of_page _ _ _ H1)) by lia.
    split_and!; [apply table_of_store; [done|lia]|done|]. intros _. simpl. destruct (decide (j = 0)) as [->|Hne].
    - by rewrite Z.mul_0_r, Z.add_0_r, mget_insert_eq.
    - rewrite mget_insert_ne by lia. apply H3. lia. }
  apply runs_Ok in Hl as ([] & s' & E & H1 & H2 & H3). exists s'. split_and!; [|done|done|by apply H3].
  unfold pmm_alloc_page. step_by ltac:(reflexivity). rewrite Hfs. replace (pt =? 0) with false by lia.
  pose proof (kwin_load W s pt 0 (to_win _ _ _ Hto) (table_of_page _ _ _ Hto) ltac:(lia)) as El.
  rewrite Z.mul_0_r, Z.add_0_r in El. step_by ltac:(exact El). fold x. step_by ltac:(reflexivity).
  change (Z.to_nat (PAGE_SIZE / 8)) with 512%nat. by step_by ltac:(exact E).
Qed.

(** C40: What [free_user_range] frees are not the pages of the process.  For two or
    more pages below one page table, outside the kernel's own memory, it pushes
    the page of that table once for each of them: the free stack becomes a cycle of
    this one page, the pages that were free are lost, and the next two allocations
    both return the table's page. *)
Theorem free_user_range_double_free s fl v n r0 :
  kwin W s → kfree W s fl → (∀ va, small_path (mem s) (cr3 s) va) →
  (∀ p i, W p → 0 ≤ i < 4096 → region 1 (p + i) ≠ region 1 v) →
  reach (mem s) 0 3 (cr3 s) v = Some r0 → rt_tbl r0 ≠ 0 →
  v mod 4096 = 0 → 0 ≤ v → v + 4096 * Z.of_nat n < 2 ^ 64 → (2 ≤ n)%nat →
  (∀ j, 0 ≤ j < Z.of_nat n → region 1 (v + 4096 * j) = region 1 v) →
  ∃ s1 s2 s3, free_user_range (cr3 s) v (v + 4096 * Z.of_nat n) s = Ok tt s1 ∧
    free_stack s1 = rt_tbl r0 ∧ mget (mem s1) (rt_tbl r0) = rt_tbl r0 ∧
    pmm_alloc_page s1 = Ok (rt_tbl r0) s2 ∧ pmm_alloc_page s2 = Ok (rt_tbl r0) s3 ∧ free_stack s3 = 0.
Proof.
  intros Hw Hf Hs Hfar Hr Hnz Hv H0 Hend Hn Hreg.
  assert (Hto : table_of s v (rt_tbl r0)) by (split; [done|done|by rewrite Hr|done]).
  destruct (free_range_cycle s fl v n (rt_tbl r0)) as (s1 & E1 & Hto1 & Hf1 & Hm1); [done..|].
  destruct (alloc_table s1 v _ Hto1 Hf1 Hnz) as (s2 & E2 & Hto2 & Hf2 & Hm2). rewrite Hm1 in Hf2.
  destruct (alloc_table s2 v _ Hto2 Hf2 Hnz) as (s3 & E3 & _ & Hf3 & _). rewrite Hm2 in Hf3.
  exists s1, s2, s3. by split_and!.
Qed.

End FreeRange.

(** Two pages mapped below one page table, then freed as [sys_exit] does: the next
    two allocations return the page of the table. *)
Lemma free_user_range_double_free_witness :
  ∃ s1 s2 s3 p, walk (mem demo1) 3 0x1000 0x401000 = Some (Xlat 0x903000 true true) ∧
    free_user_range 0x1000 0x401000 0x403000 demo1 = Ok tt s1 ∧
    pmm_alloc_page s1 = Ok p s2 ∧ pmm_alloc_page s2 = Ok p s3 ∧ p ≠ 0x903000.
Proof.
  destruct demo1_ok as (fl & Hw & Hf & Hsp).
  set (r0 := default (Rtab 0 true true) (reach (mem demo1) 0 3 (cr3 demo1) 0x401000)).
  assert (Hr : reach (mem demo1) 0 3 (cr3 demo1) 0x401000 = Some r0) by (vm_compute; reflexivity).
  assert (Hp : rt_tbl r0 = 0x900000) by (vm_compute; reflexivity).
  destruct (free_user_range_double_free demo_W demo1 fl 0x401000 2 r0 Hw Hf Hsp) as (s1 & s2 & s3 & E1 & _ & _ & E2 & E3 & _).
  - intros p i Hp' Hi. exact (demo_W_region_1 p i Hp' Hi).
  - exact Hr.
  - rewrite Hp. discriminate.
  - reflexivity.
  - lia.
  - lia.
  - lia.
  - intros j Hj. assert (j = 0 ∨ j = 1) as [-> | ->] by lia; reflexivity.
  - exists s1, s2, s3, (rt_tbl r0). replace (cr3 demo1) with 0x1000 in E1 by (vm_compute; reflexivity).
    split; [vm_compute; reflexivity|]. split; [exact E1|]. split; [exact E2|]. split; [exact E3|]. rewrite Hp. discriminate.
Defined.
