(* ===== verification/Lifecycle.v ===== *)
(** * Lifecycle: creation, waiting and termination of tasks ([task.c])

    [task_init], [sys_exit], [sys_wait], [sys_wait_any], [sys_kill], [sys_clone]
    and [sys_futex]. *)

From S2P Require Import Prelude State Machine Walk Serial Space Pmm Paging Tasks Vm.

Section Lifecycle.
Context `{Platform}.

Definition task_init : M unit :=
  puts (chars "[kernel] Task system init" ++ crlf) ;;
  for_nat (Z.to_nat MAX_TASKS) 0 (λ i, upd_task i (t_set_state TASK_EXITED)).

(** The two [free_user_range] calls shared by [sys_exit] and [sys_kill]. *)
Definition free_task_pages (t : task_t) : M unit :=
  when (negb (t_pml4_phys t =? 0) && negb (t_code_pages t =? 0))
    (free_user_range (t_pml4_phys t) (t_load_addr t) (u64 (t_load_addr t + t_code_pages t * 4096)) ;;
     let stack_top := u64 (t_load_addr t + 0x100000) in
     free_user_range (t_pml4_phys t) (u64 (stack_top - 4 * 4096)) stack_top).

Definition sys_exit : M unit :=
  cur ← gets current_task;
  if cur <? 0 then mret tt
  else
    t ← get_task cur;
    when (0 <=? t_wait_idx t) (upd_task (t_wait_idx t) (t_set_state TASK_READY)) ;;
    t ← get_task cur;
    when (negb (t_stack_phys t =? 0))
      (pmm_free_page (t_stack_phys t) ;; upd_task cur (t_set_stack_phys 0)) ;;
    free_task_pages t ;;
    upd_task cur (t_set_state TASK_EXITED) ;;
    puts (chars "[kernel] Process #") ;;
    puthex (t_pid t) ;;
    puts (chars " exited" ++ crlf).

Definition sys_wait (pid : Z) : M Z :=
  o ← find_task (λ t, t_pid t =? pid);
  match o with
  | None => mret (-1)
  | Some i =>
    t ← get_task i;
    if is_exited t then mret 0
    else
      cur ← gets current_task;
      upd_task i (t_set_wait_idx cur) ;;
      upd_task cur (t_set_state TASK_BLOCKED) ;;
      mret 0
  end.

Definition sys_wait_any : M Z :=
  n ← gets num_tasks;
  cur ← gets current_task;
  o ← for_exit (Z.to_nat n) 0 (λ i,
    t ← get_task i;
    mret (if is_exited t && negb (i =? cur) then Some (i32 (t_pid t)) else None));
  match o with
  | Some pid => mret pid
  | None =>
    for_nat (Z.to_nat n) 0 (λ i,
      t ← get_task i;
      when (negb (is_exited t) && negb (i =? cur)) (upd_task i (t_set_wait_idx cur))) ;;
    upd_task cur (t_set_state TASK_BLOCKED) ;;
    mret 0
  end.

Definition sys_kill (pid : Z) : M Z :=
  o ← find_task (λ t, (t_pid t =? pid) && negb (is_exited t));
  match o with
  | None => mret (-1)
  | Some i =>
    upd_task i (t_set_state TASK_EXITED) ;;
    t ← get_task i;
    when (negb (t_stack_phys t =? 0)) (pmm_free_page (t_stack_phys t)) ;;
    free_task_pages t ;;
    mret 0
  end.

(** ** [sys_clone] *)

(** The frame pushed from [kstack + sizeof(registers_t)] down, lowest address
    first: fifteen registers (with [rdi] the argument of a clone), interrupt
    number, error code, and the words [iretq] pops. *)
Definition initial_frame (rdi rip rsp : Z) : list Z :=
  [0; 0; 0; 0; 0; 0; 0; 0; 0; rdi; 0; 0; 0; 0; 0; 0; 0; rip; 0x2B; 0x202; rsp; 0x23].

(** [*--sp = w] for the words of [ws], last first. *)
Fixpoint push_words (sp : Z) (ws : list Z) : M Z :=
  match ws with
  | [] => mret sp
  | w :: ws' => store64 (u64 (sp - 8)) w ;; push_words (u64 (sp - 8)) ws'
  end.

Definition push_frame (kstack rdi rip rsp : Z) : M Z :=
  push_words (u64 (kstack + sizeof_registers_t)) (rev (initial_frame rdi rip rsp)).

(** [tasks[i]] filled in for a new task; the old ring's slots stay. *)
Definition new_task (rsp pid stack pml4 load_addr code_pages : Z) (old : task_t) : task_t :=
  ipc_init_task (Task rsp pid TASK_READY stack 0 pml4 load_addr code_pages (-1)
    (t_ipc_queue old) (t_ipc_head old) (t_ipc_tail old) (t_ipc_count old)).

(** [next_pid++] on a [u32]. *)
Definition take_pid : M Z :=
  p ← gets next_pid;
  modify (set_next_pid (u32 (p + 1))) ;;
  mret p.

Definition sys_clone (flags user_stack entry arg : Z) : M Z :=
  cur ← gets current_task;
  if cur <? 0 then mret (-1)
  else
    n ← gets num_tasks;
    if MAX_TASKS <=? n then mret (-1)
    else
      kstack ← pmm_alloc_page;
      if kstack =? 0 then mret (-1)
      else
        sp ← push_frame kstack arg entry user_stack;
        pid ← take_pid;
        parent ← get_task cur;
        upd_task n (new_task sp pid kstack (t_pml4_phys parent) (t_load_addr parent) 0) ;;
        modify (set_num_tasks (n + 1)) ;;
        mret (i32 pid).

(** ** [sys_futex] *)

(** [futex_waiters[i] = futex_waiters[--num_futex_waiters]; i--;] and the rest of
    the wake loop; [fuel] bounds the number of entries examined. *)
Fixpoint futex_wake (fuel : nat) (uaddr i woken val : Z) : M Z :=
  n ← gets num_futex_waiters;
  if (i <? n) && (woken <? i32 val) then
    match fuel with
    | O => out_of_fuel
    | S fuel' =>
      ws ← gets futex_waiters;
      w ← arr_get ws i;
      if fst w =? uaddr then
        t ← get_task (snd w);
        woken' ← (if is_blocked t then upd_task (snd w) (t_set_state TASK_READY) ;; mret (woken + 1)
                  else mret woken);
        modify (set_num_futex_waiters (n - 1)) ;;
        last ← arr_get ws (n - 1);
        modify (set_futex_waiters (<[Z.to_nat i := last]> ws)) ;;
        futex_wake fuel' uaddr i woken' val
      else futex_wake fuel' uaddr (i + 1) woken val
    end
  else mret woken.

Definition sys_futex (uaddr op val : Z) : M Z :=
  cur ← gets current_task;
  if cur <? 0 then mret (-1)
  else if op =? 0 then
    v ← load32 uaddr;
    if negb (v =? val) then mret (-1)
    else
      n ← gets num_futex_waiters;
      if MAX_FUTEX_WAITERS <=? n then mret (-1)
      else
        ws ← gets futex_waiters;
        (if arr_in ws n then modify (set_futex_waiters (<[Z.to_nat n := (uaddr, cur)]> ws)) else undef) ;;
        modify (set_num_futex_waiters (n + 1)) ;;
        upd_task cur (t_set_state TASK_BLOCKED) ;;
        mret 0
  else if op =? 1 then
    n ← gets num_futex_waiters;
    futex_wake (Z.to_nat n) uaddr 0 0 val
  else mret (-1).

End Lifecycle.
