(* ===== verification/Irq.v ===== *)
(** * Irq: interrupt controller, timer and keyboard ([idt.c], [task.c])

    The part of [isr_handler] for vectors 32 to 47 that does not schedule,
    [sys_irq_register], [pic_remap], [pit_init], and the calls that read the tick
    counter: [sys_getticks], [sys_nanosleep].

    While the kernel waits in [hlt], the interrupts on [irq_tape] arrive one by
    one; they interrupt ring 0, so the handler returns to the wait. *)

From S2P Require Import Prelude State Machine Tasks.

Definition PIC1_COMMAND : Z := 0x20.
Definition PIC1_DATA : Z := 0x21.
Definition PIC2_COMMAND : Z := 0xA0.
Definition PIC2_DATA : Z := 0xA1.
Definition ICW1_ICW4 : Z := 0x11.
Definition ICW1_INIT : Z := 0x11.
Definition ICW4_8086 : Z := 0x01.
Definition PIC_EOI : Z := 0x20.

Section Irq.
Context `{Platform}.

Definition pic_remap : M unit :=
  outb PIC1_COMMAND (Z.lor ICW1_INIT ICW1_ICW4) ;;
  io_wait ;;
  outb PIC2_COMMAND (Z.lor ICW1_INIT ICW1_ICW4) ;;
  io_wait ;;
  outb PIC1_DATA 0x20 ;;
  io_wait ;;
  outb PIC2_DATA 0x28 ;;
  io_wait ;;
  outb PIC1_DATA 0x04 ;;
  io_wait ;;
  outb PIC2_DATA 0x02 ;;
  io_wait ;;
  outb PIC1_DATA ICW4_8086 ;;
  io_wait ;;
  outb PIC2_DATA ICW4_8086 ;;
  io_wait ;;
  outb PIC1_DATA 0xFC ;;
  outb PIC2_DATA 0xFF.

(** The divisor is a [u32]; division by 0 traps. *)
Definition pit_init (frequency : Z) : M unit :=
  if frequency =? 0 then undef
  else
    let divisor := 1193182 / frequency in
    outb 0x43 0x36 ;;
    outb 0x40 (Z.land divisor 0xFF) ;;
    outb 0x40 (Z.land (Z.shiftr divisor 8) 0xFF).

Definition sys_irq_register (irq : Z) : M Z :=
  if 16 <=? irq then mret (-1)
  else
    cur ← gets current_task;
    if cur <? 0 then mret (-1)
    else
      hs ← gets irq_handlers;
      (if arr_in hs irq then modify (set_irq_handlers (<[Z.to_nat irq := cur]> hs)) else undef) ;;
      mret 0.

(** End of interrupt to the controllers. *)
Definition irq_eoi (n : Z) : M unit :=
  when (40 <=? n) (outb PIC2_COMMAND PIC_EOI) ;;
  outb PIC1_COMMAND PIC_EOI.

Definition timer_tick : M unit := modify (λ s, set_ticks (u64 (ticks s + 1)) s).

(** The body for vector 33: the scancode becomes a message of the task that
    registered IRQ 1. *)
Definition keyboard_irq : M unit :=
  hs ← gets irq_handlers;
  idx ← arr_get hs 1;
  if (0 <=? idx) && (idx <? MAX_TASKS) then
    t ← get_task idx;
    if negb (is_exited t) then
      sc ← inb 0x60;
      if t_ipc_count t <? IPC_QUEUE_SIZE then
        upd_slot idx (t_ipc_head t) (m_set_head 0 0 1) ;;
        upd_slot idx (t_ipc_head t) (m_set_data 0 sc) ;;
        upd_task idx ring_push ;;
        upd_task idx wake
      else mret tt
    else mret tt
  else mret tt.

(** [isr_handler] for an IRQ that interrupts ring 0. *)
Definition kernel_irq (n : Z) : M unit :=
  irq_eoi n ;;
  when (n =? 32) timer_tick ;;
  when (n =? 33) keyboard_irq.

(** [sti; hlt]: the next interrupt, or none ever. *)
Definition hlt_once : M unit :=
  tape ← gets irq_tape;
  match tape with
  | [] => halt
  | n :: rest => modify (set_irq_tape rest) ;; kernel_irq n
  end.

Definition sys_getticks : M Z := gets ticks.

Fixpoint sleep_loop (fuel : nat) (start target : Z) : M unit :=
  now ← gets ticks;
  if u64 (now - start) <? target then
    match fuel with
    | O => out_of_fuel
    | S fuel' =>
      cur ← gets current_task;
      upd_task cur (t_set_state TASK_BLOCKED) ;;
      hlt_once ;;
      sleep_loop fuel' start target
    end
  else mret tt.

(** Each turn of the loop takes one interrupt off the tape. *)
Definition sys_nanosleep (ns : Z) : M Z :=
  start ← gets ticks;
  let target := ns / 2000000 in
  tape ← gets irq_tape;
  sleep_loop (S (length tape)) start target ;;
  cur ← gets current_task;
  upd_task cur (t_set_state TASK_RUNNING) ;;
  mret 0.

Definition sys_shutdown : M unit :=
  outw 0x604 0x2000 ;;
  halt.

End Irq.
