(* ===== verification/Elf.v ===== *)
(** * Elf: creating processes ([task.c], [include/elf.h])

    [create_elf], [task_create], [create_process] and [sys_spawn_at].  The
    structures are packed; their fields are read at their offsets, through the
    space that is active at that point. *)

From S2P Require Import Prelude State Machine Walk Serial Space Pmm Paging Tasks Vm Lifecycle.

Definition ELF_MAGIC : Z := 0x464C457F.
Definition PT_LOAD : Z := 1.
Definition sizeof_elf64_hdr_t : Z := 64.
Definition USER_CODE_ADDR : Z := 0x400000.

Section Elf.
Context `{Platform}.

(** Fields of [elf64_hdr_t] and [elf64_phdr_t]. *)
Definition e_entry (hdr : Z) : M Z := load64 (u64 (hdr + 24)).
Definition e_phoff (hdr : Z) : M Z := load64 (u64 (hdr + 32)).
Definition e_phentsize (hdr : Z) : M Z := load16 (u64 (hdr + 54)).
Definition e_phnum (hdr : Z) : M Z := load16 (u64 (hdr + 56)).
Definition p_type (ph : Z) : M Z := load32 ph.
Definition p_flags (ph : Z) : M Z := load32 (u64 (ph + 4)).
Definition p_offset (ph : Z) : M Z := load64 (u64 (ph + 8)).
Definition p_vaddr (ph : Z) : M Z := load64 (u64 (ph + 16)).
Definition p_filesz (ph : Z) : M Z := load64 (u64 (ph + 32)).
Definition p_memsz (ph : Z) : M Z := load64 (u64 (ph + 40)).

(** [buf + hdr->phoff + i * hdr->phentsize]; the product is an [int]. *)
Definition phdr_at (buf i : Z) : M Z :=
  off ← e_phoff buf;
  es ← e_phentsize buf;
  if 2 ^ 31 <=? i * es then undef else mret (u64 (buf + off + i * es)).

(** [for (u16 i = 0; i < hdr->phnum; i++)], [phnum] being read each time. *)
Fixpoint for_phdrs {A} (fuel : nat) (hdr i : Z) (acc : A) (body : Z → A → M (option A)) : M (option A) :=
  n ← e_phnum hdr;
  if i <? n then
    match fuel with
    | O => out_of_fuel
    | S fuel' =>
      ph ← phdr_at hdr i;
      r ← body ph acc;
      match r with
      | Some acc' => for_phdrs fuel' hdr (u16 (i + 1)) acc' body
      | None => mret None
      end
    end
  else mret (Some acc).

(** There are fewer than 2^16 program headers. *)
Definition phdr_fuel : nat := Z.to_nat 65536.

Definition free_pages (ps : list Z) : M unit :=
  (fix go ps := match ps with [] => mret tt | p :: ps' => pmm_free_page p ;; go ps' end) ps.

(** The pages the file is copied to; when one is missing the others are freed. *)
Fixpoint alloc_bufs (n : nat) (got : list Z) : M (option (list Z)) :=
  match n with
  | O => mret (Some got)
  | S n' =>
    p ← pmm_alloc_page;
    if p =? 0 then free_pages got ;; mret None
    else alloc_bufs n' (got ++ [p])
  end.

(** [for (u64 i = 0; i < size; i++) dst[i] = src[i];] *)
Definition copy_bytes (dst src size : Z) : M unit :=
  for_nat (Z.to_nat size) 0 (λ i, b ← load8 (u64 (src + i)); store8 (u64 (dst + i)) b).

(** The greatest end of a segment. *)
Definition scan_max (buf : Z) : M (option Z) :=
  for_phdrs phdr_fuel buf 0 0 (λ ph acc,
    ty ← p_type ph;
    if negb (ty =? PT_LOAD) then mret (Some acc)
    else
      v ← p_vaddr ph;
      sz ← p_memsz ph;
      let end_ := u64 (v + sz) in
      mret (Some (if acc <? end_ then end_ else acc))).

(** The look-up for [want_pid]: [None] when a live task has the pid, else the
    slot to reuse or -1. *)
Fixpoint scan_pid (n : nat) (i want reuse : Z) : M (option Z) :=
  match n with
  | O => mret (Some reuse)
  | S n' =>
    t ← get_task i;
    if t_pid t =? want then
      if negb (is_exited t) then mret None else scan_pid n' (i + 1) want i
    else scan_pid n' (i + 1) want reuse
  end.

(** [for (u64 j = 0; j < ph->filesz; j++) ((u8 * )ph->vaddr)[j] = src[j];] *)
Fixpoint copy_segment (fuel : nat) (ph src j : Z) : M unit :=
  sz ← p_filesz ph;
  if j <? sz then
    match fuel with
    | O => out_of_fuel
    | S fuel' =>
      v ← p_vaddr ph;
      b ← load8 (u64 (src + j));
      store8 (u64 (v + j)) b ;;
      copy_segment fuel' ph src (j + 1)
    end
  else mret tt.

(** One program header: its pages, then its contents; [None] when no page is
    left, after switching back to [old_root]. *)
Definition load_segment (buf old_root ph : Z) : M (option unit) :=
  ty ← p_type ph;
  if negb (ty =? PT_LOAD) then mret (Some tt)
  else
    v ← p_vaddr ph;
    msz ← p_memsz ph;
    let vstart := mask_4k v in
    let vend := mask_4k (u64 (v + msz + 4095)) in
    r ← for_pages vstart vend (λ v,
      page ← pmm_alloc_page;
      if page =? 0 then paging_switch old_root ;; mret (Some tt)
      else
        fl ← p_flags ph;
        let pg := Z.lor (Z.lor PAGE_PRESENT PAGE_USER) PAGE_WRITABLE in
        let pg := if negb (has_flag fl 2) then Z.land pg (Z.lnot PAGE_WRITABLE) else pg in
        map_page v page pg ;;
        mret None);
    match r with
    | Some _ => mret None
    | None =>
      off ← p_offset ph;
      fsz ← p_filesz ph;
      copy_segment (Z.to_nat fsz) ph (u64 (buf + off)) 0 ;;
      mret (Some tt)
    end.

(** Four pages of user stack below [top]; [false] when no page is left. *)
Definition map_stack (top : Z) : M bool :=
  o ← for_exit 4 0 (λ i,
    sp ← pmm_alloc_page;
    if sp =? 0 then mret (Some tt)
    else
      let v := u64 (top - (i + 1) * 4096) in
      map_page v sp (Z.lor (Z.lor PAGE_PRESENT PAGE_WRITABLE) PAGE_USER) ;;
      mret None);
  mret (match o with Some _ => false | None => true end).

(** The pid of a new task. *)
Definition pick_pid (want : Z) : M Z := if 0 <? want then mret want else take_pid.

(** The last part of [create_elf]: buffers freed, first frame, table entry. *)
Definition elf_finish (hdr : Z) (bufs : list Z) (kstack max_vaddr top reuse new_pml4 want_pid : Z) : M Z :=
  free_pages bufs ;;
  entry ← e_entry hdr;
  push_frame kstack 0 entry top ;;
  n ← gets num_tasks;
  let ti := if 0 <=? reuse then reuse else n in
  pid ← pick_pid want_pid;
  upd_task ti (new_task kstack pid kstack new_pml4 USER_CODE_ADDR
    (u64 (max_vaddr - 0x400000 + 4095) / 4096)) ;;
  when (reuse <? 0) (modify (set_num_tasks (n + 1))) ;;
  puts (chars "[kernel] ELF process #") ;;
  puthex pid ;;
  puts (chars " created" ++ crlf) ;;
  mret (i32 pid).

(** The middle part: the new space, its segments and its stack. *)
Definition elf_load (buf : Z) (bufs : list Z) (kstack max_vaddr reuse want_pid : Z) : M Z :=
  new_pml4 ← paging_clone_kernel;
  if new_pml4 =? 0 then pmm_free_page kstack ;; free_pages bufs ;; mret (-1)
  else
    old_root ← gets paging_root;
    paging_switch new_pml4 ;;
    r ← for_phdrs phdr_fuel buf 0 tt (λ ph _, load_segment buf old_root ph);
    match r with
    | None => mret (-1)
    | Some _ =>
      let top := u64 (max_vaddr + 0x20000) in
      ok ← map_stack top;
      if negb ok then paging_switch old_root ;; mret (-1)
      else
        paging_switch old_root ;;
        elf_finish buf bufs kstack max_vaddr top reuse new_pml4 want_pid
    end.

Definition create_elf (binary size want_pid : Z) : M Z :=
  if size <? sizeof_elf64_hdr_t then mret (-1)
  else if 65536 <? size then mret (-1)
  else
    let bin_pages := (size + 4095) / 4096 in
    o ← alloc_bufs (Z.to_nat bin_pages) [];
    match o with
    | None => mret (-1)
    | Some bufs =>
      buf ← arr_get bufs 0;
      copy_bytes buf binary size ;;
      magic ← load32 buf;
      if negb (magic =? ELF_MAGIC) then free_pages bufs ;; mret (-1)
      else
        m ← scan_max buf;
        match m with
        | None => undef
        | Some mx =>
          let max_vaddr := mask_4k (u64 (mx + 4095)) in
          n ← gets num_tasks;
          if MAX_TASKS <=? n then free_pages bufs ;; mret (-1)
          else
            kstack ← pmm_alloc_page;
            if kstack =? 0 then free_pages bufs ;; mret (-1)
            else
              r ← (if 0 <? want_pid then scan_pid (Z.to_nat n) 0 want_pid (-1) else mret (Some (-1)));
              match r with
              | None => pmm_free_page kstack ;; free_pages bufs ;; mret (-1)
              | Some reuse => elf_load buf bufs kstack max_vaddr reuse want_pid
              end
        end
    end.

(** The code pages of a flat binary; [false] when no page is left. *)
Definition map_code (load_addr code_pages : Z) : M bool :=
  o ← for_exit (Z.to_nat code_pages) 0 (λ i,
    cp ← pmm_alloc_page;
    if cp =? 0 then mret (Some tt)
    else
      let virt := u64 (load_addr + i * 4096) in
      map_page virt cp (Z.lor (Z.lor PAGE_PRESENT PAGE_WRITABLE) PAGE_USER) ;;
      mret None);
  mret (match o with Some _ => false | None => true end).

(** [task_create] for a binary that is not ELF. *)
Definition create_flat (binary size load_addr want_pid : Z) : M Z :=
  n ← gets num_tasks;
  if MAX_TASKS <=? n then mret (-1)
  else
    let code_pages := u64 (size + 4095) / 4096 in
    if 16 <? code_pages then
      puts (chars "[kernel] Process too large" ++ crlf) ;; mret (-1)
    else
      kstack ← pmm_alloc_page;
      if kstack =? 0 then
        puts (chars "[kernel] No memory for process" ++ crlf) ;; mret (-1)
      else
        clash ← (if 0 <? want_pid then find_task (λ t, (t_pid t =? want_pid) && negb (is_exited t))
                 else mret None);
        match clash with
        | Some _ => mret (-1)
        | None =>
          new_pml4 ← paging_clone_kernel;
          if new_pml4 =? 0 then mret (-1)
          else
            old_root ← gets paging_root;
            paging_switch new_pml4 ;;
            ok ← map_code load_addr code_pages;
            if negb ok then mret (-1)
            else
              ok ← map_stack (u64 (load_addr + 0x100000));
              if negb ok then mret (-1)
              else
                copy_bytes load_addr binary size ;;
                paging_switch old_root ;;
                let user_stack_top := u64 (load_addr + 0x100000) in
                push_frame kstack 0 load_addr user_stack_top ;;
                pid ← pick_pid want_pid;
                upd_task n (new_task kstack pid kstack new_pml4 load_addr code_pages) ;;
                modify (set_num_tasks (n + 1)) ;;
                puts (chars "[kernel] Process #") ;;
                puthex pid ;;
                puts (chars " created" ++ crlf) ;;
                mret (i32 pid)
        end.

(** [size >= 4 && *(u32 * )p == ELF_MAGIC] *)
Definition is_elf (p size : Z) : M bool :=
  if 4 <=? size then m ← load32 p; mret (m =? ELF_MAGIC) else mret false.

Definition task_create (binary size load_addr want_pid : Z) : M Z :=
  elf ← is_elf binary size;
  if elf : bool then create_elf binary size want_pid
  else create_flat binary size load_addr want_pid.

Definition create_process (binary size load_addr : Z) : M unit :=
  task_create binary size load_addr 0 ;; mret tt.

Definition sys_spawn_at (addr size : Z) : M Z :=
  if (addr =? 0) || (size =? 0) then mret (-1)
  else
    elf ← is_elf addr size;
    if elf : bool then create_elf addr size 0 else mret (-1).

End Elf.
