(* ===== verification/Syscall.v ===== *)
(** * Syscall: the dispatcher ([syscall.c], [include/syscall.h])

    Every call's result is converted to [u64]: the [int] results are sign
    extended, so -1 becomes [2 ^ 64 - 1]. *)

From S2P Require Import Prelude State Machine Walk Serial Space Pmm Paging Tasks Vm Lifecycle Irq Elf.

(** The numbers of [include/syscall.h]. *)
Inductive syscall_t :=
| SYSCALL_EXIT | SYSCALL_GETPID | SYSCALL_SEND | SYSCALL_RECV | SYSCALL_INB | SYSCALL_OUTB
| SYSCALL_WAIT | SYSCALL_WAIT_ANY | SYSCALL_GETSTATE | SYSCALL_IRQ_REGISTER
| SYSCALL_MMAP | SYSCALL_MUNMAP | SYSCALL_KILL | SYSCALL_NANOSLEEP | SYSCALL_GETTICKS
| SYSCALL_DEBUG_PUTC | SYSCALL_SHUTDOWN | SYSCALL_MPROTECT | SYSCALL_BRK | SYSCALL_IRQ_ACK
| SYSCALL_CLONE | SYSCALL_FUTEX | SYSCALL_MMAP_PHYS | SYSCALL_INW | SYSCALL_OUTW
| SYSCALL_SPAWN_AT | SYSCALL_YIELD.

Definition syscall_number (c : syscall_t) : Z :=
  match c with
  | SYSCALL_EXIT => 0 | SYSCALL_GETPID => 1 | SYSCALL_SEND => 2 | SYSCALL_RECV => 3
  | SYSCALL_INB => 4 | SYSCALL_OUTB => 5 | SYSCALL_WAIT => 7 | SYSCALL_WAIT_ANY => 8
  | SYSCALL_GETSTATE => 9 | SYSCALL_IRQ_REGISTER => 10 | SYSCALL_MMAP => 11 | SYSCALL_MUNMAP => 12
  | SYSCALL_KILL => 13 | SYSCALL_NANOSLEEP => 14 | SYSCALL_GETTICKS => 15 | SYSCALL_DEBUG_PUTC => 16
  | SYSCALL_SHUTDOWN => 17 | SYSCALL_MPROTECT => 18 | SYSCALL_BRK => 19 | SYSCALL_IRQ_ACK => 20
  | SYSCALL_CLONE => 21 | SYSCALL_FUTEX => 22 | SYSCALL_MMAP_PHYS => 23 | SYSCALL_INW => 24
  | SYSCALL_OUTW => 25 | SYSCALL_SPAWN_AT => 26 | SYSCALL_YIELD => 27
  end.

Definition all_syscalls : list syscall_t :=
  [SYSCALL_EXIT; SYSCALL_GETPID; SYSCALL_SEND; SYSCALL_RECV; SYSCALL_INB; SYSCALL_OUTB;
   SYSCALL_WAIT; SYSCALL_WAIT_ANY; SYSCALL_GETSTATE; SYSCALL_IRQ_REGISTER; SYSCALL_MMAP;
   SYSCALL_MUNMAP; SYSCALL_KILL; SYSCALL_NANOSLEEP; SYSCALL_GETTICKS; SYSCALL_DEBUG_PUTC;
   SYSCALL_SHUTDOWN; SYSCALL_MPROTECT; SYSCALL_BRK; SYSCALL_IRQ_ACK; SYSCALL_CLONE;
   SYSCALL_FUTEX; SYSCALL_MMAP_PHYS; SYSCALL_INW; SYSCALL_OUTW; SYSCALL_SPAWN_AT; SYSCALL_YIELD].

(** The [switch]: the case whose number is [n]. *)
Definition syscall_of (n : Z) : option syscall_t :=
  head (filter (λ c, syscall_number c = n) all_syscalls).

Section Syscall.
Context `{Platform}.

(** Conversion of an [int] result to [u64]. *)
Definition int_result (m : M Z) : M Z := r ← m; mret (u64 r).

Definition syscall_case (c : syscall_t) (arg1 arg2 arg3 arg4 : Z) : M Z :=
  match c with
  | SYSCALL_EXIT => sys_exit ;; mret 0
  | SYSCALL_GETPID => sys_getpid
  | SYSCALL_SEND => int_result (sys_send arg1 arg2 arg3 arg4)
  | SYSCALL_RECV => int_result (sys_recv arg1)
  | SYSCALL_INB => inb (u16 arg1)
  | SYSCALL_OUTB => outb (u16 arg1) (u8 arg2) ;; mret 0
  | SYSCALL_WAIT => int_result (sys_wait arg1)
  | SYSCALL_WAIT_ANY => int_result sys_wait_any
  | SYSCALL_GETSTATE => int_result (sys_getstate arg1)
  | SYSCALL_IRQ_REGISTER => int_result (sys_irq_register arg1)
  | SYSCALL_MMAP => int_result (sys_mmap arg1 arg2 arg3)
  | SYSCALL_MUNMAP => int_result (sys_munmap arg1 arg2)
  | SYSCALL_KILL => int_result (sys_kill arg1)
  | SYSCALL_NANOSLEEP => int_result (sys_nanosleep arg1)
  | SYSCALL_GETTICKS => sys_getticks
  | SYSCALL_DEBUG_PUTC => outb 0xE9 (u8 arg1) ;; mret 0
  | SYSCALL_SHUTDOWN => sys_shutdown ;; mret 0
  | SYSCALL_MPROTECT => int_result (sys_mprotect arg1 arg2 arg3)
  | SYSCALL_BRK => int_result (sys_brk arg1)
  | SYSCALL_IRQ_ACK => outb 0x20 0x20 ;; when (8 <=? arg1) (outb 0xA0 0x20) ;; mret 0
  | SYSCALL_CLONE => int_result (sys_clone arg1 arg2 arg3 arg4)
  | SYSCALL_FUTEX => int_result (sys_futex arg1 (i32 arg2) (u32 arg3))
  | SYSCALL_MMAP_PHYS => int_result (sys_mmap_phys arg1 arg2 arg3 arg4)
  | SYSCALL_INW => inw (u16 arg1)
  | SYSCALL_OUTW => outw (u16 arg1) (u16 arg2) ;; mret 0
  | SYSCALL_SPAWN_AT => int_result (sys_spawn_at arg1 arg2)
  | SYSCALL_YIELD => mret 0
  end.

Definition syscall_handler (n arg1 arg2 arg3 arg4 : Z) : M Z :=
  match syscall_of n with
  | Some c => syscall_case c arg1 arg2 arg3 arg4
  | None =>
    puts (chars "[kernel] Unknown syscall: ") ;;
    puthex n ;;
    puts crlf ;;
    mret 0
  end.

End Syscall.
