(* ===== verification/Sched.v ===== *)
(** * Sched: the scheduler and the interrupt entry point ([idt.c], [task.c])

    [schedule_next], [save_frame], [schedule], [isr_handler] and
    [scheduler_start].  The frame the stub pushed is a value; what
    [isr_handler] returns is either that frame or the address of a saved one. *)

From S2P Require Import Prelude State Machine Walk Serial Space Pmm Paging Tasks Vm Lifecycle Irq Elf Syscall.

(** The pointer [isr_handler] returns: the interrupted frame itself (with [rax]
    as the handler left it), or the frame stored at an address. *)
Inductive resume :=
| Return (r : registers_t)
| FrameAt (rsp : Z).

Definition r_set_rax (v : Z) (r : registers_t) : registers_t :=
  Regs (r_r15 r) (r_r14 r) (r_r13 r) (r_r12 r) (r_r11 r) (r_r10 r) (r_r9 r) (r_r8 r)
    (r_rbp r) (r_rdi r) (r_rsi r) (r_rdx r) (r_rcx r) (r_rbx r) v
    (r_int_no r) (r_err_code r) (r_rip r) (r_cs r) (r_rflags r) (r_rsp r) (r_ss r).

(** [r->cs & 3]: the interrupted code was not ring 0. *)
Definition from_user (r : registers_t) : bool := negb (Z.land (r_cs r) 3 =? 0).

Section Sched.
Context `{Platform}.

Definition schedule_next : M Z :=
  n ← gets num_tasks;
  cur ← gets current_task;
  if n <=? 1 then mret cur
  else
    o ← for_exit (Z.to_nat (n - 1)) 1 (λ i,
      let k := Z.rem (cur + i) n in
      t ← get_task k;
      if is_ready t then upd_task k (t_set_state TASK_RUNNING) ;; mret (Some k) else mret None);
    mret (default cur o).

Definition save_frame (r : registers_t) : M unit :=
  cur ← gets current_task;
  t ← get_task cur;
  let dst := t_stack_phys t in
  for_nat (Z.to_nat (sizeof_registers_t / 8)) 0 (λ i,
    w ← arr_get (regs_words r) i;
    store64 (u64 (dst + 8 * i)) w) ;;
  upd_task cur (t_set_rsp dst).

(** The end of [schedule] and of the system call path: run task [next]. *)
Definition switch_to (next : Z) : M resume :=
  upd_task next (t_set_state TASK_RUNNING) ;;
  modify (set_current_task next) ;;
  t ← get_task next;
  when (negb (t_pml4_phys t =? 0)) (paging_switch (t_pml4_phys t)) ;;
  cur ← gets current_task;
  t ← get_task cur;
  mret (FrameAt (t_rsp t)).

Definition schedule (r : registers_t) : M resume :=
  cur ← gets current_task;
  when (0 <=? cur) (save_frame r ;; upd_task cur (t_set_state TASK_READY)) ;;
  next ← schedule_next;
  switch_to next.

(** A page fault in user code: the task exits and the first ready one runs. *)
Definition user_fault (r : registers_t) (cr2 : Z) : M resume :=
  puts (crlf ++ chars "[PF] PID ") ;;
  pid ← current_pid;
  puthex pid ;;
  puts (chars " addr ") ;;
  puthex cr2 ;;
  puts (chars " RIP: ") ;;
  puthex (r_rip r) ;;
  puts crlf ;;
  sys_exit ;;
  o ← find_task is_ready;
  match o with
  | Some i => switch_to i
  | None => halt
  end.

(** The page-table dump of the panic message. *)
Definition dump_tables (cr2 : Z) : M unit :=
  puts (chars " CR2: ") ;; puthex cr2 ;;
  root ← gets cr3;
  puts (chars " CR3: ") ;; puthex root ;;
  puts (chars " PML4[") ;; puthex (pml4_index cr2) ;; puts (chars "]") ;;
  e3 ← load64 (root + 8 * pml4_index cr2);
  puthex e3 ;;
  when (e_present e3) (
    puts (chars " PDPT[") ;; puthex (pdpt_index cr2) ;; puts (chars "]") ;;
    e2 ← load64 (mask_4k e3 + 8 * pdpt_index cr2);
    puthex e2 ;;
    when (e_present e2) (
      puts (chars " PDT[") ;; puthex (pdt_index cr2) ;; puts (chars "]") ;;
      e1 ← load64 (mask_4k e2 + 8 * pdt_index cr2);
      puthex e1 ;;
      when (e_present e1 && negb (e_large e1)) (
        puts (chars " PT[") ;; puthex (pt_index cr2) ;; puts (chars "]") ;;
        e0 ← load64 (mask_4k e1 + 8 * pt_index cr2);
        puthex e0))).

Definition panic (r : registers_t) (cr2 : Z) : M resume :=
  puts (crlf ++ chars "[PANIC] Exception ") ;;
  puthex (r_int_no r) ;;
  puts (chars " err: ") ;;
  puthex (r_err_code r) ;;
  puts (chars " RIP: ") ;;
  puthex (r_rip r) ;;
  puts (chars " RSP: ") ;;
  puthex (r_rsp r) ;;
  puts (chars " RBP: ") ;;
  puthex (r_rbp r) ;;
  when (r_int_no r =? 14) (dump_tables cr2) ;;
  puts crlf ;;
  halt.

(** Vectors 32 to 47. *)
Definition irq_handler (r : registers_t) : M resume :=
  let n := r_int_no r in
  irq_eoi n ;;
  when (n =? 32) timer_tick ;;
  k ← gets num_tasks;
  if (n =? 32) && (1 <? k) && from_user r then schedule r
  else
    when (n =? 33) keyboard_irq ;;
    mret (Return r).

(** [int 0x80]. *)
Definition syscall_entry (r : registers_t) : M resume :=
  v ← syscall_handler (r_rax r) (r_rdi r) (r_rsi r) (r_rdx r) (r_rcx r);
  let r := r_set_rax v r in
  k ← gets num_tasks;
  if 1 <? k then
    save_frame r ;;
    cur ← gets current_task;
    t ← get_task cur;
    when (negb (is_blocked t) && negb (is_exited t)) (upd_task cur (t_set_state TASK_READY)) ;;
    next ← schedule_next;
    switch_to next
  else mret (Return r).

(** [cr2] is what the processor's register holds. *)
Definition isr_handler (r : registers_t) (cr2 : Z) : M resume :=
  let n := r_int_no r in
  if n <=? 31 then
    if (n =? 14) && from_user r then user_fault r cr2 else panic r cr2
  else if (32 <=? n) && (n <=? 47) then irq_handler r
  else if n =? 0x80 then syscall_entry r
  else mret (Return r).

(** [scheduler_start]: the first task's frame, or a return when there is none. *)
Definition scheduler_start : M (option resume) :=
  n ← gets num_tasks;
  if n =? 0 then mret None
  else
    modify (set_current_task 0) ;;
    upd_task 0 (t_set_state TASK_RUNNING) ;;
    puts (chars "[kernel] Scheduler started" ++ crlf) ;;
    t ← get_task 0;
    let pml4 := if t_pml4_phys t =? 0 then 0x1000 else t_pml4_phys t in
    modify (set_paging_root pml4) ;;
    modify (set_cr3 pml4) ;;
    mret (Some (FrameAt (t_rsp t))).

End Sched.
