(* ===== verification/Boot.v ===== *)
(** * Boot: descriptor tables and the kernel's entry ([idt.c], [gdt.c], [kernel.c]) *)

From S2P Require Import Prelude State Machine Walk Serial Space Pmm Paging Tasks Vm Lifecycle Irq Elf Syscall Sched.

Section Boot.
Context `{Platform}.

(** ** The interrupt descriptor table *)

Definition make_gate (addr flags : Z) : idt_entry_t :=
  Gate (Z.land addr 0xFFFF) 0x18 0 flags (Z.land (Z.shiftr addr 16) 0xFFFF)
    (Z.land (Z.shiftr addr 32) 0xFFFFFFFF) 0.

Definition idt_set_entry (n handler flags : Z) : M unit :=
  gates ← gets idt;
  if arr_in gates n then modify (set_idt (<[Z.to_nat n := make_gate handler flags]> gates)) else undef.

Definition idt_init : M unit :=
  for_nat 16 0 (λ i,
    hs ← gets irq_handlers;
    if arr_in hs i then modify (set_irq_handlers (<[Z.to_nat i := -1]> hs)) else undef) ;;
  for_nat 48 0 (λ i, idt_set_entry i 0 0x8E) ;;
  for_nat 48 0 (λ i, idt_set_entry i (isr_addr i) 0x8E) ;;
  idt_set_entry 0x80 (isr_addr 128) 0xEF ;;
  cpu_event (Lidt (16 * IDT_SIZE - 1) idt_addr).

(** ** The task state segment *)

Definition TSS_PHYS : Z := 0x8F00.
Definition sizeof_tss_t : Z := 104.

(** The low half of the TSS descriptor. *)
Definition tss_low (tss_addr : Z) : Z :=
  Z.lor (Z.lor (Z.lor (Z.lor 0x67
    (Z.shiftl (Z.land tss_addr 0xFFFF) 16))
    (Z.shiftl (Z.land (Z.shiftr tss_addr 16) 0xFF) 32))
    (Z.shiftl 0x89 40))
    (Z.shiftl (Z.land (Z.shiftr tss_addr 24) 0xFF) 56).

Definition gdt_setup_tss : M unit :=
  stack ← pmm_alloc_page;
  if stack =? 0 then puts (chars "[kernel] ERROR: TSS stack alloc failed" ++ crlf)
  else
    for_nat (Z.to_nat (sizeof_tss_t / 4)) 0 (λ i, store32 (TSS_PHYS + 4 * i) 0) ;;
    store64 (TSS_PHYS + 4) (stack + 4096) ;;
    store16 (TSS_PHYS + 102) sizeof_tss_t ;;
    let desc := u64 (gdt_base + 0x30) in
    store64 desc (tss_low TSS_PHYS) ;;
    store64 (u64 (desc + 8)) (Z.shiftl (Z.shiftr TSS_PHYS 32) 32) ;;
    cpu_event (Lgdt gdt_base) ;;
    cpu_event (Ltr 0x30) ;;
    puts (chars "[kernel] TSS set up" ++ crlf).

(** ** [kmain] *)

Definition kmain : M resume :=
  puts (chars "[kernel] x86-64 long mode" ++ crlf) ;;
  idt_init ;;
  puts (chars "[kernel] IDT loaded" ++ crlf) ;;
  outb PIC1_DATA 0xFF ;;
  outb PIC2_DATA 0xFF ;;
  pic_remap ;;
  puts (chars "[kernel] PIC remapped" ++ crlf) ;;
  pit_init 500 ;;
  puts (chars "[kernel] PIT 500 Hz" ++ crlf) ;;
  outb PIC1_DATA 0xFC ;;
  puts (chars "[kernel] Interrupts enabled" ++ crlf) ;;
  pmm_init ;;
  paging_init ;;
  task_init ;;
  gdt_setup_tss ;;
  let init_size := u64 (init_elf_end - init_elf_start) in
  task_create init_elf_start init_size 0x400000 1 ;;
  puts (chars "[kernel] Starting scheduler..." ++ crlf) ;;
  o ← scheduler_start;
  match o with
  | Some r => mret r
  | None => halt
  end.

(** The state the boot loader enters [kmain] in, with memory [m]: CR3 points at
    its tables, and the C objects have their initial values. *)
Definition boot_state (m : gmap Z Z) (tape : list Z) : kstate :=
  KState m 0x1000 [] tape 0 0x1000 (replicate 64 task_zero) (-1) 0 8 HEAP_START
    (replicate 128 (0, 0)) 0 0 (replicate 16 0) (replicate 256 gate_zero).

End Boot.
