(* ===== verification/Quiet.v ===== *)
(** * Quiet: code that leaves the task objects alone

    [objs s] are the C objects of the task layer.  A computation is [quiet] when
    no run of it that returns changes them: console output, the page allocator,
    the paging code and the memory system calls.  The rules are a small program
    logic, applied by the tactic [quiet_auto]. *)

From S2P Require Import Prelude State Machine Walk Serial Space Pmm Paging Tasks Vm Lifecycle Irq Elf.

Definition objs (s : kstate) :=
  (tasks s, current_task s, num_tasks s, next_pid s, futex_waiters s, num_futex_waiters s, irq_handlers s).

Definition quiet {A} (m : M A) : Prop := ∀ s a s', m s = Ok a s' → objs s' = objs s.

(** ** Rules *)

Lemma quiet_ret {A} (a : A) : quiet (mret a).
Proof. by intros s b s' [= <- <-]. Qed.

Lemma quiet_bind {A B} (m : M A) (f : A → M B) : quiet m → (∀ a, quiet (f a)) → quiet (m ≫= f).
Proof.
  intros Hm Hf s b s'. unfold mbind, M_bind. destruct (m s) as [a s1| | | |] eqn:E; try done.
  intros E2. etrans; [by eapply Hf|by eapply Hm].
Qed.

Lemma quiet_gets {A} (f : kstate → A) : quiet (gets f).
Proof. by intros s a s' [= <- <-]. Qed.

Lemma quiet_modify f : (∀ s, objs (f s) = objs s) → quiet (modify f).
Proof. intros Hf s a s' [= <- <-]. apply Hf. Qed.

Lemma quiet_undef {A} : quiet (@undef A).
Proof. done. Qed.

Lemma quiet_fuel {A} : quiet (@out_of_fuel A).
Proof. done. Qed.

Lemma quiet_halt {A} : quiet (@halt A).
Proof. done. Qed.

Lemma quiet_when b m : quiet m → quiet (when b m).
Proof. destruct b; [done|]. intros _. apply quiet_ret. Qed.

Lemma quiet_for_nat n i body : (∀ j, quiet (body j)) → quiet (for_nat n i body).
Proof. intros Hb. revert i. induction n as [|n IH]; intros i; [apply quiet_ret|]. by apply quiet_bind. Qed.

Lemma quiet_for_exit {A} n i (body : Z → M (option A)) : (∀ j, quiet (body j)) → quiet (for_exit n i body).
Proof.
  intros Hb. revert i. induction n as [|n IH]; intros i; [apply quiet_ret|].
  apply quiet_bind; [done|]. intros [a|]; [apply quiet_ret|done].
Qed.

Lemma quiet_for_step {A} n v e st (body : Z → M (option A)) : (∀ j, quiet (body j)) → quiet (for_step n v e st body).
Proof.
  intros Hb. revert v. induction n as [|n IH]; intros v; cbn [for_step]; destruct (v <? e);
    try apply quiet_ret; [apply quiet_fuel|].
  apply quiet_bind; [done|]. intros [a|]; [apply quiet_ret|done].
Qed.

Lemma quiet_arr_get {A} (l : list A) i : quiet (arr_get l i).
Proof. unfold arr_get. case_match; [|apply quiet_undef]. case_match; [apply quiet_ret|apply quiet_undef]. Qed.

Lemma quiet_get_task i : quiet (get_task i).
Proof. intros s a s' E. by apply quiet_arr_get in E. Qed.

Create HintDb quiet.
#[export] Hint Resolve quiet_ret quiet_gets quiet_undef quiet_fuel quiet_halt quiet_arr_get quiet_get_task : quiet.

(** One rule at a time, splitting on the code's own conditions. *)
Ltac quiet_step :=
  lazymatch goal with
  | |- quiet (mbind _ _) => apply quiet_bind; [|intros]
  | |- quiet (modify _) => apply quiet_modify; intros; reflexivity
  | |- quiet (when _ _) => apply quiet_when
  | |- quiet (for_nat _ _ _) => apply quiet_for_nat; intros
  | |- quiet (for_exit _ _ _) => apply quiet_for_exit; intros
  | |- quiet (for_step _ _ _ _ _) => apply quiet_for_step; intros
  | |- quiet (match ?x with _ => _ end) => destruct x
  | |- ∀ _, _ => intros
  | |- _ => solve [auto with quiet]
  end.
Ltac quiet_auto := repeat quiet_step.

Section Quiet.
Context `{Platform}.

Lemma quiet_load8 a : quiet (load8 a).
Proof. intros s b s'. unfold load8. destruct (phys_of s a); [|done]. by intros [= _ <-]. Qed.

Lemma quiet_store8 a v : quiet (store8 a v).
Proof.
  intros s b s'. unfold store8. destruct (phys_of s a); [|done]. destruct (in_image _); [done|]. by intros [= _ <-].
Qed.
#[local] Hint Resolve quiet_load8 quiet_store8 : quiet.

Lemma quiet_load_bytes n a : quiet (load_bytes n a).
Proof. revert a. induction n as [|n IH]; intros a; cbn [load_bytes]; quiet_auto. Qed.

Lemma quiet_store_bytes a bs : quiet (store_bytes a bs).
Proof. revert a. induction bs as [|b bs IH]; intros a; cbn [store_bytes]; quiet_auto. Qed.
#[local] Hint Resolve quiet_load_bytes quiet_store_bytes : quiet.

Lemma quiet_load_le n a : quiet (load_le n a).
Proof. unfold load_le. quiet_auto. Qed.

Lemma quiet_load32 a : quiet (load32 a).
Proof. apply quiet_load_le. Qed.

Lemma quiet_load64 a : quiet (load64 a).
Proof.
  unfold load64. destruct (_ =? _); [|apply quiet_load_le].
  intros s b s'. destruct (phys_of s a); [|done]. by intros [= _ <-].
Qed.

Lemma quiet_store64 a v : quiet (store64 a v).
Proof.
  unfold store64. destruct (_ =? _); [|apply quiet_store_bytes].
  intros s b s'. destruct (phys_of s a); [|done]. destruct (in_image _); [done|]. by intros [= _ <-].
Qed.

Lemma quiet_inb p : quiet (inb p).
Proof. by intros s b s' [= _ <-]. Qed.

Lemma quiet_outb p v : quiet (outb p v).
Proof. by intros s b s' [= _ <-]. Qed.

Lemma quiet_inw p : quiet (inw p).
Proof. by intros s b s' [= _ <-]. Qed.

Lemma quiet_outw p v : quiet (outw p v).
Proof. by intros s b s' [= _ <-]. Qed.
#[local] Hint Resolve quiet_load_le quiet_load64 quiet_store64 quiet_inb quiet_outb quiet_inw quiet_outw : quiet.

Lemma quiet_wait_tx n : quiet (wait_tx n).
Proof. induction n as [|n IH]; cbn [wait_tx]; [apply quiet_fuel|]. quiet_auto. Qed.
#[local] Hint Resolve quiet_wait_tx : quiet.

Lemma quiet_putc c : quiet (putc c).
Proof. unfold putc. quiet_auto. Qed.
#[local] Hint Resolve quiet_putc : quiet.

Lemma quiet_puts str : quiet (puts str).
Proof. induction str as [|c str IH]; cbn [puts]; quiet_auto. Qed.
#[local] Hint Resolve quiet_puts : quiet.

Lemma quiet_puthex v : quiet (puthex v).
Proof. unfold puthex. auto with quiet. Qed.
#[local] Hint Resolve quiet_puthex : quiet.

Lemma quiet_alloc : quiet pmm_alloc_page.
Proof. unfold pmm_alloc_page. quiet_auto. Qed.

Lemma quiet_free a : quiet (pmm_free_page a).
Proof. unfold pmm_free_page. quiet_auto. Qed.

Lemma quiet_switch r : quiet (paging_switch r).
Proof. unfold paging_switch. quiet_auto. Qed.
#[local] Hint Resolve quiet_alloc quiet_free quiet_switch : quiet.

Lemma quiet_clone_space : quiet paging_clone_kernel.
Proof. unfold paging_clone_kernel. quiet_auto. Qed.

Lemma quiet_ensure_table a : quiet (ensure_table a).
Proof. unfold ensure_table. quiet_auto. Qed.

Lemma quiet_ensure_pt v p a e : quiet (ensure_pt v p a e).
Proof. unfold ensure_pt, split_banner, split_report. quiet_auto. Qed.
#[local] Hint Resolve quiet_clone_space quiet_ensure_table quiet_ensure_pt : quiet.

Lemma quiet_map_page v p f : quiet (map_page v p f).
Proof. unfold map_page. quiet_auto. Qed.

Lemma quiet_map_page_flags v f : quiet (map_page_flags v f).
Proof. unfold map_page_flags. quiet_auto. Qed.

Lemma quiet_unmap_page v : quiet (unmap_page v).
Proof. unfold unmap_page. quiet_auto. Qed.

Lemma quiet_read_pte r v : quiet (read_pte r v).
Proof. unfold read_pte. quiet_auto. Qed.
#[local] Hint Resolve quiet_map_page quiet_map_page_flags quiet_unmap_page quiet_read_pte : quiet.

Lemma quiet_map_pages_at r v sz f : quiet (map_pages_at r v sz f).
Proof. unfold map_pages_at, for_pages. quiet_auto. Qed.
#[local] Hint Resolve quiet_map_pages_at : quiet.

Lemma quiet_mmap v sz f : quiet (sys_mmap v sz f).
Proof. unfold sys_mmap. quiet_auto. Qed.

Lemma quiet_munmap v sz : quiet (sys_munmap v sz).
Proof. unfold sys_munmap, for_pages. quiet_auto. Qed.

Lemma quiet_mprotect v sz f : quiet (sys_mprotect v sz f).
Proof. unfold sys_mprotect, for_pages. quiet_auto. Qed.

Lemma quiet_brk a : quiet (sys_brk a).
Proof. unfold sys_brk, for_pages. quiet_auto. Qed.

Lemma quiet_mmap_phys v p sz f : quiet (sys_mmap_phys v p sz f).
Proof. unfold sys_mmap_phys, for_pages. quiet_auto. Qed.

Lemma quiet_free_user_range r a b : quiet (free_user_range r a b).
Proof. unfold free_user_range, for_pages. quiet_auto. Qed.
#[local] Hint Resolve quiet_free_user_range : quiet.

Lemma quiet_free_task_pages t : quiet (free_task_pages t).
Proof. unfold free_task_pages. quiet_auto. Qed.

Lemma quiet_push_words sp ws : quiet (push_words sp ws).
Proof. revert sp. induction ws as [|w ws IH]; intros sp; cbn [push_words]; quiet_auto. Qed.

Lemma quiet_push_frame k a b c : quiet (push_frame k a b c).
Proof. apply quiet_push_words. Qed.

Lemma quiet_copy_bytes d s n : quiet (copy_bytes d s n).
Proof. unfold copy_bytes. quiet_auto. Qed.

Lemma quiet_free_pages ps : quiet (free_pages ps).
Proof. unfold free_pages. induction ps as [|p ps IH]; quiet_auto. Qed.
#[local] Hint Resolve quiet_free_pages quiet_copy_bytes : quiet.

Lemma quiet_alloc_bufs n got : quiet (alloc_bufs n got).
Proof. revert got. induction n as [|n IH]; intros got; cbn [alloc_bufs]; quiet_auto. Qed.

Lemma quiet_phdr_at b i : quiet (phdr_at b i).
Proof. unfold phdr_at, e_phoff, e_phentsize, load16. quiet_auto. Qed.
#[local] Hint Resolve quiet_phdr_at : quiet.

Lemma quiet_for_phdrs {A} n h i (acc : A) body : (∀ p a, quiet (body p a)) → quiet (for_phdrs n h i acc body).
Proof.
  intros Hb. revert i acc. induction n as [|n IH]; intros i acc; cbn [for_phdrs]; unfold e_phnum, load16; quiet_auto.
Qed.

Lemma quiet_scan_max b : quiet (scan_max b).
Proof. unfold scan_max. apply quiet_for_phdrs. intros. unfold p_type, p_vaddr, p_memsz, load32. quiet_auto. Qed.

Lemma quiet_scan_pid n i w r : quiet (scan_pid n i w r).
Proof. revert i r. induction n as [|n IH]; intros i r; cbn [scan_pid]; quiet_auto. Qed.

Lemma quiet_copy_segment n ph src j : quiet (copy_segment n ph src j).
Proof.
  revert j. induction n as [|n IH]; intros j; cbn [copy_segment]; unfold p_filesz, p_vaddr; quiet_auto.
Qed.
#[local] Hint Resolve quiet_copy_segment : quiet.

Lemma quiet_load_segment b o p : quiet (load_segment b o p).
Proof.
  unfold load_segment, for_pages, p_type, p_vaddr, p_memsz, p_flags, p_offset, p_filesz, load32. quiet_auto.
Qed.

Lemma quiet_map_stack t : quiet (map_stack t).
Proof. unfold map_stack. quiet_auto. Qed.

Lemma quiet_map_code a n : quiet (map_code a n).
Proof. unfold map_code. quiet_auto. Qed.

Lemma quiet_find_task p : quiet (find_task p).
Proof. unfold find_task. quiet_auto. Qed.

Lemma quiet_current_pid : quiet current_pid.
Proof. unfold current_pid. quiet_auto. Qed.

Lemma quiet_is_elf p n : quiet (is_elf p n).
Proof. unfold is_elf, load32. quiet_auto. Qed.

End Quiet.

#[export] Hint Resolve quiet_load8 quiet_store8 quiet_load_bytes quiet_store_bytes quiet_load_le quiet_load32 quiet_load64
  quiet_store64 quiet_inb quiet_outb quiet_inw quiet_outw quiet_wait_tx quiet_putc quiet_puts quiet_puthex
  quiet_alloc quiet_free quiet_switch quiet_clone_space quiet_ensure_table quiet_ensure_pt quiet_map_page
  quiet_map_page_flags quiet_unmap_page quiet_read_pte quiet_map_pages_at quiet_mmap quiet_munmap quiet_mprotect
  quiet_brk quiet_mmap_phys quiet_free_user_range quiet_free_task_pages quiet_push_words quiet_push_frame
  quiet_copy_bytes quiet_free_pages quiet_alloc_bufs quiet_phdr_at quiet_scan_max quiet_scan_pid
  quiet_copy_segment quiet_load_segment quiet_map_stack quiet_map_code quiet_find_task quiet_current_pid
  quiet_is_elf : quiet.
