(* ===== verification/Wf.v ===== *)
(** * Wf: the invariant of the task layer

    [wf] collects what the C objects of [task.c] and [idt.c] satisfy whenever the
    kernel runs: array sizes and index ranges, sound message rings, distinct
    pids, and that a task in state RUNNING is the current one.  [hoare] is
    partial correctness; every operation of the task layer is shown to keep
    [wf]. *)

From S2P Require Import Prelude State Machine Walk Serial Space Pmm Paging Tasks UserBuf Ipc Vm Lifecycle Irq Elf Quiet.

(** ** The invariant *)

Record task_wf (t : task_t) : Prop := {
  tw_ring : ring_ok t;
  tw_wait : -1 ≤ t_wait_idx t < 64;
}.

Record wf (s : kstate) : Prop := {
  wf_len : length (tasks s) = 64%nat;
  wf_tasks : Forall task_wf (tasks s);
  wf_num : 0 ≤ num_tasks s ≤ 64;
  wf_cur : -1 ≤ current_task s < 64;
  wf_pids : NoDup (t_pid <$> live_tasks s);
  wf_pid_lt : ∀ t, t ∈ live_tasks s → t_pid t < next_pid s;
  wf_next : 8 ≤ next_pid s ≤ 8 + num_tasks s;
  wf_running : ∀ i t, tasks s !! i = Some t → t_state t = TASK_RUNNING → Z.of_nat i = current_task s;
  wf_futex_len : length (futex_waiters s) = 128%nat;
  wf_futex_num : 0 ≤ num_futex_waiters s ≤ 128;
  wf_futex : Forall (λ w : Z * Z, 0 ≤ w.2 < 64) (take (Z.to_nat (num_futex_waiters s)) (futex_waiters s));
  wf_irq_len : length (irq_handlers s) = 16%nat;
  wf_irq : Forall (λ x, -1 ≤ x < 64) (irq_handlers s);
}.

(** ** Partial correctness *)

Definition hoare {A} (P : kstate → Prop) (m : M A) (Q : A → kstate → Prop) : Prop :=
  ∀ s a s', P s → m s = Ok a s' → Q a s'.

(** A predicate on the task objects only. *)
Definition on_objs (P : kstate → Prop) : Prop := ∀ s s', objs s' = objs s → P s → P s'.

Lemma hoare_ret {A} P (a : A) (Q : A → kstate → Prop) : (∀ s, P s → Q a s) → hoare P (mret a) Q.
Proof. intros HQ s b s' Hs [= <- <-]. by apply HQ. Qed.

Lemma bind_inv {A B} (m : M A) (f : A → M B) s b s' :
  (m ≫= f) s = Ok b s' → ∃ a s1, m s = Ok a s1 ∧ f a s1 = Ok b s'.
Proof. unfold mbind, M_bind. destruct (m s) as [a s1| | | |]; try done. eauto. Qed.

Lemma hoare_bind {A B} P (m : M A) (f : A → M B) R Q :
  hoare P m R → (∀ a, hoare (R a) (f a) Q) → hoare P (m ≫= f) Q.
Proof.
  intros Hm Hf s b s' Hs. unfold mbind, M_bind. destruct (m s) as [a s1| | | |] eqn:E; try done.
  intros E2. eapply Hf; [|done]. by eapply Hm.
Qed.

Lemma hoare_gets {A B} P (f : kstate → A) (k : A → M B) Q :
  (∀ a, hoare (λ s, P s ∧ f s = a) (k a) Q) → hoare P (gets f ≫= k) Q.
Proof. intros Hk. eapply hoare_bind; [|exact Hk]. intros s a s' Hs [= <- <-]. done. Qed.

Lemma hoare_pre {A} (P P' : kstate → Prop) (m : M A) Q : (∀ s, P s → P' s) → hoare P' m Q → hoare P m Q.
Proof. intros HP Hm s a s' Hs. apply Hm. by apply HP. Qed.

Lemma hoare_post {A} P (m : M A) (Q Q' : A → kstate → Prop) :
  (∀ a s, Q a s → Q' a s) → hoare P m Q → hoare P m Q'.
Proof. intros HQ Hm s a s' Hs E. apply HQ. by eapply Hm. Qed.

Lemma hoare_quiet {A} P (m : M A) : on_objs P → quiet m → hoare P m (λ _, P).
Proof. intros HP Hm s a s' Hs E. eapply HP; [|done]. by eapply Hm. Qed.

(** Running quiet code first. *)
Lemma hoare_skip {A B} P (m : M A) (k : A → M B) Q :
  on_objs P → quiet m → (∀ a, hoare P (k a) Q) → hoare P (m ≫= k) Q.
Proof. intros HP Hm Hk. eapply hoare_bind; [by apply hoare_quiet|done]. Qed.

Lemma hoare_undef {A} P Q : hoare P (@undef A) Q.
Proof. done. Qed.

Lemma hoare_when P (b : bool) m :
  (b = true → hoare P m (λ _, P)) → hoare P (when b m) (λ _, P).
Proof. destruct b; intros Hm; [by apply Hm|]. by apply hoare_ret. Qed.

Lemma hoare_for_nat P n i body :
  (∀ j, hoare P (body j) (λ _, P)) → hoare P (for_nat n i body) (λ _, P).
Proof.
  intros Hb. revert i. induction n as [|n IH]; intros i; cbn [for_nat]; [by apply hoare_ret|].
  eapply hoare_bind; [apply Hb|]. intros a. apply IH.
Qed.

Lemma hoare_for_exit {A} P n i (body : Z → M (option A)) :
  (∀ j, hoare P (body j) (λ _, P)) → hoare P (for_exit n i body) (λ _, P).
Proof.
  intros Hb. revert i. induction n as [|n IH]; intros i; cbn [for_exit]; [by apply hoare_ret|].
  eapply hoare_bind; [apply Hb|]. intros [a|]; [by apply hoare_ret|apply IH].
Qed.

(** ** Table updates *)

Lemma on_objs_wf : on_objs wf.
Proof.
  intros s s' [= E1 E2 E3 E4 E5 E6 E7] [].
  split; unfold live_tasks in *; rewrite ?E1, ?E2, ?E3, ?E4, ?E5, ?E6, ?E7; done.
Qed.

Lemma on_objs_and P Q : on_objs P → on_objs Q → on_objs (λ s, P s ∧ Q s).
Proof. intros HP HQ s s' E [H1 H2]. split; [by eapply HP|by eapply HQ]. Qed.

(** An update of one task that keeps its pid, starts nothing, and keeps the
    task's own invariant. *)
Record benign (f : task_t → task_t) (t : task_t) : Prop := {
  bn_wf : task_wf t → task_wf (f t);
  bn_pid : t_pid (f t) = t_pid t;
  bn_run : t_state (f t) = TASK_RUNNING → t_state t = TASK_RUNNING;
}.

Lemma pids_insert (ts : list task_t) n i t t' :
  ts !! i = Some t → t_pid t' = t_pid t → t_pid <$> take n (<[i := t']> ts) = t_pid <$> take n ts.
Proof.
  intros Ht Hp. apply list_eq. intros j. rewrite !list_lookup_fmap.
  destruct (decide (j < n)%nat) as [Hj|Hj].
  - rewrite !lookup_take_lt by done. destruct (decide (i = j)) as [->|Hne].
    + rewrite list_lookup_insert_eq by (by eapply lookup_lt_Some). rewrite Ht. simpl. by rewrite Hp.
    + by rewrite list_lookup_insert_ne.
  - rewrite !lookup_take_ge by lia. done.
Qed.

Lemma elem_of_pids (ts : list task_t) x : x ∈ t_pid <$> ts → ∃ t, t ∈ ts ∧ t_pid t = x.
Proof. intros (t & -> & Ht)%list_elem_of_fmap. by exists t. Qed.

Lemma wf_update s i f t :
  wf s → tasks s !! i = Some t → benign f t → wf (set_tasks (<[i := f t]> (tasks s)) s).
Proof.
  intros [] Ht [Hw Hp Hr]. split; simpl; try done.
  - by rewrite length_insert.
  - apply Forall_insert; [done|]. apply Hw. rewrite Forall_forall in wf_tasks0.
    apply wf_tasks0. by eapply list_elem_of_lookup_2.
  - unfold live_tasks in *; simpl. by rewrite (pids_insert _ _ _ t).
  - intros t' Ht'. assert (Hin : t_pid t' ∈ t_pid <$> live_tasks s).
    { unfold live_tasks. rewrite <- (pids_insert _ _ i t (f t) Ht Hp). apply list_elem_of_fmap. by exists t'. }
    apply elem_of_pids in Hin as (t0 & Hin & <-). by apply wf_pid_lt0.
  - intros j t' Hj Hrun. destruct (decide (i = j)) as [->|Hne].
    + rewrite list_lookup_insert_eq in Hj by (by eapply lookup_lt_Some). simplify_eq.
      eapply wf_running0; [done|]. by apply Hr.
    + rewrite list_lookup_insert_ne in Hj by done. by eapply wf_running0.
Qed.

Lemma get_task_inv i s t s' : get_task i s = Ok t s' → s' = s ∧ 0 ≤ i ∧ tasks s !! Z.to_nat i = Some t.
Proof.
  unfold get_task, arr_get. destruct (Z.leb_spec 0 i); [|done].
  destruct (tasks s !! Z.to_nat i) eqn:E; [|done]. intros [= <- <-]. done.
Qed.

Lemma upd_task_inv i f s a s' :
  upd_task i f s = Ok a s' →
  ∃ t, 0 ≤ i ∧ tasks s !! Z.to_nat i = Some t ∧ s' = set_tasks (<[Z.to_nat i := f t]> (tasks s)) s.
Proof.
  unfold upd_task, mbind, M_bind. destruct (get_task i s) as [t s1| | | |] eqn:E; try done.
  apply get_task_inv in E as (-> & Hi & Ht). intros [= _ <-]. by exists t.
Qed.

Lemma hoare_upd_task i f : (∀ t, benign f t) → hoare wf (upd_task i f) (λ _, wf).
Proof.
  intros Hb s a s' Hs E. apply upd_task_inv in E as (t & _ & Ht & ->). by apply wf_update.
Qed.

Lemma benign_state x t : x ≠ TASK_RUNNING → benign (t_set_state x) t.
Proof. intros Hx. split; [|done|done]. intros [[] ?]. by split; [split|]. Qed.

Lemma benign_wait v t : -1 ≤ v < 64 → benign (t_set_wait_idx v) t.
Proof. intros Hv. split; [|done|done]. intros [[] ?]. by split; [split|]. Qed.

Lemma benign_stack v t : benign (t_set_stack_phys v) t.
Proof. split; [|done|done]. intros [[] ?]. by split; [split|]. Qed.

Lemma benign_rsp v t : benign (t_set_rsp v) t.
Proof. split; [|done|done]. intros [[] ?]. by split; [split|]. Qed.

Lemma benign_wake t : benign wake t.
Proof.
  split.
  - intros [Hr Hw]. split; [by apply wake_ring|]. unfold wake. by destruct (is_blocked t).
  - unfold wake. by destruct (is_blocked t).
  - unfold wake. destruct (is_blocked t); [done|]. done.
Qed.

Lemma benign_pop t : ring_ok t → 0 < t_ipc_count t → benign ring_pop t.
Proof.
  intros Hr Hc. split; [|done|done]. intros [_ Hw]. split; [|done]. by apply (proj1 (pop_ok t Hr Hc)).
Qed.

Create HintDb wf.
#[export] Hint Resolve on_objs_wf benign_stack benign_rsp benign_wake : wf.
#[export] Hint Extern 1 (benign (t_set_state _) _) => apply benign_state; done : wf.
#[export] Hint Extern 1 (benign (t_set_wait_idx _) _) => apply benign_wait; lia : wf.

(** ** Proof steps *)

Lemma hoare_gets_cur {B} (k : Z → M B) Q :
  (∀ a, -1 ≤ a < 64 → hoare wf (k a) Q) → hoare wf (gets current_task ≫= k) Q.
Proof.
  intros Hk. apply hoare_gets. intros a s b s' [Hs <-]. apply Hk; [|done]. by apply wf_cur.
Qed.

Ltac hoare_step :=
  lazymatch goal with
  | |- hoare wf (mbind _ (gets current_task)) _ => apply hoare_gets_cur; intros ? ?
  | |- hoare wf (mbind _ _) _ =>
    first [ apply hoare_skip; [exact on_objs_wf|solve [quiet_auto]|intros]
          | eapply (hoare_bind wf _ _ (λ _, wf)); [|intros] ]
  | |- hoare wf (mret _) _ => by apply hoare_ret
  | |- hoare wf (upd_task _ _) _ => apply hoare_upd_task; intros; auto with wf
  | |- hoare wf (when _ _) _ => apply hoare_when; intros
  | |- hoare wf (for_nat _ _ _) _ => apply hoare_for_nat; intros
  | |- hoare wf (for_exit _ _ _) _ => apply hoare_for_exit; intros
  | |- hoare wf (match ?x with _ => _ end) _ => destruct x eqn:?
  | |- hoare wf _ _ => first [ solve [eauto with wf] | apply hoare_quiet; [exact on_objs_wf|solve [quiet_auto]] ]
  end.
Ltac hoare_auto := repeat hoare_step.

Section Operations.
Context `{Platform}.

Lemma wf_task_init : hoare wf task_init (λ _, wf).
Proof. unfold task_init. hoare_auto. Qed.

Lemma wf_exit : hoare wf sys_exit (λ _, wf).
Proof. unfold sys_exit. hoare_auto. Qed.

Lemma wf_wait pid : hoare wf (sys_wait pid) (λ _, wf).
Proof. unfold sys_wait. hoare_auto. Qed.

Lemma wf_wait_any : hoare wf sys_wait_any (λ _, wf).
Proof. unfold sys_wait_any. hoare_auto. Qed.

Lemma wf_kill pid : hoare wf (sys_kill pid) (λ _, wf).
Proof. unfold sys_kill. hoare_auto. Qed.

(** *** Messages *)

(** Slot [h] of task [i] is the free head slot of a ring with room. *)
Definition room (i h : Z) (s : kstate) : Prop :=
  ∃ t, tasks s !! Z.to_nat i = Some t ∧ t_ipc_count t < 16 ∧ t_ipc_head t = h.

Lemma on_objs_room i h : on_objs (room i h).
Proof. intros s s' [= E _ _ _ _ _ _] (t & Ht & Hr). exists t. by rewrite E. Qed.

Lemma hoare_upd_slot i h f :
  (∀ m, msg_ok m → msg_ok (f m)) →
  hoare (λ s, wf s ∧ room i h s) (upd_slot i h f) (λ _ s, wf s ∧ room i h s).
Proof.
  intros Hf s a s' [Hs (t & Ht & Hc & Hh)]. unfold upd_slot, mbind at 1, M_bind at 1.
  destruct (get_task i s) as [t1 s1| | | |] eqn:E; try done. apply get_task_inv in E as (-> & Hi & Ht1).
  assert (t = t1) as -> by congruence. subst h. unfold mbind at 1, M_bind at 1, arr_get. destruct (0 <=? t_ipc_head t1); [|done].
  destruct (t_ipc_queue t1 !! _) as [m|] eqn:Em; [|done]. intros E.
  apply upd_task_inv in E as (t & _ & Ht2 & ->). assert (t = t1) as -> by congruence. split.
  - apply (wf_update s _ (λ t, t_set_ipc _ _ _ _ t) t1 Hs Ht1). split; [|done|done].
    intros [[] ?]. split; [|done]. split; simpl; try done.
    + by rewrite length_insert.
    + apply Forall_insert; [done|]. apply Hf. rewrite Forall_forall in ro_msgs. apply ro_msgs.
      by eapply list_elem_of_lookup_2.
  - eexists. simpl. rewrite list_lookup_insert_eq by (by eapply lookup_lt_Some). done.
Qed.

Lemma ring_push_ok t : ring_ok t → t_ipc_count t < 16 → ring_ok (ring_push t).
Proof.
  intros Hr Hc. pose proof Hr as [Hl Htl Hcn Hh Hm].
  pose proof (Z.mod_pos_bound (t_ipc_tail t + t_ipc_count t) 16).
  destruct (lookup_lt_is_Some_2 (t_ipc_queue t) (Z.to_nat (t_ipc_head t))) as [m Em]; [lia|].
  assert (Hput : put_slot t m = t) by (unfold put_slot; rewrite list_insert_id by done; by destruct t).
  rewrite <- Hput. apply push_ok; [done|done|]. rewrite Forall_forall in Hm. apply Hm.
  by eapply list_elem_of_lookup_2.
Qed.

Lemma hoare_ring_push i h : hoare (λ s, wf s ∧ room i h s) (upd_task i ring_push) (λ _, wf).
Proof.
  intros s a s' [Hs (t & Ht & Hc & Hh)] E. apply upd_task_inv in E as (t1 & _ & Ht1 & ->). simplify_eq.
  apply wf_update; [done..|]. split; [|done|done]. intros [Hr Hw]. split; [by apply ring_push_ok|done].
Qed.

Lemma msg_ok_head sender type len m : 0 ≤ len ≤ 64 → msg_ok m → msg_ok (m_set_head sender type len m).
Proof. intros Hl (? & ? & ?). split_and!; simpl; done || lia. Qed.

Lemma msg_ok_data i b m : msg_ok m → msg_ok (m_set_data i b m).
Proof.
  intros (Hd & Hl & Hb). unfold m_set_data. split_and!; simpl; [by rewrite length_insert|lia|lia|].
  apply Forall_insert; [done|]. apply u8_range.
Qed.

Lemma hoare_get_room {B} i (k : task_t → M B) Q :
  (∀ t, task_wf t → hoare (λ s, wf s ∧ tasks s !! Z.to_nat i = Some t) (k t) Q) →
  hoare wf (get_task i ≫= k) Q.
Proof.
  intros Hk s b s' Hs. unfold mbind, M_bind. destruct (get_task i s) as [t s1| | | |] eqn:E; try done.
  apply get_task_inv in E as (-> & Hi & Ht). intros E. eapply Hk; [|by split|done].
  assert (Hw := wf_tasks _ Hs). rewrite Forall_forall in Hw. apply Hw. by eapply list_elem_of_lookup_2.
Qed.

Lemma on_objs_wf_room i h : on_objs (λ s, wf s ∧ room i h s).
Proof. apply on_objs_and; [apply on_objs_wf|apply on_objs_room]. Qed.

Lemma wf_send pid type data len : 0 ≤ len → hoare wf (sys_send pid type data len) (λ _, wf).
Proof.
  intros Hl. unfold sys_send. hoare_step. destruct a as [i|]; [|hoare_auto].
  apply hoare_get_room. intros t Ht. destruct (Z.leb_spec IPC_QUEUE_SIZE (t_ipc_count t)) as [|Hc].
  { apply hoare_ret. by intros s [? _]. }
  apply (hoare_pre _ (λ s, wf s ∧ room i (t_ipc_head t) s)). { intros s [? ?]. split; [done|]. by exists t. }
  apply hoare_skip; [apply on_objs_wf_room|auto with quiet|]. intros sender.
  eapply hoare_bind; [apply hoare_upd_slot; intros; apply msg_ok_head; [|done]|].
  { unfold IPC_MAX_DATA. destruct (Z.ltb_spec 64 len); lia. }
  intros []. eapply hoare_bind.
  { apply hoare_for_nat. intros j. apply hoare_skip; [apply on_objs_wf_room|auto with quiet|].
    intros b. apply hoare_upd_slot. intros. by apply msg_ok_data. }
  intros []. eapply hoare_bind; [apply hoare_ring_push|]. intros []. hoare_auto.
Qed.

Lemma wf_recv msg : hoare wf (sys_recv msg) (λ _, wf).
Proof.
  unfold sys_recv. hoare_step. destruct (a <? 0); [hoare_auto|].
  apply hoare_get_room. intros t Ht. destruct (Z.eqb_spec (t_ipc_count t) 0) as [|Hc].
  { apply hoare_ret. by intros s [? _]. }
  assert (HP : on_objs (λ s, wf s ∧ tasks s !! Z.to_nat a = Some t)).
  { apply on_objs_and; [apply on_objs_wf|]. by intros s s' [= -> _ _ _ _ _ _]. }
  repeat (apply hoare_skip; [exact HP|solve [quiet_auto]|intros]).
  eapply (hoare_bind _ _ _ (λ _, wf)); [|intros; hoare_auto].
  intros s b s' [Hs Ht'] E. apply upd_task_inv in E as (t1 & _ & Ht1 & ->). simplify_eq.
  destruct Ht as [Hr Hw]. apply wf_update; [done..|]. apply benign_pop; [done|]. destruct Hr. lia.
Qed.

Lemma wf_keyboard : hoare wf keyboard_irq (λ _, wf).
Proof.
  unfold keyboard_irq. do 2 hoare_step. destruct (_ && _); [|hoare_auto].
  apply hoare_get_room. intros t Ht. destruct (negb _); [|apply hoare_ret; by intros s [? _]].
  eapply hoare_skip; [apply on_objs_and; [apply on_objs_wf|]|auto with quiet|].
  { by intros s s' [= -> _ _ _ _ _ _]. }
  intros sc. destruct (Z.ltb_spec (t_ipc_count t) IPC_QUEUE_SIZE) as [Hc|]; [|apply hoare_ret; by intros s [? _]].
  apply (hoare_pre _ (λ s, wf s ∧ room a0 (t_ipc_head t) s)). { intros s [? ?]. split; [done|]. by exists t. }
  eapply hoare_bind; [apply hoare_upd_slot; intros; by apply msg_ok_head|]. intros [].
  eapply hoare_bind; [apply hoare_upd_slot; intros; by apply msg_ok_data|]. intros [].
  eapply hoare_bind; [apply hoare_ring_push|]. intros []. hoare_auto.
Qed.

(** *** Futexes and interrupts *)

Lemma hoare_modify P f (Q : unit → kstate → Prop) : (∀ s, P s → Q tt (f s)) → hoare P (modify f) Q.
Proof. intros HQ s a s' Hs [= <- <-]. by apply HQ. Qed.

(** The waiter table while [sys_futex] works on it. *)
Definition futex_at (n : Z) (ws : list (Z * Z)) (s : kstate) : Prop :=
  wf s ∧ num_futex_waiters s = n ∧ futex_waiters s = ws.

Lemma on_objs_futex n ws : on_objs (futex_at n ws).
Proof.
  intros s s' E (Hs & Hn & Hw). split_and!; [by eapply on_objs_wf|..]; injection E; congruence.
Qed.

Lemma hoare_futex_task n ws i f : (∀ t, benign f t) → hoare (futex_at n ws) (upd_task i f) (λ _, futex_at n ws).
Proof.
  intros Hb s a s' (Hs & Hn & Hw) E. apply upd_task_inv in E as (t & _ & Ht & ->). split_and!; try done.
  by apply wf_update.
Qed.

Lemma arr_get_inv {A} (l : list A) i s x s' :
  arr_get l i s = Ok x s' → s' = s ∧ 0 ≤ i ∧ l !! Z.to_nat i = Some x.
Proof.
  unfold arr_get. destruct (Z.leb_spec 0 i); [|done]. destruct (l !! Z.to_nat i) eqn:E; [|done].
  by intros [= <- <-].
Qed.

Lemma hoare_arr_get {A B} P (l : list A) i (k : A → M B) Q :
  (∀ x, 0 ≤ i → l !! Z.to_nat i = Some x → hoare P (k x) Q) → hoare P (arr_get l i ≫= k) Q.
Proof.
  intros Hk s b s' Hs. unfold mbind, M_bind. destruct (arr_get l i s) as [x s1| | | |] eqn:E; try done.
  apply arr_get_inv in E as (-> & Hi & Hx). by apply Hk.
Qed.

Lemma wf_set_futex s n ws :
  wf s → length ws = 128%nat → 0 ≤ n ≤ 128 → Forall (λ w : Z * Z, 0 ≤ w.2 < 64) (take (Z.to_nat n) ws) →
  wf (set_futex_waiters ws (set_num_futex_waiters n s)).
Proof. intros [] Hl Hn Hf. by split. Qed.

Lemma Forall_take_le {A} (P : A → Prop) (l : list A) m n : (m ≤ n)%nat → Forall P (take n l) → Forall P (take m l).
Proof. intros Hmn Hf. rewrite <- (Nat.min_l m n), <- take_take by done. by apply Forall_take. Qed.

Lemma wf_futex_wake fuel uaddr i woken val : 0 ≤ i → hoare wf (futex_wake fuel uaddr i woken val) (λ _, wf).
Proof.
  revert i woken. induction fuel as [|fuel IH]; intros i woken Hi; cbn [futex_wake];
    apply hoare_gets; intros n; destruct (Z.ltb_spec i n) as [Hin|]; cbn [andb].
  2,4: apply hoare_ret; by intros s [? _].
  1: destruct (woken <? i32 val); [done|]. 1: apply hoare_ret; by intros s [? _].
  destruct (woken <? i32 val); [|apply hoare_ret; by intros s [? _]].
  apply hoare_gets. intros ws. apply (hoare_pre _ (futex_at n ws)). { by intros s [[? ?] ?]. }
  apply hoare_arr_get. intros w _ Hw. destruct (fst w =? uaddr).
  2:{ apply (hoare_pre _ wf); [by intros s [? _]|]. apply IH. lia. }
  apply hoare_skip; [apply on_objs_futex|auto with quiet|]. intros t.
  apply (hoare_bind _ _ _ (λ _, futex_at n ws)).
  { destruct (is_blocked t); [|by apply hoare_ret].
    eapply hoare_bind; [apply hoare_futex_task; intros; auto with wf|]. intros []. by apply hoare_ret. }
  intros woken'. apply (hoare_bind _ _ _ (λ _ s, ∃ s0, futex_at n ws s0 ∧ s = set_num_futex_waiters (n - 1) s0)).
  { apply hoare_modify. eauto. }
  intros []. apply hoare_arr_get. intros last _ Hlast.
  apply (hoare_bind _ _ _ (λ _, wf)); [|intros []; by apply IH].
  apply hoare_modify. intros s (s0 & (Hs & Hn & Hws) & ->).
  destruct (wf_futex_num _ Hs) as [Hn0 Hn1]. assert (Hl := wf_futex_len _ Hs). assert (Hf := wf_futex _ Hs).
  rewrite Hn, Hws in *. apply wf_set_futex; [done|by rewrite length_insert|lia|].
  assert (Hf' : Forall (λ w : Z * Z, 0 ≤ w.2 < 64) (take (Z.to_nat (n - 1)) ws)).
  { by apply (Forall_take_le _ _ _ (Z.to_nat n)); [lia|]. }
  destruct (decide (i < n - 1)); [|by rewrite take_insert_ge by lia].
  rewrite take_insert_lt by lia. apply Forall_insert; [done|].
  rewrite Forall_lookup in Hf. apply (Hf (Z.to_nat (n - 1))). apply lookup_take_Some. split; [done|lia].
Qed.

Lemma wf_futex_op uaddr op val : hoare wf (sys_futex uaddr op val) (λ _, wf).
Proof.
  unfold sys_futex. apply hoare_gets_cur. intros cur Hcur. destruct (Z.ltb_spec cur 0) as [|Hc]; [hoare_auto|].
  destruct (op =? 0).
  { hoare_step. destruct (negb _); [hoare_auto|].
    apply hoare_gets. intros n. destruct (Z.leb_spec MAX_FUTEX_WAITERS n) as [|Hn]; [apply hoare_ret; by intros s [? _]|].
    apply hoare_gets. intros ws. apply (hoare_pre _ (futex_at n ws)). { by intros s [[? ?] ?]. }
    apply (hoare_bind _ _ _ (λ _ s, ∃ s0, futex_at n ws s0 ∧ s = set_futex_waiters (<[Z.to_nat n := (uaddr, cur)]> ws) s0)).
    { destruct (arr_in ws n); [|apply hoare_undef]. apply hoare_modify. eauto. }
    intros []. apply (hoare_bind _ _ _ (λ _, wf)); [|intros; hoare_auto].
    apply hoare_modify. intros s (s0 & (Hs & Hn0 & Hws) & ->).
    destruct (wf_futex_num _ Hs) as [Hlo Hhi]. assert (Hl := wf_futex_len _ Hs). assert (Hf := wf_futex _ Hs).
    rewrite Hn0, Hws in *. change (wf (set_futex_waiters (<[Z.to_nat n := (uaddr, cur)]> ws) (set_num_futex_waiters (n + 1) s0))).
    unfold MAX_FUTEX_WAITERS in Hn. apply wf_set_futex; [done|by rewrite length_insert|lia|].
    replace (Z.to_nat (n + 1)) with (S (Z.to_nat n)) by lia.
    rewrite (take_S_r _ _ (uaddr, cur)) by (apply list_lookup_insert_eq; lia).
    rewrite take_insert_ge by lia. apply Forall_app. split; [done|]. apply Forall_singleton. simpl. lia. }
  destruct (op =? 1); [|hoare_auto]. hoare_step. by apply wf_futex_wake.
Qed.

Lemma wf_irq_register irq : hoare wf (sys_irq_register irq) (λ _, wf).
Proof.
  unfold sys_irq_register. destruct (16 <=? irq); [hoare_auto|]. apply hoare_gets_cur. intros cur Hcur.
  destruct (cur <? 0); [hoare_auto|]. apply hoare_gets. intros hs.
  apply (hoare_bind _ _ _ (λ _, wf)); [|intros; hoare_auto].
  destruct (arr_in hs irq); [|apply hoare_undef]. apply hoare_modify. intros s [[] <-].
  split; simpl; try done; [by rewrite length_insert|]. by apply Forall_insert.
Qed.

End Operations.
