(* ===== verification/WfCheck.v ===== *)
(** * WfCheck: the invariant of the task layer as a test on concrete states *)

From S2P Require Import Prelude State Machine Walk Serial Space Pmm Paging Tasks UserBuf Ipc Vm Lifecycle Irq Elf Quiet Wf.

#[global] Instance msg_ok_dec m : Decision (msg_ok m).
Proof. unfold msg_ok. apply _. Defined.

Definition check_task (t : task_t) : bool :=
  (length (t_ipc_queue t) =? 16)%nat && (0 <=? t_ipc_tail t) && (t_ipc_tail t <? 16) &&
  (0 <=? t_ipc_count t) && (t_ipc_count t <=? 16) && (t_ipc_head t =? (t_ipc_tail t + t_ipc_count t) mod 16) &&
  bool_decide (Forall msg_ok (t_ipc_queue t)) && (-1 <=? t_wait_idx t) && (t_wait_idx t <? 64).

Lemma check_task_ok t : check_task t = true → task_wf t.
Proof.
  unfold check_task. rewrite !andb_true_iff, bool_decide_eq_true, Nat.eqb_eq, Z.eqb_eq, !Z.leb_le, !Z.ltb_lt.
  intros. split; [split|]; naive_solver lia.
Qed.

Definition check_running (s : kstate) : bool :=
  forallb (λ i, match tasks s !! i with
    | Some t => negb (bool_decide (t_state t = TASK_RUNNING)) || (Z.of_nat i =? current_task s)
    | None => true end) (seq 0 64).

Lemma check_running_ok s :
  length (tasks s) = 64%nat → check_running s = true →
  ∀ i t, tasks s !! i = Some t → t_state t = TASK_RUNNING → Z.of_nat i = current_task s.
Proof.
  intros Hl Hc i t Ht Hr. unfold check_running in Hc. rewrite forallb_forall in Hc.
  pose proof (lookup_lt_Some _ _ _ Ht). specialize (Hc i). rewrite Ht, Hr in Hc.
  rewrite bool_decide_eq_true_2 in Hc by done. apply Z.eqb_eq, Hc, in_seq. lia.
Qed.

Definition check_wf (s : kstate) : bool :=
  (length (tasks s) =? 64)%nat && forallb check_task (tasks s) && check_running s &&
  bool_decide ((0 ≤ num_tasks s ≤ 64 ∧ -1 ≤ current_task s < 64 ∧ NoDup (t_pid <$> live_tasks s) ∧
    Forall (λ t, t_pid t < next_pid s) (live_tasks s) ∧ 8 ≤ next_pid s ≤ 8 + num_tasks s) ∧
    (length (futex_waiters s) = 128%nat ∧ 0 ≤ num_futex_waiters s ≤ 128 ∧
    Forall (λ w : Z * Z, 0 ≤ w.2 < 64) (take (Z.to_nat (num_futex_waiters s)) (futex_waiters s)) ∧
    length (irq_handlers s) = 16%nat ∧ Forall (λ x, -1 ≤ x < 64) (irq_handlers s))).

Lemma check_wf_ok s : check_wf s = true → wf s.
Proof.
  unfold check_wf. rewrite !andb_true_iff, bool_decide_eq_true, Nat.eqb_eq, forallb_forall.
  intros [[[Hl Ht] Hr] [(H1 & H2 & H3 & H4 & H5) (H6 & H7 & H8 & H9 & H10)]]. split; try done.
  - apply Forall_forall. intros t Hin. apply check_task_ok, Ht. by apply list_elem_of_In.
  - by apply Forall_forall.
  - by apply check_running_ok.
Qed.
