(* ===== verification/Invariant.v ===== *)
(** * Invariant: every entry into the kernel keeps [wf]

    The operations that start or create tasks, the dispatcher, the scheduler and
    [isr_handler]; then the system as a transition relation ([sys_step]), whose
    reachable states all satisfy [wf]. *)

From S2P Require Import Prelude State Machine Walk Serial Space Pmm Paging Tasks UserBuf Ipc Vm Lifecycle Irq Elf Syscall.
From S2P Require Import Sched Boot Quiet Wf.

(** ** Starting the current task *)

(** [wf], with the current task known. *)
Definition wf_at (cur : Z) (s : kstate) : Prop := wf s ∧ current_task s = cur.

Lemma on_objs_wf_at cur : on_objs (wf_at cur).
Proof. apply on_objs_and; [apply on_objs_wf|]. by intros s s' [= _ -> _ _ _ _ _]. Qed.

Lemma hoare_at {A} (m : M A) Q : (∀ cur, hoare (wf_at cur) m Q) → hoare wf m Q.
Proof. intros Hm s b s' Hs. by apply (Hm (current_task s)). Qed.

Lemma wf_run s i t :
  wf s → tasks s !! i = Some t → current_task s = Z.of_nat i →
  wf (set_tasks (<[i := t_set_state TASK_RUNNING t]> (tasks s)) s).
Proof.
  intros [Hlen Htk Hnum Hcur Hnd Hplt Hnext Hrun Hfl Hfn Hff Hil Hii] Ht Hc. split; simpl; try done.
  - by rewrite length_insert.
  - rewrite Forall_forall in Htk. apply Forall_insert; [by apply Forall_forall|].
    destruct (Htk t) as [[] ?]; [by eapply list_elem_of_lookup_2|]. by split; [split|].
  - unfold live_tasks in *; simpl. by rewrite (pids_insert _ _ _ t).
  - intros t' Ht'. assert (Hin : t_pid t' ∈ t_pid <$> live_tasks s).
    { unfold live_tasks. rewrite <- (pids_insert _ _ i t (t_set_state TASK_RUNNING t) Ht eq_refl).
      apply list_elem_of_fmap. by exists t'. }
    apply elem_of_pids in Hin as (t0 & Hin & <-). by apply Hplt.
  - intros j t' Hj Hr. destruct (decide (i = j)) as [->|Hne]; [done|].
    rewrite list_lookup_insert_ne in Hj by done. by eapply Hrun.
Qed.

(** *** The tick counter and sleeping *)

Section Invariant.
Context `{Platform}.

Lemma quiet_irq_eoi n : quiet (irq_eoi n).
Proof. unfold irq_eoi. quiet_auto. Qed.

Lemma quiet_timer_tick : quiet timer_tick.
Proof. unfold timer_tick. quiet_auto. Qed.
#[local] Hint Resolve quiet_irq_eoi quiet_timer_tick : quiet.

(** Code that does not switch tasks. *)
Definition same_cur {A} (m : M A) : Prop := ∀ cur, hoare (λ s, current_task s = cur) m (λ _ s, current_task s = cur).

Lemma same_cur_quiet {A} (m : M A) : quiet m → same_cur m.
Proof. intros Hm cur. apply hoare_quiet; [|done]. by intros s s' [= _ -> _ _ _ _ _]. Qed.

Lemma same_cur_upd i f : same_cur (upd_task i f).
Proof. intros cur s a s' Hs E. by apply upd_task_inv in E as (t & _ & _ & ->). Qed.

Lemma same_cur_bind {A B} (m : M A) (f : A → M B) : same_cur m → (∀ a, same_cur (f a)) → same_cur (m ≫= f).
Proof. intros Hm Hf cur. eapply hoare_bind; [apply Hm|]. intros a. apply Hf. Qed.

Lemma same_cur_modify f : (∀ s, current_task (f s) = current_task s) → same_cur (modify f).
Proof. intros Hf cur. apply hoare_modify. intros s <-. apply Hf. Qed.

Ltac same_cur_auto :=
  repeat first
    [ apply same_cur_upd
    | apply same_cur_quiet; solve [quiet_auto]
    | apply same_cur_modify; intros; reflexivity
    | apply same_cur_bind; [|intros]
    | case_match ].

Lemma keyboard_keeps_current : same_cur keyboard_irq.
Proof. unfold keyboard_irq, upd_slot. same_cur_auto. Qed.

Lemma wf_kernel_irq cur n : hoare (wf_at cur) (kernel_irq n) (λ _, wf_at cur).
Proof.
  unfold kernel_irq. do 2 (apply hoare_skip; [apply on_objs_wf_at|solve [quiet_auto]|intros ?]).
  apply hoare_when. intros _ s x s' [Hs Hc] E. split; [by eapply wf_keyboard|by eapply keyboard_keeps_current].
Qed.

Lemma wf_hlt_once cur : hoare (wf_at cur) hlt_once (λ _, wf_at cur).
Proof.
  unfold hlt_once. apply hoare_skip; [apply on_objs_wf_at|solve [quiet_auto]|]. intros [|n rest]; [done|].
  apply hoare_skip; [apply on_objs_wf_at|solve [quiet_auto]|]. intros ?. apply wf_kernel_irq.
Qed.

Lemma hoare_upd_at cur i f : (∀ t, benign f t) → hoare (wf_at cur) (upd_task i f) (λ _, wf_at cur).
Proof.
  intros Hb s a s' [Hs Hc] E. split; [by eapply hoare_upd_task|].
  by apply upd_task_inv in E as (t & _ & _ & ->).
Qed.

Lemma wf_sleep_loop cur fuel start target : hoare (wf_at cur) (sleep_loop fuel start target) (λ _, wf_at cur).
Proof.
  induction fuel as [|fuel IH]; cbn [sleep_loop];
    (apply hoare_skip; [apply on_objs_wf_at|solve [quiet_auto]|]); intros now;
    (destruct (_ <? _); [|by apply hoare_ret]); [done|].
  apply hoare_skip; [apply on_objs_wf_at|solve [quiet_auto]|]. intros c.
  eapply hoare_bind; [apply hoare_upd_at; intros; auto with wf|]. intros ?.
  eapply hoare_bind; [apply wf_hlt_once|]. intros ?. apply IH.
Qed.

(** Marking the current task RUNNING. *)
Lemma hoare_run cur : hoare (wf_at cur) (upd_task cur (t_set_state TASK_RUNNING)) (λ _, wf_at cur).
Proof.
  intros s a s' [Hs Hc] E. apply upd_task_inv in E as (t & Hi & Ht & ->). split; [|done].
  apply wf_run; [done..|lia].
Qed.

Lemma wf_nanosleep ns : hoare wf (sys_nanosleep ns) (λ _, wf).
Proof.
  unfold sys_nanosleep. do 2 hoare_step. apply hoare_at. intros c.
  eapply hoare_bind; [apply wf_sleep_loop|]. intros ?. apply hoare_gets. intros cur. apply (hoare_pre _ (wf_at cur)). { by intros s1 [[? _] ?]. }
  eapply hoare_bind; [apply hoare_run|]. intros ?. apply hoare_ret. by intros s1 [? _].
Qed.

(** ** New tasks *)

Lemma new_task_wf rsp pid stack pml4 la cp old : task_wf old → task_wf (new_task rsp pid stack pml4 la cp old).
Proof. intros [[] _]. split; [split|]; simpl; done || lia. Qed.

Lemma wf_add_task s n old rsp pid np stack pml4 la cp :
  wf s → num_tasks s = Z.of_nat n → (n < 64)%nat → tasks s !! n = Some old →
  (∀ t, t ∈ live_tasks s → t_pid t ≠ pid) → pid < np → next_pid s ≤ np ≤ next_pid s + 1 →
  wf (set_num_tasks (Z.of_nat n + 1)
       (set_tasks (<[n := new_task rsp pid stack pml4 la cp old]> (tasks s)) (set_next_pid np s))).
Proof.
  intros [Hlen Htk Hnum Hcur Hnd Hplt Hnext Hrun Hfl Hfn Hff Hil Hii] Hn Hlt Ho Hpid Hnp Hnx.
  assert (Hlive : live_tasks (set_num_tasks (Z.of_nat n + 1)
      (set_tasks (<[n := new_task rsp pid stack pml4 la cp old]> (tasks s)) (set_next_pid np s)))
    = live_tasks s ++ [new_task rsp pid stack pml4 la cp old]).
  { unfold live_tasks; simpl. rewrite Hn, Nat2Z.id. replace (Z.to_nat (Z.of_nat n + 1)) with (S n) by lia.
    rewrite (take_S_r _ _ (new_task rsp pid stack pml4 la cp old)) by (apply list_lookup_insert_eq; lia).
    by rewrite take_insert_ge by lia. }
  split; rewrite ?Hlive; simpl; try done; try lia.
  - by rewrite length_insert.
  - apply Forall_insert; [done|]. apply new_task_wf. rewrite Forall_forall in Htk.
    apply Htk. by eapply list_elem_of_lookup_2.
  - rewrite fmap_app. apply NoDup_app. split_and!; [done| |apply NoDup_singleton].
    intros x Hx%elem_of_pids. destruct Hx as (t & Ht & <-). apply Hpid in Ht.
    intros Heq%list_elem_of_singleton. done.
  - intros t [Ht| ->%list_elem_of_singleton]%elem_of_app; [apply Hplt in Ht; lia|done].
  - intros i t Hi Hr. destruct (decide (n = i)) as [->|Hne].
    + rewrite list_lookup_insert_eq in Hi by lia. by simplify_eq.
    + rewrite list_lookup_insert_ne in Hi by done. by eapply Hrun.
Qed.

(** The pid a creation may ask for: a new one, or 1 for the first task. *)
Definition fits (want : Z) (s : kstate) : Prop := want = 0 ∨ want = 1 ∧ num_tasks s = 0.

Lemma pick_pid_inv want s pid s1 :
  wf s → fits want s → pick_pid want s = Ok pid s1 →
  ∃ np, s1 = set_next_pid np s ∧ (∀ t, t ∈ live_tasks s → t_pid t ≠ pid) ∧ pid < np ∧
    next_pid s ≤ np ≤ next_pid s + 1.
Proof.
  intros Hs Hf E. destruct (wf_next _ Hs) as [Hlo Hhi]. destruct (wf_num _ Hs). destruct Hf as [->|[-> Hn]].
  - injection E as <- <-. exists (u32 (next_pid s + 1)). rewrite u32_small by lia. split_and!; try done; try lia.
    intros t Ht%(wf_pid_lt _ Hs). lia.
  - injection E as <- <-. exists (next_pid s). split_and!; try lia; [by destruct s|].
    unfold live_tasks. rewrite Hn. set_solver.
Qed.

(** The sequence that fills the next slot of the table. *)
Lemma hoare_add_task {X B} want n rsp stack (k : Z → M X) (p l : X → Z) cp (body : Z → Z → M B) Q :
  n < 64 → (∀ pid, hoare wf (body pid n) Q) → (∀ pid, quiet (k pid)) →
  hoare (λ s, wf s ∧ fits want s ∧ num_tasks s = n)
    (pid ← pick_pid want; x ← k pid; upd_task n (new_task rsp pid stack (p x) (l x) cp) ;;
     modify (set_num_tasks (n + 1)) ;; body pid n) Q.
Proof.
  intros Hn Hb Hk s b s' (Hs & Hf & Hnum) E.
  apply bind_inv in E as (pid & s1 & Ep & E). destruct (pick_pid_inv _ _ _ _ Hs Hf Ep) as (np & -> & Hp1 & Hp2 & Hp3).
  apply bind_inv in E as (x & s2 & Ek & E). apply Hk in Ek. injection Ek as E1 E2 E3 E4 E5 E6 E7.
  apply bind_inv in E as ([] & s3 & Eu & E). apply upd_task_inv in Eu as (old & Hi & Ho & ->).
  apply bind_inv in E as ([] & s4 & Em & E). injection Em as <-. revert E.
  apply Hb. rewrite E1 in Ho. simpl in Ho.
  assert (Hw := wf_add_task s (Z.to_nat n) old rsp pid np stack (p x) (l x) cp Hs ltac:(lia) ltac:(lia) Ho Hp1 Hp2 Hp3).
  rewrite Z2Nat.id in Hw by done. eapply on_objs_wf; [|exact Hw].
  unfold objs; simpl. rewrite E1, E2, E4, E5, E6, E7. done.
Qed.

Lemma on_objs_num n : on_objs (λ s, wf s ∧ num_tasks s = n).
Proof. apply on_objs_and; [apply on_objs_wf|]. by intros s s' [= _ _ -> _ _ _ _]. Qed.

Lemma wf_clone flags user_stack entry arg : hoare wf (sys_clone flags user_stack entry arg) (λ _, wf).
Proof.
  unfold sys_clone. apply hoare_gets_cur. intros cur Hcur. destruct (cur <? 0); [hoare_auto|].
  apply hoare_gets. intros n. destruct (Z.leb_spec MAX_TASKS n) as [|Hn]; [apply hoare_ret; by intros s [? _]|].
  apply hoare_skip; [apply on_objs_num|auto with quiet|]. intros kstack.
  destruct (kstack =? 0); [apply hoare_ret; by intros s [? _]|].
  apply hoare_skip; [apply on_objs_num|auto with quiet|]. intros sp.
  apply (hoare_pre _ (λ s, wf s ∧ fits 0 s ∧ num_tasks s = n)). { intros s [??]. split_and!; [done|by left|done]. }
  apply (hoare_add_task 0 n sp kstack (λ _, get_task cur) t_pml4_phys t_load_addr 0 (λ pid _, mret (i32 pid)));
    [done| |auto with quiet]. intros pid. by apply hoare_ret.
Qed.

(** *** Creating a process *)

Definition can_create (want : Z) (s : kstate) : Prop := wf s ∧ fits want s.
Definition can_add (want n : Z) (s : kstate) : Prop := wf s ∧ fits want s ∧ num_tasks s = n.

Lemma on_objs_can want : on_objs (can_create want).
Proof.
  apply on_objs_and; [apply on_objs_wf|]. intros s s' [= _ _ E _ _ _ _] ?. unfold fits in *. by rewrite E.
Qed.

Lemma on_objs_can_add want n : on_objs (can_add want n).
Proof.
  apply on_objs_and; [apply on_objs_wf|]. intros s s' [= _ _ E _ _ _ _] [??]. unfold fits in *. by rewrite E.
Qed.

Lemma can_ret want (x : Z) : hoare (can_create want) (mret x) (λ _, wf).
Proof. apply hoare_ret. by intros s [? _]. Qed.

Lemma add_ret want n (x : Z) : hoare (can_add want n) (mret x) (λ _, wf).
Proof. apply hoare_ret. by intros s [? _]. Qed.

Ltac can_skip := apply hoare_skip; [apply on_objs_can|solve [quiet_auto]|]; intros ?.
Ltac add_skip := apply hoare_skip; [apply on_objs_can_add|solve [quiet_auto]|]; intros ?.

Lemma wf_elf_finish want n hdr bufs kstack mx top pml4 :
  n < 64 → hoare (can_add want n) (elf_finish hdr bufs kstack mx top (-1) pml4 want) (λ _, wf).
Proof.
  intros Hn. unfold elf_finish, e_entry. do 3 add_skip.
  apply hoare_gets. intros n'. destruct (decide (n' = n)) as [->|]; [|by intros s b s' [(_ & _ & ->) ->]].
  apply (hoare_pre _ (can_add want n)). { by intros s [? ?]. }
  assert (Hadd := hoare_add_task want n kstack kstack (λ _, mret tt) (λ _, pml4) (λ _, USER_CODE_ADDR)
    (u64 (mx - 0x400000 + 4095) / 4096)
    (λ pid _, puts (chars "[kernel] ELF process #") ;; puthex pid ;; puts (chars " created" ++ crlf) ;; mret (i32 pid))
    (λ _, wf) Hn). apply Hadd; [|auto with quiet]. intros pid. hoare_auto.
Qed.

Lemma wf_elf_load want n buf bufs kstack mx :
  n < 64 → hoare (can_add want n) (elf_load buf bufs kstack mx (-1) want) (λ _, wf).
Proof.
  intros Hn. unfold elf_load. add_skip. destruct (a =? 0); [do 2 add_skip; apply add_ret|]. do 2 add_skip.
  apply hoare_skip; [apply on_objs_can_add| |]. { apply quiet_for_phdrs. intros. auto with quiet. }
  intros [u|]; [|apply add_ret]. cbv zeta. add_skip.
  destruct (negb _); add_skip; [apply add_ret|by apply wf_elf_finish].
Qed.

Lemma scan_pid_none want s n : fits want s → num_tasks s = n →
  (if 0 <? want then scan_pid (Z.to_nat n) 0 want (-1) else mret (Some (-1))) = mret (Some (-1)).
Proof. intros [->|[-> Hn]] <-; [done|]. by rewrite Hn. Qed.

Lemma wf_create_elf want binary size : hoare (can_create want) (create_elf binary size want) (λ _, wf).
Proof.
  unfold create_elf. destruct (size <? _); [apply can_ret|]. destruct (_ <? size); [apply can_ret|]. cbv zeta.
  can_skip. destruct a as [bufs|]; [|apply can_ret]. do 3 can_skip.
  destruct (negb _); [can_skip; apply can_ret|]. can_skip. destruct a2 as [mx|]; [|done].
  apply hoare_gets. intros n. apply (hoare_pre _ (can_add want n)). { by intros s [[??] ?]. }
  destruct (Z.leb_spec MAX_TASKS n) as [|Hn]; [add_skip; apply add_ret|].
  add_skip. destruct (_ =? 0); [add_skip; apply add_ret|].
  intros s b s' Hc E. rewrite (scan_pid_none want s n) in E by apply Hc.
  revert E. change (mret (Some (-1)) ≫= ?f) with (f (Some (-1))). cbv beta iota. by apply (wf_elf_load want n).
Qed.

Lemma wf_create_flat want binary size la : hoare (can_create want) (create_flat binary size la want) (λ _, wf).
Proof.
  unfold create_flat. apply hoare_gets. intros n. apply (hoare_pre _ (can_add want n)). { by intros s [[??] ?]. }
  destruct (Z.leb_spec MAX_TASKS n) as [|Hn]; [apply add_ret|]. cbv zeta.
  destruct (16 <? _); [add_skip; apply add_ret|].
  add_skip. destruct (_ =? 0); [add_skip; apply add_ret|].
  add_skip. destruct a0 as [c|]; [apply add_ret|]. add_skip. destruct (_ =? 0); [apply add_ret|]. do 3 add_skip.
  destruct (negb _); [apply add_ret|]. add_skip. destruct (negb _); [apply add_ret|]. do 3 add_skip.
  assert (Hadd := hoare_add_task want n a a (λ _, mret tt) (λ _, a0) (λ _, la) (u64 (size + 4095) / 4096)
    (λ pid _, puts (chars "[kernel] Process #") ;; puthex pid ;; puts (chars " created" ++ crlf) ;; mret (i32 pid))
    (λ _, wf) Hn). apply Hadd; [|auto with quiet]. intros pid. hoare_auto.
Qed.

Lemma wf_task_create want binary size la : hoare (can_create want) (task_create binary size la want) (λ _, wf).
Proof. unfold task_create. can_skip. destruct a; [apply wf_create_elf|apply wf_create_flat]. Qed.

Lemma wf_spawn_at addr size : hoare wf (sys_spawn_at addr size) (λ _, wf).
Proof.
  unfold sys_spawn_at. destruct (_ || _); [hoare_auto|]. hoare_step. destruct a; [|hoare_auto].
  apply (hoare_pre _ (can_create 0)); [|apply wf_create_elf]. intros s Hs. split; [done|by left].
Qed.

(** ** The dispatcher *)

Lemma wf_int_result m : hoare wf m (λ _, wf) → hoare wf (int_result m) (λ _, wf).
Proof. intros Hm. unfold int_result. eapply hoare_bind; [exact Hm|]. intros ?. by apply hoare_ret. Qed.

Lemma wf_syscall_handler n a1 a2 a3 a4 : 0 ≤ a4 → hoare wf (syscall_handler n a1 a2 a3 a4) (λ _, wf).
Proof.
  intros Ha. assert (Hq : ∀ m : M Z, quiet m → hoare wf m (λ _, wf)) by (intros; by apply hoare_quiet; [apply on_objs_wf|]).
  unfold syscall_handler. destruct (syscall_of n) as [c|]; [|hoare_auto].
  destruct c; cbn [syscall_case]; try apply wf_int_result;
    first [ apply wf_send; done | apply wf_recv | apply wf_wait | apply wf_wait_any | apply wf_irq_register
          | apply wf_kill | apply wf_nanosleep | apply wf_clone | apply wf_futex_op | apply wf_spawn_at
          | apply Hq; solve [unfold sys_getpid, sys_getstate, sys_getticks, sys_shutdown; quiet_auto]
          | eapply (hoare_bind _ _ _ (λ _, wf)); [apply wf_exit|intros; by apply hoare_ret] ].
Qed.

(** ** Scheduling *)

(** No task is marked RUNNING. *)
Definition idle (s : kstate) : Prop := ∀ i t, tasks s !! i = Some t → t_state t ≠ TASK_RUNNING.

Lemma on_objs_idle : on_objs (λ s, wf s ∧ idle s).
Proof. apply on_objs_and; [apply on_objs_wf|]. intros s s' [= E _ _ _ _ _ _] Hi. unfold idle. by rewrite E. Qed.

(** [wf] would hold if [next] were the current task. *)
Definition idle_but (next : Z) (s : kstate) : Prop :=
  length (tasks s) = 64%nat ∧ (-1 ≤ next < 64 → wf (set_current_task next s)).

Lemma idle_idle_but next s : wf s → idle s → idle_but next s.
Proof.
  intros [Hlen Htk Hnum Hcur Hnd Hplt Hnext Hrun Hfl Hfn Hff Hil Hii] Hi. split; [done|]. intros Hnx.
  split; simpl; try done. intros i t Ht Hr. by destruct (Hi i t).
Qed.

(** Taking the current task off the processor. *)
Lemma idle_after s i t f :
  wf_at (Z.of_nat i) s → tasks s !! i = Some t → benign f t → t_state (f t) ≠ TASK_RUNNING →
  wf (set_tasks (<[i := f t]> (tasks s)) s) ∧ idle (set_tasks (<[i := f t]> (tasks s)) s).
Proof.
  intros [Hs Hc] Ht Hb Hst. split; [by apply wf_update|]. intros j t' Hj Hr. simpl in Hj.
  destruct (decide (i = j)) as [->|Hne].
  - rewrite list_lookup_insert_eq in Hj by (by eapply lookup_lt_Some). by simplify_eq.
  - rewrite list_lookup_insert_ne in Hj by done. assert (Hx := wf_running _ Hs _ _ Hj Hr). lia.
Qed.

Lemma hoare_park cur x :
  x ≠ TASK_RUNNING → hoare (wf_at cur) (upd_task cur (t_set_state x)) (λ _ s, wf s ∧ idle s).
Proof.
  intros Hx s a s' Hs E. apply upd_task_inv in E as (t & Hi & Ht & ->).
  apply idle_after; [by rewrite Z2Nat.id|done|by apply benign_state|done].
Qed.

Lemma wf_save_frame cur r : hoare (wf_at cur) (save_frame r) (λ _, wf_at cur).
Proof.
  unfold save_frame. do 3 (apply hoare_skip; [apply on_objs_wf_at|solve [quiet_auto]|]; intros ?).
  apply hoare_upd_at. intros. auto with wf.
Qed.

Lemma wf_schedule_next : hoare (λ s, wf s ∧ idle s) schedule_next idle_but.
Proof.
  unfold schedule_next. do 2 (apply hoare_skip; [apply on_objs_idle|solve [quiet_auto]|]; intros ?).
  destruct (a <=? 1); [apply hoare_ret; intros s [??]; by apply idle_idle_but|].
  apply (hoare_bind _ _ _ (λ o s, match o with Some k => idle_but k s | None => wf s ∧ idle s end)).
  2:{ intros [k|]; apply hoare_ret; [done|]. intros s [??]. by apply idle_idle_but. }
  generalize 1 at 2. generalize (Z.to_nat (a - 1)). intros n. induction n as [|n IH]; intros i; cbn [for_exit]; [by apply hoare_ret|].
  set (k := Z.rem (a0 + i) a).
  apply (hoare_bind _ _ _ (λ o s, match o with Some k => idle_but k s | None => wf s ∧ idle s end)).
  2:{ intros [k'|]; [by apply hoare_ret|]. apply IH. }
  apply hoare_skip; [apply on_objs_idle|solve [quiet_auto]|]. intros t. destruct (is_ready t); [|by apply hoare_ret].
  eapply (hoare_bind _ _ _ (λ _, idle_but k)); [|intros ?; by apply hoare_ret].
  intros s b s' [Hs Hid] E. apply upd_task_inv in E as (t' & Hi & Ht & ->).
  assert (Hlen := wf_len _ Hs). pose proof (lookup_lt_Some _ _ _ Ht).
  split; [simpl; by rewrite length_insert|]. intros Hk.
  apply (wf_run (set_current_task k s) (Z.to_nat k) t'); [|done|simpl; lia].
  by apply (idle_idle_but k s).
Qed.

Lemma wf_switch_to next : hoare (idle_but next) (switch_to next) (λ _, wf).
Proof.
  unfold switch_to. intros s b s' [Hlen Hwf] E. apply bind_inv in E as ([] & s1 & Eu & E).
  apply upd_task_inv in Eu as (t & Hi & Ht & ->). pose proof (lookup_lt_Some _ _ _ Ht).
  apply bind_inv in E as ([] & s2 & Em & E). injection Em as <-.
  assert (Hw := wf_run (set_current_task next s) (Z.to_nat next) t (Hwf ltac:(lia)) Ht ltac:(simpl; lia)).
  refine (hoare_quiet wf _ on_objs_wf _ _ _ _ _ E); [quiet_auto|exact Hw].
Qed.

Lemma wf_schedule r : hoare wf (schedule r) (λ _, wf).
Proof.
  unfold schedule. apply hoare_at. intros c. apply hoare_gets. intros cur.
  apply (hoare_pre _ (wf_at cur)). { by intros s [[??]?]. }
  eapply (hoare_bind _ _ _ (λ _ s, wf s ∧ idle s)).
  2:{ intros ?. eapply hoare_bind; [apply wf_schedule_next|]. intros next. apply wf_switch_to. }
  destruct (Z.leb_spec 0 cur) as [Hc|Hc].
  - simpl. eapply hoare_bind; [apply wf_save_frame|]. intros ?. by apply hoare_park.
  - apply hoare_ret. intros s [Hs <-]. split; [done|]. intros i t Ht Hr.
    assert (Hx := wf_running _ Hs _ _ Ht Hr). lia.
Qed.

Lemma wf_exit_idle : hoare wf sys_exit (λ _ s, wf s ∧ idle s).
Proof.
  unfold sys_exit. apply hoare_at. intros c. apply hoare_gets. intros cur.
  apply (hoare_pre _ (wf_at cur)). { by intros s [[??]?]. }
  destruct (Z.ltb_spec cur 0) as [Hc|Hc].
  { apply hoare_ret. intros s [Hs <-]. split; [done|]. intros i t Ht Hr.
    assert (Hx := wf_running _ Hs _ _ Ht Hr). lia. }
  apply hoare_skip; [apply on_objs_wf_at|auto with quiet|]. intros t.
  eapply hoare_bind; [apply hoare_when; intros _; apply hoare_upd_at; intros; auto with wf|]. intros ?.
  apply hoare_skip; [apply on_objs_wf_at|auto with quiet|]. intros t'.
  eapply (hoare_bind _ _ _ (λ _, wf_at cur)).
  { apply hoare_when. intros _. apply hoare_skip; [apply on_objs_wf_at|auto with quiet|]. intros ?.
    apply hoare_upd_at. intros. auto with wf. }
  intros ?. apply hoare_skip; [apply on_objs_wf_at|auto with quiet|]. intros ?.
  eapply hoare_bind; [by apply hoare_park|]. intros ?.
  apply hoare_quiet; [apply on_objs_idle|quiet_auto].
Qed.

(** ** The interrupt entry *)

Lemma wf_user_fault r cr2 : hoare wf (user_fault r cr2) (λ _, wf).
Proof.
  unfold user_fault. do 8 hoare_step. eapply hoare_bind; [apply wf_exit_idle|]. intros ?.
  apply hoare_skip; [apply on_objs_idle|auto with quiet|]. intros [i|]; [|done].
  apply (hoare_pre _ (idle_but i)); [|apply wf_switch_to]. intros s [??]. by apply idle_idle_but.
Qed.

Lemma wf_irq_handler r : hoare wf (irq_handler r) (λ _, wf).
Proof.
  unfold irq_handler. cbv zeta. do 3 hoare_step. destruct (_ && _ && _); [apply wf_schedule|].
  eapply (hoare_bind _ _ _ (λ _, wf)); [apply hoare_when; intros; apply wf_keyboard|]. intros ?. by apply hoare_ret.
Qed.

Lemma wf_syscall_entry r : 0 ≤ r_rcx r → hoare wf (syscall_entry r) (λ _, wf).
Proof.
  intros Hr. unfold syscall_entry. eapply hoare_bind; [by apply wf_syscall_handler|]. intros v. cbv beta zeta.
  hoare_step. destruct (1 <? a); [|hoare_auto]. apply hoare_at. intros c.
  eapply hoare_bind; [apply wf_save_frame|]. intros ?. apply hoare_gets. intros cur.
  apply (hoare_pre _ (wf_at cur)). { by intros s [[??]?]. }
  eapply (hoare_bind _ _ _ (λ t s, wf_at cur s ∧ 0 ≤ cur ∧ tasks s !! Z.to_nat cur = Some t)).
  { intros s t s' Hs E. by apply get_task_inv in E as (-> & ? & ?). }
  intros t. eapply (hoare_bind _ _ _ (λ _ s, wf s ∧ idle s)).
  2:{ intros ?. eapply hoare_bind; [apply wf_schedule_next|]. intros next. apply wf_switch_to. }
  destruct (negb (is_blocked t) && negb (is_exited t)) eqn:Eb; simpl.
  - apply (hoare_pre _ (wf_at cur)); [by intros s [? _]|]. by apply hoare_park.
  - apply hoare_ret. intros s ([Hs Hc] & Hc0 & Ht). split; [done|]. intros i t' Ht' Hrun.
    assert (Hx := wf_running _ Hs _ _ Ht' Hrun). replace i with (Z.to_nat cur) in Ht' by lia. simplify_eq.
    unfold is_blocked, is_exited in Eb. rewrite Hrun in Eb. done.
Qed.

Lemma wf_isr_handler r cr2 : 0 ≤ r_rcx r → hoare wf (isr_handler r cr2) (λ _, wf).
Proof.
  intros Hr. unfold isr_handler. cbv zeta. destruct (_ <=? 31).
  { destruct (_ && _); [apply wf_user_fault|]. apply hoare_quiet; [apply on_objs_wf|].
    unfold panic, dump_tables. quiet_auto. }
  destruct (_ && _); [apply wf_irq_handler|]. destruct (_ =? 0x80); [by apply wf_syscall_entry|]. hoare_auto.
Qed.

(** ** Boot *)

Lemma same_cur_create binary size la want : same_cur (task_create binary size la want).
Proof.
  assert (Hph : ∀ b o, quiet (for_phdrs phdr_fuel b 0 tt (λ ph _, load_segment b o ph))).
  { intros. apply quiet_for_phdrs. intros. auto with quiet. }
  unfold task_create, create_elf, create_flat, elf_load, elf_finish, e_entry, pick_pid, take_pid, when.
  same_cur_auto; auto using same_cur_quiet.
Qed.

Lemma hoare_upd_can want i f : (∀ t, benign f t) → hoare (can_create want) (upd_task i f) (λ _, can_create want).
Proof.
  intros Hb s a s' [Hs Hf] E. split; [by eapply hoare_upd_task|].
  by apply upd_task_inv in E as (t & _ & _ & ->).
Qed.

Lemma idt_init_can want : hoare (can_create want) idt_init (λ _, can_create want).
Proof.
  unfold idt_init. eapply hoare_bind.
  - apply hoare_for_nat. intros i. apply hoare_gets. intros hs. destruct (arr_in hs i); [|apply hoare_undef].
    apply hoare_modify.
    intros s [[[Hlen Htk Hnum Hcur Hnd Hplt Hnext Hrun Hfl Hfn Hff Hil Hii] Hf] <-]. split; [|done].
    split; simpl; try done; [by rewrite length_insert|]. by apply Forall_insert.
  - intros ?. apply hoare_quiet; [apply on_objs_can|]. unfold idt_set_entry, cpu_event. quiet_auto.
Qed.

Lemma same_cur_idt_init : same_cur idt_init.
Proof.
  assert (Hfor : ∀ n i body, (∀ j, same_cur (body j)) → same_cur (for_nat n i body)).
  { intros n. induction n as [|n IH]; intros i body Hb; cbn [for_nat]; [by apply same_cur_quiet, quiet_ret|].
    apply same_cur_bind; [done|]. intros ?. by apply IH. }
  unfold idt_init, idt_set_entry, cpu_event. apply same_cur_bind; [apply Hfor; intros; same_cur_auto|].
  intros ?. apply same_cur_quiet. quiet_auto.
Qed.

Lemma quiet_pmm_init : quiet pmm_init.
Proof. unfold pmm_init, pmm_entry, pmm_push. quiet_auto. Qed.

Lemma quiet_gdt : quiet gdt_setup_tss.
Proof. unfold gdt_setup_tss, store32, store16, store_le, cpu_event. quiet_auto. Qed.

Lemma wf_scheduler_start : hoare (wf_at (-1)) scheduler_start (λ _, wf).
Proof.
  unfold scheduler_start. apply hoare_skip; [apply on_objs_wf_at|solve [quiet_auto]|]. intros n.
  destruct (n =? 0); [apply hoare_ret; by intros s [? _]|].
  intros s b s' [Hs Hc] E. apply bind_inv in E as ([] & s1 & Em & E). injection Em as <-.
  apply bind_inv in E as ([] & s2 & Eu & E). apply upd_task_inv in Eu as (t & _ & Ht & ->).
  assert (Hid : idle s). { intros i t' Ht' Hr. assert (Hx := wf_running _ Hs _ _ Ht' Hr). lia. }
  assert (Hw := wf_run (set_current_task 0 s) 0 t (proj2 (idle_idle_but 0 s Hs Hid) ltac:(lia)) Ht eq_refl).
  refine (hoare_quiet wf _ on_objs_wf _ _ _ _ _ E); [quiet_auto|exact Hw].
Qed.

Lemma boot_state_wf m tape : wf (boot_state m tape).
Proof.
  unfold boot_state. split; cbn [tasks num_tasks current_task next_pid futex_waiters num_futex_waiters irq_handlers].
  all: try done; try lia.
  - apply Forall_replicate. split; [apply ring_ok_zero|]. simpl. lia.
  - apply NoDup_nil_2.
  - intros t. unfold live_tasks. cbn [tasks num_tasks]. set_solver.
  - intros i t Ht. apply lookup_replicate_1 in Ht as [-> _]. done.
  - apply Forall_replicate. lia.
Qed.

Lemma wf_kmain m tape res s' : kmain (boot_state m tape) = Ok res s' → wf s'.
Proof.
  set (P := λ s, can_create 1 s ∧ current_task s = -1).
  assert (HP : on_objs P). { apply on_objs_and; [apply on_objs_can|]. by intros s s1 [= _ -> _ _ _ _ _]. }
  assert (Hsk : ∀ {A B} (m : M A) (f : A → M B) Q, quiet m → (∀ a, hoare P (f a) Q) → hoare P (m ≫= f) Q).
  { intros. by apply hoare_skip. }
  enough (Hk : hoare P kmain (λ _, wf)).
  { apply Hk. split; [|done]. split; [apply boot_state_wf|by right]. }
  unfold kmain. apply Hsk; [quiet_auto|]. intros ?.
  apply (hoare_bind _ _ _ (λ _, P)).
  { intros s x s1 [Hc Hcur] E. split; [by eapply idt_init_can|by eapply same_cur_idt_init]. }
  intros ?. unfold pic_remap, io_wait, pit_init, paging_init.
  do 3 (apply Hsk; [quiet_auto|]; intros ?).
  do 6 (apply Hsk; [cbn [Z.eqb Pos.eqb]; quiet_auto|]; intros ?).
  apply Hsk; [apply quiet_pmm_init|]. intros ?. apply Hsk; [quiet_auto|]. intros ?.
  apply (hoare_bind _ _ _ (λ _, P)).
  { unfold task_init. apply Hsk; [quiet_auto|]. intros ?. apply hoare_for_nat. intros j s x s1 [Hc Hcur] E.
    split; [|by eapply same_cur_upd].
    eapply (hoare_upd_can 1 j (t_set_state TASK_EXITED)); [intros; auto with wf|done|done]. }
  intros ?. apply Hsk; [apply quiet_gdt|]. intros ?. cbv zeta.
  apply (hoare_bind _ _ _ (λ _, wf_at (-1))).
  { intros s x s1 [Hc Hcur] E. split; [by eapply wf_task_create|by eapply same_cur_create]. }
  intros ?. apply hoare_skip; [apply on_objs_wf_at|quiet_auto|]. intros ?.
  eapply hoare_bind; [apply wf_scheduler_start|]. intros [r|]; [by apply hoare_ret|done].
Qed.

(** ** The system as a transition relation *)

(** An undisturbed run.  Between traps user code changes memory, but not the
    kernel image, where the C objects are; devices queue interrupts; a trap runs
    [isr_handler], which returns.  A handler that stores through a pointer into the
    image does not return in the model ([Undef]), and a handler is not itself
    interrupted, except in [hlt]. *)
Inductive sys_step : kstate → kstate → Prop :=
| step_user s m :
    (∀ a, in_image a = true → mget m a = mget (mem s) a) → sys_step s (set_mem m s)
| step_devices s tape : sys_step s (set_irq_tape tape s)
| step_trap s r cr2 res s' :
    Forall (λ w, 0 ≤ w < 2 ^ 64) (regs_words r) → isr_handler r cr2 s = Ok res s' → sys_step s s'.

Lemma sys_step_wf s s' : sys_step s s' → wf s → wf s'.
Proof.
  intros [s0 m _|s0 tape|s0 r cr2 res s1 Hr E] Hs.
  - by apply (on_objs_wf s0).
  - by apply (on_objs_wf s0).
  - eapply (wf_isr_handler r cr2); [|done|done].
    apply (Forall_lookup_1 _ _ 12%nat (r_rcx r)) in Hr; [simpl in Hr; lia|done].
Qed.

End Invariant.
