(* ===== verification/Futex.v ===== *)
(** * Futex: what the wake loop of [sys_futex] does

    The table of waiters is an unordered collection; the loop removes an entry by
    moving the last one into its place and looks at that place again. *)

From S2P Require Import Prelude State Machine Walk Serial Space Pmm Paging Tasks UserBuf Ipc Vm Lifecycle Irq Elf Quiet Wf.

(** The waiters: address and task index. *)
Definition waiters (s : kstate) : list (Z * Z) := take (Z.to_nat (num_futex_waiters s)) (futex_waiters s).

(** Removal of entry [i]: the last entry takes its place. *)
Definition swap_remove (i : nat) (l : list (Z * Z)) : list (Z * Z) :=
  match l !! (length l - 1)%nat with
  | Some y => take (length l - 1) (<[i := y]> l)
  | None => l
  end.

Lemma swap_remove_perm l i x : l !! i = Some x → l ≡ₚ x :: swap_remove i l.
Proof.
  intros Hx. pose proof (lookup_lt_Some _ _ _ Hx) as Hi. unfold swap_remove.
  destruct (lookup_lt_is_Some_2 l (length l - 1)) as [y Hy]; [lia|]. rewrite Hy.
  apply list_elem_of_split_length in Hx as (l1 & l2 & -> & Hl1). rewrite length_app in *. simpl in *.
  destruct l2 as [|z l2 _] using rev_ind.
  - rewrite take_insert_ge by (simpl; lia). rewrite take_app_le by (simpl; lia).
    rewrite take_ge by (simpl; lia). by rewrite Permutation_app_comm.
  - rewrite length_app in *. simpl in *. rewrite lookup_app_r in Hy by lia.
    replace (length l1 + S (length l2 + 1) - 1 - length l1)%nat with (S (length l2)) in Hy by lia.
    simpl in Hy. rewrite lookup_app_r, Nat.sub_diag in Hy by lia. injection Hy as ->.
    subst i. rewrite insert_app_r_alt, Nat.sub_diag by lia. simpl.
    rewrite take_app_ge by lia. replace (length l1 + S (length l2 + 1) - 1 - length l1)%nat with (S (length l2)) by lia.
    simpl. rewrite take_app_length. rewrite <- Permutation_middle. apply perm_skip, Permutation_app_head.
    by rewrite Permutation_app_comm.
Qed.

Lemma swap_remove_prefix l i : (i < length l)%nat → take i (swap_remove i l) = take i l.
Proof.
  intros Hi. unfold swap_remove. destruct (l !! _) as [y|]; [|done].
  rewrite take_take, Nat.min_l by lia. apply take_insert_ge. lia.
Qed.

Lemma swap_remove_length l i : (i < length l)%nat → length (swap_remove i l) = (length l - 1)%nat.
Proof.
  intros Hi. unfold swap_remove. destruct (lookup_lt_is_Some_2 l (length l - 1)) as [y ->]; [lia|].
  rewrite length_take, length_insert. lia.
Qed.

Section Futex.
Context `{Platform}.

(** The state without entry [i]. *)
Definition unwait (i : Z) (s : kstate) : kstate :=
  let ws := futex_waiters s in
  let n := num_futex_waiters s in
  set_futex_waiters (<[Z.to_nat i := default (0, 0) (ws !! Z.to_nat (n - 1))]> ws) (set_num_futex_waiters (n - 1) s).

Lemma waiters_length s : wf s → Z.of_nat (length (waiters s)) = num_futex_waiters s.
Proof.
  intros Hs. pose proof (wf_futex_num _ Hs). pose proof (wf_futex_len _ Hs). unfold waiters. rewrite length_take. lia.
Qed.

Lemma waiters_unwait s i :
  wf s → 0 ≤ i < num_futex_waiters s → waiters (unwait i s) = swap_remove (Z.to_nat i) (waiters s).
Proof.
  intros Hs Hi. pose proof (wf_futex_num _ Hs). pose proof (wf_futex_len _ Hs).
  assert (Hl := waiters_length s Hs). unfold swap_remove. set (n := num_futex_waiters s) in *.
  replace (length (waiters s) - 1)%nat with (Z.to_nat (n - 1)) by lia.
  unfold waiters at 2. fold n. rewrite lookup_take_lt by lia.
  destruct (lookup_lt_is_Some_2 (futex_waiters s) (Z.to_nat (n - 1))) as [y Hy]; [lia|]. rewrite Hy.
  unfold waiters, unwait. simpl. fold n. rewrite Hy. simpl. unfold waiters. fold n.
  destruct (decide (i < n - 1)).
  - rewrite !take_insert_lt by lia. by rewrite take_take, Nat.min_l by lia.
  - rewrite !take_insert_ge by lia. by rewrite take_take, Nat.min_l by lia.
Qed.

Lemma wf_unwait s i : wf s → 0 ≤ i < num_futex_waiters s → wf (unwait i s).
Proof.
  intros Hs Hi. pose proof (wf_futex_num _ Hs). pose proof (wf_futex_len _ Hs). pose proof (waiters_length s Hs).
  apply wf_set_futex; [done|by rewrite length_insert|lia|].
  change (Forall (λ w : Z * Z, 0 ≤ w.2 < 64) (waiters (unwait i s))). rewrite waiters_unwait by done.
  assert (Hf : Forall (λ w : Z * Z, 0 ≤ w.2 < 64) (waiters s)) by apply Hs.
  destruct (lookup_lt_is_Some_2 (waiters s) (Z.to_nat i)) as [x Hx]; [lia|].
  rewrite (swap_remove_perm _ _ _ Hx) in Hf. by apply Forall_cons in Hf as [_ ?].
Qed.

(** One turn of the loop. *)
Lemma futex_turn fuel uaddr i w val s x :
  wf s → 0 ≤ i < num_futex_waiters s → w < i32 val → waiters s !! Z.to_nat i = Some x →
  (x.1 ≠ uaddr → futex_wake (S fuel) uaddr i w val s = futex_wake fuel uaddr (i + 1) w val s) ∧
  (x.1 = uaddr → ∃ t, tasks s !! Z.to_nat x.2 = Some t ∧
     futex_wake (S fuel) uaddr i w val s =
       if is_blocked t
       then futex_wake fuel uaddr i (w + 1) val
              (unwait i (set_tasks (<[Z.to_nat x.2 := t_set_state TASK_READY t]> (tasks s)) s))
       else futex_wake fuel uaddr i w val (unwait i s)).
Proof.
  intros Hs Hi Hw Hx. pose proof (wf_futex_num _ Hs). pose proof (wf_futex_len _ Hs).
  assert (Hxr : 0 ≤ x.2 < 64) by apply (proj1 (Forall_lookup _ _) (wf_futex _ Hs) _ _ Hx).
  assert (Hx' : futex_waiters s !! Z.to_nat i = Some x).
  { unfold waiters in Hx. by rewrite lookup_take_lt in Hx by lia. }
  assert (Hget : ∀ s', arr_get (futex_waiters s) i s' = Ok x s').
  { intros s'. unfold arr_get. replace (0 <=? i) with true by lia. by rewrite Hx'. }
  destruct (lookup_lt_is_Some_2 (futex_waiters s) (Z.to_nat (num_futex_waiters s - 1))) as [y Hy]; [lia|].
  assert (Hlast : ∀ s', arr_get (futex_waiters s) (num_futex_waiters s - 1) s' = Ok y s').
  { intros s'. unfold arr_get. replace (0 <=? num_futex_waiters s - 1) with true by lia. by rewrite Hy. }
  destruct (lookup_lt_is_Some_2 (tasks s) (Z.to_nat x.2)) as [t Ht]; [rewrite (wf_len _ Hs); lia|].
  split; [intros Hne|intros Heq; exists t; split; [done|]].
  all: cbn [futex_wake]; rewrite (bind_Ok (gets num_futex_waiters) _ s _ s eq_refl).
  all: replace ((i <? num_futex_waiters s) && (w <? i32 val)) with true by lia.
  all: rewrite (bind_Ok (gets futex_waiters) _ s _ s eq_refl); rewrite (bind_Ok _ _ _ _ _ (Hget s)).
  { by replace (x.1 =? uaddr) with false by lia. }
  replace (x.1 =? uaddr) with true by lia.
  rewrite (bind_Ok _ _ _ _ _ (get_task_eq s x.2 t ltac:(lia) Ht)).
  unfold unwait. simpl. rewrite Hy. simpl. destruct (is_blocked t).
  - step_by ltac:(step_by ltac:(apply (upd_task_eq _ _ _ t); [lia|done]); reflexivity).
    step_by ltac:(reflexivity). step_by ltac:(apply Hlast). step_by ltac:(reflexivity). reflexivity.
  - step_by ltac:(reflexivity). step_by ltac:(reflexivity). step_by ltac:(apply Hlast). step_by ltac:(reflexivity). reflexivity.
Qed.

(** ** The effect of waking *)

(** The tasks [ks], blocked waiters on [uaddr], became ready; some entries for
    [uaddr] left the table, and nothing else changed. *)
Record woke (uaddr : Z) (s s' : kstate) (ks : list nat) : Prop := {
  wk_nodup : NoDup ks;
  wk_from : ∀ k, k ∈ ks → ∃ t, tasks s !! k = Some t ∧ t_state t = TASK_BLOCKED ∧ (uaddr, Z.of_nat k) ∈ waiters s;
  wk_tasks : ∀ k, tasks s' !! k = (if decide (k ∈ ks) then t_set_state TASK_READY else id) <$> tasks s !! k;
  wk_others : filter (λ x : Z * Z, x.1 ≠ uaddr) (waiters s') ≡ₚ filter (λ x : Z * Z, x.1 ≠ uaddr) (waiters s);
  wk_sub : ∀ x, x ∈ waiters s' → x ∈ waiters s;
  wk_rest : s' = set_tasks (tasks s') (set_futex_waiters (futex_waiters s') (set_num_futex_waiters (num_futex_waiters s') s));
}.

Lemma woke_refl uaddr s : woke uaddr s s [].
Proof.
  split; [apply NoDup_nil_2|by intros k Hk%elem_of_nil| |done|done|by destruct s].
  intros k. rewrite decide_False by (by intros Hk%elem_of_nil). by destruct (tasks s !! k).
Qed.

Lemma woke_trans uaddr s1 s2 s3 ks ks' : woke uaddr s1 s2 ks → woke uaddr s2 s3 ks' → woke uaddr s1 s3 (ks ++ ks').
Proof.
  intros [N1 F1 T1 O1 S1 R1] [N2 F2 T2 O2 S2 R2].
  assert (Hdisj : ∀ k, k ∈ ks' → k ∉ ks ∧ ∃ t, tasks s1 !! k = Some t ∧ t_state t = TASK_BLOCKED).
  { intros k Hk. destruct (F2 k Hk) as (t & Ht & Hst & _). rewrite T1 in Ht.
    destruct (tasks s1 !! k) as [t1|]; [|done]. destruct (decide (k ∈ ks)) as [Hin|Hin]; injection Ht as <-; [discriminate|].
    split; [done|]. by exists t1. }
  split.
  - apply NoDup_app. split_and!; [done| |done]. intros k Hk Hk'. by destruct (Hdisj k Hk').
  - intros k [Hk|Hk]%elem_of_app; [by apply F1|]. destruct (Hdisj k Hk) as (_ & t & Ht & Hst).
    destruct (F2 k Hk) as (_ & _ & _ & Hin). eauto.
  - intros k. rewrite T2, T1, <- option_fmap_compose. f_equal.
    destruct (decide (k ∈ ks)), (decide (k ∈ ks')), (decide (k ∈ ks ++ ks')); try done; set_solver.
  - by rewrite O2.
  - auto.
  - rewrite R2, R1. by destruct s1, s2, s3.
Qed.

(** Removing an entry for [uaddr], its task blocked or not. *)
Lemma woke_unwait s i k :
  wf s → 0 ≤ i < num_futex_waiters s → waiters s !! Z.to_nat i = Some k → woke k.1 s (unwait i s) [].
Proof.
  intros Hs Hi Hx. assert (Hp := swap_remove_perm _ _ _ Hx). rewrite <- waiters_unwait in Hp by done.
  destruct (woke_refl k.1 s) as [N F T _ _ _]. split; try done.
  - rewrite Hp. rewrite filter_cons_False by (by intros []). done.
  - intros x Hin. rewrite Hp. by right.
Qed.

Lemma woke_ready s k t uaddr :
  tasks s !! Z.to_nat k = Some t → t_state t = TASK_BLOCKED → 0 ≤ k → (uaddr, k) ∈ waiters s →
  woke uaddr s (set_tasks (<[Z.to_nat k := t_set_state TASK_READY t]> (tasks s)) s) [Z.to_nat k].
Proof.
  intros Ht Hst Hk Hin. split; try done.
  - apply NoDup_singleton.
  - intros j ->%list_elem_of_singleton. exists t. by rewrite Z2Nat.id.
  - intros j. simpl. destruct (decide (j ∈ [Z.to_nat k])) as [->%list_elem_of_singleton|Hne].
    + rewrite Ht. apply list_lookup_insert_eq. by eapply lookup_lt_Some.
    + rewrite list_lookup_insert_ne by set_solver. by destruct (tasks s !! j).
Qed.

(** ** The loop *)

Lemma futex_wake_spec fuel uaddr val : ∀ s i w,
  wf s → 0 ≤ i ≤ num_futex_waiters s → num_futex_waiters s - i ≤ Z.of_nat fuel →
  (∀ x, x ∈ take (Z.to_nat i) (waiters s) → x.1 ≠ uaddr) →
  ∃ ks s', futex_wake fuel uaddr i w val s = Ok (w + Z.of_nat (length ks)) s' ∧ woke uaddr s s' ks ∧
    (ks = [] ∨ w + Z.of_nat (length ks) ≤ i32 val) ∧
    (w + Z.of_nat (length ks) < i32 val → ∀ x, x ∈ waiters s' → x.1 ≠ uaddr).
Proof.
  induction fuel as [|fuel IH]; intros s i w Hs Hi Hf Hpre; assert (Hl := waiters_length s Hs).
  all: destruct (decide (i < num_futex_waiters s ∧ w < i32 val)) as [[Hin Hw]|Hstop].
  2,4: exists [], s; rewrite Z.add_0_r; (split_and!; [|apply woke_refl|by left|]);
    [cbn [futex_wake]; rewrite (bind_Ok (gets num_futex_waiters) _ s _ s eq_refl);
       by replace ((i <? num_futex_waiters s) && (w <? i32 val)) with false by lia
    |intros Hlt x Hx; apply Hpre; rewrite take_ge by lia; done].
  { lia. }
  destruct (lookup_lt_is_Some_2 (waiters s) (Z.to_nat i)) as [x Hx]; [lia|].
  destruct (futex_turn fuel uaddr i w val s x) as [Hne Heq]; [done|lia|done|done|].
  destruct (decide (x.1 = uaddr)) as [Ha|Ha].
  - destruct (Heq Ha) as (t & Ht & E). rewrite E. clear E Hne Heq.
    assert (Hpre' : ∀ s1, waiters s1 = waiters s → wf s1 → num_futex_waiters s1 = num_futex_waiters s →
      ∀ y, y ∈ take (Z.to_nat i) (waiters (unwait i s1)) → y.1 ≠ uaddr).
    { intros s1 E1 Hs1 En y. rewrite waiters_unwait, swap_remove_prefix, E1 by (rewrite ?E1; lia || done). apply Hpre. }
    assert (Hxr : 0 ≤ x.2) by apply (proj1 (Forall_lookup _ _) (wf_futex _ Hs) _ _ Hx).
    destruct (is_blocked t) eqn:Eb.
    + unfold is_blocked in Eb. apply bool_decide_eq_true in Eb.
      set (s1 := set_tasks _ s).
      assert (Hs1 : wf s1) by (apply (wf_update s _ (t_set_state TASK_READY) t Hs Ht); by apply benign_state).
      destruct (IH (unwait i s1) i (w + 1)) as (ks & s' & E & Hwk & Hle & Hno);
        [apply wf_unwait; [done|simpl; lia]|simpl; lia|simpl; lia|by apply Hpre'|].
      exists (Z.to_nat x.2 :: ks), s'. cbn [length]. rewrite E. split_and!.
      * f_equal. lia.
      * apply (woke_trans uaddr s s1 s' [Z.to_nat x.2] ks).
        { apply woke_ready; [done|done|done|]. rewrite <- Ha. destruct x. by eapply list_elem_of_lookup_2. }
        apply (woke_trans uaddr s1 (unwait i s1) s' [] ks); [|done]. rewrite <- Ha.
        apply woke_unwait; [done|simpl; lia|done].
      * right. destruct Hle as [->|Hle]; simpl; lia.
      * intros Hlt. apply Hno. lia.
    + destruct (IH (unwait i s) i w) as (ks & s' & E & Hwk & Hle & Hno);
        [by apply wf_unwait; [|lia]|simpl; lia|simpl; lia|by apply Hpre'|].
      exists ks, s'. rewrite E. split_and!; [done| |done|done].
      apply (woke_trans uaddr s (unwait i s) s' [] ks); [|done]. rewrite <- Ha. apply woke_unwait; [done|lia|done].
  - rewrite Hne by done. apply IH; [done|lia|lia|].
    replace (Z.to_nat (i + 1)) with (S (Z.to_nat i)) by lia. rewrite (take_S_r _ _ x) by done.
    intros y [Hy| ->%list_elem_of_singleton]%elem_of_app; [by apply Hpre|done].
Qed.

End Futex.
