(* ===== verification/SchedSpec.v ===== *)
(** * SchedSpec: the scheduler's choices and the saved frames *)

From S2P Require Import Prelude State Machine Walk Serial Space Pmm Paging PagingOps CloneSpace Tasks UserBuf Ipc Vm Lifecycle Irq.
From S2P Require Import Elf Syscall Sched Quiet Wf Invariant.

(** ** Round robin *)

(** Task [i] places after the current one. *)
Definition after (s : kstate) (i : Z) : Z := (current_task s + i) mod num_tasks s.

Definition ready_at (s : kstate) (k : Z) : Prop := ∃ t, tasks s !! Z.to_nat k = Some t ∧ t_state t = TASK_READY.

(** The condition under which the scheduler's index arithmetic is in range. *)
Definition sched_ok (s : kstate) : Prop :=
  2 ≤ num_tasks s ≤ Z.of_nat (length (tasks s)) ∧ -1 ≤ current_task s < num_tasks s.

Lemma after_range s i : sched_ok s → 0 ≤ after s i < num_tasks s.
Proof. intros [??]. apply Z.mod_pos_bound. lia. Qed.

(** Fewer than [num_tasks] places on is another task. *)
Lemma after_ne s l : sched_ok s → 1 ≤ l < num_tasks s → 0 ≤ current_task s → current_task s ≠ after s l.
Proof.
  intros [Hn Hc] Hl H0 Hx. unfold after in Hx. destruct (Z.lt_ge_cases (current_task s + l) (num_tasks s)).
  - rewrite Z.mod_small in Hx by lia. lia.
  - rewrite <- (Z.mod_add _ (-1)), Z.mod_small in Hx by lia. lia.
Qed.

Section Sched.
Context `{Platform}.

Definition next_body (cur n i : Z) : M (option Z) :=
  let k := Z.rem (cur + i) n in
  t ← get_task k;
  if is_ready t then upd_task k (t_set_state TASK_RUNNING) ;; mret (Some k) else mret None.

(** One turn of the loop at a ready task, and at any other. *)
Lemma next_body_eq s i t :
  sched_ok s → 1 ≤ i → tasks s !! Z.to_nat (after s i) = Some t →
  next_body (current_task s) (num_tasks s) i s =
    if decide (t_state t = TASK_READY)
    then Ok (Some (after s i)) (set_tasks (<[Z.to_nat (after s i) := t_set_state TASK_RUNNING t]> (tasks s)) s)
    else Ok None s.
Proof.
  intros Hs Hi Ht. assert (Hr := after_range s i Hs). destruct (Hs) as [Hn Hc]. unfold next_body. cbv zeta.
  replace (Z.rem (current_task s + i) (num_tasks s)) with (after s i) by (symmetry; apply Z.rem_mod_nonneg; lia).
  step_by ltac:(apply get_task_eq; [lia|exact Ht]). unfold is_ready.
  destruct (decide (t_state t = TASK_READY)) as [Hst|Hst].
  - rewrite bool_decide_eq_true_2 by done. by step_by ltac:(apply upd_task_eq; [lia|exact Ht]).
  - by rewrite bool_decide_eq_false_2.
Qed.

(** The loop from offset [i] on, [m] more turns. *)
Lemma next_loop s m i :
  sched_ok s → 1 ≤ i → i + Z.of_nat m = num_tasks s →
  (∃ j t, i ≤ j < num_tasks s ∧ tasks s !! Z.to_nat (after s j) = Some t ∧ t_state t = TASK_READY ∧
     (∀ l, i ≤ l < j → ¬ ready_at s (after s l)) ∧
     for_exit m i (next_body (current_task s) (num_tasks s)) s =
       Ok (Some (after s j)) (set_tasks (<[Z.to_nat (after s j) := t_set_state TASK_RUNNING t]> (tasks s)) s)) ∨
  ((∀ l, i ≤ l < num_tasks s → ¬ ready_at s (after s l)) ∧
   for_exit m i (next_body (current_task s) (num_tasks s)) s = Ok None s).
Proof.
  intros Hs. revert i. induction m as [|m IH]; intros i Hi Hm.
  { right. split; [lia|done]. }
  assert (Hr := after_range s i Hs). destruct (Hs) as [Hn Hc].
  destruct (lookup_lt_is_Some_2 (tasks s) (Z.to_nat (after s i))) as [t Ht]; [lia|].
  assert (Hb := next_body_eq s i t Hs Hi Ht). cbn [for_exit].
  destruct (decide (t_state t = TASK_READY)) as [Hst|Hst].
  - left. exists i, t. split_and!; try done; [lia..|]. by step_by ltac:(exact Hb).
  - assert (Hno : ¬ ready_at s (after s i)) by (intros (t' & Ht' & ?); congruence).
    destruct (IH (i + 1)) as [(j & t' & Hj & Ht' & Hst' & Hmin & E)|(Hnone & E)]; [lia|lia| |].
    + left. exists j, t'. split_and!; try done; [lia..| |].
      * intros l Hl. destruct (decide (l = i)) as [->|]; [done|]. apply Hmin. lia.
      * by step_by ltac:(exact Hb).
    + right. split; [|by step_by ltac:(exact Hb)].
      intros l Hl. destruct (decide (l = i)) as [->|]; [done|]. apply Hnone. lia.
Qed.

(** [schedule_next] picks the first ready task in cyclic order after the current
    one, or the current one when there is none. *)
Lemma schedule_next_spec s :
  sched_ok s →
  (∃ j t, 1 ≤ j < num_tasks s ∧ tasks s !! Z.to_nat (after s j) = Some t ∧ t_state t = TASK_READY ∧
     (∀ l, 1 ≤ l < j → ¬ ready_at s (after s l)) ∧
     schedule_next s =
       Ok (after s j) (set_tasks (<[Z.to_nat (after s j) := t_set_state TASK_RUNNING t]> (tasks s)) s)) ∨
  ((∀ l, 1 ≤ l < num_tasks s → ¬ ready_at s (after s l)) ∧ schedule_next s = Ok (current_task s) s).
Proof.
  intros Hs. destruct (Hs) as [Hn Hc].
  assert (E0 : schedule_next s =
    (o ← for_exit (Z.to_nat (num_tasks s - 1)) 1 (next_body (current_task s) (num_tasks s));
     mret (default (current_task s) o)) s).
  { unfold schedule_next. step_by ltac:(reflexivity). step_by ltac:(reflexivity).
    by replace (num_tasks s <=? 1) with false by lia. }
  destruct (next_loop s (Z.to_nat (num_tasks s - 1)) 1) as [(j & t & Hj & Ht & Hst & Hmin & E)|(Hno & E)];
    [done|lia|lia|left|right].
  - exists j, t. split_and!; try done; [lia..|]. rewrite E0. by step_by ltac:(exact E).
  - split; [done|]. rewrite E0. by step_by ltac:(exact E).
Qed.

(** ** [switch_to] *)

(** The state in which task [k] runs. *)
Definition running (k : nat) (t : task_t) (s : kstate) : kstate :=
  let s := set_current_task (Z.of_nat k) (set_tasks (<[k := t_set_state TASK_RUNNING t]> (tasks s)) s) in
  if t_pml4_phys t =? 0 then s else set_cr3 (t_pml4_phys t) (set_paging_root (t_pml4_phys t) s).

Lemma switch_to_eq s k t :
  tasks s !! k = Some t → switch_to (Z.of_nat k) s = Ok (FrameAt (t_rsp t)) (running k t s).
Proof.
  intros Ht. pose proof (lookup_lt_Some _ _ _ Ht). unfold switch_to.
  step_by ltac:(apply (upd_task_eq _ _ _ t); rewrite ?Nat2Z.id; [lia|done]). step_by ltac:(reflexivity).
  assert (Hk : ∀ s', tasks s' = <[Z.to_nat (Z.of_nat k) := t_set_state TASK_RUNNING t]> (tasks s) →
    get_task (Z.of_nat k) s' = Ok (t_set_state TASK_RUNNING t) s').
  { intros s' E. apply get_task_eq; [lia|]. rewrite E, Nat2Z.id. by apply list_lookup_insert_eq. }
  step_by ltac:(by apply Hk). rewrite Nat2Z.id in *. unfold running.
  change (t_pml4_phys (t_set_state TASK_RUNNING t)) with (t_pml4_phys t).
  destruct (t_pml4_phys t =? 0); cbn [negb when].
  - step_by ltac:(reflexivity). step_by ltac:(reflexivity). by step_by ltac:(by apply Hk).
  - step_by ltac:(reflexivity). step_by ltac:(reflexivity). by step_by ltac:(by apply Hk).
Qed.

(** ** Saved frames *)

(** The 22 words at address [a]. *)
Definition frame_at (m : gmap Z Z) (a : Z) : list Z := (λ i, mget m (a + 8 * i)) <$> seqZ 0 22.

Lemma for_nat_ext n i f g s :
  (∀ j s', i ≤ j < i + Z.of_nat n → f j s' = g j s') → for_nat n i f s = for_nat n i g s.
Proof.
  revert i s. induction n as [|n IH]; intros i s Hfg; [done|]. cbn [for_nat]. unfold mbind, M_bind.
  rewrite Hfg by lia. destruct (g i s); try done. apply IH. intros. apply Hfg. lia.
Qed.

Lemma save_frame_runs W s fl cur t r :
  kwin W s → kfree W s fl → current_task s = Z.of_nat cur → tasks s !! cur = Some t →
  W (t_stack_phys t) → t_stack_phys t ∉ fl → fresh (mem s) (cr3 s) (t_stack_phys t) →
  Forall (λ w, 0 ≤ w < 2 ^ 64) (regs_words r) →
  ∃ m', save_frame r s = Ok tt (set_tasks (<[cur := t_set_rsp (t_stack_phys t) t]> (tasks s)) (set_mem m' s)) ∧
    frame_at m' (t_stack_phys t) = regs_words r ∧
    same_xlat (cr3 s) (mem s) m' ∧ (∀ a, page_of a ≠ t_stack_phys t → mget m' a = mget (mem s) a).
Proof.
  intros Hw Hf Hc Ht HW Hnin Hfr Hreg. set (p := t_stack_phys t) in *.
  assert (Hpg := kw_win _ _ Hw p HW). assert (Hend := is_page_end _ Hpg). destruct Hpg as [Hpb Hpa].
  set (g := λ i, default 0 (regs_words r !! Z.to_nat i)).
  destruct (fill_loop W g 22 0 s p) as [E Hs]; [done..|lia|].
  exists (fill_from g 22 0 p (mem s)). split_and!; [| |done|].
  - unfold save_frame. step_by ltac:(reflexivity). rewrite Hc.
    step_by ltac:(apply (get_task_eq _ _ t); rewrite ?Nat2Z.id; [lia|done]). fold p.
    change (Z.to_nat (sizeof_registers_t / 8)) with 22%nat.
    step_by ltac:(etrans; [|exact E]; apply for_nat_ext; intros j s' Hj;
      destruct (lookup_lt_is_Some_2 (regs_words r) (Z.to_nat j)) as [w Hwj]; [simpl; lia|];
      step_by ltac:(unfold arr_get; replace (0 <=? j) with true by lia; rewrite Hwj; reflexivity);
      rewrite u64_small by lia; unfold g; rewrite Hwj; reflexivity).
    etrans; [apply (upd_task_eq _ _ _ t); simpl; rewrite ?Nat2Z.id; [lia|done]|]. by rewrite Nat2Z.id.
  - apply list_eq. intros i. unfold frame_at. rewrite list_lookup_fmap.
    destruct (decide (i < 22)%nat) as [Hi|Hi].
    + rewrite lookup_seqZ_lt by lia. simpl fmap. rewrite Z.add_0_l, mget_fill_in by lia. unfold g. rewrite Nat2Z.id.
      destruct (lookup_lt_is_Some_2 (regs_words r) i) as [w Hwi]; [simpl; lia|]. rewrite Hwi. simpl. f_equal.
      apply u64_small. rewrite Forall_forall in Hreg. apply Hreg. by eapply list_elem_of_lookup_2.
    + rewrite lookup_seqZ_ge by lia. symmetry. apply lookup_ge_None. simpl. lia.
  - intros a Ha. apply mget_fill_out; [done|lia|lia|done].
Qed.

End Sched.
