(* ===== verification/LifeProps.v ===== *)
(** * LifeProps: properties of clone, futexes, exit, wait and kill *)

From S2P Require Import Prelude State Machine Walk Serial Space Pmm Paging PagingOps CloneSpace BootMem Tasks.
From S2P Require Import Demo UserBuf Ipc IpcProps Vm Lifecycle Irq Elf Syscall Sched Quiet Wf WfCheck Invariant Futex SchedSpec.

Section LifeProps.
Context `{Platform} (W : Z → Prop).

(** ** The first frame of a task *)

(** Pushing words below [p + 8 k] on a page that holds no table. *)
Lemma push_words_runs ws : ∀ k s p,
  kwin W s → W p → fresh (mem s) (cr3 s) p → Z.of_nat (length ws) ≤ k ≤ 512 →
  ∃ m', push_words (p + 8 * k) ws s = Ok (p + 8 * (k - Z.of_nat (length ws))) (set_mem m' s) ∧
    same_xlat (cr3 s) (mem s) m' ∧
    (∀ i w, ws !! i = Some w → mget m' (p + 8 * (k - 1 - Z.of_nat i)) = u64 w) ∧
    (∀ a, ¬ p + 8 * (k - Z.of_nat (length ws)) ≤ a < p + 8 * k → mget m' a = mget (mem s) a).
Proof.
  induction ws as [|w ws IH]; intros k s p Hw Hp Hf Hk; cbn [push_words].
  { exists (mem s). split_and!; [|done|done|done]. simpl. rewrite Z.sub_0_r. by destruct s. }
  cbn [length] in *. destruct (kw_win _ _ Hw p Hp) as [Hpb Hpa].
  assert (Hu : u64 (p + 8 * k - 8) = p + 8 * (k - 1)) by (rewrite u64_small by lia; lia). rewrite Hu.
  assert (Hs : same_xlat (cr3 s) (mem s) (<[p + 8 * (k - 1) := u64 w]> (mem s))).
  { eapply kwin_insert; [done|done|lia|done]. }
  destruct (IH (k - 1) (set_mem (<[p + 8 * (k - 1) := u64 w]> (mem s)) s) p) as (m' & E & Hs' & Hin & Hout);
    [by apply kwin_same_xlat|done|by eapply fresh_same_xlat|lia|].
  exists m'. split_and!.
  - step_by ltac:(apply (kwin_store W); [done|done|lia]). rewrite E. simpl. f_equal. lia.
  - simpl in Hs'. by etrans.
  - intros [|i] v Hv; simpl in Hv.
    + injection Hv as <-. rewrite Hout by lia. simpl mem. replace (k - 1 - Z.of_nat 0) with (k - 1) by lia.
      apply mget_insert_eq.
    + rewrite <- (Hin i v Hv). f_equal. lia.
  - intros a Ha. rewrite Hout by lia. simpl. apply mget_insert_ne. lia.
Qed.

Lemma push_frame_runs s p rdi rip rsp :
  kwin W s → W p → fresh (mem s) (cr3 s) p → Forall (λ w, 0 ≤ w < 2 ^ 64) [rdi; rip; rsp] →
  ∃ m', push_frame p rdi rip rsp s = Ok p (set_mem m' s) ∧ same_xlat (cr3 s) (mem s) m' ∧
    frame_at m' p = initial_frame rdi rip rsp ∧ (∀ a, page_of a ≠ p → mget m' a = mget (mem s) a).
Proof.
  intros Hw Hp Hf Hr. destruct (kw_win _ _ Hw p Hp) as [Hpb Hpa].
  set (ws := initial_frame rdi rip rsp). assert (Hlen : length ws = 22%nat) by reflexivity.
  destruct (push_words_runs (rev ws) 22 s p) as (m' & E & Hs & Hin & Hout);
    [done|done|done|rewrite length_rev, Hlen; lia|].
  rewrite length_rev, Hlen in E, Hout. exists m'. split_and!.
  - unfold push_frame. rewrite u64_small by (unfold sizeof_registers_t; lia).
    change (p + sizeof_registers_t) with (p + 8 * 22). fold ws. rewrite E. f_equal. lia.
  - done.
  - apply list_eq. intros i. unfold frame_at. rewrite list_lookup_fmap.
    destruct (decide (i < 22)%nat) as [Hi|Hi].
    + rewrite lookup_seqZ_lt by lia. simpl fmap. destruct (lookup_lt_is_Some_2 ws i) as [w Hwi]; [lia|].
      fold ws. rewrite Hwi. f_equal. rewrite Z.add_0_l.
      replace (8 * Z.of_nat i) with (8 * (22 - 1 - Z.of_nat (21 - i))) by lia. rewrite (Hin (21 - i)%nat w).
      * apply u64_small. assert (Hall : Forall (λ w, 0 ≤ w < 2 ^ 64) ws).
        { unfold ws, initial_frame. apply Forall_cons in Hr as [H1 Hr]. apply Forall_cons in Hr as [H2 Hr].
          apply Forall_cons in Hr as [H3 _]. repeat apply Forall_cons_2; try lia. apply Forall_nil_2. }
        rewrite Forall_forall in Hall. apply Hall. by eapply list_elem_of_lookup_2.
      * rewrite rev_alt. fold (reverse ws). rewrite reverse_lookup by lia. rewrite Hlen.
        by replace (22 - S (21 - i))%nat with i by lia.
    + rewrite lookup_seqZ_ge by lia. symmetry. apply lookup_ge_None. fold ws. lia.
  - intros a Ha. apply Hout. intros Hin'. apply Ha. unfold page_of.
    replace a with (p + (a - p)) by lia. rewrite <- Zplus_mod_idemp_l, Hpa, Z.mod_small by lia. lia.
Qed.

(** The free list survives changes off its pages. *)
Lemma kfree_keep s fl p m' :
  kwin W s → kfree W s fl → p ∉ fl → same_xlat (cr3 s) (mem s) m' → (∀ a, page_of a ≠ p → mget m' a = mget (mem s) a) →
  kfree W (set_mem m' s) fl.
Proof.
  intros Hw [Hl Hn Hwi Hfr] Hnin Hs Hm. split; simpl; try done.
  - eapply free_list_ext; [|done]. intros q Hq. apply Hm. rewrite page_of_page; [by intros ->|].
    eapply kwin_aligned; eauto.
  - intros q Hq. eapply fresh_same_xlat; [done|by apply Hfr].
Qed.

(** C14: [sys_clone] starts a thread.  With a free slot and a free page it returns
    the next pid; the new entry of the table is READY, shares the caller's address
    space, has an empty queue and no waiter.  What its saved stack pointer points
    at, on a page of its own, is, read as the [registers_t] the interrupt return
    restores, a frame of ring 3 that continues at [entry] with [arg] in rdi, the
    given stack, interrupts enabled and the other registers zero.  The other tasks
    and the memory off that page are unchanged, and exactly one page left the
    free stack. *)
Theorem sys_clone_starts_thread s p fl cur parent flags user_stack entry arg :
  kwin W s → kfree W s (p :: fl) → current_task s = Z.of_nat cur → tasks s !! cur = Some parent →
  0 ≤ num_tasks s < 64 → length (tasks s) = 64%nat → 0 ≤ next_pid s < 2 ^ 31 - 1 →
  Forall (λ w, 0 ≤ w < 2 ^ 64) [arg; entry; user_stack] →
  ∃ s' t', sys_clone flags user_stack entry arg s = Ok (next_pid s) s' ∧
    tasks s' = <[Z.to_nat (num_tasks s) := t']> (tasks s) ∧ num_tasks s' = num_tasks s + 1 ∧
    next_pid s' = next_pid s + 1 ∧ current_task s' = current_task s ∧
    t_pid t' = next_pid s ∧ t_state t' = TASK_READY ∧ t_pml4_phys t' = t_pml4_phys parent ∧
    t_wait_idx t' = -1 ∧ inbox t' = [] ∧ t_rsp t' = p ∧ t_stack_phys t' = p ∧
    (∃ r, frame_at (mem s') (t_rsp t') = regs_words r ∧
       r_rip r = entry ∧ r_rdi r = arg ∧ r_rsp r = user_stack ∧
       Z.land (r_cs r) 3 = 3 ∧ Z.land (r_ss r) 3 = 3 ∧ Z.testbit (r_rflags r) 9 = true ∧
       Forall (λ w, w = 0) [r_rax r; r_rbx r; r_rcx r; r_rdx r; r_rsi r; r_rbp r; r_r8 r; r_r9 r; r_r10 r; r_r11 r;
         r_r12 r; r_r13 r; r_r14 r; r_r15 r]) ∧
    (∀ a, page_of a ≠ p → mget (mem s') a = mget (mem s) a) ∧
    kwin W s' ∧ kfree W s' fl.
Proof.
  intros Hw Hf Hc Ht Hn Hl Hp Hr. pose proof (lookup_lt_Some _ _ _ Ht) as Hlt.
  destruct (alloc_runs W s _ Hw Hf) as (s1 & E1 & Es1 & Hp0 & HWp & Hnin & Hw1 & Hf1 & Hfr1 & _ & _ & Ho1).
  destruct (push_frame_runs s1 p arg entry user_stack) as (m' & E2 & Hs2 & Hfm & Hout); [done..|].
  set (s2 := set_mem m' s1). set (s3 := set_next_pid (u32 (next_pid s + 1)) s2).
  assert (Hobj : current_task s1 = current_task s ∧ num_tasks s1 = num_tasks s ∧ next_pid s1 = next_pid s ∧ tasks s1 = tasks s)
    by (rewrite Es1; done). destruct Hobj as (Hc1 & Hn1 & Hp1 & Ht1).
  destruct (lookup_lt_is_Some_2 (tasks s) (Z.to_nat (num_tasks s))) as [old Hold]; [lia|].
  set (t' := new_task p (next_pid s) p (t_pml4_phys parent) (t_load_addr parent) 0 old).
  exists (set_num_tasks (num_tasks s + 1) (set_tasks (<[Z.to_nat (num_tasks s) := t']> (tasks s)) s3)), t'.
  assert (Hw2 : kwin W s2) by by apply kwin_same_xlat.
  assert (Hf2 : kfree W s2 fl) by (eapply kfree_keep; eauto).
  split_and!; try done.
  - unfold sys_clone. step_by ltac:(reflexivity). rewrite Hc. replace (Z.of_nat cur <? 0) with false by lia.
    step_by ltac:(reflexivity). replace (MAX_TASKS <=? num_tasks s) with false by (unfold MAX_TASKS; lia).
    step_by ltac:(exact E1). replace (p =? 0) with false by lia. step_by ltac:(exact E2). fold s2.
    step_by ltac:(unfold take_pid; step_by ltac:(reflexivity); step_by ltac:(reflexivity); reflexivity).
    change (next_pid s2) with (next_pid s1). rewrite Hp1. fold s3.
    step_by ltac:(apply (get_task_eq _ _ parent); [lia|]; rewrite Nat2Z.id; change (tasks s3) with (tasks s1); by rewrite Ht1).
    step_by ltac:(apply (upd_task_eq _ _ _ old); [lia|]; change (tasks s3) with (tasks s1); by rewrite Ht1).
    step_by ltac:(reflexivity). unfold t'. change (tasks s3) with (tasks s1). rewrite Ht1, i32_small by lia. reflexivity.
  - simpl. apply u32_small. lia.
  - exists (Regs 0 0 0 0 0 0 0 0 0 arg 0 0 0 0 0 0 0 entry 0x2B 0x202 user_stack 0x23).
    split_and!; try done. by repeat apply Forall_cons_2.
  - intros a Ha. change (mget m' a = mget (mem s) a). rewrite Hout by done. by apply Ho1.
  - split; simpl; apply Hw2.
  - split; simpl; apply Hf2.
Qed.

(** ** Futexes *)

(** C16: [sys_futex] with operation 1 wakes waiters.  On every well-formed state it
    returns (the loop ends).  For a [val] below 2^31 it returns the number of tasks
    it made ready; they are distinct blocked tasks that waited on this address, at
    most [val] of them; if fewer than [val] were woken no waiter on the address is
    left.  Waiters on other addresses, all other tasks and the rest of the state
    are unchanged.  From 2^31 on [(int)val] is negative: nobody is woken, 0 is
    returned and nothing changes. *)
Theorem sys_futex_wakes s uaddr val :
  wf s → 0 ≤ current_task s → 0 ≤ val < 2 ^ 32 →
  if decide (val < 2 ^ 31) then
    ∃ ks s', sys_futex uaddr 1 val s = Ok (Z.of_nat (length ks)) s' ∧ Z.of_nat (length ks) ≤ val ∧
      (Z.of_nat (length ks) < val → ∀ x, x ∈ waiters s' → x.1 ≠ uaddr) ∧
      woke uaddr s s' ks
  else sys_futex uaddr 1 val s = Ok 0 s.
Proof.
  intros Hs Hc Hv. assert (E0 : sys_futex uaddr 1 val s = futex_wake (Z.to_nat (num_futex_waiters s)) uaddr 0 0 val s).
  { unfold sys_futex. step_by ltac:(reflexivity). replace (current_task s <? 0) with false by lia.
    cbn [Z.eqb]. by step_by ltac:(reflexivity). }
  rewrite E0. destruct (decide (val < 2 ^ 31)) as [Hlt|Hge].
  - assert (Hval : i32 val = val) by (apply i32_small; lia).
    pose proof (wf_futex_num _ Hs). destruct (futex_wake_spec (Z.to_nat (num_futex_waiters s)) uaddr val s 0 0)
      as (ks & s' & E & Hwk & Hle & Hno); [done|lia|lia|intros x Hx; by apply elem_of_nil in Hx|].
    rewrite Hval in *. exists ks, s'. split_and!; [done| |done|done].
    destruct Hle as [->|Hle]; [simpl|]; lia.
  - assert (Hneg : (0 <? i32 val) = false).
    { unfold i32. rewrite <- (Z_mod_plus_full _ (-1)), Z.mod_small by lia. lia. }
    destruct (Z.to_nat (num_futex_waiters s)); cbn [futex_wake]; step_by ltac:(reflexivity);
      by rewrite Hneg, andb_false_r.
Qed.

(** [sys_futex] with operation 0 waits.  If the word at the address differs
    from the expected value or the table is full it returns -1 and changes
    nothing; otherwise it returns 0, the caller is BLOCKED and the table has one
    more entry, the address and the caller. *)
Theorem sys_futex_waits s uaddr val v t :
  wf s → 0 ≤ current_task s → tasks s !! Z.to_nat (current_task s) = Some t → load32 uaddr s = Ok v s →
  if decide (v = val ∧ num_futex_waiters s < 128) then
    ∃ s', sys_futex uaddr 0 val s = Ok 0 s' ∧ waiters s' = waiters s ++ [(uaddr, current_task s)] ∧
      tasks s' = <[Z.to_nat (current_task s) := t_set_state TASK_BLOCKED t]> (tasks s)
  else sys_futex uaddr 0 val s = Ok (-1) s.
Proof.
  intros Hs Hc Ht Hld. pose proof (wf_futex_num _ Hs). pose proof (wf_futex_len _ Hs).
  assert (E0 : sys_futex uaddr 0 val s = (if negb (v =? val) then mret (-1) else
    n ← gets num_futex_waiters;
    if MAX_FUTEX_WAITERS <=? n then mret (-1)
    else
      ws ← gets futex_waiters;
      (if arr_in ws n then modify (set_futex_waiters (<[Z.to_nat n := (uaddr, current_task s)]> ws)) else undef) ;;
      modify (set_num_futex_waiters (n + 1)) ;;
      upd_task (current_task s) (t_set_state TASK_BLOCKED) ;;
      mret 0) s).
  { unfold sys_futex. step_by ltac:(reflexivity). replace (current_task s <? 0) with false by lia.
    cbn [Z.eqb]. by step_by ltac:(exact Hld). }
  rewrite E0. destruct (decide (v = val ∧ num_futex_waiters s < 128)) as [[-> Hlt]|Hno].
  - rewrite Z.eqb_refl. cbn [negb]. eexists. split_and!.
    + step_by ltac:(reflexivity). unfold MAX_FUTEX_WAITERS. replace (128 <=? num_futex_waiters s) with false by lia.
      step_by ltac:(reflexivity). unfold arr_in.
      replace ((0 <=? num_futex_waiters s) && (num_futex_waiters s <? Z.of_nat (length (futex_waiters s)))) with true by lia.
      step_by ltac:(reflexivity). step_by ltac:(reflexivity). step_by ltac:(apply (upd_task_eq _ _ _ t); [done|exact Ht]).
      reflexivity.
    + unfold waiters. simpl. replace (Z.to_nat (num_futex_waiters s + 1)) with (S (Z.to_nat (num_futex_waiters s))) by lia.
      rewrite (take_S_r _ _ (uaddr, current_task s)) by (apply list_lookup_insert_eq; lia). by rewrite take_insert_ge by lia.
    + done.
  - destruct (Z.eqb_spec v val); [|done]. cbn [negb]. step_by ltac:(reflexivity). unfold MAX_FUTEX_WAITERS.
    by replace (128 <=? num_futex_waiters s) with true by lia.
Qed.

(** ** Exit, wait, kill *)

(** The table when the waiter of [t] was made ready. *)
Definition wake_waiter (t : task_t) (ts : list task_t) : list task_t :=
  if 0 <=? t_wait_idx t then alter (t_set_state TASK_READY) (Z.to_nat (t_wait_idx t)) ts else ts.

Lemma insert_alter (ts : list task_t) f i t : ts !! i = Some t → <[i := f t]> ts = alter f i ts.
Proof.
  intros Ht. apply list_eq. intros j. destruct (decide (i = j)) as [<-|Hne].
  - rewrite list_lookup_insert_eq, list_lookup_alter_eq, Ht by (by eapply lookup_lt_Some). done.
  - by rewrite list_lookup_insert_ne, list_lookup_alter_ne by done.
Qed.

(** The table [sys_exit] leaves, whatever it does to memory. *)
Lemma sys_exit_inv s a s' :
  0 ≤ current_task s → sys_exit s = Ok a s' →
  ∃ t, tasks s !! Z.to_nat (current_task s) = Some t ∧
    tasks s' = alter (λ t, t_set_state TASK_EXITED (t_set_stack_phys 0 t)) (Z.to_nat (current_task s))
      (wake_waiter t (tasks s)) ∧
    current_task s' = current_task s ∧ num_tasks s' = num_tasks s.
Proof.
  intros Hc E. unfold sys_exit in E. apply bind_inv in E as (cur & s0 & [= <- <-] & E).
  rewrite (proj2 (Z.ltb_ge (current_task s) 0)) in E by done.
  apply bind_inv in E as (t & s0 & (-> & _ & Ht)%get_task_inv & E). exists t. split; [done|].
  set (cur := Z.to_nat (current_task s)) in *.
  apply bind_inv in E as ([] & s1 & E1 & E).
  assert (H1 : objs s1 = objs (set_tasks (wake_waiter t (tasks s)) s)).
  { unfold wake_waiter. destruct (Z.leb_spec 0 (t_wait_idx t)) as [Hw|Hw]; cbn [when] in E1.
    - apply upd_task_inv in E1 as (tw & _ & Htw & ->). by rewrite (insert_alter _ _ _ _ Htw).
    - injection E1 as <-. by destruct s. }
  injection H1 as T1 C1 N1 _ _ _ _.
  apply bind_inv in E as (t1 & s0 & (-> & _ & Ht1)%get_task_inv & E). fold cur in Ht1. rewrite T1 in Ht1.
  apply bind_inv in E as ([] & s2 & E2 & E).
  assert (H2 : tasks s2 = alter (t_set_stack_phys 0) cur (tasks s1) ∧ current_task s2 = current_task s1 ∧
    num_tasks s2 = num_tasks s1).
  { destruct (Z.eqb_spec (t_stack_phys t1) 0) as [Hz|Hz]; cbn [negb when] in E2.
    - injection E2 as <-. split; [|done]. rewrite <- (insert_alter _ _ _ t1) by (by rewrite T1).
      rewrite list_insert_id; [done|]. rewrite T1, Ht1. f_equal. destruct t1. simpl in Hz. by subst.
    - apply bind_inv in E2 as ([] & s3 & Ef & Eu). apply quiet_free in Ef. injection Ef as Tf Cf Nf _ _ _ _.
      apply upd_task_inv in Eu as (tu & _ & Htu & ->). fold cur in Htu |- *. simpl.
      rewrite (insert_alter _ _ _ _ Htu), Tf. done. }
  destruct H2 as (T2 & C2 & N2). apply bind_inv in E as ([] & s3 & E3 & E).
  apply quiet_free_task_pages in E3. injection E3 as T3 C3 N3 _ _ _ _.
  apply bind_inv in E as ([] & s4 & (t4 & _ & Ht4 & ->)%upd_task_inv & E). fold cur in Ht4, E.
  assert (Hq : objs s' = objs (set_tasks (<[cur := t_set_state TASK_EXITED t4]> (tasks s3)) s3)).
  { refine ((_ : quiet _) _ _ _ E). quiet_auto. }
  injection Hq as T4 C4 N4 _ _ _ _. simpl in T1, C1, N1, C4, N4. split_and!; [|congruence|congruence].
  rewrite T4, (insert_alter _ _ _ _ Ht4), T3, T2, T1. apply list_eq. intros j.
  destruct (decide (cur = j)) as [<-|Hne].
  - rewrite !list_lookup_alter_eq. by destruct (wake_waiter t (tasks s) !! cur).
  - by rewrite !list_lookup_alter_ne.
Qed.

(** [sys_exit], whenever it returns, leaves the caller EXITED without a kernel
    stack, makes the task recorded as its waiter READY whatever state that task is
    in (so a waiter that has itself exited is put back on the run queue), and
    changes no other task. *)
Theorem sys_exit_effect s a s' t :
  sys_exit s = Ok a s' → 0 ≤ current_task s → tasks s !! Z.to_nat (current_task s) = Some t →
  t_wait_idx t ≠ current_task s →
  (∃ t', tasks s' !! Z.to_nat (current_task s) = Some t' ∧ t_state t' = TASK_EXITED ∧ t_stack_phys t' = 0 ∧
     t_pid t' = t_pid t) ∧
  (∀ k tk, tasks s !! k = Some tk → Z.of_nat k ≠ current_task s →
     tasks s' !! k = Some (if bool_decide (Z.of_nat k = t_wait_idx t) then t_set_state TASK_READY tk else tk)).
Proof.
  intros E Hc Ht Hne. destruct (sys_exit_inv s a s' Hc E) as (t0 & Ht0 & T & _). simplify_eq.
  assert (Hlook : ∀ k tk, tasks s !! k = Some tk → wake_waiter t (tasks s) !! k =
    Some (if bool_decide (Z.of_nat k = t_wait_idx t) then t_set_state TASK_READY tk else tk)).
  { intros k tk Hk. unfold wake_waiter. case_bool_decide as Hb.
    - replace (0 <=? t_wait_idx t) with true by lia. rewrite <- Hb, Nat2Z.id, list_lookup_alter_eq, Hk. done.
    - destruct (Z.leb_spec 0 (t_wait_idx t)); [|done]. by rewrite list_lookup_alter_ne by lia. }
  rewrite T. split.
  - eexists. rewrite list_lookup_alter_eq, (Hlook _ _ Ht). split; [done|].
    rewrite bool_decide_eq_false_2 by lia. done.
  - intros k tk Hk Hkc. rewrite list_lookup_alter_ne by lia. by apply Hlook.
Qed.

(** [sys_kill] wakes nobody.  Whenever it finds a live task of that pid and
    returns, it returns 0 with that task EXITED and every other task unchanged: a
    task that waits for the killed one stays BLOCKED.  The killed task keeps the
    address of the kernel stack that was freed. *)
Theorem sys_kill_effect s pid k t a s' :
  table_ok s → list_find (λ t, (t_pid t =? pid) && negb (is_exited t) = true) (live_tasks s) = Some (k, t) →
  sys_kill pid s = Ok a s' →
  a = 0 ∧ tasks s' = <[k := t_set_state TASK_EXITED t]> (tasks s).
Proof.
  intros Hs Hf E. destruct (find_task_Some s _ _ _ Hf) as (Ht & _ & _ & _).
  unfold sys_kill in E. rewrite (bind_Ok _ _ s _ s (find_task_eq _ s Hs)), Hf in E.
  cbn [fmap option_fmap option_map fst] in E.
  apply bind_inv in E as ([] & s1 & (t1 & _ & Ht1 & ->)%upd_task_inv & E). rewrite Nat2Z.id in Ht1, E.
  assert (t1 = t) as -> by congruence.
  set (s1 := set_tasks _ s) in E. assert (Hq : objs s' = objs s1 ∧ a = 0).
  { apply bind_inv in E as (t2 & s2 & (-> & _ & _)%get_task_inv & E).
    apply bind_inv in E as ([] & s3 & E3 & E). apply bind_inv in E as ([] & s4 & E4 & E). injection E as <- <-.
    split; [|done]. rewrite (quiet_free_task_pages _ _ _ _ E4).
    refine ((_ : quiet _) _ _ _ E3). quiet_auto. }
  destruct Hq as [[= T _ _ _ _ _ _] ->]. split; [done|]. exact T.
Qed.

(** the frame of an exiting task goes to address 0.  After [sys_exit] the
    system call path saves the caller's registers through its kernel stack
    pointer, which [sys_exit] has just cleared: the 22 words are written to
    physical page 0. *)
Theorem exit_frame_at_zero s a s1 t r fl :
  sys_exit s = Ok a s1 → 0 ≤ current_task s → tasks s !! Z.to_nat (current_task s) = Some t →
  kwin W s1 → kfree W s1 fl → W 0 → fresh (mem s1) (cr3 s1) 0 → Forall (λ w, 0 ≤ w < 2 ^ 64) (regs_words r) →
  ∃ s2, save_frame r s1 = Ok tt s2 ∧ frame_at (mem s2) 0 = regs_words r.
Proof.
  intros E Hc Ht Hw Hf HW Hfr Hr. destruct (sys_exit_inv s a s1 Hc E) as (t0 & Ht0 & T & C & _). simplify_eq.
  destruct (tasks s1 !! Z.to_nat (current_task s)) as [t1|] eqn:Ht1.
  2:{ exfalso. rewrite T, list_lookup_alter_eq in Ht1. unfold wake_waiter in Ht1.
      destruct (0 <=? t_wait_idx t); [|by rewrite Ht in Ht1].
      destruct (decide (Z.to_nat (t_wait_idx t) = Z.to_nat (current_task s))) as [Eq|Hne].
      - by rewrite Eq, list_lookup_alter_eq, Ht in Ht1.
      - by rewrite list_lookup_alter_ne, Ht in Ht1. }
  assert (Hz : t_stack_phys t1 = 0).
  { rewrite T, list_lookup_alter_eq in Ht1. destruct (wake_waiter t (tasks s) !! _); [|done]. by injection Ht1 as <-. }
  destruct (save_frame_runs W s1 fl (Z.to_nat (current_task s)) t1 r) as (m' & Es & Hfm & _); rewrite ?Hz; try done.
  - rewrite C. lia.
  - intros Hin. assert (Hnz : ∀ l h m, free_list m h l → 0 ∉ l).
    { induction l as [|q l IH]; intros h m; simpl; [intros _; by intros ?%elem_of_nil|].
      intros (Eh & Hq & Hl) [Eq|Hin']%elem_of_cons; [congruence|]. by eapply IH. }
    by apply (Hnz _ _ _ (kf_list _ _ _ Hf)).
  - eexists. split; [exact Es|]. simpl. by rewrite Hz in Hfm.
Qed.

End LifeProps.

(** ** Instances *)

Lemma sys_clone_starts_thread_witness :
  ∃ s' t' r, sys_clone 0 0x4F0000 0x400100 77 demo_run = Ok 10 s' ∧ tasks s' !! 2%nat = Some t' ∧
    t_state t' = TASK_READY ∧ t_pid t' = 10 ∧ frame_at (mem s') (t_rsp t') = regs_words r ∧
    r_rip r = 0x400100 ∧ r_rdi r = 77 ∧ r_rsp r = 0x4F0000.
Proof.
  destruct (sys_clone_starts_thread demo_W demo_run 0x900000 (tail (demo_free 8)) 0
    (demo_task 1 TASK_RUNNING 0xA00000) 0 0x4F0000 0x400100 77)
    as (s' & t' & E & Ht & _ & _ & _ & Hp & Hst & _ & _ & _ & _ & _ & (r & Hf & H1 & H2 & H3 & _) & _).
  - apply demo_run_ok.
  - exact (proj2 demo_run_ok).
  - reflexivity.
  - reflexivity.
  - by_decide.
  - reflexivity.
  - by_decide.
  - by_decide.
  - exists s', t', r. split; [exact E|]. split; [rewrite Ht; reflexivity|]. split; [exact Hst|]. split; [exact Hp|].
    split; [exact Hf|]. split; [exact H1|]. split; [exact H2|exact H3].
Defined.

(** Task 1 waits on the word at 0x10000. *)
Definition demo_futex : kstate :=
  set_num_futex_waiters 1 (set_futex_waiters ((0x10000, 1) :: replicate 127 (0, 0)) demo_run).

Lemma sys_futex_wakes_witness :
  ∃ ks s', sys_futex 0x10000 1 5 demo_futex = Ok (Z.of_nat (length ks)) s' ∧ Z.of_nat (length ks) ≤ 5 ∧
    woke 0x10000 demo_futex s' ks.
Proof.
  pose proof (sys_futex_wakes demo_futex 0x10000 5) as Hf. rewrite decide_True in Hf by lia.
  destruct Hf as (ks & s' & E & Hle & _ & Hw).
  - apply check_wf_ok. vm_compute. reflexivity.
  - by_decide.
  - lia.
  - exists ks, s'. split; [exact E|]. split; [exact Hle|exact Hw].
Defined.

Lemma sys_futex_waits_witness :
  ∃ s', sys_futex 0x10000 0 0x6948 demo_futex = Ok 0 s' ∧ waiters s' = [(0x10000, 1); (0x10000, 0)].
Proof.
  pose proof (sys_futex_waits demo_futex 0x10000 0x6948 0x6948 (demo_task 1 TASK_RUNNING 0xA00000)) as Hf.
  rewrite decide_True in Hf by (split; [reflexivity|vm_compute; reflexivity]).
  destruct Hf as (s' & E & Hw & _).
  - apply check_wf_ok. vm_compute. reflexivity.
  - by_decide.
  - reflexivity.
  - vm_compute. reflexivity.
  - exists s'. split; [exact E|exact Hw].
Defined.

(** Task 0 exits while task 1, itself exited, is recorded as its waiter. *)
Definition demo_waited : kstate :=
  demo_free_state 8 ([t_set_wait_idx 1 (demo_task 1 TASK_RUNNING 0xA00000); demo_task 9 TASK_EXITED 0]
    ++ replicate 62 task_zero) 0 2.

Lemma sys_exit_effect_witness :
  ∃ s', sys_exit demo_waited = Ok tt s' ∧ tasks s' !! 1%nat = Some (demo_task 9 TASK_READY 0).
Proof.
  destruct (returns_run_state sys_exit demo_waited) as [[] E]; [vm_compute; reflexivity|].
  exists (run_state sys_exit demo_waited). split; [exact E|].
  destruct (sys_exit_effect demo_waited tt _ (t_set_wait_idx 1 (demo_task 1 TASK_RUNNING 0xA00000)) E) as [_ Ho].
  - by_decide.
  - reflexivity.
  - discriminate.
  - exact (Ho 1%nat (demo_task 9 TASK_EXITED 0) eq_refl ltac:(discriminate)).
Defined.

Lemma sys_kill_effect_witness :
  ∃ s', sys_kill 9 demo_run = Ok 0 s' ∧
    tasks s' = <[1%nat := t_set_state TASK_EXITED (demo_task 9 TASK_BLOCKED 0xA01000)]> (tasks demo_run).
Proof.
  destruct (returns_run_state (sys_kill 9) demo_run) as [a E]; [vm_compute; reflexivity|].
  destruct (sys_kill_effect demo_run 9 1 (demo_task 9 TASK_BLOCKED 0xA01000) a _ demo_run_table
    ltac:(vm_compute; reflexivity) E) as [Ha Ht].
  exists (run_state (sys_kill 9) demo_run). rewrite Ha in E. split; [exact E|exact Ht].
Defined.

Definition demo_exit_regs : registers_t :=
  Regs 15 14 13 12 11 10 9 8 7 6 5 4 3 2 0 0x80 0 0x400010 0x2B 0x202 0x4FF000 0x23.

Lemma exit_frame_at_zero_witness :
  ∃ s1 s2, sys_exit demo_run = Ok tt s1 ∧ save_frame demo_exit_regs s1 = Ok tt s2 ∧
    frame_at (mem s2) 0 = regs_words demo_exit_regs.
Proof.
  destruct (returns_run_state sys_exit demo_run) as [[] E]; [vm_compute; reflexivity|].
  set (s1 := run_state sys_exit demo_run) in *.
  assert (Hok : @kwin demo demo_W s1 ∧ kfree demo_W s1 (0xA00000 :: demo_free 8)) by (apply demo_ok; vm_compute; reflexivity).
  assert (Hc : cr3 s1 = 0x1000) by (vm_compute; reflexivity).
  destruct (exit_frame_at_zero demo_W demo_run tt s1 (demo_task 1 TASK_RUNNING 0xA00000) demo_exit_regs
    (0xA00000 :: demo_free 8) E) as (s2 & Es & Hf).
  - by_decide.
  - reflexivity.
  - exact (proj1 Hok).
  - exact (proj2 Hok).
  - split; [reflexivity|]. left. lia.
  - rewrite Hc. apply boot_fresh; [apply check_boot_tables_ok; vm_compute; reflexivity|by_decide].
  - by_decide.
  - exists s1, s2. split; [exact E|]. split; [exact Es|exact Hf].
Defined.
