(* ===== verification/SchedProps.v ===== *)
(** * SchedProps: properties of the scheduler and of the whole kernel's state

    Round robin order, absence of starvation among ready tasks, saved contexts,
    the invariant of every reachable state, and what happens when no task is
    ready. *)

From S2P Require Import Prelude State Machine Walk Serial Space Pmm Paging PagingOps CloneSpace BootMem Tasks Demo UserBuf Ipc IpcProps.
From S2P Require Import Vm Lifecycle Irq Elf Syscall Sched Boot Quiet Wf Invariant SchedSpec.

Section SchedProps.
Context `{Platform}.

(** ** Inversion of the scheduling path *)

Lemma save_frame_inv r s a s1 :
  save_frame r s = Ok a s1 →
  ∃ t, 0 ≤ current_task s ∧ tasks s !! Z.to_nat (current_task s) = Some t ∧
    objs s1 = objs (set_tasks (<[Z.to_nat (current_task s) := t_set_rsp (t_stack_phys t) t]> (tasks s)) s).
Proof.
  unfold save_frame. intros E. apply bind_inv in E as (cur & s2 & [= <- <-] & E).
  apply bind_inv in E as (t & s2 & (-> & Hc & Ht)%get_task_inv & E).
  apply bind_inv in E as ([] & s3 & Hq & E).
  assert (Eo : objs s3 = objs s).
  { revert Hq. refine ((_ : quiet _) s tt s3). quiet_auto. }
  apply upd_task_inv in E as (t' & _ & Ht' & ->). injection Eo as Et Ec En Ep Ef Efn Ei.
  rewrite Et in Ht'. assert (t' = t) as -> by congruence.
  exists t. split_and!; [done..|]. unfold objs. simpl. congruence.
Qed.

(** The state in which [schedule] looks for the next task. *)
Lemma schedule_inv r s res s' :
  0 ≤ current_task s → schedule r s = Ok res s' →
  ∃ t s1 next s2, tasks s !! Z.to_nat (current_task s) = Some t ∧
    objs s1 = objs (set_tasks (<[Z.to_nat (current_task s) :=
      t_set_state TASK_READY (t_set_rsp (t_stack_phys t) t)]> (tasks s)) s) ∧
    schedule_next s1 = Ok next s2 ∧ switch_to next s2 = Ok res s'.
Proof.
  intros Hc E. unfold schedule in E. apply bind_inv in E as (cur & s2 & [= <- <-] & E).
  apply Z.leb_le in Hc as Hcb. rewrite Hcb in E. cbn [when] in E.
  apply bind_inv in E as ([] & s1 & Ew & E). apply bind_inv in Ew as ([] & s0 & Es & Eu).
  apply save_frame_inv in Es as (t & _ & Ht & Eo). injection Eo as Et Ec En Ep Ef Efn Ei.
  apply upd_task_inv in Eu as (t1 & _ & Ht1 & ->).
  rewrite Et, list_lookup_insert_eq in Ht1 by (by eapply lookup_lt_Some). injection Ht1 as <-.
  apply bind_inv in E as (next & s2 & En' & E). eexists t, _, next, s2. split_and!; [done| |exact En'|done].
  unfold objs. simpl. rewrite Et, list_insert_insert_eq. congruence.
Qed.

(** One preemption brings the turn of a ready task [k] nearer. *)
Lemma schedule_step r s res s' k :
  sched_ok s → 0 ≤ current_task s → 0 ≤ k < num_tasks s → k ≠ current_task s → ready_at s k →
  schedule r s = Ok res s' →
  num_tasks s' = num_tasks s ∧ length (tasks s') = length (tasks s) ∧ 0 ≤ current_task s' < num_tasks s ∧
  (current_task s' = k ∨
   ready_at s' k ∧ (k - current_task s') mod num_tasks s < (k - current_task s) mod num_tasks s).
Proof.
  intros Hs Hc Hk Hne Hr E. destruct (schedule_inv _ _ _ _ Hc E) as (t & s1 & next & s2 & Ht & Eo & En & Esw).
  injection Eo as Et Ec Enum _ _ _ _. destruct (Hs) as [Hn Hcur].
  assert (Hs1 : sched_ok s1). { unfold sched_ok. rewrite Et, Ec, Enum, length_insert. simpl. lia. }
  assert (Hr1 : ready_at s1 k).
  { destruct Hr as (tk & Htk & Hst). exists tk. split; [|done]. rewrite Et, list_lookup_insert_ne by lia. done. }
  set (n := num_tasks s) in *. set (d := (k - current_task s) mod n).
  assert (Hd : 1 ≤ d < n).
  { assert (Hb := Z.mod_pos_bound (k - current_task s) n ltac:(lia)). fold d in Hb.
    assert (d ≠ 0); [|lia]. intros Hd0. apply Hne.
    apply Z.mod_divide in Hd0 as [z Hz]; [|lia]. assert (z = 0) by nia. lia. }
  assert (Ha : ∀ j, after s1 j = (current_task s + j) mod n). { intros j. unfold after. by rewrite Ec, Enum. }
  assert (Hkd : after s1 d = k).
  { rewrite Ha. unfold d. rewrite Zplus_mod_idemp_r. replace (_ + _) with k by lia. apply Z.mod_small. lia. }
  destruct (schedule_next_spec s1 Hs1) as [(j & tj & Hj & Htj & Hst & Hmin & Ej)|[Hno _]].
  2:{ exfalso. apply (Hno d); [simpl in Enum; rewrite Enum; fold n; lia|]. by rewrite Hkd. }
  rewrite Ej in En. injection En as <- <-.
  assert (Hjd : j ≤ d). { destruct (decide (d < j)); [|lia]. exfalso. apply (Hmin d); [lia|]. by rewrite Hkd. }
  assert (Hra := after_range s1 j Hs1). simpl in Enum. rewrite Enum in Hra. fold n in Hra.
  rewrite <- (Z2Nat.id (after s1 j)) in Esw at 1 by lia.
  erewrite switch_to_eq in Esw by (simpl; apply list_lookup_insert_eq; by eapply lookup_lt_Some).
  injection Esw as _ <-. set (s2 := set_tasks _ s1).
  assert (Erun : tasks (running (Z.to_nat (after s1 j)) (t_set_state TASK_RUNNING tj) s2) =
      <[Z.to_nat (after s1 j) := t_set_state TASK_RUNNING tj]> (tasks s1) ∧
    num_tasks (running (Z.to_nat (after s1 j)) (t_set_state TASK_RUNNING tj) s2) = n ∧
    current_task (running (Z.to_nat (after s1 j)) (t_set_state TASK_RUNNING tj) s2) = after s1 j).
  { unfold running. destruct (_ =? 0); simpl; rewrite list_insert_insert_eq, Z2Nat.id by lia; done. }
  destruct Erun as (E1 & E2 & E3). rewrite E1, E2, E3. rewrite length_insert, Et. simpl. rewrite length_insert.
  split_and!; [done|done|lia|lia|]. destruct (decide (after s1 j = k)) as [|Hnk]; [by left|right]. split.
  - destruct Hr1 as (tk & Htk & Hstk). exists tk. split; [|done]. rewrite E1, list_lookup_insert_ne by lia. done.
  - rewrite Ha, Zminus_mod_idemp_r.
    replace (k - (current_task s + j)) with (k - current_task s - j) by lia. rewrite <- Zminus_mod_idemp_l.
    fold d. rewrite Z.mod_small by lia. lia.
Qed.

(** ** Timer turns *)

(** [turns n s s']: from [s], user code runs until a timer interrupt arrives, [n]
    times; [s'] is the state after the last one.  User code changes memory,
    devices queue interrupts. *)
Inductive turns : nat → kstate → kstate → Prop :=
| turns_0 s : turns 0 s s
| turns_S n s m tape r cr2 res s1 s2 :
    r_int_no r = 32 → from_user r = true →
    isr_handler r cr2 (set_irq_tape tape (set_mem m s)) = Ok res s1 →
    turns n s1 s2 → turns (S n) s s2.

Lemma turn_step s m tape r cr2 res s' k :
  r_int_no r = 32 → from_user r = true → isr_handler r cr2 (set_irq_tape tape (set_mem m s)) = Ok res s' →
  sched_ok s → 0 ≤ current_task s → 0 ≤ k < num_tasks s → k ≠ current_task s → ready_at s k →
  num_tasks s' = num_tasks s ∧ sched_ok s' ∧ 0 ≤ current_task s' ∧
  (current_task s' = k ∨
   ready_at s' k ∧ (k - current_task s') mod num_tasks s < (k - current_task s) mod num_tasks s).
Proof.
  intros Hn Hu E Hs Hc Hk Hne Hr. unfold isr_handler in E. cbv zeta in E. rewrite Hn in E.
  cbn [Z.leb Z.compare Pos.compare Pos.compare_cont andb] in E. unfold irq_handler in E. cbv zeta in E. rewrite Hn in E.
  apply bind_inv in E as ([] & s1 & E1 & E). apply quiet_irq_eoi in E1.
  apply bind_inv in E as ([] & s2 & E2 & E). apply quiet_timer_tick in E2.
  apply bind_inv in E as (n & s3 & [= <- <-] & E).
  assert (Eo : objs s2 = objs s) by (rewrite E2, E1; done). injection Eo as Et Ec Enum _ _ _ _.
  destruct (Hs) as [Hnum Hcur]. rewrite Hu in E. replace (1 <? num_tasks s2) with true in E by lia.
  cbn [Z.eqb Pos.eqb andb] in E.
  assert (Hstep := schedule_step r s2 res s' k). unfold sched_ok, ready_at in *. rewrite Et, Ec, Enum in Hstep.
  destruct (Hstep Hs Hc Hk Hne Hr E) as (? & ? & ? & ?). split_and!; try done; lia.
Qed.

(** C5: no ready task starves.  When task [k] is ready, then in every sequence of
    as many timer interrupts of user code as there are other tasks, whatever
    user code does to memory in between, [k] gets the processor after one of
    them. *)
Theorem ready_task_runs n s s' k :
  sched_ok s → 0 ≤ current_task s → 0 ≤ k < num_tasks s → k ≠ current_task s → ready_at s k →
  turns n s s' → num_tasks s - 1 ≤ Z.of_nat n →
  ∃ j s1, (0 < j ≤ n)%nat ∧ turns j s s1 ∧ turns (n - j) s1 s' ∧ current_task s1 = k.
Proof.
  intros Hs Hc Hk Hne Hr Ht Hn.
  assert (Hd : (k - current_task s) mod num_tasks s ≤ Z.of_nat n).
  { pose proof (Z.mod_pos_bound (k - current_task s) (num_tasks s)). lia. }
  clear Hn. revert Hs Hc Hk Hne Hr Hd. induction Ht as [s|n s m tape r cr2 res s1 s2 Hno Hu E Ht IH];
    intros Hs Hc Hk Hne Hr Hd.
  { exfalso. apply Hne. pose proof (Z.mod_pos_bound (k - current_task s) (num_tasks s)).
    assert (Hz0 : (k - current_task s) mod num_tasks s = 0) by lia. destruct Hs as [? ?].
    apply Z.mod_divide in Hz0 as [z Hz]; [|lia]. assert (z = 0) by nia. lia. }
  destruct (turn_step _ _ _ _ _ _ _ k Hno Hu E Hs Hc Hk Hne Hr) as (En & Hs1 & Hc1 & [Heq|[Hr1 Hlt]]).
  { exists 1%nat, s1. split_and!; [lia|lia|by eapply turns_S; [..|constructor]| |done]. by rewrite Nat.sub_succ, Nat.sub_0_r. }
  destruct (decide (current_task s1 = k)) as [Heq|Hne1].
  { exists 1%nat, s1. split_and!; [lia|lia|by eapply turns_S; [..|constructor]| |done]. by rewrite Nat.sub_succ, Nat.sub_0_r. }
  rewrite <- En in Hlt, Hk at 1. rewrite En in Hlt at 2.
  destruct IH as (j & s3 & Hj & Hj1 & Hj2 & Hj3); [done|done|lia|done|done|lia|].
  exists (S j), s3. split_and!; [lia|lia|by eapply turns_S|done|done].
Qed.

(** [schedule_next] is round robin.  With at least two tasks it returns and
    marks RUNNING the first READY task in cyclic order after the current one;
    with no other READY task it returns the current task and changes nothing. *)
Theorem schedule_next_round_robin s :
  sched_ok s →
  (∃ j t, 1 ≤ j < num_tasks s ∧ tasks s !! Z.to_nat (after s j) = Some t ∧ t_state t = TASK_READY ∧
     (∀ l, 1 ≤ l < j → ¬ ready_at s (after s l)) ∧
     schedule_next s =
       Ok (after s j) (set_tasks (<[Z.to_nat (after s j) := t_set_state TASK_RUNNING t]> (tasks s)) s)) ∨
  ((∀ l, 1 ≤ l < num_tasks s → ¬ ready_at s (after s l)) ∧ schedule_next s = Ok (current_task s) s).
Proof. apply schedule_next_spec. Qed.

(** The first half of [schedule]: the frame is saved and the task is READY. *)
Lemma schedule_saves W s fl cur t r :
  kwin W s → kfree W s fl → sched_ok s → current_task s = Z.of_nat cur → tasks s !! cur = Some t →
  W (t_stack_phys t) → t_stack_phys t ∉ fl → fresh (mem s) (cr3 s) (t_stack_phys t) →
  Forall (λ w, 0 ≤ w < 2 ^ 64) (regs_words r) →
  ∃ m', schedule r s = (next ← schedule_next; switch_to next)
      (set_tasks (<[cur := t_set_state TASK_READY (t_set_rsp (t_stack_phys t) t)]> (tasks s)) (set_mem m' s)) ∧
    frame_at m' (t_stack_phys t) = regs_words r ∧ (∀ a, page_of a ≠ t_stack_phys t → mget m' a = mget (mem s) a).
Proof.
  intros Hw Hf Hs Hc Ht HW Hnin Hfr Hreg. pose proof (lookup_lt_Some _ _ _ Ht) as Hlt.
  destruct (save_frame_runs W s fl cur t r) as (m' & Esf & Hframe & _ & Hm); [done..|]. exists m'. split_and!; [|done..].
  unfold schedule. step_by ltac:(reflexivity). rewrite Hc. replace (0 <=? Z.of_nat cur) with true by lia. cbn [when].
  step_by ltac:(step_by ltac:(exact Esf); apply (upd_task_eq _ _ _ (t_set_rsp (t_stack_phys t) t));
    [lia|]; rewrite Nat2Z.id; simpl; by apply list_lookup_insert_eq).
  rewrite Nat2Z.id. simpl. by rewrite list_insert_insert_eq.
Qed.

(** Changing the current task leaves the readiness of the others alone. *)
Lemma ready_others s s1 cur x l :
  sched_ok s → current_task s = Z.of_nat cur → current_task s1 = current_task s → num_tasks s1 = num_tasks s →
  tasks s1 = <[cur := x]> (tasks s) → 1 ≤ l < num_tasks s → ready_at s (after s l) → ready_at s1 (after s1 l).
Proof.
  intros Hs Hc Hc1 Hn1 Ht1 Hl (tl & Htl & Hstl). exists tl. split; [|done].
  replace (after s1 l) with (after s l) by (unfold after; by rewrite Hc1, Hn1). rewrite Ht1, list_lookup_insert_ne; [done|].
  intros Heq. apply (after_ne s l); [done|lia|lia|]. by rewrite Hc, Heq, Z2Nat.id by (pose proof (after_range s l Hs); lia).
Qed.

Lemma running_fields next tn s :
  tasks (running next tn s) = <[next := t_set_state TASK_RUNNING tn]> (tasks s) ∧
  current_task (running next tn s) = Z.of_nat next ∧
  cr3 (running next tn s) = (if t_pml4_phys tn =? 0 then cr3 s else t_pml4_phys tn) ∧ mem (running next tn s) = mem s.
Proof. unfold running. destruct (_ =? 0); by split_and!. Qed.

(** C6: a preemption saves and restores contexts.  [schedule] returns: the
    interrupted registers are, word for word, the frame at the kernel stack of the
    task that ran, its saved stack pointer points there, it is READY, and no
    other memory changed.  The task that runs next is resumed from its own saved
    stack pointer, in its own address space, RUNNING and current; it is the first
    ready one in cyclic order, or the same task when no other is ready. *)
Theorem schedule_switches_context W s fl cur t r :
  kwin W s → kfree W s fl → sched_ok s → current_task s = Z.of_nat cur → tasks s !! cur = Some t →
  W (t_stack_phys t) → t_stack_phys t ∉ fl → fresh (mem s) (cr3 s) (t_stack_phys t) →
  Forall (λ w, 0 ≤ w < 2 ^ 64) (regs_words r) →
  let saved := t_set_state TASK_READY (t_set_rsp (t_stack_phys t) t) in
  ∃ next tn s', schedule r s = Ok (FrameAt (t_rsp tn)) s' ∧
    <[cur := saved]> (tasks s) !! next = Some tn ∧ t_state tn = TASK_READY ∧
    (∀ l, 1 ≤ l < (if decide (next = cur) then num_tasks s else (Z.of_nat next - Z.of_nat cur) mod num_tasks s) →
       ¬ ready_at s (after s l)) ∧
    tasks s' = <[next := t_set_state TASK_RUNNING tn]> (<[cur := saved]> (tasks s)) ∧
    current_task s' = Z.of_nat next ∧
    cr3 s' = (if t_pml4_phys tn =? 0 then cr3 s else t_pml4_phys tn) ∧
    frame_at (mem s') (t_stack_phys t) = regs_words r ∧
    (∀ a, page_of a ≠ t_stack_phys t → mget (mem s') a = mget (mem s) a).
Proof.
  intros Hw Hf Hs Hc Ht HW Hnin Hfr Hreg saved. pose proof (lookup_lt_Some _ _ _ Ht) as Hlt. pose proof Hs as [Hn Hcur].
  destruct (schedule_saves W s fl cur t r) as (m' & E0 & Hframe & Hm); [done..|]. fold saved in E0.
  set (s1 := set_tasks (<[cur := saved]> (tasks s)) (set_mem m' s)) in *.
  assert (Hs1 : sched_ok s1). { unfold sched_ok. simpl. rewrite length_insert. lia. }
  destruct (schedule_next_spec s1 Hs1) as [(j & tn & Hj & Htn & Hst & Hmin & En)|[Hno En]].
  - set (next := Z.to_nat (after s1 j)) in *. assert (Hra := after_range s1 j Hs1).
    set (s2 := set_tasks _ s1) in En.
    assert (Ht2 : tasks s2 !! next = Some (t_set_state TASK_RUNNING tn)).
    { apply list_lookup_insert_eq. by eapply lookup_lt_Some. }
    destruct (running_fields next (t_set_state TASK_RUNNING tn) s2) as (H1 & H2 & H3 & H4).
    exists next, tn, (running next (t_set_state TASK_RUNNING tn) s2). split_and!; try done.
    + rewrite E0. step_by ltac:(exact En). rewrite <- (Z2Nat.id (after s1 j)) by lia. fold next.
      exact (switch_to_eq s2 next _ Ht2).
    + assert (Hd : (Z.of_nat next - Z.of_nat cur) mod num_tasks s = j).
      { unfold next. rewrite Z2Nat.id by lia. unfold after. simpl. rewrite Zminus_mod_idemp_l, Hc.
        replace (_ + _ - _) with j by lia. apply Z.mod_small. simpl in Hj. lia. }
      rewrite decide_False by (intros Heq; rewrite Heq, Z.sub_diag, Zmod_0_l in Hd; lia). rewrite Hd.
      intros l Hl Hr. apply (Hmin l Hl). apply (ready_others s s1 cur saved); try done. simpl in Hj. lia.
    + rewrite H1. unfold s2. simpl. by rewrite list_insert_insert_eq.
    + by rewrite H4.
    + intros a Ha. rewrite H4. by apply Hm.
  - assert (Ht1 : tasks s1 !! cur = Some saved) by by apply list_lookup_insert_eq.
    destruct (running_fields cur saved s1) as (H1 & H2 & H3 & H4).
    exists cur, saved, (running cur saved s1). split_and!; try done.
    + rewrite E0. step_by ltac:(exact En). change (current_task s1) with (current_task s). rewrite Hc.
      exact (switch_to_eq s1 cur saved Ht1).
    + rewrite decide_True by done. intros l Hl Hr. apply (Hno l Hl). by apply (ready_others s s1 cur saved).
    + by rewrite H4.
    + intros a Ha. rewrite H4. by apply Hm.
Qed.

(** C1: the invariant of undisturbed runs.  A run is undisturbed when no store goes
    into the kernel image, where the task objects are (neither one of user code
    through a mapping it asked for nor one of the kernel through a pointer user
    code passed: the code checks neither), and when interrupts arrive in user code
    or in [hlt], not inside a system call.  In every state of such a run from the
    end of [kmain], whatever the boot memory, the program, its system calls and
    the interrupts, the task table is well formed: all indices are in range, every
    message ring is sound, pids are distinct and below the next one, and only
    the current task is RUNNING. *)
Theorem reachable_wf m tape res s0 s :
  kmain (boot_state m tape) = Ok res s0 → rtc sys_step s0 s → wf s.
Proof.
  intros Hk Hr. apply wf_kmain in Hk. induction Hr as [|s0 s1 s Hst _ IH]; [done|].
  apply IH. by eapply sys_step_wf.
Qed.

(** C39: with no other task ready, a system call that blocks or ends its caller
    resumes it all the same: [syscall_entry] returns to the frame of the same
    task and marks it RUNNING, although the call had made it BLOCKED or EXITED. *)
Theorem blocked_task_resumes r s v s1 s2 t :
  syscall_handler (r_rax r) (r_rdi r) (r_rsi r) (r_rdx r) (r_rcx r) s = Ok v s1 →
  save_frame (r_set_rax v r) s1 = Ok tt s2 →
  sched_ok s1 → (∀ l, 1 ≤ l < num_tasks s1 → ¬ ready_at s1 (after s1 l)) →
  tasks s1 !! Z.to_nat (current_task s1) = Some t → t_state t = TASK_BLOCKED ∨ t_state t = TASK_EXITED →
  ∃ t' s', syscall_entry r s = Ok (FrameAt (t_stack_phys t)) s' ∧ current_task s' = current_task s1 ∧
    tasks s' !! Z.to_nat (current_task s1) = Some t' ∧ t_state t' = TASK_RUNNING.
Proof.
  intros Ev Esf Hs Hno Ht Hst. destruct (save_frame_inv _ _ _ _ Esf) as (t0 & Hc & Ht0 & Eo).
  assert (t0 = t) as -> by congruence. injection Eo as Et Ec En _ _ _ _.
  pose proof (lookup_lt_Some _ _ _ Ht) as Hlt. set (cur := Z.to_nat (current_task s1)) in *.
  set (t1 := t_set_rsp (t_stack_phys t) t) in *. destruct (Hs) as [Hn Hcur]. simpl in Ec, En.
  assert (Ht2 : tasks s2 !! cur = Some t1). { rewrite Et. by apply list_lookup_insert_eq. }
  assert (Hs2 : sched_ok s2). { unfold sched_ok. rewrite Et, Ec, En, length_insert. simpl. lia. }
  assert (Hno2 : ∀ l, 1 ≤ l < num_tasks s2 → ¬ ready_at s2 (after s2 l)).
  { intros l Hl (tl & Htl & Hstl). unfold after in Htl. rewrite Et, Ec, En in *. fold (after s1 l) in Htl.
    destruct (decide (Z.to_nat (after s1 l) = cur)) as [Eq|Hne].
    - rewrite Eq, list_lookup_insert_eq in Htl by done. simplify_eq. simpl in Hstl. destruct Hst; congruence.
    - rewrite list_lookup_insert_ne in Htl by done. apply (Hno l Hl). by exists tl. }
  destruct (schedule_next_spec s2 Hs2) as [(j & tj & Hj & Htj & Hstj & _ & _)|[_ Enext]].
  { exfalso. apply (Hno2 j Hj). by exists tj. }
  exists (t_set_state TASK_RUNNING t1), (running cur t1 s2). split_and!.
  - unfold syscall_entry. step_by ltac:(exact Ev). cbv zeta. step_by ltac:(reflexivity).
    replace (1 <? num_tasks s1) with true by lia. step_by ltac:(exact Esf). step_by ltac:(reflexivity).
    rewrite Ec. step_by ltac:(apply (get_task_eq _ _ t1); [done|exact Ht2]).
    assert (Hb : negb (is_blocked t1) && negb (is_exited t1) = false).
    { unfold is_blocked, is_exited. simpl. by destruct Hst as [-> | ->]. }
    rewrite Hb. step_by ltac:(reflexivity). step_by ltac:(exact Enext). rewrite Ec.
    rewrite <- (Z2Nat.id (current_task s1)) by done. fold cur. exact (switch_to_eq s2 cur t1 Ht2).
  - unfold running. destruct (_ =? 0); simpl; unfold cur; by rewrite Z2Nat.id.
  - unfold running. destruct (_ =? 0); simpl; by apply list_lookup_insert_eq; rewrite Et, length_insert.
  - done.
Qed.

End SchedProps.

(** ** Instances *)

(** A timer interrupt of user code. *)
Definition demo_regs : registers_t :=
  Regs 15 14 13 12 11 10 9 8 7 6 5 4 3 2 1 32 0 0x400010 0x2B 0x202 0x4FF000 0x23.

(** Task 0 runs, task 1 is ready. *)
Definition demo_pair (st : task_state_t) : kstate :=
  demo_free_state 8 ([demo_task 1 TASK_RUNNING 0xA00000; demo_task 9 st 0xA01000] ++ replicate 62 task_zero) 0 2.

Lemma demo_pair_sched st : sched_ok (demo_pair st).
Proof. unfold sched_ok. simpl. lia. Qed.

Lemma demo_pair_ready : ready_at (demo_pair TASK_READY) 1.
Proof. by exists (demo_task 9 TASK_READY 0xA01000). Qed.

Lemma demo_pair_ok st : @kwin demo demo_W (demo_pair st) ∧ kfree demo_W (demo_pair st) (demo_free 8).
Proof. apply demo_ok; vm_compute; reflexivity. Qed.

Lemma demo_pair_tables st : has_boot_tables (mem (demo_pair st)).
Proof. apply check_boot_tables_ok. vm_compute. reflexivity. Qed.

Lemma ready_task_runs_witness :
  ∃ s', turns 1 (demo_pair TASK_READY) s' ∧
    ∃ j s1, (0 < j ≤ 1)%nat ∧ turns j (demo_pair TASK_READY) s1 ∧ turns (1 - j) s1 s' ∧ current_task s1 = 1.
Proof.
  set (s := demo_pair TASK_READY). set (s0 := set_irq_tape [] (set_mem (mem s) s)).
  destruct (returns_run_state (isr_handler demo_regs 0) s0) as [res E]; [vm_compute; reflexivity|].
  assert (Ht : turns 1 s (run_state (isr_handler demo_regs 0) s0)).
  { exact (turns_S 0 s (mem s) [] demo_regs 0 res _ _ eq_refl eq_refl E (turns_0 _)). }
  exists (run_state (isr_handler demo_regs 0) s0). split; [exact Ht|].
  refine (ready_task_runs 1 s _ 1 (demo_pair_sched _) _ _ _ demo_pair_ready Ht _).
  - apply Z.le_refl.
  - split; [discriminate|reflexivity].
  - discriminate.
  - apply Z.le_refl.
Defined.

Lemma schedule_next_round_robin_witness :
  schedule_next (demo_pair TASK_BLOCKED) = Ok 0 (demo_pair TASK_BLOCKED).
Proof.
  destruct (schedule_next_round_robin (demo_pair TASK_BLOCKED) (demo_pair_sched _))
    as [(j & t & Hj & Ht & Hst & _)|[_ E]]; [exfalso|exact E].
  change (num_tasks (demo_pair TASK_BLOCKED)) with 2 in Hj. assert (j = 1) as -> by lia.
  injection Ht as <-. discriminate.
Defined.

Lemma schedule_switches_context_witness :
  ∃ s', schedule demo_regs (demo_pair TASK_READY) = Ok (FrameAt 0xA01000) s' ∧ current_task s' = 1 ∧
    frame_at (mem s') 0xA00000 = regs_words demo_regs.
Proof.
  destruct (schedule_switches_context demo_W (demo_pair TASK_READY) (demo_free 8) 0 (demo_task 1 TASK_RUNNING 0xA00000)
    demo_regs) as (next & tn & s' & E & Htn & Hst & Hfirst & Ht & Hc & _ & Hf & _).
  - apply demo_pair_ok.
  - apply demo_pair_ok.
  - apply demo_pair_sched.
  - reflexivity.
  - reflexivity.
  - apply demo_W_high. by_decide.
  - by_decide.
  - apply boot_fresh; [apply demo_pair_tables|by_decide].
  - by_decide.
  - destruct next as [|[|next]].
    + exfalso. apply (Hfirst 1); [split; [discriminate|reflexivity]|]. exact demo_pair_ready.
    + injection Htn as <-. exists s'. split; [exact E|]. split; [exact Hc|exact Hf].
    + exfalso. change (replicate 62 task_zero !! next = Some tn) in Htn.
      apply lookup_replicate_1 in Htn as [-> _]. discriminate.
Defined.

(** Memory as the boot loader leaves it: its tables, and one E820 entry of 32
    usable pages from 0x900000. *)
Definition demo_boot_mem : gmap Z Z :=
  <[0x4000 := 1 + 0x900000 * 2 ^ 32]> (<[0x4008 := 0x20000 * 2 ^ 32]> (<[0x4010 := 1 * 2 ^ 32]> boot_tables)).

(** [int 0x80] with rax = 2 (send) of five bytes at 0x4000 to pid 1. *)
Definition demo_send_self : registers_t :=
  Regs 0 0 0 0 0 0 0 0 0 1 7 0x4000 5 0 2 0x80 0 0x400010 0x2B 0x202 0x4FF000 0x23.

(** The first process stores a word, sends itself a message and is interrupted by
    the timer. *)
Lemma reachable_wf_witness :
  ∃ res s0 s, kmain (boot_state demo_boot_mem []) = Ok res s0 ∧ rtc sys_step s0 s ∧ ticks s = 1 ∧
    (inbox <$> tasks s !! 0%nat) = Some [(1, 7, [1; 0; 0; 0; 0])] ∧ wf s.
Proof.
  destruct (returns_run_state kmain (boot_state demo_boot_mem [])) as [res E]; [vm_compute; reflexivity|].
  set (s0 := run_state kmain (boot_state demo_boot_mem [])) in *.
  set (s1 := set_mem (<[0x500000 := 3]> (mem s0)) s0).
  destruct (returns_run_state (isr_handler demo_send_self 0) s1) as [r2 E2]; [vm_compute; reflexivity|].
  set (s2 := run_state (isr_handler demo_send_self 0) s1) in *.
  destruct (returns_run_state (isr_handler demo_regs 0) s2) as [r3 E3]; [vm_compute; reflexivity|].
  set (s3 := run_state (isr_handler demo_regs 0) s2) in *.
  assert (Hr : rtc sys_step s0 s3).
  { eapply rtc_l; [apply (step_user s0 (<[0x500000 := 3]> (mem s0)))|].
    { intros a Ha. apply mget_insert_ne. intros <-. discriminate. }
    eapply rtc_l; [apply (step_trap s1 demo_send_self 0 r2 s2); [by_decide|exact E2]|].
    eapply rtc_l; [apply (step_trap s2 demo_regs 0 r3 s3); [by_decide|exact E3]|]. apply rtc_refl. }
  exists res, s0, s3. refine (conj E (conj Hr (conj _ (conj _ _)))).
  - vm_compute. reflexivity.
  - vm_compute. reflexivity.
  - exact (reachable_wf demo_boot_mem [] res s0 _ E Hr).
Defined.

(** [int 0x80] with rax = 7 (wait) and rdi = 9. *)
Definition demo_wait_regs : registers_t :=
  Regs 0 0 0 0 0 0 0 0 0 9 0 0 0 0 7 0x80 0 0x400010 0x2B 0x202 0x4FF000 0x23.

(** Task 0 waits for task 1, which is blocked and never exits: the wait is over at
    once. *)
Lemma blocked_task_resumes_witness :
  ∃ t' s', syscall_entry demo_wait_regs (demo_pair TASK_BLOCKED) = Ok (FrameAt 0xA00000) s' ∧
    current_task s' = 0 ∧ tasks s' !! 0%nat = Some t' ∧ t_state t' = TASK_RUNNING.
Proof.
  set (s := demo_pair TASK_BLOCKED). set (s1 := run_state (syscall_handler 7 9 0 0 0) s).
  set (s2 := run_state (save_frame (r_set_rax 0 demo_wait_regs)) s1).
  assert (E1 : syscall_handler 7 9 0 0 0 s = Ok 0 s1) by (vm_compute; reflexivity).
  assert (E2 : save_frame (r_set_rax 0 demo_wait_regs) s1 = Ok tt s2) by (vm_compute; reflexivity).
  assert (Hn : num_tasks s1 = 2) by (vm_compute; reflexivity).
  assert (Hc : current_task s1 = 0) by (vm_compute; reflexivity).
  set (t := default task_zero (tasks s1 !! 0%nat)).
  destruct (blocked_task_resumes demo_wait_regs s 0 s1 s2 t E1 E2) as (t' & s' & H1 & H2 & H3 & H4).
  - unfold sched_ok. rewrite Hn, Hc. replace (length (tasks s1)) with 64%nat by (vm_compute; reflexivity). lia.
  - rewrite Hn. intros l Hl. assert (l = 1) as -> by lia. unfold after. rewrite Hn, Hc.
    change (Z.to_nat ((0 + 1) mod 2)) with 1%nat. intros (t1 & Ht1 & Hst).
    assert (Hb : t_state <$> tasks s1 !! 1%nat = Some TASK_BLOCKED) by (vm_compute; reflexivity).
    change (tasks s1 !! 1%nat = Some t1) in Ht1. rewrite Ht1 in Hb. simpl in Hb. congruence.
  - rewrite Hc. vm_compute. reflexivity.
  - left. vm_compute. reflexivity.
  - rewrite Hc in H2, H3. exists t', s'. split; [exact H1|]. split; [exact H2|]. split; [exact H3|exact H4].
Defined.
