(* ===== verification/Handshake.v ===== *)
(** * Handshake: calls of two processes, with the context switches between them

    A system call of one task, any number of timer interrupts, a system call of
    another: a message reaches its receiver in the receiver's own address space,
    and a task that waits is woken by the exit of the one it waits for. *)

From S2P Require Import Prelude State Machine Walk Serial Space Pmm Paging PagingOps CloneSpace BootMem Tasks Demo UserBuf Ipc IpcProps.
From S2P Require Import Vm Lifecycle Irq Elf Syscall Sched Boot Quiet Wf Invariant SchedSpec LifeProps SchedProps.

Section Handshake.
Context `{Platform}.

(** ** Choosing the next task *)

(** What [schedule] and the system call path end with. *)
Definition choose : M resume := next ← schedule_next; switch_to next.

(** [choose] resumes one task, a ready one if there is another than the current. *)
Lemma choose_spec s :
  sched_ok s → 0 ≤ current_task s →
  ∃ next tn s', choose s = Ok (FrameAt (t_rsp tn)) s' ∧ tasks s !! next = Some tn ∧
    (t_state tn = TASK_READY ∨
     Z.of_nat next = current_task s ∧ ∀ l, 1 ≤ l < num_tasks s → ¬ ready_at s (after s l)) ∧
    tasks s' = <[next := t_set_state TASK_RUNNING tn]> (tasks s) ∧ current_task s' = Z.of_nat next ∧
    Z.of_nat next < num_tasks s ∧ num_tasks s' = num_tasks s ∧ mem s' = mem s ∧
    cr3 s' = (if t_pml4_phys tn =? 0 then cr3 s else t_pml4_phys tn).
Proof.
  intros Hs Hc. pose proof Hs as [Hn Hcur].
  assert (Hnum : ∀ k t s, num_tasks (running k t s) = num_tasks s) by (intros; unfold running; by destruct (_ =? 0)).
  destruct (schedule_next_spec s Hs) as [(j & tn & Hj & Htn & Hst & Hmin & En)|[Hno En]].
  - set (next := Z.to_nat (after s j)) in *. assert (Hra := after_range s j Hs).
    set (s2 := set_tasks _ s) in En.
    assert (Ht2 : tasks s2 !! next = Some (t_set_state TASK_RUNNING tn)).
    { apply list_lookup_insert_eq. by eapply lookup_lt_Some. }
    destruct (running_fields next (t_set_state TASK_RUNNING tn) s2) as (H1 & H2 & H3 & H4).
    exists next, tn, (running next (t_set_state TASK_RUNNING tn) s2). split_and!; try done.
    + unfold choose. step_by ltac:(exact En). rewrite <- (Z2Nat.id (after s j)) by lia. fold next.
      exact (switch_to_eq s2 next _ Ht2).
    + by left.
    + rewrite H1. unfold s2. simpl. by rewrite list_insert_insert_eq.
    + unfold next. lia.
    + by rewrite Hnum.
  - destruct (lookup_lt_is_Some_2 (tasks s) (Z.to_nat (current_task s))) as [tn Htn]; [lia|].
    set (cur := Z.to_nat (current_task s)) in *. assert (Ecur : Z.of_nat cur = current_task s) by lia.
    destruct (running_fields cur tn s) as (H1 & H2 & H3 & H4).
    exists cur, tn, (running cur tn s). split_and!; try done.
    + unfold choose. step_by ltac:(exact En). rewrite <- Ecur. exact (switch_to_eq s cur tn Htn).
    + by right.
    + lia.
Qed.

(** ** What switches leave alone *)

(** The same task but for its saved stack pointer and its state. *)
Definition kept (t t' : task_t) : Prop := t' = t_set_state (t_state t') (t_set_rsp (t_rsp t') t).

#[global] Instance kept_preorder : PreOrder kept.
Proof. split; [by intros []|]. intros x y z Hy Hz. unfold kept. etrans; [exact Hz|]. by rewrite Hy. Qed.

Lemma kept_intro v st t : kept t (t_set_state st (t_set_rsp v t)).
Proof. done. Qed.

Lemma kept_state st t : kept t (t_set_state st t).
Proof. by destruct t. Qed.

Lemma kept_ring t t' : kept t t' → ring_ok t → ring_ok t' ∧ inbox t' = inbox t ∧ t_ipc_count t' = t_ipc_count t.
Proof. intros -> []. split; [by split|done]. Qed.

(** The tasks of [s] are those of [s'] but for stack pointers and states, the
    processor uses the tables of the task that runs, and the scheduler's index
    arithmetic is in range. *)
Record follows (s s' : kstate) : Prop := {
  fo_sched : sched_ok s';
  fo_cur : 0 ≤ current_task s';
  fo_tasks : ∀ k t, tasks s !! k = Some t → ∃ t', tasks s' !! k = Some t' ∧ kept t t';
  fo_space : ∀ t, tasks s' !! Z.to_nat (current_task s') = Some t → t_pml4_phys t ≠ 0 → cr3 s' = t_pml4_phys t;
}.

Lemma kept_insert (ts : list task_t) i x y k t :
  ts !! i = Some x → kept x y → ts !! k = Some t → ∃ t', <[i := y]> ts !! k = Some t' ∧ kept t t'.
Proof.
  intros Hx Hxy Ht. destruct (decide (i = k)) as [<-|Hne].
  - exists y. rewrite list_lookup_insert_eq by (by eapply lookup_lt_Some). by simplify_eq.
  - exists t. by rewrite list_lookup_insert_ne.
Qed.

(** A switch away from a task whose record [save] changed. *)
Lemma choose_follows s s0 cur x y res s1 :
  sched_ok s → current_task s = Z.of_nat cur → tasks s !! cur = Some x → kept x y →
  tasks s0 = <[cur := y]> (tasks s) → current_task s0 = current_task s → num_tasks s0 = num_tasks s →
  choose s0 = Ok res s1 → follows s s1.
Proof.
  intros [Hn Hcur] Hc Hx Hxy Ht0 Hc0 Hn0 E. pose proof (lookup_lt_Some _ _ _ Hx) as Hlt.
  assert (Hs0 : sched_ok s0) by (unfold sched_ok; rewrite Ht0, Hc0, Hn0, length_insert; lia).
  destruct (choose_spec s0 Hs0 ltac:(lia)) as (next & tn & s' & E' & Htn & Hst & Ht & Hcu & Hnb & Hnu & _ & Hcr).
  rewrite E in E'. injection E' as -> ->. pose proof (lookup_lt_Some _ _ _ Htn) as Hln. split.
  - unfold sched_ok. rewrite Ht, Hcu, Hnu, length_insert, Ht0, length_insert. lia.
  - lia.
  - intros k t Hk. destruct (kept_insert (tasks s) cur x y k t Hx Hxy Hk) as (t1 & Hk1 & Hkt).
    rewrite <- Ht0 in Hk1. destruct (kept_insert (tasks s0) next tn _ k t1 Htn (kept_state TASK_RUNNING tn) Hk1)
      as (t2 & Hk2 & Hkt2). exists t2. rewrite Ht. split; [done|by etrans].
  - intros t Hk Hp. rewrite Ht, Hcu, Nat2Z.id, list_lookup_insert_eq in Hk by done. injection Hk as <-.
    rewrite Hcr. simpl in Hp |- *. by replace (t_pml4_phys tn =? 0) with false by lia.
Qed.

(** A blocked task that is not current, or is while another is ready, stays as it
    is and does not run. *)
Lemma choose_blocked s res s' w tw :
  sched_ok s → 0 ≤ current_task s → tasks s !! w = Some tw → t_state tw = TASK_BLOCKED →
  (Z.of_nat w ≠ current_task s ∨ ∃ l, 1 ≤ l < num_tasks s ∧ ready_at s (after s l)) →
  choose s = Ok res s' → tasks s' !! w = Some tw ∧ current_task s' ≠ Z.of_nat w.
Proof.
  intros Hs Hc Hw Hb Hor E.
  destruct (choose_spec s Hs Hc) as (next & tn & s1 & E' & Htn & Hst & Ht & Hcu & _).
  rewrite E in E'. injection E' as _ ->.
  assert (Hne : next ≠ w).
  { intros ->. destruct Hst as [Hst|[Heq Hno]]; [congruence|]. destruct Hor as [|(l & Hl & Hr)]; [done|].
    by apply (Hno l Hl). }
  rewrite Ht, list_lookup_insert_ne by done. split; [done|lia].
Qed.

(** ** A timer interrupt of user code *)

Lemma turn_choose s m tape r cr2 res s1 :
  r_int_no r = 32 → from_user r = true → isr_handler r cr2 (set_irq_tape tape (set_mem m s)) = Ok res s1 →
  sched_ok s → 0 ≤ current_task s →
  ∃ t s0, tasks s !! Z.to_nat (current_task s) = Some t ∧
    tasks s0 = <[Z.to_nat (current_task s) := t_set_state TASK_READY (t_set_rsp (t_stack_phys t) t)]> (tasks s) ∧
    current_task s0 = current_task s ∧ num_tasks s0 = num_tasks s ∧ choose s0 = Ok res s1.
Proof.
  intros Hn Hu E [Hnum Hcur] Hc. unfold isr_handler in E. cbv zeta in E. rewrite Hn in E.
  cbn [Z.leb Z.compare Pos.compare Pos.compare_cont andb] in E. unfold irq_handler in E. cbv zeta in E. rewrite Hn in E.
  apply bind_inv in E as ([] & s2 & E1 & E). apply quiet_irq_eoi in E1.
  apply bind_inv in E as ([] & s3 & E2 & E). apply quiet_timer_tick in E2.
  apply bind_inv in E as (n & s4 & [= <- <-] & E).
  assert (Eo : objs s3 = objs s) by (rewrite E2, E1; done). injection Eo as Et Ec Enum _ _ _ _.
  rewrite Hu in E. replace (1 <? num_tasks s3) with true in E by lia. cbn [Z.eqb Pos.eqb andb] in E.
  destruct (schedule_inv r s3 res s1 ltac:(lia) E) as (t & s0 & next & s5 & Ht & Eo & En & Esw).
  injection Eo as Et0 Ec0 En0 _ _ _ _. simpl in Ec0, En0. rewrite Et, Ec in *.
  exists t, s0. split_and!; [done|done|congruence|congruence|]. unfold choose. by step_by ltac:(exact En).
Qed.

(** Any number of them. *)
Lemma turns_follow n s s' : turns n s s' → ∀ s0, follows s0 s → follows s0 s'.
Proof.
  induction 1 as [s|n s m tape r cr2 res s1 s2 Hno Hu E Ht IH]; intros s0 Hf; [done|]. apply IH.
  pose proof Hf as [Hs Hc Hk _].
  destruct (turn_choose s m tape r cr2 res s1 Hno Hu E Hs Hc) as (t & s3 & Htk & T & C & N & Ech).
  pose proof (choose_follows s s3 (Z.to_nat (current_task s)) t _ res s1 Hs ltac:(lia) Htk (kept_intro _ _ t) T C N Ech)
    as [Hs1 Hc1 Hk1 Hsp]. split; [done|done| |done].
  intros k tk Htk'. destruct (Hk k tk Htk') as (t' & Ht' & Hkt). destruct (Hk1 k t' Ht') as (t'' & Ht'' & Hkt').
  exists t''. split; [done|by etrans].
Qed.

Lemma turns_blocked n s s' : turns n s s' → ∀ w tw, sched_ok s → 0 ≤ current_task s →
  tasks s !! w = Some tw → t_state tw = TASK_BLOCKED → current_task s ≠ Z.of_nat w →
  tasks s' !! w = Some tw ∧ current_task s' ≠ Z.of_nat w.
Proof.
  induction 1 as [s|n s m tape r cr2 res s1 s2 Hno Hu E Ht IH]; intros w tw Hs Hc Hw Hb Hne; [done|].
  destruct (turn_choose s m tape r cr2 res s1 Hno Hu E Hs Hc) as (t & s3 & Htk & T & C & N & Ech).
  pose proof (choose_follows s s3 (Z.to_nat (current_task s)) t _ res s1 Hs ltac:(lia) Htk (kept_intro _ _ t) T C N Ech)
    as [Hs1 Hc1 _ _]. pose proof Hs as [Hn Hcur].
  destruct (choose_blocked s3 res s1 w tw) as [Hw1 Hne1]; [|lia| |done|left; lia|done|].
  - unfold sched_ok. rewrite T, C, N, length_insert. lia.
  - by rewrite T, list_lookup_insert_ne by lia.
  - by apply IH.
Qed.

(** ** A system call *)

(** The task that makes a system call: its kernel stack is a page of its own. *)
Record caller (W : Z → Prop) (s : kstate) (cur : nat) (tc : task_t) : Prop := {
  ca_win : kwin W s;
  ca_free : ∃ fl, kfree W s fl ∧ t_stack_phys tc ∉ fl;
  ca_sched : sched_ok s;
  ca_cur : current_task s = Z.of_nat cur;
  ca_task : tasks s !! cur = Some tc;
  ca_stack : W (t_stack_phys tc);
  ca_fresh : fresh (mem s) (cr3 s) (t_stack_phys tc);
}.

Lemma regs_rax_range v r :
  0 ≤ v < 2 ^ 64 → Forall (λ w, 0 ≤ w < 2 ^ 64) (regs_words r) → Forall (λ w, 0 ≤ w < 2 ^ 64) (regs_words (r_set_rax v r)).
Proof.
  intros Hv Hr. replace (regs_words (r_set_rax v r)) with (<[14%nat := v]> (regs_words r)) by reflexivity.
  by apply Forall_insert.
Qed.

(** A call that leaves memory alone: the frame is saved with the result in rax and
    the next task chosen. *)
Lemma syscall_trap W r cr2 s v ts cur tc tc' :
  r_int_no r = 0x80 → Forall (λ w, 0 ≤ w < 2 ^ 64) (regs_words r) → caller W s cur tc →
  syscall_handler (r_rax r) (r_rdi r) (r_rsi r) (r_rdx r) (r_rcx r) s = Ok v (set_tasks ts s) → 0 ≤ v < 2 ^ 64 →
  length ts = length (tasks s) → ts !! cur = Some tc' → t_stack_phys tc' = t_stack_phys tc → t_state tc' ≠ TASK_EXITED →
  let st := if bool_decide (t_state tc' = TASK_BLOCKED) then TASK_BLOCKED else TASK_READY in
  ∃ m', isr_handler r cr2 s =
      choose (set_tasks (<[cur := t_set_state st (t_set_rsp (t_stack_phys tc) tc')]> ts) (set_mem m' s)) ∧
    frame_at m' (t_stack_phys tc) = regs_words (r_set_rax v r).
Proof.
  intros Hn Hreg [Hw (fl & Hf & Hnin) Hs Hc Ht HW Hfr] Ev Hv Hl Ht' Hsp Hex st. pose proof (lookup_lt_Some _ _ _ Ht') as Hlt.
  pose proof Hs as [Hnum _]. set (s1 := set_tasks ts s) in *.
  destruct (save_frame_runs W s1 fl cur tc' (r_set_rax v r)) as (m' & Esf & Hframe & _); rewrite ?Hsp; try done.
  { destruct Hw. by split. } { destruct Hf. by split. } { by apply regs_rax_range. }
  rewrite Hsp in *. exists m'. split; [|done]. set (t1 := t_set_rsp (t_stack_phys tc) tc') in *.
  unfold isr_handler. cbv zeta. rewrite Hn. cbn [Z.leb Z.compare Pos.compare Pos.compare_cont andb Z.eqb Pos.eqb].
  unfold syscall_entry. step_by ltac:(exact Ev). cbv zeta. step_by ltac:(reflexivity).
  replace (1 <? num_tasks s1) with true by (change (num_tasks s1) with (num_tasks s); lia).
  step_by ltac:(exact Esf). step_by ltac:(reflexivity).
  change (set_tasks (<[cur := t1]> (tasks s1)) (set_mem m' s1)) with (set_tasks (<[cur := t1]> ts) (set_mem m' s)).
  change (current_task (set_tasks _ _)) with (current_task s). rewrite Hc.
  assert (Hcur : <[cur := t1]> ts !! Z.to_nat (Z.of_nat cur) = Some t1) by (rewrite Nat2Z.id; by apply list_lookup_insert_eq).
  step_by ltac:(apply (get_task_eq _ _ t1); [lia|exact Hcur]). unfold is_blocked, is_exited.
  change (t_state t1) with (t_state tc'). rewrite (bool_decide_eq_false_2 (t_state tc' = TASK_EXITED)) by done.
  unfold choose. subst st. case_bool_decide as Hb; cbn [negb andb when].
  - step_by ltac:(reflexivity). do 4 f_equal. rewrite <- Hb. by destruct tc'.
  - step_by ltac:(apply (upd_task_eq _ _ _ t1); [lia|exact Hcur]). cbn [tasks set_tasks set_mem].
    by rewrite Nat2Z.id, list_insert_insert_eq.
Qed.

Lemma current_pid_eq s cur tc :
  current_task s = Z.of_nat cur → tasks s !! cur = Some tc → current_pid s = Ok (t_pid tc) s.
Proof.
  intros Hc Htc. unfold current_pid. step_by ltac:(reflexivity). rewrite Hc. replace (Z.of_nat cur <? 0) with false by lia.
  by step_by ltac:(apply (get_task_eq _ _ tc); [lia|by rewrite Nat2Z.id]).
Qed.

Lemma int_result_eq (m : M Z) s v s' : m s = Ok v s' → int_result m s = Ok (u64 v) s'.
Proof. intros E. unfold int_result. by step_by ltac:(exact E). Qed.

(** ** Messages *)

(** Receiving the only message of a queue. *)
Lemma recv_only s k t msg pa sender type bs :
  current_task s = Z.of_nat k → tasks s !! k = Some t → ring_ok t → inbox t = [(sender, type, bs)] →
  0 ≤ sender < 2 ^ 64 → 0 ≤ type < 2 ^ 64 → buffer s msg pa 11 →
  ∃ s', sys_recv msg s = Ok 0 s' ∧ mget (mem s') pa = sender ∧ mget (mem s') (pa + 8) = type ∧
    mget (mem s') (pa + 80) = Z.of_nat (length bs) ∧
    ∀ i b, bs !! i = Some b → byte_at (mem s') (pa + 16 + Z.of_nat i) = b.
Proof.
  intros Hc Ht Hr Hin Hse Hty Hbuf.
  assert (Hcnt : 0 < t_ipc_count t).
  { pose proof (inbox_length t Hr) as El. rewrite Hin in El. simpl in El. lia. }
  destruct (sys_recv_runs s msg pa t) as (m' & E & [D1 D2 D3 D4 _]); rewrite ?Hc, ?Nat2Z.id; try done; [lia|].
  eexists. split; [exact E|]. cbn [mem set_tasks set_mem].
  destruct (pop_ok t Hr Hcnt) as [_ Hi']. rewrite Hin in Hi'. injection Hi' as E1 E2 E3 _.
  set (x := slot t (t_ipc_tail t)) in *. assert (Hx : msg_ok x).
  { destruct Hr as [Hl' Htl' _ _ Hm']. unfold x, slot. rewrite Z.mod_small by lia.
    destruct (t_ipc_queue t !! _) as [y|] eqn:Ey; simpl; [|apply lookup_ge_None in Ey; lia].
    rewrite Forall_forall in Hm'. apply Hm'. by eapply list_elem_of_lookup_2. }
  destruct Hx as (Hx1 & Hx2 & _).
  assert (Hlen : length bs = Z.to_nat (msg_length x)) by (rewrite E3, length_take; lia).
  rewrite D1, D2, D3, <- E1, <- E2. rewrite !u64_small by done. split_and!; [done|done|lia|].
  intros i b Hib. assert (Hlt := lookup_lt_Some _ _ _ Hib).
  specialize (D4 (Z.of_nat i) ltac:(lia)). rewrite Nat2Z.id in D4.
  rewrite E3, lookup_take_lt in Hib by lia. congruence.
Qed.

(** C4: What one process sends is what another receives.  A task traps with a send
    to another live task whose queue is empty; the trap returns, with result 0 in
    the caller's saved frame.  After any number of timer interrupts, when the
    target has the processor, and whatever user code did to memory in between, the
    target's receive returns 0 and its buffer holds the sender's pid, the type,
    the length and the bytes.  The buffer is one of the target's address space:
    the processor then uses the target's own page tables. *)
Theorem send_recv_roundtrip W s cur tc r cr2 k t bs :
  caller W s cur tc → Forall (λ w, 0 ≤ w < 2 ^ 64) (regs_words r) → t_state tc = TASK_RUNNING → 0 ≤ t_pid tc < 2 ^ 64 →
  r_int_no r = 0x80 → r_rax r = 2 → send_target (r_rdi r) s = Some (k, t) → k ≠ cur → ring_ok t → inbox t = [] →
  length bs = Z.to_nat (r_rcx r `min` 64) →
  (∀ i b, bs !! i = Some b → load8 (u64 (r_rdx r + Z.of_nat i)) s = Ok b s) →
  ∃ res s1, isr_handler r cr2 s = Ok res s1 ∧
    frame_at (mem s1) (t_stack_phys tc) = regs_words (r_set_rax 0 r) ∧
    ∀ n s2, turns n s1 s2 → current_task s2 = Z.of_nat k →
      (t_pml4_phys t ≠ 0 → cr3 s2 = t_pml4_phys t) ∧
      ∀ m msg pa x y z, buffer (set_mem m s2) msg pa 11 →
        ∃ s3, syscall_handler 3 msg x y z (set_mem m s2) = Ok 0 s3 ∧
          mget (mem s3) pa = t_pid tc ∧ mget (mem s3) (pa + 8) = r_rsi r ∧
          mget (mem s3) (pa + 80) = Z.of_nat (length bs) ∧
          ∀ i b, bs !! i = Some b → byte_at (mem s3) (pa + 16 + Z.of_nat i) = b.
Proof.
  intros Hca Hreg Hrun Hpid Hn Hax Hf Hne Hr Hin Hbs Hb. pose proof Hca as [_ _ Hs Hc Htc _ _]. pose proof Hs as [Hnum Hcb].
  assert (Hrcx : 0 ≤ r_rcx r < 2 ^ 64) by by apply (Forall_lookup_1 _ _ 12%nat _ Hreg).
  assert (Hrsi : 0 ≤ r_rsi r < 2 ^ 64) by by apply (Forall_lookup_1 _ _ 10%nat _ Hreg).
  assert (Hcnt : t_ipc_count t = 0).
  { pose proof (inbox_length t Hr) as E. rewrite Hin in E. simpl in E. lia. }
  assert (Hcp := current_pid_eq s cur tc Hc Htc).
  destruct (sys_send_runs s (r_rdi r) (r_rsi r) (r_rdx r) (r_rcx r) k t (t_pid tc) bs) as (mg & E & Hok & Hv);
    [unfold table_ok; lia|done|done|lia|done|lia|done|done|].
  destruct (push_ok t mg Hr ltac:(lia) Hok) as [Hr1 Hi1]. destruct (wake_ring _ Hr1) as [Hr2 Hi2].
  destruct (find_task_Some s _ _ _ Hf) as (Ht & _). pose proof (lookup_lt_Some _ _ _ Ht) as Hlt.
  set (t' := wake (ring_push (put_slot t mg))) in *. set (ts := <[k := t']> (tasks s)) in *.
  assert (Hinb : inbox t' = [(t_pid tc, r_rsi r, bs)]) by by rewrite Hi2, Hi1, Hin, Hv.
  assert (Hcur : ts !! cur = Some tc) by by (unfold ts; rewrite list_lookup_insert_ne).
  assert (Htk : ts !! k = Some t') by by (unfold ts; rewrite list_lookup_insert_eq).
  assert (Hpm : t_pml4_phys t' = t_pml4_phys t) by (unfold t', wake; by destruct (is_blocked _)).
  destruct (syscall_trap W r cr2 s 0 ts cur tc tc) as (m' & Et & Hfm); try done.
  { rewrite Hax. exact (int_result_eq _ _ _ _ E). }
  { unfold ts. by rewrite length_insert. } { by rewrite Hrun. }
  rewrite Hrun in Et. cbn [bool_decide decide_rel] in Et. set (s0 := set_tasks _ (set_mem m' s)) in Et.
  assert (Hs' : sched_ok (set_tasks ts s)) by (unfold sched_ok, ts; simpl; rewrite length_insert; lia).
  assert (Hs0 : sched_ok s0) by (unfold sched_ok, s0, ts; simpl; rewrite !length_insert; lia).
  destruct (choose_spec s0 Hs0) as (next & tn & s1 & Ech & _ & _ & _ & _ & _ & _ & Hm & _); [change (current_task s0) with (current_task s); lia|].
  exists (FrameAt (t_rsp tn)), s1. split_and!; [by rewrite Et|by rewrite Hm|].
  pose proof (choose_follows (set_tasks ts s) s0 cur tc _ _ s1 Hs' Hc Hcur (kept_intro _ _ tc) eq_refl eq_refl eq_refl Ech)
    as Hfo. intros n s2 Htu Hk2. apply (turns_follow _ _ _ Htu) in Hfo as [_ _ Hfo Hsp].
  destruct (Hfo k t' Htk) as (t2 & Ht2 & Hkt). rewrite Hk2, Nat2Z.id in Hsp. split.
  - intros Hp. rewrite <- Hpm in Hp |- *. replace (t_pml4_phys t') with (t_pml4_phys t2) in * by (by rewrite Hkt). by apply Hsp.
  - intros m msg pa x y z Hbuf. destruct (kept_ring _ _ Hkt Hr2) as (Hr3 & Hi3 & _).
    destruct (recv_only (set_mem m s2) k t2 msg pa (t_pid tc) (r_rsi r) bs) as (s3 & E3 & Hcon); try done; [congruence|].
    exists s3. split; [exact (int_result_eq _ _ _ _ E3)|done].
Qed.

(** ** Wait and exit *)

Lemma sys_wait_eq s pid cur k t tc :
  table_ok s → current_task s = Z.of_nat cur → cur ≠ k →
  list_find (λ t, (t_pid t =? pid) = true) (live_tasks s) = Some (k, t) → t_state t ≠ TASK_EXITED →
  tasks s !! cur = Some tc →
  sys_wait pid s = Ok 0 (set_tasks
    (<[cur := t_set_state TASK_BLOCKED tc]> (<[k := t_set_wait_idx (Z.of_nat cur) t]> (tasks s))) s).
Proof.
  intros Hs Hc Hne Hf Hst Htc. destruct (find_task_Some s _ _ _ Hf) as (Ht & _ & _ & _).
  unfold sys_wait. step_by ltac:(by apply find_task_eq). rewrite Hf. cbn [fmap option_fmap option_map fst].
  step_by ltac:(apply (get_task_eq _ _ t); rewrite ?Nat2Z.id; [lia|done]). unfold is_exited.
  rewrite bool_decide_eq_false_2 by done. step_by ltac:(reflexivity). rewrite Hc.
  step_by ltac:(apply (upd_task_eq _ _ _ t); rewrite ?Nat2Z.id; [lia|done]).
  step_by ltac:(apply (upd_task_eq _ _ _ tc); simpl; rewrite ?Nat2Z.id; [lia|];
    rewrite list_lookup_insert_ne by done; done).
  simpl. by rewrite !Nat2Z.id.
Qed.

(** Another task of the table is some places on. *)
Lemma after_reaches s k cur :
  sched_ok s → current_task s = Z.of_nat cur → k ≠ cur → Z.of_nat k < num_tasks s →
  ∃ l, 1 ≤ l < num_tasks s ∧ after s l = Z.of_nat k.
Proof.
  intros [Hn Hb] Hc Hne Hk. exists ((Z.of_nat k - Z.of_nat cur) mod num_tasks s).
  assert (Hr := Z.mod_pos_bound (Z.of_nat k - Z.of_nat cur) (num_tasks s) ltac:(lia)). split.
  - enough ((Z.of_nat k - Z.of_nat cur) mod num_tasks s ≠ 0) by lia. intros Hz.
    apply Z.mod_divide in Hz as [z Hz]; [|lia]. assert (z = 0) by nia. lia.
  - unfold after. rewrite Hc, Zplus_mod_idemp_r. replace (_ + _) with (Z.of_nat k) by lia. apply Z.mod_small. lia.
Qed.

(** The trap of a wait for a ready task: the caller is blocked, its waiter recorded,
    and another task runs. *)
Lemma wait_trap W s cur tc r cr2 k t :
  caller W s cur tc → Forall (λ w, 0 ≤ w < 2 ^ 64) (regs_words r) → r_int_no r = 0x80 → r_rax r = 7 →
  list_find (λ t, (t_pid t =? r_rdi r) = true) (live_tasks s) = Some (k, t) → k ≠ cur → t_state t = TASK_READY →
  let tk := t_set_wait_idx (Z.of_nat cur) t in
  let tb := t_set_state TASK_BLOCKED (t_set_rsp (t_stack_phys tc) tc) in
  ∃ res s1 ts, isr_handler r cr2 s = Ok res s1 ∧ frame_at (mem s1) (t_stack_phys tc) = regs_words (r_set_rax 0 r) ∧
    ts !! k = Some tk ∧ follows (set_tasks ts s) s1 ∧ tasks s1 !! cur = Some tb ∧ current_task s1 ≠ Z.of_nat cur.
Proof.
  intros Hca Hreg Hn Hax Hf Hne Hst tk tb. pose proof Hca as [_ _ Hs Hc Htc _ _]. pose proof Hs as [Hnum Hcb].
  destruct (find_task_Some s _ _ _ Hf) as (Ht & _ & Hkn & _).
  pose proof (lookup_lt_Some _ _ _ Ht) as Hlt. pose proof (lookup_lt_Some _ _ _ Htc) as Hltc.
  set (tw := t_set_state TASK_BLOCKED tc). set (ts := <[cur := tw]> (<[k := tk]> (tasks s))).
  assert (Hcur : ts !! cur = Some tw) by (apply list_lookup_insert_eq; by rewrite length_insert).
  assert (Hk : ts !! k = Some tk) by (unfold ts; rewrite list_lookup_insert_ne by done; by apply list_lookup_insert_eq).
  assert (E : sys_wait (r_rdi r) s = Ok 0 (set_tasks ts s)).
  { apply sys_wait_eq; [unfold table_ok; lia|done|done|done|by rewrite Hst|done]. }
  destruct (syscall_trap W r cr2 s 0 ts cur tc tw) as (m' & Et & Hfm); try done.
  { rewrite Hax. exact (int_result_eq _ _ _ _ E). } { unfold ts. by rewrite !length_insert. }
  change (isr_handler r cr2 s = choose (set_tasks (<[cur := tb]> ts) (set_mem m' s))) in Et.
  set (s0 := set_tasks _ (set_mem m' s)) in Et.
  assert (Hs' : sched_ok (set_tasks ts s)) by (unfold sched_ok, ts; simpl; rewrite !length_insert; lia).
  assert (Hs0 : sched_ok s0) by (unfold sched_ok, s0, ts; simpl; rewrite !length_insert; lia).
  assert (Hc0 : current_task s0 = Z.of_nat cur) by exact Hc.
  destruct (choose_spec s0 Hs0) as (next & tn & s1 & Ech & _ & _ & _ & _ & _ & _ & Hm & _); [lia|].
  exists (FrameAt (t_rsp tn)), s1, ts. split_and!; [by rewrite Et|by rewrite Hm|done|..].
  { exact (choose_follows _ s0 cur tw tb _ s1 Hs' Hc Hcur (kept_intro _ _ tc) eq_refl eq_refl eq_refl Ech). }
  all: apply (choose_blocked s0 (FrameAt (t_rsp tn)) s1 cur tb Hs0); [lia| |done| |exact Ech].
  1,3: unfold s0; simpl; apply list_lookup_insert_eq; unfold ts; by rewrite !length_insert.
  all: right; destruct (after_reaches s0 k cur Hs0 Hc0 Hne) as (l & Hl & El); [change (num_tasks s0) with (num_tasks s); lia|].
  all: exists l; split; [done|]; exists tk; rewrite El, Nat2Z.id; split; [|done].
  all: unfold s0; simpl; by rewrite list_lookup_insert_ne by done.
Qed.

(** C15: wait and exit form a handshake.  A task traps with a wait for another task
    that is READY: the trap returns, with result 0 in the caller's saved frame, and
    through any number of timer interrupts the caller is BLOCKED and does not run.
    When the awaited task has the processor and exits, the caller is READY again,
    its saved stack pointer at that frame. *)
Theorem wait_exit_handshake W s cur tc r cr2 k t :
  caller W s cur tc → Forall (λ w, 0 ≤ w < 2 ^ 64) (regs_words r) →
  r_int_no r = 0x80 → r_rax r = 7 →
  list_find (λ t, (t_pid t =? r_rdi r) = true) (live_tasks s) = Some (k, t) → k ≠ cur → t_state t = TASK_READY →
  ∃ res s1, isr_handler r cr2 s = Ok res s1 ∧
    frame_at (mem s1) (t_stack_phys tc) = regs_words (r_set_rax 0 r) ∧
    ∀ n s2, turns n s1 s2 →
      current_task s2 ≠ Z.of_nat cur ∧ (t_state <$> tasks s2 !! cur) = Some TASK_BLOCKED ∧
      ∀ m a s3, current_task s2 = Z.of_nat k → sys_exit (set_mem m s2) = Ok a s3 →
        ∃ tw, tasks s3 !! cur = Some tw ∧ t_state tw = TASK_READY ∧ t_rsp tw = t_stack_phys tc.
Proof.
  intros Hca Hreg Hn Hax Hf Hne Hst.
  destruct (wait_trap W s cur tc r cr2 k t) as (res & s1 & ts & E & Hfm & Hk & Hfo & Hw1 & Hne1); [done..|].
  exists res, s1. split_and!; [done..|]. intros n s2 Htu.
  destruct (turns_blocked n s1 s2 Htu cur _ (fo_sched _ _ Hfo) (fo_cur _ _ Hfo) Hw1 eq_refl Hne1) as [Hw2 Hne2].
  split_and!; [done|by rewrite Hw2|]. intros m a s3 Hk2 Ex.
  apply (turns_follow _ _ _ Htu) in Hfo as [_ _ Hfo _]. destruct (Hfo k _ Hk) as (t2 & Ht2 & Hkt).
  destruct (sys_exit_inv (set_mem m s2) a s3 ltac:(simpl; lia) Ex) as (t3 & Ht3 & T3 & _).
  simpl in Ht3, T3. rewrite Hk2, Nat2Z.id in Ht3, T3. assert (t3 = t2) as -> by congruence.
  eexists. rewrite T3, list_lookup_alter_ne by done. unfold wake_waiter.
  replace (t_wait_idx t2) with (Z.of_nat cur) by (by rewrite Hkt). replace (0 <=? Z.of_nat cur) with true by lia.
  rewrite Nat2Z.id, list_lookup_alter_eq, Hw2. by split.
Qed.

End Handshake.

(** ** Instances *)

(** A second address space: the first GiB is mapped to itself but for the two
    megabytes from 0x400000, which are the memory from 0xC00000. *)
Definition space2_pde (i : Z) : Z := if i =? 2 then 0xC00087 else boot_pde i.
Definition space2 (m : gmap Z Z) : gmap Z Z :=
  <[0xB00000 := 0xB01007]> (<[0xB01000 := 0xB02007]> (fill_from space2_pde 512 0 0xB02000 m)).

(** Task 0 (pid 1) runs on the boot loader's tables, task 1 (pid 9) is blocked and
    has the second space; "Hi" is at 0x10000. *)
Definition demo_two : kstate :=
  demo_state (space2 (mem demo_run)) 0x900000
    ([demo_task 1 TASK_RUNNING 0xA00000;
      Task 0xA01000 9 TASK_BLOCKED 0xA01000 0 0xB00000 0x400000 0 (-1) (replicate 16 msg_zero) 0 0 0]
     ++ replicate 62 task_zero) 0 2.

(** The buffer at 0x420000 of the second space, tested on a concrete state. *)
Definition check_space2 (s : kstate) : bool :=
  (cr3 s =? 0xB00000) &&
  forallb (λ i, (mget (mem s) (0xB00000 + 8 * i) =? if i =? 0 then 0xB01007 else 0)
    && (mget (mem s) (0xB01000 + 8 * i) =? if i =? 0 then 0xB02007 else 0)
    && (mget (mem s) (0xB02000 + 8 * i) =? space2_pde i)) (seqZ 0 512) &&
  forallb (λ i, bool_decide (phys_of s (0x420000 + i) = Some (0xC20000 + i))) (seqZ 0 88).

Lemma space2_leaf i : 0 ≤ i < 512 → leaf_entry 1 (space2_pde i) ∧ 0 ≤ space2_pde i < 2 ^ 52.
Proof.
  intros Hi. unfold space2_pde. destruct (i =? 2); [split; [by right; left|lia]|].
  destruct (boot_pde_parts i Hi) as (Hb & _ & _ & H7 & _). split; [by right; left|done].
Qed.

Lemma space2_buffer s : check_space2 s = true → @buffer demo s 0x420000 0xC20000 11.
Proof.
  intros [[Hc%Z.eqb_eq Hm]%andb_true_iff Hp]%andb_true_iff.
  assert (Ht := seqZ_check _ _ Hm). assert (Hph := seqZ_check _ _ Hp). clear Hm Hp. cbv beta in Ht, Hph.
  assert (Hm : ∀ i, 0 ≤ i < 512 →
    mget (mem s) (0xB00000 + 8 * i) = (if i =? 0 then Z.lor 0xB01000 7 else 0) ∧
    mget (mem s) (0xB01000 + 8 * i) = (if i =? 0 then Z.lor 0xB02000 7 else 0) ∧
    mget (mem s) (0xB02000 + 8 * i) = space2_pde i).
  { intros i Hi. specialize (Ht i Hi). apply andb_true_iff in Ht as [[H1%Z.eqb_eq H2%Z.eqb_eq]%andb_true_iff H3%Z.eqb_eq].
    by split_and!. }
  assert (Hl : ∀ i, 0 ≤ i < 512 → leaf_entry 1 (mget (mem s) (0xB02000 + 8 * i)) ∧ 0 ≤ mget (mem s) (0xB02000 + 8 * i) < 2 ^ 52).
  { intros i Hi. rewrite (proj2 (proj2 (Hm i Hi))). by apply space2_leaf. }
  assert (P4 : is_page 0xB00000) by by split. assert (P3 : is_page 0xB01000) by by split.
  assert (P2 : is_page 0xB02000) by by split.
  assert (H4 : ∀ i, 0 ≤ i < 512 → mget (mem s) (0xB00000 + 8 * i) = if i =? 0 then Z.lor 0xB01000 7 else 0) by apply Hm.
  assert (H3 : ∀ i, 0 ≤ i < 512 → mget (mem s) (0xB01000 + 8 * i) = if i =? 0 then Z.lor 0xB02000 7 else 0) by apply Hm.
  assert (Ef : frame (cr3 s) = 0xB00000) by by rewrite Hc.
  split; rewrite ?Ef.
  - done.
  - lia.
  - intros i Hi. apply (bool_decide_unpack _). rewrite Hph by lia. done.
  - intros i Hi. unfold in_image. simpl. lia.
  - by apply (three_ptree (mem s) 0xB00000 0xB01000 0xB02000 7 7).
  - intros j Hj k va ra Hr. apply (three_tables (mem s) 0xB00000 0xB01000 0xB02000 7 7) in Hr; try done.
    assert (Epg : page_of (0xC20000 + 8 * j) = 0xC20000) by (apply page_of_add; done || lia). rewrite Epg.
    lia.
Qed.

Lemma demo_two_ok : @kwin demo demo_W demo_two ∧ kfree demo_W demo_two (demo_free 8).
Proof. apply demo_ok; vm_compute; reflexivity. Qed.

Lemma demo_stack_fresh s : cr3 s = 0x1000 → check_boot_tables (mem s) = true → fresh (mem s) (cr3 s) 0xA00000.
Proof. intros -> Hb. apply boot_fresh; [by apply check_boot_tables_ok|by_decide]. Qed.

Lemma demo_two_caller : @caller demo demo_W demo_two 0 (demo_task 1 TASK_RUNNING 0xA00000).
Proof.
  split; [apply demo_two_ok| | |reflexivity|reflexivity| |].
  - exists (demo_free 8). split; [apply demo_two_ok|by_decide].
  - unfold sched_ok. simpl. lia.
  - apply demo_W_high. by_decide.
  - apply demo_stack_fresh; [reflexivity|vm_compute; reflexivity].
Qed.

Lemma demo_two_data i b : [72; 105] !! i = Some b → load8 (u64 (0x10000 + Z.of_nat i)) demo_two = Ok b demo_two.
Proof.
  intros Hb. destruct i as [|[|i]]; simplify_eq/=.
  - apply (load8_eq _ 0x10000); vm_compute; reflexivity.
  - apply (load8_eq _ 0x10001); vm_compute; reflexivity.
Qed.

(** [int 0x80] with rax = 2: send type 5 and the two bytes at 0x10000 to pid 9. *)
Definition demo_send_regs : registers_t :=
  Regs 0 0 0 0 0 0 0 0 0 9 5 0x10000 2 0 2 0x80 0 0x400010 0x2B 0x202 0x4FF000 0x23.

(** The bytes go from the sender's space to a buffer of the receiver's, which is
    other memory than the same address of the sender's. *)
Lemma send_recv_roundtrip_witness :
  ∃ res s1 s2, isr_handler demo_send_regs 0 demo_two = Ok res s1 ∧ cr3 demo_two = 0x1000 ∧ cr3 s1 = 0xB00000 ∧
    syscall_handler 3 0x420000 0 0 0 (set_mem (mem s1) s1) = Ok 0 s2 ∧
    mget (mem s2) 0xC20000 = 1 ∧ mget (mem s2) 0xC20008 = 5 ∧ byte_at (mem s2) 0xC20010 = 72.
Proof.
  destruct (send_recv_roundtrip demo_W demo_two 0 (demo_task 1 TASK_RUNNING 0xA00000) demo_send_regs 0 1
    (Task 0xA01000 9 TASK_BLOCKED 0xA01000 0 0xB00000 0x400000 0 (-1) (replicate 16 msg_zero) 0 0 0) [72; 105])
    as (res & s1 & E & _ & Hall).
  - exact demo_two_caller.
  - by_decide.
  - reflexivity.
  - by_decide.
  - reflexivity.
  - reflexivity.
  - vm_compute. reflexivity.
  - discriminate.
  - destruct ring_ok_zero. by split.
  - reflexivity.
  - reflexivity.
  - exact demo_two_data.
  - assert (E1 : s1 = run_state (isr_handler demo_send_regs 0) demo_two) by (unfold run_state; by rewrite E).
    destruct (Hall 0%nat s1 (turns_0 s1)) as [Hcr Hrecv]; [rewrite E1; vm_compute; reflexivity|].
    destruct (Hrecv (mem s1) 0x420000 0xC20000 0 0 0) as (s2 & Er & H1 & H2 & _ & H4).
    { apply space2_buffer. rewrite E1. vm_compute. reflexivity. }
    exists res, s1, s2. refine (conj E (conj eq_refl (conj (Hcr _) (conj Er (conj H1 (conj H2 (H4 0%nat 72 eq_refl))))))).
    discriminate.
Defined.

Lemma demo_pair_caller : @caller demo demo_W (demo_pair TASK_READY) 0 (demo_task 1 TASK_RUNNING 0xA00000).
Proof.
  split; [apply demo_pair_ok| |apply demo_pair_sched|reflexivity|reflexivity| |].
  - exists (demo_free 8). split; [apply demo_pair_ok|by_decide].
  - apply demo_W_high. by_decide.
  - apply demo_stack_fresh; [reflexivity|vm_compute; reflexivity].
Qed.

(** Task 0 waits for task 1, the timer interrupts task 1, and then it exits. *)
Lemma wait_exit_handshake_witness :
  ∃ res s1 s2 s3 tw, isr_handler demo_wait_regs 0 (demo_pair TASK_READY) = Ok res s1 ∧ turns 1 s1 s2 ∧
    (t_state <$> tasks s2 !! 0%nat) = Some TASK_BLOCKED ∧ sys_exit (set_mem (mem s2) s2) = Ok tt s3 ∧
    tasks s3 !! 0%nat = Some tw ∧ t_state tw = TASK_READY ∧ t_rsp tw = 0xA00000.
Proof.
  destruct (wait_exit_handshake demo_W (demo_pair TASK_READY) 0 (demo_task 1 TASK_RUNNING 0xA00000) demo_wait_regs 0 1
    (demo_task 9 TASK_READY 0xA01000)) as (res & s1 & E & _ & Hall).
  - exact demo_pair_caller.
  - by_decide.
  - reflexivity.
  - reflexivity.
  - vm_compute. reflexivity.
  - discriminate.
  - reflexivity.
  - assert (E1 : s1 = run_state (isr_handler demo_wait_regs 0) (demo_pair TASK_READY)) by (unfold run_state; by rewrite E).
    set (s1' := set_irq_tape [] (set_mem (mem s1) s1)).
    destruct (returns_run_state (isr_handler demo_regs 0) s1') as [r2 E2]; [unfold s1'; rewrite E1; vm_compute; reflexivity|].
    set (s2 := run_state (isr_handler demo_regs 0) s1') in *.
    assert (Ht : turns 1 s1 s2) by exact (turns_S 0 s1 (mem s1) [] demo_regs 0 r2 s2 s2 eq_refl eq_refl E2 (turns_0 _)).
    destruct (Hall 1%nat s2 Ht) as (_ & Hb & Hex).
    destruct (returns_run_state sys_exit (set_mem (mem s2) s2)) as [[] Ex];
      [unfold s2, s1'; rewrite E1; vm_compute; reflexivity|].
    destruct (Hex (mem s2) tt _ ltac:(unfold s2, s1'; rewrite E1; vm_compute; reflexivity) Ex) as (tw & H1 & H2 & H3).
    exists res, s1, s2, (run_state sys_exit (set_mem (mem s2) s2)), tw.
    exact (conj E (conj Ht (conj Hb (conj Ex (conj H1 (conj H2 H3)))))).
Defined.
