(* ===== verification/IrqProps.v ===== *)
(** * IrqProps: properties of the console, the keyboard, the timer and the
    descriptor tables *)

From S2P Require Import Prelude State Machine Walk Serial Space Pmm Paging PagingOps CloneSpace BootMem Tasks.
From S2P Require Import Demo UserBuf Ipc IpcProps Vm Lifecycle Irq Elf Syscall Sched Boot Quiet Wf WfCheck Invariant SchedSpec.

Section IrqProps.
Context `{Platform}.

(** C29: [puthex] prints its argument: when the transmitter becomes empty within
    the polling bound it returns, changes nothing but the I/O history, and what it
    transmits is sixteen hexadecimal digits whose value is the argument. *)
Theorem puthex_prints {Huart : UartLive} v s :
  runs (puthex v) s (λ _ s', io_only s s' ∧
    ∃ ds, transmitted (io s') = transmitted (io s) ++ ds ∧
      length ds = 16%nat ∧ Forall is_hex_digit ds ∧ hex_value ds = u64 v).
Proof. apply puthex_runs. Qed.

(** ** The keyboard *)

(** The scancode the controller delivers. *)
Definition scancode (s : kstate) : Z := u8 (port_inb (io s) 0x60).
Definition scanned (s : kstate) : kstate := set_io (Inb 0x60 (scancode s) :: io s) s.

(** The handler of IRQ 1 looks at task [k]. *)
Lemma keyboard_irq_target s k t :
  irq_handlers s !! 1%nat = Some (Z.of_nat k) → (k < 64)%nat → tasks s !! k = Some t →
  keyboard_irq s =
    (if negb (is_exited t) then
       sc ← inb 0x60;
       if t_ipc_count t <? IPC_QUEUE_SIZE then
         upd_slot (Z.of_nat k) (t_ipc_head t) (m_set_head 0 0 1) ;;
         upd_slot (Z.of_nat k) (t_ipc_head t) (m_set_data 0 sc) ;;
         upd_task (Z.of_nat k) ring_push ;;
         upd_task (Z.of_nat k) wake
       else mret tt
     else mret tt) s.
Proof.
  intros Hi Hk Ht. unfold keyboard_irq. step_by ltac:(reflexivity).
  step_by ltac:(unfold arr_get; change (Z.to_nat 1) with 1%nat; rewrite Hi; reflexivity).
  replace ((0 <=? Z.of_nat k) && (Z.of_nat k <? MAX_TASKS)) with true by (unfold MAX_TASKS; lia).
  by step_by ltac:(apply (get_task_eq _ _ t); [lia|by rewrite Nat2Z.id]).
Qed.

Lemma keyboard_irq_delivers s k t :
  irq_handlers s !! 1%nat = Some (Z.of_nat k) → (k < 64)%nat → tasks s !! k = Some t →
  t_state t ≠ TASK_EXITED → ring_ok t → t_ipc_count t < 16 →
  ∃ m, keyboard_irq s = Ok tt (set_tasks (<[k := wake (ring_push (put_slot t m))]> (tasks s)) (scanned s)) ∧
    msg_ok m ∧ msg_view m = (0, 0, [scancode s]).
Proof.
  intros Hi Hk Ht Hst Hr Hc. rewrite (keyboard_irq_target s k t) by done.
  pose proof (lookup_lt_Some _ _ _ Ht) as Hlt. pose proof Hr as [Hl Htl Hcn Hh Hm].
  pose proof (Z.mod_pos_bound (t_ipc_tail t + t_ipc_count t) 16).
  destruct (lookup_lt_is_Some_2 (t_ipc_queue t) (Z.to_nat (t_ipc_head t))) as [m0 Hm0]; [lia|].
  assert (Hm0ok : msg_ok m0) by (rewrite Forall_forall in Hm; apply Hm; by eapply list_elem_of_lookup_2).
  assert (Hput : put_slot t m0 = t).
  { unfold put_slot. rewrite list_insert_id by done. by destruct t. }
  set (m := m_set_data 0 (scancode s) (m_set_head 0 0 1 m0)). exists m. split_and!.
  - unfold is_exited. rewrite bool_decide_eq_false_2 by done. cbn [negb].
    step_by ltac:(exact (eq_refl : inb 0x60 s = Ok (scancode s) (scanned s))).
    replace (t_ipc_count t <? IPC_QUEUE_SIZE) with true by (unfold IPC_QUEUE_SIZE; lia).
    assert (E0 : scanned s = with_slot (scanned s) k t m0).
    { unfold with_slot. rewrite Hput. simpl. rewrite list_insert_id by done. reflexivity. }
    rewrite E0 at 1. step_by ltac:(apply (upd_slot_eq (scanned s)); [done|lia]).
    step_by ltac:(apply (upd_slot_eq (scanned s)); [done|lia]). fold m. unfold with_slot.
    step_by ltac:(apply (upd_task_eq _ _ _ (put_slot t m)); [lia|];
      simpl; by rewrite Nat2Z.id, list_lookup_insert_eq).
    etrans; [apply (upd_task_eq _ _ _ (ring_push (put_slot t m))); [lia|];
      simpl; by rewrite Nat2Z.id, list_lookup_insert_eq by (by rewrite length_insert)|].
    simpl. by rewrite !Nat2Z.id, !list_insert_insert_eq.
  - unfold m. apply msg_ok_data, msg_ok_head; [lia|done].
  - destruct Hm0ok as (Hd & _). unfold m, msg_view. simpl. destruct (msg_data m0) as [|b bs]; [done|].
    simpl. f_equal. f_equal. apply u8_small. apply u8_range.
Qed.

Lemma keyboard_irq_returns s : wf s → ∃ s', keyboard_irq s = Ok tt s' ∧ irq_tape s' = irq_tape s ∧ ticks s' = ticks s.
Proof.
  intros Hs. destruct (lookup_lt_is_Some_2 (irq_handlers s) 1) as [x Hx]; [rewrite (wf_irq_len _ Hs); lia|].
  assert (Hr := proj1 (Forall_lookup _ _) (wf_irq _ Hs) _ _ Hx). simpl in Hr.
  destruct (decide (0 ≤ x)) as [H0|H0].
  2:{ exists s. split; [|done]. unfold keyboard_irq. step_by ltac:(reflexivity).
      step_by ltac:(unfold arr_get; change (Z.to_nat 1) with 1%nat; rewrite Hx; reflexivity).
      by replace (0 <=? x) with false by lia. }
  destruct (lookup_lt_is_Some_2 (tasks s) (Z.to_nat x)) as [t Ht]; [rewrite (wf_len _ Hs); lia|].
  rewrite <- (Z2Nat.id x) in Hx by done.
  assert (Htw := proj1 (Forall_lookup _ _) (wf_tasks _ Hs) _ _ Ht). destruct Htw as [Hro _].
  assert (E := keyboard_irq_target s (Z.to_nat x) t Hx ltac:(lia) Ht).
  destruct (decide (t_state t = TASK_EXITED)) as [Hst|Hst].
  { exists s. split; [|done]. rewrite E. unfold is_exited. by rewrite bool_decide_eq_true_2. }
  destruct (decide (t_ipc_count t < 16)) as [Hc|Hc].
  { destruct (keyboard_irq_delivers s (Z.to_nat x) t) as (m & Ek & _); [done|lia|done|done|done|done|].
    eexists. split; [exact Ek|done]. }
  exists (scanned s). split; [|done]. rewrite E. unfold is_exited. rewrite bool_decide_eq_false_2 by done. cbn [negb].
  step_by ltac:(reflexivity). by replace (t_ipc_count t <? IPC_QUEUE_SIZE) with false by (unfold IPC_QUEUE_SIZE; lia).
Qed.

(** C26: a key press becomes a message.  When a live task with room in its queue
    registered IRQ 1, the keyboard interrupt acknowledges the controller, reads
    one scancode from port 0x60, appends the message (sender 0, type 0, that byte)
    to the task's queue, makes a blocked task ready and returns to the
    interrupted code.  Nothing else changes: of the state only the I/O history and
    the task's record, of that record only the state, the head, the count and the
    one slot at the old head. *)
Theorem keyboard_interrupt_delivers r cr2 s k t :
  r_int_no r = 33 → irq_handlers s !! 1%nat = Some (Z.of_nat k) → (k < 64)%nat → tasks s !! k = Some t →
  t_state t ≠ TASK_EXITED → ring_ok t → t_ipc_count t < 16 →
  let eoi := Outb 0x20 0x20 :: io s in
  let sc := u8 (port_inb eoi 0x60) in
  ∃ q,
    let t' := Task (t_rsp t) (t_pid t) (if bool_decide (t_state t = TASK_BLOCKED) then TASK_READY else t_state t)
      (t_stack_phys t) (t_user_stack_phys t) (t_pml4_phys t) (t_load_addr t) (t_code_pages t) (t_wait_idx t)
      q ((t_ipc_head t + 1) mod 16) (t_ipc_tail t) (t_ipc_count t + 1) in
    isr_handler r cr2 s =
      Ok (Return r) (set_tasks (<[k := t']> (tasks s)) (set_io (Inb 0x60 sc :: eoi) s)) ∧
    (∀ i, i ≠ Z.to_nat (t_ipc_head t) → q !! i = t_ipc_queue t !! i) ∧
    ring_ok t' ∧ inbox t' = inbox t ++ [(0, 0, [sc])].
Proof.
  intros Hn Hi Hk Ht Hst Hr Hc eoi sc. set (s1 := set_io eoi s).
  destruct (keyboard_irq_delivers s1 k t) as (m & E & Hm & Hv); [done..|].
  destruct (push_ok t m Hr Hc Hm) as [Hp Hip]. destruct (wake_ring _ Hp) as [Hw Hiw].
  exists (<[Z.to_nat (t_ipc_head t) := m]> (t_ipc_queue t)). cbv zeta. rewrite <- delivered_task by done. split_and!.
  - unfold isr_handler. rewrite Hn. cbn [Z.leb Z.compare Pos.compare Pos.compare_cont andb].
    unfold irq_handler. rewrite Hn. cbv zeta. step_by ltac:(reflexivity). step_by ltac:(reflexivity).
    step_by ltac:(reflexivity). cbn [Z.eqb Pos.eqb andb when].
    change (set_io (Outb (u16 PIC1_COMMAND) (u8 PIC_EOI) :: io s) s) with s1. step_by ltac:(exact E). reflexivity.
  - intros i Hne. by apply list_lookup_insert_ne.
  - done.
  - by rewrite Hiw, Hip, Hv.
Qed.

(** *** A key press inside [sys_send] *)

(** [sys_send] of an empty message to task [k], interrupted by the keyboard after
    the slot at [h] was written and before the head moves.  The gate of [int 0x80]
    leaves interrupts enabled. *)
Definition send_interrupted (k h sender type : Z) : M unit :=
  upd_slot k h (m_set_head sender type 0) ;;
  keyboard_irq ;;
  upd_task k ring_push ;;
  upd_task k wake.

Lemma put_slot_twice t m m' : put_slot (put_slot t m) m' = put_slot t m'.
Proof. unfold put_slot, t_set_ipc. simpl. by rewrite list_insert_insert_eq. Qed.

Lemma put_slot_ok t m : ring_ok t → msg_ok m → ring_ok (put_slot t m).
Proof. intros [Hl Htl Hc Hh Hm] Hok. split; simpl; [by rewrite length_insert|done|done|done|by apply Forall_insert]. Qed.

(** The message in a slot of the ring. *)
Lemma slot_lookup t : ring_ok t → ∃ m, t_ipc_queue t !! Z.to_nat (t_ipc_head t) = Some m ∧ msg_ok m ∧ put_slot t m = t.
Proof.
  intros [Hl Htl Hcn Hh Hm]. pose proof (Z.mod_pos_bound (t_ipc_tail t + t_ipc_count t) 16).
  destruct (lookup_lt_is_Some_2 (t_ipc_queue t) (Z.to_nat (t_ipc_head t))) as [m Hm0]; [lia|]. exists m. split_and!; [done| |].
  - rewrite Forall_forall in Hm. apply Hm. by eapply list_elem_of_lookup_2.
  - unfold put_slot. rewrite list_insert_id by done. by destruct t.
Qed.

(** A key press inside a send to the task that reads the keyboard: both use the
    same slot and both move the head.  The message sent is lost; the queue gets
    the key and, when it had room for it, whatever an old slot held; a queue of
    fifteen messages counts seventeen afterwards. *)
Theorem nested_key_press s k t sender type :
  irq_handlers s !! 1%nat = Some (Z.of_nat k) → (k < 64)%nat → tasks s !! k = Some t →
  t_state t ≠ TASK_EXITED → ring_ok t → t_ipc_count t < 16 →
  ∃ s' t', send_interrupted (Z.of_nat k) (t_ipc_head t) sender type s = Ok tt s' ∧ tasks s' !! k = Some t' ∧
    t_ipc_count t' = t_ipc_count t + 2 ∧
    (t_ipc_count t < 15 → ∃ stale, inbox t' = inbox t ++ [(0, 0, [scancode s]); msg_view stale] ∧ stale ∈ t_ipc_queue t).
Proof.
  intros Hi Hk Ht Hst Hr Hc. pose proof (lookup_lt_Some _ _ _ Ht) as Hlt. pose proof Hr as [Hl Htl Hcn Hh Hm].
  pose proof (Z.mod_pos_bound (t_ipc_tail t + t_ipc_count t) 16).
  destruct (slot_lookup t Hr) as (m0 & Hm0 & Hok0 & Hput). set (m1 := m_set_head sender type 0 m0).
  assert (Hok1 : msg_ok m1) by (apply msg_ok_head; [lia|done]). set (s1 := with_slot s k t m1).
  assert (E1 : upd_slot (Z.of_nat k) (t_ipc_head t) (m_set_head sender type 0) s = Ok tt s1).
  { assert (E0 : s = with_slot s k t m0) by (unfold with_slot; rewrite Hput, list_insert_id by done; by destruct s).
    rewrite E0 at 1. apply upd_slot_eq; [done|lia]. }
  destruct (keyboard_irq_delivers s1 k (put_slot t m1)) as (m & E2 & Hok & Hv); try done.
  { by apply list_lookup_insert_eq. } { by apply put_slot_ok. }
  rewrite put_slot_twice in E2. destruct (push_ok t m Hr Hc Hok) as [Hr1 Hi1]. destruct (wake_ring _ Hr1) as [Hr2 Hi2].
  assert (Hd := delivered_task t m Hr Hc). set (t1 := wake (ring_push (put_slot t m))) in *.
  assert (Hc1 : t_ipc_count t1 = t_ipc_count t + 1) by by rewrite Hd.
  exists (set_tasks (<[k := wake (ring_push t1)]> (tasks s)) (scanned s1)), (wake (ring_push t1)). split_and!.
  - unfold send_interrupted. step_by ltac:(exact E1). step_by ltac:(exact E2). simpl tasks. rewrite list_insert_insert_eq.
    step_by ltac:(apply (upd_task_eq _ _ _ t1); [lia|]; simpl; by rewrite Nat2Z.id, list_lookup_insert_eq).
    etrans; [apply (upd_task_eq _ _ _ (ring_push t1)); [lia|]; simpl;
      by rewrite Nat2Z.id, list_lookup_insert_eq by (by rewrite length_insert)|].
    simpl. by rewrite !Nat2Z.id, !list_insert_insert_eq.
  - simpl. by apply list_lookup_insert_eq.
  - unfold wake. destruct (is_blocked _); simpl; rewrite Hc1, u32_small; lia.
  - intros Hc15. destruct (slot_lookup t1 Hr2) as (m2 & Hm2 & Hok2 & Hput2).
    destruct (push_ok t1 m2 Hr2 ltac:(lia) Hok2) as [Hr3 Hi3]. rewrite Hput2 in Hr3, Hi3.
    destruct (wake_ring _ Hr3) as [_ Hi4]. exists m2. split.
    + rewrite Hi4, Hi3, Hi2, Hi1, Hv, <- app_assoc. done.
    + rewrite Hd in Hm2. simpl in Hm2. apply list_elem_of_lookup_2 with (Z.to_nat ((t_ipc_head t + 1) mod 16)).
      pose proof (Z.mod_pos_bound (t_ipc_head t + 1) 16). rewrite list_lookup_insert_ne in Hm2; [done|].
      intros Heq. apply Z2Nat.inj in Heq; [|lia|lia]. destruct (decide (t_ipc_head t = 15)) as [E15|]; [by rewrite E15 in Heq|].
      rewrite Z.mod_small in Heq by lia. lia.
Qed.

(** ** Interrupts of the waiting kernel *)

(** For an interrupt of ring 0, [irq_handler] is [kernel_irq] and a return. *)
Lemma irq_handler_kernel r s :
  from_user r = false → irq_handler r s = (kernel_irq (r_int_no r) ;; mret (Return r)) s.
Proof.
  intros Hu. unfold irq_handler, kernel_irq. cbv zeta. rewrite Hu.
  unfold mbind, M_bind. destruct (irq_eoi _ s) as [[] s1| | | |]; try done.
  destruct (when _ timer_tick s1) as [[] s2| | | |]; try done. unfold gets. by rewrite andb_false_r.
Qed.

Lemma kernel_irq_returns n s :
  wf s → 0 ≤ ticks s < 2 ^ 64 - 1 →
  ∃ s', kernel_irq n s = Ok tt s' ∧ wf s' ∧ current_task s' = current_task s ∧ irq_tape s' = irq_tape s ∧
    ticks s' = ticks s + (if decide (n = 32) then 1 else 0).
Proof.
  intros Hs Hk. assert (E1 : ∃ h, irq_eoi n s = Ok tt (set_io h s)).
  { unfold irq_eoi. destruct (40 <=? n); eexists; reflexivity. }
  destruct E1 as [h E1]. set (s1 := set_io h s) in *.
  set (s2 := if decide (n = 32) then set_ticks (u64 (ticks s1 + 1)) s1 else s1).
  assert (E2 : when (n =? 32) timer_tick s1 = Ok tt s2).
  { unfold s2. destruct (decide (n = 32)) as [->|Hne]; [done|]. by replace (n =? 32) with false by lia. }
  assert (Hs2 : wf s2 ∧ irq_tape s2 = irq_tape s ∧ ticks s2 = ticks s + (if decide (n = 32) then 1 else 0)).
  { unfold s2. destruct (decide (n = 32)); (split; [by apply (on_objs_wf s)|]; split; [done|]); simpl; [|lia].
    rewrite u64_small; lia. }
  destruct Hs2 as (Hw2 & Ht2 & Hk2).
  assert (E3 : ∃ s', when (n =? 33) keyboard_irq s2 = Ok tt s' ∧ irq_tape s' = irq_tape s2 ∧ ticks s' = ticks s2).
  { destruct (n =? 33); [|by exists s2]. by apply keyboard_irq_returns. }
  destruct E3 as (s' & E3 & Ht3 & Hk3). assert (E : kernel_irq n s = Ok tt s').
  { unfold kernel_irq. step_by ltac:(exact E1). step_by ltac:(exact E2). exact E3. }
  destruct (wf_kernel_irq (current_task s) n s tt s' (conj Hs eq_refl) E) as [Hw Hcur].
  exists s'. split_and!; [done|done|done|congruence|congruence].
Qed.

(** *** [sys_nanosleep] *)

(** The timer interrupts on a tape. *)
Definition timer_count (tape : list Z) : Z := Z.of_nat (length (filter (λ n, n = 32) tape)).

Lemma timer_count_cons n tape : timer_count (n :: tape) = (if decide (n = 32) then 1 else 0) + timer_count tape.
Proof. unfold timer_count. rewrite filter_cons. destruct (decide (n = 32)); simpl; lia. Qed.

Lemma timer_count_nonneg tape : 0 ≤ timer_count tape.
Proof. unfold timer_count. lia. Qed.

(** The wait, after [start]: it consumes the shortest prefix of the tape that has
    the missing ticks, or the whole tape and halts. *)
Lemma sleep_loop_spec tape : ∀ fuel s start target,
  (length tape < fuel)%nat → irq_tape s = tape → wf s → 0 ≤ current_task s → 0 ≤ start ≤ ticks s →
  ticks s + Z.of_nat (length tape) < 2 ^ 64 - 1 →
  if decide (start + target ≤ ticks s + timer_count tape) then
    ∃ used rest s', tape = used ++ rest ∧ sleep_loop fuel start target s = Ok tt s' ∧ irq_tape s' = rest ∧
      timer_count used = Z.max 0 (start + target - ticks s) ∧ ticks s' = ticks s + timer_count used ∧
      wf s' ∧ current_task s' = current_task s ∧
      (∀ u, u `prefix_of` used → u ≠ used → timer_count u < start + target - ticks s)
  else ∃ s', sleep_loop fuel start target s = Halted s'.
Proof.
  induction tape as [|n tape IH]; intros fuel s start target Hf Htape Hs Hc Hst Hk; (destruct fuel as [|fuel]; [simpl in Hf; lia|]).
  all: assert (Hu : u64 (ticks s - start) = ticks s - start) by (apply u64_small; lia).
  all: cbn [sleep_loop]; rewrite (bind_Ok (gets ticks) _ s (ticks s) s eq_refl); rewrite Hu.
  all: assert (Hdone : start + target ≤ ticks s → (ticks s - start <? target) = false) by (intros; lia).
  all: destruct (decide (start + target ≤ ticks s)) as [Hd|Hd].
  1,3: rewrite Hdone by done; rewrite decide_True by (pose proof (timer_count_nonneg (irq_tape s)) as Hnn; rewrite Htape in Hnn; lia);
    exists [], (irq_tape s), s; (split_and!; [by rewrite Htape|done|done|unfold timer_count; simpl; lia|
      unfold timer_count; simpl; lia|done|done|by intros u ->%prefix_nil_inv]).
  all: replace (ticks s - start <? target) with true by lia.
  all: destruct (lookup_lt_is_Some_2 (tasks s) (Z.to_nat (current_task s))) as [t Ht];
    [rewrite (wf_len _ Hs); pose proof (wf_cur _ Hs); lia|].
  all: rewrite (bind_Ok (gets current_task) _ s (current_task s) s eq_refl).
  all: pose proof (upd_task_eq s (current_task s) (t_set_state TASK_BLOCKED) t Hc Ht) as Eu;
    rewrite (bind_Ok _ _ _ _ _ Eu).
  all: set (s1 := set_tasks _ s).
  all: assert (Hs1 : wf s1) by (eapply hoare_upd_task; [|exact Hs|exact Eu]; intros; by apply benign_state).
  - rewrite decide_False by (unfold timer_count; simpl; lia). exists s1. unfold hlt_once, mbind, M_bind, gets.
    change (irq_tape s1) with (irq_tape s). by rewrite Htape.
  - set (s2 := set_irq_tape tape s1). assert (Hs2 : wf s2) by by apply (on_objs_wf s1).
    assert (Hk2 : 0 ≤ ticks s2 < 2 ^ 64 - 1) by (simpl in Hk |- *; lia).
    destruct (kernel_irq_returns n s2 Hs2 Hk2) as (s3 & E3 & Hs3 & Hc3 & Ht3 & Hk3).
    assert (Eh : hlt_once s1 = Ok tt s3).
    { unfold hlt_once. step_by ltac:(reflexivity). change (irq_tape s1) with (irq_tape s). rewrite Htape.
      step_by ltac:(reflexivity). exact E3. }
    rewrite (bind_Ok _ _ _ _ _ Eh). change (ticks s2) with (ticks s) in Hk3.
    change (current_task s2) with (current_task s) in Hc3.
    rewrite timer_count_cons. simpl in Hf, Hk.
    assert (Hone : 0 ≤ (if decide (n = 32) then 1 else 0) ≤ 1) by (destruct (decide (n = 32)); lia).
    specialize (IH fuel s3 start target ltac:(lia) Ht3 Hs3 ltac:(lia) ltac:(lia) ltac:(lia)).
    destruct (decide (start + target ≤ ticks s3 + timer_count tape)) as [Hle|Hle].
    + rewrite decide_True by lia. destruct IH as (used & rest & s' & -> & E & Hr & Hcnt & Hk' & Hw & Hcur & Hmin).
      exists (n :: used), rest, s'. rewrite timer_count_cons. split_and!; [done|done|done|lia|lia|done|congruence|].
      intros [|n' u] Hpre Hne; [unfold timer_count; simpl; lia|].
      apply prefix_cons_inv_1 in Hpre as Hn'. apply prefix_cons_inv_2 in Hpre. subst n'.
      rewrite timer_count_cons. specialize (Hmin u Hpre ltac:(congruence)). lia.
    + rewrite decide_False by lia. exact IH.
Qed.

(** C27: [sys_nanosleep] sleeps for [ns / 2000000] timer ticks, rounded down: never
    more, and for a time that is no multiple of a tick one tick less than the
    "at least N nanoseconds" of the README.  If enough timer interrupts are to
    come it returns 0 after the shortest sequence of interrupts that contains them
    (every shorter one has fewer), with the task RUNNING; otherwise the processor
    stays halted.  Other interrupts do not end the sleep, and a sleep of less than
    one tick takes no interrupt at all. *)
Theorem sys_nanosleep_sleeps ns s :
  wf s → 0 ≤ current_task s → 0 ≤ ns → 0 ≤ ticks s → ticks s + Z.of_nat (length (irq_tape s)) < 2 ^ 64 - 1 →
  let target := ns / 2000000 in
  if decide (target ≤ timer_count (irq_tape s)) then
    ∃ used rest s' t', irq_tape s = used ++ rest ∧ sys_nanosleep ns s = Ok 0 s' ∧ irq_tape s' = rest ∧
      timer_count used = target ∧ (∀ u, u `prefix_of` used → u ≠ used → timer_count u < target) ∧
      ticks s' = ticks s + target ∧
      tasks s' !! Z.to_nat (current_task s) = Some t' ∧ t_state t' = TASK_RUNNING ∧ wf s'
  else ∃ s', sys_nanosleep ns s = Halted s'.
Proof.
  intros Hs Hc Hns Hk Hlen target. assert (Ht : 0 ≤ target) by (apply Z.div_pos; lia).
  pose proof (sleep_loop_spec (irq_tape s) (S (length (irq_tape s))) s (ticks s) target ltac:(lia) eq_refl Hs Hc
    ltac:(lia) Hlen) as Hl.
  assert (E0 : sys_nanosleep ns s = (sleep_loop (S (length (irq_tape s))) (ticks s) target ;;
    cur ← gets current_task; upd_task cur (t_set_state TASK_RUNNING) ;; mret 0) s) by reflexivity.
  destruct (decide (target ≤ timer_count (irq_tape s))) as [Hle|Hgt].
  - rewrite decide_True in Hl by lia. destruct Hl as (used & rest & s1 & Htape & E & Hr & Hcnt & Hk1 & Hw & Hcur & Hmin).
    destruct (lookup_lt_is_Some_2 (tasks s1) (Z.to_nat (current_task s))) as [t Hct].
    { rewrite (wf_len _ Hw). pose proof (wf_cur _ Hs). lia. }
    rewrite <- Hcur in Hct.
    assert (Eu := upd_task_eq s1 (current_task s1) (t_set_state TASK_RUNNING) t ltac:(lia) Hct).
    eexists used, rest, _, (t_set_state TASK_RUNNING t). split_and!; [done| | | |..].
    + rewrite E0. step_by ltac:(exact E). step_by ltac:(reflexivity). step_by ltac:(exact Eu). reflexivity.
    + exact Hr.
    + lia.
    + intros u Hu Hne. specialize (Hmin u Hu Hne). lia.
    + simpl. lia.
    + simpl. rewrite <- Hcur. apply list_lookup_insert_eq. by eapply lookup_lt_Some.
    + done.
    + by destruct (hoare_run (current_task s1) s1 tt _ (conj Hw eq_refl) Eu).
  - rewrite decide_False in Hl by lia. destruct Hl as [s' E]. exists s'. rewrite E0. unfold mbind at 1, M_bind at 1.
    by rewrite E.
Qed.

(** ** Descriptor tables *)

(** The fields of a gate as the processor reads them. *)
Definition gate_offset (g : idt_entry_t) : Z :=
  g_offset_0 g + Z.shiftl (g_offset_1 g) 16 + Z.shiftl (g_offset_2 g) 32.
Definition gate_present (g : idt_entry_t) : bool := Z.testbit (g_flags g) 7.
Definition gate_dpl (g : idt_entry_t) : Z := Z.land (Z.shiftr (g_flags g) 5) 3.
Definition gate_type (g : idt_entry_t) : Z := Z.land (g_flags g) 15.

Lemma make_gate_offset addr flags : 0 ≤ addr < 2 ^ 64 → gate_offset (make_gate addr flags) = addr.
Proof.
  intros Ha. unfold gate_offset, make_gate. cbn [g_offset_0 g_offset_1 g_offset_2].
  change 0xFFFFFFFF with (2 ^ 32 - 1). change 0xFFFF with (2 ^ 16 - 1). rewrite !land_ones_mod by lia.
  rewrite !Z.shiftr_div_pow2, !Z.shiftl_mul_pow2 by lia.
  pose proof (Z.div_mod addr (2 ^ 16)). pose proof (Z.div_mod (addr / 2 ^ 16) (2 ^ 16)).
  rewrite (Z.mod_small (addr / 2 ^ 32)) by (split; [apply Z.div_pos; lia|apply Z.div_lt_upper_bound; lia]).
  replace (addr / 2 ^ 32) with (addr / 2 ^ 16 / 2 ^ 16) by (by rewrite Z.div_div). lia.
Qed.

(** Filling consecutive gates. *)
Lemma gates_loop (h : Z → Z) fl n : ∀ i s,
  0 ≤ i → i + Z.of_nat n ≤ Z.of_nat (length (idt s)) →
  ∃ gs, for_nat n i (λ i, idt_set_entry i (h i) fl) s = Ok tt (set_idt gs s) ∧ length gs = length (idt s) ∧
    ∀ j, gs !! j = if decide (i ≤ Z.of_nat j < i + Z.of_nat n) then Some (make_gate (h (Z.of_nat j)) fl) else idt s !! j.
Proof.
  induction n as [|n IH]; intros i s Hi Hn.
  { exists (idt s). split_and!; [by destruct s|done|]. intros j. by rewrite decide_False by lia. }
  set (s1 := set_idt (<[Z.to_nat i := make_gate (h i) fl]> (idt s)) s).
  destruct (IH (i + 1) s1) as (gs & E & Hl & Hgs); [lia|simpl; rewrite length_insert; lia|].
  exists gs. split_and!.
  - cbn [for_nat]. step_by ltac:(unfold idt_set_entry; step_by ltac:(reflexivity); unfold arr_in;
      replace ((0 <=? i) && (i <? Z.of_nat (length (idt s)))) with true by lia; reflexivity). exact E.
  - rewrite Hl. simpl. apply length_insert.
  - intros j. rewrite Hgs. simpl. destruct (decide (Z.to_nat i = j)) as [<-|Hne].
    + rewrite decide_False, decide_True, list_lookup_insert_eq by lia. by rewrite Z2Nat.id.
    + rewrite list_lookup_insert_ne by done.
      destruct (decide (i + 1 ≤ Z.of_nat j < i + 1 + Z.of_nat n)), (decide (i ≤ Z.of_nat j < i + Z.of_nat (S n)));
        done || lia.
Qed.

Lemma irq_reset_loop n : ∀ i s,
  0 ≤ i → i + Z.of_nat n ≤ Z.of_nat (length (irq_handlers s)) →
  ∃ hs, for_nat n i (λ i, hs ← gets irq_handlers;
      if arr_in hs i then modify (set_irq_handlers (<[Z.to_nat i := -1]> hs)) else undef) s =
      Ok tt (set_irq_handlers hs s) ∧ length hs = length (irq_handlers s) ∧
    ∀ j, hs !! j = if decide (i ≤ Z.of_nat j < i + Z.of_nat n) then Some (-1) else irq_handlers s !! j.
Proof.
  induction n as [|n IH]; intros i s Hi Hn.
  { exists (irq_handlers s). split_and!; [by destruct s|done|]. intros j. by rewrite decide_False by lia. }
  set (s1 := set_irq_handlers (<[Z.to_nat i := -1]> (irq_handlers s)) s).
  destruct (IH (i + 1) s1) as (hs & E & Hl & Hhs); [lia|simpl; rewrite length_insert; lia|].
  exists hs. split_and!.
  - cbn [for_nat]. step_by ltac:(step_by ltac:(reflexivity); unfold arr_in;
      replace ((0 <=? i) && (i <? Z.of_nat (length (irq_handlers s)))) with true by lia; reflexivity). exact E.
  - rewrite Hl. simpl. apply length_insert.
  - intros j. rewrite Hhs. simpl. destruct (decide (Z.to_nat i = j)) as [<-|Hne].
    + by rewrite decide_False, decide_True, list_lookup_insert_eq by lia.
    + rewrite list_lookup_insert_ne by done.
      destruct (decide (i + 1 ≤ Z.of_nat j < i + 1 + Z.of_nat n)), (decide (i ≤ Z.of_nat j < i + Z.of_nat (S n)));
        done || lia.
Qed.

(** C28: [idt_init] installs the gates.  Afterwards the gate of every vector
    below 48 is a present interrupt gate for ring 0 that leads to that vector's
    stub, the gate of 0x80 is a present trap gate that ring 3 may call and leads
    to its stub, every other gate is as before, no IRQ has a handler task, and
    IDTR describes the whole table. *)
Theorem idt_init_installs s :
  length (idt s) = 256%nat → length (irq_handlers s) = 16%nat → (∀ n, 0 ≤ n < 256 → 0 ≤ isr_addr n < 2 ^ 64) →
  ∃ s', idt_init s = Ok tt s' ∧
    (∀ n, (n < 48)%nat → ∃ g, idt s' !! n = Some g ∧ gate_offset g = isr_addr (Z.of_nat n) ∧ g_selector g = 0x18 ∧
       gate_present g = true ∧ gate_dpl g = 0 ∧ gate_type g = 0xE) ∧
    (∃ g, idt s' !! 128%nat = Some g ∧ gate_offset g = isr_addr 128 ∧ g_selector g = 0x18 ∧
       gate_present g = true ∧ gate_dpl g = 3 ∧ gate_type g = 0xF) ∧
    (∀ n, (48 ≤ n)%nat → n ≠ 128%nat → idt s' !! n = idt s !! n) ∧
    irq_handlers s' = replicate 16 (-1) ∧ io s' = Lidt 4095 idt_addr :: io s ∧ mem s' = mem s ∧ tasks s' = tasks s.
Proof.
  intros Hli Hlh Haddr.
  destruct (irq_reset_loop 16 0 s) as (hs & E1 & Hhl & Hhs); [lia|lia|]. set (s1 := set_irq_handlers hs s) in *.
  destruct (gates_loop (λ _, 0) 0x8E 48 0 s1) as (g1 & E2 & Hl1 & Hg1); [lia|simpl; lia|]. set (s2 := set_idt g1 s1) in *.
  destruct (gates_loop isr_addr 0x8E 48 0 s2) as (g2 & E3 & Hl2 & Hg2); [lia|simpl; simpl in Hl1; lia|].
  set (s3 := set_idt g2 s2) in *. simpl in Hl1, Hl2.
  eexists. split_and!.
  - unfold idt_init. step_by ltac:(exact E1). step_by ltac:(exact E2). step_by ltac:(exact E3).
    step_by ltac:(unfold idt_set_entry; step_by ltac:(reflexivity); unfold arr_in; simpl;
      replace (128 <? Z.of_nat (length g2)) with true by lia; reflexivity). reflexivity.
  - intros n Hn. simpl. change (Pos.to_nat 128) with 128%nat. rewrite list_lookup_insert_ne by lia.
    rewrite Hg2, decide_True by lia. eexists. split; [done|]. by rewrite make_gate_offset by (apply Haddr; lia).
  - eexists. simpl. change (Pos.to_nat 128) with 128%nat. rewrite list_lookup_insert_eq by lia. split; [done|].
    by rewrite make_gate_offset by (apply Haddr; lia).
  - intros n Hn Hne. simpl. change (Pos.to_nat 128) with 128%nat. rewrite list_lookup_insert_ne by lia.
    rewrite Hg2, decide_False by lia. simpl. by rewrite Hg1, decide_False by lia.
  - change (hs = replicate 16 (-1)). apply list_eq. intros j. rewrite Hhs. destruct (decide (0 ≤ Z.of_nat j < 0 + Z.of_nat 16)) as [Hj|Hj].
    + symmetry. apply lookup_replicate_2. lia.
    + rewrite !lookup_ge_None_2; [done|rewrite length_replicate; lia|lia].
  - done.
  - done.
  - done.
Qed.

(** The fields of the low half of a system-segment descriptor. *)
Definition desc_base (d : Z) : Z :=
  Z.land (Z.shiftr d 16) 0xFFFF + Z.shiftl (Z.land (Z.shiftr d 32) 0xFF) 16 + Z.shiftl (Z.land (Z.shiftr d 56) 0xFF) 24.
Definition desc_limit (d : Z) : Z := Z.land d 0xFFFF + Z.shiftl (Z.land (Z.shiftr d 48) 0xF) 16.
Definition desc_access (d : Z) : Z := Z.land (Z.shiftr d 40) 0xFF.

Lemma tss_low_sum a : 0 ≤ a < 2 ^ 32 →
  tss_low a = 0x67 + a mod 2 ^ 16 * 2 ^ 16 + a / 2 ^ 16 mod 2 ^ 8 * 2 ^ 32 + 0x89 * 2 ^ 40 + a / 2 ^ 24 * 2 ^ 56.
Proof.
  intros Ha. unfold tss_low. change 0xFFFF with (2 ^ 16 - 1). change 0xFF with (2 ^ 8 - 1).
  rewrite !land_ones_mod by lia. rewrite !Z.shiftr_div_pow2, !Z.shiftl_mul_pow2 by lia.
  rewrite (Z.mod_small (a / 2 ^ 24)) by (split; [apply Z.div_pos; lia|apply Z.div_lt_upper_bound; lia]).
  pose proof (Z.mod_pos_bound a (2 ^ 16)). pose proof (Z.mod_pos_bound (a / 2 ^ 16) (2 ^ 8)).
  assert (0 ≤ a / 2 ^ 24 < 2 ^ 8) by (split; [apply Z.div_pos; lia|apply Z.div_lt_upper_bound; lia]).
  set (x := a mod 2 ^ 16) in *. set (y := a / 2 ^ 16 mod 2 ^ 8) in *. set (z := a / 2 ^ 24) in *.
  rewrite (Z.lor_comm 0x67), (lor_aligned_small (x * 2 ^ 16) 0x67 16) by (lia || apply Z_mod_mult).
  rewrite (Z.lor_comm (_ + _) (y * _)), (lor_aligned_small (y * 2 ^ 32) (x * 2 ^ 16 + 0x67) 32) by (lia || apply Z_mod_mult).
  rewrite (Z.lor_comm _ (0x89 * _)), (lor_aligned_small (0x89 * 2 ^ 40) (y * 2 ^ 32 + (x * 2 ^ 16 + 0x67)) 40)
    by (lia || apply Z_mod_mult).
  rewrite Z.lor_comm, (lor_aligned_small (z * 2 ^ 56) (0x89 * 2 ^ 40 + (y * 2 ^ 32 + (x * 2 ^ 16 + 0x67))) 56)
    by (lia || apply Z_mod_mult). lia.
Qed.

(** the task-state-segment descriptor decodes to what was meant: for every
    32-bit address the low half has that address as its base, limit 0x67 (the
    104 bytes of the structure) and access byte 0x89, a present 64-bit TSS. *)
Theorem tss_low_decodes a :
  0 ≤ a < 2 ^ 32 →
  desc_base (tss_low a) = a ∧ desc_limit (tss_low a) = sizeof_tss_t - 1 ∧ desc_access (tss_low a) = 0x89.
Proof.
  intros Ha. rewrite tss_low_sum by done. unfold desc_base, desc_limit, desc_access, sizeof_tss_t.
  change 0xFFFF with (2 ^ 16 - 1). change 0xFF with (2 ^ 8 - 1). change 0xF with (2 ^ 4 - 1).
  rewrite !land_ones_mod by lia. rewrite !Z.shiftr_div_pow2, !Z.shiftl_mul_pow2 by lia.
  assert (E1 := Z.div_mod a (2 ^ 16) ltac:(lia)). assert (E2 := Z.div_mod (a / 2 ^ 16) (2 ^ 8) ltac:(lia)).
  rewrite Z.div_div in E2 by lia. change (2 ^ 16 * 2 ^ 8) with (2 ^ 24) in E2.
  pose proof (Z.mod_pos_bound a (2 ^ 16)). pose proof (Z.mod_pos_bound (a / 2 ^ 16) (2 ^ 8)).
  assert (0 ≤ a / 2 ^ 24 < 2 ^ 8) by (split; [apply Z.div_pos; lia|apply Z.div_lt_upper_bound; lia]).
  set (x := a mod 2 ^ 16) in *. set (y := a / 2 ^ 16 mod 2 ^ 8) in *. set (z := a / 2 ^ 24) in *.
  assert (D16 : (0x67 + x * 2 ^ 16 + y * 2 ^ 32 + 0x89 * 2 ^ 40 + z * 2 ^ 56) / 2 ^ 16 =
    x + (y + 0x89 * 2 ^ 8 + z * 2 ^ 24) * 2 ^ 16) by (symmetry; apply (Z.div_unique_pos _ _ _ 0x67); lia).
  assert (D32 : (0x67 + x * 2 ^ 16 + y * 2 ^ 32 + 0x89 * 2 ^ 40 + z * 2 ^ 56) / 2 ^ 32 =
    y + (0x89 + z * 2 ^ 16) * 2 ^ 8) by (symmetry; apply (Z.div_unique_pos _ _ _ (0x67 + x * 2 ^ 16)); lia).
  assert (D40 : (0x67 + x * 2 ^ 16 + y * 2 ^ 32 + 0x89 * 2 ^ 40 + z * 2 ^ 56) / 2 ^ 40 =
    0x89 + (z * 2 ^ 8) * 2 ^ 8) by (symmetry; apply (Z.div_unique_pos _ _ _ (0x67 + x * 2 ^ 16 + y * 2 ^ 32)); lia).
  assert (D48 : (0x67 + x * 2 ^ 16 + y * 2 ^ 32 + 0x89 * 2 ^ 40 + z * 2 ^ 56) / 2 ^ 48 = 0 + (z * 2 ^ 4) * 2 ^ 4)
    by (symmetry; apply (Z.div_unique_pos _ _ _ (0x67 + x * 2 ^ 16 + y * 2 ^ 32 + 0x89 * 2 ^ 40)); lia).
  assert (D56 : (0x67 + x * 2 ^ 16 + y * 2 ^ 32 + 0x89 * 2 ^ 40 + z * 2 ^ 56) / 2 ^ 56 = z)
    by (symmetry; apply (Z.div_unique_pos _ _ _ (0x67 + x * 2 ^ 16 + y * 2 ^ 32 + 0x89 * 2 ^ 40)); lia).
  assert (M16 : (0x67 + x * 2 ^ 16 + y * 2 ^ 32 + 0x89 * 2 ^ 40 + z * 2 ^ 56) mod 2 ^ 16 = 0x67)
    by (symmetry; apply (Z.mod_unique_pos _ _ (x + y * 2 ^ 16 + 0x89 * 2 ^ 24 + z * 2 ^ 40)); lia).
  rewrite D16, D32, D40, D48, D56, M16. rewrite !Z_mod_plus_full, !Z.mod_small by lia. lia.
Qed.

End IrqProps.

(** ** Instances *)

Lemma puthex_prints_witness :
  ∃ s' ds, puthex 0xBEEF demo0 = Ok tt s' ∧ transmitted (io s') = ds ∧ length ds = 16%nat ∧ hex_value ds = 0xBEEF.
Proof.
  pose proof (proj1 (runs_Ok _ _ _) (puthex_prints (Huart := demo_uart) 0xBEEF demo0)) as Hp.
  destruct Hp as ([] & s' & E & _ & ds & Htx & Hl & _ & Hv).
  exists s', ds. split; [exact E|]. split; [exact Htx|]. split; [exact Hl|exact Hv].
Defined.

(** Task 1 waits for keys. *)
Definition demo_keys : kstate := set_irq_handlers (<[1%nat := 1]> (replicate 16 (-1))) demo_run.
Definition demo_key_regs : registers_t :=
  Regs 0 0 0 0 0 0 0 0 0 0 0 0 0 0 0 33 0 0x400010 0x2B 0x202 0x4FF000 0x23.

Lemma keyboard_interrupt_delivers_witness :
  ∃ t' s', isr_handler demo_key_regs 0 demo_keys = Ok (Return demo_key_regs) s' ∧ tasks s' !! 1%nat = Some t' ∧
    inbox t' = [(0, 0, [0x20])] ∧ t_state t' = TASK_READY.
Proof.
  destruct (keyboard_interrupt_delivers demo_key_regs 0 demo_keys 1 (demo_task 9 TASK_BLOCKED 0xA01000))
    as (q & E & _ & _ & Hi).
  - reflexivity.
  - reflexivity.
  - lia.
  - reflexivity.
  - discriminate.
  - apply ring_ok_demo.
  - reflexivity.
  - eexists _, _. split; [exact E|]. split; [reflexivity|]. split; [exact Hi|reflexivity].
Defined.

Lemma nested_key_press_witness :
  ∃ s' t', send_interrupted 1 0 1 5 demo_keys = Ok tt s' ∧ tasks s' !! 1%nat = Some t' ∧ t_ipc_count t' = 2.
Proof.
  destruct (nested_key_press demo_keys 1 (demo_task 9 TASK_BLOCKED 0xA01000) 1 5) as (s' & t' & E & Ht & Hc & _).
  - reflexivity.
  - lia.
  - reflexivity.
  - discriminate.
  - apply ring_ok_demo.
  - reflexivity.
  - exists s', t'. split; [exact E|]. split; [exact Ht|exact Hc].
Defined.

(** The machine of the examples with interrupts to come: two keys, three ticks. *)
Definition demo_sleep : kstate := set_irq_tape [33; 32; 32; 33; 32] demo_run.

(** Just under six milliseconds are two ticks. *)
Lemma sys_nanosleep_sleeps_witness :
  ∃ used rest s', irq_tape demo_sleep = used ++ rest ∧ sys_nanosleep 5999999 demo_sleep = Ok 0 s' ∧
    irq_tape s' = rest ∧ timer_count used = 2 ∧ (∀ u, u `prefix_of` used → u ≠ used → timer_count u < 2) ∧ ticks s' = 2.
Proof.
  pose proof (sys_nanosleep_sleeps 5999999 demo_sleep) as Hs. cbv zeta in Hs.
  rewrite decide_True in Hs by (vm_compute; discriminate).
  destruct Hs as (used & rest & s' & t' & H1 & H2 & H3 & H4 & H5 & H6 & _).
  - apply check_wf_ok. vm_compute. reflexivity.
  - vm_compute. discriminate.
  - lia.
  - vm_compute. discriminate.
  - vm_compute. reflexivity.
  - exists used, rest, s'. split; [exact H1|]. split; [exact H2|]. split; [exact H3|]. split; [exact H4|].
    split; [exact H5|exact H6].
Defined.

Lemma idt_init_installs_witness :
  ∃ s' g, idt_init demo_run = Ok tt s' ∧ idt s' !! 14%nat = Some g ∧ gate_offset g = 0x1000E0.
Proof.
  destruct (idt_init_installs demo_run) as (s' & E & Hg & _).
  - reflexivity.
  - reflexivity.
  - intros n Hn. change (@isr_addr demo n) with (0x100000 + 16 * n). lia.
  - destruct (Hg 14%nat) as (g & Hl & Ho & _); [lia|]. exists s', g. split; [exact E|]. split; [exact Hl|exact Ho].
Defined.

Lemma tss_low_decodes_witness : desc_base (tss_low TSS_PHYS) = 0x8F00 ∧ desc_limit (tss_low TSS_PHYS) = 0x67.
Proof. destruct (tss_low_decodes TSS_PHYS) as (H1 & H2 & _); [by_decide|]. split; [exact H1|exact H2]. Defined.
