(* ===== verification/Sectors.v ===== *)
(** * Sectors: user programs and their disk

    What the programs under [_sdk/user_backup] need: a monad for a user process
    whose state is of some type, byte buffers, and the disk.  [read_sector] and
    [write_sector] are system calls of the kernel these programs were written
    for, which is not in the repository; they are the interface [BlockDev], and
    [BlockLaws] is what the programs rely on. *)

From S2P Require Import Prelude.

(** ** Processes *)

(** - [UOk]: the code returned;
    - [UTrap]: it raised an exception or went outside its arrays;
    - [UFuel]: a loop used up its bound. *)
Inductive ures (S A : Type) :=
| UOk (a : A) (s : S)
| UTrap
| UFuel.
Arguments UOk {S A} a s.
Arguments UTrap {S A}.
Arguments UFuel {S A}.

Definition U (S A : Type) : Type := S → ures S A.

#[global] Instance U_ret S : MRet (U S) := λ A a s, UOk a s.
#[global] Instance U_bind S : MBind (U S) := λ A B f m s,
  match m s with
  | UOk a s' => f a s'
  | UTrap => UTrap
  | UFuel => UFuel
  end.

Definition ugets {S A} (f : S → A) : U S A := λ s, UOk (f s) s.
Definition umodify {S} (f : S → S) : U S unit := λ s, UOk tt (f s).
Definition utrap {S A} : U S A := λ _, UTrap.
Definition ufuel {S A} : U S A := λ _, UFuel.

Lemma UOk_inj {S A} (a b : A) (s s' : S) : UOk a s = UOk b s' → a = b ∧ s = s'.
Proof. by intros [= -> ->]. Qed.

Lemma ubind_Ok {S A B} (m : U S A) (f : A → U S B) s a s' : m s = UOk a s' → (m ≫= f) s = f a s'.
Proof. intros E. unfold mbind, U_bind. by rewrite E. Qed.

Lemma ubind_inv {S A B} (m : U S A) (f : A → U S B) s b s' :
  (m ≫= f) s = UOk b s' → ∃ a s1, m s = UOk a s1 ∧ f a s1 = UOk b s'.
Proof. unfold mbind, U_bind. destruct (m s) as [a s1| |]; try done. eauto. Qed.

(** The next step of a program whose result [E] proves. *)
Ltac ustep_by E := etrans; [eapply ubind_Ok; E|cbv beta].

(** [for (i = i0; i < i0 + n; i++)] whose body may leave the function. *)
Fixpoint ufor_exit {S A} (n : nat) (i : Z) (body : Z → U S (option A)) : U S (option A) :=
  match n with
  | O => mret None
  | S n' =>
    r ← body i;
    match r with
    | Some a => mret (Some a)
    | None => ufor_exit n' (i + 1) body
    end
  end.

(** ** Buffers *)

(** A [u8] array; an access outside it is a trap. *)
Definition rd8 {S} (l : list Z) (i : Z) : U S Z :=
  if 0 <=? i then match l !! Z.to_nat i with Some b => mret b | None => utrap end else utrap.

Definition in_buf (l : list Z) (i n : Z) : bool := (0 <=? i) && (i + n <=? Z.of_nat (length l)).

(** Little-endian accesses at index [i], for an index in range. *)
Definition byte (l : list Z) (i : Z) : Z := default 0 (l !! Z.to_nat i).
Definition le16 (l : list Z) (i : Z) : Z := byte l i + 2 ^ 8 * byte l (i + 1).
Definition le32 (l : list Z) (i : Z) : Z :=
  byte l i + 2 ^ 8 * byte l (i + 1) + 2 ^ 16 * byte l (i + 2) + 2 ^ 24 * byte l (i + 3).
Definition put8 (l : list Z) (i v : Z) : list Z := <[Z.to_nat i := u8 v]> l.
Definition put32 (l : list Z) (i v : Z) : list Z :=
  put8 (put8 (put8 (put8 l i v) (i + 1) (Z.shiftr v 8)) (i + 2) (Z.shiftr v 16)) (i + 3) (Z.shiftr v 24).

(** A 32-bit access at index [i]. *)
Definition rd32 {S} (l : list Z) (i : Z) : U S Z := if in_buf l i 4 then mret (le32 l i) else utrap.
Definition wr32 {S} (l : list Z) (i v : Z) : U S (list Z) := if in_buf l i 4 then mret (put32 l i v) else utrap.

(** [n] bytes of [l] from [i] on. *)
Definition slice (l : list Z) (i n : Z) : list Z := take (Z.to_nat n) (drop (Z.to_nat i) l).
Definition rd_slice {S} (l : list Z) (i n : Z) : U S (list Z) := if in_buf l i n then mret (slice l i n) else utrap.

(** [bs] copied over [l] from [i] on. *)
Definition put_slice (l : list Z) (i : Z) (bs : list Z) : list Z :=
  take (Z.to_nat i) l ++ bs ++ drop (Z.to_nat i + length bs) l.
Definition wr_slice {S} (l : list Z) (i : Z) (bs : list Z) : U S (list Z) :=
  if in_buf l i (Z.of_nat (length bs)) then mret (put_slice l i bs) else utrap.

Definition is_byte (b : Z) : Prop := 0 ≤ b < 256.

(** A buffer of [n] bytes. *)
Definition bytes_ok (n : nat) (l : list Z) : Prop := length l = n ∧ Forall is_byte l.

(** ** The disk *)

Class BlockDev (D : Type) := {
  bd_read : D → Z → Z → option (list Z);
  bd_write : D → Z → Z → list Z → option D;
}.

(** [bd_wf d]: the device works.  A read gives 512 bytes; a write of 512 bytes
    succeeds where a read does, is seen by later reads of that sector and no
    other, and keeps the device working. *)
Class BlockLaws (D : Type) `{BlockDev D} := {
  bd_wf : D → Prop;
  bd_in : D → Z → Z → Prop;
  bd_read_ok : ∀ d dr lba, bd_wf d → bd_in d dr lba → ∃ sec, bd_read d dr lba = Some sec ∧ bytes_ok 512 sec;
  bd_write_ok : ∀ d dr lba sec, bd_wf d → bd_in d dr lba → bytes_ok 512 sec →
    ∃ d', bd_write d dr lba sec = Some d' ∧ bd_wf d' ∧ (∀ dr' l, bd_in d' dr' l ↔ bd_in d dr' l) ∧
      ∀ dr' l, bd_read d' dr' l = if bool_decide (dr' = dr ∧ l = lba) then Some sec else bd_read d dr' l;
}.

(** ** Lemmas on buffers *)

Lemma byte_put8_eq l i v : 0 ≤ i < Z.of_nat (length l) → byte (put8 l i v) i = u8 v.
Proof. intros Hi. unfold byte, put8. by rewrite list_lookup_insert_eq by lia. Qed.

Lemma byte_put8_ne l i j v : 0 ≤ i → 0 ≤ j → i ≠ j → byte (put8 l i v) j = byte l j.
Proof. intros Hi Hj Hne. unfold byte, put8. by rewrite list_lookup_insert_ne by lia. Qed.

Lemma length_put8 l i v : length (put8 l i v) = length l.
Proof. apply length_insert. Qed.

Lemma length_put32 l i v : length (put32 l i v) = length l.
Proof. unfold put32. by rewrite !length_put8. Qed.

Lemma put8_bytes n l i v : bytes_ok n l → bytes_ok n (put8 l i v).
Proof. intros [Hl Hb]. split; [by rewrite length_put8|]. apply Forall_insert; [done|apply u8_range]. Qed.

Lemma put32_bytes n l i v : bytes_ok n l → bytes_ok n (put32 l i v).
Proof. intros Hl. unfold put32. by repeat apply put8_bytes. Qed.

Lemma byte_is_byte n l i : bytes_ok n l → is_byte (byte l i).
Proof.
  intros [_ Hb]. unfold byte. destruct (l !! Z.to_nat i) as [b|] eqn:E; [|simpl; unfold is_byte; lia].
  by apply (Forall_lookup_1 _ _ _ _ Hb) in E.
Qed.

Lemma le32_range n l i : bytes_ok n l → 0 ≤ le32 l i < 2 ^ 32.
Proof.
  intros Hl. unfold le32. pose proof (byte_is_byte n l i Hl). pose proof (byte_is_byte n l (i + 1) Hl).
  pose proof (byte_is_byte n l (i + 2) Hl). pose proof (byte_is_byte n l (i + 3) Hl). unfold is_byte in *. lia.
Qed.

(** The four bytes of a word are the word. *)
Lemma le32_bytes v :
  0 ≤ v < 2 ^ 32 →
  u8 v + 2 ^ 8 * u8 (Z.shiftr v 8) + 2 ^ 16 * u8 (Z.shiftr v 16) + 2 ^ 24 * u8 (Z.shiftr v 24) = v.
Proof.
  intros Hv. unfold u8. rewrite !Z.shiftr_div_pow2 by lia.
  rewrite (Z.mod_small (v / 2 ^ 24)) by (split; [apply Z.div_pos; lia|apply Z.div_lt_upper_bound; lia]).
  pose proof (Z.div_mod v (2 ^ 8) ltac:(lia)). pose proof (Z.div_mod (v / 2 ^ 8) (2 ^ 8) ltac:(lia)) as E1.
  rewrite Z.div_div in E1 by lia. pose proof (Z.div_mod (v / 2 ^ 16) (2 ^ 8) ltac:(lia)) as E2.
  rewrite Z.div_div in E2 by lia. change (2 ^ 8 * 2 ^ 8) with (2 ^ 16) in E1. change (2 ^ 16 * 2 ^ 8) with (2 ^ 24) in E2.
  lia.
Qed.

Lemma le32_put32_eq l i v : 0 ≤ i → i + 4 ≤ Z.of_nat (length l) → 0 ≤ v < 2 ^ 32 → le32 (put32 l i v) i = v.
Proof.
  intros Hi Hl Hv. unfold le32, put32.
  rewrite (byte_put8_ne _ (i + 3) i), (byte_put8_ne _ (i + 2) i), (byte_put8_ne _ (i + 1) i) by lia.
  rewrite (byte_put8_eq l i) by lia.
  rewrite (byte_put8_ne _ (i + 3) (i + 1)), (byte_put8_ne _ (i + 2) (i + 1)) by lia.
  rewrite (byte_put8_eq _ (i + 1)) by (rewrite ?length_put8; lia).
  rewrite (byte_put8_ne _ (i + 3) (i + 2)) by lia. rewrite (byte_put8_eq _ (i + 2)) by (rewrite ?length_put8; lia).
  rewrite (byte_put8_eq _ (i + 3)) by (rewrite ?length_put8; lia). by apply le32_bytes.
Qed.

Lemma le32_put32_ne l i j v : 0 ≤ i → 0 ≤ j → (i + 4 ≤ j ∨ j + 4 ≤ i) → le32 (put32 l i v) j = le32 l j.
Proof. intros Hi Hj Hd. unfold le32, put32. rewrite !byte_put8_ne by lia. done. Qed.
