(* ===== verification/Fat.v ===== *)
(** * Fat: the FAT32 server's operations ([_sdk/user_backup/fat32.c])

    The static objects, the file allocation table, directories and file data.
    [fuel] bounds the loops that follow a cluster chain, which the code does not
    bound. *)

From S2P Require Import Prelude Sectors.

Definition FAT32_DRIVE : Z := 1.
Definition EOC : Z := 0x0FFFFFF8.

(** The static objects, the disk behind the system calls, and the messages sent
    so far, latest first: receiver, type, data. *)
Record fat (D : Type) := Fat {
  bytes_per_sector : Z;
  sectors_per_cluster : Z;
  reserved_sectors : Z;
  num_fats : Z;
  sectors_per_fat : Z;
  root_cluster : Z;
  first_data_sector : Z;
  disk : D;
  file_buf : list Z;
  sent : list (Z * Z * list Z);
}.
Arguments Fat {D}.
Arguments bytes_per_sector {D}.
Arguments sectors_per_cluster {D}.
Arguments reserved_sectors {D}.
Arguments num_fats {D}.
Arguments sectors_per_fat {D}.
Arguments root_cluster {D}.
Arguments first_data_sector {D}.
Arguments disk {D}.
Arguments file_buf {D}.
Arguments sent {D}.

Definition set_disk {D} (d : D) (s : fat D) : fat D :=
  Fat (bytes_per_sector s) (sectors_per_cluster s) (reserved_sectors s) (num_fats s) (sectors_per_fat s)
    (root_cluster s) (first_data_sector s) d (file_buf s) (sent s).
Definition set_file_buf {D} (b : list Z) (s : fat D) : fat D :=
  Fat (bytes_per_sector s) (sectors_per_cluster s) (reserved_sectors s) (num_fats s) (sectors_per_fat s)
    (root_cluster s) (first_data_sector s) (disk s) b (sent s).
Definition set_sent {D} (l : list (Z * Z * list Z)) (s : fat D) : fat D :=
  Fat (bytes_per_sector s) (sectors_per_cluster s) (reserved_sectors s) (num_fats s) (sectors_per_fat s)
    (root_cluster s) (first_data_sector s) (disk s) (file_buf s) l.

(** ** Names *)

(** [if (c >= 'a' && c <= 'z') c -= 32;] *)
Definition upper (c : Z) : Z := if (97 <=? c) && (c <=? 122) then c - 32 else c.

(** A C string is the list of its bytes before the terminating 0. *)
Fixpoint c_string (l : list Z) : list Z :=
  match l with
  | [] => []
  | b :: l' => if b =? 0 then [] else b :: c_string l'
  end.

(** The index of the first [c] in a string. *)
Fixpoint index_of (c : Z) (name : list Z) : option nat :=
  match name with
  | [] => None
  | b :: name' => if b =? c then Some O else S <$> index_of c name'
  end.

(** Up to [n] bytes of the string [name], in upper case, to [out] from [o] on. *)
Fixpoint copy_upper (n : nat) (name : list Z) (o : nat) (out : list Z) : list Z :=
  match n, name with
  | S n', c :: name' => copy_upper n' name' (S o) (<[o := upper c]> out)
  | _, _ => out
  end.

Definition to_8_3 (name : list Z) : list Z :=
  let out := replicate 11 32 in
  let dot := index_of 46 name in
  let lim := match dot with None => 11%nat | Some d => d end in
  let out := copy_upper (lim `min` 8) name 0 out in
  match dot with
  | None => out
  | Some d => copy_upper 3 (drop (S d) name) 8 out
  end.

(** ** The allocation table *)

Section Fat.
Context {D : Type} `{BlockDev D} (fuel : nat).

Notation P := (U (fat D)).

(** The results of the calls: [None] is a negative return value. *)
Definition read_sector (drive lba : Z) : P (option (list Z)) := ugets (λ s, bd_read (disk s) drive lba).

Definition write_sector (drive lba : Z) (buf : list Z) : P bool := λ s,
  match bd_write (disk s) drive lba buf with
  | Some d => UOk true (set_disk d s)
  | None => UOk false s
  end.

(** The layout read from the boot sector. *)
Definition init_fs : P bool :=
  o ← read_sector FAT32_DRIVE 0;
  match o with
  | None => mret false
  | Some sec =>
    if in_buf sec 0 512 then
      umodify (λ s, Fat (le16 sec 0x0B) (byte sec 0x0D) (le16 sec 0x0E) (byte sec 0x10) (le32 sec 0x24) (le32 sec 0x2C)
        (u32 (le16 sec 0x0E + byte sec 0x10 * le32 sec 0x24)) (disk s) (file_buf s) (sent s)) ;;
      mret true
    else utrap
  end.

Definition cluster_to_sector (c : Z) : P Z :=
  ugets (λ s, u32 (first_data_sector s + u32 (c - 2) * sectors_per_cluster s)).

(** Sector and offset of the entry of cluster [c]; a division by 0 traps. *)
Definition fat_pos (c : Z) : P (Z * Z) :=
  bps ← ugets bytes_per_sector;
  res ← ugets reserved_sectors;
  if bps =? 0 then utrap
  else
    let off := u32 (c * 4) in
    mret (u32 (res + off / bps), off mod bps).

Definition next_cluster (c : Z) : P Z :=
  pos ← fat_pos c;
  o ← read_sector FAT32_DRIVE pos.1;
  match o with
  | None => mret 0
  | Some sec => v ← rd32 sec pos.2; mret (Z.land v 0x0FFFFFFF)
  end.

Definition set_fat_entry (c val : Z) : P bool :=
  pos ← fat_pos c;
  o ← read_sector FAT32_DRIVE pos.1;
  match o with
  | None => mret false
  | Some sec =>
    v ← rd32 sec pos.2;
    sec' ← wr32 sec pos.2 (Z.lor (Z.land v 0xF0000000) (Z.land val 0x0FFFFFFF));
    write_sector FAT32_DRIVE pos.1 sec'
  end.

Definition is_eoc (c : Z) : bool := EOC <=? c.

(** [!is_eoc(c) && c >= 2] *)
Definition in_chain (c : Z) : bool := negb (is_eoc c) && (2 <=? c).

(** The search of [alloc_cluster] from [c] on, [n] entries. *)
Fixpoint alloc_from (n : nat) (c : Z) : P Z :=
  match n with
  | O => mret 0
  | S n' =>
    v ← next_cluster c;
    if v =? 0 then
      ok ← set_fat_entry c EOC;
      mret (if ok : bool then c else 0)
    else alloc_from n' (c + 1)
  end.

Definition alloc_cluster : P Z :=
  spf ← ugets sectors_per_fat;
  bps ← ugets bytes_per_sector;
  let total_entries := u32 (spf * (bps / 4)) in
  alloc_from (Z.to_nat (total_entries - 2)) 2.

Fixpoint free_chain (n : nat) (c : Z) : P unit :=
  if in_chain c then
    match n with
    | O => ufuel
    | S n' =>
      next ← next_cluster c;
      set_fat_entry c 0 ;;
      free_chain n' next
    end
  else mret tt.

Definition free_cluster_chain (start : Z) : P unit := free_chain fuel start.

(** ** Directories *)

(** The tests of an entry of 32 bytes at [off]. *)
Definition entry_end (sec : list Z) (off : Z) : bool := byte sec off =? 0.
Definition entry_skip (sec : list Z) (off : Z) : bool :=
  (byte sec off =? 0xE5) || (byte sec (off + 0xB) =? 0x0F) || negb (Z.land (byte sec (off + 0xB)) 0x08 =? 0).
Definition entry_match (sec name : list Z) (off : Z) : bool := bool_decide (slice sec off 11 = name).
Definition entry_cluster (sec : list Z) (off : Z) : Z := le16 sec (off + 0x14) * 2 ^ 16 + le16 sec (off + 0x1A).
Definition entry_size (sec : list Z) (off : Z) : Z := le32 sec (off + 0x1C).

(** A loop over the sectors of a chain: [body] gets the number of a sector and
    its contents and may end the search; [None] when a sector cannot be read or
    the chain ends. *)
Definition scan_cluster {A} (c : Z) (body : Z → list Z → P (option A)) (fail : P A) : P (option A) :=
  sec_base ← cluster_to_sector c;
  n ← ugets sectors_per_cluster;
  ufor_exit (Z.to_nat n) 0 (λ k,
    let lba := u32 (sec_base + k) in
    o ← read_sector FAT32_DRIVE lba;
    match o with
    | None => a ← fail; mret (Some a)
    | Some sec => if in_buf sec 0 512 then body lba sec else utrap
    end).

Fixpoint scan_chain {A} (n : nat) (c : Z) (body : Z → list Z → P (option A)) (fail : P A) : P (option A) :=
  if in_chain c then
    match n with
    | O => ufuel
    | S n' =>
      r ← scan_cluster c body fail;
      match r with
      | Some a => mret (Some a)
      | None => next ← next_cluster c; scan_chain n' next body fail
      end
    end
  else mret None.

(** The loop over the sixteen entries of a sector in [find_in_dir]: [Some None]
    leaves the function with -1.  [null] says that [out_size] is a null pointer,
    through which the result is stored all the same. *)
Fixpoint find_entry (n : nat) (off : Z) (sec name : list Z) (null : bool) : P (option (option (Z * Z))) :=
  match n with
  | O => mret None
  | S n' =>
    if entry_end sec off then mret (Some None)
    else if entry_skip sec off then find_entry n' (off + 32) sec name null
    else if entry_match sec name off then
      if null then utrap else mret (Some (Some (entry_cluster sec off, entry_size sec off)))
    else find_entry n' (off + 32) sec name null
  end.

(** [Some (cluster, size)] for the return value 1, [None] for -1. *)
Definition find_in_dir (dir_cluster : Z) (name : list Z) (null : bool) : P (option (Z * Z)) :=
  r ← scan_chain fuel dir_cluster (λ _ sec, find_entry 16 0 sec name null) (mret None);
  mret (default None r).

(** The directory part of a path with a [/], or an error for one of more than 63
    bytes, and the rest. *)
Definition split_path (path : list Z) : option (list Z * list Z) :=
  i ← index_of 47 path; mret (take i path, drop (S i) path).

Definition resolve_path (path : list Z) : P (option (Z * Z)) :=
  root ← ugets root_cluster;
  match split_path path with
  | Some (dirname, file) =>
    if (63 <? length dirname)%nat then mret None
    else
      o ← find_in_dir root (to_8_3 dirname) false;
      match o with
      | None => mret None
      | Some (tmp_cluster, _) => find_in_dir tmp_cluster (to_8_3 file) false
      end
  | None => find_in_dir root (to_8_3 path) false
  end.

(** The caller passes a null pointer for the size of the directory. *)
Definition resolve_parent (path : list Z) : P (option (Z * list Z)) :=
  root ← ugets root_cluster;
  match split_path path with
  | Some (dirname, file) =>
    if (63 <? length dirname)%nat then mret None
    else
      o ← find_in_dir root (to_8_3 dirname) true;
      match o with
      | None => mret None
      | Some (tmp_cluster, _) => mret (Some (tmp_cluster, file))
      end
  | None => mret (Some (root, path))
  end.

(** The offset of the first free entry of a sector. *)
Fixpoint free_slot (n : nat) (off : Z) (sec : list Z) : option Z :=
  match n with
  | O => None
  | S n' => if (byte sec off =? 0) || (byte sec off =? 0xE5) then Some off else free_slot n' (off + 32) sec
  end.

(** The result is the offset within its sector, whichever sector that is. *)
Definition free_dir_entry (dir_cluster : Z) : P (option Z) :=
  r ← scan_chain fuel dir_cluster (λ lba sec,
    match free_slot 16 0 sec with
    | None => mret None
    | Some off => ok ← write_sector FAT32_DRIVE lba sec; mret (Some (if ok : bool then Some off else None))
    end) (mret None);
  mret (default None r).

(** Not called by the server.  The entries are 32 bytes apart on both sides. *)
Fixpoint put_entries (n : nat) (i entry_off entry_size : Z) (entries sec : list Z) : P (list Z) :=
  match n with
  | O => mret sec
  | S n' =>
    bs ← rd_slice entries (i * 32) entry_size;
    sec ← wr_slice sec (entry_off + i * 32) bs;
    put_entries n' (i + 1) entry_off entry_size entries sec
  end.

Definition write_dir_entries (entry_off sec_sector : Z) (entries : list Z) (n entry_size : Z) : P bool :=
  o ← read_sector FAT32_DRIVE sec_sector;
  match o with
  | None => mret false
  | Some sec => sec ← put_entries (Z.to_nat n) 0 entry_off entry_size entries sec; write_sector FAT32_DRIVE sec_sector sec
  end.

Fixpoint delete_in_sector (n : nat) (off lba : Z) (sec name : list Z) : P (option bool) :=
  match n with
  | O => mret None
  | S n' =>
    if entry_end sec off then mret (Some false)
    else if entry_skip sec off then delete_in_sector n' (off + 32) lba sec name
    else if entry_match sec name off then
      let start_cluster := entry_cluster sec off in
      let sec := put8 sec off 0xE5 in
      ok ← write_sector FAT32_DRIVE lba sec;
      if negb ok then mret (Some false)
      else
        (if Z.land (byte sec (off + 0xB)) 0x10 =? 0 then free_cluster_chain start_cluster else mret tt) ;;
        mret (Some true)
    else delete_in_sector n' (off + 32) lba sec name
  end.

Definition delete_entry (dir_cluster : Z) (name : list Z) : P bool :=
  r ← scan_chain fuel dir_cluster (λ lba sec, delete_in_sector 16 0 lba sec name) (mret false);
  mret (default false r).

(** ** File data *)

(** One sector of [write_file_data]: [chunk] bytes of [data] from [pos] on, then
    zeros up to the sector size.  The code leaves what lies beyond a sector size
    below 512 uninitialised; zeros stand for it here. *)
Definition data_sector (data : list Z) (pos chunk bps : Z) : P (list Z) :=
  bs ← rd_slice data pos chunk;
  if bps <=? 512 then mret (bs ++ replicate (Z.to_nat (bps - chunk)) 0 ++ replicate (Z.to_nat (512 - bps)) 0)
  else utrap.

(** The loop over the sectors of a cluster; [None] when a write fails, else the
    number of bytes written. *)
Fixpoint write_sectors (n : nat) (k sbase : Z) (data : list Z) (off to_write done : Z) : P (option Z) :=
  match n with
  | O => mret (Some done)
  | S n' =>
    if done <? to_write then
      bps ← ugets bytes_per_sector;
      let chunk := if bps <? to_write - done then bps else to_write - done in
      sec ← data_sector data (off + done) chunk bps;
      ok ← write_sector FAT32_DRIVE (u32 (sbase + k)) sec;
      if negb ok then mret None else write_sectors n' (k + 1) sbase data off to_write (done + chunk)
    else mret (Some done)
  end.

Fixpoint write_loop (n : nat) (c off prev : Z) (data : list Z) (size : Z) : P bool :=
  if off <? size then
    match n with
    | O => ufuel
    | S n' =>
      o ← (if is_eoc c || (c <? 2) then
             new_c ← alloc_cluster;
             if new_c =? 0 then mret None
             else if negb (prev =? 0) then
               ok ← set_fat_entry prev new_c;
               mret (if ok : bool then Some new_c else None)
             else mret (Some new_c)
           else mret (Some c));
      match o with
      | None => mret false
      | Some c =>
        sbase ← cluster_to_sector c;
        bps ← ugets bytes_per_sector;
        spc ← ugets sectors_per_cluster;
        let to_write := if bps * spc <? size - off then bps * spc else size - off in
        w ← write_sectors (Z.to_nat spc) 0 sbase data off to_write 0;
        match w with
        | None => mret false
        | Some done => next ← next_cluster c; write_loop n' next (off + done) c data size
        end
      end
    end
  else mret true.

Definition write_file_data (start_cluster : Z) (data : list Z) (size : Z) : P bool :=
  write_loop fuel start_cluster 0 0 data size.

End Fat.
