(* ===== verification/FatServer.v ===== *)
(** * FatServer: the request loop of the FAT32 server ([_sdk/user_backup/fat32.c])

    [handle] is the body of the loop of [_start] for one received message: read,
    spawn, write, delete and make a directory. *)

From S2P Require Import Prelude Sectors Fat.

(** The message [recv] stored: all 64 bytes of its buffer, of which the first
    [rq_length] are the message. *)
Record request := Request {
  rq_sender : Z;
  rq_type : Z;
  rq_data : list Z;
  rq_length : Z;
}.

(** [req.data] and the bytes of [req.length] that follow it in memory. *)
Definition rq_mem (r : request) : list Z := rq_data r ++ (u8 <$> (Z.shiftr (rq_length r) <$> [0; 8; 16; 24; 32; 40; 48; 56])).

Definition rq_path (r : request) : list Z := c_string (rq_mem r).

Section Server.
Context {D : Type} `{BlockDev D} (fuel : nat).
(** The system call that starts a program from [file_buf]: its pid, or an error.
    It belongs to the same earlier kernel. *)
Context (spawn : list Z → Z → option Z).

Notation P := (U (fat D)).

Definition send (pid type : Z) (data : list Z) : P unit := umodify (λ s, set_sent ((pid, type, data) :: sent s) s).

Definition fail (r : request) : P unit := send (rq_sender r) 255 [].

(** ** Read *)

(** The message for [chunk] bytes at offset [off]. *)
Definition chunk_msg (off chunk : Z) (bs : list Z) : list Z :=
  [Z.land off 0xFF; Z.land (Z.shiftr off 8) 0xFF; Z.land (Z.shiftr off 16) 0xFF; Z.land (Z.shiftr off 24) 0xFF; u8 chunk]
  ++ bs.

(** [while (off < end)]: each turn sends at least one byte. *)
Fixpoint send_chunks (n : nat) (pid : Z) (sec : list Z) (off end_ : Z) : P Z :=
  if off <? end_ then
    match n with
    | O => ufuel
    | S n' =>
      let chunk := if 59 <? end_ - off then 59 else end_ - off in
      bps ← ugets bytes_per_sector;
      if bps =? 0 then utrap
      else
        bs ← rd_slice sec (off mod bps) chunk;
        send pid 100 (chunk_msg off chunk bs) ;;
        send_chunks n' pid sec (off + chunk) end_
    end
  else mret off.

(** The sectors of one cluster; [None] when one cannot be read. *)
Fixpoint read_sectors (n : nat) (k sbase pid off size : Z) : P (option Z) :=
  match n with
  | O => mret (Some off)
  | S n' =>
    if off <? size then
      o ← read_sector FAT32_DRIVE (u32 (sbase + k));
      match o with
      | None => mret None
      | Some sec =>
        bps ← ugets bytes_per_sector;
        let end_ := u32 (off + bps) in
        let end_ := if size <? end_ then size else end_ in
        off ← send_chunks (Z.to_nat (end_ - off)) pid sec off end_;
        read_sectors n' (k + 1) sbase pid off size
      end
    else mret (Some off)
  end.

Fixpoint read_loop (n : nat) (c pid off size : Z) : P bool :=
  if in_chain c && (off <? size) then
    match n with
    | O => ufuel
    | S n' =>
      sbase ← cluster_to_sector c;
      spc ← ugets sectors_per_cluster;
      o ← read_sectors (Z.to_nat spc) 0 sbase pid off size;
      match o with
      | None => mret false
      | Some off => next ← next_cluster c; read_loop n' next pid off size
      end
    end
  else mret true.

Definition handle_read (r : request) : P unit :=
  o ← resolve_path fuel (rq_path r);
  match o with
  | None => fail r
  | Some (cluster, size) =>
    ok ← read_loop fuel cluster (rq_sender r) 0 size;
    if ok : bool then send (rq_sender r) 101 [] else fail r
  end.

(** ** Spawn *)

Fixpoint load_sectors (n : nat) (k sbase off size : Z) : P (option Z) :=
  match n with
  | O => mret (Some off)
  | S n' =>
    if off <? size then
      o ← read_sector FAT32_DRIVE (u32 (sbase + k));
      match o with
      | None => mret None
      | Some sec =>
        buf ← ugets file_buf;
        buf ← wr_slice buf off sec;
        umodify (set_file_buf buf) ;;
        bps ← ugets bytes_per_sector;
        load_sectors n' (k + 1) sbase (u32 (off + bps)) size
      end
    else mret (Some off)
  end.

Fixpoint load_loop (n : nat) (c off size : Z) : P (option Z) :=
  if in_chain c && (off <? size) then
    match n with
    | O => ufuel
    | S n' =>
      sbase ← cluster_to_sector c;
      spc ← ugets sectors_per_cluster;
      o ← load_sectors (Z.to_nat spc) 0 sbase off size;
      match o with
      | None => mret None
      | Some off => next ← next_cluster c; load_loop n' next off size
      end
    end
  else mret (Some off).

(** The eight bytes of a pid. *)
Definition pid_bytes (pid : Z) : list Z := (λ i, Z.land (Z.shiftr pid (8 * i)) 0xFF) <$> seqZ 0 8.

Definition handle_spawn (r : request) : P unit :=
  o ← resolve_path fuel (rq_path r);
  match o with
  | None => fail r
  | Some (cluster, size) =>
    if 32768 <? size then fail r
    else
      o ← load_loop fuel cluster 0 size;
      match o with
      | None => fail r
      | Some off =>
        if off <? size then fail r
        else
          buf ← ugets file_buf;
          match spawn buf size with
          | Some pid => send (rq_sender r) 101 (pid_bytes pid)
          | None => fail r
          end
      end
  end.

(** ** Write *)

(** The entry of an existing file gets its new size and first cluster. *)
Definition update_entry (sec : list Z) (off data_start data_len : Z) : list Z :=
  let sec := put32 sec (off + 0x1C) data_len in
  let sec := put8 sec (off + 0x14) (Z.shiftr data_start 16) in
  let sec := put8 sec (off + 0x15) (Z.shiftr data_start 24) in
  let sec := put8 sec (off + 0x1A) data_start in
  put8 sec (off + 0x1B) (Z.shiftr data_start 8).

(** The entries of one sector; the result is the sector and [found], [None] after
    a failed write.  The loop goes on after a match. *)
Fixpoint update_sector (n : nat) (off lba : Z) (sec name : list Z) (old_cluster data_start data_len found : Z)
  : P (option Z) :=
  match n with
  | O => mret (Some found)
  | S n' =>
    if entry_end sec off then mret (Some (-1))
    else if entry_skip sec off then update_sector n' (off + 32) lba sec name old_cluster data_start data_len found
    else if entry_match sec name off then
      free_cluster_chain fuel old_cluster ;;
      let sec := update_entry sec off data_start data_len in
      ok ← write_sector FAT32_DRIVE lba sec;
      if negb ok then mret None
      else update_sector n' (off + 32) lba sec name old_cluster data_start data_len 1
    else update_sector n' (off + 32) lba sec name old_cluster data_start data_len found
  end.

(** How the search for the entry ended: a sector could not be read, the entry could
    not be written, or the final value of [found]. *)
Inductive updated := UnreadDir | UnwrittenDir | Found (found : Z).

(** [for (s; s < sectors_per_cluster && !found; s++)] *)
Fixpoint update_sectors (n : nat) (k sec_base : Z) (name : list Z) (old_cluster data_start data_len : Z) : P updated :=
  match n with
  | O => mret (Found 0)
  | S n' =>
    let lba := u32 (sec_base + k) in
    o ← read_sector FAT32_DRIVE lba;
    match o with
    | None => mret UnreadDir
    | Some sec =>
      if in_buf sec 0 512 then
        f ← update_sector 16 0 lba sec name old_cluster data_start data_len 0;
        match f with
        | None => mret UnwrittenDir
        | Some f => if f =? 0 then update_sectors n' (k + 1) sec_base name old_cluster data_start data_len else mret (Found f)
        end
      else utrap
    end
  end.

Fixpoint update_loop (n : nat) (c : Z) (name : list Z) (old_cluster data_start data_len : Z) : P updated :=
  if in_chain c then
    match n with
    | O => ufuel
    | S n' =>
      sec_base ← cluster_to_sector c;
      spc ← ugets sectors_per_cluster;
      f ← update_sectors (Z.to_nat spc) 0 sec_base name old_cluster data_start data_len;
      match f with
      | Found f =>
        next ← next_cluster c;
        if f =? 0 then update_loop n' next name old_cluster data_start data_len else mret (Found f)
      | f => mret f
      end
    end
  else mret (Found 0).

(** A new entry: the name, the attribute and the first cluster; a file has its
    size as well. *)
Definition new_entry (name : list Z) (attr cluster size : Z) : list Z :=
  let e := put_slice (replicate 32 0) 0 name in
  let e := put8 e 0xB attr in
  let e := put32 e 0x1C size in
  let e := put8 e 0x1A cluster in
  let e := put8 e 0x1B (Z.shiftr cluster 8) in
  let e := put8 e 0x14 (Z.shiftr cluster 16) in
  put8 e 0x15 (Z.shiftr cluster 24).

(** For a file the code then clears the time stamps: bytes 0x10 to 0x13, 0x12 to
    0x15 and 0x16 to 0x19. *)
Definition clear_times (e : list Z) : list Z :=
  put_slice (put_slice (put_slice e 0x10 (replicate 4 0)) 0x12 (replicate 4 0)) 0x16 (replicate 4 0).

(** The entry stored in the sector the code takes the offset to lie in: the first
    of the directory. *)
Definition store_entry (parent_cluster entry_off : Z) (entry : list Z) : P bool :=
  sbase ← cluster_to_sector parent_cluster;
  let entry_sec := u32 (sbase + entry_off / 512) in
  o ← read_sector FAT32_DRIVE entry_sec;
  match o with
  | None => mret false
  | Some sec => sec ← wr_slice sec (entry_off mod 512) entry; write_sector FAT32_DRIVE entry_sec sec
  end.

(** The part of a write after the data is on disk: the directory entry. *)
Definition enter_file (r : request) (parent_cluster : Z) (name : list Z) (exists_ : option (Z * Z)) (data_start data_len : Z)
  : P unit :=
  match exists_ with
  | Some (old_cluster, _) =>
    f ← update_loop fuel parent_cluster name old_cluster data_start data_len;
    match f with
    | UnreadDir => free_cluster_chain fuel data_start ;; fail r
    | UnwrittenDir => fail r
    | Found f =>
      if f =? 1 then send (rq_sender r) 200 []
      else free_cluster_chain fuel data_start ;; fail r
    end
  | None =>
    o ← free_dir_entry fuel parent_cluster;
    match o with
    | None => free_cluster_chain fuel data_start ;; fail r
    | Some entry_off =>
      ok ← store_entry parent_cluster entry_off (clear_times (new_entry name 0x20 data_start data_len));
      if ok : bool then send (rq_sender r) 200 [] else free_cluster_chain fuel data_start ;; fail r
    end
  end.

Definition handle_write (r : request) : P unit :=
  let path := rq_path r in
  let path_len := Z.of_nat (length path) + 1 in
  let data_len := i32 (rq_length r) - path_len in
  if data_len <? 0 then fail r
  else
    o ← resolve_parent fuel path;
    match o with
    | None => fail r
    | Some (parent_cluster, filename) =>
      let name := to_8_3 filename in
      exists_ ← find_in_dir fuel parent_cluster name false;
      data_start ← (if 0 <? data_len then alloc_cluster else mret 0);
      if (0 <? data_len) && (data_start =? 0) then fail r
      else
        ok ← (if 0 <? data_len then write_file_data fuel data_start (drop (Z.to_nat path_len) (rq_mem r)) data_len
              else mret true);
        if negb ok then free_cluster_chain fuel data_start ;; fail r
        else enter_file r parent_cluster name exists_ data_start data_len
    end.

(** ** Delete and make a directory *)

Definition handle_delete (r : request) : P unit :=
  o ← resolve_parent fuel (rq_path r);
  match o with
  | None => fail r
  | Some (parent_cluster, filename) =>
    ok ← delete_entry fuel parent_cluster (to_8_3 filename);
    if ok : bool then send (rq_sender r) 200 [] else fail r
  end.

(** An entry of the new directory's first sector: [.] or [..]. *)
Definition dot_entry (sec : list Z) (at_ : Z) (name : list Z) (cluster : Z) : list Z :=
  let sec := put_slice sec at_ name in
  let sec := put8 sec (at_ + 0x1B) (Z.shiftr cluster 8) in
  let sec := put8 sec (at_ + 0x1A) cluster in
  let sec := put8 sec (at_ + 0x14) (Z.shiftr cluster 16) in
  let sec := put8 sec (at_ + 0x15) (Z.shiftr cluster 24) in
  put8 sec (at_ + 0xB) 0x10.

Definition new_dir (new_cluster parent_cluster : Z) : list Z :=
  dot_entry (dot_entry (replicate 512 0) 0 [46; 32] new_cluster) 32 [46; 46; 32] parent_cluster.

Definition handle_mkdir (r : request) : P unit :=
  o ← resolve_parent fuel (rq_path r);
  match o with
  | None => fail r
  | Some (parent_cluster, dirname) =>
    let name := to_8_3 dirname in
    new_cluster ← alloc_cluster;
    if new_cluster =? 0 then fail r
    else
      sbase ← cluster_to_sector new_cluster;
      ok ← write_sector FAT32_DRIVE sbase (new_dir new_cluster parent_cluster);
      if negb ok then free_cluster_chain fuel new_cluster ;; fail r
      else
        o ← free_dir_entry fuel parent_cluster;
        match o with
        | None => free_cluster_chain fuel new_cluster ;; fail r
        | Some entry_off =>
          ok ← store_entry parent_cluster entry_off (new_entry name 0x10 new_cluster 0);
          if ok : bool then send (rq_sender r) 200 [] else free_cluster_chain fuel new_cluster ;; fail r
        end
  end.

(** ** The loop *)

Definition handle (r : request) : P unit :=
  if rq_type r =? 0 then handle_read r
  else if rq_type r =? 1 then handle_spawn r
  else if rq_type r =? 2 then handle_write r
  else if (rq_type r =? 3) || (rq_type r =? 5) then handle_delete r
  else if rq_type r =? 4 then handle_mkdir r
  else fail r.

(** [_start] on the requests that arrive; a disk that cannot be read leaves the
    server idle. *)
Fixpoint serve (rs : list request) : P unit :=
  match rs with
  | [] => mret tt
  | r :: rs' => handle r ;; serve rs'
  end.

Definition fat32_start (rs : list request) : P unit :=
  ok ← init_fs;
  if ok : bool then serve rs else mret tt.

End Server.
