(* ===== verification/FatTable.v ===== *)
(** * FatTable: the allocation table of the FAT32 server

    A mounted volume ([vol]) shows its allocation table as a function from
    cluster numbers to entries ([fat_get]).  Reading an entry, storing one,
    allocating a cluster and freeing a chain are operations on that function;
    [retabled] says that nothing else on the disk changes. *)

From stdpp Require Import functions.
From S2P Require Import Prelude Sectors Fat.

#[local] Open Scope Z_scope.

(** ** Entries *)

(** The bits of an entry: 28 for the table, 4 that a store keeps. *)
Lemma entry_stored v val :
  0 ≤ v < 2 ^ 32 → 0 ≤ val < 2 ^ 28 →
  let e := Z.lor (Z.land v 0xF0000000) (Z.land val 0x0FFFFFFF) in
  0 ≤ e < 2 ^ 32 ∧ Z.land e 0x0FFFFFFF = val.
Proof.
  intros Hv Hval e. change 0x0FFFFFFF with (2 ^ 28 - 1) in *. subst e.
  rewrite !land_ones_mod by lia. rewrite (Z.mod_small val) by lia.
  assert (Hb : Z.land v 0xF0000000 = 2 ^ 28 * (v / 2 ^ 28)).
  { transitivity (Z.land v (Z.lnot (2 ^ 28 - 1))); [|rewrite land_lnot_ones by lia; pose proof (Z.div_mod v (2 ^ 28)); lia].
    apply Z.bits_inj'. intros i Hi. rewrite !Z.land_spec. destruct (decide (i < 32)).
    - f_equal. rewrite <- (Z.mod_pow2_bits_low (Z.lnot _) 32) by lia. done.
    - by rewrite (testbit_small v 32) by lia. }
  rewrite Hb, (lor_aligned_small _ _ 28); [|lia|by rewrite Z.mul_comm, Z_mod_mult|lia].
  pose proof (Z.div_lt_upper_bound v (2 ^ 28) 16 ltac:(lia) ltac:(lia)).
  pose proof (Z.div_pos v (2 ^ 28) ltac:(lia) ltac:(lia)). split; [lia|].
  rewrite Z.add_comm, Z.mul_comm, Z_mod_plus_full. by apply Z.mod_small.
Qed.

Section Table.
Context {D : Type} `{BlockLaws D}.

Implicit Types (s : fat D) (c v lba : Z) (l : list Z).

(** The number of entries of the table. *)
Definition entries s : Z := 128 * sectors_per_fat s.

(** The sectors of the first copy of the table. *)
Definition table_sector s dr lba : Prop :=
  dr = FAT32_DRIVE ∧ reserved_sectors s ≤ lba < reserved_sectors s + sectors_per_fat s.

(** A mounted volume with sectors of 512 bytes, the size of the code's buffers,
    whose table lies on the disk in front of the data. *)
Record vol s : Prop := {
  vol_wf : bd_wf (disk s);
  vol_bps : bytes_per_sector s = 512;
  vol_spc : 0 < sectors_per_cluster s < 2 ^ 8;
  vol_res : 0 ≤ reserved_sectors s;
  vol_entries : 2 ≤ entries s ≤ EOC;
  vol_data : reserved_sectors s + sectors_per_fat s ≤ first_data_sector s < 2 ^ 32;
  vol_in : ∀ dr lba, table_sector s dr lba → bd_in (disk s) dr lba;
}.

(** The contents of a sector of the volume. *)
Definition sector s lba : list Z := default [] (bd_read (disk s) FAT32_DRIVE lba).

(** The table. *)
Definition fat_get s c : Z := Z.land (le32 (sector s (reserved_sectors s + c / 128)) (4 * (c mod 128))) 0x0FFFFFFF.

Definition in_table s c : Prop := 0 ≤ c < entries s.

(** [s'] is [s] with the table [t]; no other sector has changed. *)
Definition retabled s s' (t : Z → Z) : Prop :=
  vol s' ∧ s' = set_disk (disk s') s ∧
  (∀ c, in_table s c → fat_get s' c = t c) ∧
  (∀ dr lba, bd_in (disk s') dr lba ↔ bd_in (disk s) dr lba) ∧
  (∀ dr lba, ¬ table_sector s dr lba → bd_read (disk s') dr lba = bd_read (disk s) dr lba).

Lemma retabled_refl s : vol s → retabled s s (fat_get s).
Proof. intros Hv. split_and!; [done|by destruct s|done..]. Qed.

Lemma retabled_trans s s1 s2 t1 t2 : retabled s s1 t1 → retabled s1 s2 t2 → retabled s s2 t2.
Proof.
  intros (V1 & E1 & T1 & I1 & R1) (V2 & E2 & T2 & I2 & R2). split_and!.
  - apply V2.
  - etrans; [exact E2|]. transitivity (set_disk (disk s2) (set_disk (disk s1) s)); [f_equal; exact E1|by destruct s].
  - intros c Hc. apply T2. unfold in_table, entries. rewrite E1. apply Hc.
  - intros dr lba. by rewrite I2, I1.
  - intros dr lba Hn. rewrite R2; [by apply R1|]. unfold table_sector. rewrite E1. apply Hn.
Qed.

Lemma retabled_ext s s' t t' : retabled s s' t → (∀ c, in_table s c → t c = t' c) → retabled s s' t'.
Proof. intros (V & E & T & I & R) Ht. split_and!; [done..| |done|done]. intros c Hc. by rewrite T, Ht. Qed.

(** A volume's geometry after a change of the disk. *)
Lemma vol_set_disk s d :
  vol s → bd_wf d → (∀ dr lba, bd_in d dr lba ↔ bd_in (disk s) dr lba) → vol (set_disk d s).
Proof. intros [] Hd Hi. split; try done. intros dr lba Ht. by apply Hi, vol_in0. Qed.

(** ** Reading and storing one entry *)

Lemma fat_pos_eq s c : vol s → in_table s c → fat_pos c s = UOk (reserved_sectors s + c / 128, 4 * (c mod 128)) s.
Proof.
  intros [] Hc. unfold in_table, entries, EOC in *. unfold fat_pos, ugets, mbind, U_bind, mret, U_ret. rewrite vol_bps0.
  simpl. rewrite (u32_small (c * 4)) by lia. replace (c * 4 / 512) with (c / 128) by (symmetry; by apply (Z.div_mul_cancel_r c 128 4)).
  rewrite u32_small by (pose proof (Z.div_lt_upper_bound c 128 (sectors_per_fat s)); pose proof (Z.div_pos c 128); lia).
  do 2 f_equal. rewrite (Z.mul_comm c 4). by apply (Z.mul_mod_distr_l c 128 4).
Qed.

Lemma entry_sector s c : vol s → in_table s c → table_sector s FAT32_DRIVE (reserved_sectors s + c / 128).
Proof.
  intros Hv Hc. unfold in_table, entries in *. split; [done|].
  pose proof (Z.div_lt_upper_bound c 128 (sectors_per_fat s)). pose proof (Z.div_pos c 128). lia.
Qed.

(** A sector on the disk of a volume. *)
Lemma sector_ok s lba :
  vol s → bd_in (disk s) FAT32_DRIVE lba →
  read_sector FAT32_DRIVE lba s = UOk (Some (sector s lba)) s ∧ bytes_ok 512 (sector s lba).
Proof.
  intros [] Hi. destruct (bd_read_ok _ _ _ vol_wf0 Hi) as (sec & E & Hok).
  unfold read_sector, ugets, sector. by rewrite E.
Qed.

Lemma mod_entry c : 0 ≤ 4 * (c mod 128) ∧ 4 * (c mod 128) + 4 ≤ 512.
Proof. pose proof (Z.mod_pos_bound c 128). lia. Qed.

Lemma in_buf_entry c l : bytes_ok 512 l → in_buf l (4 * (c mod 128)) 4 = true.
Proof. intros [Hl _]. pose proof (mod_entry c). unfold in_buf. rewrite Hl. apply andb_true_intro; split; apply Z.leb_le; lia. Qed.

Lemma next_cluster_eq s c : vol s → in_table s c → next_cluster c s = UOk (fat_get s c) s.
Proof.
  intros Hv Hc. pose proof (vol_in s Hv _ _ (entry_sector s c Hv Hc)) as Hi. destruct (sector_ok s _ Hv Hi) as [E Hb].
  unfold next_cluster. ustep_by ltac:(by apply fat_pos_eq). simpl fst; simpl snd. ustep_by ltac:(apply E).
  unfold rd32. rewrite (in_buf_entry c) by done. done.
Qed.

(** A changed sector of the table, seen through another entry. *)
Lemma fat_get_put s s' c c' v :
  in_table s c → in_table s c' → reserved_sectors s' = reserved_sectors s →
  (∀ lba, sector s' lba = if bool_decide (lba = reserved_sectors s + c / 128)
     then put32 (sector s lba) (4 * (c mod 128)) v else sector s lba) →
  c ≠ c' → fat_get s' c' = fat_get s c'.
Proof.
  intros Hc Hc' Hr Hs Hne. unfold fat_get. rewrite Hr, Hs. case_bool_decide as Hd; [|done]. f_equal.
  pose proof (mod_entry c). pose proof (mod_entry c').
  pose proof (Z.div_mod c 128). pose proof (Z.div_mod c' 128). apply le32_put32_ne; lia.
Qed.

Lemma set_fat_entry_ok s c v :
  vol s → in_table s c → 0 ≤ v < 2 ^ 28 →
  ∃ s', set_fat_entry c v s = UOk true s' ∧ retabled s s' (<[c := v]> (fat_get s)).
Proof.
  intros Hv Hc Hval. pose proof (entry_sector s c Hv Hc) as Ht. pose proof (vol_in s Hv _ _ Ht) as Hi.
  destruct (sector_ok s _ Hv Hi) as [E Hb]. pose proof (mod_entry c) as Hm.
  set (lba := reserved_sectors s + c / 128) in *. set (old := le32 (sector s lba) (4 * (c mod 128))).
  destruct (entry_stored old v (le32_range _ _ _ Hb) Hval) as [He1 He2].
  set (e := Z.lor (Z.land old 0xF0000000) (Z.land v 0x0FFFFFFF)) in *.
  set (sec := put32 (sector s lba) (4 * (c mod 128)) e).
  destruct (bd_write_ok (disk s) FAT32_DRIVE lba sec (vol_wf s Hv) Hi (put32_bytes _ _ _ _ Hb)) as (d & Ew & Hd & Hin & Hr).
  assert (Hs : ∀ x, sector (set_disk d s) x = if bool_decide (x = lba) then put32 (sector s x) (4 * (c mod 128)) e else sector s x).
  { intros x. unfold sector. simpl. rewrite Hr. do 2 case_bool_decide; naive_solver. }
  exists (set_disk d s). split.
  - unfold set_fat_entry. ustep_by ltac:(by apply fat_pos_eq). simpl fst; simpl snd. ustep_by ltac:(apply E).
    unfold rd32, wr32. rewrite (in_buf_entry c) by done.
    change (write_sector FAT32_DRIVE lba sec s = UOk true (set_disk d s)). unfold write_sector. by rewrite Ew.
  - split_and!; [by apply vol_set_disk|done| |done|].
    + intros x Hx. destruct (decide (x = c)) as [->|Hne].
      * rewrite fn_lookup_insert. unfold fat_get. simpl. fold lba. rewrite Hs, bool_decide_eq_true_2 by done.
        rewrite le32_put32_eq; [done|lia| |done]. destruct Hb as [-> _]. lia.
      * rewrite fn_lookup_insert_ne by done. by apply (fat_get_put s _ c x e).
    + intros dr x Hn. simpl. rewrite Hr. case_bool_decide as Hx; [|done]. destruct Hx as [-> ->]. done.
Qed.

(** ** Allocation *)

(** [c] is the first free cluster from [lo] on. *)
Definition first_free s lo c : Prop := lo ≤ c < entries s ∧ fat_get s c = 0 ∧ ∀ x, lo ≤ x < c → fat_get s x ≠ 0.

(** What a search from [lo] on returns and leaves. *)
Definition allocates s lo c s' : Prop :=
  (c = 0 ∧ s' = s ∧ ∀ x, lo ≤ x < entries s → fat_get s x ≠ 0) ∨
  (first_free s lo c ∧ retabled s s' (<[c := EOC]> (fat_get s))).

Lemma alloc_from_ok s n lo :
  vol s → 2 ≤ lo → lo + Z.of_nat n = entries s → ∃ c s', alloc_from n lo s = UOk c s' ∧ allocates s lo c s'.
Proof.
  intros Hv. revert lo. induction n as [|n IH]; intros lo Hlo Hn.
  { exists 0, s. split; [done|]. left. split_and!; [done..|]. intros x Hx. lia. }
  assert (Hin : in_table s lo) by (unfold in_table; lia).
  cbn [alloc_from]. setoid_rewrite (ubind_Ok _ _ _ _ _ (next_cluster_eq s lo Hv Hin)).
  destruct (Z.eqb_spec (fat_get s lo) 0) as [Hz|Hz].
  - destruct (set_fat_entry_ok s lo EOC Hv Hin ltac:(done)) as (s' & E & Hr). exists lo, s'. split.
    + ustep_by ltac:(apply E). done.
    + right. split; [|done]. split_and!; [lia|lia|done|]. intros x Hx. lia.
  - destruct (IH (lo + 1) ltac:(lia) ltac:(lia)) as (c & s' & E & Ha). exists c, s'. split; [done|].
    destruct Ha as [(-> & -> & Ha)|[(Hc & Hc0 & Ha) Hr]]; [left|right]; split_and!; try done; try lia.
    + intros x Hx. destruct (decide (x = lo)) as [->|]; [done|apply Ha; lia].
    + split_and!; [lia|lia|done|]. intros x Hx. destruct (decide (x = lo)) as [->|]; [done|apply Ha; lia].
Qed.

Lemma alloc_cluster_ok s : vol s → ∃ c s', alloc_cluster s = UOk c s' ∧ allocates s 2 c s'.
Proof.
  intros Hv. destruct (alloc_from_ok s (Z.to_nat (entries s - 2)) 2 Hv) as (c & s' & E & Ha).
  { lia. }
  { pose proof (vol_entries s Hv). lia. }
  exists c, s'. split; [|done]. rewrite <- E. unfold alloc_cluster, ugets, mbind, U_bind. rewrite (vol_bps s Hv).
  unfold entries. do 4 f_equal. rewrite Z.mul_comm. apply u32_small. pose proof (vol_entries s Hv). unfold entries, EOC in *.
  change (512 / 4) with 128. lia.
Qed.

Lemma alloc_first s c :
  vol s → first_free s 2 c → ∃ s', alloc_cluster s = UOk c s' ∧ retabled s s' (<[c := EOC]> (fat_get s)).
Proof.
  intros Hv (Hc & Hz & Hm). destruct (alloc_cluster_ok s Hv) as (c' & s' & E & Ha). exists s'.
  destruct Ha as [(-> & _ & Ha)|[(Hc' & Hz' & Hm') R]]; [by destruct (Ha c ltac:(lia))|].
  assert (c' = c) as ->; [|done].
  destruct (Z.lt_trichotomy c' c) as [Hl|[Hl|Hl]]; [|done|]; [by destruct (Hm c' ltac:(lia))|by destruct (Hm' c ltac:(lia))].
Qed.

(** ** Chains *)

(** The clusters [l] of the chain that starts at [c]. *)
Fixpoint chain s c l : Prop :=
  match l with
  | [] => in_chain c = false
  | c' :: l' => c' = c ∧ in_chain c = true ∧ in_table s c ∧ chain s (fat_get s c) l'
  end.

Lemma chain_det s c l l' : chain s c l → chain s c l' → l = l'.
Proof.
  revert c l'. induction l as [|x l IH]; intros c [|x' l']; simpl; [done| | |].
  - intros H1 (-> & H2 & _). congruence.
  - intros (-> & H1 & _) H2. congruence.
  - intros (-> & _ & _ & H1) (-> & _ & _ & H2). f_equal. by eapply IH.
Qed.

Lemma chain_suffix s c x l : chain s c l → x ∈ l → ∃ l', chain s x l' ∧ (length l' ≤ length l)%nat.
Proof.
  revert c. induction l as [|y l IH]; intros c Hl Hx; [by apply not_elem_of_nil in Hx|].
  pose proof Hl as (-> & _ & _ & Hl'). apply elem_of_cons in Hx as [->|Hx].
  - by exists (c :: l).
  - destruct (IH _ Hl' Hx) as (l' & Hc & Hn). exists l'. simpl. auto with lia.
Qed.

(** A chain that ends visits no cluster twice. *)
Lemma chain_NoDup s c l : chain s c l → NoDup l.
Proof.
  revert c. induction l as [|x l IH]; intros c Hl; [constructor|]. pose proof Hl as (-> & _ & _ & Hl'). constructor; [|by eapply IH].
  intros Hx. destruct (chain_suffix _ _ _ _ Hl' Hx) as (l' & Hc & Hn).
  rewrite (chain_det _ _ _ _ Hc Hl) in Hn. simpl in Hn. lia.
Qed.

(** Other entries do not matter. *)
Lemma chain_agree s s' c l :
  entries s' = entries s → (∀ x, x ∈ l → in_table s x → fat_get s' x = fat_get s x) → chain s c l → chain s' c l.
Proof.
  intros He Hf. revert c. induction l as [|x l IH]; intros c; [done|]. intros (-> & Hc & Hin & Hl).
  split_and!; [done..|unfold in_table; rewrite He; apply Hin|]. rewrite Hf by (done || left). apply IH; [|done].
  intros y Hy. apply Hf. by right.
Qed.

Lemma chain_same s s' c l : entries s' = entries s → (∀ x, fat_get s' x = fat_get s x) → chain s c l → chain s' c l.
Proof. intros He Hf. apply chain_agree; auto. Qed.

Lemma retabled_geometry s s' t : retabled s s' t → entries s' = entries s.
Proof. intros (_ & E & _). unfold entries. by rewrite E. Qed.

(** Freeing a chain returns within as many steps as it has clusters and frees
    those and no others. *)
Lemma free_chain_ok s n c l :
  vol s → chain s c l → (length l ≤ n)%nat →
  ∃ s', free_chain n c s = UOk tt s' ∧ retabled s s' (λ x, if decide (x ∈ l) then 0 else fat_get s x).
Proof.
  revert s n c. induction l as [|x l IH]; intros s n c Hv Hl Hn.
  { exists s. split; [|eapply retabled_ext; [by apply retabled_refl|done]]. destruct n; simpl in Hl |- *; by rewrite Hl. }
  destruct n as [|n]; [simpl in Hn; lia|]. pose proof (chain_NoDup _ _ _ Hl) as Hnd.
  destruct Hl as (-> & Hc & Hin & Hl). inversion_clear Hnd as [|? ? Hx Hnd'].
  destruct (set_fat_entry_ok s c 0 Hv Hin ltac:(done)) as (s1 & E1 & R1). pose proof (proj1 R1) as Hv1.
  assert (Hl1 : chain s1 (fat_get s c) l).
  { apply (chain_agree s); [by eapply retabled_geometry| |done]. intros y Hy Hy'. destruct R1 as (_ & _ & T1 & _).
    rewrite T1 by done. apply fn_lookup_insert_ne. by intros ->. }
  destruct (IH s1 n _ Hv1 Hl1 ltac:(simpl in Hn; lia)) as (s2 & E2 & R2). exists s2. split.
  - cbn [free_chain]. rewrite Hc. ustep_by ltac:(by apply next_cluster_eq). ustep_by ltac:(apply E1). done.
  - eapply retabled_ext; [by eapply retabled_trans|]. intros y Hy. cbv beta. destruct R1 as (_ & _ & T1 & _). rewrite T1 by done.
    destruct (decide (y = c)) as [->|Hne].
    + rewrite decide_False, fn_lookup_insert, decide_True by (done || left). done.
    + rewrite fn_lookup_insert_ne by done. destruct (decide (y ∈ l)).
      * by rewrite decide_True by (by right).
      * rewrite decide_False; [done|]. by intros [?|?]%elem_of_cons.
Qed.

(** Clusters whose entries lead back to them: a chain through them has no end. *)
Definition closed s (C : list Z) : Prop := ∀ c, c ∈ C → in_chain c = true ∧ in_table s c ∧ fat_get s c ∈ C.

End Table.
