(* ===== verification/FatDir.v ===== *)
(** * FatDir: directories of the FAT32 server

    A directory is the list of the 32-byte entries on the sectors of its chain;
    [live] are those a reader sees.  The loops over a chain run the same body on
    each of its sectors in order ([scan_chain_eq]); [find_in_dir] is the look-up
    of a name among the live entries. *)

From S2P Require Import Prelude Sectors Fat FatTable.

(** ** Slices *)

Lemma byte_slice l i n k : 0 ≤ i → 0 ≤ k < n → byte (slice l i n) k = byte l (i + k).
Proof.
  intros Hi Hk. unfold byte, slice. rewrite lookup_take_lt, lookup_drop by lia. do 2 f_equal. lia.
Qed.

Lemma slice_slice l i n k m : 0 ≤ i → 0 ≤ k → 0 ≤ m → k + m ≤ n → slice (slice l i n) k m = slice l (i + k) m.
Proof.
  intros Hi Hk Hm Hn. unfold slice. rewrite skipn_firstn_comm, take_take, drop_drop. f_equal; [lia|f_equal; lia].
Qed.

Lemma length_slice l i n : 0 ≤ i → 0 ≤ n → i + n ≤ Z.of_nat (length l) → length (slice l i n) = Z.to_nat n.
Proof. intros Hi Hn Hl. unfold slice. rewrite length_take, length_drop. lia. Qed.

Lemma seqZ_S k n : seqZ k (Z.of_nat (S n)) = k :: seqZ (k + 1) (Z.of_nat n).
Proof. rewrite seqZ_cons by lia. f_equal. f_equal; lia. Qed.

(** ** Entries *)

(** The sixteen entries of a sector. *)
Definition dirents (sec : list Z) : list (list Z) := (λ i, slice sec (32 * i) 32) <$> seqZ 0 16.

(** What the 32 bytes of an entry say.  The first byte is 0 at the end of the
    directory and 0xE5 in a deleted entry; byte 11 has the attributes: 0x0F in a
    part of a long name, bit 3 in a volume label, bit 4 in a directory.  The number
    of the first cluster is in bytes 26, 27, 20 and 21, the size in bytes 28 to 31,
    lowest first. *)
Definition ends (e : list Z) : Prop := byte e 0 = 0.
Definition hidden (e : list Z) : Prop :=
  byte e 0 = 0xE5 ∨ byte e 11 = 0x0F ∨ Z.testbit (byte e 11) 3 = true.
Definition is_directory (e : list Z) : bool := Z.testbit (byte e 11) 4.
Definition first_cluster (e : list Z) : Z :=
  byte e 26 + 2 ^ 8 * byte e 27 + 2 ^ 16 * byte e 20 + 2 ^ 24 * byte e 21.
Definition file_size (e : list Z) : Z :=
  byte e 28 + 2 ^ 8 * byte e 29 + 2 ^ 16 * byte e 30 + 2 ^ 24 * byte e 31.

#[global] Instance ends_dec e : Decision (ends e).
Proof. unfold ends. apply _. Defined.
#[global] Instance hidden_dec e : Decision (hidden e).
Proof. unfold hidden. apply _. Defined.

(** Entries up to the end marker, without deleted entries, long names and labels. *)
Fixpoint live (es : list (list Z)) : list (list Z) :=
  match es with
  | [] => []
  | e :: es' => if decide (ends e) then [] else if decide (hidden e) then live es' else e :: live es'
  end.

(** The first cluster and the size under a name. *)
Definition lookup_name (name : list Z) (es : list (list Z)) : option (Z * Z) :=
  (λ e, (first_cluster e, file_size e)) <$> head (filter (λ e, take 11 e = name) (live es)).

(** The code's tests and sums decide and compute these. *)
Lemma entry_end_ends e : entry_end e 0 = bool_decide (ends e).
Proof. unfold entry_end, ends. case_bool_decide; [by apply Z.eqb_eq|by apply Z.eqb_neq]. Qed.

Lemma entry_skip_hidden e : entry_skip e 0 = bool_decide (hidden e).
Proof.
  unfold entry_skip, hidden. change 0x08 with (2 ^ 3). rewrite land_pow2_testbit, negb_involutive by lia.
  change (0 + 0xB) with 11. apply eq_true_iff_eq. rewrite bool_decide_eq_true, !orb_true_iff, !Z.eqb_eq. tauto.
Qed.

Lemma entry_cluster_first e : entry_cluster e 0 = first_cluster e.
Proof.
  unfold entry_cluster, first_cluster, le16. change (0 + 0x14) with 20. change (0 + 0x1A) with 26.
  change (20 + 1) with 21. change (26 + 1) with 27. lia.
Qed.

Lemma entry_size_file e : entry_size e 0 = file_size e.
Proof. done. Qed.

Lemma live_cons e es : live (e :: es) = if entry_end e 0 then [] else if entry_skip e 0 then live es else e :: live es.
Proof.
  cbn [live]. rewrite entry_end_ends, entry_skip_hidden. do 2 (case_decide; [by rewrite bool_decide_eq_true_2|];
    rewrite bool_decide_eq_false_2 by done). done.
Qed.

(** The same search as the loop makes it: [Some None] at the end marker. *)
Fixpoint scan_dirents (name : list Z) (es : list (list Z)) : option (option (Z * Z)) :=
  match es with
  | [] => None
  | e :: es' =>
    if entry_end e 0 then Some None
    else if entry_skip e 0 then scan_dirents name es'
    else if bool_decide (take 11 e = name) then Some (Some (entry_cluster e 0, entry_size e 0))
    else scan_dirents name es'
  end.

Lemma scan_dirents_lookup name es : default None (scan_dirents name es) = lookup_name name es.
Proof.
  unfold lookup_name. induction es as [|e es IH]; [done|]. rewrite live_cons. cbn [scan_dirents].
  destruct (entry_end e 0); [done|]. destruct (entry_skip e 0); [done|]. rewrite filter_cons.
  case_bool_decide; case_decide; [|done|done|done]. simpl. by rewrite entry_cluster_first, entry_size_file.
Qed.

Lemma scan_dirents_app name es es' :
  scan_dirents name (es ++ es') = match scan_dirents name es with Some r => Some r | None => scan_dirents name es' end.
Proof.
  induction es as [|e es IH]; [done|]. simpl. destruct (entry_end e 0); [done|].
  destruct (entry_skip e 0); [done|]. by case_bool_decide.
Qed.

(** A name that is not there, in entries without an end marker. *)
Lemma scan_dirents_absent name es :
  Forall (λ e, ¬ ends e) es → lookup_name name es = None → scan_dirents name es = None.
Proof.
  rewrite <- scan_dirents_lookup. induction 1 as [|e es He _ IH]; [done|]. cbn [scan_dirents].
  rewrite entry_end_ends, bool_decide_eq_false_2 by done. destruct (entry_skip e 0); [done|]. by case_bool_decide.
Qed.

(** An entry in its sector and on its own. *)
Lemma dirent_eq sec name i :
  0 ≤ i →
  let e := slice sec (32 * i) 32 in
  entry_end e 0 = entry_end sec (32 * i) ∧ entry_skip e 0 = entry_skip sec (32 * i) ∧
  bool_decide (take 11 e = name) = entry_match sec name (32 * i) ∧
  entry_cluster e 0 = entry_cluster sec (32 * i) ∧ entry_size e 0 = entry_size sec (32 * i).
Proof.
  intros Hi e. unfold entry_end, entry_skip, entry_match, entry_cluster, entry_size, le16, le32. subst e.
  rewrite !byte_slice by lia. rewrite !Z.add_0_r, <- !Z.add_assoc. split_and!; [done..| |done|done].
  change (take 11 (slice sec (32 * i) 32)) with (slice (slice sec (32 * i) 32) 0 11).
  by rewrite slice_slice, Z.add_0_r by lia.
Qed.

Section Dir.
Context {D : Type} `{BlockLaws D}.

Implicit Types (s : fat D) (c lba : Z) (l : list Z).

Lemma find_entry_eq n i sec name s :
  0 ≤ i →
  find_entry n (32 * i) sec name false s =
    UOk (scan_dirents name ((λ i, slice sec (32 * i) 32) <$> seqZ i (Z.of_nat n))) s.
Proof.
  revert i. induction n as [|n IH]; intros i Hi; [done|]. rewrite seqZ_S, fmap_cons. cbn [find_entry scan_dirents].
  destruct (dirent_eq sec name i Hi) as (-> & -> & -> & -> & ->).
  replace (32 * i + 32) with (32 * (i + 1)) by lia.
  destruct (entry_end _ _); [done|]. destruct (entry_skip _ _); [apply IH; lia|].
  destruct (entry_match _ _ _); [done|apply IH; lia].
Qed.

(** The same with a null pointer for the size: a match is a fault. *)
Lemma find_entry_null n i sec name s :
  0 ≤ i →
  find_entry n (32 * i) sec name true s =
    match scan_dirents name ((λ i, slice sec (32 * i) 32) <$> seqZ i (Z.of_nat n)) with
    | Some (Some _) => UTrap
    | r => UOk r s
    end.
Proof.
  revert i. induction n as [|n IH]; intros i Hi; [done|]. rewrite seqZ_S, fmap_cons. cbn [find_entry scan_dirents].
  destruct (dirent_eq sec name i Hi) as (-> & -> & -> & -> & ->).
  replace (32 * i + 32) with (32 * (i + 1)) by lia.
  destruct (entry_end _ _); [done|]. destruct (entry_skip _ _); [apply IH; lia|].
  destruct (entry_match _ _ _); [done|apply IH; lia].
Qed.

(** ** Chains *)

(** A cluster whose sectors are on the disk. *)
Definition cluster_in s c : Prop :=
  first_data_sector s + (c - 2) * sectors_per_cluster s + sectors_per_cluster s ≤ 2 ^ 32 ∧
  ∀ k, 0 ≤ k < sectors_per_cluster s → bd_in (disk s) FAT32_DRIVE (first_data_sector s + (c - 2) * sectors_per_cluster s + k).

Definition cluster_lbas s c : list Z :=
  (λ k, first_data_sector s + (c - 2) * sectors_per_cluster s + k) <$> seqZ 0 (sectors_per_cluster s).

(** The sectors of a chain. *)
Definition lbas s l : list Z := l ≫= cluster_lbas s.

(** A body run on sectors until it ends the search. *)
Fixpoint scan_lbas {A} (ls : list Z) (body : Z → list Z → U (fat D) (option A)) s : ures (fat D) (option A) :=
  match ls with
  | [] => UOk None s
  | lba :: ls' =>
    match body lba (sector s lba) s with
    | UOk None _ => scan_lbas ls' body s
    | r => r
    end
  end.

Lemma cluster_to_sector_eq s c :
  vol s → 2 ≤ c < EOC → cluster_in s c →
  cluster_to_sector c s = UOk (first_data_sector s + (c - 2) * sectors_per_cluster s) s.
Proof.
  intros Hv Hc [Hin _]. pose proof (vol_spc s Hv). pose proof (vol_data s Hv). pose proof (vol_res s Hv).
  pose proof (vol_entries s Hv). unfold EOC, entries in *.
  unfold cluster_to_sector, ugets. rewrite (u32_small (c - 2)) by lia. rewrite u32_small by nia. done.
Qed.

Lemma in_chain_range c : in_chain c = true → 2 ≤ c < EOC.
Proof. unfold in_chain, is_eoc. intros Hc. apply andb_prop in Hc as [H1 H2]. apply negb_true_iff in H1. lia. Qed.

(** The body of the loops leaves the state alone unless it ends the search. *)
Definition stays {A} (body : Z → list Z → U (fat D) (option A)) s : Prop :=
  ∀ lba s', body lba (sector s lba) s = UOk None s' → s' = s.

Lemma scan_sectors_eq {A} (body : Z → list Z → U (fat D) (option A)) fail s base n k :
  vol s → stays body s → 0 ≤ k →
  (∀ j, k ≤ j < k + Z.of_nat n → bd_in (disk s) FAT32_DRIVE (base + j) ∧ 0 ≤ base + j < 2 ^ 32) →
  ufor_exit n k (λ k, let lba := u32 (base + k) in
    o ← read_sector FAT32_DRIVE lba;
    match o with
    | None => a ← fail; mret (Some a)
    | Some sec => if in_buf sec 0 512 then body lba sec else utrap
    end) s = scan_lbas ((λ k, base + k) <$> seqZ k (Z.of_nat n)) body s.
Proof.
  intros Hv Hb. revert k. induction n as [|n IH]; intros k Hk Hin; [done|].
  rewrite seqZ_S, fmap_cons. cbn [ufor_exit scan_lbas]. destruct (Hin k ltac:(lia)) as [Hi Hr].
  destruct (sector_ok s (base + k) Hv Hi) as [E [Hl _]].
  unfold mbind at 1, U_bind at 1. cbv zeta. rewrite (u32_small (base + k)) by done.
  rewrite (ubind_Ok _ _ _ _ _ E). unfold in_buf. rewrite Hl. simpl.
  destruct (body (base + k) (sector s (base + k)) s) as [[a|] s'| |] eqn:Eb; [done| |done|done].
  apply Hb in Eb as ->. apply IH; [lia|]. intros j Hj. apply Hin. lia.
Qed.

Lemma scan_cluster_eq {A} (body : Z → list Z → U (fat D) (option A)) fail s c :
  vol s → stays body s → 2 ≤ c < EOC → cluster_in s c →
  scan_cluster c body fail s = scan_lbas (cluster_lbas s c) body s.
Proof.
  intros Hv Hb Hc Hin. pose proof (vol_spc s Hv) as Hs. pose proof (vol_data s Hv). pose proof (vol_res s Hv).
  pose proof (vol_entries s Hv). unfold entries in *.
  unfold scan_cluster. ustep_by ltac:(by apply cluster_to_sector_eq). ustep_by ltac:(done).
  rewrite (scan_sectors_eq body fail s _ (Z.to_nat (sectors_per_cluster s)) 0 Hv Hb); [|done|].
  - unfold cluster_lbas. by rewrite Z2Nat.id by lia.
  - intros j Hj. destruct Hin as [Hin1 Hin2]. split; [apply Hin2; lia|nia].
Qed.

Lemma scan_lbas_app {A} (body : Z → list Z → U (fat D) (option A)) s ls ls' :
  scan_lbas (ls ++ ls') body s = match scan_lbas ls body s with UOk None _ => scan_lbas ls' body s | r => r end.
Proof.
  induction ls as [|lba ls IH]; [done|]. simpl. by destruct (body lba (sector s lba) s) as [[a|] s'| |].
Qed.

Lemma scan_lbas_stays {A} (body : Z → list Z → U (fat D) (option A)) s ls s' :
  scan_lbas ls body s = UOk None s' → s' = s.
Proof.
  induction ls as [|lba ls IH]; simpl; [by intros [= <-]|].
  destruct (body lba (sector s lba) s) as [[a|] s1| |]; done.
Qed.

(** A loop over a chain is a loop over its sectors. *)
Lemma scan_chain_eq {A} (body : Z → list Z → U (fat D) (option A)) fail s n c l :
  vol s → stays body s → chain s c l → Forall (cluster_in s) l → (length l ≤ n)%nat →
  scan_chain n c body fail s = scan_lbas (lbas s l) body s.
Proof.
  intros Hv Hb. revert n c. induction l as [|x l IH]; intros n c Hl Hin Hn.
  { simpl in Hl. destruct n; simpl; by rewrite Hl. }
  destruct n as [|n]; [simpl in Hn; lia|]. destruct Hl as (-> & Hc & Ht & Hl). apply Forall_cons in Hin as [Hi Hin].
  cbn [scan_chain]. rewrite Hc. change (lbas s (c :: l)) with (cluster_lbas s c ++ lbas s l).
  rewrite scan_lbas_app. unfold mbind at 1, U_bind at 1.
  rewrite (scan_cluster_eq body fail s c Hv Hb (in_chain_range c Hc) Hi).
  destruct (scan_lbas (cluster_lbas s c) body s) as [[a|] s'| |] eqn:E; [done| |done|done].
  apply scan_lbas_stays in E as ->. ustep_by ltac:(by apply next_cluster_eq). apply IH; [done..|simpl in Hn; lia].
Qed.

(** The entries of a directory. *)
Definition dir_entries s l : list (list Z) := lbas s l ≫= λ lba, dirents (sector s lba).

Lemma find_sector_eq sec name s : find_entry 16 0 sec name false s = UOk (scan_dirents name (dirents sec)) s.
Proof. exact (find_entry_eq 16 0 sec name s (Z.le_refl 0)). Qed.

Lemma find_stays s name : stays (λ _ sec, find_entry 16 0 sec name false) s.
Proof. intros lba s' E. exact (proj2 (UOk_inj _ _ _ _ (eq_trans (eq_sym E) (find_sector_eq (sector s lba) name s)))). Qed.

Lemma scan_lbas_find s name ls :
  scan_lbas ls (λ _ sec, find_entry 16 0 sec name false) s =
    UOk (scan_dirents name (ls ≫= λ lba, dirents (sector s lba))) s.
Proof.
  induction ls as [|lba ls IH]; [done|]. cbn [scan_lbas]. rewrite bind_cons, scan_dirents_app.
  rewrite find_sector_eq. by destruct (scan_dirents name (dirents (sector s lba))).
Qed.

Lemma find_in_dir_eq s fuel c l name :
  vol s → chain s c l → Forall (cluster_in s) l → (length l ≤ fuel)%nat →
  find_in_dir fuel c name false s = UOk (lookup_name name (dir_entries s l)) s.
Proof.
  intros Hv Hl Hin Hn. unfold find_in_dir.
  ustep_by ltac:(rewrite (scan_chain_eq _ _ s fuel c l); [apply scan_lbas_find|done|apply find_stays|done..]).
  unfold mret, U_ret. by rewrite scan_dirents_lookup.
Qed.

(** With a null pointer for the size the look-up returns only when it fails. *)
Lemma find_sector_null sec name s :
  find_entry 16 0 sec name true s = match scan_dirents name (dirents sec) with Some (Some _) => UTrap | r => UOk r s end.
Proof. exact (find_entry_null 16 0 sec name s (Z.le_refl 0)). Qed.

Lemma find_null_stays s name : stays (λ _ sec, find_entry 16 0 sec name true) s.
Proof.
  intros lba s' E. pose proof (eq_trans (eq_sym E) (find_sector_null (sector s lba) name s)) as E'.
  destruct (scan_dirents name _) as [[p|]|]; [done|..]; by apply UOk_inj in E' as [_ <-].
Qed.

Lemma find_in_dir_null s fuel c l name :
  vol s → chain s c l → Forall (cluster_in s) l → (length l ≤ fuel)%nat →
  find_in_dir fuel c name true s =
    match lookup_name name (dir_entries s l) with Some _ => UTrap | None => UOk None s end.
Proof.
  intros Hv Hl Hin Hn. unfold find_in_dir, mbind, U_bind.
  rewrite (scan_chain_eq _ _ s fuel c l Hv (find_null_stays s name) Hl Hin Hn), <- scan_dirents_lookup. unfold dir_entries.
  generalize (lbas s l). intros ls. induction ls as [|lba ls IH]; [done|].
  cbn [scan_lbas]. rewrite bind_cons, scan_dirents_app, find_sector_null.
  by destruct (scan_dirents name (dirents (sector s lba))) as [[p|]|].
Qed.

(** A directory whose chain has no end: the search for a name it does not hold
    does not return. *)
Lemma scan_closed {A} (body : Z → list Z → U (fat D) (option A)) fail s C n c :
  vol s → stays body s → closed s C → (∀ x, x ∈ C → cluster_in s x) →
  (∀ x, x ∈ C → scan_lbas (cluster_lbas s x) body s = UOk None s) → c ∈ C →
  scan_chain n c body fail s = UFuel.
Proof.
  intros Hv Hb HC Hin Hno. revert c. induction n as [|n IH]; intros c Hc; destruct (HC c Hc) as (Hch & Ht & Hnext);
    cbn [scan_chain]; rewrite Hch; [done|].
  unfold mbind at 1, U_bind at 1. rewrite (scan_cluster_eq body fail s c Hv Hb (in_chain_range c Hch) (Hin c Hc)), (Hno c Hc).
  etrans; [eapply ubind_Ok; by apply next_cluster_eq|]. by apply IH.
Qed.

(** ** Paths *)

(** The chain [l] from [c] on is on the disk and has at most [n] clusters. *)
Definition on_disk (n : nat) s c l : Prop := chain s c l ∧ Forall (cluster_in s) l ∧ (length l ≤ n)%nat.

(** What a path names: an entry of the root directory, or of a directory of it. *)
Inductive names (n : nat) s (path : list Z) : option (Z * Z) → Prop :=
| names_root l :
    split_path path = None → on_disk n s (root_cluster s) l →
    names n s path (lookup_name (to_8_3 path) (dir_entries s l))
| names_no_dir d f l :
    split_path path = Some (d, f) → (length d ≤ 63)%nat → on_disk n s (root_cluster s) l →
    lookup_name (to_8_3 d) (dir_entries s l) = None →
    names n s path None
| names_dir d f l c size dl :
    split_path path = Some (d, f) → (length d ≤ 63)%nat → on_disk n s (root_cluster s) l →
    lookup_name (to_8_3 d) (dir_entries s l) = Some (c, size) → on_disk n s c dl →
    names n s path (lookup_name (to_8_3 f) (dir_entries s dl)).

Lemma resolve_path_eq s n path r : vol s → names n s path r → resolve_path n path s = UOk r s.
Proof.
  intros Hv Hp. unfold resolve_path. ustep_by ltac:(done).
  destruct Hp as [l -> (Hl & Hi & Hn)|d f l -> Hd (Hl & Hi & Hn) E|d f l c z dl -> Hd (Hl & Hi & Hn) E (Hl' & Hi' & Hn')].
  - by apply find_in_dir_eq.
  - replace (63 <? length d)%nat with false by (symmetry; apply Nat.ltb_ge; lia).
    ustep_by ltac:(by apply find_in_dir_eq). by rewrite E.
  - replace (63 <? length d)%nat with false by (symmetry; apply Nat.ltb_ge; lia).
    ustep_by ltac:(by apply find_in_dir_eq). rewrite E. by apply find_in_dir_eq.
Qed.

End Dir.
