(* ===== verification/FatRead.v ===== *)
(** * FatRead: files of the FAT32 server, read and loaded

    The contents of a file are the sectors of its chain.  A read request is
    answered by messages that carry the contents in order ([delivers]); a spawn
    request copies them to [file_buf]. *)

From S2P Require Import Prelude Sectors Fat FatServer FatTable FatDir.

(** The data of a message: the offset in four bytes, lowest first, the number of
    bytes, and the bytes. *)
Definition payload (off : Z) (bs : list Z) : list Z := Z_to_little_endian 4 8 off ++ Z.of_nat (length bs) :: bs.

Lemma chunk_msg_payload off bs :
  (length bs ≤ 255)%nat → chunk_msg off (Z.of_nat (length bs)) bs = payload off bs.
Proof.
  intros Hl. unfold chunk_msg, payload. rewrite (u8_small (Z.of_nat (length bs))) by lia.
  change (Z_to_little_endian 4 8 off) with
    [Z.land off 0xFF; Z.land (Z.shiftr off 8) 0xFF; Z.land (Z.shiftr (Z.shiftr off 8) 8) 0xFF;
     Z.land (Z.shiftr (Z.shiftr (Z.shiftr off 8) 8) 8) 0xFF].
  by rewrite !Z.shiftr_shiftr.
Qed.

(** Messages to [pid], first one first, that carry [data] from offset [off] on in
    pieces of at most 59 bytes, each with its offset and length. *)
Fixpoint delivers (pid off : Z) (msgs : list (Z * Z * list Z)) (data : list Z) : Prop :=
  match msgs with
  | [] => data = []
  | m :: msgs' =>
    ∃ bs rest, data = bs ++ rest ∧ 0 < Z.of_nat (length bs) ≤ 59 ∧
      m = (pid, 100, payload off bs) ∧ delivers pid (off + Z.of_nat (length bs)) msgs' rest
  end.

Lemma delivers_app pid off m1 d1 m2 d2 :
  delivers pid off m1 d1 → delivers pid (off + Z.of_nat (length d1)) m2 d2 → delivers pid off (m1 ++ m2) (d1 ++ d2).
Proof.
  revert off d1. induction m1 as [|m m1 IH]; intros off d1; simpl.
  - intros ->. by rewrite Z.add_0_r.
  - intros (bs & rest & -> & Hb & -> & Hd) H2. exists bs, (rest ++ d2). split_and!; [by rewrite app_assoc|lia|lia|done|].
    apply IH; [done|]. rewrite length_app in H2. by replace (off + _ + _) with (off + Z.of_nat (length bs + length rest)) by lia.
Qed.

Lemma slice_app l i n m : 0 ≤ i → 0 ≤ n → 0 ≤ m → slice l i (n + m) = slice l i n ++ slice l (i + n) m.
Proof.
  intros Hi Hn Hm. unfold slice. rewrite Z2Nat.inj_add by done.
  rewrite <- (take_drop (Z.to_nat n) (take (Z.to_nat n + Z.to_nat m) (drop (Z.to_nat i) l))) at 1.
  rewrite take_take, skipn_firstn_comm, drop_drop. f_equal; [f_equal; lia|f_equal; [lia|f_equal; lia]].
Qed.

Section Read.
Context {D : Type} `{BlockLaws D}.

Implicit Types (s : fat D) (c lba : Z) (l : list Z).

Definition file_bytes s l : list Z := lbas s l ≫= sector s.

(** After sending [msgs], first one first. *)
Definition said s (msgs : list (Z * Z * list Z)) : fat D := set_sent (reverse msgs ++ sent s) s.

Lemma said_app s m1 m2 : said (said s m1) m2 = said s (m1 ++ m2).
Proof. unfold said. destruct s. simpl. by rewrite reverse_app, app_assoc. Qed.

Lemma said_vol s msgs : vol s → vol (said s msgs).
Proof. intros []. by split. Qed.

Lemma on_disk_said n s msgs c l : on_disk n s c l → on_disk n (said s msgs) c l.
Proof. intros (Hc & Hi & Hn). split_and!; [by apply (chain_same s)|done..]. Qed.

Lemma names_said n s msgs path r : names n s path r → names n (said s msgs) path r.
Proof.
  destruct 1 as [l|d f l|d f l c z dl].
  - apply (names_root n (said s msgs) path l); [done|by apply on_disk_said].
  - by apply (names_no_dir n (said s msgs) path d f l); [..|apply on_disk_said|].
  - by apply (names_dir n (said s msgs) path d f l c z dl); [..|apply on_disk_said| |apply on_disk_said].
Qed.

(** One sector: [off] has [sec_off] as its place in the sector. *)
Lemma send_chunks_ok n pid sec off end_ s :
  bytes_per_sector s = 512 → length sec = 512%nat → 0 ≤ off ≤ end_ → off mod 512 + (end_ - off) ≤ 512 →
  end_ - off ≤ Z.of_nat n →
  ∃ msgs, send_chunks n pid sec off end_ s = UOk end_ (said s msgs) ∧ delivers pid off msgs (slice sec (off mod 512) (end_ - off)).
Proof.
  intros Hbps Hsec. revert off s Hbps. induction n as [|n IH]; intros off s Hbps Hoff Hend Hn.
  { replace off with end_ by lia. exists []. cbn [send_chunks]. rewrite Z.ltb_irrefl, Z.sub_diag. split; [by destruct s|done]. }
  cbn [send_chunks]. destruct (Z.ltb_spec off end_) as [Hlt|Hge]; cycle 1.
  { replace off with end_ by lia. exists []. rewrite Z.sub_diag. split; [by destruct s|done]. }
  pose proof (Z.mod_pos_bound off 512 ltac:(lia)) as Hm.
  set (chunk := if 59 <? end_ - off then 59 else end_ - off).
  assert (Hc : 0 < chunk ≤ 59 ∧ chunk ≤ end_ - off) by (subst chunk; destruct (Z.ltb_spec 59 (end_ - off)); lia).
  assert (Hlen : length (slice sec (off mod 512) chunk) = Z.to_nat chunk) by (apply length_slice; lia).
  assert (Hm' : off + chunk < end_ → (off + chunk) mod 512 = off mod 512 + chunk).
  { intros Hl. rewrite <- Zplus_mod_idemp_l. apply Z.mod_small. lia. }
  set (m := (pid, 100, chunk_msg off chunk (slice sec (off mod 512) chunk))).
  assert (IH' : ∃ msgs, send_chunks n pid sec (off + chunk) end_ (said s [m]) = UOk end_ (said (said s [m]) msgs) ∧
    delivers pid (off + chunk) msgs (slice sec (off mod 512 + chunk) (end_ - (off + chunk)))).
  { destruct (decide (off + chunk < end_)) as [Hl|Hl].
    - rewrite <- Hm' by done. apply IH; [done|lia| |lia]. rewrite Hm' by done. lia.
    - replace (off + chunk) with end_ by lia. exists []. rewrite Z.sub_diag. split; [|done].
      destruct n; cbn [send_chunks]; by rewrite Z.ltb_irrefl. }
  destruct IH' as (msgs & E & Hd). exists (m :: msgs). split.
  - etrans; [|etrans; [apply E|by rewrite said_app]]. ustep_by ltac:(done). rewrite Hbps. cbn [Z.eqb].
    unfold rd_slice, in_buf. rewrite Hsec. replace (_ && _) with true by (symmetry; apply andb_true_intro; split; apply Z.leb_le; lia).
    done.
  - exists (slice sec (off mod 512) chunk), (slice sec (off mod 512 + chunk) (end_ - (off + chunk))).
    unfold m. rewrite <- chunk_msg_payload by lia. rewrite Hlen, Z2Nat.id by lia. split_and!; [|lia|lia|done|done].
    rewrite <- slice_app by lia. f_equal. lia.
Qed.

(** The sectors [ls] of the volume can be read. *)
Definition readable s ls : Prop := Forall (λ lba, bd_in (disk s) FAT32_DRIVE lba ∧ 0 ≤ lba < 2 ^ 32) ls.

Lemma length_sectors s ls : vol s → readable s ls → length (ls ≫= sector s) = (512 * length ls)%nat.
Proof.
  intros Hv. induction 1 as [|lba ls [Hi _] _ IH]; [done|]. rewrite bind_cons, length_app, IH.
  destruct (sector_ok s lba Hv Hi) as [_ [-> _]]. simpl. lia.
Qed.

Lemma cluster_readable s c : vol s → 2 ≤ c → cluster_in s c → readable s (cluster_lbas s c).
Proof.
  intros Hv Hc [H1 H2]. pose proof (vol_spc s Hv). pose proof (vol_data s Hv). pose proof (vol_res s Hv).
  pose proof (vol_entries s Hv). unfold entries in *.
  apply Forall_fmap, Forall_seqZ. intros k Hk. simpl. split; [apply H2; lia|nia].
Qed.

(** The offset after a sector, or the end of the file. *)
Lemma sector_end off size : 0 ≤ off < size → off mod 512 = 0 → size ≤ 2 ^ 32 - 512 →
  (let e := u32 (off + 512) in if size <? e then size else e) = Z.min size (off + 512).
Proof. intros Ho Hm Hs. cbv zeta. rewrite u32_small by lia. destruct (Z.ltb_spec size (off + 512)); lia. Qed.

Lemma read_sectors_ok n k base pid off size s :
  vol s → readable s ((λ j, base + j) <$> seqZ k (Z.of_nat n)) →
  0 ≤ off ≤ size → size ≤ 2 ^ 32 - 512 → (off mod 512 = 0 ∨ off = size) →
  ∃ msgs, read_sectors n k base pid off size s = UOk (Some (Z.min size (off + 512 * Z.of_nat n))) (said s msgs) ∧
    delivers pid off msgs (take (Z.to_nat (size - off)) (((λ j, base + j) <$> seqZ k (Z.of_nat n)) ≫= sector s)).
Proof.
  revert k off s. induction n as [|n IH]; intros k off s Hv Hr Hoff Hsz Hal.
  { exists []. split; [|apply take_nil]. replace (Z.min size (off + 512 * Z.of_nat 0)) with off by lia. by destruct s. }
  rewrite seqZ_S, fmap_cons in *. apply Forall_cons in Hr as [[Hi Hrange] Hr]. rewrite bind_cons.
  cbn [read_sectors]. destruct (Z.ltb_spec off size) as [Hlt|Hge]; cycle 1.
  { exists []. replace (size - off) with 0 by lia. split; [|done]. replace (Z.min _ _) with off by lia. by destruct s. }
  destruct Hal as [Hal|?]; [|lia]. destruct (sector_ok s _ Hv Hi) as [E [Hl Hb]].
  assert (∃ e, e = Z.min size (off + 512)) as [e He] by eauto.
  destruct (send_chunks_ok (Z.to_nat (e - off)) pid (sector s (base + k)) off e s (vol_bps s Hv) Hl) as (m1 & E1 & D1);
    [lia|rewrite Hal; lia|lia|].
  destruct (IH (k + 1) e (said s m1)) as (m2 & E2 & D2); [by apply said_vol|done|lia|done| |].
  { destruct (decide (off + 512 ≤ size)); [left|right; lia]. rewrite He, Z.min_r by lia.
    rewrite <- Zplus_mod_idemp_l, Hal. done. }
  exists (m1 ++ m2). split.
  - rewrite (u32_small (base + k)) by done. ustep_by ltac:(apply E). ustep_by ltac:(done). rewrite (vol_bps s Hv).
    pose proof (sector_end off size ltac:(lia) Hal Hsz) as Hend. cbv zeta in Hend |- *. rewrite Hend, <- He.
    ustep_by ltac:(apply E1). rewrite E2, said_app. do 2 f_equal. lia.
  - rewrite Hal in D1. replace (size - off) with ((e - off) + (size - e)) by lia.
    rewrite Z2Nat.inj_add, take_app by lia.
    assert (Hs : slice (sector s (base + k)) 0 (e - off) = take (Z.to_nat (e - off) + Z.to_nat (size - e)) (sector s (base + k))).
    { unfold slice. rewrite drop_0. destruct (decide (off + 512 ≤ size)).
      - rewrite !take_ge; [done|lia..].
      - f_equal. lia. }
    rewrite <- Hs. apply delivers_app; [done|]. rewrite length_slice by lia.
    replace (off + Z.of_nat (Z.to_nat (e - off))) with e by lia. rewrite Hl.
    destruct (decide (off + 512 ≤ size)).
    + by replace (_ + _ - 512)%nat with (Z.to_nat (size - e)) by lia.
    + replace (size - e) with 0 in D2 |- * by lia. replace (_ + _ - 512)%nat with 0%nat by lia. done.
Qed.

(** The whole file, or as much of it as its chain holds. *)
Lemma read_loop_ok n c l pid off size s :
  vol s → on_disk n s c l → 0 ≤ off ≤ size → size ≤ 2 ^ 32 - 512 → (off mod 512 = 0 ∨ off = size) →
  ∃ msgs, read_loop n c pid off size s = UOk true (said s msgs) ∧
    delivers pid off msgs (take (Z.to_nat (size - off)) (file_bytes s l)).
Proof.
  revert c l off s. induction n as [|n IH]; intros c l off s Hv (Hc & Hi & Hn) Hoff Hsz Hal.
  { destruct l; [|simpl in Hn; lia]. exists []. cbn [read_loop]. rewrite Hc. split; [by destruct s|apply take_nil]. }
  cbn [read_loop]. destruct l as [|x l].
  { exists []. rewrite Hc. split; [by destruct s|apply take_nil]. }
  destruct Hc as (-> & Hch & Ht & Hc). rewrite Hch. apply Forall_cons in Hi as [Hx Hi].
  destruct (Z.ltb_spec off size) as [Hlt|Hge]; simpl andb; cycle 1.
  { exists []. replace (size - off) with 0 by lia. by destruct s. }
  pose proof (in_chain_range c Hch) as Hr. pose proof (vol_spc s Hv) as Hspc.
  pose proof (cluster_readable s c Hv ltac:(lia) Hx) as Hrd. unfold cluster_lbas in Hrd.
  set (base := first_data_sector s + (c - 2) * sectors_per_cluster s) in *.
  destruct (read_sectors_ok (Z.to_nat (sectors_per_cluster s)) 0 base pid off size s) as (m1 & E1 & D1);
    [done|by rewrite Z2Nat.id by lia|lia|done|done|]. rewrite Z2Nat.id in D1, E1 by lia.
  set (e := Z.min size (off + 512 * sectors_per_cluster s)) in *.
  change ((λ j, base + j) <$> seqZ 0 (sectors_per_cluster s)) with (cluster_lbas s c) in D1.
  destruct (IH (fat_get s c) l e (said s m1)) as (m2 & E2 & D2);
    [by apply said_vol|apply on_disk_said; split_and!; [done|done|simpl in Hn; lia]|lia|done| |].
  { subst e. destruct Hal as [Hal|?]; [|lia]. destruct (decide (off + 512 * sectors_per_cluster s ≤ size)); [left|right; lia].
    rewrite Z.min_r by lia. rewrite (Z.mul_comm 512), Z_mod_plus_full. done. }
  exists (m1 ++ m2). split.
  - ustep_by ltac:(by apply cluster_to_sector_eq). ustep_by ltac:(done). ustep_by ltac:(apply E1).
    ustep_by ltac:(apply next_cluster_eq; [by apply said_vol|done]). etrans; [apply E2|by rewrite said_app].
  - change (file_bytes s (c :: l)) with ((cluster_lbas s c ++ lbas s l) ≫= sector s).
    rewrite bind_app. pose proof (length_sectors s _ Hv (cluster_readable s c Hv ltac:(lia) Hx)) as Hlen.
    assert (Hn' : length (cluster_lbas s c) = Z.to_nat (sectors_per_cluster s)) by (unfold cluster_lbas; by rewrite length_fmap, length_seqZ).
    rewrite take_app, Hlen, Hn'. apply delivers_app; [done|]. rewrite length_take, Hlen, Hn'.
    destruct (decide (off + 512 * sectors_per_cluster s ≤ size)).
    + replace (off + _) with e by lia. by replace (_ - _)%nat with (Z.to_nat (size - e)) by lia.
    + replace (size - e) with 0 in D2 by lia. replace (off + _) with e by lia. by replace (_ - _)%nat with 0%nat by lia.
Qed.

Lemma handle_read_ok s n r c size l :
  vol s → names n s (rq_path r) (Some (c, size)) → on_disk n s c l → 0 ≤ size ≤ 2 ^ 32 - 512 →
  ∃ msgs, handle_read n r s = UOk tt (said s (msgs ++ [(rq_sender r, 101, [])])) ∧
    delivers (rq_sender r) 0 msgs (take (Z.to_nat size) (file_bytes s l)).
Proof.
  intros Hv Hp Hd Hs. destruct (read_loop_ok n c l (rq_sender r) 0 size s) as (msgs & E & Hm); [done..|lia|lia|by left|].
  exists msgs. rewrite Z.sub_0_r in Hm. split; [|done]. unfold handle_read.
  ustep_by ltac:(by apply resolve_path_eq). ustep_by ltac:(apply E). by rewrite <- said_app.
Qed.

(** ** Loading *)

Lemma put_slice_prefix l i bs :
  0 ≤ i → i + Z.of_nat (length bs) ≤ Z.of_nat (length l) →
  take (Z.to_nat (i + Z.of_nat (length bs))) (put_slice l i bs) = take (Z.to_nat i) l ++ bs ∧
  length (put_slice l i bs) = length l.
Proof.
  intros Hi Hl. unfold put_slice. split.
  - rewrite app_assoc, take_app_le by (rewrite length_app, length_take; lia).
    apply take_ge. rewrite length_app, length_take. lia.
  - rewrite !length_app, length_take, length_drop. lia.
Qed.

(** [b] after [b0]: [j] more sectors of [data] follow the first [off] bytes. *)
Definition loaded (b0 b data : list Z) (off : Z) (j : nat) : Prop :=
  length b = length b0 ∧
  take (Z.to_nat (off + 512 * Z.of_nat j)) b = take (Z.to_nat off) b0 ++ take (512 * j) data.

Lemma loaded_app b0 b1 b2 d1 d2 off j1 j2 :
  0 ≤ off → length d1 = (512 * j1)%nat → loaded b0 b1 d1 off j1 → loaded b1 b2 d2 (off + 512 * Z.of_nat j1) j2 →
  loaded b0 b2 (d1 ++ d2) off (j1 + j2).
Proof.
  intros Ho Hd (L1 & T1) (L2 & T2). split; [congruence|].
  replace (off + 512 * Z.of_nat (j1 + j2)) with (off + 512 * Z.of_nat j1 + 512 * Z.of_nat j2) by lia.
  rewrite T2, T1, take_app, (take_ge d1 (512 * j1)), (take_ge d1), app_assoc by lia. do 2 f_equal. lia.
Qed.

Lemma load_sectors_ok n k base off size s :
  vol s → readable s ((λ j, base + j) <$> seqZ k (Z.of_nat n)) → Z.of_nat (length (file_buf s)) = 32768 →
  0 ≤ off → off mod 512 = 0 → size ≤ 32768 →
  ∃ j b, (j ≤ n)%nat ∧ (size ≤ off + 512 * Z.of_nat j ∨ j = n) ∧
    load_sectors n k base off size s = UOk (Some (off + 512 * Z.of_nat j)) (set_file_buf b s) ∧
    loaded (file_buf s) b (((λ j, base + j) <$> seqZ k (Z.of_nat n)) ≫= sector s) off j.
Proof.
  revert k off s. induction n as [|n IH]; intros k off s Hv Hr Hb Ho Hal Hsz.
  { exists 0%nat, (file_buf s). split_and!; [lia|by right| |].
    - cbn [load_sectors]. rewrite Z.add_0_r. by destruct s.
    - split; [done|]. rewrite Z.add_0_r. by rewrite app_nil_r. }
  rewrite seqZ_S, fmap_cons in *. apply Forall_cons in Hr as [[Hi Hrange] Hr]. rewrite bind_cons.
  cbn [load_sectors]. destruct (Z.ltb_spec off size) as [Hlt|Hge]; cycle 1.
  { exists 0%nat, (file_buf s). split_and!; [lia|left; lia| |].
    - rewrite Z.add_0_r. by destruct s.
    - split; [done|]. rewrite Z.add_0_r. by rewrite app_nil_r. }
  destruct (sector_ok s _ Hv Hi) as [E [Hl _]].
  assert (Hfit : off + 512 ≤ 32768).
  { pose proof (Z.div_mod off 512 ltac:(lia)). pose proof (Z.div_le_upper_bound off 512 63). lia. }
  destruct (put_slice_prefix (file_buf s) off (sector s (base + k)) Ho) as [Hp Hlen]; [rewrite Hl; lia|].
  set (b1 := put_slice (file_buf s) off (sector s (base + k))) in *.
  destruct (IH (k + 1) (off + 512) (set_file_buf b1 s)) as (j & b & Hj & Hd & E2 & L2);
    [by destruct Hv; split|done|simpl; lia|lia| |done|].
  { rewrite <- Zplus_mod_idemp_l, Hal. done. }
  exists (S j), b. split_and!; [lia|destruct Hd; [left; lia|right; lia]| |].
  - rewrite (u32_small (base + k)) by done. ustep_by ltac:(apply E). ustep_by ltac:(done).
    unfold wr_slice, in_buf. rewrite Hl, Hb. replace (_ && _) with true by (symmetry; apply andb_true_intro; split; apply Z.leb_le; lia).
    ustep_by ltac:(done). ustep_by ltac:(done). ustep_by ltac:(done). simpl bytes_per_sector. rewrite (vol_bps s Hv).
    rewrite (u32_small (off + 512)) by lia. fold b1. etrans; [apply E2|]. do 2 f_equal. lia.
  - apply (loaded_app _ b1 _ _ _ off 1 j Ho); [lia| |done]. split; [done|]. rewrite Hl in Hp.
    change (512 * Z.of_nat 1) with (Z.of_nat 512). rewrite Hp. f_equal. by rewrite take_ge by lia.
Qed.

Lemma load_loop_done n c off size s : size ≤ off → load_loop n c off size s = UOk (Some off) s.
Proof. intros Ho. destruct n; cbn [load_loop]; by rewrite (proj2 (Z.ltb_ge off size)), andb_false_r by done. Qed.

Lemma file_bytes_cons s c l : file_bytes s (c :: l) = (cluster_lbas s c ≫= sector s) ++ file_bytes s l.
Proof. apply bind_app. Qed.

Lemma on_disk_buf n s b c l : on_disk n s c l → on_disk n (set_file_buf b s) c l.
Proof. intros (Hc & Hi & Hn). split_and!; [by apply (chain_same s)|done..]. Qed.

Lemma load_loop_ok n c l off size s :
  vol s → on_disk n s c l → Z.of_nat (length (file_buf s)) = 32768 → 0 ≤ off → off mod 512 = 0 → size ≤ 32768 →
  ∃ j b, (512 * j ≤ length (file_bytes s l))%nat ∧ (size ≤ off + 512 * Z.of_nat j ∨ (512 * j)%nat = length (file_bytes s l)) ∧
    load_loop n c off size s = UOk (Some (off + 512 * Z.of_nat j)) (set_file_buf b s) ∧
    loaded (file_buf s) b (file_bytes s l) off j.
Proof.
  revert c l off s. induction n as [|n IH]; intros c l off s Hv (Hc & Hi & Hn) Hb Ho Hal Hsz; cbn [load_loop].
  { destruct l; [|simpl in Hn; lia]. exists 0%nat, (file_buf s). rewrite Hc, Z.add_0_r. split_and!; [lia|by right|by destruct s|].
    split; [done|]. rewrite Z.add_0_r. by rewrite app_nil_r. }
  destruct l as [|x l].
  { exists 0%nat, (file_buf s). rewrite Hc, Z.add_0_r. split_and!; [lia|by right|by destruct s|].
    split; [done|]. rewrite Z.add_0_r. by rewrite app_nil_r. }
  destruct Hc as (-> & Hch & Ht & Hc). rewrite Hch. apply Forall_cons in Hi as [Hx Hi].
  destruct (Z.ltb_spec off size) as [Hlt|Hge]; simpl andb; cycle 1.
  { exists 0%nat, (file_buf s). rewrite Z.add_0_r. split_and!; [lia|left; lia|by destruct s|].
    split; [done|]. rewrite Z.add_0_r. by rewrite app_nil_r. }
  pose proof (in_chain_range c Hch) as Hr. pose proof (vol_spc s Hv) as Hspc.
  pose proof (cluster_readable s c Hv ltac:(lia) Hx) as Hrd. pose proof (length_sectors s _ Hv Hrd) as Hlen.
  unfold cluster_lbas in Hrd, Hlen. set (base := first_data_sector s + (c - 2) * sectors_per_cluster s) in *.
  destruct (load_sectors_ok (Z.to_nat (sectors_per_cluster s)) 0 base off size s) as (j1 & b1 & Hj1 & Hd1 & E1 & L1);
    [done|by rewrite Z2Nat.id by lia|done..|]. rewrite Z2Nat.id in L1 by lia. rewrite length_fmap, length_seqZ in Hlen.
  assert (E : ∀ r, load_loop n (fat_get s c) (off + 512 * Z.of_nat j1) size (set_file_buf b1 s) = r →
    (sbase ← cluster_to_sector c; spc ← ugets sectors_per_cluster; o ← load_sectors (Z.to_nat spc) 0 sbase off size;
     match o with None => mret None | Some off => next ← next_cluster c; load_loop n next off size end) s = r).
  { intros r E2. ustep_by ltac:(by apply cluster_to_sector_eq). ustep_by ltac:(done). ustep_by ltac:(apply E1).
    ustep_by ltac:(apply next_cluster_eq; [by destruct Hv; split|done]). exact E2. }
  rewrite file_bytes_cons, length_app. unfold cluster_lbas. fold base. rewrite Hlen.
  destruct (decide (size ≤ off + 512 * Z.of_nat j1)) as [Hfull|Hmore].
  - exists j1, b1. split_and!; [lia|by left| |].
    + apply E, load_loop_done. lia.
    + destruct L1 as [L1 T1]. split; [done|]. by rewrite take_app_le, T1 by (rewrite Hlen; lia).
  - destruct Hd1 as [Hd1|Hd1]; [lia|subst j1].
    destruct (IH (fat_get s c) l (off + 512 * Z.of_nat (Z.to_nat (sectors_per_cluster s))) (set_file_buf b1 s))
      as (j2 & b2 & Hj2 & Hd2 & E2 & L2); [by destruct Hv; split|by apply on_disk_buf; split_and!; [..|simpl in Hn; lia]| | | |done|].
    + destruct L1 as [L1 _]. simpl. lia.
    + lia.
    + by rewrite (Z.mul_comm 512), Z_mod_plus_full.
    + change (file_bytes (set_file_buf b1 s) l) with (file_bytes s l) in *.
      exists (Z.to_nat (sectors_per_cluster s) + j2)%nat, b2. split_and!; [lia|destruct Hd2; [left|right]; lia| |].
      * apply E. etrans; [apply E2|]. unfold set_file_buf. simpl. do 2 f_equal. lia.
      * by eapply loaded_app.
Qed.

End Read.
