(* ===== verification/FatWrite.v ===== *)
(** * FatWrite: new files and their directory entries

    What a write request for a new file does to the disk: a cluster, its data and
    a directory entry. *)

From stdpp Require Import functions.
From S2P Require Import Prelude Serial Sectors Fat FatServer FatTable FatDir FatRead.

#[local] Open Scope Z_scope.

(** ** Names *)

(** [l] cut or filled with spaces to [n] bytes. *)
Definition pad (n : nat) (l : list Z) : list Z := take n (l ++ replicate n 32).

(** The parts of a file name before and after its first dot. *)
Definition base_ext (name : list Z) : list Z * list Z :=
  match index_of 46 name with
  | None => (name, [])
  | Some d => (take d name, drop (S d) name)
  end.

(** The 11 bytes under which a name is stored. *)
Definition short_name (name : list Z) : list Z :=
  pad 8 (upper <$> (base_ext name).1) ++ pad 3 (upper <$> (base_ext name).2).

(** The capital of a small letter; any other character is its own. *)
Definition capital (c : Z) : Z :=
  match list_find (c =.) (chars "abcdefghijklmnopqrstuvwxyz") with
  | Some (i, _) => default c (chars "ABCDEFGHIJKLMNOPQRSTUVWXYZ" !! i)
  | None => c
  end.

Lemma upper_capital c : upper c = capital c.
Proof.
  unfold upper. destruct (decide (97 ≤ c ≤ 122)) as [Hc|Hc].
  - assert (Hs : (λ c, bool_decide (capital c = c - 32)) <$> seqZ 97 26 = replicate 26 true) by reflexivity.
    replace ((97 <=? c) && (c <=? 122)) with true by lia.
    assert (Hi : seqZ 97 26 !! Z.to_nat (c - 97) = Some c) by (apply lookup_seqZ; lia).
    apply (f_equal (.!! Z.to_nat (c - 97))) in Hs. rewrite list_lookup_fmap, Hi in Hs.
    rewrite lookup_replicate_2 in Hs by lia. injection Hs as Hs. by apply bool_decide_eq_true in Hs.
  - replace ((97 <=? c) && (c <=? 122)) with false by lia. unfold capital.
    rewrite (proj2 (list_find_None _ _)); [done|]. apply Forall_forall. intros x Hx <-. apply Hc.
    assert (Hall : Forall (λ x, 97 ≤ x ≤ 122) (chars "abcdefghijklmnopqrstuvwxyz")) by by_decide.
    by apply (proj1 (Forall_forall _ _) Hall).
Qed.

Lemma base_ext_spec base ext : 46 ∉ base → base_ext base = (base, []) ∧ base_ext (base ++ 46 :: ext) = (base, ext).
Proof.
  intros Hb. unfold base_ext. assert (Hn : index_of 46 base = None ∧ index_of 46 (base ++ 46 :: ext) = Some (length base)).
  { induction base as [|b base IH]; [done|]. apply not_elem_of_cons in Hb as [Hne Hb]. destruct (IH Hb) as [E1 E2].
    cbn [index_of app length]. rewrite (proj2 (Z.eqb_neq b 46)) by congruence. by rewrite E1, E2. }
  destruct Hn as [-> ->]. split; [done|]. rewrite take_app_length. f_equal.
  by rewrite (drop_app_ge base), Nat.sub_succ_l, Nat.sub_diag by lia.
Qed.

Lemma copy_upper_eq n name pre post :
  (n ≤ length post)%nat →
  copy_upper n name (length pre) (pre ++ post) = pre ++ (upper <$> take n name) ++ drop (length (take n name)) post.
Proof.
  revert name pre post. induction n as [|n IH]; intros name pre post Hn; [done|].
  destruct name as [|c name]; [done|]. destruct post as [|b post]; [simpl in Hn; lia|]. cbn [copy_upper].
  rewrite insert_app_r_alt, Nat.sub_diag by lia. cbn [insert list_insert].
  replace (S (length pre)) with (length (pre ++ [upper c])) by (rewrite length_app; simpl; lia).
  change (upper c :: post) with ([upper c] ++ post). rewrite app_assoc, IH by (simpl in Hn; lia).
  by rewrite <- app_assoc.
Qed.

Lemma pad_eq n l : (length l ≤ n)%nat → pad n l = l ++ replicate (n - length l) 32.
Proof. intros Hl. unfold pad. rewrite take_app_ge by done. f_equal. rewrite take_replicate. f_equal. lia. Qed.

Lemma pad_take n l : pad n (take n l) = pad n l.
Proof.
  unfold pad. destruct (decide (length l ≤ n)%nat); [by rewrite (take_ge l)|].
  rewrite !take_app_le by (rewrite ?length_take; lia). rewrite take_take. f_equal. lia.
Qed.

Lemma index_of_lt c l d : index_of c l = Some d → (d < length l)%nat.
Proof.
  revert d. induction l as [|b l IH]; intros d; simpl; [done|]. destruct (b =? c); [intros [= <-]; lia|].
  destruct (index_of c l) as [d'|]; simpl; [|done]. intros [= <-]. specialize (IH d' eq_refl). lia.
Qed.

Lemma to_8_3_eq name : to_8_3 name = short_name name.
Proof.
  unfold to_8_3, short_name, base_ext.
  assert (H8 : ∀ n, (n ≤ 8)%nat → copy_upper n name 0 (replicate 11 32) = pad 8 (upper <$> take n name) ++ replicate 3 32).
  { intros n Hn. etrans; [apply (copy_upper_eq n name [] (replicate 11 32)); simpl; lia|]. rewrite app_nil_l.
    rewrite pad_eq by (rewrite length_fmap, length_take; lia). rewrite <- app_assoc, length_fmap. f_equal.
    rewrite drop_replicate. rewrite <- replicate_add. f_equal. rewrite length_take. lia. }
  destruct (index_of 46 name) as [d|] eqn:Ed; simpl fst; simpl snd; cycle 1.
  - rewrite H8 by lia. change (11 `min` 8)%nat with 8%nat. by rewrite fmap_take, pad_take.
  - rewrite H8 by lia. assert (Hp : pad 8 (upper <$> take (d `min` 8) name) = pad 8 (upper <$> take d name)).
    { rewrite Nat.min_comm, <- take_take. by rewrite fmap_take, pad_take. }
    rewrite Hp. assert (Hl : length (pad 8 (upper <$> take d name)) = 8%nat).
    { unfold pad. rewrite length_take, length_app, length_replicate. lia. }
    pose proof (copy_upper_eq 3 (drop (S d) name) (pad 8 (upper <$> take d name)) (replicate 3 32) ltac:(simpl; lia)) as E.
    rewrite Hl in E. rewrite E. f_equal.
    rewrite <- (pad_take 3), <- fmap_take, pad_eq by (rewrite length_fmap, length_take; lia).
    f_equal. rewrite drop_replicate, length_fmap. done.
Qed.

Lemma length_to_8_3 name : length (to_8_3 name) = 11%nat.
Proof. rewrite to_8_3_eq. unfold short_name, pad. rewrite length_app, !length_take, !length_app, !length_replicate. lia. Qed.

(** ** A new entry *)

Lemma file_entry_eq name c size :
  length name = 11%nat → 0 ≤ size < 2 ^ 32 →
  let e := clear_times (new_entry name 0x20 c size) in
  length e = 32%nat ∧ take 11 e = name ∧ byte e 0 = default 0 (head name) ∧ entry_skip e 0 = (default 0 (head name) =? 0xE5) ∧
  entry_cluster e 0 = c mod 2 ^ 16 ∧ entry_size e 0 = size.
Proof.
  intros Hn Hs. do 11 (destruct name as [|? name]; [done|]). destruct name; [|done]. cbv zeta.
  split_and!; [reflexivity..| | |].
  - unfold entry_skip. cbn. by rewrite !orb_false_r.
  - change (entry_cluster (clear_times (new_entry [z; z0; z1; z2; z3; z4; z5; z6; z7; z8; z9] 0x20 c size)) 0)
      with ((0 + 2 ^ 8 * 0) * 2 ^ 16 + (u8 c + 2 ^ 8 * u8 (Z.shiftr c 8))).
    unfold u8. rewrite Z.shiftr_div_pow2 by lia. pose proof (Z.rem_mul_r c (2 ^ 8) (2 ^ 8) ltac:(lia) ltac:(lia)) as E.
    change (2 ^ 8 * 2 ^ 8) with (2 ^ 16) in E. lia.
  - etrans; [|apply (le32_bytes size Hs)]. reflexivity.
Qed.

Lemma put_slice_bytes n l i bs :
  bytes_ok n l → Forall is_byte bs → 0 ≤ i → i + Z.of_nat (length bs) ≤ Z.of_nat n → bytes_ok n (put_slice l i bs).
Proof.
  intros [Hl Hb] Hbs Hi Hn. subst n. split; [by apply put_slice_prefix|]. unfold put_slice.
  apply Forall_app; split; [by apply Forall_take|]. apply Forall_app; split; [done|by apply Forall_drop].
Qed.

Lemma zeros_bytes n : bytes_ok n (replicate n 0).
Proof. split; [apply length_replicate|]. apply Forall_replicate. unfold is_byte. lia. Qed.

Lemma file_entry_bytes name c size :
  bytes_ok 11 name → bytes_ok 32 (clear_times (new_entry name 0x20 c size)).
Proof.
  intros [Hn Hb]. unfold clear_times, new_entry.
  do 3 (apply put_slice_bytes; [|apply zeros_bytes|lia|simpl; lia]).
  do 4 apply put8_bytes. apply put32_bytes, put8_bytes, put_slice_bytes; [apply zeros_bytes|done|lia|lia].
Qed.

(** ** A free slot *)

(** The slot [i] of a sector is the first free one. *)
Definition first_slot (sec : list Z) (i : Z) : Prop :=
  0 ≤ i < 16 ∧ (byte sec (32 * i) = 0 ∨ byte sec (32 * i) = 0xE5) ∧
  ∀ j, 0 ≤ j < i → byte sec (32 * j) ≠ 0 ∧ byte sec (32 * j) ≠ 0xE5.

Lemma free_slot_eq sec i n k :
  first_slot sec i → 0 ≤ k ≤ i → k + Z.of_nat n = 16 → free_slot n (32 * k) sec = Some (32 * i).
Proof.
  intros (Hi & Hf & Hno). revert k. induction n as [|n IH]; intros k Hk Hn; [lia|]. cbn [free_slot].
  destruct (decide (k = i)) as [->|Hne].
  - destruct Hf as [-> | ->]; done.
  - destruct (Hno k ltac:(lia)) as [H1 H2]. apply Z.eqb_neq in H1, H2. rewrite H1, H2. cbn [orb].
    replace (32 * k + 32) with (32 * (k + 1)) by lia. apply IH; lia.
Qed.

Lemma length_put_slice l i bs : 0 ≤ i → i + Z.of_nat (length bs) ≤ Z.of_nat (length l) → length (put_slice l i bs) = length l.
Proof. intros Hi Hl. by apply put_slice_prefix. Qed.

Lemma slice_put_slice_eq l i bs :
  0 ≤ i → i + Z.of_nat (length bs) ≤ Z.of_nat (length l) → slice (put_slice l i bs) i (Z.of_nat (length bs)) = bs.
Proof.
  intros Hi Hl. unfold slice, put_slice. rewrite drop_app_length' by (rewrite length_take; lia).
  rewrite Nat2Z.id. by rewrite take_app_length.
Qed.

Lemma slice_put_slice_ne l i bs j n :
  0 ≤ i → 0 ≤ j → 0 ≤ n → i + Z.of_nat (length bs) ≤ Z.of_nat (length l) → (j + n ≤ i ∨ i + Z.of_nat (length bs) ≤ j) →
  slice (put_slice l i bs) j n = slice l j n.
Proof.
  intros Hi Hj Hn Hl Hd. unfold slice, put_slice. destruct Hd as [Hd|Hd].
  - rewrite drop_app_le by (rewrite length_take; lia). rewrite take_app_le by (rewrite length_drop, length_take; lia).
    rewrite skipn_firstn_comm, take_take. f_equal. lia.
  - rewrite app_assoc, drop_app_ge by (rewrite length_app, length_take; lia). rewrite drop_drop. f_equal. f_equal.
    rewrite length_app, length_take. lia.
Qed.

(** The entries of a sector after one has been stored. *)
Lemma dirents_put sec i e :
  length sec = 512%nat → length e = 32%nat → 0 ≤ i < 16 →
  ∃ pre e0 post, dirents sec = pre ++ e0 :: post ∧ dirents (put_slice sec (32 * i) e) = pre ++ e :: post ∧
    pre = (λ j, slice sec (32 * j) 32) <$> seqZ 0 i ∧ e0 = slice sec (32 * i) 32.
Proof.
  intros Hs He Hi. exists ((λ j, slice sec (32 * j) 32) <$> seqZ 0 i), (slice sec (32 * i) 32),
    ((λ j, slice sec (32 * j) 32) <$> seqZ (i + 1) (15 - i)).
  assert (Hsplit : seqZ 0 16 = seqZ 0 i ++ i :: seqZ (i + 1) (15 - i)).
  { replace 16 with (i + (1 + (15 - i))) at 1 by lia. rewrite seqZ_app by lia. f_equal.
    rewrite seqZ_app by lia. simpl. f_equal. }
  unfold dirents. rewrite Hsplit. split_and!; [by rewrite fmap_app, fmap_cons| |done|done].
  rewrite fmap_app, fmap_cons. f_equal; [|f_equal].
  - apply list_fmap_ext. intros k j Hj%list_elem_of_lookup_2%elem_of_seqZ. apply slice_put_slice_ne; lia.
  - pose proof (slice_put_slice_eq sec (32 * i) e) as E. rewrite He in E. apply E; lia.
  - apply list_fmap_ext. intros k j Hj%list_elem_of_lookup_2%elem_of_seqZ. apply slice_put_slice_ne; lia.
Qed.

(** A look-up after an entry has taken the place of a free one: the new name is
    found; names that were found still are. *)
Lemma scan_dirents_new pre e0 e post name :
  (∀ x, x ∈ pre → entry_end x 0 = false) → (entry_end e0 0 = true ∨ entry_skip e0 0 = true) →
  entry_end e 0 = false → entry_skip e 0 = false → take 11 e = name → lookup_name name (pre ++ e0 :: post) = None →
  lookup_name name (pre ++ e :: post) = Some (entry_cluster e 0, entry_size e 0) ∧
  ∀ nm r, lookup_name nm (pre ++ e0 :: post) = Some r → lookup_name nm (pre ++ e :: post) = Some r.
Proof.
  intros Hpre He0 Hend Hskip Hname. rewrite <- !scan_dirents_lookup. rewrite !scan_dirents_app. intros Hno. split.
  - assert (Hp : scan_dirents name pre = None).
    { clear -Hpre Hno. destruct (scan_dirents name pre) as [[r|]|] eqn:E; [done| |done]. exfalso. clear Hno.
      induction pre as [|x pre IH]; [done|]. simpl in E. rewrite (Hpre x) in E by left.
      assert (Hpre' : ∀ y, y ∈ pre → entry_end y 0 = false) by (intros y Hy; apply Hpre; by right).
      destruct (entry_skip x 0); [by apply IH|]. case_bool_decide; [done|by apply IH]. }
    rewrite Hp. simpl. rewrite Hend, Hskip. by rewrite bool_decide_eq_true_2.
  - intros nm r. rewrite <- !scan_dirents_lookup, !scan_dirents_app. destruct (scan_dirents nm pre) as [r'|] eqn:E; [done|].
    cbn [scan_dirents]. rewrite Hend, Hskip. destruct He0 as [-> | He0]; [done|].
    destruct (entry_end e0 0) eqn:Ee; [done|]. rewrite He0. case_bool_decide as Hnm; [|done].
    intros Hr. exfalso. revert Hno. rewrite <- Hname, Hnm, E. cbn [scan_dirents]. rewrite Ee, He0, Hr. done.
Qed.

(** ** The disk *)

Section Write.
Context {D : Type} `{BlockLaws D}.

Implicit Types (s : fat D) (c lba : Z) (l : list Z).

(** [s'] is [s] with the table [t] and the contents [f] of the other sectors. *)
Definition vol_to s s' (t : Z → Z) (f : Z → list Z) : Prop :=
  vol s' ∧ s' = set_disk (disk s') s ∧ (∀ dr lba, bd_in (disk s') dr lba ↔ bd_in (disk s) dr lba) ∧
  (∀ c, in_table s c → fat_get s' c = t c) ∧
  (∀ lba, ¬ table_sector s FAT32_DRIVE lba → sector s' lba = f lba).

Lemma vol_to_trans s s1 s2 t1 t2 f1 f2 : vol_to s s1 t1 f1 → vol_to s1 s2 t2 f2 → vol_to s s2 t2 f2.
Proof.
  intros (V1 & E1 & I1 & T1 & F1) (V2 & E2 & I2 & T2 & F2). split_and!.
  - apply V2.
  - etrans; [exact E2|]. transitivity (set_disk (disk s2) (set_disk (disk s1) s)); [f_equal; exact E1|by destruct s].
  - intros dr lba. by rewrite I2, I1.
  - intros c Hc. apply T2. unfold in_table, entries. rewrite E1. apply Hc.
  - intros lba Hn. apply F2. unfold table_sector. rewrite E1. apply Hn.
Qed.

Lemma vol_to_ext s s' t t' f f' :
  vol_to s s' t f → (∀ c, in_table s c → t c = t' c) → (∀ lba, ¬ table_sector s FAT32_DRIVE lba → f lba = f' lba) →
  vol_to s s' t' f'.
Proof.
  intros (V & E & I & T & F) Ht Hf. split_and!; [done..| |].
  - intros c Hc. by rewrite T, Ht.
  - intros lba Hn. by rewrite F, Hf.
Qed.

Lemma retabled_vol_to s s' t : retabled s s' t → vol_to s s' t (sector s).
Proof.
  intros (V & E & T & I & R). split_and!; [done..|]. intros lba Hn. unfold sector. by rewrite R.
Qed.

(** Storing a sector outside the table. *)
Lemma write_data_ok s lba sec :
  vol s → bd_in (disk s) FAT32_DRIVE lba → ¬ table_sector s FAT32_DRIVE lba → bytes_ok 512 sec →
  ∃ s', write_sector FAT32_DRIVE lba sec s = UOk true s' ∧ vol_to s s' (fat_get s) (<[lba := sec]> (sector s)).
Proof.
  intros Hv Hi Hn Hb. destruct (bd_write_ok _ _ _ _ (vol_wf s Hv) Hi Hb) as (d & E & Hd & Hin & Hr).
  assert (Hs : ∀ x, sector (set_disk d s) x = <[lba := sec]> (sector s) x).
  { intros x. unfold sector at 1. simpl. rewrite Hr. destruct (decide (x = lba)) as [->|Hne].
    - by rewrite fn_lookup_insert, bool_decide_eq_true_2.
    - rewrite fn_lookup_insert_ne, bool_decide_eq_false_2 by naive_solver. done. }
  exists (set_disk d s). split; [unfold write_sector; by rewrite E|].
  split_and!; [by apply vol_set_disk|done|done| |by intros x _].
  intros c Hc. unfold fat_get. rewrite Hs, fn_lookup_insert_ne; [done|]. intros Hx. apply Hn. rewrite Hx.
  exact (entry_sector s c Hv Hc).
Qed.

Lemma vol_to_same s s1 s2 t f : vol_to s s1 t f → vol_to s1 s2 (fat_get s1) (sector s1) → vol_to s s2 t f.
Proof.
  intros H1 H2. eapply vol_to_ext; [by eapply vol_to_trans|..]; destruct H1 as (_ & _ & _ & T & F).
  - intros c Hc. by apply T.
  - intros lba Hn. by apply F.
Qed.

Lemma vol_to_insert s s1 s2 t f x v :
  vol_to s s1 t f → vol_to s1 s2 (fat_get s1) (<[x := v]> (sector s1)) → vol_to s s2 t (<[x := v]> f).
Proof.
  intros H1 H2. eapply vol_to_ext; [by eapply vol_to_trans|..]; destruct H1 as (_ & _ & _ & T & F).
  - intros c Hc. by apply T.
  - intros lba Hn. destruct (decide (lba = x)) as [->|Hne].
    + by rewrite !fn_lookup_insert.
    + rewrite !fn_lookup_insert_ne by done. by apply F.
Qed.

(** The first sector of a cluster. *)
Definition cluster_lba s c : Z := first_data_sector s + (c - 2) * sectors_per_cluster s.

Lemma cluster_lba_in s c : vol s → cluster_in s c → bd_in (disk s) FAT32_DRIVE (cluster_lba s c).
Proof. intros Hv [_ Hi]. pose proof (vol_spc s Hv). specialize (Hi 0 ltac:(lia)). by rewrite Z.add_0_r in Hi. Qed.

Lemma cluster_lba_range s c : vol s → 2 ≤ c → cluster_in s c → 0 ≤ cluster_lba s c < 2 ^ 32.
Proof.
  intros Hv Hc [Hi _]. pose proof (vol_spc s Hv). pose proof (vol_data s Hv). pose proof (vol_res s Hv).
  pose proof (vol_entries s Hv). unfold entries, cluster_lba in *. nia.
Qed.

Lemma data_not_table s c k : vol s → 2 ≤ c → 0 ≤ k → ¬ table_sector s FAT32_DRIVE (cluster_lba s c + k).
Proof. intros Hv Hc Hk [_ Ht]. pose proof (vol_spc s Hv). pose proof (vol_data s Hv). unfold cluster_lba in Ht. nia. Qed.

Lemma lba_not_table s c lba : vol s → 2 ≤ c → lba ∈ cluster_lbas s c → ¬ table_sector s FAT32_DRIVE lba.
Proof.
  intros Hv Hc Hl. apply list_elem_of_fmap in Hl as (k & -> & Hk%elem_of_seqZ). by apply (data_not_table s c k); [..|lia].
Qed.

(** Different clusters have no sector in common. *)
Lemma lbas_disjoint s c c' lba : vol s → lba ∈ cluster_lbas s c → lba ∈ cluster_lbas s c' → c = c'.
Proof.
  intros Hv H1 H2. apply list_elem_of_fmap in H1 as (k & -> & Hk%elem_of_seqZ), H2 as (k' & E & Hk'%elem_of_seqZ).
  pose proof (vol_spc s Hv). nia.
Qed.

Lemma lbas_not_table s c l lba : vol s → chain s c l → lba ∈ lbas s l → ¬ table_sector s FAT32_DRIVE lba.
Proof.
  intros Hv Hc Hl. apply list_elem_of_bind in Hl as (x & Hl & Hx). revert c Hc Hx.
  induction l as [|y l IH]; intros c Hc Hx; [by apply not_elem_of_nil in Hx|]. destruct Hc as (-> & Hch & _ & Hc).
  apply elem_of_cons in Hx as [->|Hx]; [|by eapply IH]. apply (lba_not_table s c); [done| |done]. apply in_chain_range in Hch. lia.
Qed.

Lemma cluster_lbas_head s c : vol s → ∃ r, cluster_lbas s c = cluster_lba s c :: r ∧ cluster_lba s c ∉ r.
Proof.
  intros Hv. pose proof (vol_spc s Hv). unfold cluster_lbas. rewrite seqZ_cons, fmap_cons by lia.
  rewrite Z.add_0_r. eexists. split; [done|]. intros (k & E & Hk%elem_of_seqZ)%list_elem_of_fmap. unfold cluster_lba in E. lia.
Qed.

Lemma cluster_lba_inj s c c' : vol s → cluster_lba s c = cluster_lba s c' → c = c'.
Proof. intros Hv E. pose proof (vol_spc s Hv). unfold cluster_lba in E. nia. Qed.

(** What [vol_to] keeps. *)
Lemma vol_to_geometry s s' t f :
  vol_to s s' t f →
  entries s' = entries s ∧ root_cluster s' = root_cluster s ∧ sent s' = sent s ∧
  (∀ c, cluster_lbas s' c = cluster_lbas s c) ∧ (∀ c, cluster_lba s' c = cluster_lba s c) ∧
  (∀ c, cluster_in s c → cluster_in s' c).
Proof.
  intros (_ & E & I & _). unfold entries, cluster_lbas, cluster_lba, cluster_in.
  split_and!; try (by rewrite E); intros c; [by rewrite E..|]. intros [H1 H2]. split; [by rewrite E|].
  intros k Hk. apply I. rewrite E in *. by apply H2.
Qed.

Lemma vol_to_on_disk n s s' t f c l :
  vol_to s s' t f → (∀ x, x ∈ l → in_table s x → t x = fat_get s x) → on_disk n s c l → on_disk n s' c l.
Proof.
  intros Hto Ht (Hc & Hi & Hn). pose proof (vol_to_geometry _ _ _ _ Hto) as (He & _ & _ & _ & _ & Hci).
  split_and!; [|by eapply Forall_impl|done]. apply (chain_agree s); [done| |done].
  intros x Hx Hx'. destruct Hto as (_ & _ & _ & T & _). rewrite T by done. by apply Ht.
Qed.

(** Data that fits in one sector of a fresh cluster. *)
Lemma write_file_data_ok s n c data size :
  vol s → (1 ≤ n)%nat → 2 ≤ c < EOC → in_table s c → cluster_in s c → is_eoc (fat_get s c) = true →
  Forall is_byte data → 0 < size ≤ 512 → size ≤ Z.of_nat (length data) →
  ∃ s', write_file_data n c data size s = UOk true s' ∧
    vol_to s s' (fat_get s) (<[cluster_lba s c := take (Z.to_nat size) data ++ replicate (Z.to_nat (512 - size)) 0]> (sector s)).
Proof.
  intros Hv Hn Hc Ht Hi Heoc Hd Hsz Hlen. pose proof (vol_spc s Hv) as Hspc.
  set (sec := take (Z.to_nat size) data ++ replicate (Z.to_nat (512 - size)) 0).
  assert (Hb : bytes_ok 512 sec).
  { split; [subst sec; rewrite length_app, length_take, length_replicate; lia|].
    apply Forall_app; split; [by apply Forall_take|apply zeros_bytes]. }
  pose proof (data_not_table s c 0 Hv ltac:(lia) ltac:(lia)) as Hnt. rewrite Z.add_0_r in Hnt.
  destruct (write_data_ok s _ sec Hv (cluster_lba_in s c Hv Hi) Hnt Hb) as (s' & E & Hto). exists s'. split; [|done].
  pose proof Hto as (Hv' & Eg & _ & T & _). destruct n as [|n]; [lia|].
  assert (Hw : write_sectors (Z.to_nat (sectors_per_cluster s)) 0 (cluster_lba s c) data 0 size 0 s = UOk (Some size) s').
  { destruct (Z.to_nat (sectors_per_cluster s)) as [|m] eqn:Em; [lia|]. cbn [write_sectors].
    rewrite (proj2 (Z.ltb_lt 0 size)) by lia. ustep_by ltac:(done). rewrite (vol_bps s Hv), Z.sub_0_r, !Z.add_0_l, Z.add_0_r.
    rewrite (proj2 (Z.ltb_ge 512 size)) by lia. unfold data_sector, rd_slice, in_buf, slice.
    replace (_ && _) with true by (symmetry; apply andb_true_intro; split; apply Z.leb_le; lia).
    rewrite drop_0, app_nil_r. fold sec. rewrite (u32_small (cluster_lba s c)) by (apply cluster_lba_range; [done|lia|done]).
    etrans; [apply (ubind_Ok _ _ _ _ _ E)|]. cbn [negb]. destruct m; cbn [write_sectors]; [done|]. by rewrite Z.ltb_irrefl. }
  assert (Hs' : bytes_per_sector s' = bytes_per_sector s) by (by rewrite Eg).
  unfold write_file_data. cbn [write_loop]. rewrite (proj2 (Z.ltb_lt 0 size)) by lia.
  unfold is_eoc at 1. rewrite (proj2 (Z.leb_gt EOC c)), (proj2 (Z.ltb_ge c 2)) by lia. cbn [orb].
  ustep_by ltac:(done). ustep_by ltac:(by apply cluster_to_sector_eq). ustep_by ltac:(done). ustep_by ltac:(done).
  rewrite (vol_bps s Hv), Z.sub_0_r. rewrite (proj2 (Z.ltb_ge (512 * sectors_per_cluster s) size)) by lia.
  ustep_by ltac:(apply Hw). ustep_by ltac:(apply next_cluster_eq; [done|by rewrite Eg]).
  rewrite Z.add_0_l. destruct n; cbn [write_loop]; by rewrite Z.ltb_irrefl.
Qed.

(** ** The directory entry *)

Lemma free_dir_entry_ok s n c l i :
  vol s → on_disk n s c (c :: l) → first_slot (sector s (cluster_lba s c)) i →
  ∃ s', free_dir_entry n c s = UOk (Some (32 * i)) s' ∧ vol_to s s' (fat_get s) (sector s).
Proof.
  intros Hv (Hc & Hi & Hn) Hslot. pose proof Hc as (_ & Hch & _ & _). pose proof (in_chain_range c Hch) as Hr.
  pose proof (Forall_inv Hi) as Hci. pose proof (cluster_lba_in s c Hv Hci) as Hin.
  destruct (sector_ok s _ Hv Hin) as [_ Hb].
  pose proof (data_not_table s c 0 Hv ltac:(lia) ltac:(lia)) as Hnt. rewrite Z.add_0_r in Hnt.
  destruct (write_data_ok s _ _ Hv Hin Hnt Hb) as (s' & E & Hto). exists s'. split; cycle 1.
  { eapply vol_to_ext; [done|done|]. intros x _. destruct (decide (x = cluster_lba s c)) as [->|Hne].
    - by rewrite fn_lookup_insert.
    - by rewrite fn_lookup_insert_ne. }
  unfold free_dir_entry, mbind, U_bind. rewrite (scan_chain_eq _ _ s n c (c :: l) Hv); [|..|done|done|done].
  - change (lbas s (c :: l)) with (cluster_lbas s c ++ lbas s l). destruct (cluster_lbas_head s c Hv) as (r & -> & _).
    pose proof (free_slot_eq _ i 16 0 Hslot ltac:(destruct Hslot; lia) eq_refl) as Ef. rewrite Z.mul_0_r in Ef.
    cbn [app scan_lbas]. rewrite Ef.
    by rewrite E.
  - intros lba s1. destruct (free_slot 16 0 (sector s lba)); [|by intros [= <-]].
    intros E1. by apply ubind_inv in E1 as (ok & s2 & _ & [= ]).
Qed.

Lemma store_entry_ok s c i e :
  vol s → 2 ≤ c < EOC → cluster_in s c → 0 ≤ i < 16 → bytes_ok 32 e →
  ∃ s', store_entry c (32 * i) e s = UOk true s' ∧
    vol_to s s' (fat_get s) (<[cluster_lba s c := put_slice (sector s (cluster_lba s c)) (32 * i) e]> (sector s)).
Proof.
  intros Hv Hc Hci Hi [He Hbe]. pose proof (cluster_lba_in s c Hv Hci) as Hin. destruct (sector_ok s _ Hv Hin) as [Er Hb].
  pose proof (data_not_table s c 0 Hv ltac:(lia) ltac:(lia)) as Hnt. rewrite Z.add_0_r in Hnt.
  assert (Hb' : bytes_ok 512 (put_slice (sector s (cluster_lba s c)) (32 * i) e)) by (apply put_slice_bytes; [done|done|lia|lia]).
  destruct (write_data_ok s _ _ Hv Hin Hnt Hb') as (s' & E & Hto). exists s'. split; [|done].
  unfold store_entry. ustep_by ltac:(by apply cluster_to_sector_eq). fold (cluster_lba s c).
  rewrite (Z.div_small (32 * i) 512), (Z.mod_small (32 * i) 512), Z.add_0_r by lia.
  rewrite u32_small by (apply cluster_lba_range; [done|lia|done]). ustep_by ltac:(apply Er).
  unfold wr_slice, in_buf. destruct Hb as [-> _]. rewrite He.
  replace (_ && _) with true by (symmetry; apply andb_true_intro; split; apply Z.leb_le; lia). apply E.
Qed.

(** The directory after a new entry is in place. *)
Lemma new_entry_found s s' c l i e t f name :
  vol s → on_disk (length (c :: l)) s c (c :: l) → first_slot (sector s (cluster_lba s c)) i → length e = 32%nat →
  vol_to s s' t (<[cluster_lba s c := put_slice (sector s (cluster_lba s c)) (32 * i) e]> f) →
  (∀ lba, lba ∈ lbas s (c :: l) → f lba = sector s lba) →
  entry_end e 0 = false → entry_skip e 0 = false → take 11 e = name → lookup_name name (dir_entries s (c :: l)) = None →
  lookup_name name (dir_entries s' (c :: l)) = Some (entry_cluster e 0, entry_size e 0) ∧
  ∀ nm r, lookup_name nm (dir_entries s (c :: l)) = Some r → lookup_name nm (dir_entries s' (c :: l)) = Some r.
Proof.
  intros Hv (Hc & Hci & _) Hslot He Hto Hf Hend Hskip Hname Hno. pose proof Hc as (_ & Hch & _). apply in_chain_range in Hch as Hr.
  pose proof (cluster_lba_in s c Hv (Forall_inv Hci)) as Hin. destruct (sector_ok s _ Hv Hin) as [_ [Hlen _]].
  pose proof (vol_to_geometry _ _ _ _ Hto) as (_ & _ & _ & Hlbas & _). destruct Hto as (_ & _ & _ & _ & F).
  destruct (cluster_lbas_head s c Hv) as (r & Er & Hnr). pose proof (chain_NoDup _ _ _ Hc) as Hnd. inversion_clear Hnd as [|? ? Hcl _].
  assert (El : lbas s' (c :: l) = cluster_lba s c :: r ++ lbas s l).
  { etrans; [apply (list_bind_ext _ _ _ _ Hlbas eq_refl)|]. change ((c :: l) ≫= cluster_lbas s) with (cluster_lbas s c ++ lbas s l).
    by rewrite Er. }
  assert (El' : lbas s (c :: l) = cluster_lba s c :: r ++ lbas s l).
  { change (lbas s (c :: l)) with (cluster_lbas s c ++ lbas s l). by rewrite Er. }
  assert (Hrest : ((r ++ lbas s l) ≫= λ lba, dirents (sector s' lba)) = ((r ++ lbas s l) ≫= λ lba, dirents (sector s lba))).
  { apply Forall_bind_ext, Forall_forall. intros x Hx. f_equal.
    assert (Hx' : x ∈ lbas s (c :: l)) by (rewrite El'; by right).
    rewrite F by by eapply lbas_not_table. rewrite fn_lookup_insert_ne; [by apply Hf|]. intros <-.
    apply elem_of_app in Hx as [Hx|Hx]; [done|]. apply list_elem_of_bind in Hx as (y & Hx & Hy). apply Hcl.
    rewrite (lbas_disjoint s c y (cluster_lba s c) Hv); [done| |done]. rewrite Er. left. }
  assert (Hs' : sector s' (cluster_lba s c) = put_slice (sector s (cluster_lba s c)) (32 * i) e).
  { rewrite F, fn_lookup_insert; [done|]. eapply lbas_not_table; [done|done|]. rewrite El'. left. }
  unfold dir_entries in *. rewrite El, El' in *. rewrite !bind_cons in *. rewrite Hrest, Hs'.
  destruct (dirents_put (sector s (cluster_lba s c)) i e Hlen He (proj1 Hslot)) as (pre & e0 & post & E1 & E2 & Epre & Ee0).
  rewrite E1, E2 in *. rewrite <- !app_assoc in *. cbn [app] in *. apply scan_dirents_new; try done.
  - intros x Hx. rewrite Epre in Hx. apply list_elem_of_fmap in Hx as (j & -> & Hj%elem_of_seqZ).
    destruct (dirent_eq (sector s (cluster_lba s c)) [] j ltac:(lia)) as (-> & _). destruct Hslot as (_ & _ & Hno').
    apply Z.eqb_neq, Hno'. lia.
  - rewrite Ee0. destruct (dirent_eq (sector s (cluster_lba s c)) [] i ltac:(destruct Hslot; lia)) as (-> & -> & _).
    destruct Hslot as (_ & [Hz|Hz] & _); [left|right]; unfold entry_end, entry_skip; by rewrite Hz.
Qed.

(** ** A new file *)

Lemma resolve_parent_root s n path :
  split_path path = None → resolve_parent n path s = UOk (Some (root_cluster s, path)) s.
Proof. intros E. unfold resolve_parent. rewrite E. done. Qed.

(** The request [r] to write some data to a file of the root directory [root :: l];
    [c] is the first free cluster. *)
Definition write_request n s (r : request) l c : Prop :=
  bytes_ok 64 (rq_data r) ∧ Z.of_nat (length (rq_path r)) + 1 < rq_length r ≤ 64 ∧ split_path (rq_path r) = None ∧
  on_disk n s (root_cluster s) (root_cluster s :: l) ∧ (∀ x, x ∈ root_cluster s :: l → fat_get s x ≠ 0) ∧
  first_free s 2 c ∧ cluster_in s c.

(** The file is new, its cluster fits the entry, and the slot [i] of the first
    sector of the directory is free. *)
Definition new_file n s (r : request) l i c : Prop :=
  write_request n s r l c ∧ head (to_8_3 (rq_path r)) ≠ Some 0xE5 ∧
  lookup_name (to_8_3 (rq_path r)) (dir_entries s (root_cluster s :: l)) = None ∧
  first_slot (sector s (cluster_lba s (root_cluster s))) i ∧ c < 2 ^ 16.

(** The data of a write request. *)
Definition rq_content (r : request) : list Z :=
  slice (rq_mem r) (Z.of_nat (length (rq_path r)) + 1) (rq_length r - (Z.of_nat (length (rq_path r)) + 1)).

(** What the volume then holds. *)
Definition holds_new n s s' (r : request) l c : Prop :=
  let size := rq_length r - (Z.of_nat (length (rq_path r)) + 1) in
  vol s' ∧ sent s' = sent s ∧ names n s' (rq_path r) (Some (c, size)) ∧ on_disk n s' c [c] ∧
  take (Z.to_nat size) (file_bytes s' [c]) = rq_content r ∧
  (∀ nm e, lookup_name nm (dir_entries s (root_cluster s :: l)) = Some e →
    lookup_name nm (dir_entries s' (root_cluster s :: l)) = Some e).

Lemma c_string_nonzero l : Forall (λ b, b ≠ 0) (c_string l).
Proof. induction l as [|b l IH]; [constructor|]. simpl. destruct (Z.eqb_spec b 0); [constructor|by constructor]. Qed.

Lemma to_8_3_head path : Forall (λ b, b ≠ 0) path → default 0 (head (to_8_3 path)) ≠ 0.
Proof.
  intros Hp. rewrite to_8_3_eq. unfold short_name, pad, base_ext.
  assert (Hu : ∀ b, b ≠ 0 → upper b ≠ 0) by (intros b Hb; unfold upper; destruct ((97 <=? b) && (b <=? 122)) eqn:E; lia).
  assert (Hh : ∀ l, Forall (λ b, b ≠ 0) l → default 0 (head (take 8 ((upper <$> l) ++ replicate 8 32))) ≠ 0).
  { intros [|b l] Hl; [done|]. apply Forall_cons in Hl as [Hb _]. simpl. auto. }
  assert (Ha : ∀ l k, default 0 (head l) ≠ 0 → default 0 (head (l ++ k)) ≠ 0) by (intros [|b l] k; [done|done]).
  destruct (index_of 46 path); apply Ha, Hh; simpl; [by apply Forall_take|done].
Qed.

Lemma rq_mem_bytes r : bytes_ok 64 (rq_data r) → bytes_ok 72 (rq_mem r).
Proof.
  intros [Hl Hb]. split; [unfold rq_mem; by rewrite length_app, Hl|]. apply Forall_app. split; [done|].
  apply Forall_fmap, Forall_true. intros x. apply u8_range.
Qed.

Lemma to_8_3_bytes path : Forall is_byte path → bytes_ok 11 (to_8_3 path).
Proof.
  intros Hp. split; [apply length_to_8_3|]. rewrite to_8_3_eq.
  assert (Hpad : ∀ n l, Forall is_byte l → Forall is_byte (pad n (upper <$> l))).
  { intros n l Hl. apply Forall_take, Forall_app. split; [|apply Forall_replicate; unfold is_byte; lia].
    apply Forall_fmap. eapply Forall_impl; [exact Hl|]. intros b Hb. unfold is_byte, compose, upper in *.
    destruct ((97 <=? b) && (b <=? 122)) eqn:E; lia. }
  unfold short_name, base_ext. apply Forall_app.
  destruct (index_of 46 path); split; apply Hpad; simpl; by first [apply Forall_take|apply Forall_drop|idtac].
Qed.

Lemma rq_path_bytes r : bytes_ok 64 (rq_data r) → Forall is_byte (rq_path r).
Proof.
  intros Hb. apply rq_mem_bytes in Hb as [_ Hb]. unfold rq_path. induction (rq_mem r) as [|b l IH]; [constructor|].
  apply Forall_cons in Hb as [Hb Hl]. simpl. destruct (b =? 0); [constructor|]. constructor; [done|by apply IH].
Qed.

(** The entry and the sector a request writes. *)
Definition rq_entry (r : request) c : list Z :=
  clear_times (new_entry (to_8_3 (rq_path r)) 0x20 c (rq_length r - (Z.of_nat (length (rq_path r)) + 1))).
Definition rq_sector (r : request) : list Z :=
  rq_content r ++ replicate (Z.to_nat (512 - (rq_length r - (Z.of_nat (length (rq_path r)) + 1)))) 0.

(** The disk after [handle_write] of a new file. *)
Definition wrote_new s s' (r : request) i c : Prop :=
  vol_to s s' (<[c := EOC]> (fat_get s))
    (<[cluster_lba s (root_cluster s) := put_slice (sector s (cluster_lba s (root_cluster s))) (32 * i) (rq_entry r c)]>
      (<[cluster_lba s c := rq_sector r]> (sector s))).

Lemma enter_new_ok s n r root l i name c size :
  vol s → on_disk n s root (root :: l) → first_slot (sector s (cluster_lba s root)) i → bytes_ok 11 name →
  ∃ s', enter_file n r root name None c size s = UOk tt (said s' [(rq_sender r, 200, [])]) ∧
    vol_to s s' (fat_get s)
      (<[cluster_lba s root := put_slice (sector s (cluster_lba s root)) (32 * i) (clear_times (new_entry name 0x20 c size))]> (sector s)).
Proof.
  intros Hv Hd Hslot Hname. pose proof Hd as ((_ & Hch & _) & Hcis & _). apply in_chain_range in Hch.
  pose proof (Forall_inv Hcis) as Hci. pose proof (data_not_table s root 0 Hv ltac:(lia) ltac:(lia)) as Hnt. rewrite Z.add_0_r in Hnt.
  destruct (free_dir_entry_ok s n root l i Hv Hd Hslot) as (s3 & E3 & R3).
  pose proof (vol_to_geometry _ _ _ _ R3) as (_ & _ & _ & _ & L3 & I3).
  destruct (store_entry_ok s3 root i (clear_times (new_entry name 0x20 c size))) as (s4 & E4 & R4);
    [apply R3|done|by apply I3|by destruct Hslot|by apply file_entry_bytes|].
  rewrite L3 in R4. assert (Hs3 : sector s3 (cluster_lba s root) = sector s (cluster_lba s root)) by (by apply R3).
  rewrite Hs3 in R4. exists s4. split; [|by eapply vol_to_insert].
  unfold enter_file. ustep_by ltac:(apply E3). ustep_by ltac:(apply E4). done.
Qed.

Lemma write_request_fresh n s r l c : vol s → write_request n s r l c → in_table s c ∧ c ∉ root_cluster s :: l.
Proof.
  intros Hv (_ & _ & _ & _ & Hnz & (Hc & Hz & _) & _). split; [unfold in_table; lia|]. intros Hx. by apply (Hnz c).
Qed.

(** A write request up to the point where the data is on the disk. *)
Lemma handle_write_data n s r l c :
  vol s → write_request n s r l c →
  ∃ s', handle_write n r s = enter_file n r (root_cluster s) (to_8_3 (rq_path r))
      (lookup_name (to_8_3 (rq_path r)) (dir_entries s (root_cluster s :: l))) c
      (rq_length r - (Z.of_nat (length (rq_path r)) + 1)) s' ∧
    vol_to s s' (<[c := EOC]> (fat_get s)) (<[cluster_lba s c := rq_sector r]> (sector s)) ∧
    on_disk n s' (root_cluster s) (root_cluster s :: l) ∧
    sector s' (cluster_lba s (root_cluster s)) = sector s (cluster_lba s (root_cluster s)).
Proof.
  intros Hv Hw. destruct (write_request_fresh _ _ _ _ _ Hv Hw) as [Hin Hcl].
  destruct Hw as (Hrq & Hlen & Hsplit & Hroot & Hnz & Hfree & Hci). pose proof Hroot as (Hc & Hcis & Hn).
  pose proof Hfree as (Hcr & _). pose proof (vol_entries s Hv) as Hent. pose proof (rq_mem_bytes r Hrq) as [Hml Hmb].
  set (plen := Z.of_nat (length (rq_path r)) + 1) in *. set (root := root_cluster s) in *.
  destruct (alloc_first s c Hv Hfree) as (s1 & E1 & R1). apply retabled_vol_to in R1. pose proof (proj1 R1) as Hv1.
  pose proof (vol_to_geometry _ _ _ _ R1) as (G1 & _ & _ & _ & L1 & I1).
  assert (Hget1 : fat_get s1 c = EOC) by (destruct R1 as (_ & _ & _ & T & _); by rewrite T, fn_lookup_insert).
  destruct (write_file_data_ok s1 n c (drop (Z.to_nat plen) (rq_mem r)) (rq_length r - plen)) as (s2 & E2 & R2);
    [done|simpl in Hn; lia|lia|unfold in_table; by rewrite G1|by apply I1|by rewrite Hget1|by apply Forall_drop|lia
    |rewrite length_drop, Hml; lia|].
  rewrite L1 in R2. pose proof (vol_to_insert _ _ _ _ _ _ _ R1 R2) as R12. exists s2. split_and!; [|exact R12|..].
  - unfold handle_write. fold plen. rewrite (i32_small (rq_length r)) by lia. rewrite (proj2 (Z.ltb_ge _ 0)) by lia.
    ustep_by ltac:(by apply resolve_parent_root). ustep_by ltac:(by apply find_in_dir_eq).
    rewrite (proj2 (Z.ltb_lt 0 _)) by lia. ustep_by ltac:(apply E1). rewrite (proj2 (Z.eqb_neq c 0)) by lia. cbn [andb].
    ustep_by ltac:(apply E2). done.
  - eapply vol_to_on_disk; [exact R12| |exact Hroot]. intros x Hx _. rewrite fn_lookup_insert_ne; [done|]. by intros ->.
  - pose proof Hc as (_ & Hch & _). apply in_chain_range in Hch. destruct R12 as (_ & _ & _ & _ & F). rewrite F.
    + rewrite fn_lookup_insert_ne; [done|]. intros E%cluster_lba_inj; [|done]. apply Hcl. rewrite E. left.
    + pose proof (data_not_table s root 0 Hv ltac:(lia) ltac:(lia)) as Hnt. by rewrite Z.add_0_r in Hnt.
Qed.

Lemma handle_write_new n s r l i c :
  vol s → new_file n s r l i c →
  ∃ s', handle_write n r s = UOk tt (said s' [(rq_sender r, 200, [])]) ∧ wrote_new s s' r i c.
Proof.
  intros Hv (Hw & _ & Hno & Hslot & _). destruct (handle_write_data n s r l c Hv Hw) as (s2 & E & R & Hd & Hs).
  rewrite Hno in E. pose proof (vol_to_geometry _ _ _ _ R) as (_ & _ & _ & _ & L & _). destruct Hw as (Hrq & _).
  destruct (enter_new_ok s2 n r (root_cluster s) l i (to_8_3 (rq_path r)) c
    (rq_length r - (Z.of_nat (length (rq_path r)) + 1))) as (s4 & E4 & R4).
  { apply R. }
  { done. }
  { by rewrite L, Hs. }
  { apply to_8_3_bytes. by apply rq_path_bytes. }
  rewrite L, Hs in R4. exists s4. split; [by rewrite E|]. exact (vol_to_insert _ _ _ _ _ _ _ R R4).
Qed.

Lemma new_file_chain n s s' r l i c : vol s → new_file n s r l i c → wrote_new s s' r i c → on_disk n s' c [c].
Proof.
  intros Hv [Hw _] Hto. destruct (write_request_fresh _ _ _ _ _ Hv Hw) as [Hin _].
  destruct Hw as (_ & _ & _ & (_ & _ & Hn) & _ & (Hcr & _) & Hci). pose proof (vol_entries s Hv) as Hent.
  pose proof (vol_to_geometry _ _ _ _ Hto) as (Ge & _ & _ & _ & _ & Gi).
  split_and!; [|by constructor; [apply Gi|constructor]|simpl in *; lia].
  assert (Hg : fat_get s' c = EOC) by (destruct Hto as (_ & _ & _ & T & _); by rewrite T, fn_lookup_insert).
  cbn [chain]. rewrite Hg. split_and!; [done| |unfold in_table; by rewrite Ge|done].
  unfold in_chain, is_eoc. rewrite (proj2 (Z.leb_gt EOC c)), (proj2 (Z.leb_le 2 c)) by lia. done.
Qed.

Lemma new_file_bytes n s s' r l i c :
  vol s → new_file n s r l i c → wrote_new s s' r i c →
  take (Z.to_nat (rq_length r - (Z.of_nat (length (rq_path r)) + 1))) (file_bytes s' [c]) = rq_content r.
Proof.
  intros Hv [Hw _] Hto. destruct (write_request_fresh _ _ _ _ _ Hv Hw) as [Hin Hcl].
  destruct Hw as (Hrq & Hlen & _ & _ & _ & (Hcr & _) & Hci).
  pose proof (vol_to_geometry _ _ _ _ Hto) as (_ & _ & _ & _ & Gb & _).
  change (file_bytes s' [c]) with ((cluster_lbas s' c ++ []) ≫= sector s'). rewrite app_nil_r.
  destruct (cluster_lbas_head s' c) as (k & -> & _); [apply Hto|]. rewrite Gb, bind_cons.
  assert (Hsec : sector s' (cluster_lba s c) = rq_sector r).
  { destruct Hto as (_ & _ & _ & _ & F). pose proof (data_not_table s c 0 Hv ltac:(lia) ltac:(lia)) as Hnt. rewrite Z.add_0_r in Hnt.
    rewrite F by done. rewrite fn_lookup_insert_ne, fn_lookup_insert; [done|]. intros E%cluster_lba_inj; [|done].
    apply Hcl. rewrite <- E. left. }
  assert (Hcl' : length (rq_content r) = Z.to_nat (rq_length r - (Z.of_nat (length (rq_path r)) + 1))).
  { apply length_slice; [lia|lia|]. destruct (rq_mem_bytes r Hrq) as [-> _]. lia. }
  rewrite Hsec. unfold rq_sector. rewrite <- app_assoc, take_app_le by lia. by rewrite take_ge by lia.
Qed.

(** The new file is there, with its data; the files that were there still are. *)
Lemma new_file_holds n s s' r l i c :
  vol s → new_file n s r l i c → wrote_new s s' r i c → holds_new n s s' r l c.
Proof.
  intros Hv Hfile Hto. pose proof Hfile as (Hw & He5 & Hno & Hslot & Hc16).
  destruct (write_request_fresh _ _ _ _ _ Hv Hw) as [Hin Hcl]. destruct Hw as (Hrq & Hlen & Hsplit & Hroot & Hnz & Hfree & Hci).
  pose proof Hfree as (Hcr & _). pose proof (vol_to_geometry _ _ _ _ Hto) as (Ge & Gr & Gs & Gl & Gb & Gi).
  set (root := root_cluster s) in *. set (size := rq_length r - (Z.of_nat (length (rq_path r)) + 1)).
  pose proof (file_entry_eq (to_8_3 (rq_path r)) c size (length_to_8_3 _) ltac:(lia)) as (F1 & F2 & F3 & F4 & F5 & F6).
  fold size in F1, F2, F3, F4, F5, F6. change (clear_times _) with (rq_entry r c) in *.
  assert (Hd' : on_disk n s' root (root :: l)).
  { eapply vol_to_on_disk; [exact Hto| |exact Hroot]. intros x Hx _. rewrite fn_lookup_insert_ne; [done|]. by intros ->. }
  pose proof (to_8_3_head (rq_path r) (c_string_nonzero _)) as Hh.
  destruct (new_entry_found s s' root l i (rq_entry r c) (<[c := EOC]> (fat_get s)) (<[cluster_lba s c := rq_sector r]> (sector s)) (to_8_3 (rq_path r)))
    as [Hnew Hold]; try done.
  { destruct Hroot as (? & ? & _). by split_and!. }
  { intros lba Hl. rewrite fn_lookup_insert_ne; [done|]. intros <-.
    apply list_elem_of_bind in Hl as (y & Hy & Hyl). apply Hcl. destruct (cluster_lbas_head s c Hv) as (k & Ek & _).
    rewrite (lbas_disjoint s c y (cluster_lba s c) Hv); [done| |exact Hy]. rewrite Ek. left. }
  { unfold entry_end. rewrite F3. by apply Z.eqb_neq. }
  { rewrite F4. apply Z.eqb_neq. intros E. apply He5. destruct (to_8_3 (rq_path r)); [done|]. simpl in E |- *. by rewrite E. }
  split_and!.
  - apply Hto.
  - done.
  - rewrite F5, F6, (Z.mod_small c) in Hnew by lia. change (names n s' (rq_path r) (Some (c, size))). rewrite <- Hnew. apply names_root; [done|]. by rewrite Gr.
  - by eapply new_file_chain.
  - by eapply new_file_bytes.
  - done.
Qed.

End Write.
