(* ===== verification/RamDisk.v ===== *)
(** * RamDisk: a disk in memory

    An instance of the interface of [Sectors.v], with its laws, and a small FAT32
    volume on it.  The theorems on the FAT32 server are applied to it. *)

From S2P Require Import Prelude Sectors Fat FatServer FatTable FatDir FatRead FatWrite.

(** Sectors that were never written are zero; only drive 1 is there. *)
Record ramdisk := RamDisk {
  rd_size : Z;
  rd_secs : gmap Z (list Z);
}.

Definition zero_sector : list Z := replicate 512 0.

Definition rd_has (d : ramdisk) (dr lba : Z) : bool := (dr =? 1) && (0 <=? lba) && (lba <? rd_size d).

#[export] Instance ramdisk_dev : BlockDev ramdisk := {
  bd_read d dr lba := if rd_has d dr lba then Some (default zero_sector (rd_secs d !! lba)) else None;
  bd_write d dr lba sec := if rd_has d dr lba then Some (RamDisk (rd_size d) (<[lba := sec]> (rd_secs d))) else None;
}.

Lemma rd_has_dr d dr lba : rd_has d dr lba = true → dr = 1.
Proof. unfold rd_has. intros Hh. lia. Qed.

#[export, refine] Instance ramdisk_laws : BlockLaws ramdisk := {
  bd_wf d := map_Forall (λ _ sec, bytes_ok 512 sec) (rd_secs d);
  bd_in d dr lba := rd_has d dr lba = true;
}.
Proof.
  - intros d dr lba Hd Hi. cbn. rewrite Hi. eexists. split; [done|]. destruct (rd_secs d !! lba) as [sec|] eqn:E.
    + apply (Hd _ _ E).
    + apply zeros_bytes.
  - intros d dr lba sec Hd Hi Hb. cbn. rewrite Hi. eexists. split; [done|]. split_and!.
    + by apply map_Forall_insert_2.
    + done.
    + intros dr' l. unfold rd_has at 1. cbn [rd_size rd_secs]. fold (rd_has d dr' l).
      destruct (decide (l = lba)) as [->|Hne].
      * rewrite lookup_insert_eq. destruct (rd_has d dr' lba) eqn:E.
        -- rewrite bool_decide_eq_true_2; [done|]. by rewrite (rd_has_dr _ _ _ E), (rd_has_dr _ _ _ Hi).
        -- rewrite bool_decide_eq_false_2; [done|]. intros [-> _]. congruence.
      * rewrite lookup_insert_ne by done. by rewrite bool_decide_eq_false_2 by naive_solver.
Defined.

(** A volume of 128 clusters of one sector: the boot sector, the table, then the
    clusters.  The root directory is cluster 2; HELLO.TXT is clusters 3 and 5, 600
    bytes; the directory SUB is cluster 4. *)
Definition demo_boot : list Z :=
  put8 (put8 (put8 (put8 (put32 (put32 zero_sector 0x24 1) 0x2C 2) 0x0C 2) 0x0D 1) 0x0E 1) 0x10 1.

Definition demo_table : list Z :=
  put32 (put32 (put32 (put32 (put32 (put32 zero_sector 0 0x0FFFFFF8) 4 0x0FFFFFFF) 8 0x0FFFFFFF) 12 5) 16 0x0FFFFFFF) 20 0x0FFFFFFF.

Definition demo_name : list Z := [72; 69; 76; 76; 79; 32; 32; 32; 84; 88; 84].
Definition demo_sub : list Z := [83; 85; 66; 32; 32; 32; 32; 32; 32; 32; 32].

Definition demo_root : list Z :=
  put_slice (put_slice zero_sector 0 (new_entry demo_name 0x20 3 600)) 32 (new_entry demo_sub 0x10 4 0).

Definition demo_disk : ramdisk :=
  RamDisk 130 (list_to_map [(0, demo_boot); (1, demo_table); (2, demo_root); (3, replicate 512 65); (5, replicate 512 66)]).

Definition demo_fat : fat ramdisk := Fat 512 1 1 1 1 2 2 demo_disk [] [].

(** The server reads this layout from the boot sector. *)
Example demo_init : init_fs (Fat 0 0 0 0 0 0 0 demo_disk [] []) = UOk true demo_fat.
Proof. vm_compute. reflexivity. Qed.

Lemma rd_has_true d lba : 0 ≤ lba < rd_size d → rd_has d 1 lba = true.
Proof. intros Hl. unfold rd_has. simpl. apply andb_true_intro. lia. Qed.

Lemma demo_wf : bd_wf demo_disk.
Proof.
  change (map_Forall (λ _ sec, bytes_ok 512 sec) (rd_secs demo_disk)). unfold bytes_ok, is_byte. by_decide.
Qed.

Lemma demo_vol : vol demo_fat.
Proof.
  split; try (vm_compute; done); try exact demo_wf; try (unfold entries, EOC; simpl; lia).
  intros dr lba [-> Hl]. apply rd_has_true. simpl in *. lia.
Qed.

Lemma demo_cluster_in c : 2 ≤ c < 130 → cluster_in demo_fat c.
Proof. intros Hc. split; [simpl; lia|]. intros k Hk. apply rd_has_true. simpl in *. lia. Qed.

Lemma demo_on_disk n c l :
  (length l ≤ n)%nat → bool_decide (Forall (λ c, 2 ≤ c < 130) l) = true → chain demo_fat c l → on_disk n demo_fat c l.
Proof.
  intros Hn Hl Hc. split_and!; [done| |done]. apply bool_decide_eq_true in Hl. eapply Forall_impl; [exact Hl|].
  intros x Hx. by apply demo_cluster_in.
Qed.

(** The chains of the volume. *)
Lemma demo_root_dir : on_disk 4 demo_fat 2 [2].
Proof. apply demo_on_disk; [simpl; lia|by vm_compute|]. split_and!; [by vm_compute..|]. by vm_compute. Qed.

Lemma demo_hello : on_disk 4 demo_fat 3 [3; 5].
Proof. apply demo_on_disk; [simpl; lia|by vm_compute|]. by repeat split; vm_compute. Qed.
