(* ===== verification/FatRewrite.v ===== *)
(** * FatRewrite: a write request for a file that exists

    The search for the file's entry goes on after it has been found and updated;
    an end marker further on in the same sector then makes the request fail. *)

From stdpp Require Import functions.
From S2P Require Import Prelude Sectors Fat FatServer FatTable FatDir FatRead FatWrite.

#[local] Open Scope Z_scope.

(** The slot [k] of a sector is passed by a search for [name]. *)
Definition passed (sec name : list Z) (k : Z) : Prop :=
  entry_end sec (32 * k) = false ∧ (entry_skip sec (32 * k) = true ∨ entry_match sec name (32 * k) = false).

(** The slot [i] is the only live entry [name] of the sector, and the slot [j]
    after it is the end of the directory. *)
Definition entry_then_end (sec name : list Z) (i j : Z) : Prop :=
  0 ≤ i < j ∧ j < 16 ∧ entry_end sec (32 * j) = true ∧
  entry_end sec (32 * i) = false ∧ entry_skip sec (32 * i) = false ∧ entry_match sec name (32 * i) = true ∧
  ∀ k, 0 ≤ k < j → k ≠ i → passed sec name k.

(** ** The updated entry *)

Lemma slice_put8_ne l i v j n : 0 ≤ i → 0 ≤ j → 0 ≤ n → (i < j ∨ j + n ≤ i) → slice (put8 l i v) j n = slice l j n.
Proof.
  intros Hi Hj Hn Hd. unfold slice, put8. destruct Hd as [Hd|Hd].
  - by rewrite drop_insert_lt by lia.
  - rewrite !take_drop_commute. by rewrite take_insert_ge by lia.
Qed.

Lemma update_entry_other sec off ds len k :
  0 ≤ off → 0 ≤ k → (off + 32 ≤ k ∨ k + 32 ≤ off + 0x14) → ∀ name,
  let sec' := update_entry sec off ds len in
  entry_end sec' k = entry_end sec k ∧ entry_skip sec' k = entry_skip sec k ∧ entry_match sec' name k = entry_match sec name k.
Proof.
  intros Ho Hk Hd name sec'. unfold entry_end, entry_skip, entry_match. subst sec'. unfold update_entry, put32.
  rewrite !byte_put8_ne by lia. rewrite !slice_put8_ne by lia. done.
Qed.

Lemma update_entry_self sec off ds len name :
  0 ≤ off → off + 32 ≤ Z.of_nat (length sec) → 0 ≤ ds < 2 ^ 32 →
  let sec' := update_entry sec off ds len in
  entry_match sec' name off = entry_match sec name off ∧ entry_cluster sec' off = ds.
Proof.
  intros Ho Hl Hds sec'. subst sec'. unfold update_entry, put32. split.
  - unfold entry_match. rewrite !slice_put8_ne by lia. done.
  - unfold entry_cluster, le16. replace (off + 0x14 + 1) with (off + 0x15) by lia. replace (off + 0x1A + 1) with (off + 0x1B) by lia.
    repeat first [rewrite byte_put8_eq by (rewrite ?length_put8; lia) | rewrite byte_put8_ne by lia].
    pose proof (le32_bytes ds Hds). lia.
Qed.

Section Rewrite.
Context {D : Type} `{BlockLaws D}.

Implicit Types (s : fat D) (c lba : Z) (l : list Z).

Lemma update_sector_pass n m k lba sec name old ds len found s fuel :
  0 ≤ k → (∀ k', k ≤ k' < k + Z.of_nat m → passed sec name k') →
  update_sector fuel (m + n) (32 * k) lba sec name old ds len found s =
    update_sector fuel n (32 * (k + Z.of_nat m)) lba sec name old ds len found s.
Proof.
  revert k. induction m as [|m IH]; intros k Hk Hp; [by rewrite Z.add_0_r|].
  destruct (Hp k ltac:(lia)) as [He Hs]. cbn [Nat.add update_sector]. rewrite He.
  replace (32 * k + 32) with (32 * (k + 1)) by lia. replace (k + Z.of_nat (S m)) with (k + 1 + Z.of_nat m) by lia.
  rewrite <- (IH (k + 1)); [|lia|intros k' Hk'; apply Hp; lia].
  destruct (entry_skip sec (32 * k)); [done|]. destruct Hs as [?|Hs]; [done|]. by rewrite Hs.
Qed.

(** The old chain goes, the entry is stored, and the search ends with -1. *)
Lemma update_sector_end s n c name i j old ol ds len :
  vol s → 2 ≤ c → cluster_in s c → entry_then_end (sector s (cluster_lba s c)) name i j → chain s old ol → (length ol ≤ n)%nat →
  ∃ s', update_sector n 16 0 (cluster_lba s c) (sector s (cluster_lba s c)) name old ds len 0 s = UOk (Some (-1)) s' ∧
    vol_to s s' (λ x, if decide (x ∈ ol) then 0 else fat_get s x)
      (<[cluster_lba s c := update_entry (sector s (cluster_lba s c)) (32 * i) ds len]> (sector s)).
Proof.
  intros Hv Hc Hci (Hi & Hj & Hend & He & Hs & Hm & Hp) Hol Hn.
  pose proof (data_not_table s c 0 Hv ltac:(lia) ltac:(lia)) as Hnt. rewrite Z.add_0_r in Hnt.
  set (lba := cluster_lba s c) in *. set (sec := sector s lba) in *.
  destruct (free_chain_ok s n old ol Hv Hol Hn) as (s1 & E1 & R1). apply retabled_vol_to in R1.
  pose proof (cluster_lba_in s c Hv Hci) as Hin. destruct (sector_ok s _ Hv Hin) as [_ Hb]. fold lba sec in Hb, Hin.
  set (sec' := update_entry sec (32 * i) ds len).
  destruct (write_data_ok s1 lba sec') as (s2 & E2 & R2).
  { apply R1. }
  { by apply R1. }
  { pose proof R1 as (_ & Eg & _). rewrite Eg. exact Hnt. }
  { by apply put8_bytes, put8_bytes, put8_bytes, put8_bytes, put32_bytes. }
  exists s2. split; [|by eapply vol_to_insert].
  transitivity (update_sector n (16 - Z.to_nat i) (32 * i) lba sec name old ds len 0 s).
  { pose proof (update_sector_pass (16 - Z.to_nat i) (Z.to_nat i) 0 lba sec name old ds len 0 s n ltac:(lia)) as E.
    rewrite Z.mul_0_r, Z.add_0_l, Z2Nat.id in E by lia. replace (Z.to_nat i + (16 - Z.to_nat i))%nat with 16%nat in E by lia.
    apply E. intros k Hk. apply Hp; lia. }
  replace (16 - Z.to_nat i)%nat with (S (Z.to_nat (j - i - 1) + S (Z.to_nat (15 - j))))%nat by lia.
  cbn [update_sector]. rewrite He, Hs, Hm. ustep_by ltac:(apply E1). fold sec'. ustep_by ltac:(apply E2). cbn [negb].
  replace (32 * i + 32) with (32 * (i + 1)) by lia.
  assert (Hoth : ∀ k, i < k < 16 → entry_end sec' (32 * k) = entry_end sec (32 * k) ∧
    entry_skip sec' (32 * k) = entry_skip sec (32 * k) ∧ entry_match sec' name (32 * k) = entry_match sec name (32 * k)).
  { intros k Hk. apply update_entry_other; lia. }
  rewrite update_sector_pass; [|lia|].
  - replace (i + 1 + Z.of_nat (Z.to_nat (j - i - 1))) with j by lia. cbn [update_sector].
    destruct (Hoth j ltac:(lia)) as (-> & _). by rewrite Hend.
  - intros k Hk. destruct (Hoth k ltac:(lia)) as (H1 & H2 & H3). unfold passed. rewrite H1, H2, H3. apply Hp; lia.
Qed.

(** The loops around it stop there. *)
Lemma update_loop_end s n c l name old ds len s' :
  vol s → on_disk n s c (c :: l) → vol s' → in_table s' c →
  update_sector n 16 0 (cluster_lba s c) (sector s (cluster_lba s c)) name old ds len 0 s = UOk (Some (-1)) s' →
  update_loop n n c name old ds len s = UOk (Found (-1)) s'.
Proof.
  intros Hv ((_ & Hch & Ht & _) & Hcis & Hn) Hv' Ht' E. pose proof (in_chain_range c Hch) as Hr.
  pose proof (Forall_inv Hcis) as Hci. pose proof (vol_spc s Hv) as Hspc.
  destruct (cluster_lba_range s c Hv ltac:(lia) Hci) as [Hl1 Hl2].
  destruct (sector_ok s _ Hv (cluster_lba_in s c Hv Hci)) as [Er [Hlen _]].
  assert (∃ m, n = S m) as [m Em] by (exists (pred n); simpl in Hn; lia). rewrite Em at 2. cbn [update_loop]. rewrite Hch.
  ustep_by ltac:(by apply cluster_to_sector_eq). ustep_by ltac:(done). fold (cluster_lba s c).
  assert (Es : update_sectors n (Z.to_nat (sectors_per_cluster s)) 0 (cluster_lba s c) name old ds len s = UOk (Found (-1)) s').
  { destruct (Z.to_nat (sectors_per_cluster s)) eqn:E'; [lia|]. cbn [update_sectors].
    rewrite Z.add_0_r, (u32_small (cluster_lba s c)) by lia. ustep_by ltac:(apply Er). unfold in_buf. rewrite Hlen. cbv beta iota.
    ustep_by ltac:(apply E). done. }
  ustep_by ltac:(apply Es). ustep_by ltac:(by apply next_cluster_eq). done.
Qed.

Lemma enter_existing_fails s n r c l name i j old z ol ds nl len :
  vol s → on_disk n s c (c :: l) → entry_then_end (sector s (cluster_lba s c)) name i j →
  chain s old ol → (length ol ≤ n)%nat → chain s ds (ds :: nl) → (length (ds :: nl) ≤ n)%nat →
  (∀ x, x ∈ ds :: nl → x ∉ ol) →
  ∃ s', enter_file n r c name (Some (old, z)) ds len s = UOk tt (said s' [(rq_sender r, 255, [])]) ∧
    sent s' = sent s ∧ fat_get s' ds = 0 ∧ entry_match (sector s' (cluster_lba s c)) name (32 * i) = true ∧
    entry_cluster (sector s' (cluster_lba s c)) (32 * i) = ds.
Proof.
  intros Hv Hd Hent Hol Hln Hnl Hnn Hdis. pose proof Hd as ((_ & Hch & Ht & _) & Hcis & Hn). pose proof (in_chain_range c Hch) as Hr.
  pose proof (Forall_inv Hcis) as Hci. pose proof (vol_spc s Hv) as Hspc.
  pose proof (data_not_table s c 0 Hv ltac:(lia) ltac:(lia)) as Hnt. rewrite Z.add_0_r in Hnt.
  destruct (update_sector_end s n c name i j old ol ds len Hv ltac:(lia) Hci Hent Hol Hln) as (s2 & E2 & R2).
  pose proof (vol_to_geometry _ _ _ _ R2) as (G2 & _).
  destruct (free_chain_ok s2 n ds (ds :: nl)) as (s3 & E3 & R3); [apply R2| |done|].
  { apply (chain_agree s); [done| |done]. intros x Hx Hx'. destruct R2 as (_ & _ & _ & T & _). rewrite T by done.
    by rewrite decide_False by (by apply Hdis). }
  pose proof (cluster_lba_in s c Hv Hci) as Hin. destruct (sector_ok s _ Hv Hin) as [_ [Hlen _]].
  assert (Hs3 : sector s3 (cluster_lba s c) = update_entry (sector s (cluster_lba s c)) (32 * i) ds len).
  { apply retabled_vol_to in R3. destruct R3 as (_ & _ & _ & _ & F3), R2 as (_ & Eg & _ & _ & F2).
    rewrite F3, F2; [by rewrite fn_lookup_insert|done|]. rewrite Eg. exact Hnt. }
  pose proof Hnl as (_ & Hdc & Hdt & _). apply in_chain_range in Hdc. unfold EOC in Hdc.
  destruct Hent as (Hi & Hj & _ & _ & _ & Hm & _).
  destruct (update_entry_self (sector s (cluster_lba s c)) (32 * i) ds len name) as [Hm' Hc']; [lia|lia|lia|].
  exists s3. rewrite Hs3. split_and!; [|destruct R3 as (_ & -> & _), R2 as (_ & -> & _); done| |by rewrite Hm'|done].
  - unfold enter_file. ustep_by ltac:(apply (update_loop_end s n c l name old ds len s2); [done|done|apply R2|unfold in_table; by rewrite G2|done]). ustep_by ltac:(apply E3). done.
  - destruct R3 as (_ & _ & T & _). rewrite T; [by rewrite decide_True by left|]. unfold in_table. by rewrite G2.
Qed.

End Rewrite.
