(* ===== verification/FatDelete.v ===== *)
(** * FatDelete: deleting a file

    The entry a search for a name ends at, and the directory and the table after
    [delete_entry]. *)

From stdpp Require Import functions.
From S2P Require Import Prelude Sectors Fat FatServer FatTable FatDir FatRead FatWrite FatRewrite.

#[local] Open Scope Z_scope.

(** ** The entry found *)

(** An entry a search for [name] passes. *)
Definition passes (name e : list Z) : Prop := entry_end e 0 = false ∧ (entry_skip e 0 = true ∨ take 11 e ≠ name).

Lemma scan_dirents_found name es r :
  scan_dirents name es = Some (Some r) →
  ∃ pre e post, es = pre ++ e :: post ∧ Forall (passes name) pre ∧ entry_end e 0 = false ∧ entry_skip e 0 = false ∧
    take 11 e = name ∧ r = (entry_cluster e 0, entry_size e 0).
Proof.
  induction es as [|e es IH]; [done|]. simpl. destruct (entry_end e 0) eqn:Ee; [done|].
  destruct (entry_skip e 0) eqn:Es; [|case_bool_decide as Hn].
  - intros (pre & e' & post & -> & Hp & He)%IH. exists (e :: pre), e', post. split_and!; [done| |apply He..].
    constructor; [|done]. split; [done|by left].
  - intros [= <-]. exists [], e, es. by split_and!.
  - intros (pre & e' & post & -> & Hp & He)%IH. exists (e :: pre), e', post. split_and!; [done| |apply He..].
    constructor; [|done]. split; [done|by right].
Qed.

Lemma scan_dirents_none name es : scan_dirents name es = None → Forall (passes name) es.
Proof.
  induction es as [|e es IH]; [constructor|]. simpl. destruct (entry_end e 0) eqn:Ee; [done|].
  destruct (entry_skip e 0) eqn:Es; [|case_bool_decide; [done|]]; intros Hn; constructor; unfold passes; auto.
Qed.

Lemma passes_passed sec name k : 0 ≤ k → passes name (slice sec (32 * k) 32) → passed sec name k.
Proof.
  intros Hk. unfold passes, passed. destruct (dirent_eq sec name k Hk) as (-> & -> & <- & _). intros [He Hs].
  split; [done|]. destruct Hs; [by left|right]. by apply bool_decide_eq_false_2.
Qed.

(** Live entries around one that is not the end. *)
Lemma live_app pre es : Forall (λ e, entry_end e 0 = false) pre → live (pre ++ es) = live pre ++ live es.
Proof.
  induction 1 as [|e pre He _ IH]; [done|]. cbn [app]. rewrite !live_cons, He. destruct (entry_skip e 0); [done|]. by rewrite IH.
Qed.

Lemma passes_live name pre : Forall (passes name) pre → Forall (λ e, take 11 e ≠ name) (live pre).
Proof.
  induction 1 as [|e pre [He Hs] _ IH]; [constructor|]. rewrite live_cons, He. destruct (entry_skip e 0); [done|].
  constructor; [|done]. by destruct Hs.
Qed.

(** The first byte of a slot. *)
Lemma slice_put8_head l i v n : 0 ≤ i → 0 < n → slice (put8 l i v) i n = put8 (slice l i n) 0 v.
Proof.
  intros Hi Hn. unfold slice, put8. rewrite drop_insert_ge, Nat.sub_diag by lia. by rewrite take_insert_lt by lia.
Qed.

Lemma dirents_mark sec pre e post v :
  dirents sec = pre ++ e :: post →
  e = slice sec (32 * Z.of_nat (length pre)) 32 ∧ (length pre < 16)%nat ∧
  (∀ k : nat, (k < length pre)%nat → pre !! k = Some (slice sec (32 * Z.of_nat k) 32)) ∧
  dirents (put8 sec (32 * Z.of_nat (length pre)) v) = pre ++ put8 e 0 v :: post.
Proof.
  intros E. assert (Hn : length (dirents sec) = 16%nat) by (unfold dirents; by rewrite length_fmap, length_seqZ).
  assert (Hlk : ∀ k, (k < 16)%nat → dirents sec !! k = Some (slice sec (32 * Z.of_nat k) 32)).
  { intros k Hk. unfold dirents. rewrite list_lookup_fmap, lookup_seqZ_lt by lia. done. }
  set (i := length pre) in *. assert (Hi : (i < 16)%nat) by (rewrite E, length_app in Hn; simpl in Hn; lia).
  pose proof (Hlk i Hi) as He. rewrite E, lookup_app_r, Nat.sub_diag in He by done. injection He as He.
  split_and!; [done|done| |].
  - intros k Hk. rewrite <- (Hlk k) by lia. rewrite E. by rewrite lookup_app_l.
  - assert (Hput : ∀ k, (k < 16)%nat → dirents (put8 sec (32 * Z.of_nat i) v) !! k =
      if decide (k = i) then Some (put8 e 0 v) else dirents sec !! k).
    { intros k Hk. rewrite Hlk by done. unfold dirents. rewrite list_lookup_fmap, lookup_seqZ_lt by lia. simpl.
      destruct (decide (k = i)) as [->|Hne]; f_equal.
      - rewrite He. by apply slice_put8_head; lia.
      - apply slice_put8_ne; lia. }
    apply list_eq. intros k. destruct (decide (k < 16)%nat) as [Hk|Hk].
    + rewrite (Hput k Hk). rewrite E. case_decide as Hd; [subst k; by rewrite lookup_app_r, Nat.sub_diag by done|].
      destruct (decide (k < i)%nat); [by rewrite !lookup_app_l by done|]. rewrite !lookup_app_r by (fold i; lia). fold i.
      by destruct (k - i)%nat eqn:Ek; [lia|].
    + rewrite !lookup_ge_None_2; [done|..].
      * rewrite E, length_app in Hn. rewrite length_app. simpl in *. lia.
      * unfold dirents. rewrite length_fmap, length_seqZ. lia.
Qed.

Section Delete.
Context {D : Type} `{BlockLaws D}.

Implicit Types (s : fat D) (c lba : Z) (l : list Z).

(** The sector in which a name is found. *)
Lemma scan_lbas_found s name ls r :
  scan_dirents name (ls ≫= λ lba, dirents (sector s lba)) = Some (Some r) →
  ∃ l1 lba l2, ls = l1 ++ lba :: l2 ∧ (∀ x, x ∈ l1 → scan_dirents name (dirents (sector s x)) = None) ∧
    scan_dirents name (dirents (sector s lba)) = Some (Some r).
Proof.
  induction ls as [|x ls IH]; [done|]. rewrite bind_cons, scan_dirents_app.
  destruct (scan_dirents name (dirents (sector s x))) as [r'|] eqn:E.
  - intros [= ->]. exists [], x, ls. split_and!; [done| |done]. intros y Hy. by apply not_elem_of_nil in Hy.
  - intros (l1 & lba & l2 & -> & Hno & Hr)%IH. exists (x :: l1), lba, l2. split_and!; [done| |done].
    intros y [->|Hy]%elem_of_cons; [done|by apply Hno].
Qed.

Lemma delete_pass fuel n m k lba sec name s :
  0 ≤ k → (∀ k', k ≤ k' < k + Z.of_nat m → passed sec name k') →
  delete_in_sector fuel (m + n) (32 * k) lba sec name s = delete_in_sector fuel n (32 * (k + Z.of_nat m)) lba sec name s.
Proof.
  revert k. induction m as [|m IH]; intros k Hk Hp; [by rewrite Z.add_0_r|].
  destruct (Hp k ltac:(lia)) as [He Hs]. cbn [Nat.add delete_in_sector]. rewrite He.
  replace (32 * k + 32) with (32 * (k + 1)) by lia. replace (k + Z.of_nat (S m)) with (k + 1 + Z.of_nat m) by lia.
  rewrite <- (IH (k + 1)); [|lia|intros k' Hk'; apply Hp; lia].
  destruct (entry_skip sec (32 * k)); [done|]. destruct Hs as [?|Hs]; [done|]. by rewrite Hs.
Qed.

Lemma delete_none fuel lba sec name s :
  scan_dirents name (dirents sec) = None → delete_in_sector fuel 16 0 lba sec name s = UOk None s.
Proof.
  intros Hn. refine (delete_pass fuel 0 16 0 lba sec name s (Z.le_refl 0) _).
  intros k Hk. apply passes_passed; [lia|]. apply scan_dirents_none in Hn. rewrite Forall_forall in Hn. apply Hn.
  apply list_elem_of_fmap. exists k. split; [done|]. apply elem_of_seqZ. lia.
Qed.

(** The table after a file's chain [cl] has been freed; a directory's is not. *)
Definition freed_if (file : bool) (cl : list Z) (t : Z → Z) (x : Z) : Z := if file && bool_decide (x ∈ cl) then 0 else t x.

Lemma delete_hit s n lba c name pre e post cl :
  vol s → 2 ≤ c → lba ∈ cluster_lbas s c → bd_in (disk s) FAT32_DRIVE lba →
  dirents (sector s lba) = pre ++ e :: post → Forall (passes name) pre → entry_end e 0 = false → entry_skip e 0 = false →
  take 11 e = name → chain s (entry_cluster e 0) cl → (length cl ≤ n)%nat →
  ∃ s', delete_in_sector n 16 0 lba (sector s lba) name s = UOk (Some true) s' ∧
    vol_to s s' (freed_if (Z.land (byte e 0xB) 0x10 =? 0) cl (fat_get s))
      (<[lba := put8 (sector s lba) (32 * Z.of_nat (length pre)) 0xE5]> (sector s)).
Proof.
  intros Hv Hc Hl Hi E Hpre Hend Hskip Hname Hcl Hn. destruct (sector_ok s lba Hv Hi) as [_ Hb].
  destruct (dirents_mark _ _ _ _ 0xE5 E) as (He & Hlt & Hk & _). set (i := length pre) in *. set (sec := sector s lba) in *.
  destruct (dirent_eq sec name (Z.of_nat i) ltac:(lia)) as (D1 & D2 & D3 & D4 & _). rewrite <- He in D1, D2, D3, D4.
  destruct (write_data_ok s lba (put8 sec (32 * Z.of_nat i) 0xE5)) as (s1 & E1 & R1);
    [done|done|by eapply lba_not_table|by apply put8_bytes|].
  assert (Hpass : delete_in_sector n 16 0 lba sec name s = delete_in_sector n (16 - i) (32 * Z.of_nat i) lba sec name s).
  { pose proof (delete_pass n (16 - i) i 0 lba sec name s ltac:(lia)) as Ep. replace (i + (16 - i))%nat with 16%nat in Ep by lia.
    apply Ep. intros k Hk'. apply passes_passed; [lia|]. rewrite Forall_forall in Hpre. apply Hpre.
    apply list_elem_of_lookup_2 with (Z.to_nat k). rewrite Hk by lia. by rewrite Z2Nat.id by lia. }
  assert (Hattr : byte (put8 sec (32 * Z.of_nat i) 0xE5) (32 * Z.of_nat i + 0xB) = byte e 0xB).
  { rewrite byte_put8_ne by lia. rewrite He. by rewrite byte_slice by lia. }
  rewrite Hpass. destruct (16 - i)%nat as [|m] eqn:Em; [lia|]. cbn [delete_in_sector].
  rewrite <- D1, Hend, <- D2, Hskip, <- D3, <- D4, bool_decide_eq_true_2 by done.
  setoid_rewrite (ubind_Ok _ _ _ _ _ E1). cbn [negb]. rewrite Hattr.
  destruct (Z.land (byte e 0xB) 0x10 =? 0) eqn:Ea; cycle 1.
  { exists s1. split; [done|]. eapply vol_to_ext; [exact R1|by intros c' _|done]. }
  pose proof (vol_to_geometry _ _ _ _ R1) as (G1 & _).
  destruct (free_chain_ok s1 n (entry_cluster e 0) cl) as (s2 & E2 & R2); [apply R1| |done|].
  { apply (chain_agree s); [done| |done]. intros x _ Hx. by apply R1. }
  exists s2. split; [ustep_by ltac:(apply E2); done|]. apply retabled_vol_to in R2.
  eapply vol_to_ext; [eapply vol_to_trans; [exact R1|exact R2]|..].
  - intros x Hx. unfold freed_if. cbn [andb]. destruct (decide (x ∈ cl)).
    + by rewrite bool_decide_eq_true_2.
    + rewrite bool_decide_eq_false_2 by done. by apply R1.
  - intros x Hx. by apply R1.
Qed.

(** The sectors of a chain are all different. *)
Lemma lbas_NoDup s c l : vol s → chain s c l → NoDup (lbas s l).
Proof.
  intros Hv. revert c. induction l as [|x l IH]; intros c Hc; [constructor|]. pose proof (chain_NoDup _ _ _ Hc) as Hnd.
  inversion_clear Hnd as [|? ? Hx _]. destruct Hc as (-> & _ & _ & Hc). change (lbas s (c :: l)) with (cluster_lbas s c ++ lbas s l).
  apply NoDup_app. split_and!; [|intros lba H1 H2|by eapply IH].
  - apply NoDup_fmap_2; [intros k k' E; lia|apply NoDup_seqZ].
  - apply list_elem_of_bind in H2 as (y & H2 & Hy). apply Hx. by rewrite (lbas_disjoint s c y lba Hv H1 H2).
Qed.

(** A sector of a directory. *)
Lemma lbas_in s n c l lba :
  vol s → on_disk n s c l → lba ∈ lbas s l →
  ∃ x, 2 ≤ x ∧ lba ∈ cluster_lbas s x ∧ bd_in (disk s) FAT32_DRIVE lba.
Proof.
  intros Hv (Hc & Hi & _) Hl. apply list_elem_of_bind in Hl as (x & Hl & Hx). exists x.
  assert (H2 : 2 ≤ x).
  { clear -Hc Hx. revert c Hc. induction l as [|y l IH]; intros c Hc; [by apply not_elem_of_nil in Hx|].
    destruct Hc as (-> & Hch & _ & Hc). apply elem_of_cons in Hx as [->|Hx]; [apply in_chain_range in Hch; lia|by eapply IH]. }
  split_and!; [done|done|]. rewrite Forall_forall in Hi. destruct (Hi x Hx) as [_ Hin].
  apply list_elem_of_fmap in Hl as (k & -> & Hk%elem_of_seqZ). apply Hin. lia.
Qed.

(** The directory with one sector changed. *)
Lemma dir_entries_change s s' t c l l1 lba l2 sec :
  vol s → chain s c l → lbas s l = l1 ++ lba :: l2 → vol_to s s' t (<[lba := sec]> (sector s)) →
  dir_entries s' l = (l1 ≫= λ x, dirents (sector s x)) ++ dirents sec ++ (l2 ≫= λ x, dirents (sector s x)).
Proof.
  intros Hv Hc El Hto. pose proof (lbas_NoDup s c l Hv Hc) as Hnd. rewrite El in Hnd.
  apply NoDup_app in Hnd as (_ & Hd & Hnd). inversion_clear Hnd as [|? ? Hl2 _].
  pose proof (vol_to_geometry _ _ _ _ Hto) as (_ & _ & _ & Hlbas & _). destruct Hto as (_ & _ & _ & _ & F).
  assert (Hs : ∀ x, x ∈ lbas s l → sector s' x = <[lba := sec]> (sector s) x).
  { intros x Hx. apply F. by eapply lbas_not_table. }
  assert (El' : lbas s' l = l1 ++ lba :: l2) by (rewrite <- El; apply (list_bind_ext _ _ _ _ Hlbas eq_refl)).
  unfold dir_entries. rewrite El', bind_app, bind_cons. f_equal; [|f_equal].
  - apply Forall_bind_ext, Forall_forall. intros x Hx. f_equal. rewrite Hs by (rewrite El; set_solver).
    apply fn_lookup_insert_ne. intros <-. apply (Hd lba Hx). left.
  - rewrite Hs by (rewrite El; set_solver). by rewrite fn_lookup_insert.
  - apply Forall_bind_ext, Forall_forall. intros x Hx. f_equal. rewrite Hs by (rewrite El; set_solver).
    apply fn_lookup_insert_ne. by intros <-.
Qed.

Lemma delete_stays fuel n off lba sec name s s' : delete_in_sector fuel n off lba sec name s = UOk None s' → s' = s.
Proof.
  revert off. induction n as [|n IH]; intros off; [by intros [= <-]|]. cbn [delete_in_sector].
  destruct (entry_end sec off); [done|]. destruct (entry_skip sec off); [apply IH|].
  destruct (entry_match sec name off); [|apply IH].
  intros (ok & s1 & _ & E)%ubind_inv. destruct ok; [|done]. by apply ubind_inv in E as (u & s2 & _ & [=]).
Qed.

Lemma scan_lbas_skip {A} (body : Z → list Z → U (fat D) (option A)) s l1 ls :
  (∀ x, x ∈ l1 → body x (sector s x) s = UOk None s) → scan_lbas (l1 ++ ls) body s = scan_lbas ls body s.
Proof.
  induction l1 as [|x l1 IH]; intros Hno; [done|]. cbn [app scan_lbas]. rewrite (Hno x) by left.
  apply IH. intros y Hy. apply Hno. by right.
Qed.

(** A marked entry is skipped. *)
Lemma marked_skip e : length e = 32%nat → entry_end (put8 e 0 0xE5) 0 = false ∧ entry_skip (put8 e 0 0xE5) 0 = true.
Proof. intros He. unfold entry_end, entry_skip. by rewrite byte_put8_eq by (rewrite He; lia). Qed.

Lemma delete_entry_ok s n c l name fc size cl :
  vol s → on_disk n s c l → lookup_name name (dir_entries s l) = Some (fc, size) → chain s fc cl → (length cl ≤ n)%nat →
  ∃ s' f P e Q, delete_entry n c name s = UOk true s' ∧
    vol_to s s' (freed_if (Z.land (byte e 0xB) 0x10 =? 0) cl (fat_get s)) f ∧
    live (dir_entries s l) = P ++ e :: Q ∧ live (dir_entries s' l) = P ++ Q ∧
    Forall (λ x, take 11 x ≠ name) P ∧ take 11 e = name ∧ entry_cluster e 0 = fc.
Proof.
  intros Hv Hd Hlook Hcl Hn. pose proof Hd as (Hc & Hi & Hln). rewrite <- scan_dirents_lookup in Hlook.
  destruct (scan_dirents name (dir_entries s l)) as [[r|]|] eqn:Escan; simpl in Hlook; try done. injection Hlook as ->.
  destruct (scan_lbas_found s name (lbas s l) _ Escan) as (l1 & lba & l2 & El & Hno & Hhit).
  destruct (scan_dirents_found _ _ _ Hhit) as (pre & e & post & Ed & Hpre & Hend & Hskip & Hname & Hr).
  apply (f_equal fst) in Hr. cbn [fst] in Hr. rewrite Hr in Hcl.
  assert (Hmid : lba ∈ lbas s l) by (rewrite El; apply elem_of_app; right; left).
  destruct (lbas_in s n c l lba Hv Hd Hmid) as (x & Hx & Hlx & Hin).
  destruct (delete_hit s n lba x name pre e post cl) as (s' & E & Hto); [done..|].
  destruct (dirents_mark _ _ _ _ 0xE5 Ed) as (He & Hlt & _ & Em).
  set (A := (l1 ≫= λ x, dirents (sector s x)) ++ pre). set (B := post ++ (l2 ≫= λ x, dirents (sector s x))).
  assert (HA : Forall (passes name) A).
  { apply Forall_app. split; [|done]. apply Forall_bind. apply Forall_forall. intros y Hy. by apply scan_dirents_none, Hno. }
  assert (HA' : Forall (λ e, entry_end e 0 = false) A) by (eapply Forall_impl; [exact HA|]; by intros y [Hy _]).
  exists s', (<[lba := put8 (sector s lba) (32 * Z.of_nat (length pre)) 0xE5]> (sector s)), (live A), e, (live B).
  split_and!; [|exact Hto| | |by apply passes_live|done|by rewrite Hr].
  - unfold delete_entry, mbind, U_bind. rewrite (scan_chain_eq _ _ s n c l Hv); [|intros y s1; apply delete_stays|done..].
    rewrite El, scan_lbas_skip; [cbn [scan_lbas]; by rewrite E|]. intros y Hy. by apply delete_none, Hno.
  - assert (Hes : dir_entries s l = A ++ e :: B).
    { unfold dir_entries. rewrite El, bind_app, bind_cons, Ed. unfold A, B. by rewrite <- !app_assoc. }
    rewrite Hes, live_app, live_cons by done. by rewrite Hend, Hskip.
  - rewrite (dir_entries_change s s' _ c l l1 lba l2 _ Hv Hc El Hto), Em, <- !app_assoc, app_assoc. fold A.
    rewrite live_app by done. cbn [app]. rewrite live_cons. destruct (marked_skip e) as [H1 H2].
    { rewrite He. apply length_slice; [lia|lia|]. destruct (sector_ok s lba Hv Hin) as [_ [-> _]]. lia. }
    by rewrite H1, H2.
Qed.

End Delete.
