(* ===== verification/FatProps.v ===== *)
(** * FatProps: the FAT32 server

    Theorems on the server of [_sdk/user_backup/fat32.c], for every disk that
    satisfies [BlockLaws] and every mounted volume; the witnesses apply them to
    the volume of [RamDisk.v].  [n] bounds the loops over cluster chains: a chain
    of at most [n] clusters is enough for a loop to return. *)

From stdpp Require Import functions.
From S2P Require Import Prelude Serial Sectors Fat FatServer FatTable FatDir FatRead FatWrite RamDisk FatRewrite FatDelete.

#[local] Open Scope Z_scope.

Section Props.
Context {D : Type} `{BlockLaws D}.

Implicit Types (s : fat D) (c lba : Z) (l : list Z).

(** A table entry reads back as it was stored, and storing it changes what no
    other entry reads as: after [set_fat_entry c v], [next_cluster c] is [v] and
    [next_cluster] of any other cluster is what it was. *)
Theorem fat_entry_roundtrip s c c' v w :
  vol s → in_table s c → in_table s c' → 0 ≤ v < 2 ^ 28 → next_cluster c' s = UOk w s →
  ∃ s', set_fat_entry c v s = UOk true s' ∧ next_cluster c' s' = UOk (if decide (c' = c) then v else w) s'.
Proof.
  intros Hv Hc Hc' Hval E. destruct (set_fat_entry_ok s c v Hv Hc Hval) as (s' & E' & R). exists s'. split; [done|].
  rewrite next_cluster_eq in E by done. apply UOk_inj in E as [<- _].
  pose proof (retabled_geometry _ _ _ R) as He. destruct R as (V & _ & T & _).
  rewrite next_cluster_eq; [|done|unfold in_table; by rewrite He]. rewrite T by done. f_equal. case_decide as Hd.
  - subst c'. by rewrite fn_lookup_insert.
  - by rewrite fn_lookup_insert_ne.
Qed.

(** C19: [alloc_cluster] always returns.  It returns the lowest free cluster from 2
    on, marks it as the end of a chain and changes no other entry and no other
    sector; when no cluster is free it returns 0 and changes nothing. *)
Theorem alloc_cluster_first_free s :
  vol s →
  ∃ c s', alloc_cluster s = UOk c s' ∧
    ((c = 0 ∧ s' = s ∧ ∀ x, 2 ≤ x < entries s → fat_get s x ≠ 0) ∨
     (2 ≤ c < entries s ∧ fat_get s c = 0 ∧ (∀ x, 2 ≤ x < c → fat_get s x ≠ 0) ∧ retabled s s' (<[c := EOC]> (fat_get s)))).
Proof.
  intros Hv. destruct (alloc_cluster_ok s Hv) as (c & s' & E & Ha). exists c, s'. split; [done|].
  destruct Ha as [Ha|[(Hc & Hz & Hm) R]]; [by left|by right].
Qed.

(** C18: [free_cluster_chain] returns after as many turns as the chain has clusters,
    frees exactly the clusters of the chain and changes no other sector of the
    disk. *)
Theorem free_cluster_chain_frees s n c l :
  vol s → chain s c l → (length l ≤ n)%nat →
  ∃ s', free_cluster_chain n c s = UOk tt s' ∧ retabled s s' (λ x, if decide (x ∈ l) then 0 else fat_get s x).
Proof. apply free_chain_ok. Qed.

(** C17: [find_in_dir] returns on every directory whose chain ends, leaves the disk
    alone, and its result is the first cluster and the size of the first live entry
    of the directory under that name: entries after the end marker, deleted ones,
    long names and labels do not count. *)
Theorem find_in_dir_lookup s n c l name :
  vol s → on_disk n s c l → find_in_dir n c name false s = UOk (lookup_name name (dir_entries s l)) s.
Proof. intros Hv (Hl & Hi & Hn). by apply find_in_dir_eq. Qed.

(** C38: On a directory whose chain leads back into itself, in clusters none of
    which holds an end marker, the search for a name that is not there does not
    return: no bound on the number of turns is enough. *)
Theorem find_in_dir_cyclic_diverges s C c name :
  vol s → closed s C → (∀ x, x ∈ C → cluster_in s x) → c ∈ C →
  (∀ x, x ∈ C → Forall (λ e, ¬ ends e) (dir_entries s [x]) ∧ lookup_name name (dir_entries s [x]) = None) →
  ∀ n, find_in_dir n c name false s = UFuel.
Proof.
  intros Hv HC Hi Hc Hno n. unfold find_in_dir, mbind, U_bind.
  rewrite (scan_closed _ _ s C n c Hv (find_stays s name) HC Hi); [done| |done].
  intros x Hx. rewrite scan_lbas_find. destruct (Hno x Hx) as [He Hl]. pose proof (scan_dirents_absent name _ He Hl) as Hs.
  unfold dir_entries in Hs. change (lbas s [x]) with (cluster_lbas s x ++ []) in Hs. rewrite app_nil_r in Hs. by rewrite Hs.
Qed.

(** C9: A read request for a file sends the file's contents, in order, in messages
    of type 100: four bytes of offset in the file, lowest first, one byte with the
    number of bytes, 1 to 59, and those bytes; then message 101.  The server
    returns to its loop.  A file whose chain is shorter than its size is sent
    as far as the chain goes, with the same 101 at the end. *)
Theorem handle_read_sends_file s n spawn r c size l :
  vol s → rq_type r = 0 → names n s (rq_path r) (Some (c, size)) → on_disk n s c l → 0 ≤ size ≤ 2 ^ 32 - 512 →
  ∃ msgs, handle n spawn r s = UOk tt (said s (msgs ++ [(rq_sender r, 101, [])])) ∧
    delivers (rq_sender r) 0 msgs (take (Z.to_nat size) (file_bytes s l)).
Proof.
  intros Hv Ht Hp Hd Hs. destruct (handle_read_ok s n r c size l) as (msgs & E & Hm); [done..|]. exists msgs.
  split; [|done]. unfold handle. by rewrite Ht.
Qed.

(** C21: A spawn request for a file of at most 32768 bytes that is all on the disk
    loads it into [file_buf], never past the end of the buffer, and passes the
    buffer, which starts with the file's contents, to the kernel; the reply is 101
    with the pid, or 255. *)
Theorem handle_spawn_loads s n spawn r c size l :
  vol s → rq_type r = 1 → names n s (rq_path r) (Some (c, size)) → on_disk n s c l →
  Z.of_nat (length (file_buf s)) = 32768 → 0 ≤ size ≤ 32768 → size ≤ Z.of_nat (length (file_bytes s l)) →
  ∃ b, length b = length (file_buf s) ∧ take (Z.to_nat size) b = take (Z.to_nat size) (file_bytes s l) ∧
    handle n spawn r s = UOk tt (said (set_file_buf b s)
      [match spawn b size with Some pid => (rq_sender r, 101, pid_bytes pid) | None => (rq_sender r, 255, []) end]).
Proof.
  intros Hv Ht Hp Hd Hb Hs Hl. destruct (load_loop_ok n c l 0 size s) as (j & b & Hj & Hfull & E & Hlen & Hload); [done..|lia|].
  rewrite Z.add_0_l in *. assert (Hoff : size ≤ 512 * Z.of_nat j) by lia. exists b. split_and!; [done| |].
  - simpl in Hload. apply (f_equal (take (Z.to_nat size))) in Hload. rewrite !take_take in Hload.
    by rewrite !Nat.min_l in Hload by lia.
  - unfold handle. rewrite Ht. cbn [Z.eqb]. unfold handle_spawn. ustep_by ltac:(by apply resolve_path_eq).
    cbv beta iota. rewrite (proj2 (Z.ltb_ge 32768 size)) by lia. ustep_by ltac:(apply E). cbv beta iota. rewrite (proj2 (Z.ltb_ge _ size)) by lia.
    ustep_by ltac:(done). change (file_buf (set_file_buf b s)) with b. by destruct (spawn b size).
Qed.

(** C7: A write request for a new file of the root directory, then a read request
    for it: the write is answered with 200, the read sends back exactly the data of
    the write; every name that was in the root directory is still there with the
    same cluster and size.  It needs a free slot in the first sector of the
    directory and a free cluster below 65536. *)
Theorem write_read_roundtrip s n spawn r l i c q :
  vol s → rq_type r = 2 → new_file n s r l i c → rq_type q = 0 → rq_path q = rq_path r →
  ∃ s1 msgs, handle n spawn r s = UOk tt s1 ∧ sent s1 = (rq_sender r, 200, []) :: sent s ∧
    handle n spawn q s1 = UOk tt (said s1 (msgs ++ [(rq_sender q, 101, [])])) ∧
    delivers (rq_sender q) 0 msgs (rq_content r) ∧
    ∀ nm e, lookup_name nm (dir_entries s (root_cluster s :: l)) = Some e →
      lookup_name nm (dir_entries s1 (root_cluster s :: l)) = Some e.
Proof.
  intros Hv Ht Hnew Htq Hpath. destruct (handle_write_new n s r l i c Hv Hnew) as (s' & E & Hto).
  destruct (new_file_holds n s s' r l i c Hv Hnew Hto) as (Hv' & Hsent & Hname & Hd & Hbytes & Hold).
  destruct Hnew as ((_ & Hlen & _) & _). set (s1 := said s' [(rq_sender r, 200, [])]).
  set (size := rq_length r - (Z.of_nat (length (rq_path r)) + 1)) in *.
  destruct (handle_read_ok s1 n q c size [c]) as (msgs & Eq & Hm);
    [by apply said_vol|rewrite Hpath; by apply names_said|by apply on_disk_said|lia|].
  exists s1, msgs. split_and!; [|by rewrite <- Hsent| |by rewrite <- Hbytes|done].
  - unfold handle. rewrite Ht. apply E.
  - unfold handle. rewrite Htq. apply Eq.
Qed.

(** C36: A write request for a file of the root directory that exists, whose entry has
    the end marker of the directory after it in the same sector: the request is
    answered with 255 and the cluster of the new data is freed, but the entry has
    been changed and names that free cluster.  (The search goes on after the entry
    has been found and takes the end marker for "not found".) *)
Theorem rewrite_existing_fails s n spawn r l c i j old z ol :
  vol s → rq_type r = 2 → write_request n s r l c →
  lookup_name (to_8_3 (rq_path r)) (dir_entries s (root_cluster s :: l)) = Some (old, z) →
  entry_then_end (sector s (cluster_lba s (root_cluster s))) (to_8_3 (rq_path r)) i j →
  chain s old ol → (length ol ≤ n)%nat → c ∉ ol →
  ∃ s', handle n spawn r s = UOk tt s' ∧ sent s' = (rq_sender r, 255, []) :: sent s ∧ fat_get s' c = 0 ∧
    entry_match (sector s' (cluster_lba s (root_cluster s))) (to_8_3 (rq_path r)) (32 * i) = true ∧
    entry_cluster (sector s' (cluster_lba s (root_cluster s))) (32 * i) = c.
Proof.
  intros Hv Ht Hw Hex Hent Hol Hn Hc. destruct (handle_write_data n s r l c Hv Hw) as (s2 & E & R & Hd & Hs).
  destruct (write_request_fresh _ _ _ _ _ Hv Hw) as [Hin Hcl]. destruct Hw as (_ & _ & _ & (_ & _ & Hrn) & _ & (Hcr & _) & _).
  pose proof (vol_to_geometry _ _ _ _ R) as (G & _ & Gs & _ & L & _). pose proof (vol_entries s Hv) as Hent'.
  pose proof R as (Hv2 & _ & _ & T & _).
  destruct (enter_existing_fails s2 n r (root_cluster s) l (to_8_3 (rq_path r)) i j old z ol c []
    (rq_length r - (Z.of_nat (length (rq_path r)) + 1))) as (s3 & E3 & Hsent & H1 & H2 & H3).
  { done. }
  { done. }
  { by rewrite L, Hs. }
  { apply (chain_agree s); [done| |done]. intros x Hx Hx'. rewrite T by done. apply fn_lookup_insert_ne. by intros ->. }
  { done. }
  { cbn [chain]. rewrite T, fn_lookup_insert by done. split_and!; [done| |unfold in_table; by rewrite G|done].
    unfold in_chain, is_eoc. rewrite (proj2 (Z.leb_gt EOC c)), (proj2 (Z.leb_le 2 c)) by lia. done. }
  { simpl in *. lia. }
  { intros x Hx. apply list_elem_of_singleton in Hx as ->. done. }
  rewrite L in H2, H3. exists (said s3 [(rq_sender r, 255, [])]). split_and!; [|by rewrite <- Gs, <- Hsent|done..].
  unfold handle. rewrite Ht. cbn [Z.eqb Pos.eqb]. rewrite E, Hex. exact E3.
Qed.

(** C20: A delete request for a name of the root directory is answered with 200.  The
    first live entry under that name, and no other, is gone from the directory.  If
    it is the entry of a file, the clusters of its chain are free; if it is the
    entry of a directory, they are not freed.  Every other entry of the table is as
    before, and the directory is still on the disk. *)
Theorem delete_removes_file s n spawn r l c size cl :
  vol s → (rq_type r = 3 ∨ rq_type r = 5) → split_path (rq_path r) = None → on_disk n s (root_cluster s) l →
  lookup_name (to_8_3 (rq_path r)) (dir_entries s l) = Some (c, size) → chain s c cl → (length cl ≤ n)%nat →
  (∀ x, x ∈ cl → x ∉ l) →
  ∃ s' P e Q, handle n spawn r s = UOk tt (said s' [(rq_sender r, 200, [])]) ∧ vol s' ∧ sent s' = sent s ∧
    on_disk n s' (root_cluster s) l ∧
    live (dir_entries s l) = P ++ e :: Q ∧ live (dir_entries s' l) = P ++ Q ∧
    Forall (λ x, take 11 x ≠ to_8_3 (rq_path r)) P ∧ take 11 e = to_8_3 (rq_path r) ∧ first_cluster e = c ∧
    ∀ x, in_table s x →
      fat_get s' x = if is_directory e then fat_get s x else if decide (x ∈ cl) then 0 else fat_get s x.
Proof.
  intros Hv Ht Hsplit Hd Hlook Hcl Hn Hdis.
  destruct (delete_entry_ok s n _ l _ c size cl Hv Hd Hlook Hcl Hn) as (s' & f & P & e & Q & E & Hto & H1 & H2 & H3 & H4 & H5).
  assert (Hout : ∀ x, x ∉ cl → freed_if (Z.land (byte e 0xB) 0x10 =? 0) cl (fat_get s) x = fat_get s x).
  { intros x Hx. unfold freed_if. by rewrite (bool_decide_eq_false_2 _ Hx), andb_false_r. }
  pose proof (vol_to_geometry _ _ _ _ Hto) as (_ & _ & Gs & _). pose proof Hto as (Hv' & _ & _ & T & _).
  exists s', P, e, Q. split_and!; try done.
  - assert (Eh : handle_delete n r s = UOk tt (said s' [(rq_sender r, 200, [])])).
    { unfold handle_delete. ustep_by ltac:(by apply resolve_parent_root). ustep_by ltac:(apply E). done. }
    unfold handle. destruct Ht as [-> | ->]; exact Eh.
  - eapply vol_to_on_disk; [exact Hto| |done]. intros x Hx _. apply Hout. intros Hx'. by apply (Hdis x).
  - by rewrite <- entry_cluster_first.
  - intros x Hx. rewrite T by done. unfold freed_if, is_directory. change 0x10 with (2 ^ 4).
    rewrite land_pow2_testbit by lia. change 0xB with 11. destruct (Z.testbit _ 4); [done|].
    cbn [negb andb]. case_bool_decide; case_decide; done.
Qed.

(** The clusters of a directory entry for a new file: the code stores all four
    bytes of the first cluster's number and then, clearing time stamps, zeroes the
    upper two; what is read back is the number modulo 65536. *)
Theorem new_file_entry_cluster name c size :
  length name = 11%nat → 0 ≤ size < 2 ^ 32 →
  let e := clear_times (new_entry name 0x20 c size) in
  entry_cluster e 0 = c mod 2 ^ 16 ∧ entry_size e 0 = size ∧ entry_match e name 0 = true.
Proof.
  intros Hn Hs e. destruct (file_entry_eq name c size Hn Hs) as (Hl & Hname & _ & _ & Hc & Hz). subst e.
  split_and!; [done..|]. unfold entry_match. by apply bool_decide_eq_true_2.
Qed.

(** C37: A request to write, delete or make something in a directory that exists: the
    server faults.  It passes a null pointer for the size of the directory to
    [find_in_dir], which stores the size through it. *)
Theorem subdirectory_change_traps s n spawn r d f l e :
  vol s → (rq_type r = 2 ∧ Z.of_nat (length (rq_path r)) + 1 ≤ i32 (rq_length r) ∨ rq_type r = 3 ∨ rq_type r = 4 ∨ rq_type r = 5) →
  split_path (rq_path r) = Some (d, f) → (length d ≤ 63)%nat → on_disk n s (root_cluster s) l →
  lookup_name (to_8_3 d) (dir_entries s l) = Some e →
  handle n spawn r s = UTrap.
Proof.
  intros Hv Ht Hsplit Hd (Hl & Hi & Hn) He.
  assert (E : resolve_parent n (rq_path r) s = UTrap).
  { unfold resolve_parent. rewrite Hsplit. replace (63 <? length d)%nat with false by (symmetry; apply Nat.ltb_ge; lia).
    ustep_by ltac:(done). unfold mbind, U_bind. by rewrite (find_in_dir_null s n _ l), He. }
  unfold handle. destruct Ht as [[-> Hlen]|[-> |[-> | ->]]]; cbn [Z.eqb Pos.eqb orb];
    unfold handle_write, handle_delete, handle_mkdir; [rewrite (proj2 (Z.ltb_ge _ 0)) by lia|..];
    unfold mbind at 1, U_bind at 1; by rewrite E.
Qed.

End Props.

(** C22: The 11 bytes the code computes for a name: with [base] the part before the
    first dot and [ext] what follows it, the capitals of [base] cut or filled with
    spaces to 8 bytes, then those of [ext] cut or filled to 3; a name without a dot
    has an empty [ext]. *)
Theorem to_8_3_short_name base ext :
  46 ∉ base →
  to_8_3 base = pad 8 (capital <$> base) ++ replicate 3 32 ∧
  to_8_3 (base ++ 46 :: ext) = pad 8 (capital <$> base) ++ pad 3 (capital <$> ext).
Proof.
  intros Hb. destruct (base_ext_spec base ext Hb) as [E1 E2]. rewrite !to_8_3_eq. unfold short_name.
  rewrite E1, E2. simpl. by rewrite !(list_fmap_ext upper capital) by (intros; apply upper_capital).
Qed.

(** ** Witnesses *)

Lemma fat_entry_roundtrip_witness :
  ∃ s', set_fat_entry 7 9 demo_fat = UOk true s' ∧ next_cluster 3 s' = UOk 5 s'.
Proof.
  destruct (fat_entry_roundtrip demo_fat 7 3 9 5 demo_vol) as (s' & E & E'); [done|done|lia|by vm_compute|by exists s'].
Defined.

Lemma alloc_cluster_first_free_witness :
  ∃ s', alloc_cluster demo_fat = UOk 6 s' ∧ retabled demo_fat s' (<[6 := EOC]> (fat_get demo_fat)).
Proof.
  destruct (alloc_cluster_first_free demo_fat demo_vol) as (c & s' & E & [(-> & _ & Hno)|(Hc & Hz & Hm & R)]).
  - exfalso. by apply (Hno 6).
  - assert (c = 6) as ->; [|by exists s'].
    assert (Hnz : ∀ x, 2 ≤ x < 6 → fat_get demo_fat x ≠ 0).
    { intros x Hx. assert (x = 2 ∨ x = 3 ∨ x = 4 ∨ x = 5) as [-> |[-> |[-> | ->]]] by lia; by vm_compute. }
    destruct (decide (c < 6)); [by destruct (Hnz c ltac:(lia))|]. destruct (decide (6 < c)); [|lia].
    exfalso. by apply (Hm 6 ltac:(lia)).
Defined.

Lemma free_cluster_chain_frees_witness :
  ∃ s', free_cluster_chain 4 3 demo_fat = UOk tt s' ∧
    retabled demo_fat s' (λ x, if decide (x ∈ [3; 5]) then 0 else fat_get demo_fat x).
Proof. apply (free_cluster_chain_frees demo_fat 4 3 [3; 5] demo_vol); apply demo_hello. Defined.

Lemma to_8_3_short_name_witness :
  to_8_3 (chars "hello.txt") = chars "HELLO   TXT" ∧ to_8_3 (chars "Makefile.tar.gz") = chars "MAKEFILETAR".
Proof.
  split.
  - exact (proj2 (to_8_3_short_name (chars "hello") (chars "txt") ltac:(by_decide))).
  - exact (proj2 (to_8_3_short_name (chars "Makefile") (chars "tar.gz") ltac:(by_decide))).
Defined.

Lemma find_in_dir_lookup_witness : find_in_dir 4 2 demo_name false demo_fat = UOk (Some (3, 600)) demo_fat.
Proof. exact (find_in_dir_lookup demo_fat 4 2 [2] demo_name demo_vol demo_root_dir). Defined.

(** The volume with cluster 2, full of files, leading to itself. *)
Definition full_root : list Z := mjoin (replicate 16 (new_entry demo_name 0x20 3 600)).
Definition cyclic_fat : fat ramdisk :=
  Fat 512 1 1 1 1 2 2 (RamDisk 130 (list_to_map [(1, put32 demo_table 8 2); (2, full_root)])) [] [].

Lemma find_in_dir_cyclic_diverges_witness : find_in_dir 1000 2 demo_sub false cyclic_fat = UFuel.
Proof.
  apply (find_in_dir_cyclic_diverges cyclic_fat [2]).
  - split; try (vm_compute; done); try (unfold entries, EOC; simpl; lia).
    + change (map_Forall (λ _ sec, bytes_ok 512 sec) (rd_secs (disk cyclic_fat))). unfold bytes_ok, is_byte. by_decide.
    + intros dr lba [-> Hl]. apply rd_has_true. simpl in *. lia.
  - intros c Hc. apply list_elem_of_singleton in Hc as ->. split_and!; [done|done|]. apply list_elem_of_singleton. by vm_compute.
  - intros x Hx. apply list_elem_of_singleton in Hx as ->. split; [simpl; lia|]. intros k Hk. apply rd_has_true. simpl in *. lia.
  - left.
  - intros x Hx. apply list_elem_of_singleton in Hx as ->. split; [unfold ends; by_decide|by vm_compute].
Defined.

(** Requests: a path or a path and data, filled with zeros to 64 bytes. *)
Definition demo_request (type : Z) (bs : list Z) : request :=
  Request 9 type (bs ++ replicate (64 - length bs) 0) (Z.of_nat (length bs)).

Definition hello_path : list Z := [104; 101; 108; 108; 111; 46; 116; 120; 116; 0].
Definition sub_path : list Z := [115; 117; 98; 47; 97; 0].
Definition new_path : list Z := [97; 46; 98; 0; 1; 2; 3].

Lemma demo_hello_named : names 4 demo_fat (rq_path (demo_request 0 hello_path)) (Some (3, 600)).
Proof. exact (names_root 4 demo_fat (rq_path (demo_request 0 hello_path)) [2] eq_refl demo_root_dir). Qed.

Lemma handle_read_sends_file_witness :
  ∃ msgs, handle 4 (λ _ _, None) (demo_request 0 hello_path) demo_fat = UOk tt (said demo_fat (msgs ++ [(9, 101, [])])) ∧
    delivers 9 0 msgs (replicate 512 65 ++ replicate 88 66).
Proof.
  exact (handle_read_sends_file demo_fat 4 (λ _ _, None) (demo_request 0 hello_path) 3 600 [3; 5] demo_vol eq_refl
    demo_hello_named demo_hello ltac:(lia)).
Defined.

Definition spawn_fat : fat ramdisk := set_file_buf (replicate (Z.to_nat 32768) 0) demo_fat.

Lemma spawn_vol : vol spawn_fat.
Proof. by destruct demo_vol; split. Qed.

Lemma spawn_hello_named : names 4 spawn_fat (rq_path (demo_request 1 hello_path)) (Some (3, 600)).
Proof.
  exact (names_root 4 spawn_fat (rq_path (demo_request 1 hello_path)) [2] eq_refl (on_disk_buf _ _ _ _ _ demo_root_dir)).
Qed.

Lemma handle_spawn_loads_witness :
  ∃ b, length b = length (file_buf spawn_fat) ∧ take 600 b = replicate 512 65 ++ replicate 88 66 ∧
    handle 4 (λ _ _, Some 11) (demo_request 1 hello_path) spawn_fat = UOk tt (said (set_file_buf b spawn_fat) [(9, 101, pid_bytes 11)]).
Proof.
  exact (handle_spawn_loads spawn_fat 4 (λ _ _, Some 11) (demo_request 1 hello_path) 3 600 [3; 5] spawn_vol eq_refl
    spawn_hello_named (on_disk_buf _ _ _ _ _ demo_hello) (f_equal Z.of_nat (length_replicate _ _)) ltac:(lia) ltac:(by vm_compute)).
Defined.

Lemma demo_write_request bs :
  bool_decide (bytes_ok 64 (rq_data (demo_request 2 bs))) = true →
  Z.of_nat (length (rq_path (demo_request 2 bs))) + 1 < rq_length (demo_request 2 bs) ≤ 64 →
  split_path (rq_path (demo_request 2 bs)) = None → write_request 4 demo_fat (demo_request 2 bs) [] 6.
Proof.
  intros Hb Hl Hs. split_and!; [by apply bool_decide_eq_true in Hb|lia|lia|done|exact demo_root_dir| | |by apply demo_cluster_in].
  - intros x Hx. apply list_elem_of_singleton in Hx as ->. by vm_compute.
  - split_and!; [done|done|by vm_compute|]. intros x Hx. assert (x = 2 ∨ x = 3 ∨ x = 4 ∨ x = 5) as [-> |[-> |[-> | ->]]] by lia; by vm_compute.
Qed.

Lemma demo_new_file : new_file 4 demo_fat (demo_request 2 new_path) [] 2 6.
Proof.
  split_and!; [apply demo_write_request; by vm_compute|by vm_compute|by vm_compute| |done].
  split_and!; [done|done|left; by vm_compute|]. intros j Hj. assert (j = 0 ∨ j = 1) as [-> | ->] by lia; by vm_compute.
Qed.

Lemma write_read_roundtrip_witness :
  ∃ s1 msgs, handle 4 (λ _ _, None) (demo_request 2 new_path) demo_fat = UOk tt s1 ∧ sent s1 = [(9, 200, [])] ∧
    handle 4 (λ _ _, None) (demo_request 0 (take 4 new_path)) s1 = UOk tt (said s1 (msgs ++ [(9, 101, [])])) ∧
    delivers 9 0 msgs [1; 2; 3] ∧
    ∀ nm e, lookup_name nm (dir_entries demo_fat [2]) = Some e → lookup_name nm (dir_entries s1 [2]) = Some e.
Proof.
  exact (write_read_roundtrip demo_fat 4 (λ _ _, None) (demo_request 2 new_path) [] 2 6 (demo_request 0 (take 4 new_path))
    demo_vol eq_refl demo_new_file eq_refl eq_refl).
Defined.

Lemma rewrite_existing_fails_witness :
  ∃ s', handle 4 (λ _ _, None) (demo_request 2 (hello_path ++ [1; 2; 3])) demo_fat = UOk tt s' ∧ sent s' = [(9, 255, [])] ∧
    fat_get s' 6 = 0 ∧ entry_match (sector s' 2) demo_name 0 = true ∧ entry_cluster (sector s' 2) 0 = 6.
Proof.
  apply (rewrite_existing_fails demo_fat 4 (λ _ _, None) (demo_request 2 (hello_path ++ [1; 2; 3])) [] 6 0 2 3 600 [3; 5]).
  - exact demo_vol.
  - done.
  - apply demo_write_request; by vm_compute.
  - by vm_compute.
  - unfold entry_then_end, passed. split_and!; try (by vm_compute). intros k Hk Hne. assert (k = 1) as -> by lia. by vm_compute; auto.
  - apply demo_hello.
  - simpl. lia.
  - by_decide.
Defined.

Lemma demo_in_table x : 2 ≤ x < 6 → in_table demo_fat x.
Proof. intros Hx. unfold in_table. change (entries demo_fat) with 128. lia. Qed.

(** A file loses its clusters, a directory does not. *)
Lemma delete_removes_file_witness :
  (∃ s' e, handle 4 (λ _ _, None) (demo_request 3 hello_path) demo_fat = UOk tt (said s' [(9, 200, [])]) ∧
    live (dir_entries demo_fat [2]) = e :: live (dir_entries s' [2]) ∧ fat_get s' 3 = 0 ∧ fat_get s' 5 = 0) ∧
  (∃ s', handle 4 (λ _ _, None) (demo_request 3 (take 3 sub_path)) demo_fat = UOk tt (said s' [(9, 200, [])]) ∧
    fat_get s' 4 = fat_get demo_fat 4).
Proof.
  split.
  - destruct (delete_removes_file demo_fat 4 (λ _ _, None) (demo_request 3 hello_path) [2] 3 600 [3; 5] demo_vol (or_introl eq_refl)
      eq_refl demo_root_dir ltac:(by vm_compute) (proj1 demo_hello) ltac:(simpl; lia) ltac:(set_solver))
      as (s' & P & e & Q & E & _ & _ & _ & HL & HL' & HP & He & _ & Hf).
    destruct P as [|x P]; cycle 1.
    { exfalso. assert (Hx : head (live (dir_entries demo_fat [2])) = Some x) by (rewrite HL; reflexivity).
      assert (Hx' : take 11 <$> head (live (dir_entries demo_fat [2])) = Some demo_name) by (vm_compute; reflexivity).
      rewrite Hx in Hx'. apply Forall_cons in HP as [HP _]. apply HP. injection Hx' as ->. vm_compute. reflexivity. }
    assert (Hd : is_directory <$> head (live (dir_entries demo_fat [2])) = Some false) by (vm_compute; reflexivity).
    rewrite HL in Hd. injection Hd as Hd.
    exists s', e. split; [exact E|]. rewrite HL', HL. split; [reflexivity|].
    pose proof (Hf 3 (demo_in_table 3 ltac:(lia))) as H3. pose proof (Hf 5 (demo_in_table 5 ltac:(lia))) as H5.
    rewrite Hd, decide_True in H3 by by_decide. rewrite Hd, decide_True in H5 by by_decide. split; [exact H3|exact H5].
  - destruct (delete_removes_file demo_fat 4 (λ _ _, None) (demo_request 3 (take 3 sub_path)) [2] 4 0 [4] demo_vol (or_introl eq_refl)
      eq_refl demo_root_dir ltac:(by vm_compute) ltac:(split_and!; [done|done|by vm_compute|by vm_compute]) ltac:(simpl; lia) ltac:(set_solver))
      as (s' & P & e & Q & E & _ & _ & _ & HL & _ & _ & He & _ & Hf).
    exists s'. split; [exact E|]. pose proof (Hf 4 (demo_in_table 4 ltac:(lia))) as H4.
    assert (Hd : is_directory <$> filter (λ e, take 11 e = demo_sub) (live (dir_entries demo_fat [2])) = [true]) by (vm_compute; reflexivity).
    rewrite HL in Hd. rewrite filter_app, filter_cons_True, fmap_app, fmap_cons in Hd by exact He.
    assert (Hall : Forall (λ b, b = true) (is_directory <$> filter (λ e, take 11 e = demo_sub) P) ∧ is_directory e = true).
    { destruct (is_directory <$> filter _ P) as [|b bs]; [|by destruct bs]. by injection Hd as ->. }
    rewrite (proj2 Hall) in H4. exact H4.
Defined.

Lemma new_file_entry_cluster_witness :
  entry_cluster (clear_times (new_entry demo_name 0x20 0x10005 3)) 0 = 5.
Proof. exact (proj1 (new_file_entry_cluster demo_name 0x10005 3 eq_refl ltac:(lia))). Defined.

Lemma subdirectory_change_traps_witness : handle 4 (λ _ _, None) (demo_request 4 sub_path) demo_fat = UTrap.
Proof.
  exact (subdirectory_change_traps demo_fat 4 (λ _ _, None) (demo_request 4 sub_path) [115; 117; 98] [97] [2] (4, 0)
    demo_vol ltac:(by right; right; left) eq_refl ltac:(simpl; lia) demo_root_dir ltac:(by vm_compute)).
Defined.
