(* ===== verification/Process.v ===== *)
(** * Process: programs that exchange messages and use ports

    The state of a user program under [_sdk/user_backup]: the answers [recv] will
    give, the messages sent, and the ports.  [send] and [recv] are the system
    calls of the kernel, 2 and 3; here they are lists. *)

From S2P Require Import Prelude Sectors Fat FatServer.

(** A port access, as in the kernel's model: reads with their value. *)
Inductive port_event := PIn (port v : Z) | POut (port v : Z).

(** - [inbox]: what the coming calls of [recv] find, [None] for an empty queue.
      After them the program polls for ever;
    - [outbox]: the messages sent, latest first;
    - [device]: the value a port gives after the accesses so far;
    - [io]: the accesses so far, latest first;
    - [irqs]: the interrupt lines it has registered for, latest first. *)
Record proc := Proc {
  inbox : list (option request);
  outbox : list (Z * Z * list Z);
  device : list port_event → Z → Z;
  io : list port_event;
  irqs : list Z;
}.

Definition set_inbox (l : list (option request)) (s : proc) : proc := Proc l (outbox s) (device s) (io s) (irqs s).
Definition set_outbox (l : list (Z * Z * list Z)) (s : proc) : proc := Proc (inbox s) l (device s) (io s) (irqs s).
Definition set_io (l : list port_event) (s : proc) : proc := Proc (inbox s) (outbox s) (device s) l (irqs s).

Definition psend (pid type : Z) (data : list Z) : U proc unit :=
  umodify (λ s, set_outbox ((pid, type, data) :: outbox s) s).

(** One call: a message or nothing. *)
Definition precv : U proc (option request) := λ s,
  match inbox s with
  | [] => UFuel
  | o :: l => UOk o (set_inbox l s)
  end.

Definition pinb (port : Z) : U proc Z := λ s,
  let v := u8 (device s (io s) port) in UOk v (set_io (PIn port v :: io s) s).
Definition poutb (port v : Z) : U proc unit := umodify (λ s, set_io (POut port (u8 v) :: io s) s).

Definition irq_register (irq : Z) : U proc unit :=
  umodify (λ s, Proc (inbox s) (outbox s) (device s) (io s) (irq :: irqs s)).

(** [while (recv(&m) != 0 || reject m) pause]: messages that are rejected are lost. *)
Fixpoint take_msg (accept : request → bool) (l : list (option request)) : option (request * list (option request)) :=
  match l with
  | [] => None
  | Some m :: l' => if accept m then Some (m, l') else take_msg accept l'
  | None :: l' => take_msg accept l'
  end.

Definition wait_msg (accept : request → bool) : U proc request := λ s,
  match take_msg accept (inbox s) with
  | None => UFuel
  | Some (m, l) => UOk m (set_inbox l s)
  end.

Definition wait_any : U proc request := wait_msg (λ _, true).
Definition wait_from (pid : Z) : U proc request := wait_msg (λ m, rq_sender m =? pid).

(** [for (;;)]: the next message to [serve], [n] times. *)
Fixpoint serve_loop (n : nat) (serve : request → U proc unit) : U proc unit :=
  match n with
  | O => mret tt
  | S n' => m ← wait_any; serve m ;; serve_loop n' serve
  end.

(** A loop each turn of which takes at least one message. *)
Definition per_msg {A} (loop : nat → U proc A) : U proc A := λ s, loop (S (length (inbox s))) s.

(** The bytes of a string literal; line ends are written [crlf]. *)
Definition bytes_of (s : string) : list Z := (λ a, Z.of_N (Ascii.N_of_ascii a)) <$> String.list_ascii_of_string s.
Definition crlf : list Z := [13; 10].

(** Strings sent in pieces of at most 63 bytes. *)
Fixpoint pieces (n : nat) (s : list Z) : list (list Z) :=
  match n, s with
  | S n', _ :: _ => take 63 s :: pieces n' (drop 63 s)
  | _, _ => []
  end.

(** ** Lemmas *)

Definition told (s : proc) (msgs : list (Z * Z * list Z)) : proc := set_outbox (reverse msgs ++ outbox s) s.

Lemma told_app s m1 m2 : told (told s m1) m2 = told s (m1 ++ m2).
Proof. unfold told, set_outbox. simpl. by rewrite reverse_app, app_assoc. Qed.

Lemma told_inbox s l m1 m2 : told (set_inbox l (told s m1)) m2 = told (set_inbox l s) (m1 ++ m2).
Proof. unfold told, set_outbox. simpl. by rewrite reverse_app, app_assoc. Qed.

Lemma told_nil s : told s [] = s.
Proof. by destruct s. Qed.

Lemma pieces_concat n s : (length s ≤ n)%nat → mjoin (pieces n s) = s.
Proof.
  revert s. induction n as [|n IH]; intros s Hs; [by destruct s; [|simpl in Hs; lia]|].
  destruct s as [|b s]; [done|]. cbn [pieces]. change (mjoin (?x :: ?l)) with (x ++ mjoin l).
  rewrite IH by (rewrite length_drop; cbn [length] in *; lia). apply take_drop.
Qed.

Lemma pieces_short n s : Forall (λ p, 0 < length p ≤ 63)%nat (pieces n s).
Proof.
  revert s. induction n as [|n IH]; intros s; [constructor|]. destruct s as [|b s]; [constructor|]. cbn [pieces].
  constructor; [|apply IH]. rewrite length_take. cbn [length]. lia.
Qed.
