(* ===== verification/Command.v ===== *)
(** * Command: the command interpreter ([_sdk/user_backup/command.c])

    It turns a line from the shell into requests to the FAT32 server and sends the
    shell the text to show: messages of type 2, then one of type 4, or of type 3
    before it exits. *)

From S2P Require Import Prelude Sectors Fat FatServer Process.

Definition FAT32_PID : Z := 7.
Definition FAT32_TYPE_READ : Z := 0.
Definition FAT32_TYPE_SPAWN : Z := 1.
Definition FAT32_CHUNK : Z := 100.
Definition FAT32_PID_RESP : Z := 101.
Definition FAT32_ERR : Z := 255.

(** Messages of one kind, in order. *)
Fixpoint send_all (pid type : Z) (ps : list (list Z)) : U proc unit :=
  match ps with
  | [] => mret tt
  | p :: ps' => psend pid type p ;; send_all pid type ps'
  end.

Definition send_str (pid : Z) (s : list Z) : U proc unit := send_all pid 2 (pieces (length s) s).

(** Pointers into the message are the bytes from there on, to the end of the
    structure; beyond it nothing is known. *)

(** Skips spaces. *)
Fixpoint skip_spaces (p : list Z) : U proc (list Z) :=
  match p with
  | [] => utrap
  | b :: p' => if b =? 32 then skip_spaces p' else mret p
  end.

Definition cmd_path (msg : request) (k : nat) : U proc (list Z) := skip_spaces (drop k (rq_mem msg)).

(** The replies to a read request, until the last one. *)
Fixpoint read_replies (n : nat) (shell : Z) : U proc unit :=
  match n with
  | O => ufuel
  | S n' =>
    resp ← wait_from FAT32_PID;
    if rq_type resp =? FAT32_ERR then
      psend shell 2 (bytes_of "Error" ++ crlf) ;;
      psend shell 4 []
    else if rq_type resp =? 101 then mret tt
    else if rq_type resp =? FAT32_CHUNK then
      chunk_sz ← rd8 (rq_data resp) 4;
      bs ← rd_slice (rq_mem resp) 5 chunk_sz;
      psend shell 2 bs ;;
      read_replies n' shell
    else read_replies n' shell
  end.

Definition do_readfile (msg : request) (shell : Z) : U proc unit :=
  path ← cmd_path msg 9;
  bs ← rd_slice path 0 63;
  psend FAT32_PID FAT32_TYPE_READ bs ;;
  per_msg (λ n, read_replies n shell) ;;
  psend shell 2 crlf ;;
  psend shell 4 [].

(** [hex]: the sixteen digits of a pid without leading zeros, the last one kept. *)
Definition hex_digit_lower (d : Z) : Z := if d <? 10 then 48 + d else 97 + d - 10.
Definition hex16 (pid : Z) : list Z := (λ i, hex_digit_lower (Z.land (Z.shiftr pid (4 * (15 - i))) 0xF)) <$> seqZ 0 16.
Fixpoint strip_zeros (n : nat) (l : list Z) : list Z :=
  match n, l with
  | S n', b :: l' => if b =? 48 then strip_zeros n' l' else l
  | _, _ => l
  end.

(** The pid in the first eight bytes of a reply. *)
Definition pid_of_bytes (data : list Z) : Z := foldr (λ b pid, Z.lor (Z.shiftl pid 8) b) 0 (take 8 data).

Definition do_spawn (msg : request) (shell : Z) : U proc unit :=
  path ← cmd_path msg 6;
  bs ← rd_slice path 0 63;
  psend FAT32_PID FAT32_TYPE_SPAWN bs ;;
  resp ← wait_from FAT32_PID;
  (if rq_type resp =? FAT32_ERR then send_str shell (bytes_of "Spawn error" ++ crlf)
   else if rq_type resp =? FAT32_PID_RESP then
     send_str shell (bytes_of "Spawned PID ") ;;
     send_str shell (strip_zeros 15 (hex16 (u64 (pid_of_bytes (rq_data resp))))) ;;
     send_str shell crlf
   else mret tt) ;;
  psend shell 4 [].

(** The bytes before the first that satisfies [stop], and the rest from it on. *)
Fixpoint scan_to (stop : Z → bool) (p : list Z) : U proc (list Z * list Z) :=
  match p with
  | [] => utrap
  | b :: p' => if stop b then mret ([], p) else r ← scan_to stop p'; mret (b :: r.1, r.2)
  end.

(** The three digits of a reply's type. *)
Definition err_text (n : Z) : list Z :=
  bytes_of "Err: " ++ [u8 (Z.quot n 100 + 48); u8 (Z.rem (Z.quot n 10) 10 + 48); u8 (Z.rem n 10 + 48)] ++ crlf ++ [0].

Definition do_writefile (msg : request) (shell : Z) : U proc unit :=
  path ← cmd_path msg 10;
  r ← scan_to (λ b, (b =? 0) || (b =? 32)) path;
  let name := r.1 in
  sep ← rd8 r.2 0;
  if (sep =? 0) || (length name =? 0)%nat then send_str shell (bytes_of "Usage: writefile <path> <data>" ++ crlf)
  else
    d ← scan_to (λ b, b =? 0) (drop 1 r.2);
    let head := take 50 name ++ [0] in
    let data := take (64 - length head) d.1 in
    psend FAT32_PID 2 (head ++ data) ;;
    resp ← wait_from FAT32_PID;
    (if 250 <=? rq_type resp then psend shell 2 (err_text (i32 (rq_type resp)))
     else send_str shell (bytes_of "OK" ++ crlf)) ;;
    psend shell 4 [].

(** Delete, make and remove a directory: a request with a path and a yes-or-no reply. *)
Definition do_simple (msg : request) (shell : Z) (k : nat) (type : Z) (err : list Z) : U proc unit :=
  path ← cmd_path msg k;
  bs ← rd_slice path 0 63;
  psend FAT32_PID type bs ;;
  resp ← wait_from FAT32_PID;
  (if rq_type resp =? FAT32_ERR then send_str shell err else send_str shell (bytes_of "OK" ++ crlf)) ;;
  psend shell 4 [].

Definition help_text : list Z :=
  bytes_of "Commands:" ++ crlf ++ bytes_of "  help" ++ crlf ++ bytes_of "  readfile <path>" ++ crlf ++
  bytes_of "  spawn <path>" ++ crlf ++ bytes_of "  writefile <path> <data>" ++ crlf ++ bytes_of "  delete <path>" ++ crlf ++
  bytes_of "  mkdir <path>" ++ crlf ++ bytes_of "  rmdir <path>" ++ crlf ++ bytes_of "  clear" ++ crlf ++
  bytes_of "  exit" ++ crlf.

(** [ESC [2J ESC [H] *)
Definition clear_text : list Z := [27] ++ bytes_of "[2J" ++ [27] ++ bytes_of "[H".

(** One turn of the loop of [_start]; [false] when the program has exited. *)
Definition command (msg : request) : U proc bool :=
  if negb (rq_type msg =? 1) then mret true
  else
    let shell := rq_sender msg in
    c0 ← rd8 (rq_data msg) 0;
    c1 ← rd8 (rq_data msg) 1;
    if c0 =? 104 then send_str shell help_text ;; psend shell 4 [] ;; mret true
    else if c0 =? 99 then send_str shell clear_text ;; psend shell 4 [] ;; mret true
    else if c0 =? 101 then
      send_str shell (bytes_of "Bye!" ++ crlf) ;; psend shell 3 [0] ;; mret false
    else if (c0 =? 114) && (c1 =? 101) then do_readfile msg shell ;; mret true
    else if (c0 =? 115) && (c1 =? 112) then do_spawn msg shell ;; mret true
    else if c0 =? 119 then do_writefile msg shell ;; mret true
    else if c0 =? 100 then do_simple msg shell 7 3 (bytes_of "Delete error" ++ crlf) ;; mret true
    else if c0 =? 109 then do_simple msg shell 6 4 (bytes_of "Mkdir error" ++ crlf) ;; mret true
    else if (c0 =? 114) && (c1 =? 109) then do_simple msg shell 6 5 (bytes_of "Rmdir error" ++ crlf) ;; mret true
    else send_str shell (bytes_of "Unknown" ++ crlf) ;; psend shell 4 [] ;; mret true.

(** [_start] for the next [n] messages. *)
Fixpoint command_start (n : nat) : U proc unit :=
  match n with
  | O => mret tt
  | S n' => msg ← wait_any; go ← command msg; if go : bool then command_start n' else mret tt
  end.
