(* ===== verification/Drivers.v ===== *)
(** * Drivers: the disk, serial and keyboard servers ([_sdk/user_backup])

    [disk.c] reads sectors from an ATA drive, [serial.c] prints messages and passes
    input to the shell, [keyboard_driver.c] turns scan codes into characters. *)

From S2P Require Import Prelude Sectors Fat FatServer Process.

(** ** disk.c *)

Definition ATA_DATA : Z := 0x1F0.
Definition ATA_SEC_CNT : Z := 0x1F2.
Definition ATA_LBA_LO : Z := 0x1F3.
Definition ATA_LBA_MID : Z := 0x1F4.
Definition ATA_LBA_HI : Z := 0x1F5.
Definition ATA_DRIVE : Z := 0x1F6.
Definition ATA_COMMAND : Z := 0x1F7.
Definition ATA_STATUS : Z := 0x1F7.
Definition ATA_CMD_READ : Z := 0x20.
Definition ATA_BSY : Z := 0x80.
Definition ATA_ERR : Z := 0x01.
Definition DISK_TYPE_READ : Z := 0.
Definition DISK_RESP_BASE : Z := 100.
Definition DISK_RESP_ERR : Z := 255.

(** The polling loop, [n] tries left. *)
Fixpoint ata_poll (n : nat) : U proc bool :=
  match n with
  | O => mret false
  | S n' =>
    status ← pinb ATA_STATUS;
    if Z.land status ATA_BSY =? 0 then mret (Z.land status ATA_ERR =? 0) else ata_poll n'
  end.

Definition ata_tries : nat := Z.to_nat 10000000.

Definition ata_wait : U proc bool := ata_poll ata_tries.

(** [n] bytes from the data port. *)
Fixpoint ata_data (n : nat) : U proc (list Z) :=
  match n with
  | O => mret []
  | S n' => b ← pinb ATA_DATA; r ← ata_data n'; mret (b :: r)
  end.

(** The registers for a read of one sector. *)
Definition ata_command (lba drive : Z) : U proc unit :=
  poutb ATA_DRIVE (Z.lor (Z.lor (Z.shiftl drive 4) 0xE0) (Z.land (Z.shiftr lba 24) 0x0F)) ;;
  pinb ATA_STATUS ;; pinb ATA_STATUS ;; pinb ATA_STATUS ;; pinb ATA_STATUS ;;
  poutb ATA_SEC_CNT 1 ;;
  poutb ATA_LBA_LO (Z.land lba 0xFF) ;;
  poutb ATA_LBA_MID (Z.land (Z.shiftr lba 8) 0xFF) ;;
  poutb ATA_LBA_HI (Z.land (Z.shiftr lba 16) 0xFF) ;;
  poutb ATA_COMMAND ATA_CMD_READ ;;
  pinb ATA_STATUS ;;
  mret tt.

Definition ata_read (lba drive : Z) : U proc (option (list Z)) :=
  ata_command lba drive ;;
  ok ← ata_wait;
  if ok : bool then sector ← ata_data 512; mret (Some sector) else mret None.

(** The eight messages of 64 bytes for a sector. *)
Fixpoint send_sector (n : nat) (ch pid : Z) (sector : list Z) : U proc unit :=
  match n with
  | O => mret tt
  | S n' =>
    chunk ← rd_slice sector (ch * 64) 64;
    psend pid (DISK_RESP_BASE + ch) chunk ;;
    send_sector n' (ch + 1) pid sector
  end.

(** One turn of the loop of [_start]. *)
Definition disk_serve (req : request) : U proc unit :=
  if rq_type req =? DISK_TYPE_READ then
    if in_buf (rq_data req) 0 64 then
      let lba := le32 (rq_data req) 0 in
      let drive := byte (rq_data req) 4 in
      o ← ata_read lba drive;
      match o with
      | Some sector => send_sector 8 0 (rq_sender req) sector
      | None => psend (rq_sender req) DISK_RESP_ERR []
      end
    else utrap
  else mret tt.

Definition disk_start (n : nat) : U proc unit := serve_loop n disk_serve.

(** ** serial.c *)

Definition SHELL_PID : Z := 4.

(** [while (!(inb(0x3FD) & 0x20));], at most [n] turns. *)
Fixpoint uart_wait (n : nat) : U proc unit :=
  match n with
  | O => ufuel
  | S n' => v ← pinb 0x3FD; if Z.land v 0x20 =? 0 then uart_wait n' else mret tt
  end.

Fixpoint uart_print (n : nat) (s : list Z) : U proc unit :=
  match s with
  | [] => mret tt
  | b :: s' => uart_wait n ;; poutb 0x3F8 b ;; uart_print n s'
  end.

Definition serial_msg (n : nat) (msg : request) : U proc unit :=
  if rq_type msg =? 0 then b ← rd8 (rq_data msg) 0; uart_print n [b]
  else if rq_type msg =? 1 then uart_print n (c_string (rq_mem msg))
  else mret tt.

(** [while (recv(&msg) == 0)], at most [k] messages. *)
Fixpoint serial_msgs (n k : nat) : U proc unit :=
  match k with
  | O => ufuel
  | S k' =>
    o ← precv;
    match o with
    | Some msg => serial_msg n msg ;; serial_msgs n k'
    | None => mret tt
    end
  end.

(** One turn of the loop of [_start]: the messages, then the input. *)
Definition serial_turn (n k : nat) : U proc unit :=
  serial_msgs n k ;;
  v ← pinb 0x3FD;
  if Z.land v 1 =? 0 then mret tt
  else c ← pinb 0x3F8; psend SHELL_PID 0 [c].

(** [_start] for [j] turns. *)
Fixpoint serial_start (n k j : nat) : U proc unit :=
  match j with
  | O => mret tt
  | S j' => serial_turn n k ;; serial_start n k j'
  end.

(** ** keyboard_driver.c *)

Definition map : list Z :=
  [0; 0] ++ bytes_of "1234567890-=" ++ [0] ++
  [0] ++ bytes_of "qwertyuiop[]" ++ [0; 0] ++
  bytes_of "asdfghjkl;" ++ [0; 0; 0; 0] ++
  bytes_of "zxcvbnm,./" ++ [0] ++ bytes_of "*" ++ [0] ++ bytes_of " ".

(** One turn of the loop of [_start]. *)
Definition keyboard_serve (msg : request) : U proc unit :=
  if (rq_sender msg =? 0) && (rq_type msg =? 0) then
    sc ← rd8 (rq_data msg) 0;
    if (Z.land sc 0x80 =? 0) && (sc <? Z.of_nat (length map)) then
      c ← rd8 map sc;
      if c =? 0 then mret tt else psend 4 0 [c]
    else mret tt
  else mret tt.

Definition keyboard_start (n : nat) : U proc unit :=
  irq_register 1 ;;
  serve_loop n keyboard_serve.
