(* ===== verification/Shell.v ===== *)
(** * Shell: the shell ([_sdk/user_backup/shell.c])

    It reads a line from the keyboard and serial servers, sends it to the command
    interpreter and prints the replies until one of type 3 or 4. *)

From S2P Require Import Prelude Sectors Fat FatServer Process.

Definition CMD_PID : Z := 3.
Definition SERIAL_PID : Z := 5.

Definition sh_putc (c : Z) : U proc unit := psend SERIAL_PID 0 [u8 c].

(** Pieces of at most 63 bytes, each with its terminating 0. *)
Fixpoint sh_pieces (ps : list (list Z)) : U proc unit :=
  match ps with
  | [] => mret tt
  | p :: ps' => psend SERIAL_PID 1 (p ++ [0]) ;; sh_pieces ps'
  end.

Definition sh_puts (s : list Z) : U proc unit := sh_pieces (pieces (length s) s).

(** The first byte of the next message, whoever sent it. *)
Definition getchar : U proc Z := m ← wait_any; rd8 (rq_data m) 0.

(** The loop that reads a line into [buf]; each turn takes a message. *)
Fixpoint read_line (n : nat) (buf : list Z) : U proc (list Z) :=
  match n with
  | O => ufuel
  | S n' =>
    c ← getchar;
    if (c =? 13) || (c =? 10) then sh_putc 13 ;; sh_putc 10 ;; mret buf
    else
      sh_putc c ;;
      read_line n' (if (length buf <? 255)%nat then buf ++ [c] else buf)
  end.

(** The replies to a command; the result is [done == 2]. *)
Fixpoint replies (n : nat) : U proc bool :=
  match n with
  | O => ufuel
  | S n' =>
    resp ← wait_from CMD_PID;
    if rq_type resp =? 3 then sh_puts (c_string (rq_mem resp)) ;; mret true
    else if rq_type resp =? 4 then mret false
    else sh_puts (c_string (rq_mem resp)) ;; replies n'
  end.

(** One turn of the loop of [_start]; [true] to leave it.  The line goes to the
    interpreter with its length [len], which the kernel cuts to 64. *)
Definition shell_turn : U proc bool :=
  sh_puts (bytes_of "root@os:~$ ") ;;
  buf ← per_msg (λ n, read_line n []);
  if bool_decide (head (buf ++ [0]) = Some 0) then mret false
  else
    psend CMD_PID 1 buf ;;
    per_msg replies.

(** [_start] for [n] turns. *)
Fixpoint shell_loop (n : nat) : U proc unit :=
  match n with
  | O => mret tt
  | S n' => q ← shell_turn; if q : bool then sh_puts (bytes_of "shell: goodbye" ++ crlf) else shell_loop n'
  end.

Definition shell_start (n : nat) : U proc unit :=
  sh_puts ([27] ++ bytes_of "[2J" ++ [27] ++ bytes_of "[H") ;;
  sh_puts (bytes_of "sborchikOS v0.2 (microkernel)" ++ crlf) ;;
  sh_puts (bytes_of "Type 'help'" ++ crlf ++ crlf) ;;
  shell_loop n.
