(* ===== verification/UserProps.v ===== *)
(** * UserProps: the programs around the FAT32 server

    The command interpreter together with the FAT32 server, the protocol between
    interpreter and shell, and the disk and keyboard servers. *)

From S2P Require Import Prelude Sectors Fat FatServer FatTable FatDir FatRead RamDisk.
From S2P Require Import Process Command Drivers Shell.

(** ** Messages on their way *)

(** [m] is what [recv] stores for a message sent by [sender]: the data, then
    whatever was in the receiver's buffer. *)
Definition carries (sender : Z) (m : request) (msg : Z * Z * list Z) : Prop :=
  rq_sender m = sender ∧ rq_type m = msg.1.2 ∧ length (rq_data m) = 64%nat ∧
  take (length msg.2) (rq_data m) = msg.2 ∧ rq_length m = Z.of_nat (length msg.2).

Lemma carries_lookup sender m msg i b : carries sender m msg → msg.2 !! i = Some b → rq_data m !! i = Some b.
Proof.
  intros (_ & _ & _ & Hd & _) Hi. rewrite <- Hd in Hi. by apply lookup_take_Some in Hi as [Hi _].
Qed.

Lemma rd8_eq {S} (l : list Z) i b (s : S) : 0 ≤ i → l !! Z.to_nat i = Some b → rd8 l i s = UOk b s.
Proof. intros Hi E. unfold rd8. by rewrite (proj2 (Z.leb_le 0 i) Hi), E. Qed.

Lemma rd8_inv {S} (l : list Z) i b (s s' : S) : rd8 l i s = UOk b s' → l !! Z.to_nat i = Some b ∧ s' = s.
Proof. unfold rd8. destruct (0 <=? i); [|done]. destruct (l !! Z.to_nat i); [|done]. by intros [= -> ->]. Qed.

Lemma rd_slice_eq {S} (l : list Z) i n (s : S) :
  0 ≤ i → i + n ≤ Z.of_nat (length l) → rd_slice l i n s = UOk (slice l i n) s.
Proof.
  intros Hi Hn. unfold rd_slice, in_buf. by rewrite (proj2 (Z.leb_le 0 i) Hi), (proj2 (Z.leb_le _ _) Hn).
Qed.

(** The next message, when it is from the one waited for. *)
Lemma wait_from_eq pid m l s : rq_sender m = pid → inbox s = Some m :: l → wait_from pid s = UOk m (set_inbox l s).
Proof. intros Hm Hi. unfold wait_from, wait_msg. rewrite Hi. simpl. by rewrite Hm, Z.eqb_refl. Qed.

(** ** Reading a file *)

(** The interpreter passes on exactly the bytes of the chunks. *)
Lemma read_replies_shows pid off msgs data reps shell n s :
  delivers pid off msgs data → Forall2 (carries FAT32_PID) reps (msgs ++ [(pid, 101, [])]) →
  inbox s = Some <$> reps → (length reps ≤ n)%nat →
  ∃ shown, read_replies n shell s = UOk tt (told (set_inbox [] s) ((λ b, (shell, 2, b)) <$> shown)) ∧ mjoin shown = data.
Proof.
  revert off data reps n s. induction msgs as [|m msgs IH]; intros off data reps n s Hd Hr Hi Hn.
  - apply Forall2_cons_inv_r in Hr as (r & reps' & Hc & Hnil & ->). apply Forall2_nil_inv_r in Hnil as ->.
    simpl in Hd. subst data. destruct n as [|n]; [simpl in Hn; lia|]. exists []. split; [|done]. cbn [read_replies].
    ustep_by ltac:(apply (wait_from_eq _ r []); [apply Hc|done]). destruct Hc as (_ & -> & _). by rewrite told_nil.
  - destruct Hd as (bs & rest & -> & Hlen & -> & Hd). rewrite <- app_comm_cons in Hr.
    apply Forall2_cons_inv_r in Hr as (r & reps' & Hc & Hr & ->). destruct n as [|n]; [simpl in Hn; lia|].
    destruct (IH _ _ reps' n (told (set_inbox (Some <$> reps') s) [(shell, 2, bs)]) Hd Hr) as (shown & E & Hs);
      [done|simpl in Hn; lia|].
    exists (bs :: shown). split; [|simpl; by rewrite <- Hs]. cbn [read_replies].
    ustep_by ltac:(apply (wait_from_eq _ r (Some <$> reps')); [apply Hc|done]).
    assert (H4 : rq_data r !! Z.to_nat 4 = Some (Z.of_nat (length bs))) by by eapply carries_lookup.
    assert (Hbs : slice (rq_mem r) 5 (Z.of_nat (length bs)) = bs).
    { destruct Hc as (_ & _ & Hl & Ht & _). cbn [snd] in Ht. unfold slice, rq_mem. change (length (payload _ bs)) with (5 + length bs)%nat in Ht.
      rewrite drop_app_le by (rewrite Hl; lia). rewrite take_app_le by (rewrite length_drop, Hl; lia).
      rewrite Nat2Z.id, take_drop_commute. change (Z.to_nat 5) with 5%nat. by rewrite Ht. }
    assert (Hml : length (rq_mem r) = 72%nat) by (destruct Hc as (_ & _ & Hl & _); unfold rq_mem; by rewrite length_app, Hl).
    pose proof Hc as (_ & -> & _). cbn [fst snd]. change (100 =? FAT32_ERR) with false. change (100 =? 101) with false.
    change (100 =? FAT32_CHUNK) with true. cbv iota.
    ustep_by ltac:(apply rd8_eq; [lia|exact H4]).
    ustep_by ltac:(apply rd_slice_eq; [lia|rewrite Hml; lia]). rewrite Hbs. etrans; [apply E|].
    by rewrite told_inbox.
Qed.

(** A [readfile] command: the pointer [p] to its path. *)
Definition readfile_cmd (msg : request) (p : list Z) : Prop :=
  rq_type msg = 1 ∧ take 2 (rq_data msg) = [114; 101] ∧ (63 ≤ length p)%nat ∧ 0 ∈ take 63 p ∧
  ∀ s, cmd_path msg 9 s = UOk p s.

Lemma command_readfile msg p shown s s' :
  readfile_cmd msg p →
  read_replies (S (length (inbox s))) (rq_sender msg) (told s [(FAT32_PID, 0, take 63 p)]) =
    UOk tt (told s' shown) →
  command msg s = UOk true (told s' (shown ++ [(rq_sender msg, 2, crlf); (rq_sender msg, 4, [])])).
Proof.
  intros (Ht & Hd & Hp & _ & Hpath) E. unfold command. rewrite Ht. cbn [Z.eqb Pos.eqb negb].
  assert (H0 : rq_data msg !! 0%nat = Some 114 ∧ rq_data msg !! 1%nat = Some 101).
  { destruct (rq_data msg) as [|a [|b l]]; try done. by injection Hd as -> ->. }
  ustep_by ltac:(apply (rd8_eq _ 0 114); [lia|apply H0]). ustep_by ltac:(apply (rd8_eq _ 1 101); [lia|apply H0]).
  cbn [Z.eqb Pos.eqb andb].
  assert (E' : do_readfile msg (rq_sender msg) s = UOk tt (told s' (shown ++ [(rq_sender msg, 2, crlf); (rq_sender msg, 4, [])]))).
  { unfold do_readfile. ustep_by ltac:(apply Hpath). ustep_by ltac:(apply rd_slice_eq; [lia|lia]).
    ustep_by ltac:(done). unfold per_msg. ustep_by ltac:(apply E). ustep_by ltac:(done).
    change ([(rq_sender msg, 2, crlf); (rq_sender msg, 4, [])]) with ([(rq_sender msg, 2, crlf)] ++ [(rq_sender msg, 4, [])]).
    by rewrite app_assoc, <- !told_app. }
  ustep_by ltac:(apply E'). done.
Qed.

Lemma c_string_app l k : 0 ∈ l → c_string (l ++ k) = c_string l.
Proof.
  induction l as [|b l IH]; intros Hin; [by apply not_elem_of_nil in Hin|]. simpl. destruct (Z.eqb_spec b 0); [done|].
  apply elem_of_cons in Hin as [?|Hin]; [congruence|]. by rewrite IH.
Qed.

(** The request the FAT32 server receives names the same path. *)
Lemma carries_path sender q p : carries sender q (FAT32_PID, 0, take 63 p) → 0 ∈ take 63 p → rq_path q = c_string (take 63 p).
Proof.
  intros (_ & _ & _ & Hd & _) Hz. unfold rq_path, rq_mem. cbn [snd] in Hd.
  rewrite <- (take_drop (length (take 63 p)) (rq_data q)), Hd, <- app_assoc. by apply c_string_app.
Qed.

(** ** The end of a reply *)

(** The messages of type 4 to the shell. *)
Definition is_end (shell : Z) (m : Z * Z * list Z) : Prop := m.1 = (shell, 4).
#[local] Instance is_end_dec shell m : Decision (is_end shell m).
Proof. unfold is_end. apply _. Defined.

Definition ends (shell : Z) (s : proc) : nat := length (filter (is_end shell) (outbox s)).

(** [m] adds [k] of them whenever it returns. *)
Definition adds_ends {A} (shell : Z) (m : U proc A) (k : nat) : Prop :=
  ∀ s a s', m s = UOk a s' → ends shell s' = (ends shell s + k)%nat.

Lemma ends_told shell s msgs : ends shell (told s msgs) = (ends shell s + length (filter (is_end shell) msgs))%nat.
Proof. unfold ends, told. simpl. rewrite filter_app, length_app, (reverse_Permutation msgs). lia. Qed.

Section Ends.
Context (shell : Z).

Lemma ends_bind {A B} (m : U proc A) (f : A → U proc B) k1 k2 :
  adds_ends shell m k1 → (∀ a, adds_ends shell (f a) k2) → adds_ends shell (m ≫= f) (k1 + k2).
Proof. intros Hm Hf s b s' (a & s1 & E1 & E2)%ubind_inv. apply Hm in E1. apply Hf in E2. lia. Qed.

Lemma ends_bind_0 {A B} (m : U proc A) (f : A → U proc B) k :
  adds_ends shell m 0 → (∀ a, adds_ends shell (f a) k) → adds_ends shell (m ≫= f) k.
Proof. apply (ends_bind _ _ 0). Qed.

Lemma ends_ret {A} (a : A) : adds_ends shell (mret a) 0.
Proof. intros s b s' [= <- <-]. lia. Qed.

Lemma ends_trap {A} : adds_ends shell (utrap : U proc A) 0.
Proof. by intros s b s'. Qed.

Lemma ends_psend pid type data : type ≠ 4 ∨ pid ≠ shell → adds_ends shell (psend pid type data) 0.
Proof.
  intros Hne s b s' [= <- <-]. unfold ends. simpl. rewrite filter_cons_False; [lia|]. simpl. intros [= -> ->]. lia.
Qed.

Lemma ends_psend_end data : adds_ends shell (psend shell 4 data) 1.
Proof. intros s b s' [= <- <-]. unfold ends. simpl. rewrite filter_cons_True by done. simpl. lia. Qed.

Lemma ends_rd8 l i : adds_ends shell (rd8 l i) 0.
Proof. unfold rd8. destruct (0 <=? i); [|apply ends_trap]. destruct (l !! Z.to_nat i); [apply ends_ret|apply ends_trap]. Qed.

Lemma ends_rd_slice l i n : adds_ends shell (rd_slice l i n) 0.
Proof. unfold rd_slice. destruct (in_buf l i n); [apply ends_ret|apply ends_trap]. Qed.

Lemma ends_wait accept : adds_ends shell (wait_msg accept) 0.
Proof.
  intros s b s'. unfold wait_msg. destruct (take_msg accept (inbox s)) as [[m l]|]; [|done].
  intros [= <- <-]. unfold ends. simpl. lia.
Qed.

Lemma ends_send_str t : adds_ends shell (send_str shell t) 0.
Proof.
  unfold send_str. induction (pieces (length t) t) as [|p ps IH]; [apply ends_ret|].
  cbn [send_all]. apply ends_bind_0; [apply ends_psend; left; lia|done].
Qed.

Lemma ends_skip p : adds_ends shell (skip_spaces p) 0.
Proof. induction p as [|b p IH]; [apply ends_trap|]. simpl. destruct (b =? 32); [done|apply ends_ret]. Qed.

Lemma ends_scan stop p : adds_ends shell (scan_to stop p) 0.
Proof.
  induction p as [|b p IH]; [apply ends_trap|]. simpl. destruct (stop b); [apply ends_ret|].
  apply ends_bind_0; [done|intros; apply ends_ret].
Qed.

End Ends.

Create HintDb ends.
#[local] Hint Resolve ends_ret ends_trap ends_rd8 ends_rd_slice ends_wait ends_send_str ends_skip ends_scan ends_psend_end : ends.
#[local] Hint Extern 1 (adds_ends _ (psend _ _ _) 0) => apply ends_psend; first [left; done|right; congruence] : ends.
#[local] Hint Extern 2 (adds_ends _ (if ?b then _ else _) _) => destruct b : ends.

(** Steps that add no end, up to the last one. *)
Ltac ends_steps := repeat first [solve [eauto with ends] | apply ends_bind_0; [|intros ?] | case_match].

Lemma ends_simple msg shell k type err : shell ≠ FAT32_PID → adds_ends shell (do_simple msg shell k type err) 1.
Proof. intros Hs. unfold do_simple, cmd_path, wait_from. ends_steps. Qed.

Lemma ends_spawn msg shell : shell ≠ FAT32_PID → adds_ends shell (do_spawn msg shell) 1.
Proof. intros Hs. unfold do_spawn, cmd_path, wait_from. ends_steps. Qed.

(** ** The disk server *)

(** The port writes of a history. *)
Definition writes (h : list port_event) : list (Z * Z) :=
  omap (λ e, match e with POut p v => Some (p, v) | PIn _ _ => None end) h.

(** The drive is never busy and reports no error. *)
Definition ata_ready (s : proc) : Prop := ∀ h, Z.land (u8 (device s h ATA_STATUS)) ATA_BSY = 0 ∧ Z.land (u8 (device s h ATA_STATUS)) ATA_ERR = 0.

(** [m] returns after port accesses of which [w] are the writes, latest first. *)
Definition accesses {A} (m : U proc A) (w : list (Z * Z)) (s : proc) : Prop :=
  ∃ a h, m s = UOk a (set_io (h ++ io s) s) ∧ writes h = w.

Lemma accesses_bind {A B} (m : U proc A) (f : A → U proc B) w1 w2 s :
  accesses m w1 s → (∀ a h, accesses (f a) w2 (set_io h s)) → accesses (m ≫= f) (w2 ++ w1) s.
Proof.
  intros (a & h1 & E1 & <-) Hf. destruct (Hf a (h1 ++ io s)) as (b & h2 & E2 & <-). exists b, (h2 ++ h1). split.
  - ustep_by ltac:(apply E1). etrans; [apply E2|]. by rewrite <- app_assoc.
  - unfold writes. apply omap_app.
Qed.

Lemma accesses_in p s : accesses (pinb p) [] s.
Proof. by exists (u8 (device s (io s) p)), [PIn p (u8 (device s (io s) p))]. Qed.

Lemma accesses_eq {A} (m : U proc A) w w' s : accesses m w s → w = w' → accesses m w' s.
Proof. by intros Ha <-. Qed.

Lemma accesses_ret {A} (a : A) s : accesses (mret a) [] s.
Proof. exists a, []. by destruct s. Qed.

Lemma accesses_out p v s : accesses (poutb p v) [(p, u8 v)] s.
Proof. by exists tt, [POut p (u8 v)]. Qed.

Lemma ata_tries_S : ∃ m, ata_tries = S m.
Proof. exists (Z.to_nat 9999999). unfold ata_tries. lia. Qed.

Lemma ata_wait_ready s : ata_ready s → ∃ h, ata_wait s = UOk true (set_io (h ++ io s) s) ∧ writes h = [].
Proof.
  intros Hr. destruct (Hr (io s)) as [Hb He]. unfold ata_wait. destruct ata_tries_S as [m ->].
  exists [PIn ATA_STATUS (u8 (device s (io s) ATA_STATUS))]. split; [|done].
  cbn [ata_poll]. unfold mbind, U_bind, pinb. cbv zeta. rewrite Hb, He. done.
Qed.

Lemma ata_data_reads n s :
  ∃ bs, length bs = n ∧ ata_data n s = UOk bs (set_io (reverse (PIn ATA_DATA <$> bs) ++ io s) s).
Proof.
  revert s. induction n as [|n IH]; intros s; [exists []; by destruct s|].
  set (b := u8 (device s (io s) ATA_DATA)). destruct (IH (set_io (PIn ATA_DATA b :: io s) s)) as (bs & Hl & E).
  exists (b :: bs). split; [simpl; lia|]. cbn [ata_data]. ustep_by ltac:(done). ustep_by ltac:(apply E).
  by rewrite fmap_cons, reverse_cons, <- app_assoc.
Qed.

(** The eight messages. *)
Lemma send_sector_told n ch pid sector s :
  0 ≤ ch → 64 * (ch + Z.of_nat n) ≤ Z.of_nat (length sector) →
  send_sector n ch pid sector s =
    UOk tt (told s ((λ i, (pid, DISK_RESP_BASE + i, slice sector (i * 64) 64)) <$> seqZ ch (Z.of_nat n))).
Proof.
  revert ch s. induction n as [|n IH]; intros ch s Hc Hl; [simpl; by rewrite told_nil|].
  rewrite seqZ_S, fmap_cons. cbn [send_sector]. ustep_by ltac:(apply rd_slice_eq; lia). ustep_by ltac:(done).
  etrans; [apply IH; lia|]. exact (f_equal (UOk tt) (told_app s [(pid, DISK_RESP_BASE + ch, slice sector (ch * 64) 64)] _)).
Qed.

Lemma slices_join sector n : length sector = (64 * n)%nat → mjoin ((λ i, slice sector (i * 64) 64) <$> seqZ 0 (Z.of_nat n)) = sector.
Proof.
  intros Hl. assert (H : ∀ k, (k ≤ n)%nat →
    mjoin ((λ i, slice sector (i * 64) 64) <$> seqZ (Z.of_nat (n - k)) (Z.of_nat k)) = drop (64 * (n - k)) sector).
  { induction k as [|k IH]; intros Hk; [by rewrite drop_ge by lia|]. rewrite seqZ_S, fmap_cons.
    change (mjoin (?x :: ?l)) with (x ++ mjoin l). replace (Z.of_nat (n - S k) + 1) with (Z.of_nat (n - k)) by lia.
    rewrite IH by lia. unfold slice. replace (64 * (n - k))%nat with (64 * (n - S k) + 64)%nat by lia.
    rewrite <- drop_drop. replace (Z.to_nat (Z.of_nat (n - S k) * 64)) with (64 * (n - S k))%nat by lia.
    change (Z.to_nat 64) with 64%nat. apply take_drop. }
  specialize (H n ltac:(lia)). by rewrite Nat.sub_diag, Nat.mul_0_r in H.
Qed.

(** The address registers. *)
Definition lba_regs (lba drive : Z) : list (Z * Z) :=
  [(ATA_COMMAND, ATA_CMD_READ); (ATA_LBA_HI, u8 (Z.land (Z.shiftr lba 16) 0xFF)); (ATA_LBA_MID, u8 (Z.land (Z.shiftr lba 8) 0xFF));
   (ATA_LBA_LO, u8 (Z.land lba 0xFF)); (ATA_SEC_CNT, 1);
   (ATA_DRIVE, u8 (Z.lor (Z.lor (Z.shiftl drive 4) 0xE0) (Z.land (Z.shiftr lba 24) 0x0F)))].

Lemma ata_command_writes lba drive s : accesses (ata_command lba drive) (lba_regs lba drive) s.
Proof.
  eapply accesses_eq.
  - unfold ata_command. repeat (eapply accesses_bind; [solve [apply accesses_in|apply accesses_out]|intros ? ?]). apply accesses_ret.
  - reflexivity.
Qed.

Lemma ata_read_ready lba drive s :
  ata_ready s → ∃ sector h, length sector = 512%nat ∧ writes h = lba_regs lba drive ∧
    ata_read lba drive s = UOk (Some sector) (set_io (reverse (PIn ATA_DATA <$> sector) ++ h ++ io s) s).
Proof.
  intros Hr. destruct (ata_command_writes lba drive s) as ([] & h1 & E1 & Hw).
  destruct (ata_wait_ready (set_io (h1 ++ io s) s) Hr) as (h2 & E2 & Hw2).
  destruct (ata_data_reads 512 (set_io (h2 ++ h1 ++ io s) s)) as (bs & Hl & E3). exists bs, (h2 ++ h1). split_and!; [done| |].
  - unfold writes in *. by rewrite omap_app, Hw, Hw2.
  - unfold ata_read. ustep_by ltac:(apply E1). ustep_by ltac:(apply E2). ustep_by ltac:(apply E3). by rewrite <- !app_assoc.
Qed.

(** The sector number and the drive as the controller sees them. *)
Lemma land_ff x : u8 (Z.land x 0xFF) = x mod 2 ^ 8.
Proof. change 0xFF with (2 ^ 8 - 1). rewrite land_ones_mod by lia. unfold u8. apply Z.mod_mod. lia. Qed.

Lemma drive_reg lba drive :
  let d := u8 (Z.lor (Z.lor (Z.shiftl drive 4) 0xE0) (Z.land (Z.shiftr lba 24) 0x0F)) in
  d mod 16 = Z.shiftr lba 24 mod 16 ∧ Z.testbit d 4 = Z.odd drive.
Proof.
  intros d. subst d. split.
  - unfold u8. change 16 with (2 ^ 4). apply Z.bits_inj'. intros i Hi. destruct (decide (i < 4)).
    + rewrite !Z.mod_pow2_bits_low by lia. rewrite !Z.lor_spec, Z.land_spec, Z.shiftl_spec, (Z.testbit_neg_r drive) by lia.
      assert (i = 0 ∨ i = 1 ∨ i = 2 ∨ i = 3) as [-> |[-> |[-> | ->]]] by lia; apply andb_true_r.
    + by rewrite !Z.mod_pow2_bits_high by lia.
  - unfold u8. rewrite Z.mod_pow2_bits_low by lia. rewrite !Z.lor_spec, Z.land_spec, Z.shiftl_spec by lia.
    change (Z.testbit 0xE0 4) with false. change (Z.testbit 0xF 4) with false.
    by rewrite andb_false_r, !orb_false_r, Z.bit0_odd.
Qed.

(** ** Theorems *)

(** C8: The command [readfile] and the FAT32 server together: the server answers the
    request the interpreter sends, and for every way its messages arrive (the bytes
    behind a message's data are arbitrary) the interpreter sends the shell the
    contents of the file, piece by piece, then a line end and the end of the reply. *)
Theorem readfile_shows_file `{BlockLaws D} (s : fat D) n spawn msg p q me c size l :
  vol s → readfile_cmd msg p → carries me q (FAT32_PID, FAT32_TYPE_READ, take 63 p) →
  names n s (c_string (take 63 p)) (Some (c, size)) → on_disk n s c l → 0 ≤ size ≤ 2 ^ 32 - 512 →
  ∃ replies, handle n spawn q s = UOk tt (said s replies) ∧
    ∀ st arrived, inbox st = Some <$> arrived → Forall2 (carries FAT32_PID) arrived replies →
      ∃ shown, mjoin shown = take (Z.to_nat size) (file_bytes s l) ∧
        command msg st = UOk true (told (set_inbox [] st)
          ([(FAT32_PID, FAT32_TYPE_READ, take 63 p)] ++ ((λ b, (rq_sender msg, 2, b)) <$> shown) ++
           [(rq_sender msg, 2, crlf); (rq_sender msg, 4, [])])).
Proof.
  intros Hv Hcmd Hq Hn Hd Hs. pose proof Hcmd as (_ & _ & _ & Hz & _). rewrite <- (carries_path me q p Hq Hz) in Hn.
  destruct (handle_read_ok s n q c size l Hv Hn Hd Hs) as (msgs & E & Hm). exists (msgs ++ [(rq_sender q, 101, [])]). split.
  { unfold handle. destruct Hq as (_ & -> & _). exact E. }
  intros st arrived Hi Ha.
  destruct (read_replies_shows (rq_sender q) 0 msgs _ arrived (rq_sender msg) (S (length (inbox st)))
    (told st [(FAT32_PID, 0, take 63 p)]) Hm Ha Hi) as (shown & Er & Hshown).
  { rewrite Hi, length_fmap. lia. }
  exists shown. split; [done|]. rewrite told_inbox in Er. rewrite (command_readfile msg p _ _ _ Hcmd Er). by rewrite app_assoc.
Qed.

(** C33: A command that returns sends the shell exactly one end of the reply (a message
    of type 4), for every command but [exit], [readfile] and [writefile]. *)
Theorem command_one_end msg s s' :
  rq_type msg = 1 → rq_sender msg ≠ FAT32_PID → command msg s = UOk true s' →
  byte (rq_data msg) 0 ≠ 119 → ¬ (byte (rq_data msg) 0 = 114 ∧ byte (rq_data msg) 1 = 101) →
  ends (rq_sender msg) s' = (ends (rq_sender msg) s + 1)%nat.
Proof.
  intros Ht Hs E Hw Hr. unfold command in E. rewrite Ht in E. cbn [Z.eqb Pos.eqb negb] in E.
  apply ubind_inv in E as (c0 & s1 & [H0 ->]%rd8_inv & E). apply ubind_inv in E as (c1 & s1 & [H1 ->]%rd8_inv & E).
  assert (byte (rq_data msg) 0 = c0 ∧ byte (rq_data msg) 1 = c1) as [<- <-] by (unfold byte; by rewrite H0, H1).
  assert (Hone : ∀ m : U proc unit, adds_ends (rq_sender msg) m 1 → (m ≫= λ _, mret true) s = UOk true s' →
    ends (rq_sender msg) s' = (ends (rq_sender msg) s + 1)%nat).
  { intros m Hm (u & s1 & E1 & [= <-])%ubind_inv. by apply Hm in E1. }
  assert (Htext : ∀ text, (send_str (rq_sender msg) text ;; psend (rq_sender msg) 4 [] ;; mret true) s = UOk true s' →
    ends (rq_sender msg) s' = (ends (rq_sender msg) s + 1)%nat).
  { intros text (u & s1 & E1 & (u' & s2 & E2 & [= <-])%ubind_inv)%ubind_inv.
    apply ends_send_str in E1. apply ends_psend_end in E2. lia. }
  revert Hw Hr E. generalize (byte (rq_data msg) 0) (byte (rq_data msg) 1). intros c d Hw Hr E.
  destruct (c =? 104); [by eapply Htext|]. destruct (c =? 99); [by eapply Htext|].
  destruct (c =? 101); [by apply ubind_inv in E as (u & s1 & _ & (u' & s2 & _ & [=])%ubind_inv)|].
  replace ((c =? 114) && (d =? 101)) with false in E by (symmetry; apply andb_false_iff; lia).
  destruct ((c =? 115) && (d =? 112)); [eapply Hone; [by apply ends_spawn|exact E]|].
  rewrite (proj2 (Z.eqb_neq c 119)) in E by done.
  destruct (c =? 100); [eapply Hone; [by apply ends_simple|exact E]|].
  destruct (c =? 109); [eapply Hone; [by apply ends_simple|exact E]|].
  destruct ((c =? 114) && (d =? 109)); [eapply Hone; [by apply ends_simple|exact E]|by eapply Htext].
Qed.

(** C35: Two commands break this.  A [readfile] that the FAT32 server rejects sends
    two ends, so the shell takes the second for the end of its next command; a
    [writefile] without data sends none, so the shell waits for ever. *)
Theorem command_end_errors :
  (∀ msg p r s, readfile_cmd msg p → rq_sender msg ≠ FAT32_PID → rq_sender r = FAT32_PID → rq_type r = FAT32_ERR →
     inbox s = [Some r] →
     ∃ s', command msg s = UOk true s' ∧ ends (rq_sender msg) s' = (ends (rq_sender msg) s + 2)%nat) ∧
  (∀ msg path name rest s, rq_type msg = 1 → take 2 (rq_data msg) = [119; 114] → cmd_path msg 10 s = UOk path s →
     scan_to (λ b, (b =? 0) || (b =? 32)) path s = UOk (name, 0 :: rest) s →
     ∃ s', command msg s = UOk true s' ∧ ends (rq_sender msg) s' = ends (rq_sender msg) s).
Proof.
  split.
  - intros msg p r s Hcmd Hs Hr Ht Hi. eexists. split.
    + apply (command_readfile msg p ([(FAT32_PID, 0, take 63 p); (rq_sender msg, 2, bytes_of "Error" ++ crlf); (rq_sender msg, 4, [])])
        s (set_inbox [] s) Hcmd).
      cbn [read_replies]. ustep_by ltac:(by apply (wait_from_eq _ r [])). rewrite Ht. done.
    + rewrite ends_told. change (ends _ (set_inbox [] s)) with (ends (rq_sender msg) s). f_equal.
      cbn [app]. rewrite !filter_cons. repeat case_decide; unfold is_end in *; simplify_eq/=; done.
  - intros msg path name rest s Ht Hd Hp Hscan. unfold command. rewrite Ht. cbn [Z.eqb Pos.eqb negb].
    assert (H0 : rq_data msg !! 0%nat = Some 119 ∧ rq_data msg !! 1%nat = Some 114).
    { destruct (rq_data msg) as [|a [|b l]]; try done. by injection Hd as -> ->. }
    destruct (send_str (rq_sender msg) (bytes_of "Usage: writefile <path> <data>" ++ crlf) s) as [[] s'| |] eqn:E;
      [|by vm_compute in E..].
    exists s'. split; [|apply ends_send_str in E; lia].
    ustep_by ltac:(apply (rd8_eq _ 0 119); [lia|apply H0]). ustep_by ltac:(apply (rd8_eq _ 1 114); [lia|apply H0]).
    cbn [Z.eqb Pos.eqb andb].
    assert (E' : do_writefile msg (rq_sender msg) s = UOk tt s').
    { unfold do_writefile. ustep_by ltac:(apply Hp). ustep_by ltac:(apply Hscan). cbn [fst snd].
      ustep_by ltac:(by apply (rd8_eq _ 0 0)). cbn [Z.eqb orb]. exact E. }
    ustep_by ltac:(apply E'). done.
Qed.

(** C32: A read request to the disk server, when the drive answers: the registers the
    server writes select the drive and the sector of the request (28 bits of its
    number), and the eight replies, of 64 bytes each, are together the 512 bytes it
    then reads from the data port, in order. *)
Theorem disk_sends_sector req s :
  rq_type req = DISK_TYPE_READ → bytes_ok 64 (rq_data req) → ata_ready s →
  ∃ sector h chunks b2 b1 b0 d, length sector = 512%nat ∧ mjoin chunks = sector ∧
    disk_serve req s = UOk tt (told (set_io (reverse (PIn ATA_DATA <$> sector) ++ h ++ io s) s)
      (imap (λ i c, (rq_sender req, DISK_RESP_BASE + Z.of_nat i, c)) chunks)) ∧
    Forall (λ c, length c = 64%nat) chunks ∧
    writes h = [(ATA_COMMAND, ATA_CMD_READ); (ATA_LBA_HI, b2); (ATA_LBA_MID, b1); (ATA_LBA_LO, b0); (ATA_SEC_CNT, 1); (ATA_DRIVE, d)] ∧
    b0 + 2 ^ 8 * b1 + 2 ^ 16 * b2 + 2 ^ 24 * (d mod 16) = le32 (rq_data req) 0 mod 2 ^ 28 ∧
    Z.testbit d 4 = Z.odd (byte (rq_data req) 4).
Proof.
  intros Ht Hb Hr. set (lba := le32 (rq_data req) 0). set (drive := byte (rq_data req) 4).
  destruct (ata_read_ready lba drive s Hr) as (sector & h & Hl & Hw & E).
  destruct (drive_reg lba drive) as [Hd1 Hd2].
  exists sector, h, ((λ i, slice sector (i * 64) 64) <$> seqZ 0 (Z.of_nat 8)).
  do 4 eexists. split_and!; [done|by apply slices_join| | |exact Hw| |exact Hd2].
  - unfold disk_serve. rewrite Ht. destruct Hb as [Hb _]. unfold in_buf. rewrite Hb.
    change (DISK_TYPE_READ =? DISK_TYPE_READ) with true. change ((0 <=? 0) && (0 + 64 <=? Z.of_nat 64)) with true. cbv iota.
    ustep_by ltac:(apply E). etrans; [apply send_sector_told; rewrite ?Hl; lia|]. done.
  - apply Forall_fmap, Forall_seqZ. intros i Hi. simpl. rewrite length_slice by (rewrite ?Hl; lia). done.
  - rewrite Hd1, !land_ff, !Z.shiftr_div_pow2 by lia. change (lba / 2 ^ 24 mod 16) with (lba / 2 ^ 24 mod 2 ^ 4).
    pose proof (Z.rem_mul_r lba (2 ^ 8) (2 ^ 8) ltac:(lia) ltac:(lia)).
    pose proof (Z.rem_mul_r lba (2 ^ 16) (2 ^ 8) ltac:(lia) ltac:(lia)).
    pose proof (Z.rem_mul_r lba (2 ^ 24) (2 ^ 4) ltac:(lia) ltac:(lia)).
    change (2 ^ 8 * 2 ^ 8) with (2 ^ 16) in *. change (2 ^ 16 * 2 ^ 8) with (2 ^ 24) in *. change (2 ^ 24 * 2 ^ 4) with (2 ^ 28) in *. lia.
Qed.

(** The keyboard server passes on only characters of its table: no scan code makes
    it send a line end, which the shell waits for. *)
Theorem keyboard_never_ends_line msg s s' :
  keyboard_serve msg s = UOk tt s' → ∃ cs, outbox s' = ((λ c, (4, 0, [c])) <$> cs) ++ outbox s ∧ (length cs ≤ 1)%nat ∧
    Forall (λ c, 32 ≤ c < 127) cs.
Proof.
  assert (Hmap : Forall (λ c, c = 0 ∨ 32 ≤ c < 127) map) by by_decide.
  unfold keyboard_serve. destruct ((rq_sender msg =? 0) && (rq_type msg =? 0)); [|by intros [= <-]; exists []; auto].
  intros (sc & s1 & [_ ->]%rd8_inv & E)%ubind_inv.
  destruct ((Z.land sc 128 =? 0) && (sc <? Z.of_nat (length map))); [|injection E as <-; exists []; auto].
  apply ubind_inv in E as (c & s1 & [Hc ->]%rd8_inv & E). apply (Forall_lookup_1 _ _ _ _ Hmap) in Hc.
  destruct (Z.eqb_spec c 0); [injection E as <-; by exists []; auto|]. injection E as <-. exists [c].
  split_and!; [done|simpl; lia|]. constructor; [lia|constructor].
Qed.

(** ** Witnesses *)

Definition readfile_msg : request :=
  Request 4 1 (bytes_of "readfile hello.txt" ++ replicate 46 0) 18.

Definition readfile_path : list Z := drop 9 (rq_mem readfile_msg).

Lemma readfile_msg_cmd : readfile_cmd readfile_msg readfile_path.
Proof. split_and!; [done..|by_decide|]. intros s. reflexivity. Qed.

Definition readfile_request : request := Request 3 0 (take 63 readfile_path ++ [0]) 63.

Lemma readfile_shows_file_witness :
  ∃ replies, handle 4 (λ _ _, None) readfile_request demo_fat = UOk tt (said demo_fat replies) ∧
    ∀ st arrived, inbox st = Some <$> arrived → Forall2 (carries FAT32_PID) arrived replies →
      ∃ shown, mjoin shown = take (Z.to_nat 600) (file_bytes demo_fat [3; 5]) ∧
        command readfile_msg st = UOk true (told (set_inbox [] st)
          ([(FAT32_PID, FAT32_TYPE_READ, take 63 readfile_path)] ++ ((λ b, (4, 2, b)) <$> shown) ++ [(4, 2, crlf); (4, 4, [])])).
Proof.
  apply (readfile_shows_file demo_fat 4 (λ _ _, None) readfile_msg readfile_path readfile_request 3 3 600 [3; 5]).
  - exact demo_vol.
  - exact readfile_msg_cmd.
  - by repeat split.
  - exact (names_root 4 demo_fat (c_string (take 63 readfile_path)) [2] eq_refl demo_root_dir).
  - exact demo_hello.
  - lia.
Defined.

Definition help_msg : request := Request 4 1 (bytes_of "help" ++ replicate 60 0) 4.
Definition idle_proc : proc := Proc [] [] (λ _ _, 0) [] [].

Lemma command_one_end_witness :
  ∃ s', command help_msg idle_proc = UOk true s' ∧ ends 4 s' = 1%nat.
Proof.
  eexists. split; [vm_compute; reflexivity|].
  apply (command_one_end help_msg idle_proc); [done|done|vm_compute; reflexivity|done|by intros [[=] _]].
Defined.

Definition sector_msg : request := Request 9 0 ([1; 2; 3; 0; 1] ++ replicate 59 0) 5.

Lemma disk_sends_sector_witness :
  ∃ sector h, length sector = 512%nat ∧ ∃ chunks, mjoin chunks = sector ∧
    disk_serve sector_msg idle_proc = UOk tt (told (set_io (reverse (PIn ATA_DATA <$> sector) ++ h ++ []) idle_proc)
      (imap (λ i c, (9, DISK_RESP_BASE + Z.of_nat i, c)) chunks)).
Proof.
  destruct (disk_sends_sector sector_msg idle_proc) as (sector & h & chunks & b2 & b1 & b0 & d & Hl & Hj & E & _).
  - done.
  - unfold bytes_ok, is_byte. by_decide.
  - by intros h.
  - exists sector, h. split; [exact Hl|]. exact (ex_intro _ chunks (conj Hj E)).
Defined.

Definition key_msg : request := Request 0 0 (0x1E :: replicate 63 0) 1.

Lemma keyboard_never_ends_line_witness :
  ∃ s', keyboard_serve key_msg idle_proc = UOk tt s' ∧
    ∃ cs, outbox s' = ((λ c, (4, 0, [c])) <$> cs) ++ [] ∧ (length cs ≤ 1)%nat ∧ Forall (λ c, 32 ≤ c < 127) cs.
Proof.
  eexists. split; [vm_compute; reflexivity|]. apply (keyboard_never_ends_line key_msg idle_proc). vm_compute. reflexivity.
Defined.
