(* ===== verification/Console.v ===== *)
(** * Console: programs that talk to the serial port themselves

    [_sdk/examples/shell.c], the shell of the present kernel, and [user/init.c].
    Both use the kernel only through [int 0x80]: a system call has a number, four
    arguments and a result. *)

From S2P Require Import Prelude Sectors Fat Process.

(** A system call: its number, its arguments and its result. *)
Definition call : Type := Z * list Z * Z.

(** The calls so far, latest first, and the kernel: the result of a call after
    those. *)
Record kproc := KProc {
  kernel : list call → Z → list Z → Z;
  calls : list call;
}.

(** [S] of the shell and [_sys] of init. *)
Definition sys (n a1 a2 a3 a4 : Z) : U kproc Z := λ s,
  let args := [u64 a1; u64 a2; u64 a3; u64 a4] in
  let r := u64 (kernel s (calls s) n args) in
  UOk r (KProc (kernel s) ((n, args, r) :: calls s)).

Section Console.
(** The bound of the loops that poll the serial port. *)
Context (fuel : nat).

(** ** shell.c *)

Definition ib (p : Z) : U kproc Z := r ← sys 4 p 0 0 0; mret (u8 r).
Definition ob (p v : Z) : U kproc unit := sys 5 p (u8 v) 0 0 ;; mret tt.

(** [while (!(ib(0x3FD) & bit));] *)
Fixpoint poll (n : nat) (bit : Z) : U kproc unit :=
  match n with
  | O => ufuel
  | S n' => v ← ib 0x3FD; if Z.land v bit =? 0 then poll n' bit else mret tt
  end.

Definition pc (c : Z) : U kproc unit := poll fuel 0x20 ;; ob 0x3F8 c.

Fixpoint ps (s : list Z) : U kproc unit :=
  match s with
  | [] => mret tt
  | c :: s' => pc c ;; ps s'
  end.

(** The sixteen digits. *)
Definition ph (v : Z) : U kproc unit :=
  ps ((λ i, let d := Z.land (Z.shiftr v ((15 - i) * 4)) 0xF in if d <? 10 then 48 + d else 97 + d - 10) <$> seqZ 0 16).

(** The digits of [v], first one first, in front of [b]; the buffer has room for [n]. *)
Fixpoint digits (n : nat) (v : Z) (b : list Z) : option (list Z) :=
  if 0 <? v then
    match n with
    | O => None
    | S n' => digits n' (v / 10) (48 + v mod 10 :: b)
    end
  else Some b.

Definition pd (v : Z) : U kproc unit :=
  if v =? 0 then pc 48
  else match digits 20 v [] with Some b => ps b | None => utrap end.

Definition rc : U kproc Z := poll fuel 1 ;; ib 0x3F8.

Definition BUF : nat := 256.

Definition nl : list Z := [10].

(** The result of a test: its number of successes and failures. *)
Definition test_result (ok : bool) (name : list Z) (cnt : Z * Z) : U kproc (Z * Z) :=
  ps (bytes_of "  " ++ name ++ bytes_of (if ok then ": OK" else ": FAIL") ++ nl) ;;
  mret (if ok then (cnt.1 + 1, cnt.2) else (cnt.1, cnt.2 + 1)).

(** The addresses of the local arrays [msg] and [rbuf]. *)
Definition test_syscalls (msg rbuf : Z) : U kproc unit :=
  ps (nl ++ bytes_of "--- Syscall Tests ---" ++ nl) ;;
  pid ← sys 1 0 0 0 0;
  cnt ← (if 0 <? pid then ps (bytes_of "  getpid: ") ;; pd pid ;; ps (bytes_of " OK" ++ nl) ;; mret (1, 0)
         else ps (bytes_of "  getpid: FAIL" ++ nl) ;; mret (0, 1));
  ib 0x3FD ;;
  cnt ← test_result true (bytes_of "inb") cnt;
  ob 0x3F8 0 ;;
  cnt ← test_result true (bytes_of "outb") cnt;
  t0 ← sys 15 0 0 0 0;
  ps (bytes_of "  getticks: ") ;; pd t0 ;; ps (bytes_of " OK" ++ nl) ;;
  t1 ← sys 15 0 0 0 0;
  sys 14 20000000 0 0 0 ;;
  t2 ← sys 15 0 0 0 0;
  cnt ← test_result (t1 <=? t2) (bytes_of "nanosleep") (cnt.1 + 1, cnt.2);
  sys 16 84 0 0 0 ;;
  cnt ← test_result true (bytes_of "debug_putc") cnt;
  brk0 ← sys 19 0 0 0 0;
  sys 19 (brk0 + 4096) 0 0 0 ;;
  brk1 ← sys 19 0 0 0 0;
  cnt ← test_result (u64 (brk0 + 4096) <=? brk1) (bytes_of "brk") cnt;
  st ← sys 9 pid 0 0 0;
  cnt ← (if (i32 st =? 2) || (i32 st =? 1) then test_result true (bytes_of "getstate") cnt
         else ps (bytes_of "  getstate: FAIL (st=") ;; pd (u64 (i32 st)) ;; ps (bytes_of ")" ++ nl) ;; mret (cnt.1, cnt.2 + 1));
  kr ← sys 13 0xDEAD 0 0 0;
  cnt ← test_result (i32 kr =? -1) (bytes_of "kill(bad pid)") cnt;
  iq ← sys 10 0 0 0 0;
  sys 20 0 0 0 0 ;;
  cnt ← test_result (i32 iq =? 0) (bytes_of "irq_reg/ack") cnt;
  sys 25 0x1CE 4 0 0 ;;
  sys 24 0x1CE 0 0 0 ;;
  cnt ← test_result true (bytes_of "inw/outw") cnt;
  sys 27 0 0 0 0 ;;
  cnt ← test_result true (bytes_of "yield") cnt;
  sr ← sys 2 pid 42 msg 2;
  cnt ← (if i32 sr =? 0 then
           rr ← sys 3 rbuf 0 0 0;
           if i32 rr =? 0 then test_result true (bytes_of "send/recv") cnt
           else ps (bytes_of "  send/recv: recv FAIL" ++ nl) ;; mret (cnt.1, cnt.2 + 1)
         else ps (bytes_of "  send/recv: send FAIL" ++ nl) ;; mret (cnt.1, cnt.2 + 1));
  mp ← sys 11 0x700000 4096 2 0;
  cnt ← (if i32 mp =? 0 then sys 12 0x700000 4096 0 0 ;; test_result true (bytes_of "mmap/munmap") cnt
         else test_result false (bytes_of "mmap/munmap") cnt);
  ps (bytes_of "--- ") ;; pd cnt.1 ;; ps (bytes_of " OK ") ;; pd cnt.2 ;; ps (bytes_of " FAIL ---" ++ nl).

Definition help : U kproc unit :=
  ps (bytes_of "Commands:" ++ nl) ;;
  ps (bytes_of "  help     - this help" ++ nl) ;;
  ps (bytes_of "  echo <t> - echo text" ++ nl) ;;
  ps (bytes_of "  pid      - show PID" ++ nl) ;;
  ps (bytes_of "  ticks    - timer ticks" ++ nl) ;;
  ps (bytes_of "  test     - run syscall tests" ++ nl) ;;
  ps (bytes_of "  exit     - exit shell" ++ nl) ;;
  ps (bytes_of "  shutdown - power off" ++ nl).

(** On C strings. *)
Fixpoint streq (a b : list Z) : bool :=
  match a, b with
  | x :: a', y :: b' => if x =? y then streq a' b' else false
  | [], [] => true
  | _, _ => false
  end.

Fixpoint starts (pre str : list Z) : bool :=
  match pre, str with
  | [], _ => true
  | x :: pre', y :: str' => if x =? y then starts pre' str' else false
  | _, [] => false
  end.

(** The line editor: [line] holds the first [li] bytes of the buffer; at most [n]
    characters are read. *)
Fixpoint edit (n : nat) (line : list Z) : U kproc (list Z) :=
  match n with
  | O => ufuel
  | S n' =>
    c ← rc;
    if (c =? 13) || (c =? 10) then pc 10 ;; mret line
    else if (c =? 127) || (c =? 8) then
      (if (0 <? length line)%nat then pc 8 ;; pc 32 ;; pc 8 else mret tt) ;;
      edit n' (take (length line - 1) line)
    else if (length line <? BUF - 1)%nat then pc c ;; edit n' (line ++ [c])
    else edit n' line
  end.

(** What the shell does with a line; [exit] and [shutdown] have no [continue]. *)
Definition run_line (msg rbuf : Z) (str : list Z) : U kproc unit :=
  if (length str =? 0)%nat then mret tt
  else if streq str (bytes_of "help") then help
  else if streq str (bytes_of "pid") then ps (bytes_of "PID: ") ;; pid ← sys 1 0 0 0 0; pd pid ;; pc 10
  else if streq str (bytes_of "ticks") then ps (bytes_of "Ticks: ") ;; t ← sys 15 0 0 0 0; pd t ;; pc 10
  else if streq str (bytes_of "test") then test_syscalls msg rbuf
  else
    (if streq str (bytes_of "exit") then ps (bytes_of "bye" ++ nl) ;; sys 0 0 0 0 0 ;; mret tt else mret tt) ;;
    (if streq str (bytes_of "shutdown") then sys 17 0 0 0 0 ;; mret tt else mret tt) ;;
    if starts (bytes_of "echo ") str then ps (drop 5 str) ;; pc 10
    else ps (bytes_of "Unknown: ") ;; ps str ;; pc 10.

(** One turn of the loop of [_start]. *)
Definition shell_line (msg rbuf : Z) (n : nat) : U kproc unit :=
  ps (bytes_of "μkrn> ") ;;
  line ← edit n [];
  run_line msg rbuf (c_string line).

Fixpoint shell_lines (msg rbuf : Z) (n k : nat) : U kproc unit :=
  match k with
  | O => mret tt
  | S k' => shell_line msg rbuf n ;; shell_lines msg rbuf n k'
  end.

Definition shell_main (msg rbuf : Z) (n k : nat) : U kproc unit :=
  ps (bytes_of "[shell] μkrn shell" ++ nl) ;;
  shell_lines msg rbuf n k.

(** ** init.c *)

(** A [char] as a system call argument: sign-extended. *)
Definition char_arg (b : Z) : Z := if b <? 128 then b else b - 256.

Fixpoint init_wait (n : nat) : U kproc unit :=
  match n with
  | O => ufuel
  | S n' => v ← sys 4 0x3FD 0 0 0; if Z.land v 0x20 =? 0 then init_wait n' else mret tt
  end.

Definition init_putc (c : Z) : U kproc unit := init_wait fuel ;; sys 5 0x3F8 (char_arg c) 0 0 ;; mret tt.

Fixpoint init_puts (s : list Z) : U kproc unit :=
  match s with
  | [] => mret tt
  | c :: s' => init_putc c ;; init_puts s'
  end.

(** [spawn_entry_t]: the name and where the program starts and ends. *)
Record spawn_entry_t := SpawnEntry {
  se_name : list Z;
  se_addr : Z;
  se_end : Z;
}.

Fixpoint init_spawns (l : list spawn_entry_t) : U kproc unit :=
  match l with
  | [] => mret tt
  | e :: l' =>
    init_puts (bytes_of "[init] spawning ") ;;
    init_puts (se_name e) ;;
    init_puts nl ;;
    sys 26 (se_addr e) (se_end e - se_addr e) 0 0 ;;
    init_spawns l'
  end.

(** [_start] before its endless loop; [spawn_list] is empty in the repository. *)
Definition init_start (spawn_list : list spawn_entry_t) : U kproc unit :=
  init_puts (bytes_of "[init] μkrn ready" ++ nl) ;;
  init_spawns spawn_list.

End Console.

(** ** Lemmas *)

(** The buffer of [pd] is large enough for every number. *)
Lemma digits_fit n v b : 0 ≤ v < 10 ^ Z.of_nat n → ∃ ds, digits n v b = Some (ds ++ b) ∧
  foldl (λ acc d, 10 * acc + (d - 48)) 0 ds = v ∧ Forall (λ d, 48 ≤ d < 58) ds.
Proof.
  revert v b. induction n as [|n IH]; intros v b Hv.
  { assert (v = 0) as -> by (simpl in Hv; lia). by exists []. }
  cbn [digits]. destruct (Z.ltb_spec 0 v); [|assert (v = 0) as -> by lia; by exists []].
  rewrite Nat2Z.inj_succ, Z.pow_succ_r in Hv by lia.
  destruct (IH (v / 10) (48 + v mod 10 :: b)) as (ds & E & Hf & Hd).
  { split; [apply Z.div_pos; lia|apply Z.div_lt_upper_bound; lia]. }
  pose proof (Z.mod_pos_bound v 10 ltac:(lia)). exists (ds ++ [48 + v mod 10]). split_and!.
  - by rewrite E, <- app_assoc.
  - rewrite foldl_app, Hf. cbn [foldl]. pose proof (Z.div_mod v 10). lia.
  - apply Forall_app. split; [done|]. constructor; [lia|constructor].
Qed.

Lemma streq_eq a b : streq a b = true ↔ a = b.
Proof.
  revert b. induction a as [|x a IH]; intros [|y b]; simpl; try done. destruct (Z.eqb_spec x y) as [->|Hne].
  - rewrite IH. naive_solver.
  - naive_solver.
Qed.

(** The bytes sent to the serial port, latest first. *)
Definition printed (h : list call) : list Z :=
  omap (λ c, match c with (5, [0x3F8; b; _; _], _) => Some b | _ => None end) h.

(** The transmitter is always ready. *)
Definition tx_ready (s : kproc) : Prop := ∀ h, Z.land (u8 (u64 (kernel s h 4 [0x3FD; 0; 0; 0]))) 0x20 ≠ 0.

(** [m] returns and prints [bs]. *)
Definition prints {A} (m : U kproc A) (bs : list Z) : Prop :=
  ∀ s, tx_ready s → ∃ a s', m s = UOk a s' ∧ kernel s' = kernel s ∧ printed (calls s') = reverse bs ++ printed (calls s).

Lemma prints_bind {A B} (m : U kproc A) (f : A → U kproc B) b1 b2 :
  prints m b1 → (∀ a, prints (f a) b2) → prints (m ≫= f) (b1 ++ b2).
Proof.
  intros Hm Hf s Hr. destruct (Hm s Hr) as (a & s1 & E1 & K1 & P1).
  destruct (Hf a s1) as (b & s2 & E2 & K2 & P2); [unfold tx_ready; by rewrite K1|].
  exists b, s2. split_and!; [|congruence|by rewrite P2, P1, reverse_app, app_assoc]. ustep_by ltac:(apply E1). exact E2.
Qed.

Lemma prints_pc fuel c : (0 < fuel)%nat → is_byte c → prints (pc fuel c) [c].
Proof.
  intros Hf Hc s Hr. destruct fuel as [|n]; [lia|]. eexists _, _. split.
  - unfold pc. cbn [poll]. unfold ib, ob, mbind, U_bind, sys, mret, U_ret. cbv zeta. change (u64 0x3FD) with 0x3FD.
    change (u64 0) with 0. rewrite (proj2 (Z.eqb_neq _ 0)) by apply Hr. reflexivity.
  - split; [done|]. cbn [calls printed omap list_omap]. change (u64 0x3F8) with 0x3F8. unfold is_byte in Hc.
    rewrite (u8_small c), (u64_small c) by lia. done.
Qed.

Lemma prints_ps fuel bs : (0 < fuel)%nat → Forall is_byte bs → prints (ps fuel bs) bs.
Proof.
  intros Hf. induction 1 as [|b bs Hb _ IH]; [intros s _; by exists tt, s|].
  apply (prints_bind _ _ [b]); [by apply prints_pc|done].
Qed.

(** C30: [pd] of the shell prints the decimal digits of every 64-bit number, most
    significant first, and never writes past its buffer of twenty bytes. *)
Theorem pd_prints_decimal fuel v s :
  (0 < fuel)%nat → 0 ≤ v < 2 ^ 64 → tx_ready s →
  ∃ ds s', pd fuel v s = UOk tt s' ∧ printed (calls s') = reverse ds ++ printed (calls s) ∧
    foldl (λ acc d, 10 * acc + (d - 48)) 0 ds = v ∧ Forall (λ d, 48 ≤ d < 58) ds ∧ ds ≠ [].
Proof.
  intros Hf Hv Hr. unfold pd. destruct (Z.eqb_spec v 0) as [->|Hne].
  { destruct (prints_pc fuel 48 Hf ltac:(unfold is_byte; lia) s Hr) as ([] & s' & E & _ & P). exists [48], s'.
    split_and!; [done..| |done]. constructor; [lia|constructor]. }
  destruct (digits_fit 20 v []) as (ds & E & Hd & Hr'); [change (10 ^ Z.of_nat 20) with (10 ^ 20); lia|].
  rewrite app_nil_r in E. rewrite E.
  destruct (prints_ps fuel ds Hf) with (s := s) as ([] & s' & E' & _ & P); [|done|].
  { eapply Forall_impl; [exact Hr'|]. intros d Hd'. unfold is_byte. simpl in Hd'. lia. }
  exists ds, s'. split_and!; [done..|]. intros ->. simpl in Hd. lia.
Qed.

(** C31: Whatever characters arrive, the line editor never lets its index pass 255, so
    the terminating 0 is always inside the buffer of 256 bytes. *)
Theorem edit_stays_in_buffer fuel n line s line' s' :
  (length line < BUF)%nat → edit fuel n line s = UOk line' s' → (length line' < BUF)%nat.
Proof.
  revert line s. induction n as [|n IH]; intros line s Hl; [done|]. cbn [edit].
  intros (c & s1 & _ & E)%ubind_inv. destruct ((c =? 13) || (c =? 10)).
  { apply ubind_inv in E as (u & s2 & _ & [= <- _]). done. }
  destruct ((c =? 127) || (c =? 8)).
  { apply ubind_inv in E as (u & s2 & _ & E). eapply IH; [|exact E]. rewrite length_take. lia. }
  destruct (Nat.ltb_spec (length line) (BUF - 1)) as [Hlt|Hge]; [|by eapply IH].
  apply ubind_inv in E as (u & s2 & _ & E). eapply IH; [|exact E]. rewrite length_app. cbn [length]. unfold BUF in *. lia.
Qed.

(** A kernel that is always ready to print and delivers an [a], then line ends. *)
Definition demo_kproc : kproc := KProc (λ h n args, match args with
  | [p; _; _; _] => if p =? 0x3FD then 0x21 else if (length h <? 3)%nat then 97 else 13
  | _ => 0 end) [].

Lemma pd_prints_decimal_witness :
  ∃ ds s', pd 1 1050 demo_kproc = UOk tt s' ∧ printed (calls s') = reverse ds ++ [] ∧
    foldl (λ acc d, 10 * acc + (d - 48)) 0 ds = 1050 ∧ Forall (λ d, 48 ≤ d < 58) ds ∧ ds ≠ [].
Proof. apply (pd_prints_decimal 1 1050 demo_kproc); [lia|lia|by intros h]. Defined.

Lemma edit_stays_in_buffer_witness :
  ∃ line s', edit 1 3 [] demo_kproc = UOk line s' ∧ line = [97] ∧ (length line < BUF)%nat.
Proof.
  eexists _, _. split; [vm_compute; reflexivity|]. split; [reflexivity|].
  eapply (edit_stays_in_buffer 1 3 [] demo_kproc); [vm_compute; lia|vm_compute; reflexivity].
Defined.
